(* ===== verification/_CoqProject ===== *)
-Q . S2P
Prelude.v
Bytes.v
Layout.v
Ports.v
Gdt.v
Interrupts.v
Console.v
Allocator.v
Heap.v
Tty.v
Pci.v
Shell.v
Frames.v
Paging.v
BlockDevice.v
Disk.v
Paths.v
Fs.v
Objects.v
Linked.v
Mmap.v
Kernel.v
Space.v
Files.v
Fault.v
UserMem.v
Elf.v
Load.v
Sched.v
Switch.v
Process.v
Release.v
Create.v
Machine.v
Syscall.v
Calls.v
Beside.v
Exec.v
Boot.v
Start.v
Asm.v
Stubs.v
