(* ===== verification/Prelude.v ===== *)
(** * potato-OS: a verification library

    potato-OS (src/) is a small 32-bit x86 kernel in C with a handful of assembly
    stubs: paging, frames, a heap, tasks and a scheduler, a read-only Minix file
    system on an ATA disk, demand-paged programs, four system calls, a keyboard, a
    text screen and a shell.  This library models the kernel and its programs and
    proves what the parts do, alone and together.

    ** How the code is modelled

    A C function is a command of the monad [M S] below: it maps a state to [Ret]
    with a result and a new state, or to [Fault] with the reason it cannot go on
    (an access outside an array or to no object, a page fault, the panic loop, a
    sleep that nothing ends).  Integers are in [Z] with the wrap-around of their
    width ([u8], [u16], [u32], [i32], and [+ᵤ], [-ᵤ], [*ᵤ] on 32 bits).  Structures
    reached through pointers are objects of a store, by address (Objects.v); the
    addresses that the linker chooses are the class [Layout].  A component's command
    runs in a larger state through the class [Has] ([lift]).  Loops are [for_range]
    and its relatives, or functions with fuel where the C loop has no counter.

    What is not in src/ is a parameter: the devices behind the ports ([Bus], with
    the documented behaviour of the interrupt controllers [PicBus], the
    configuration space [PciSpace], the timer [Clock] and the IDE controller
    [Dma], [IdeController]), a disk ([BlockDevice], which the driver of Disk.v is
    shown to be an instance of), the heap as its clients see it ([Allocator], which
    Heap.v implements).  Concrete devices instantiate them for the examples.

    ** The files, from the bottom up

    - This file: words, the monad and its rules, loops, lists of flags.
      Bytes.v: memcpy and memset of include/string.h.  Layout.v: the link-time
      addresses.  Ports.v: include/kernel/io.h.
    - Gdt.v (kernel/gdt.c, tss.c): descriptors and the task state segment.
      Interrupts.v (interrupts.c, exceptions.c): the gates, the two 8259A, the
      tables of handlers.
    - Console.v (console.c): the screen against a model of a terminal.
    - Allocator.v, Heap.v (heap.c): the promise of the heap and its first-fit
      implementation.
    - Tty.v (tty.c, keyboard.c): the ring between the keyboard interrupt and its
      reader, under every interleaving.  Pci.v (pci.c): the scan of the bus.
      Shell.v (programs/, lib/): the programs against a trace of system calls.
    - Frames.v (memory.c), Paging.v (paging.c, the tables of boot/boot.asm): the
      bitmap of frames, page tables, the pools, cr3 and the translation cache.
    - BlockDevice.v, Disk.v (disk.c): the driver with its polling loops.
    - Paths.v, Fs.v, Files.v (fs.c): names, inodes and zones, open files.
    - Objects.v, Linked.v: the store, doubly linked lists in it.  Mmap.v (mmap.c):
      the areas of an address space.  Kernel.v: the state of the kernel.  Space.v:
      what page tables and frames promise together ([mem_ok]).
    - Fault.v (fault.c, [padzero] of mmap.c): the page fault handler.  UserMem.v:
      the memory a program sees.  Elf.v, Load.v (elf.c): the loader, and the image
      that it makes.
    - Sched.v, Switch.v (sched.c): the ring of tasks, [schedule].  Process.v,
      Release.v, Create.v (process.c, [exit_task]): the life of an address space.
    - Machine.v (timer.c and the dispatchers of interrupts.c, exceptions.c): the
      whole machine.  Syscall.v, Calls.v (syscall.c): the system calls.  Beside.v:
      what code that works beside an address space leaves as it is, a frame rule.
      Exec.v: execve, from the path to the first instruction of the next program.
    - Boot.v, Start.v (main.c and every init function): the start.
    - Asm.v, Stubs.v: the processor's side of the assembly, and the assembly of
      interrupts.h, exceptions.h, syscall.c and sched.c.

    ** What the theorems show

    - Memory: kmalloc and kfree keep the heap tiled and hand out disjoint payloads;
      frames are taken once; map_page and unmap_page change one translation; no
      stale translation is ever cached; [mem_ok] (every user page is a frame of its
      own) is kept by faults, creation and release of address spaces.
    - User memory: filled on demand it is the memory filled from the start
      ([demand_paging]); stores of the kernel change just the bytes stored
      ([user_store_correct]); the loader leaves the image that the program headers
      describe ([elf32_load_exec_correct]); write and read show and store exactly
      the program's bytes ([write_call_correct], [read_call_correct]); execve
      replaces a program, image and memory, or leaves it as it was
      ([sys_execve_correct]).
    - Tasks: schedule turns the ring and is fair; switch_to resumes a task exactly
      where it stopped; a new task enters its program in user mode; create_task
      and release_mm own what they say and give it back, page tables included.
    - The processor: after the start every gate, handler, line and descriptor is as
      it should be ([start_correct]); the stubs are transparent to what they
      interrupt; the stub of the system calls hands the program's registers to the
      dispatcher and resumes it with the registers that the dispatcher leaves.
    - Devices and files: the driver returns whatever the controller answers, and is
      a disk for a controller that follows its documentation; the file system
      reads the bytes of the image; the scan of the bus finds what is there.
    - Errors are results, and stated: the theorems list when 0 or -1 is returned,
      and where the code leaves its memory (the findings of the manifest).

    ** Bounds and fuel

    Lists through the store get [list_fuel], one more than the number of objects;
    the heap's lists [heap_fuel], one more than the number of headers; a read of a
    file [read_fuel], one more than its blocks; a directory the number of its
    entries; a sleep one more than the batches of keys to come; a poll of the disk
    [poll_fuel], more than the timer's period allows.  The functional theorems show
    that [NoFuel] does not occur.  [string_fuel] alone is a bound of the model: a
    path name of a program has at most 64 KiB.

    ** Not modelled

    boot/boot.asm up to the call of main, the linker script and GRUB's
    configuration (the tables that boot.asm builds are [boot_words]); payload bytes
    of the heap other than the objects; kernel memory reached through a pointer
    that a program passes, which the code does not check: it is a [WildAccess] of
    the model, where the code reads or writes (with it a program can overwrite its
    own saved registers and gain the privilege of the kernel).  Interrupts between two statements
    of C code are modelled where the code is written for them (the ring of tty.c,
    the timer's calls of schedule, the sleeps).  Elsewhere a handler runs as one
    step: the gates of the exceptions and of the interrupt lines clear the interrupt
    flag; that of the system calls (type 0xef, a trap gate) does not, so that here
    one step is a choice of the model, which leaves out a timer tick in the middle
    of, say, sys_write.

    ** Left for later

    The composition of main with the first program; the frames and page tables that
    execve gives back, as a statement about the whole call ([release_mm_correct] has
    them for the release). *)

From Stdlib Require Export ZArith Lia Bool.
From stdpp Require Export base tactics numbers list gmap strings.

#[export] Set Default Goal Selector "!".
#[global] Open Scope Z_scope.

(** ** Machine integers

    An unsigned integer of the C code is a [Z] kept in range by an explicit
    wrap-around; an [int32_t] or [ssize_t] is the two's complement reading of
    the same 32 bits. *)

Definition u8 (x : Z) : Z := x mod 0x100.
Definition u16 (x : Z) : Z := x mod 0x10000.
Definition u32 (x : Z) : Z := x mod 0x100000000.
Definition i32 (x : Z) : Z := (x + 0x80000000) mod 0x100000000 - 0x80000000.

Declare Scope word_scope.
Delimit Scope word_scope with word.
Notation "x +ᵤ y" := (u32 (x + y)) (at level 50, left associativity) : word_scope.
Notation "x -ᵤ y" := (u32 (x - y)) (at level 50, left associativity) : word_scope.
Notation "x *ᵤ y" := (u32 (x * y)) (at level 40, left associativity) : word_scope.
#[global] Open Scope word_scope.

Create HintDb word.
Create Rewrite HintDb word_ids.
Create Rewrite HintDb monad.

Lemma u8_range x : 0 ≤ u8 x < 0x100.
Proof. apply Z.mod_pos_bound; lia. Qed.
Lemma u16_range x : 0 ≤ u16 x < 0x10000.
Proof. apply Z.mod_pos_bound; lia. Qed.
Lemma u32_range x : 0 ≤ u32 x < 0x100000000.
Proof. apply Z.mod_pos_bound; lia. Qed.
#[export] Hint Resolve u8_range u16_range u32_range : word.

Lemma u8_id x : 0 ≤ x < 0x100 → u8 x = x.
Proof. apply Z.mod_small. Qed.
Lemma u16_id x : 0 ≤ x < 0x10000 → u16 x = x.
Proof. apply Z.mod_small. Qed.
Lemma u32_id x : 0 ≤ x < 0x100000000 → u32 x = x.
Proof. apply Z.mod_small. Qed.
#[export] Hint Rewrite u8_id u16_id u32_id using lia : word_ids.

Lemma u32_u32 x : u32 (u32 x) = u32 x.
Proof. apply u32_id, u32_range. Qed.
Lemma u32_add_l x y : u32 x +ᵤ y = x +ᵤ y.
Proof. apply Z.add_mod_idemp_l. lia. Qed.
Lemma u32_add_r x y : x +ᵤ u32 y = x +ᵤ y.
Proof. apply Z.add_mod_idemp_r. lia. Qed.
Lemma i32_id x : -0x80000000 ≤ x < 0x80000000 → i32 x = x.
Proof. intros. unfold i32. rewrite Z.mod_small; lia. Qed.

(** Removes every wrap-around whose argument [lia] can bound. *)
Ltac unwrap := autorewrite with word_ids in *.

(** ** Computations of the kernel

    A C function is a state transformer that either returns or stops in a
    [fault]: an access that C leaves undefined, or a loop that the kernel
    never leaves ([page_fault_panic], [spin_forever]).  [NoFuel] is the
    model's own: a theorem about each loop shows that it does not occur. *)

Inductive fault :=
  | OutOfBounds      (* an array access outside the array *)
  | WildAccess       (* an access through a pointer to no live object *)
  | PageFault        (* an access to a page that is not mapped *)
  | ProtectionFault  (* a descriptor that the processor refuses *)
  | PageFaultPanic   (* page_fault_panic () *)
  | SpinForever      (* spin_forever () *)
  | Asleep           (* a [hlt] that no interrupt ever ends *)
  | NoFuel.

#[export] Instance fault_eq_dec : EqDecision fault.
Proof. solve_decision. Defined.

Inductive res (S A : Type) : Type :=
  | Ret (a : A) (s : S)
  | Fault (f : fault) (s : S).
Arguments Ret {S A} a s.
Arguments Fault {S A} f s.

Definition M (S A : Type) : Type := S → res S A.

#[export] Instance M_ret S : MRet (M S) := λ A a s, Ret a s.
#[export] Instance M_bind S : MBind (M S) := λ A B k m s,
  match m s with
  | Ret a s' => k a s'
  | Fault f s' => Fault f s'
  end.

Definition fail {S A} (f : fault) : M S A := λ s, Fault f s.
Definition gets {S A} (f : S → A) : M S A := λ s, Ret (f s) s.
Definition modify {S} (f : S → S) : M S unit := λ s, Ret tt (f s).

(** An array cell; the index is out of bounds when the array has no such cell. *)
Definition from_option_or {S A} (f : fault) (o : option A) : M S A :=
  match o with
  | Some a => mret a
  | None => fail f
  end.

(** A closed decidable fact, by evaluation. *)
Ltac decided := apply (bool_decide_unpack _); vm_compute; exact I.

(** *** Reasoning about runs *)

Section monad_lemmas.
Context {S A B : Type}.
Implicit Types (m : M S A) (k : A → M S B) (s : S).

Lemma bind_ret (m : M S A) (k : A → M S B) s a s' :
  m s = Ret a s' → (m ≫= k) s = k a s'.
Proof. intros H. unfold mbind, M_bind. by rewrite H. Qed.

Lemma bind_fault (m : M S A) (k : A → M S B) s f s' :
  m s = Fault f s' → (m ≫= k) s = Fault f s'.
Proof. intros H. unfold mbind, M_bind. by rewrite H. Qed.

Lemma bind_Ret_inv (m : M S A) (k : A → M S B) s b s'' :
  (m ≫= k) s = Ret b s'' → ∃ a s', m s = Ret a s' ∧ k a s' = Ret b s''.
Proof. unfold mbind, M_bind. destruct (m s); naive_solver. Qed.

Lemma gets_bind (f : S → A) (k : A → M S B) s : (gets f ≫= k) s = k (f s) s.
Proof. done. Qed.

Lemma mret_bind (a : A) (k : A → M S B) s : (mret a ≫= k) s = k a s.
Proof. done. Qed.

Lemma modify_bind (f : S → S) (k : () → M S B) s : (modify f ≫= k) s = k tt (f s).
Proof. done. Qed.

Lemma bind_bind {C} (m : M S A) (k : A → M S B) (k' : B → M S C) s :
  ((m ≫= k) ≫= k') s = (m ≫= λ a, k a ≫= k') s.
Proof. unfold mbind, M_bind. by destruct (m s). Qed.
End monad_lemmas.

#[export] Hint Rewrite @gets_bind @mret_bind @modify_bind : monad.

(** [wp m s Q E]: run from [s], the command [m] either returns a result and a
    state of [Q], or stops with a fault and a state of [E]; it does one of the two,
    so [wp] with an [E] that is never true is total correctness. *)
Definition wp {S A} (m : M S A) (s : S) (Q : A → S → Prop) (E : fault → S → Prop) : Prop :=
  match m s with
  | Ret a s' => Q a s'
  | Fault f s' => E f s'
  end.

Definition never {S} (f : fault) (s : S) : Prop := False.

Section wp.
Context {S A B : Type}.
Implicit Types (m : M S A) (k : A → M S B) (s : S) (E : fault → S → Prop).

Lemma wp_run m s a s' Q E : m s = Ret a s' → Q a s' → wp m s Q E.
Proof. unfold wp. by intros ->. Qed.

Lemma wp_fault m s f s' Q E : m s = Fault f s' → E f s' → wp m s Q E.
Proof. unfold wp. by intros ->. Qed.

Lemma wp_bind m k s Q E : wp m s (λ a s', wp (k a) s' Q E) E → wp (m ≫= k) s Q E.
Proof. unfold wp, mbind, M_bind. by destruct (m s). Qed.

Lemma wp_mono m s Q Q' E E' :
  wp m s Q E → (∀ a s', Q a s' → Q' a s') → (∀ f s', E f s' → E' f s') → wp m s Q' E'.
Proof. unfold wp. destruct (m s); auto. Qed.

Lemma wp_bind_run m k s Q Q' E :
  wp m s Q' E → (∀ a s', Q' a s' → wp (k a) s' Q E) → wp (m ≫= k) s Q E.
Proof. intros Hm Hk. apply wp_bind. by eapply wp_mono. Qed.

Lemma wp_never m s Q : wp m s Q never → ∃ a s', m s = Ret a s' ∧ Q a s'.
Proof. unfold wp, never. destruct (m s); [eauto | done]. Qed.

Lemma wp_conj m s Q Q' E : wp m s Q E → wp m s Q' E → wp m s (λ a s', Q a s' ∧ Q' a s') E.
Proof. unfold wp. by destruct (m s). Qed.
End wp.

(** Runs the first command of a sequence with the equation [H]. *)
Ltac step H := rewrite (bind_ret _ _ _ _ _ H); cbn beta.
Ltac run := unfold mbind, mret, M_bind, M_ret, gets, modify, fail, from_option_or in *; simpl in *.

(** ** Parts of a state

    [Has T S]: the state [S] keeps a component [T].  A command of the
    component runs in the whole state through [lift]. *)

Class Has (T S : Type) := {
  part : S → T;
  set_part : T → S → S;
  part_set t s : part (set_part t s) = t;
  set_part_id s : set_part (part s) s = s;
  set_part_twice t t' s : set_part t (set_part t' s) = set_part t s;
}.
#[global] Hint Mode Has + + : typeclass_instances.

#[export, refine] Instance Has_refl T : Has T T := {| part := λ t, t; set_part := λ t _, t |}.
Proof. all: done. Defined.

Definition lift {T S A} `{!Has T S} (m : M T A) : M S A := λ s,
  match m (part s) with
  | Ret a t => Ret a (set_part t s)
  | Fault f t => Fault f (set_part t s)
  end.

Lemma lift_ret {T S A} `{!Has T S} (m : M T A) (s : S) a t :
  m (part s) = Ret a t → lift m s = Ret a (set_part t s).
Proof. unfold lift. by intros ->. Qed.

Lemma wp_lift {T S A} `{!Has T S} (m : M T A) (s : S) Q E :
  wp m (part s) (λ a t, Q a (set_part t s)) (λ f t, E f (set_part t s)) → wp (lift m) s Q E.
Proof. unfold wp, lift. by destruct (m (part s)). Qed.

(** ** Lists *)

Fixpoint zsum (l : list Z) : Z :=
  match l with
  | [] => 0
  | x :: l => x + zsum l
  end.

Lemma zsum_app l1 l2 : zsum (l1 ++ l2) = zsum l1 + zsum l2.
Proof. induction l1; simpl; lia. Qed.

(** ** Masks *)

Lemma land_ldiff_ones x k m :
  0 ≤ x < 0x100000000 → 0 ≤ k → m = Z.ldiff (Z.ones 32) (Z.ones k) →
  Z.land x m = x - x mod 2 ^ k.
Proof.
  intros Hx Hk ->.
  assert (Z.land x (Z.ldiff (Z.ones 32) (Z.ones k)) = Z.ldiff x (Z.ones k)) as ->.
  { rewrite <-(Z.mod_small x (2 ^ 32)) at 2 by lia. rewrite <-Z.land_ones by lia.
    apply Z.bits_inj'. intros i _. rewrite !Z.land_spec, !Z.ldiff_spec, Z.land_spec.
    by destruct (Z.testbit x i), (Z.testbit (Z.ones 32) i), (Z.testbit (Z.ones k) i). }
  rewrite Z.ldiff_ones_r, Z.shiftl_mul_pow2, Z.shiftr_div_pow2 by lia.
  pose proof (Z.div_mod x (2 ^ k)). lia.
Qed.

Lemma land_low x k m : 0 ≤ k → m = Z.ones k → Z.land x m = x mod 2 ^ k.
Proof. intros ? ->. by apply Z.land_ones. Qed.

(** A page-aligned address and the twelve low bits beside it. *)
Lemma land_page_low a m : a mod 4096 = 0 → 0 ≤ m < 4096 → Z.land a m = 0.
Proof.
  intros Ha Hm. rewrite <-(Z.mod_small m (2 ^ 12)), <-Z.land_ones, (Z.land_comm m) by lia.
  rewrite Z.land_assoc, Z.land_ones by lia. change (2 ^ 12) with 4096. by rewrite Ha, Z.land_0_l.
Qed.

Lemma land_page_mask x : 0 ≤ x < 0x100000000 → Z.land x 0xfffff000 = x - x mod 4096.
Proof. intros Hx. by apply (land_ldiff_ones x 12). Qed.

Lemma lor_page_land a fl m :
  a mod 4096 = 0 → 0 ≤ m < 4096 → Z.land (Z.lor a fl) m = Z.land fl m.
Proof. intros Ha Hm. by rewrite Z.land_lor_distr_l, land_page_low by done. Qed.

Lemma lor_page_mask a fl :
  0 ≤ a < 0x100000000 → a mod 4096 = 0 → 0 ≤ fl < 4096 → Z.land (Z.lor a fl) 0xfffff000 = a.
Proof.
  intros Ha Hm Hfl. rewrite Z.land_lor_distr_l, !land_page_mask, (Z.mod_small fl) by lia.
  replace (fl - fl) with 0 by lia. rewrite Z.lor_0_r. lia.
Qed.

Lemma lor_page_range a fl :
  0 ≤ a < 0x100000000 → a mod 4096 = 0 → 0 ≤ fl < 4096 → 0 ≤ Z.lor a fl < 0x100000000.
Proof.
  intros Ha Hm Hfl. pose proof (Z.add_lor_land a fl) as H.
  rewrite (land_page_low a fl) in H by done. Z.div_mod_to_equations. lia.
Qed.

(** ** Loops

    [for_range a b body] is [for (i = a; i < b; i++) body(i)]. *)

Fixpoint for_steps {S} (n : nat) (i : Z) (body : Z → M S unit) : M S unit :=
  match n with
  | O => mret tt
  | S n => body i;; for_steps n (i + 1) body
  end.

Definition for_range {S} (a b : Z) (body : Z → M S unit) : M S unit :=
  for_steps (Z.to_nat (b - a)) a body.

(** A loop whose body keeps [I] (and never faults) ends, with [I] at the bound. *)
Lemma for_range_inv {S} (I : Z → S → Prop) (a b : Z) (body : Z → M S unit) (s : S) :
  a ≤ b → I a s →
  (∀ i s, a ≤ i < b → I i s → ∃ s', body i s = Ret tt s' ∧ I (i + 1) s') →
  ∃ s', for_range a b body s = Ret tt s' ∧ I b s'.
Proof.
  intros Hab HI Hbody. unfold for_range.
  remember (Z.to_nat (b - a)) as n eqn:Hn. revert a s Hab HI Hbody Hn.
  induction n as [|n IH]; intros a s Hab HI Hbody Hn; simpl.
  - exists s. assert (a = b) as <- by lia. done.
  - destruct (Hbody a s) as (s' & Hs & HI'); [lia | done |].
    rewrite (bind_ret _ _ _ _ _ Hs). apply IH; [lia | done | | lia].
    intros i s0 ?. apply Hbody. lia.
Qed.

Lemma wp_for_range {S} (I : Z → S → Prop) (a b : Z) (body : Z → M S unit) (s : S) E :
  a ≤ b → I a s → (∀ i s, a ≤ i < b → I i s → wp (body i) s (λ _, I (i + 1)) E) →
  wp (for_range a b body) s (λ _, I b) E.
Proof.
  intros Hab HI Hbody. unfold for_range.
  remember (Z.to_nat (b - a)) as n eqn:Hn. revert a s Hab HI Hbody Hn.
  induction n as [|n IH]; intros a s Hab HI Hbody Hn; simpl.
  - by assert (a = b) as <- by lia.
  - eapply wp_bind_run; [apply Hbody; [lia | done]|]. intros [] s' HI'. cbv beta in HI'.
    apply IH; [lia | done | | lia]. intros i s0 ?. apply Hbody. lia.
Qed.

(** The loop over a list of items. *)
Fixpoint for_list {S A} (l : list A) (body : A → M S unit) : M S unit :=
  match l with
  | [] => mret tt
  | x :: l => body x;; for_list l body
  end.

Lemma for_list_ext {S A} (l : list A) (f g : A → M S unit) s :
  (∀ x s, f x s = g x s) → for_list l f s = for_list l g s.
Proof.
  intros E. revert s. induction l as [|x l IH]; intros s; [done|]. cbn [for_list].
  unfold mbind, M_bind. rewrite E. by destruct (g x s).
Qed.

Lemma for_list_app {S A} (l1 l2 : list A) (f : A → M S unit) s :
  for_list (l1 ++ l2) f s = (for_list l1 f;; for_list l2 f) s.
Proof.
  revert s. induction l1 as [|x l1 IH]; intros s; [done|]. cbn [for_list app]. rewrite bind_bind.
  unfold mbind, M_bind in *. destruct (f x s); [apply IH | done].
Qed.

Lemma for_list_bind {S A B} (l : list A) (g : A → list B) (f : B → M S unit) s :
  for_list (l ≫= g) f s = for_list l (λ x, for_list (g x) f) s.
Proof.
  revert s. induction l as [|x l IH]; intros s; [done|]. cbn [for_list mbind list_bind]. rewrite for_list_app.
  unfold mbind, M_bind. destruct (for_list (g x) f s); [apply IH | done].
Qed.

Lemma for_list_fmap {S A B} (l : list A) (g : A → B) (f : B → M S unit) s :
  for_list (g <$> l) f s = for_list l (λ x, f (g x)) s.
Proof.
  revert s. induction l as [|x l IH]; intros s; [done|]. cbn [for_list fmap list_fmap].
  unfold mbind, M_bind. destruct (f (g x) s); [apply IH | done].
Qed.

Lemma for_range_list {S} (a n : Z) (f : Z → M S unit) s : for_range a (a + n) f s = for_list (seqZ a n) f s.
Proof.
  unfold for_range. replace (a + n - a) with n by lia. destruct (Z.le_gt_cases n 0).
  { replace (Z.to_nat n) with O by lia. by rewrite seqZ_nil by lia. }
  rewrite <-(Z2Nat.id n) at 2 by lia. generalize (Z.to_nat n). clear. intros n. revert a s.
  induction n as [|n IH]; intros a s; [done|]. cbn [for_steps]. rewrite seqZ_cons by lia. cbn [for_list].
  replace (Z.pred (Z.of_nat (Datatypes.S n))) with (Z.of_nat n) by lia.
  unfold mbind, M_bind. destruct (f a s); [apply IH | done].
Qed.

(** [for_return a b body] is [for (i = a; i < b; i++) { ... return r; ... }]: a
    body that gives [Some r] leaves the loop with [r]. *)

Fixpoint for_return_steps {S A} (n : nat) (i : Z) (body : Z → M S (option A)) : M S (option A) :=
  match n with
  | O => mret None
  | S n =>
      r ← body i;
      match r with
      | Some a => mret (Some a)
      | None => for_return_steps n (i + 1) body
      end
  end.

Definition for_return {S A} (a b : Z) (body : Z → M S (option A)) : M S (option A) :=
  for_return_steps (Z.to_nat (b - a)) a body.

Lemma for_return_miss {S A} (a b : Z) (body : Z → M S (option A)) (s : S) :
  (∀ i, a ≤ i < b → body i s = Ret None s) → for_return a b body s = Ret None s.
Proof.
  unfold for_return. remember (Z.to_nat (b - a)) as n eqn:Hn. revert a Hn.
  induction n as [|n IH]; intros a Hn Hbody; simpl; [done|].
  rewrite (bind_ret _ _ _ _ _ (Hbody a ltac:(lia))). apply IH; [lia|].
  intros i ?. apply Hbody. lia.
Qed.

Lemma for_return_hit {S A} (a b j : Z) (body : Z → M S (option A)) (s s' : S) r :
  a ≤ j < b → (∀ i, a ≤ i < j → body i s = Ret None s) → body j s = Ret (Some r) s' →
  for_return a b body s = Ret (Some r) s'.
Proof.
  unfold for_return. remember (Z.to_nat (b - a)) as n eqn:Hn. revert a Hn.
  induction n as [|n IH]; intros a Hn Hj Hbody Hhit; [lia|]. simpl.
  destruct (decide (a = j)) as [->|].
  - by rewrite (bind_ret _ _ _ _ _ Hhit).
  - rewrite (bind_ret _ _ _ _ _ (Hbody a ltac:(lia))). apply IH; [lia..| |done].
    intros i ?. apply Hbody. lia.
Qed.

(** ** Pairs of components *)

#[export, refine] Instance Has_fst A B : Has A (A * B) :=
  {| part := fst; set_part a s := (a, s.2) |}.
Proof. - done. - by intros []. - done. Defined.

#[export, refine] Instance Has_snd A B : Has B (A * B) :=
  {| part := snd; set_part b s := (s.1, b) |}.
Proof. - done. - by intros []. - done. Defined.

(** ** Bytes and C strings

    A [char] is its byte, a C string the list of its bytes before the NUL. *)

Definition bytes_of (s : string) : list Z :=
  (λ a, Z.of_N (Ascii.N_of_ascii a)) <$> String.list_ascii_of_string s.

Definition is_byte (b : Z) : Prop := 0 ≤ b < 256.
#[export] Instance is_byte_dec b : Decision (is_byte b).
Proof. unfold is_byte. apply _. Defined.

(** Array cells, with the bound that C leaves to the programmer. *)
Definition nth_or {S A} (l : list A) (i : Z) : M S A :=
  if i <? 0 then fail OutOfBounds else from_option_or OutOfBounds (l !! Z.to_nat i).

Definition in_array {A} (l : list A) (i : Z) : bool := (0 <=? i) && (i <? Z.of_nat (length l)).

Definition put_nth {A} (i : Z) (a : A) : M (list A) unit := λ l,
  if in_array l i then Ret tt (<[Z.to_nat i := a]> l) else Fault OutOfBounds l.

Lemma nth_or_ret {S A} (l : list A) i a (s : S) :
  0 ≤ i → l !! Z.to_nat i = Some a → nth_or l i s = Ret a s.
Proof. intros Hi Ha. unfold nth_or. by rewrite (proj2 (Z.ltb_ge _ _)), Ha by lia. Qed.

Lemma put_nth_ret {A} i (a : A) (l : list A) :
  0 ≤ i < Z.of_nat (length l) → put_nth i a l = Ret tt (<[Z.to_nat i := a]> l).
Proof.
  intros Hi. unfold put_nth, in_array.
  by rewrite (proj2 (Z.leb_le _ _)), (proj2 (Z.ltb_lt _ _)) by lia.
Qed.

Lemma put_nth_out {A} i (a : A) (l : list A) :
  Z.of_nat (length l) ≤ i → put_nth i a l = Fault OutOfBounds l.
Proof.
  intros Hi. unfold put_nth, in_array.
  by rewrite (proj2 (Z.ltb_ge _ _)), andb_false_r by lia.
Qed.

(** The first [false] of a list of flags: what the scans of the allocators find. *)
Definition first_clear (l : list bool) : option nat :=
  fst <$> list_find (λ b, b = false) l.

Lemma first_clear_Some l i :
  first_clear l = Some i → l !! i = Some false ∧ ∀ j, (j < i)%nat → l !! j = Some true.
Proof.
  unfold first_clear. intros ([i' b] & Hf & ->)%fmap_Some.
  apply list_find_Some in Hf as (Hi & -> & Hlt). split; [done|].
  simpl. intros j Hj. destruct (lookup_lt_is_Some_2 l j) as [[] Hb]; [|done|].
  - apply lookup_lt_Some in Hi. lia.
  - by destruct (Hlt j false Hb Hj).
Qed.

Lemma first_clear_None l j b : first_clear l = None → l !! j = Some b → b = true.
Proof.
  unfold first_clear. intros Hf%fmap_None Hj. apply list_find_None in Hf.
  rewrite Forall_lookup in Hf. specialize (Hf j b Hj). by destruct b.
Qed.

(** How many flags are clear. *)
Definition free_count (l : list bool) : nat := length (filter (λ b, b = false) l).

Lemma free_count_cons b l : free_count (b :: l) = ((if b then 0 else 1) + free_count l)%nat.
Proof. unfold free_count. rewrite filter_cons. by destruct b. Qed.

Lemma free_count_take l i : l !! i = Some false → free_count l = S (free_count (<[i := true]> l)).
Proof.
  revert i. induction l as [|b l IH]; intros [|i] Hi; try done.
  - injection Hi as ->. change (<[O := true]> (false :: l)) with (true :: l). by rewrite !free_count_cons.
  - change (<[S i := true]> (b :: l)) with (b :: <[i := true]> l). rewrite !free_count_cons, (IH i Hi). lia.
Qed.

Lemma free_count_none l : (∀ i b, l !! i = Some b → b = true) → free_count l = O.
Proof.
  induction l as [|b l IH]; intros Hall; [done|]. rewrite free_count_cons, (Hall O b eq_refl), IH; [done|].
  intros i b' Hb. by apply (Hall (S i)).
Qed.

(** The scan [for (i = 0; i < n; i++) if (!used[i]) { used[i] = 1; return f(i); }]
    of a pool with [n] flags. *)
Definition take_first_clear {A} (n : Z) (f : Z → A) : M (list bool) (option A) :=
  for_return 0 n (λ i,
    flags ← gets (λ l, l);
    in_use ← nth_or flags i;
    if (in_use : bool) then mret None else put_nth i true;; mret (Some (f i))).

Lemma take_first_clear_run {A} n (f : Z → A) l :
  Z.of_nat (length l) = n →
  take_first_clear n f l =
    match first_clear l with
    | Some i => Ret (Some (f (Z.of_nat i))) (<[i := true]> l)
    | None => Ret None l
    end.
Proof.
  intros Hn. unfold take_first_clear. destruct (first_clear l) as [j|] eqn:E.
  - apply first_clear_Some in E as [Hj Hlt]. pose proof (lookup_lt_Some _ _ _ Hj).
    eapply (for_return_hit _ _ (Z.of_nat j)); [lia | |].
    + intros i Hi. cbv beta. rewrite gets_bind.
      erewrite bind_ret; [|apply nth_or_ret; [lia | apply Hlt; lia]]. done.
    + cbv beta. rewrite gets_bind. erewrite bind_ret; [|apply nth_or_ret; [lia | by rewrite Nat2Z.id]].
      cbv iota. erewrite bind_ret; [|apply put_nth_ret; lia]. by rewrite Nat2Z.id.
  - apply for_return_miss. intros i Hi. cbv beta. rewrite gets_bind.
    destruct (lookup_lt_is_Some_2 l (Z.to_nat i)) as [b Hb]; [lia|].
    erewrite bind_ret; [|apply nth_or_ret; [lia | done]].
    by rewrite (first_clear_None _ _ _ E Hb).
Qed.

(** A boolean property of a byte is checked on its 256 values. *)
Lemma byte_check (P : Z → bool) b : forallb P (seqZ 0 256) = true → is_byte b → P b = true.
Proof.
  rewrite forallb_forall. intros HP Hb. apply HP, list_elem_of_In, elem_of_seqZ.
  unfold is_byte in Hb. lia.
Qed.
