(* ===== verification/Bytes.v ===== *)
(** * The byte loops of src/include/string.h

    [memcpy] and [memset] on arrays of bytes, as the loops that they are, and what
    they compute.  The models of the callers write the results. *)

From S2P Require Import Prelude.

(** The arrays [dest] and [src] of a call. *)
Definition memcpy (src : list Z) (n : Z) : M (list Z) unit :=
  for_range 0 n (λ i, b ← nth_or src i; put_nth i b).

Definition memset (val n : Z) : M (list Z) unit :=
  for_range 0 n (λ i, put_nth i (u8 val)).

(** A loop that stores [f i] at every [i] below [n]. *)
Lemma store_loop (f : Z → Z) (body : Z → M (list Z) unit) n dest :
  0 ≤ n ≤ Z.of_nat (length dest) → (∀ i l, 0 ≤ i < n → body i l = put_nth i (f i) l) →
  for_range 0 n body dest = Ret tt ((f <$> seqZ 0 n) ++ drop (Z.to_nat n) dest).
Proof.
  intros Hn Hbody.
  destruct (for_range_inv (λ i l, l = (f <$> seqZ 0 i) ++ drop (Z.to_nat i) dest) 0 n body dest) as (l & Hrun & ->);
    [lia | done | | exact Hrun].
  intros i l Hi ->. rewrite Hbody by done. destruct (lookup_lt_is_Some_2 dest (Z.to_nat i)) as [x Hx]; [lia|].
  eexists. split; [apply put_nth_ret; rewrite length_app, length_fmap, length_seqZ, length_drop; lia|].
  rewrite (drop_S _ x _ Hx), insert_app_r_alt by (rewrite length_fmap, length_seqZ; lia).
  rewrite length_fmap, length_seqZ, Nat.sub_diag by lia. cbn [insert list_insert].
  rewrite seqZ_app, fmap_app, <-app_assoc by lia. rewrite (Z2Nat.inj_add i 1) by lia.
  replace (Z.to_nat i + Z.to_nat 1)%nat with (S (Z.to_nat i)) by lia. by rewrite Z.add_0_l.
Qed.

Lemma memcpy_run src n dest :
  0 ≤ n ≤ Z.of_nat (length dest) → n ≤ Z.of_nat (length src) →
  memcpy src n dest = Ret tt (take (Z.to_nat n) src ++ drop (Z.to_nat n) dest).
Proof.
  intros Hn Hsrc. unfold memcpy. rewrite (store_loop (λ i, nth (Z.to_nat i) src 0)); [|done|].
  - do 2 f_equal. apply list_eq. intros k. rewrite list_lookup_fmap.
    destruct (decide (k < Z.to_nat n)%nat) as [Hk|Hk].
    + rewrite lookup_seqZ_lt, lookup_take_lt by lia. cbn. rewrite Z.add_0_l, Nat2Z.id.
      destruct (lookup_lt_is_Some_2 src k) as [x Hx]; [lia|]. rewrite Hx. f_equal. by apply nth_lookup_Some.
    + rewrite lookup_seqZ_ge, lookup_take_ge by lia. done.
  - intros i l Hi. destruct (lookup_lt_is_Some_2 src (Z.to_nat i)) as [x Hx]; [lia|].
    rewrite (bind_ret _ _ _ _ _ (nth_or_ret src i x l ltac:(lia) Hx)). by rewrite (nth_lookup_Some _ _ _ _ Hx).
Qed.

Lemma memset_run val n dest :
  0 ≤ n ≤ Z.of_nat (length dest) →
  memset val n dest = Ret tt (replicate (Z.to_nat n) (u8 val) ++ drop (Z.to_nat n) dest).
Proof.
  intros Hn. unfold memset. rewrite (store_loop (λ _, u8 val)) by done. do 2 f_equal.
  rewrite <-(length_seqZ 0 n). generalize (seqZ 0 n) as l. induction l as [|x l IH]; [done|]. cbn. by f_equal.
Qed.

(** Beyond the end of either array the access is out of bounds. *)
Lemma memcpy_too_long src n dest :
  0 ≤ n → Z.of_nat (length dest) < n ∨ Z.of_nat (length src) < n → ∃ dest', memcpy src n dest = Fault OutOfBounds dest'.
Proof.
  intros Hn Hlong. set (m := Z.min (Z.of_nat (length dest)) (Z.of_nat (length src))).
  assert (memcpy src m dest = Ret tt (take (Z.to_nat m) src ++ drop (Z.to_nat m) dest)) as Hm by (apply memcpy_run; lia).
  unfold memcpy in *. rewrite (for_range_list 0 m) in Hm. rewrite (for_range_list 0 n).
  replace n with (m + (1 + (n - m - 1))) by lia. rewrite seqZ_app, for_list_app, (bind_ret _ _ _ _ _ Hm) by lia.
  rewrite (seqZ_cons (0 + m)) by lia. cbn [for_list]. rewrite Z.add_0_l.
  set (dest' := take _ _ ++ _). assert (length dest' = length dest) as Hlen.
  { unfold dest'. rewrite length_app, length_take, length_drop. lia. }
  destruct (decide (m = Z.of_nat (length src))) as [E|E].
  - exists dest'. do 2 apply bind_fault. unfold nth_or. rewrite (proj2 (Z.ltb_ge _ _)) by lia.
    by rewrite (proj2 (lookup_ge_None _ _)) by lia.
  - destruct (lookup_lt_is_Some_2 src (Z.to_nat m)) as [x Hx]; [lia|]. exists dest'. apply bind_fault.
    rewrite (bind_ret _ _ _ _ _ (nth_or_ret src m x dest' ltac:(lia) Hx)). apply put_nth_out. lia.
Qed.
