(* ===== verification/Layout.v ===== *)
(** * The link-time layout

    The addresses of the kernel's static objects are chosen by the linker
    (src/linker.ld links the kernel at [0xc0100000], inside the 4 MiB that
    src/boot/boot.asm maps at [0xc0000000]).  They are parameters of the model;
    the laws are what [aligned(...)], [align 4096], [.bss] and the 4 MiB boot
    mapping give. *)

From S2P Require Import Prelude.

Definition KERNEL_VMA : Z := 0xc0100000.
Definition KERNEL_VMA_END : Z := 0xc0400000.
Definition KERNEL_HEAP_SIZE : Z := 65536.

(** Two objects of [n] and [m] bytes do not overlap. *)
Definition apart (a n b m : Z) : Prop := a + n ≤ b ∨ b + m ≤ a.

Definition in_kernel (a n : Z) : Prop := KERNEL_VMA ≤ a ∧ a + n ≤ KERNEL_VMA_END.

Class Layout := {
  kernel_heap : Z;          (* kernel/heap.c: kernel_heap, aligned(8) *)
  pd_pool : Z;              (* kernel/paging.c: pd_pool, aligned(PAGE_SIZE) *)
  pt_pool : Z;              (* kernel/paging.c: pt_pool, aligned(PAGE_SIZE) *)
  boot_page_directory : Z;  (* boot/boot.asm: boot_page_directory, align 4096 *)
  boot_page_table : Z;      (* boot/boot.asm: boot_page_table, align 4096 *)
  idle_task : Z;            (* kernel/sched.c: idle_task *)
  idle_task_stack : Z;      (* kernel/sched.c: idle_task_stack *)
  gdt_address : Z;          (* kernel/gdt.c: gdt *)
  tss_address : Z;          (* kernel/tss.c: tss *)
  idt_address : Z;          (* kernel/interrupts.c: idt *)
  kernel_stack_top : Z;     (* boot/boot.asm: kernel_stack_top *)
  irq_stub : Z → Z;         (* kernel/interrupts.c: irq0 to irq15 *)
  exception_stub : Z → Z;   (* kernel/exceptions.c: exception0 to exception31 *)
  syscall_entry : Z;        (* kernel/syscall.c: syscall_entry *)
  primary_prdt_address : Z; (* kernel/disk.c: primary_prdt *)
  dma_buffer_address : Z;   (* kernel/disk.c: dma_buffer *)
  kernel_heap_aligned : kernel_heap mod 8 = 0;
  pd_pool_aligned : pd_pool mod 4096 = 0;
  pt_pool_aligned : pt_pool mod 4096 = 0;
  boot_page_directory_aligned : boot_page_directory mod 4096 = 0;
  boot_page_table_aligned : boot_page_table mod 4096 = 0;
  kernel_heap_range : in_kernel kernel_heap KERNEL_HEAP_SIZE;
  pd_pool_range : in_kernel pd_pool (16 * 4096);
  pt_pool_range : in_kernel pt_pool (64 * 4096);
  boot_page_directory_range : in_kernel boot_page_directory 4096;
  boot_page_table_range : in_kernel boot_page_table 4096;
  idle_task_range : in_kernel idle_task 172;
  idle_task_stack_range : in_kernel idle_task_stack 8192;
  tss_address_range : in_kernel tss_address 104;
  primary_prdt_range : in_kernel primary_prdt_address 8;
  dma_buffer_range : in_kernel dma_buffer_address 4096;
  irq_stub_range n : 0 ≤ n < 16 → in_kernel (irq_stub n) 1;
  exception_stub_range n : 0 ≤ n < 32 → in_kernel (exception_stub n) 1;
  syscall_entry_range : in_kernel syscall_entry 1;
  pools_apart : apart pd_pool (16 * 4096) pt_pool (64 * 4096);
  boot_pd_apart_pd : apart boot_page_directory 4096 pd_pool (16 * 4096);
  boot_pd_apart_pt : apart boot_page_directory 4096 pt_pool (64 * 4096);
  boot_pt_apart_pd : apart boot_page_table 4096 pd_pool (16 * 4096);
  boot_pt_apart_pt : apart boot_page_table 4096 pt_pool (64 * 4096);
  boot_apart : apart boot_page_directory 4096 boot_page_table 4096;
  idle_task_not_heap : apart idle_task 172 kernel_heap KERNEL_HEAP_SIZE;
  idle_stack_not_heap : apart idle_task_stack 8192 kernel_heap KERNEL_HEAP_SIZE;
  idle_apart : apart idle_task 172 idle_task_stack 8192;
}.

(** A layout the linker could choose: the witnesses run in it. *)
Definition sample_layout : Layout.
Proof.
  refine {| kernel_heap := 0xc0110000; pd_pool := 0xc0120000; pt_pool := 0xc0130000;
            boot_page_directory := 0xc0180000; boot_page_table := 0xc0181000;
            idle_task := 0xc0170000; idle_task_stack := 0xc0171000;
            gdt_address := 0xc0174000; tss_address := 0xc0174040; idt_address := 0xc0174100;
            kernel_stack_top := 0xc0190000; irq_stub n := 0xc0100000 + 32 * n;
            exception_stub n := 0xc0100200 + 32 * n; syscall_entry := 0xc0100600;
            primary_prdt_address := 0xc0174800; dma_buffer_address := 0xc0175000 |};
    unfold apart, in_kernel, KERNEL_VMA, KERNEL_VMA_END, KERNEL_HEAP_SIZE; (reflexivity || lia).
Defined.
