(* ===== verification/Ports.v ===== *)
(** * Port I/O (src/include/kernel/io.h)

    The devices behind the I/O ports are not part of the source.  They are a
    state [D] with the effect of reading and writing a port of each width. *)

From S2P Require Import Prelude.

Class Bus (D : Type) := {
  in8 : Z → D → Z * D;
  in16 : Z → D → Z * D;
  in32 : Z → D → Z * D;
  out8 : Z → Z → D → D;
  out16 : Z → Z → D → D;
  out32 : Z → Z → D → D;
}.

Section ports.
Context {D : Type} `{!Bus D}.

Definition inb (port : Z) : M D Z := λ d, let '(v, d) := in8 (u16 port) d in Ret (u8 v) d.
Definition inw (port : Z) : M D Z := λ d, let '(v, d) := in16 (u16 port) d in Ret (u16 v) d.
Definition inl (port : Z) : M D Z := λ d, let '(v, d) := in32 (u16 port) d in Ret (u32 v) d.
Definition outb (port val : Z) : M D unit := modify (out8 (u16 port) (u8 val)).
Definition outw (port val : Z) : M D unit := modify (out16 (u16 port) (u16 val)).
Definition outl (port val : Z) : M D unit := modify (out32 (u16 port) (u32 val)).
End ports.

(** A bus for the witnesses: every port is a latch that reads back the last
    value written to it, and the writes are logged, the last one first. *)
Record latches := Latches { latch : gmap Z Z; log : list (Z * Z) }.

#[export] Instance latches_bus : Bus latches :=
  let get p d := (default 0 (latch d !! p), d) in
  let put p v d := Latches (<[p := v]> (latch d)) ((p, v) :: log d) in
  {| in8 := get; in16 := get; in32 := get; out8 := put; out16 := put; out32 := put |}.
