(* ===== verification/Gdt.v ===== *)
(** * Segments (src/kernel/gdt.c, src/kernel/tss.c)

    The global descriptor table, the task state segment and the registers of the
    processor that refer to them.  The messages of [init_gdt] and [init_tss] are
    added in Boot.v. *)

From S2P Require Import Prelude Layout.

(** src/include/kernel/gdt.h *)
Definition GDT_ENTRIES : nat := 6.
Definition GDT_KERNEL_CODE_SELECTOR : Z := 0x8.
Definition GDT_KERNEL_DATA_SELECTOR : Z := 0x10.
Definition GDT_USER_CODE_SELECTOR : Z := Z.lor 0x18 0x3.
Definition GDT_USER_DATA_SELECTOR : Z := Z.lor 0x20 0x3.
Definition GDT_TSS_SELECTOR : Z := 0x28.

Record gdt_entry_t := GdtEntry {
  limit_low : Z; base_low : Z; base_middle : Z; access : Z; granularity : Z; base_high : Z;
}.

Definition zero_entry : gdt_entry_t := GdtEntry 0 0 0 0 0 0.

(** src/include/kernel/tss.h *)
Record tss_entry_t := Tss {
  link : Z; reserved0 : Z; esp0 : Z; ss0 : Z; reserved1 : Z; esp1 : Z; ss1 : Z; reserved2 : Z;
  esp2 : Z; ss2 : Z; reserved3 : Z; tss_cr3 : Z; eip : Z; eflags : Z; eax : Z; ecx : Z; edx : Z; ebx : Z;
  esp : Z; ebp : Z; esi : Z; edi : Z; es : Z; reserved4 : Z; cs : Z; reserved5 : Z; ss : Z; reserved6 : Z;
  ds : Z; reserved7 : Z; fs : Z; reserved8 : Z; gs : Z; reserved9 : Z; ldtr : Z; reserved10 : Z;
  reserved11 : Z; iopb : Z;
}.

(** 14 words of 16 bits with their padding, 10 words of 32 bits. *)
Definition SIZEOF_TSS : Z := 104.

(** [init_tss_entry]: every field is 0. *)
Definition zero_tss : tss_entry_t :=
  Tss 0 0 0 0 0 0 0 0 0 0 0 0 0 0 0 0 0 0 0 0 0 0 0 0 0 0 0 0 0 0 0 0 0 0 0 0 0 0.

Definition set_tss_esp0 v t := Tss (link t) (reserved0 t) v (ss0 t) (reserved1 t) (esp1 t) (ss1 t) (reserved2 t)
  (esp2 t) (ss2 t) (reserved3 t) (tss_cr3 t) (eip t) (eflags t) (eax t) (ecx t) (edx t) (ebx t)
  (esp t) (ebp t) (esi t) (edi t) (es t) (reserved4 t) (cs t) (reserved5 t) (ss t) (reserved6 t)
  (ds t) (reserved7 t) (fs t) (reserved8 t) (gs t) (reserved9 t) (ldtr t) (reserved10 t) (reserved11 t) (iopb t).
Definition set_tss_ss0 v t := Tss (link t) (reserved0 t) (esp0 t) v (reserved1 t) (esp1 t) (ss1 t) (reserved2 t)
  (esp2 t) (ss2 t) (reserved3 t) (tss_cr3 t) (eip t) (eflags t) (eax t) (ecx t) (edx t) (ebx t)
  (esp t) (ebp t) (esi t) (edi t) (es t) (reserved4 t) (cs t) (reserved5 t) (ss t) (reserved6 t)
  (ds t) (reserved7 t) (fs t) (reserved8 t) (gs t) (reserved9 t) (ldtr t) (reserved10 t) (reserved11 t) (iopb t).
Definition set_tss_iopb v t := Tss (link t) (reserved0 t) (esp0 t) (ss0 t) (reserved1 t) (esp1 t) (ss1 t) (reserved2 t)
  (esp2 t) (ss2 t) (reserved3 t) (tss_cr3 t) (eip t) (eflags t) (eax t) (ecx t) (edx t) (ebx t)
  (esp t) (ebp t) (esi t) (edi t) (es t) (reserved4 t) (cs t) (reserved5 t) (ss t) (reserved6 t)
  (ds t) (reserved7 t) (fs t) (reserved8 t) (gs t) (reserved9 t) (ldtr t) (reserved10 t) (reserved11 t) v.

(** ** What the processor reads in a descriptor *)

Definition entry_base (e : gdt_entry_t) : Z := base_low e + base_middle e * 0x10000 + base_high e * 0x1000000.
Definition entry_limit (e : gdt_entry_t) : Z := limit_low e + Z.land (granularity e) 0xf * 0x10000.

(** The last byte of the segment; bit 7 of the flags counts pages. *)
Definition last_byte (e : gdt_entry_t) : Z :=
  if Z.testbit (granularity e) 7 then entry_limit e * 4096 + 4095 else entry_limit e.
Definition entry_present (e : gdt_entry_t) : bool := Z.testbit (access e) 7.
Definition entry_dpl (e : gdt_entry_t) : Z := Z.land (Z.shiftr (access e) 5) 0x3.
Definition entry_code (e : gdt_entry_t) : bool := Z.testbit (access e) 4 && Z.testbit (access e) 3.
Definition entry_data (e : gdt_entry_t) : bool := Z.testbit (access e) 4 && negb (Z.testbit (access e) 3).
Definition entry_available_tss (e : gdt_entry_t) : bool := Z.land (access e) 0x1f =? 0x9.
Definition entry_busy_tss (e : gdt_entry_t) : bool := Z.land (access e) 0x1f =? 0xb.

Definition selector_index (sel : Z) : nat := Z.to_nat (Z.shiftr sel 3).
Definition selector_rpl (sel : Z) : Z := Z.land sel 0x3.

(** ** The code *)

(** The registers: the table's base and limit, the segments, the task register. *)
Record segments := Segments {
  gdt : list gdt_entry_t;
  gdtr : Z * Z;
  code_selector : Z;
  data_selectors : Z;        (* ds, es, fs, gs and ss, always loaded together *)
  task_register : Z;
}.

Section code.
Context {L : Layout}.

(** The fields that [gdt_set_entry] assigns. *)
Definition make_entry (base limit access granularity : Z) : gdt_entry_t :=
  GdtEntry (u16 limit) (u16 base) (u8 (Z.shiftr base 16)) access
    (Z.lor (Z.land (Z.shiftr limit 16) 0xf) (Z.land granularity 0xf0)) (u8 (Z.shiftr base 24)).

Definition gdt_set_entry (idx base limit access granularity : Z) : M segments unit := λ s,
  match put_nth idx (make_entry base limit access granularity) (gdt s) with
  | Ret _ g => Ret tt (Segments g (gdtr s) (code_selector s) (data_selectors s) (task_register s))
  | Fault f _ => Fault f s
  end.

Definition lgdt (base size : Z) : M segments unit :=
  modify (λ s, Segments (gdt s) (base, size - 1) (code_selector s) (data_selectors s) (task_register s)).

(** The processor also sets the accessed bit of a descriptor whose selector is
    loaded, which nothing reads. *)
Definition reload_segment_registers : M segments unit :=
  modify (λ s, Segments (gdt s) (gdtr s) GDT_KERNEL_CODE_SELECTOR GDT_KERNEL_DATA_SELECTOR (task_register s)).

(** [init_gdt] without its messages. *)
Definition setup_gdt : M segments unit :=
  gdt_set_entry 0 0 0 0 0;;
  gdt_set_entry 1 0x0 0xfffff 0x9a 0xcf;;
  gdt_set_entry 2 0x0 0xfffff 0x92 0xcf;;
  gdt_set_entry 3 0x0 0xfffff 0xfa 0xcf;;
  gdt_set_entry 4 0x0 0xfffff 0xf2 0xcf;;
  lgdt gdt_address (8 * Z.of_nat GDT_ENTRIES);;
  reload_segment_registers.

Definition gdt_set_tss_entry : M segments unit :=
  gdt_set_entry 5 tss_address (SIZEOF_TSS - 1) 0x89 0x0.

(** [ltr] takes the descriptor of an available task state segment within the limit
    of the table and marks it busy, bit 1 of its access byte; it refuses any other. *)
Definition mark_busy (e : gdt_entry_t) : gdt_entry_t :=
  GdtEntry (limit_low e) (base_low e) (base_middle e) (Z.lor (access e) 0x2) (granularity e) (base_high e).

Definition ltss : M segments unit := λ s,
  let idx := selector_index GDT_TSS_SELECTOR in
  match gdt s !! idx with
  | Some e =>
      if ((gdtr s).1 =? gdt_address) && (8 * Z.of_nat idx + 7 <=? (gdtr s).2) && entry_present e && entry_available_tss e
      then Ret tt (Segments (<[idx := mark_busy e]> (gdt s)) (gdtr s) (code_selector s) (data_selectors s) GDT_TSS_SELECTOR)
      else Fault ProtectionFault s
  | None => Fault ProtectionFault s
  end.

(** The fields that [init_tss] gives the segment. *)
Definition setup_tss (stack : Z) : tss_entry_t :=
  set_tss_iopb SIZEOF_TSS (set_tss_esp0 stack (set_tss_ss0 GDT_KERNEL_DATA_SELECTOR zero_tss)).
End code.

(** ** What the segments are *)

(** The descriptor a selector refers to. *)
Definition described (s : segments) (sel : Z) (e : gdt_entry_t) : Prop :=
  gdt s !! selector_index sel = Some e ∧ entry_present e = true.

(** A segment of all 4 GiB, used at the privilege of its descriptor. *)
Definition flat (s : segments) (sel dpl : Z) (kind : gdt_entry_t → bool) : Prop :=
  ∃ e, described s sel e ∧ entry_base e = 0 ∧ last_byte e = 0xffffffff ∧
       entry_dpl e = dpl ∧ selector_rpl sel = dpl ∧ kind e = true.

Section facts.
Context {L : Layout}.

Lemma land_nibbles h g : 0 ≤ h < 16 →
  Z.land (Z.lor h (Z.land g 0xf0)) 0xf = h ∧ Z.land (Z.lor h (Z.land g 0xf0)) 0xf0 = Z.land g 0xf0.
Proof.
  intros Hh. rewrite !Z.land_lor_distr_l, <-!Z.land_assoc.
  change (Z.land 0xf0 0xf) with 0. change (Z.land 0xf0 0xf0) with 0xf0. rewrite Z.land_0_r, Z.lor_0_r.
  assert (Z.land h 0xf = h) as Eh by (change 0xf with (Z.ones 4); rewrite Z.land_ones by lia; by apply Z.mod_small).
  split; [done|].
  assert (Z.land h 0xf0 = 0) as ->; [|done].
  rewrite <-Eh, <-Z.land_assoc. apply Z.land_0_r.
Qed.

(** A descriptor gives back the base, the limit and the flags it was made of. *)
Lemma make_entry_fields base limit acc gran :
  0 ≤ base < 0x100000000 → 0 ≤ limit < 0x100000 →
  let e := make_entry base limit acc gran in
  entry_base e = base ∧ entry_limit e = limit ∧ access e = acc ∧ Z.land (granularity e) 0xf0 = Z.land gran 0xf0.
Proof.
  intros Hb Hl. unfold entry_base, entry_limit. cbn [make_entry base_low base_middle base_high limit_low access granularity].
  assert (Z.land (Z.shiftr limit 16) 0xf = limit `div` 0x10000) as ->.
  { change 0xf with (Z.ones 4). rewrite Z.land_ones, Z.shiftr_div_pow2 by lia. change (2 ^ 16) with 0x10000.
    apply Z.mod_small. Z.div_mod_to_equations. lia. }
  assert (0 ≤ limit `div` 0x10000 < 16) as Hhi by (Z.div_mod_to_equations; lia).
  destruct (land_nibbles _ gran Hhi) as [-> ->]. split; [|split; [|done]].
  - unfold u16, u8. rewrite !Z.shiftr_div_pow2 by lia. change (2 ^ 16) with 0x10000. change (2 ^ 24) with 0x1000000.
    Z.div_mod_to_equations. lia.
  - unfold u16. Z.div_mod_to_equations. lia.
Qed.

(** What the processor needs of the table. *)
Definition segments_ready (s' : segments) : Prop :=
  gdtr s' = (gdt_address, 47) ∧
  flat s' (code_selector s') 0 entry_code ∧ flat s' (data_selectors s') 0 entry_data ∧
  flat s' GDT_USER_CODE_SELECTOR 3 entry_code ∧ flat s' GDT_USER_DATA_SELECTOR 3 entry_data ∧
  (∃ e, described s' (task_register s') e ∧ entry_busy_tss e = true ∧
     entry_base e = tss_address ∧ last_byte e = SIZEOF_TSS - 1 ∧ entry_dpl e = 0) ∧
  data_selectors s' = GDT_KERNEL_DATA_SELECTOR.

(** The segments with the last descriptor and the task register given. *)
Definition final_segments (last : gdt_entry_t) (tr : Z) : segments :=
  Segments [make_entry 0 0 0 0; make_entry 0 0xfffff 0x9a 0xcf; make_entry 0 0xfffff 0x92 0xcf;
    make_entry 0 0xfffff 0xfa 0xcf; make_entry 0 0xfffff 0xf2 0xcf; last]
    (gdt_address, 47) GDT_KERNEL_CODE_SELECTOR GDT_KERNEL_DATA_SELECTOR tr.

Lemma segments_run (s : segments) :
  length (gdt s) = GDT_ENTRIES →
  ∃ s', (setup_gdt;; gdt_set_tss_entry;; ltss) s = Ret tt s' ∧ segments_ready s'.
Proof.
  intros Hlen. destruct s as [g r c d t]. cbn in Hlen.
  destruct g as [|e0 [|e1 [|e2 [|e3 [|e4 [|e5 [|]]]]]]]; try discriminate Hlen.
  exists (final_segments (mark_busy (make_entry tss_address (SIZEOF_TSS - 1) 0x89 0x0)) GDT_TSS_SELECTOR).
  split.
  { change (ltss (final_segments (make_entry tss_address (SIZEOF_TSS - 1) 0x89 0x0) t) =
      Ret tt (final_segments (mark_busy (make_entry tss_address (SIZEOF_TSS - 1) 0x89 0x0)) GDT_TSS_SELECTOR)).
    unfold ltss. cbn [gdtr fst final_segments]. by rewrite Z.eqb_refl. }
  split; [reflexivity|].
  split; [by exists (make_entry 0 0xfffff 0x9a 0xcf); vm_compute|].
  split; [by exists (make_entry 0 0xfffff 0x92 0xcf); vm_compute|].
  split; [by exists (make_entry 0 0xfffff 0xfa 0xcf); vm_compute|].
  split; [by exists (make_entry 0 0xfffff 0xf2 0xcf); vm_compute|].
  split; [|reflexivity]. exists (mark_busy (make_entry tss_address (SIZEOF_TSS - 1) 0x89 0x0)).
  split; [split; reflexivity|]. split; [reflexivity|]. split; [|split; reflexivity].
  pose proof tss_address_range as Ht. unfold in_kernel, KERNEL_VMA, KERNEL_VMA_END in Ht.
  apply (make_entry_fields tss_address (SIZEOF_TSS - 1) 0x89 0x0); unfold SIZEOF_TSS; lia.
Qed.

(** C28 (segments, [init_gdt] and [init_tss]): after them the kernel runs on flat
    code and data segments of privilege 0, the selectors that user tasks get refer
    to flat segments of privilege 3, the task register refers to the task state
    segment, which covers exactly [tss] and is marked busy by [ltr], and an
    interrupt of a user task switches to the kernel stack segment at the given stack. *)
Theorem segments_correct (s : segments) (stack : Z) :
  length (gdt s) = GDT_ENTRIES →
  ∃ s', (setup_gdt;; gdt_set_tss_entry;; ltss) s = Ret tt s' ∧
    gdtr s' = (gdt_address, 47) ∧
    flat s' (code_selector s') 0 entry_code ∧ flat s' (data_selectors s') 0 entry_data ∧
    flat s' GDT_USER_CODE_SELECTOR 3 entry_code ∧ flat s' GDT_USER_DATA_SELECTOR 3 entry_data ∧
    (∃ e, described s' (task_register s') e ∧ entry_busy_tss e = true ∧
       entry_base e = tss_address ∧ last_byte e = SIZEOF_TSS - 1 ∧ entry_dpl e = 0) ∧
    ss0 (setup_tss stack) = data_selectors s' ∧ esp0 (setup_tss stack) = stack.
Proof.
  intros Hlen. destruct (segments_run s Hlen) as (s' & Hrun & Hg & Hc & Hd & Huc & Hud & Ht & Hk).
  exists s'. do 7 (split; [done|]). by rewrite Hk.
Qed.
End facts.

Section witnesses.
#[local] Existing Instance sample_layout.

Lemma segments_correct_witness :
  ∃ s', (setup_gdt;; gdt_set_tss_entry;; ltss) (Segments (replicate 6 zero_entry) (0, 0) 0 0 0) = Ret tt s' ∧
    flat s' GDT_USER_CODE_SELECTOR 3 entry_code ∧ flat s' (code_selector s') 0 entry_code.
Proof.
  destruct (segments_correct (Segments (replicate 6 zero_entry) (0, 0) 0 0 0) 0xc0190000 eq_refl)
    as (s' & Hrun & _ & Hk & _ & Hu & _).
  exists s'. exact (conj Hrun (conj Hu Hk)).
Defined.
End witnesses.
