(* ===== verification/Interrupts.v ===== *)
(** * Interrupts and exceptions (src/kernel/interrupts.c, src/kernel/exceptions.c)

    The interrupt descriptor table, the tables of handlers and the two interrupt
    controllers.  The messages, and the dispatchers that call into the rest of
    the kernel, are in Machine.v and Boot.v. *)

From S2P Require Import Prelude Layout Ports Gdt.

(** ** The descriptor table *)

(** src/include/kernel/interrupts.h *)
Definition MASTER_PIC_COMMAND_REGISTER : Z := 0x20.
Definition MASTER_PIC_DATA_REGISTER : Z := 0x21.
Definition SLAVE_PIC_COMMAND_REGISTER : Z := 0xa0.
Definition SLAVE_PIC_DATA_REGISTER : Z := 0xa1.
Definition IDT_ENTRIES : Z := 256.

Record idt_entry := IdtEntry { offset_low : Z; selector : Z; idt_reserved : Z; type_attr : Z; offset_high : Z }.

Definition zero_gate : idt_entry := IdtEntry 0 0 0 0 0.

(** The table, and the base and limit that the processor has loaded. *)
Record vectors := Vectors { idt : list idt_entry; idtr : Z * Z }.

Definition on_idt {A} (m : M (list idt_entry) A) : M vectors A := λ s,
  match m (idt s) with
  | Ret a g => Ret a (Vectors g (idtr s))
  | Fault f g => Fault f (Vectors g (idtr s))
  end.

Section gates.
Context {L : Layout}.

Definition init_idt : M vectors unit := for_range 0 IDT_ENTRIES (λ i, on_idt (put_nth i zero_gate)).

Definition make_gate (handler flags : Z) : idt_entry :=
  IdtEntry (u16 handler) GDT_KERNEL_CODE_SELECTOR 0 flags (u16 (Z.shiftr handler 16)).

Definition idt_set_gate (idx handler interrupts_gate_flags : Z) : M vectors unit :=
  on_idt (put_nth idx (make_gate handler interrupts_gate_flags)).

Definition install_irq_gates : M vectors unit :=
  for_range 0 16 (λ n, idt_set_gate (32 + n) (irq_stub n) 0x8e).

Definition install_exception_gates : M vectors unit :=
  for_range 0 32 (λ n, idt_set_gate n (exception_stub n) 0x8e).

Definition lidt (base size : Z) : M vectors unit := modify (λ s, Vectors (idt s) (base, size - 1)).

(** The gate of [init_syscall]. *)
Definition install_syscall_gate : M vectors unit := idt_set_gate 0x80 syscall_entry 0xef.
End gates.

(** *** What the processor reads in a gate *)

Definition gate_offset (g : idt_entry) : Z := offset_low g + offset_high g * 0x10000.
Definition gate_present (g : idt_entry) : bool := Z.testbit (type_attr g) 7.
Definition gate_dpl (g : idt_entry) : Z := Z.land (Z.shiftr (type_attr g) 5) 0x3.
(** An interrupt gate clears the interrupt flag, a trap gate does not. *)
Definition gate_clears_if (g : idt_entry) : bool := negb (Z.testbit (type_attr g) 0).

Lemma gate_offset_make handler flags : 0 ≤ handler < 0x100000000 → gate_offset (make_gate handler flags) = handler.
Proof.
  intros Hh. unfold gate_offset, make_gate. cbn. unfold u16. rewrite Z.shiftr_div_pow2 by lia.
  change (2 ^ 16) with 0x10000. Z.div_mod_to_equations. lia.
Qed.

(** ** The handlers *)

Section handlers.
Context {F : Type}.

Definition register_irq_handler (irq : Z) (handler : F) : M (list (option F)) unit :=
  if irq <? 16 then put_nth irq (Some handler) else mret tt.

Definition register_exception_handler (exc : Z) (handler : F) : M (list (option F)) unit :=
  if exc <? 32 then put_nth exc (Some handler) else mret tt.
End handlers.

(** ** The interrupt controllers *)

Section pic.
Context {D : Type} `{!Bus D}.

Definition pic_remap : M D unit :=
  a1 ← inb MASTER_PIC_DATA_REGISTER;
  a2 ← inb SLAVE_PIC_DATA_REGISTER;
  outb MASTER_PIC_COMMAND_REGISTER 0x11;;
  outb SLAVE_PIC_COMMAND_REGISTER 0x11;;
  outb MASTER_PIC_DATA_REGISTER 0x20;;
  outb SLAVE_PIC_DATA_REGISTER 0x28;;
  outb MASTER_PIC_DATA_REGISTER 0x4;;
  outb SLAVE_PIC_DATA_REGISTER 0x2;;
  outb MASTER_PIC_DATA_REGISTER 0x1;;
  outb SLAVE_PIC_DATA_REGISTER 0x1;;
  outb MASTER_PIC_DATA_REGISTER a1;;
  outb SLAVE_PIC_DATA_REGISTER a2.

Definition mask_irq (irq : Z) : M D unit :=
  let port := if irq <? 8 then MASTER_PIC_DATA_REGISTER else SLAVE_PIC_DATA_REGISTER in
  v ← inb port;
  outb port (u8 (Z.lor v (Z.shiftl 1 (Z.land irq 0x7)))).

Definition unmask_irq (irq : Z) : M D unit :=
  let port := if irq <? 8 then MASTER_PIC_DATA_REGISTER else SLAVE_PIC_DATA_REGISTER in
  v ← inb port;
  outb port (u8 (Z.land v (Z.lnot (Z.shiftl 1 (Z.land irq 0x7))))).

Definition pic_send_eoi (irq : Z) : M D unit :=
  (if 8 <=? irq then outb SLAVE_PIC_COMMAND_REGISTER 0x20 else mret tt);;
  outb MASTER_PIC_COMMAND_REGISTER 0x20.

Definition lock_irqs : M D unit := for_range 0 16 mask_irq.
End pic.

(** *** What the controllers do

    The Intel 8259A: a command byte with bit 4 set starts the initialisation, the
    next three data bytes are the vector base, the cascade and the mode (for the
    command 0x11); otherwise a data byte is the mask. *)

Inductive pic_stage := Ready | ExpectsBase | ExpectsCascade | ExpectsMode.

Record pic := Pic { imr : Z; vector_base : Z; cascade : Z; stage : pic_stage }.

Definition pic_data (v : Z) (p : pic) : pic :=
  match stage p with
  | Ready => Pic v (vector_base p) (cascade p) Ready
  | ExpectsBase => Pic (imr p) (Z.land v 0xf8) (cascade p) ExpectsCascade
  | ExpectsCascade => Pic (imr p) (vector_base p) v ExpectsMode
  | ExpectsMode => Pic (imr p) (vector_base p) (cascade p) Ready
  end.

(** The two controllers [(master, slave)] behind a bus. *)
Class PicBus (D : Type) `{!Bus D} := {
  pics : D → pic * pic;
  pics_imr d : is_byte (imr (pics d).1) ∧ is_byte (imr (pics d).2);
  pics_in p d : pics (in8 p d).2 = pics d;
  pics_in_master d : stage (pics d).1 = Ready → (in8 0x21 d).1 = imr (pics d).1;
  pics_in_slave d : stage (pics d).2 = Ready → (in8 0xa1 d).1 = imr (pics d).2;
  pics_init_master d : pics (out8 0x20 0x11 d) = (Pic 0 0 0 ExpectsBase, (pics d).2);
  pics_init_slave d : pics (out8 0xa0 0x11 d) = ((pics d).1, Pic 0 0 0 ExpectsBase);
  pics_data_master v d : is_byte v → pics (out8 0x21 v d) = (pic_data v (pics d).1, (pics d).2);
  pics_data_slave v d : is_byte v → pics (out8 0xa1 v d) = ((pics d).1, pic_data v (pics d).2);
}.

(** An interrupt request reaches the processor if it is not masked; those of the
    slave arrive through line 2 of the master. *)
Definition deliverable (ps : pic * pic) (irq : Z) : bool :=
  if irq <? 8 then negb (Z.testbit (imr ps.1) irq)
  else negb (Z.testbit (imr ps.2) (irq - 8)) && negb (Z.testbit (imr ps.1) 2).

Definition vector_of (ps : pic * pic) (irq : Z) : Z :=
  if irq <? 8 then vector_base ps.1 + irq else vector_base ps.2 + (irq - 8).

(** Both controllers work, with the masks [m]: bit [irq] of [m] masks that line. *)
Definition ready (ps : pic * pic) : Prop := stage ps.1 = Ready ∧ stage ps.2 = Ready.
Definition masked (ps : pic * pic) (irq : Z) : bool :=
  if irq <? 8 then Z.testbit (imr ps.1) irq else Z.testbit (imr ps.2) (irq - 8).

Section controllers.
Context {D : Type} `{!Bus D} `{!PicBus D}.

Lemma u8_byte v : is_byte v → u8 v = v.
Proof. apply u8_id. Qed.
Lemma u8_u8 v : u8 (u8 v) = u8 v.
Proof. apply u8_id, u8_range. Qed.

(** The controllers after a byte is written to a mask register that is ready. *)
Definition with_imr (ps : pic * pic) (irq v : Z) : pic * pic :=
  if irq <? 8 then (Pic v (vector_base ps.1) (cascade ps.1) Ready, ps.2)
  else (ps.1, Pic v (vector_base ps.2) (cascade ps.2) Ready).

Lemma rewrite_imr_run irq (f : Z → Z) d :
  ready (pics d) → 
  let port := if irq <? 8 then MASTER_PIC_DATA_REGISTER else SLAVE_PIC_DATA_REGISTER in
  let old := imr (if irq <? 8 then (pics d).1 else (pics d).2) in
  ∃ d', (v ← inb port; outb port (u8 (f v))) d = Ret tt d' ∧ pics d' = with_imr (pics d) irq (u8 (f old)).
Proof.
  intros [Hm Hs]. pose proof (pics_imr d) as [Hb1 Hb2]. pose proof (u8_range) as Hu. unfold with_imr.
  destruct (Z.ltb_spec irq 8); cbv zeta.
  - unfold inb. rewrite (bind_ret _ _ d (imr (pics d).1) (in8 0x21 d).2).
    2:{ change (u16 MASTER_PIC_DATA_REGISTER) with 0x21. rewrite (surjective_pairing (in8 0x21 d)), pics_in_master by done.
        cbn. by rewrite u8_byte. }
    eexists. split; [reflexivity|]. change (u16 MASTER_PIC_DATA_REGISTER) with 0x21.
    rewrite pics_data_master by apply u8_range. rewrite pics_in. unfold pic_data. rewrite Hm. by rewrite u8_u8.
  - unfold inb. rewrite (bind_ret _ _ d (imr (pics d).2) (in8 0xa1 d).2).
    2:{ change (u16 SLAVE_PIC_DATA_REGISTER) with 0xa1. rewrite (surjective_pairing (in8 0xa1 d)), pics_in_slave by done.
        cbn. by rewrite u8_byte. }
    eexists. split; [reflexivity|]. change (u16 SLAVE_PIC_DATA_REGISTER) with 0xa1.
    rewrite pics_data_slave by apply u8_range. rewrite pics_in. unfold pic_data. rewrite Hs. by rewrite u8_u8.
Qed.

(** Setting or clearing one of eight bits. *)
Lemma bit_check (f : Z → Z → Z) (b : bool) v k :
  forallb (λ v, forallb (λ k, forallb (λ n,
    bool_decide (Z.testbit (f v k) n = if n =? k then b else Z.testbit v n)) (seqZ 0 8)) (seqZ 0 8)) (seqZ 0 256) = true →
  is_byte v → 0 ≤ k < 8 → ∀ n, 0 ≤ n < 8 → Z.testbit (f v k) n = if n =? k then b else Z.testbit v n.
Proof.
  intros Hc Hv Hk n Hn. apply (byte_check _ v Hc) in Hv. rewrite forallb_forall in Hv.
  specialize (Hv k). rewrite forallb_forall in Hv. eapply bool_decide_eq_true_1, Hv; apply list_elem_of_In, elem_of_seqZ; lia.
Qed.

(** The mask after one line is masked ([b = true]) or unmasked. *)
Lemma set_mask_run (b : bool) irq d :
  ready (pics d) → 0 ≤ irq < 16 →
  ∃ d', (if b then mask_irq irq else unmask_irq irq) d = Ret tt d' ∧ ready (pics d') ∧
    (∀ n, vector_of (pics d') n = vector_of (pics d) n) ∧
    ∀ n, 0 ≤ n < 16 → masked (pics d') n = if n =? irq then b else masked (pics d) n.
Proof.
  intros Hr Hirq. pose proof (pics_imr d) as [Hb1 Hb2].
  set (f v k := u8 (if b then Z.lor v (Z.shiftl 1 k) else Z.land v (Z.lnot (Z.shiftl 1 k)))).
  assert (Z.land irq 0x7 = irq mod 8) as Ek by (change 0x7 with (Z.ones 3); by rewrite Z.land_ones).
  destruct (rewrite_imr_run irq (λ v, if b then Z.lor v (Z.shiftl 1 (Z.land irq 0x7))
    else Z.land v (Z.lnot (Z.shiftl 1 (Z.land irq 0x7)))) d Hr) as (d' & Hrun & Hps).
  exists d'. split; [by destruct b|].
  assert (0 ≤ irq mod 8 < 8) as Hk by (by apply Z.mod_pos_bound).
  assert (∀ v, is_byte v → ∀ n, 0 ≤ n < 8 →
    Z.testbit (f v (irq mod 8)) n = if n =? irq mod 8 then b else Z.testbit v n) as Hf.
  { intros v Hv. apply bit_check; [|done..]. subst f. destruct b; vm_compute; reflexivity. }
  rewrite Ek in Hps. rewrite Hps. destruct Hr as [Hr1 Hr2]. unfold with_imr, ready, vector_of, masked.
  destruct (Z.ltb_spec irq 8); cbn [fst snd stage vector_base imr].
  - split; [done|]. split; [done|]. intros n Hn. change (u8 (if b then _ else _)) with (f (imr (pics d).1) (irq mod 8)).
    assert (irq mod 8 = irq) as E8 by (apply Z.mod_small; lia). rewrite E8 in *.
    destruct (Z.ltb_spec n 8); [by rewrite Hf by (done || lia)|].
    by rewrite (proj2 (Z.eqb_neq n irq)) by lia.
  - split; [done|]. split; [done|]. intros n Hn. change (u8 (if b then _ else _)) with (f (imr (pics d).2) (irq mod 8)).
    assert (irq mod 8 = irq - 8) as E8 by (Z.div_mod_to_equations; lia). rewrite E8 in *.
    destruct (Z.ltb_spec n 8); [by rewrite (proj2 (Z.eqb_neq n irq)) by lia|].
    rewrite Hf by (done || lia). assert ((n - 8 =? irq - 8) = (n =? irq)) as ->; [|done].
    destruct (Z.eqb_spec (n - 8) (irq - 8)), (Z.eqb_spec n irq); (done || lia).
Qed.

(** [mask_irq] and [unmask_irq] in turn. *)
Fixpoint set_masks (l : list (bool * Z)) : M D unit :=
  match l with
  | [] => mret tt
  | (b, irq) :: l => (if b then mask_irq irq else unmask_irq irq);; set_masks l
  end.

Definition mask_after (l : list (bool * Z)) (old : bool) (n : Z) : bool :=
  foldl (λ m x, if n =? x.2 then x.1 else m) old l.

Lemma set_masks_run l d :
  ready (pics d) → Forall (λ x, 0 ≤ x.2 < 16) l →
  ∃ d', set_masks l d = Ret tt d' ∧ ready (pics d') ∧
    (∀ n, vector_of (pics d') n = vector_of (pics d) n) ∧
    ∀ n, 0 ≤ n < 16 → masked (pics d') n = mask_after l (masked (pics d) n) n.
Proof.
  revert d. induction l as [|[b irq] l IH]; intros d Hr; [intros _; by exists d|]. intros [Hirq Hl]%Forall_cons.
  destruct (set_mask_run b irq d Hr Hirq) as (d1 & Hrun1 & Hr1 & Hv1 & Hm1).
  destruct (IH d1 Hr1 Hl) as (d2 & Hrun2 & Hr2 & Hv2 & Hm2). exists d2. cbn [set_masks].
  rewrite (bind_ret _ _ _ _ _ Hrun1). split; [done|]. split; [done|]. split; [intros n; by rewrite Hv2|].
  intros n Hn. by rewrite Hm2, Hm1.
Qed.

Lemma set_masks_app l1 l2 d : set_masks (l1 ++ l2) d = (set_masks l1;; set_masks l2) d.
Proof.
  revert d. induction l1 as [|[b irq] l1 IH]; intros d; [done|]. cbn [app set_masks]. rewrite bind_bind.
  unfold mbind, M_bind. by destruct ((if b then mask_irq irq else unmask_irq irq) d) as [[] d1|]; [apply IH|].
Qed.

Lemma lock_irqs_masks d : lock_irqs d = set_masks ((λ n, (true, n)) <$> seqZ 0 16) d.
Proof. reflexivity. Qed.

(** [pic_remap] gives the lines the vectors 32 to 47 and keeps the masks. *)
Lemma pic_remap_run d :
  ready (pics d) →
  ∃ d', pic_remap d = Ret tt d' ∧
    pics d' = (Pic (imr (pics d).1) 0x20 0x4 Ready, Pic (imr (pics d).2) 0x28 0x2 Ready).
Proof.
  intros [Hm Hs]. pose proof (pics_imr d) as [Hb1 Hb2]. unfold pic_remap.
  assert (inb MASTER_PIC_DATA_REGISTER d = Ret (imr (pics d).1) (in8 0x21 d).2) as H1.
  { unfold inb. change (u16 MASTER_PIC_DATA_REGISTER) with 0x21.
    rewrite (surjective_pairing (in8 0x21 d)), pics_in_master by done. cbn. by rewrite u8_byte. }
  rewrite (bind_ret _ _ _ _ _ H1). set (d1 := (in8 0x21 d).2).
  assert (pics d1 = pics d) as E1 by apply pics_in.
  assert (inb SLAVE_PIC_DATA_REGISTER d1 = Ret (imr (pics d).2) (in8 0xa1 d1).2) as H2.
  { unfold inb. change (u16 SLAVE_PIC_DATA_REGISTER) with 0xa1.
    rewrite (surjective_pairing (in8 0xa1 d1)), pics_in_slave by (by rewrite E1). rewrite E1. cbn. by rewrite u8_byte. }
  rewrite (bind_ret _ _ _ _ _ H2). set (d2 := (in8 0xa1 d1).2).
  assert (pics d2 = pics d) as E2 by (unfold d2; by rewrite pics_in).
  eexists. split; [reflexivity|].
  change (u16 MASTER_PIC_DATA_REGISTER) with 0x21. change (u16 SLAVE_PIC_DATA_REGISTER) with 0xa1.
  change (u16 MASTER_PIC_COMMAND_REGISTER) with 0x20. change (u16 SLAVE_PIC_COMMAND_REGISTER) with 0xa0.
  change (u8 0x11) with 0x11. change (u8 0x20) with 0x20. change (u8 0x28) with 0x28. change (u8 0x4) with 0x4.
  change (u8 0x2) with 0x2. change (u8 0x1) with 0x1.
  rewrite (u8_byte (imr (pics d).1)), (u8_byte (imr (pics d).2)) by done.
  do 8 (rewrite ?pics_data_slave, ?pics_data_master by (done || (unfold is_byte; lia))).
  rewrite pics_init_slave, pics_init_master. by rewrite E2.
Qed.

Lemma masked_deliverable ps irq :
  deliverable ps irq = if irq <? 8 then negb (masked ps irq) else negb (masked ps irq) && negb (masked ps 2).
Proof. unfold deliverable, masked. by destruct (Z.ltb_spec irq 8). Qed.

(** What the kernel does to the controllers while it starts: [init_interrupts],
    then [init_timer], [init_disk] and [init_keyboard]. *)
Definition controllers_at_start : M D unit :=
  pic_remap;; lock_irqs;; unmask_irq 0;; unmask_irq 14;; unmask_irq 1;; mret tt.

(** C26 (interrupt controllers): after the start of the kernel every request line has
    its vector above those of the exceptions, 32 + n for line n; the timer and the
    keyboard reach the processor, and no other line does: the disk's line 14 is
    unmasked but the cascade line 2 that carries it is not. *)
Theorem irq_delivery d :
  ready (pics d) →
  ∃ d', controllers_at_start d = Ret tt d' ∧ ready (pics d') ∧
    (∀ n, 0 ≤ n < 16 → vector_of (pics d') n = 32 + n) ∧
    (∀ n, 0 ≤ n < 16 → deliverable (pics d') n = (n =? 0) || (n =? 1)) ∧
    masked (pics d') 14 = false ∧ deliverable (pics d') 14 = false.
Proof.
  intros Hr. destruct (pic_remap_run d Hr) as (d1 & Hrun1 & Hps).
  assert (ready (pics d1)) as Hr1 by (by rewrite Hps).
  set (l := ((λ n, (true, n)) <$> seqZ 0 16) ++ [(false, 0); (false, 14); (false, 1)]).
  destruct (set_masks_run l d1 Hr1) as (d2 & Hrun2 & Hr2 & Hv & Hm); [by apply (bool_decide_unpack _); vm_compute|].
  exists d2. unfold controllers_at_start. rewrite (bind_ret _ _ _ _ _ Hrun1).
  assert (∀ n, 0 ≤ n < 16 → masked (pics d2) n = negb ((n =? 0) || (n =? 14) || (n =? 1))) as Hmask.
  { intros n Hn. rewrite Hm by done.
    assert (∀ old, forallb (λ n, Bool.eqb (mask_after l old n) (negb ((n =? 0) || (n =? 14) || (n =? 1)))) (seqZ 0 16) = true) as Hc.
    { intros []; vm_compute; reflexivity. }
    specialize (Hc (masked (pics d1) n)). rewrite forallb_forall in Hc. apply Bool.eqb_prop, Hc.
    apply list_elem_of_In, elem_of_seqZ. lia. }
  split.
  { unfold l in Hrun2. rewrite set_masks_app in Hrun2. etrans; [|exact Hrun2].
    unfold mbind, M_bind. by rewrite lock_irqs_masks. }
  split; [done|]. split; [|split; [|split]].
  - intros n Hn. rewrite Hv, Hps. unfold vector_of. cbn. destruct (Z.ltb_spec n 8); lia.
  - intros n Hn. rewrite masked_deliverable, !Hmask by lia.
    destruct (Z.ltb_spec n 8), (Z.eqb_spec n 0), (Z.eqb_spec n 1), (Z.eqb_spec n 14); (done || lia).
  - by rewrite Hmask by lia.
  - by rewrite masked_deliverable, !Hmask by lia.
Qed.
End controllers.

(** ** The gates *)

Section gate_table.
Context {L : Layout}.

(** What the kernel does to the table while it starts: [init_interrupts],
    [init_exceptions] and [init_syscall]. *)
Definition gates_at_start : M vectors unit :=
  init_idt;; install_irq_gates;; lidt idt_address (8 * IDT_ENTRIES);;
  install_exception_gates;; install_syscall_gate.

Definition stub_of (n : Z) : option Z :=
  if n <? 32 then Some (exception_stub n)
  else if n <? 48 then Some (irq_stub (n - 32))
  else if n =? 0x80 then Some syscall_entry
  else None.

Lemma set_gates_run (f : Z → idt_entry) c a b v :
  a ≤ b → 0 ≤ c + a → c + b ≤ 256 → length (idt v) = 256%nat →
  ∃ v', for_range a b (λ n, on_idt (put_nth (c + n) (f n))) v = Ret tt v' ∧
    length (idt v') = 256%nat ∧ idtr v' = idtr v ∧
    ∀ n, 0 ≤ n → idt v' !! Z.to_nat n = if decide (c + a ≤ n < c + b) then Some (f (n - c)) else idt v !! Z.to_nat n.
Proof.
  intros Hab Ha Hb Hlen.
  destruct (for_range_inv (λ m v', length (idt v') = 256%nat ∧ idtr v' = idtr v ∧
      ∀ n, 0 ≤ n → idt v' !! Z.to_nat n = if decide (c + a ≤ n < c + m) then Some (f (n - c)) else idt v !! Z.to_nat n)
    a b (λ n, on_idt (put_nth (c + n) (f n))) v) as (v' & Hrun & Hv'); [done| | |by exists v'].
  - split; [done|]. split; [done|]. intros n Hn. by rewrite decide_False by lia.
  - intros m v1 Hm (Hl & Hr & Hv1). unfold on_idt. rewrite put_nth_ret by lia. eexists. split; [reflexivity|].
    cbn [idt idtr]. split; [by rewrite length_insert|]. split; [done|]. intros n Hn.
    destruct (decide (n = c + m)) as [->|Hne].
    + rewrite decide_True by lia. rewrite list_lookup_insert_eq by lia. do 2 f_equal. lia.
    + rewrite list_lookup_insert_ne, Hv1 by lia. apply decide_ext. lia.
Qed.

(** What the processor finds in the table. *)
Definition gates_ready (v' : vectors) : Prop :=
  idtr v' = (idt_address, 2047) ∧
  ∀ n, 0 ≤ n < 256 → ∃ g, idt v' !! Z.to_nat n = Some g ∧
    match stub_of n with
    | Some stub => gate_present g = true ∧ gate_offset g = stub ∧ selector g = GDT_KERNEL_CODE_SELECTOR
    | None => gate_present g = false
    end ∧
    (gate_present g = true → gate_dpl g = if n =? 0x80 then 3 else 0) ∧
    (gate_present g = true → gate_clears_if g = negb (n =? 0x80)).

Lemma gates_run v :
  length (idt v) = 256%nat → ∃ v', gates_at_start v = Ret tt v' ∧ gates_ready v'.
Proof.
  intros Hlen. unfold gates_at_start.
  destruct (set_gates_run (λ _, zero_gate) 0 0 IDT_ENTRIES v) as (v1 & Hrun1 & Hl1 & _ & Hv1); [done..|].
  rewrite (bind_ret _ _ _ _ _ Hrun1).
  destruct (set_gates_run (λ n, make_gate (irq_stub n) 0x8e) 32 0 16 v1) as (v2 & Hrun2 & Hl2 & _ & Hv2); [done..|].
  rewrite (bind_ret _ _ _ _ _ Hrun2). unfold lidt at 1. rewrite modify_bind. set (v3 := Vectors _ _).
  destruct (set_gates_run (λ n, make_gate (exception_stub n) 0x8e) 0 0 32 v3) as (v4 & Hrun4 & Hl4 & Hr4 & Hv4); [done..|].
  rewrite (bind_ret _ _ _ _ _ Hrun4). unfold install_syscall_gate, idt_set_gate, on_idt.
  rewrite put_nth_ret by lia. eexists. split; [reflexivity|]. split; [by cbn [idtr]; rewrite Hr4|]. cbn [idt].
  intros n Hn. unfold stub_of.
  assert (∀ stub, in_kernel stub 1 → 0 ≤ stub < 0x100000000) as Hst
    by (unfold in_kernel, KERNEL_VMA, KERNEL_VMA_END; lia).
  destruct (Z.eqb_spec n 0x80) as [->|Hne].
  - exists (make_gate syscall_entry 0xef). rewrite list_lookup_insert_eq by lia. cbn [Z.ltb Z.compare].
    split; [done|]. split; [|done]. split; [done|]. split; [|done]. by apply gate_offset_make, Hst, syscall_entry_range.
  - rewrite list_lookup_insert_ne, Hv4 by lia. destruct (Z.ltb_spec n 32).
    + rewrite decide_True by lia. exists (make_gate (exception_stub (n - 0)) 0x8e). rewrite Z.sub_0_r.
      split; [done|]. split; [|done]. split; [done|]. split; [|done]. apply gate_offset_make, Hst, exception_stub_range. lia.
    + rewrite decide_False by lia. change (idt v3) with (idt v2). rewrite Hv2 by lia. destruct (Z.ltb_spec n 48).
      * rewrite decide_True by lia. exists (make_gate (irq_stub (n - 32)) 0x8e).
        split; [done|]. split; [|done]. split; [done|]. split; [|done]. apply gate_offset_make, Hst, irq_stub_range. lia.
      * rewrite decide_False, Hv1, decide_True by (unfold IDT_ENTRIES; lia). by exists zero_gate.
Qed.
(** C27 (interrupts, the descriptor table): after the start of the kernel the
    processor uses the kernel's table of 256 gates; vectors 0 to 31 enter the
    stubs of the exceptions, 32 to 47 those of the request lines, 0x80 the system
    call, and every other gate is absent.  A user task can call vector 0x80 only,
    and interrupts stay enabled only there. *)
Theorem gates_correct v :
  length (idt v) = 256%nat →
  ∃ v', gates_at_start v = Ret tt v' ∧ idtr v' = (idt_address, 2047) ∧
    ∀ n, 0 ≤ n < 256 → ∃ g, idt v' !! Z.to_nat n = Some g ∧
      match stub_of n with
      | Some stub => gate_present g = true ∧ gate_offset g = stub ∧ selector g = GDT_KERNEL_CODE_SELECTOR
      | None => gate_present g = false
      end ∧
      (gate_present g = true → gate_dpl g = if n =? 0x80 then 3 else 0) ∧
      (gate_present g = true → gate_clears_if g = negb (n =? 0x80)).
Proof.
  intros Hlen. destruct (gates_run v Hlen) as (v' & Hrun & Hr & Hg). by exists v'.
Qed.
End gate_table.

(** ** Witnesses *)

(** Two controllers on a bus of their own. *)
#[export] Instance pic_bus : Bus (pic * pic) :=
  let get p d := (if p =? 0x21 then u8 (imr d.1) else if p =? 0xa1 then u8 (imr d.2) else 0, d) in
  let put p v (d : pic * pic) :=
    if p =? 0x20 then (Pic 0 0 0 ExpectsBase, d.2)
    else if p =? 0xa0 then (d.1, Pic 0 0 0 ExpectsBase)
    else if p =? 0x21 then (pic_data v d.1, d.2)
    else if p =? 0xa1 then (d.1, pic_data v d.2) else d in
  {| in8 := get; in16 := get; in32 := get; out8 := put; out16 := put; out32 := put |}.

Definition clamp (p : pic) : pic := Pic (u8 (imr p)) (vector_base p) (cascade p) (stage p).

#[export, refine] Instance pic_bus_ok : PicBus (pic * pic) :=
  {| pics d := (clamp d.1, clamp d.2) |}.
Proof.
  - intros d. split; apply u8_range.
  - done.
  - done.
  - done.
  - done.
  - done.
  - intros v [m s] Hv. unfold clamp, pic_data. destruct m as [? ? ? []], s as [? ? ? []];
      cbn [out8 pic_bus fst snd imr vector_base cascade stage Z.eqb Pos.eqb pic_data]; by rewrite ?(u8_byte v Hv).
  - intros v [m s] Hv. unfold clamp, pic_data. destruct m as [? ? ? []], s as [? ? ? []];
      cbn [out8 pic_bus fst snd imr vector_base cascade stage Z.eqb Pos.eqb pic_data]; by rewrite ?(u8_byte v Hv).
Defined.

Lemma irq_delivery_witness :
  ∃ d', controllers_at_start (Pic 0xff 8 4 Ready, Pic 0x00 0x70 2 Ready) = Ret tt d' ∧
    vector_of (pics d') 1 = 33 ∧ deliverable (pics d') 1 = true ∧ deliverable (pics d') 14 = false.
Proof.
  assert (ready (pics (Pic 0xff 8 4 Ready, Pic 0x00 0x70 2 Ready))) as Hr by (split; reflexivity).
  destruct (irq_delivery (Pic 0xff 8 4 Ready, Pic 0x00 0x70 2 Ready) Hr)
    as (d' & Hrun & _ & Hv & Hd & _).
  exists d'. split; [exact Hrun|]. split; [exact (Hv 1 ltac:(lia))|].
  split; [exact (Hd 1 ltac:(lia)) | exact (Hd 14 ltac:(lia))].
Defined.

Section witnesses.
#[local] Existing Instance sample_layout.

Lemma gates_correct_witness :
  ∃ v' g, gates_at_start (Vectors (replicate 256 zero_gate) (0, 0)) = Ret tt v' ∧
    idt v' !! 0x80%nat = Some g ∧ gate_dpl g = 3 ∧ gate_offset g = 0xc0100600.
Proof.
  destruct (gates_correct (Vectors (replicate 256 zero_gate) (0, 0)) (length_replicate 256 _)) as (v' & Hrun & _ & Hg).
  destruct (Hg 0x80 ltac:(lia)) as (g & Hl & (Hp & Ho & _) & Hd & _).
  exists v', g. split; [exact Hrun|]. split; [exact Hl|]. split; [exact (Hd Hp) | exact Ho].
Defined.
End witnesses.
