(* ===== verification/Console.v ===== *)
(** * The text console (src/kernel/console.c)

    The state is the cursor and the 80 x 25 cells of the VGA text buffer at
    [VGA_ADDRESS]; the hardware cursor is set through the CRTC ports. *)

From S2P Require Import Prelude Ports.

Definition VGA_CRTC_INDEX_REGISTER : Z := 0x3d4.
Definition VGA_CRTC_DATA_REGISTER : Z := 0x3d5.
Definition CONSOLE_WIDTH : Z := 80.
Definition CONSOLE_HEIGHT : Z := 25.
Definition VGA_ATTR : Z := 0xf.
Definition CURSOR_START : Z := 0x0.
Definition CURSOR_END : Z := 0xf.

Record console := Console { cursor_x : Z; cursor_y : Z; vga : list Z }.

(** [(VGA_ATTR << 8) | c] *)
Definition vga_cell (c : Z) : Z := Z.lor (Z.shiftl VGA_ATTR 8) (u8 c).

Definition HEX_DIGITS : list Z := bytes_of "0123456789abcdef".

Section code.
Context {D : Type} `{!Bus D}.
Abbreviation Con := (M (console * D)).

Definition vga_write (i v : Z) : M console unit := λ c,
  if in_array (vga c) i then
    Ret tt (Console (cursor_x c) (cursor_y c) (<[Z.to_nat i := v]> (vga c)))
  else Fault OutOfBounds c.

Definition set_cursor (x y : Z) : M console unit :=
  modify (λ c, Console (u16 x) (u16 y) (vga c)).

Definition set_console_cursor_pos : Con unit :=
  c ← lift (gets (λ c, c));
  let pos := u16 (cursor_y c * CONSOLE_WIDTH + cursor_x c) in
  lift (outb VGA_CRTC_INDEX_REGISTER 0xf);;
  lift (outb VGA_CRTC_DATA_REGISTER (u8 pos));;
  lift (outb VGA_CRTC_INDEX_REGISTER 0xe);;
  lift (outb VGA_CRTC_DATA_REGISTER (u8 (Z.shiftr pos 8))).

Definition enable_console_cursor : Con unit :=
  lift (outb VGA_CRTC_INDEX_REGISTER 0xa);;
  a ← lift (inb VGA_CRTC_DATA_REGISTER);
  lift (outb VGA_CRTC_DATA_REGISTER (Z.lor (Z.land a 0xc0) CURSOR_START));;
  lift (outb VGA_CRTC_INDEX_REGISTER 0xb);;
  b ← lift (inb VGA_CRTC_DATA_REGISTER);
  lift (outb VGA_CRTC_DATA_REGISTER (Z.lor (Z.land b 0xe0) CURSOR_END));;
  set_console_cursor_pos.

Definition disable_console_cursor : Con unit :=
  lift (outb VGA_CRTC_INDEX_REGISTER 0xa);;
  lift (outb VGA_CRTC_DATA_REGISTER 0x20).

Definition console_reset : Con unit :=
  lift (for_range 0 CONSOLE_HEIGHT (λ y,
          for_range 0 CONSOLE_WIDTH (λ x,
            vga_write (y * CONSOLE_WIDTH + x) (vga_cell 32))));;
  lift (set_cursor 0 0);;
  set_console_cursor_pos.

Definition console_scroll : M console unit :=
  c ← gets (λ c, c);
  if cursor_y c <? CONSOLE_HEIGHT then mret tt
  else
    for_range 1 CONSOLE_HEIGHT (λ y,
      for_range 0 CONSOLE_WIDTH (λ x,
        c ← gets (λ c, c);
        v ← nth_or (vga c) (y * CONSOLE_WIDTH + x);
        vga_write ((y - 1) * CONSOLE_WIDTH + x) v));;
    for_range 0 CONSOLE_WIDTH (λ x,
      vga_write ((CONSOLE_HEIGHT - 1) * CONSOLE_WIDTH + x) (vga_cell 32));;
    c ← gets (λ c, c);
    set_cursor (cursor_x c) (CONSOLE_HEIGHT - 1).

(** The branches of [console_putc] before the wrap at the right margin. *)
Definition console_place (c : Z) : M console unit :=
  s ← gets (λ s, s);
  if c =? 10 then set_cursor 0 (cursor_y s + 1)
  else if c =? 8 then
    (if 0 <? cursor_x s then set_cursor (cursor_x s - 1) (cursor_y s)
     else if 0 <? cursor_y s then set_cursor (CONSOLE_WIDTH - 1) (cursor_y s - 1)
     else mret tt);;
    s ← gets (λ s, s);
    vga_write (cursor_y s * CONSOLE_WIDTH + cursor_x s) (vga_cell 32)
  else
    vga_write (cursor_y s * CONSOLE_WIDTH + cursor_x s) (vga_cell c);;
    set_cursor (cursor_x s + 1) (cursor_y s).

Definition console_wrap : M console unit :=
  s ← gets (λ s, s);
  if CONSOLE_WIDTH <=? cursor_x s then set_cursor 0 (cursor_y s + 1) else mret tt.

Definition console_putc (c : Z) : Con Z :=
  if c =? 0 then mret 0
  else
    lift (console_place c);;
    lift console_wrap;;
    lift console_scroll;;
    set_console_cursor_pos;;
    mret 1.

Fixpoint console_puts_from (written : Z) (s : list Z) : Con Z :=
  match s with
  | [] => mret written
  | c :: s => n ← console_putc c; console_puts_from (u8 (written + n)) s
  end.

Definition console_puts (s : list Z) : Con Z := console_puts_from 0 s.

(** [if (prefix) { console_putc('0'); console_putc('x'); written += 2; }] *)
Definition put_prefix (prefix : bool) : Con Z :=
  if prefix then console_putc 48;; console_putc 120;; mret 2 else mret 0.

Definition console_put_hex8 (val : Z) (prefix : bool) : Con Z :=
  written ← put_prefix prefix;
  d ← nth_or HEX_DIGITS (Z.land (Z.shiftr val 4) 0xf);
  hi ← console_putc d;
  d ← nth_or HEX_DIGITS (Z.land val 0xf);
  lo ← console_putc d;
  mret (u8 (u8 (written + hi) + lo)).

Definition console_put_hex16 (val : Z) (prefix : bool) : Con Z :=
  written ← put_prefix prefix;
  hi ← console_put_hex8 (u8 (Z.shiftr val 8)) false;
  lo ← console_put_hex8 (u8 val) false;
  mret (u8 (u8 (written + hi) + lo)).

Definition console_put_hex32 (val : Z) (prefix : bool) : Con Z :=
  written ← put_prefix prefix;
  hi ← console_put_hex16 (u16 (Z.shiftr val 16)) false;
  lo ← console_put_hex16 (u16 val) false;
  mret (u8 (u8 (written + hi) + lo)).

(** The [do ... while (val)] loop: [digits] holds the digits so far, the last
    one first; writing an eleventh would overrun [char digits[10]]. *)
Fixpoint dec_digits (fuel : nat) (digits : list Z) (val : Z) : Con (list Z) :=
  match fuel with
  | O => fail NoFuel
  | S fuel =>
      if Z.of_nat (length digits) <? 10 then
        let digits := (48 + val mod 10) :: digits in
        let val := val / 10 in
        if val =? 0 then mret digits else dec_digits fuel digits val
      else fail OutOfBounds
  end.

(** [for (i = count; i > 0; i--) console_putc(digits[i - 1])] *)
Fixpoint put_chars (l : list Z) : Con unit :=
  match l with
  | [] => mret tt
  | c :: l => console_putc c;; put_chars l
  end.

Definition console_put_dec32 (val : Z) : Con Z :=
  digits ← dec_digits 11 [] val;
  put_chars digits;;
  mret (Z.of_nat (length digits)).
End code.

(** ** The terminal that the code implements *)

Definition blank : Z := vga_cell 32.

Definition term_place (ch : Z) (c : console) : console :=
  let 'Console x y v := c in
  if ch =? 10 then Console 0 (y + 1) v
  else if ch =? 8 then
    let pos := if 0 <? x then y * 80 + x - 1 else if 0 <? y then y * 80 - 1 else 0 in
    Console (pos mod 80) (pos / 80) (<[Z.to_nat pos := blank]> v)
  else Console (x + 1) y (<[Z.to_nat (y * 80 + x) := vga_cell ch]> v).

Definition term_wrap (c : console) : console :=
  if 80 <=? cursor_x c then Console 0 (cursor_y c + 1) (vga c) else c.

(** A cursor below the last line moves every line up by one. *)
Definition term_scroll (c : console) : console :=
  if cursor_y c <? 25 then c
  else Console (cursor_x c) 24 (drop 80 (vga c) ++ replicate 80 blank).

Definition term_putc (ch : Z) (c : console) : console :=
  if ch =? 0 then c else term_scroll (term_wrap (term_place ch c)).

Record console_ok (c : console) : Prop := {
  ok_x : 0 ≤ cursor_x c < 80;
  ok_y : 0 ≤ cursor_y c < 25;
  ok_vga : length (vga c) = 2000%nat;
}.

(** What [set_console_cursor_pos] writes to the CRTC. *)
Definition crtc_out {D} `{!Bus D} (pos : Z) (d : D) : D :=
  out8 0x3d5 (pos / 256) (out8 0x3d4 0xe (out8 0x3d5 (pos mod 256) (out8 0x3d4 0xf d))).

(** *** Scrolling *)

Lemma vga_write_ret i v c :
  0 ≤ i < Z.of_nat (length (vga c)) →
  vga_write i v c = Ret tt (Console (cursor_x c) (cursor_y c) (<[Z.to_nat i := v]> (vga c))).
Proof.
  intros ?. unfold vga_write, in_array.
  by rewrite (proj2 (Z.leb_le _ _)), (proj2 (Z.ltb_lt _ _)) by lia.
Qed.

(** [copied orig k c]: the first [k] cells hold the cells 80 further on. *)
Definition copied (orig : console) (k : Z) (c : console) : Prop :=
  cursor_x c = cursor_x orig ∧ cursor_y c = cursor_y orig ∧
  length (vga c) = 2000%nat ∧
  ∀ i : nat, (i < 2000)%nat →
    vga c !! i = if Z.of_nat i <? k then vga orig !! (i + 80)%nat else vga orig !! i.

Lemma copied_step orig k c :
  length (vga orig) = 2000%nat → copied orig k c → 0 ≤ k < 1920 →
  ∃ c', (c ← gets (λ c, c); v ← nth_or (vga c) (k + 80); vga_write k v) c = Ret tt c' ∧
        copied orig (k + 1) c'.
Proof.
  intros Hl (Hx & Hy & Hlen & Hc) Hk.
  destruct (lookup_lt_is_Some_2 (vga orig) (Z.to_nat k + 80)) as [v Hv]; [lia|].
  assert (vga c !! Z.to_nat (k + 80) = Some v) as Hv'.
  { rewrite Hc by lia. destruct (Z.ltb_spec (Z.of_nat (Z.to_nat (k + 80))) k); [lia|].
    rewrite <-Hv. f_equal. lia. }
  run. unfold nth_or. destruct (Z.ltb_spec (k + 80) 0); [lia|]. rewrite Hv'. run.
  rewrite vga_write_ret by lia. eexists; split; [done|].
  unfold copied; simpl. split_and!; [done | done | by rewrite length_insert |]. intros i Hi.
  destruct (decide (i = Z.to_nat k)) as [->|].
  - rewrite list_lookup_insert_eq by lia. destruct (Z.ltb_spec (Z.of_nat (Z.to_nat k)) (k + 1)); [done | lia].
  - rewrite list_lookup_insert_ne by done. rewrite Hc by done.
    destruct (Z.ltb_spec (Z.of_nat i) k), (Z.ltb_spec (Z.of_nat i) (k + 1)); (done || lia).
Qed.

(** [for (y = 1; y < 25; y++) for (x = 0; x < 80; x++) ...] *)
Lemma move_lines_ret c :
  length (vga c) = 2000%nat →
  ∃ c', for_range 1 25 (λ y, for_range 0 80 (λ x,
          c ← gets (λ c, c); v ← nth_or (vga c) (y * 80 + x);
          vga_write ((y - 1) * 80 + x) v)) c = Ret tt c' ∧ copied c 1920 c'.
Proof.
  intros Hl. apply (for_range_inv (λ y, copied c ((y - 1) * 80))); [lia | |].
  { split_and!; try done. intros i ?. by destruct (Z.ltb_spec (Z.of_nat i) ((1 - 1) * 80)); [lia|]. }
  intros y s Hy HI.
  destruct (for_range_inv (λ x, copied c ((y - 1) * 80 + x)) 0 80
    (λ x, c ← gets (λ c, c); v ← nth_or (vga c) (y * 80 + x);
          vga_write ((y - 1) * 80 + x) v) s) as (s' & Hs & HI').
  - lia.
  - by rewrite Z.add_0_r.
  - intros x s0 Hx HI0. destruct (copied_step c ((y - 1) * 80 + x) s0) as (s1 & Hs1 & HI1);
      [done | done | lia |].
    exists s1. replace (y * 80 + x) with ((y - 1) * 80 + x + 80) by lia.
    split; [done|]. by replace ((y - 1) * 80 + (x + 1)) with ((y - 1) * 80 + x + 1) by lia.
  - exists s'. split; [done|]. by replace ((y + 1 - 1) * 80) with ((y - 1) * 80 + 80) by lia.
Qed.

Lemma blank_last_ret c :
  length (vga c) = 2000%nat →
  ∃ c', for_range 0 80 (λ x, vga_write ((25 - 1) * 80 + x) (vga_cell 32)) c = Ret tt c' ∧
        cursor_x c' = cursor_x c ∧ cursor_y c' = cursor_y c ∧
        vga c' = take 1920 (vga c) ++ replicate 80 blank.
Proof.
  intros Hl.
  destruct (for_range_inv
    (λ x c', cursor_x c' = cursor_x c ∧ cursor_y c' = cursor_y c ∧
       vga c' = take 1920 (vga c) ++ replicate (Z.to_nat x) blank ++
                drop (1920 + Z.to_nat x) (vga c))
    0 80 (λ x, vga_write ((25 - 1) * 80 + x) (vga_cell 32)) c) as (c' & Hrun & Hx & Hy & Hv).
  - lia.
  - split_and!; try done. simpl. by rewrite take_drop.
  - intros x s Hx (Hsx & Hsy & Hsv).
    rewrite vga_write_ret.
    2: { rewrite Hsv, !length_app, length_take, length_drop, length_replicate. lia. }
    eexists; split; [done|]. cbn [vga cursor_x cursor_y]. split_and!; try done. rewrite Hsv.
    replace (Z.to_nat ((25 - 1) * 80 + x))
      with (length (take 1920 (vga c) ++ replicate (Z.to_nat x) blank) + 0)%nat
      by (rewrite length_app, length_take, length_replicate; lia).
    replace (Z.to_nat (x + 1)) with (S (Z.to_nat x)) by lia.
    destruct (lookup_lt_is_Some_2 (vga c) (1920 + Z.to_nat x)) as [v Hv]; [lia|].
    rewrite (drop_S _ _ _ Hv), Nat.add_succ_r, app_assoc, insert_app_r.
    by rewrite replicate_S_end, <-!app_assoc.
  - exists c'. split_and!; try done. rewrite Hv.
    rewrite (drop_ge (vga c)) by (simpl; lia). by rewrite app_nil_r.
Qed.

Lemma copied_take c c' : length (vga c) = 2000%nat → copied c 1920 c' → take 1920 (vga c') = drop 80 (vga c).
Proof.
  intros Hl (_ & _ & Hl' & Hc). apply list_eq. intros i.
  destruct (decide (i < 1920)%nat).
  - rewrite lookup_take_lt, Hc, lookup_drop by lia.
    destruct (Z.ltb_spec (Z.of_nat i) 1920); [|lia]. f_equal. lia.
  - rewrite lookup_take_ge by lia. symmetry. apply lookup_ge_None.
    rewrite length_drop. lia.
Qed.

Lemma console_scroll_ret c :
  0 ≤ cursor_x c < 80 → length (vga c) = 2000%nat →
  console_scroll c = Ret tt (term_scroll c).
Proof.
  intros Hx Hl. unfold console_scroll, term_scroll, CONSOLE_HEIGHT, CONSOLE_WIDTH.
  rewrite gets_bind. destruct (cursor_y c <? 25); [done|].
  destruct (move_lines_ret c Hl) as (c1 & H1 & HI1). rewrite (bind_ret _ _ _ _ _ H1).
  pose proof HI1 as (Hx1 & _ & Hl1 & _).
  destruct (blank_last_ret c1 Hl1) as (c2 & H2 & Hx2 & _ & Hv2).
  rewrite (bind_ret _ _ _ _ _ H2), gets_bind. unfold set_cursor, modify.
  rewrite Hx2, Hx1, !u16_id, Hv2 by lia. by rewrite (copied_take c c1).
Qed.

(** *** One character *)

Lemma div_mod_80 y x : 0 ≤ x < 80 → (y * 80 + x) mod 80 = x ∧ (y * 80 + x) / 80 = y.
Proof. intros ?. Z.div_mod_to_equations. lia. Qed.

Lemma console_place_ret ch c :
  console_ok c → console_place ch c = Ret tt (term_place ch c).
Proof.
  intros [Hx Hy Hl]. destruct c as [x y v]; simpl in *. unfold console_place, term_place, CONSOLE_WIDTH.
  rewrite gets_bind. simpl. destruct (ch =? 10).
  { unfold set_cursor, modify; simpl. by rewrite !u16_id by lia. }
  destruct (ch =? 8); [|].
  - destruct (Z.ltb_spec 0 x); [|destruct (Z.ltb_spec 0 y)]; unfold set_cursor, modify, mret, M_ret; run;
      rewrite ?u16_id by lia; rewrite vga_write_ret by (simpl; lia); simpl.
    + destruct (div_mod_80 y (x - 1)) as [E1 E2]; [lia|].
      replace (y * 80 + x - 1) with (y * 80 + (x - 1)) by lia. by rewrite E1, E2.
    + destruct (div_mod_80 (y - 1) 79) as [E1 E2]; [lia|].
      replace (y * 80 - 1) with ((y - 1) * 80 + 79) by lia. by rewrite E1, E2.
    + by replace x with 0 by lia; replace y with 0 by lia.
  - unfold set_cursor. run. rewrite vga_write_ret by (simpl; lia). simpl.
    by rewrite !u16_id by lia.
Qed.

Lemma term_place_bounds ch c :
  console_ok c →
  0 ≤ cursor_x (term_place ch c) ≤ 80 ∧ 0 ≤ cursor_y (term_place ch c) ≤ 25 ∧
  (cursor_x (term_place ch c) = 80 → 0 ≤ cursor_y (term_place ch c) < 25) ∧
  length (vga (term_place ch c)) = 2000%nat.
Proof.
  intros [Hx Hy Hl]. destruct c as [x y v]; simpl in *. unfold term_place.
  destruct (ch =? 10); [simpl; split_and!; (done || lia)|].
  destruct (ch =? 8); cbn [cursor_x cursor_y vga]; rewrite ?length_insert; [|split_and!; (done || lia)].
  destruct (Z.ltb_spec 0 x); [|destruct (Z.ltb_spec 0 y)];
    split_and!; try done; Z.div_mod_to_equations; lia.
Qed.

Lemma term_wrap_bounds c :
  0 ≤ cursor_x c ≤ 80 → 0 ≤ cursor_y c ≤ 25 → (cursor_x c = 80 → 0 ≤ cursor_y c < 25) →
  0 ≤ cursor_x (term_wrap c) < 80 ∧ 0 ≤ cursor_y (term_wrap c) ≤ 25 ∧
  vga (term_wrap c) = vga c.
Proof.
  intros. unfold term_wrap. destruct (Z.leb_spec 80 (cursor_x c)); simpl; split_and!; (done || lia).
Qed.

Lemma term_putc_ok ch c : console_ok c → console_ok (term_putc ch c).
Proof.
  intros Hc. unfold term_putc. destruct (ch =? 0); [done|].
  destruct (term_place_bounds ch c Hc) as (? & ? & ? & ?).
  destruct (term_wrap_bounds (term_place ch c)) as (? & ? & Hv); try done.
  unfold term_scroll. destruct (Z.ltb_spec (cursor_y (term_wrap (term_place ch c))) 25).
  - constructor; [done | lia | by rewrite Hv].
  - constructor; cbn [cursor_x cursor_y vga]; [done | lia |].
    rewrite length_app, length_drop, length_replicate, Hv. lia.
Qed.

Section putc.
Context {D : Type} `{!Bus D}.
Implicit Types (d : D).

Lemma set_console_cursor_pos_ret c d :
  console_ok c →
  set_console_cursor_pos (c, d) = Ret tt (c, crtc_out (cursor_y c * 80 + cursor_x c) d).
Proof.
  intros [Hx Hy _]. unfold set_console_cursor_pos, lift, outb, crtc_out, CONSOLE_WIDTH. run.
  set (pos := cursor_y c * 80 + cursor_x c).
  assert (0 ≤ pos < 2000) as Hpos by (unfold pos; lia).
  rewrite (u16_id pos), Z.shiftr_div_pow2 by lia. change (2 ^ 8) with 256.
  assert (u8 (u8 pos) = pos mod 256) as -> by (unfold u8; apply Z.mod_mod; lia).
  by rewrite !(u8_id (pos / 256)) by (Z.div_mod_to_equations; lia).
Qed.

Lemma console_putc_ret ch c d :
  console_ok c → ch ≠ 0 →
  let c' := term_putc ch c in
  console_putc ch (c, d) = Ret 1 (c', crtc_out (cursor_y c' * 80 + cursor_x c') d).
Proof.
  intros Hc Hch. unfold console_putc. destruct (Z.eqb_spec ch 0) as [|_]; [done|].
  destruct (term_place_bounds ch c Hc) as (? & ? & ? & ?).
  destruct (term_wrap_bounds (term_place ch c)) as (? & ? & Hv); try done.
  rewrite (bind_ret _ _ _ _ _ (lift_ret _ (c, d) _ _ (console_place_ret ch c Hc))). simpl.
  assert (console_wrap (term_place ch c) = Ret tt (term_wrap (term_place ch c))) as Hw.
  { unfold console_wrap, term_wrap, CONSOLE_WIDTH. rewrite gets_bind. simpl.
    destruct (80 <=? _); [|done]. unfold set_cursor, modify. by rewrite !u16_id by lia. }
  rewrite (bind_ret _ _ _ _ _ (lift_ret _ (term_place ch c, d) _ _ Hw)). simpl.
  assert (console_scroll (term_wrap (term_place ch c)) =
            Ret tt (term_scroll (term_wrap (term_place ch c)))) as Hsc.
  { apply console_scroll_ret; [done | by rewrite Hv]. }
  rewrite (bind_ret _ _ _ _ _ (lift_ret _ (term_wrap (term_place ch c), d) _ _ Hsc)). simpl.
  assert (term_putc ch c = term_scroll (term_wrap (term_place ch c))) as <-.
  { unfold term_putc. by destruct (Z.eqb_spec ch 0). }
  rewrite (bind_ret _ _ _ _ _ (set_console_cursor_pos_ret _ d (term_putc_ok ch c Hc))).
  done.
Qed.
End putc.

(** ** Strings and numbers *)

Section print.
Context {D : Type} `{!Bus D}.
Implicit Types (s : console * D).

(** The effect of printing a list of characters on the console and the CRTC. *)
Definition con_putc (s : console * D) (ch : Z) : console * D :=
  if ch =? 0 then s
  else let c' := term_putc ch s.1 in (c', crtc_out (cursor_y c' * 80 + cursor_x c') s.2).

Definition con_print (l : list Z) (s : console * D) : console * D := foldl con_putc s l.

Lemma con_putc_ok s ch : console_ok s.1 → console_ok (con_putc s ch).1.
Proof. intros ?. unfold con_putc. destruct (ch =? 0); [done|]. by apply term_putc_ok. Qed.

Lemma con_print_ok l s : console_ok s.1 → console_ok (con_print l s).1.
Proof. revert s. induction l; intros s ?; simpl; [done|]. by apply IHl, con_putc_ok. Qed.

Lemma con_print_app l1 l2 s : con_print (l1 ++ l2) s = con_print l2 (con_print l1 s).
Proof. apply foldl_app. Qed.

(** The screen alone does not depend on the CRTC. *)
Definition screen (l : list Z) (c : console) : console :=
  foldl (λ c ch, if ch =? 0 then c else term_putc ch c) c l.

Lemma con_print_screen l s : (con_print l s).1 = screen l s.1.
Proof.
  revert s. induction l as [|ch l IH]; intros s; [done|].
  change (con_print (ch :: l) s) with (con_print l (con_putc s ch)). rewrite IH. unfold con_putc.
  cbn [screen foldl]. by destruct (ch =? 0).
Qed.

Lemma screen_app l1 l2 c : screen (l1 ++ l2) c = screen l2 (screen l1 c).
Proof. apply foldl_app. Qed.

Lemma console_putc_run ch s :
  console_ok s.1 → console_putc ch s = Ret (if ch =? 0 then 0 else 1) (con_putc s ch).
Proof.
  intros Hs. unfold con_putc. destruct s as [c d]. destruct (Z.eqb_spec ch 0) as [->|]; [done|].
  by rewrite console_putc_ret.
Qed.

Lemma put_chars_run l s : console_ok s.1 → put_chars l s = Ret tt (con_print l s).
Proof.
  revert s. induction l as [|ch l IH]; intros s Hs; simpl; [done|].
  rewrite (bind_ret _ _ _ _ _ (console_putc_run ch s Hs)).
  by apply IH, con_putc_ok.
Qed.

Lemma console_puts_from_run l w s :
  console_ok s.1 → Forall (λ ch, ch ≠ 0) l → 0 ≤ w < 256 →
  console_puts_from w l s = Ret (u8 (w + Z.of_nat (length l))) (con_print l s).
Proof.
  intros Hs Hl. revert w s Hs. induction Hl as [|ch l Hch _ IH]; intros w s Hs Hw; simpl.
  { by rewrite Z.add_0_r, u8_id. }
  rewrite (bind_ret _ _ _ _ _ (console_putc_run ch s Hs)).
  destruct (Z.eqb_spec ch 0); [done|]. rewrite IH; [|by apply con_putc_ok|apply u8_range].
  f_equal. unfold u8. rewrite Z.add_mod_idemp_l by lia. f_equal. lia.
Qed.

Lemma console_puts_run l s :
  console_ok s.1 → Forall (λ ch, ch ≠ 0) l →
  console_puts l s = Ret (u8 (Z.of_nat (length l))) (con_print l s).
Proof. intros. by rewrite <-(Z.add_0_l (Z.of_nat _)), <-console_puts_from_run. Qed.

(** *** Decimal *)

Definition digits_value (base : Z) (ds : list Z) : Z := foldl (λ v d, v * base + d) 0 ds.

Lemma digits_value_snoc base ds d : digits_value base (ds ++ [d]) = digits_value base ds * base + d.
Proof. unfold digits_value. by rewrite foldl_app. Qed.

Lemma dec_digits_run (k fuel : nat) acc val s :
  (1 ≤ k ≤ fuel)%nat → 0 ≤ val < 10 ^ Z.of_nat k → (length acc + k ≤ 10)%nat →
  ∃ ds, dec_digits fuel acc val s = Ret (((λ d, 48 + d) <$> ds) ++ acc) s ∧
        digits_value 10 ds = val ∧ Forall (λ d, 0 ≤ d < 10) ds ∧
        (1 ≤ length ds ≤ k)%nat ∧ (hd 0 ds = 0 → ds = [0]).
Proof.
  revert fuel acc val. induction k as [|k IH]; intros fuel acc val Hk Hv Hacc; [lia|].
  destruct fuel as [|fuel]; [lia|]. simpl dec_digits.
  destruct (Z.ltb_spec (Z.of_nat (length acc)) 10); [|lia].
  pose proof (Z.mod_pos_bound val 10).
  destruct (Z.eqb_spec (val / 10) 0) as [E|E].
  { assert (val mod 10 = val) as -> by (Z.div_mod_to_equations; lia).
    exists [val]. split_and!; try done; simpl; try lia.
    - apply Forall_singleton. Z.div_mod_to_equations. lia.
    - by intros ->. }
  assert (k ≠ 0%nat).
  { intros ->. change (10 ^ Z.of_nat 1) with 10 in Hv. apply E. by apply Z.div_small. }
  rewrite Nat2Z.inj_succ, Z.pow_succ_r in Hv by lia.
  destruct (IH fuel ((48 + val mod 10) :: acc) (val / 10)) as (ds & Hrun & Hval & Hds & Hlen & Hhd).
  1-3: simpl; Z.div_mod_to_equations; lia.
  exists (ds ++ [val mod 10]). split_and!.
  - by rewrite Hrun, fmap_app, <-app_assoc.
  - rewrite digits_value_snoc, Hval. Z.div_mod_to_equations. lia.
  - apply Forall_app. split; [done|]. apply Forall_singleton. lia.
  - rewrite length_app. simpl. lia.
  - rewrite length_app. simpl. lia.
  - destruct ds as [|d ds]; [simpl in *; lia|]. simpl in *. intros ->.
    exfalso. apply E. specialize (Hhd eq_refl). injection Hhd as ->. done.
Qed.

Lemma console_put_dec32_run val s :
  console_ok s.1 → 0 ≤ val < 0x100000000 →
  ∃ ds, console_put_dec32 val s =
          Ret (Z.of_nat (length ds)) (con_print ((λ d, 48 + d) <$> ds) s) ∧
        digits_value 10 ds = val ∧ Forall (λ d, 0 ≤ d < 10) ds ∧
        (1 ≤ length ds ≤ 10)%nat ∧ (hd 0 ds = 0 → ds = [0]).
Proof.
  intros Hs Hv. destruct (dec_digits_run 10 11 [] val s) as (ds & Hrun & ?);
    [lia | change (10 ^ Z.of_nat 10) with 10000000000; lia | simpl; lia |].
  exists ds. split; [|done]. unfold console_put_dec32. rewrite (bind_ret _ _ _ _ _ Hrun).
  rewrite app_nil_r, (bind_ret _ _ _ _ _ (put_chars_run _ s Hs)).
  unfold mret, M_ret. by rewrite length_fmap.
Qed.

(** *** Hexadecimal *)

Definition hex_char (n : Z) : Z := if n <? 10 then 48 + n else 87 + n.

Lemma hex_digit_run n s : 0 ≤ n < 16 → nth_or HEX_DIGITS n s = Ret (hex_char n) s.
Proof.
  intros Hn. assert (n ∈ seqZ 0 16) as H by (apply elem_of_seqZ; lia). revert H. clear Hn.
  intros H. repeat (apply elem_of_cons in H as [->|H]; [reflexivity|]).
  by apply not_elem_of_nil in H.
Qed.

Definition prefix_chars (prefix : bool) : list Z := if prefix then [48; 120] else [].

Lemma put_prefix_run prefix s :
  console_ok s.1 →
  put_prefix prefix s = Ret (Z.of_nat (length (prefix_chars prefix))) (con_print (prefix_chars prefix) s).
Proof.
  intros Hs. destruct prefix; [|done]. unfold put_prefix.
  rewrite (bind_ret _ _ _ _ _ (console_putc_run 48 s Hs)).
  by rewrite (bind_ret _ _ _ _ _ (console_putc_run 120 _ (con_putc_ok _ _ Hs))).
Qed.

(** The [n] low hexadecimal digits of [v], the most significant one first. *)
Fixpoint hex_digits (n : nat) (v : Z) : list Z :=
  match n with
  | O => []
  | S n => hex_digits n (v / 16) ++ [v mod 16]
  end.

Lemma hex_digits_value n v : digits_value 16 (hex_digits n v) = v mod 16 ^ Z.of_nat n.
Proof.
  revert v. induction n as [|n IH]; intros v; simpl hex_digits; [by rewrite Z.mod_1_r|].
  rewrite digits_value_snoc, IH, Nat2Z.inj_succ, Z.pow_succ_r by lia.
  rewrite Z.rem_mul_r by lia. lia.
Qed.

Lemma hex_digits_mod n v : hex_digits n (v mod 16 ^ Z.of_nat n) = hex_digits n v.
Proof.
  revert v. induction n as [|n IH]; intros v; [done|]. simpl hex_digits.
  rewrite Nat2Z.inj_succ, Z.pow_succ_r by lia. f_equal.
  - rewrite <-(IH (v / 16)). f_equal. rewrite Z.rem_mul_r by lia.
    rewrite (Z.mul_comm 16), Z.div_add by lia.
    rewrite Z.div_small by (apply Z.mod_pos_bound; lia). lia.
  - f_equal. rewrite Z.rem_mul_r by lia. rewrite (Z.mul_comm 16), Z.mod_add by lia.
    by apply Z.mod_mod.
Qed.

Lemma hex_digits_app n k v :
  hex_digits (n + k) v = hex_digits n (v / 16 ^ Z.of_nat k) ++ hex_digits k v.
Proof.
  revert v. induction k as [|k IH]; intros v.
  - by rewrite Nat.add_0_r, Z.div_1_r, app_nil_r.
  - rewrite Nat.add_succ_r. simpl hex_digits.
    rewrite IH, Nat2Z.inj_succ, Z.pow_succ_r, Z.div_div, <-app_assoc by lia. done.
Qed.

Lemma hex_char_nz n : 0 ≤ n < 16 → (hex_char n =? 0) = false.
Proof. intros ?. unfold hex_char. apply Z.eqb_neq. destruct (Z.ltb_spec n 10); lia. Qed.

Lemma console_put_hex8_run v prefix s :
  console_ok s.1 → 0 ≤ v < 0x100 →
  console_put_hex8 v prefix s =
    Ret (Z.of_nat (length (prefix_chars prefix)) + 2)
        (con_print (prefix_chars prefix ++ (hex_char <$> hex_digits 2 v)) s).
Proof.
  intros Hs Hv. unfold console_put_hex8.
  rewrite (bind_ret _ _ _ _ _ (put_prefix_run prefix s Hs)).
  rewrite Z.shiftr_div_pow2 by lia. change (2 ^ 4) with 16.
  rewrite !(land_low _ 4 0xf) by done. change (2 ^ 4) with 16.
  rewrite (Z.mod_small (v / 16)) by (Z.div_mod_to_equations; lia).
  assert (0 ≤ v / 16 < 16 ∧ 0 ≤ v mod 16 < 16) as [H1 H2] by (Z.div_mod_to_equations; lia).
  rewrite (bind_ret _ _ _ _ _ (hex_digit_run _ _ H1)).
  pose proof (con_print_ok (prefix_chars prefix) s Hs) as Hs1.
  rewrite (bind_ret _ _ _ _ _ (console_putc_run _ _ Hs1)), hex_char_nz by done.
  rewrite (bind_ret _ _ _ _ _ (hex_digit_run _ _ H2)).
  rewrite (bind_ret _ _ _ _ _ (console_putc_run _ _ (con_putc_ok _ _ Hs1))), hex_char_nz by done.
  rewrite con_print_app. simpl. rewrite (Z.mod_small (v / 16)) by done.
  unfold mret, M_ret. f_equal. by destruct prefix.
Qed.

Lemma console_put_hex16_run v prefix s :
  console_ok s.1 → 0 ≤ v < 0x10000 →
  console_put_hex16 v prefix s =
    Ret (Z.of_nat (length (prefix_chars prefix)) + 4)
        (con_print (prefix_chars prefix ++ (hex_char <$> hex_digits 4 v)) s).
Proof.
  intros Hs Hv. unfold console_put_hex16.
  rewrite (bind_ret _ _ _ _ _ (put_prefix_run prefix s Hs)).
  rewrite Z.shiftr_div_pow2 by lia. change (2 ^ 8) with 256.
  rewrite (u8_id (v / 256)) by (Z.div_mod_to_equations; lia).
  pose proof (con_print_ok (prefix_chars prefix) s Hs) as Hs1.
  rewrite (bind_ret _ _ _ _ _ (console_put_hex8_run (v / 256) false _ Hs1
    ltac:(Z.div_mod_to_equations; lia))).
  rewrite (bind_ret _ _ _ _ _ (console_put_hex8_run (u8 v) false _ (con_print_ok _ _ Hs1)
    (u8_range v))).
  rewrite (hex_digits_app 2 2), fmap_app, !con_print_app.
  change (u8 v) with (v mod 16 ^ Z.of_nat 2). rewrite hex_digits_mod.
  unfold mret, M_ret. f_equal. by destruct prefix.
Qed.

Lemma console_put_hex32_run v prefix s :
  console_ok s.1 → 0 ≤ v < 0x100000000 →
  console_put_hex32 v prefix s =
    Ret (Z.of_nat (length (prefix_chars prefix)) + 8)
        (con_print (prefix_chars prefix ++ (hex_char <$> hex_digits 8 v)) s).
Proof.
  intros Hs Hv. unfold console_put_hex32.
  rewrite (bind_ret _ _ _ _ _ (put_prefix_run prefix s Hs)).
  rewrite Z.shiftr_div_pow2 by lia. change (2 ^ 16) with 65536.
  rewrite (u16_id (v / 65536)) by (Z.div_mod_to_equations; lia).
  pose proof (con_print_ok (prefix_chars prefix) s Hs) as Hs1.
  rewrite (bind_ret _ _ _ _ _ (console_put_hex16_run (v / 65536) false _ Hs1
    ltac:(Z.div_mod_to_equations; lia))).
  rewrite (bind_ret _ _ _ _ _ (console_put_hex16_run (u16 v) false _ (con_print_ok _ _ Hs1)
    (u16_range v))).
  rewrite (hex_digits_app 4 4), fmap_app, !con_print_app.
  change (u16 v) with (v mod 16 ^ Z.of_nat 4). rewrite hex_digits_mod.
  unfold mret, M_ret. f_equal. by destruct prefix.
Qed.

(** *** Commands that print and do nothing else *)

Abbreviation con s := (part (T := console * D) s).

(** [m] prints the text [l] in a state that has the console, and always returns. *)
Definition prints {S A} `{!Has (console * D) S} (m : M S A) (l : list Z) : Prop :=
  ∀ s : S, console_ok (con s).1 → ∃ a, m s = Ret a (set_part (con_print l (con s)) s).

Section prints.
Context {S : Type} `{!Has (console * D) S}.

Lemma prints_ret {A} (a : A) : prints (S := S) (mret a) [].
Proof. intros s _. exists a. cbn. by rewrite set_part_id. Qed.

Lemma prints_bind {A A'} (m : M S A) (k : A → M S A') l1 l2 :
  prints m l1 → (∀ a, prints (k a) l2) → prints (m ≫= k) (l1 ++ l2).
Proof.
  intros Hm Hk s Hs. destruct (Hm s Hs) as (a & E). rewrite (bind_ret _ _ _ _ _ E).
  destruct (Hk a (set_part (con_print l1 (con s)) s)) as (a' & E'); [rewrite part_set; by apply con_print_ok|].
  exists a'. by rewrite E', part_set, set_part_twice, con_print_app.
Qed.

Lemma prints_lift {A} (m : M (console * D) A) l :
  (∀ s, console_ok s.1 → ∃ a, m s = Ret a (con_print l s)) → prints (S := S) (lift m) l.
Proof. intros Hm s Hs. destruct (Hm _ Hs) as (a & E). exists a. by apply lift_ret. Qed.

Lemma prints_puts l : Forall (λ ch, ch ≠ 0) l → prints (S := S) (lift (console_puts l)) l.
Proof. intros Hl. apply prints_lift. intros s Hs. eexists. by apply console_puts_run. Qed.

Lemma prints_hex8 v prefix : 0 ≤ v < 0x100 →
  prints (S := S) (lift (console_put_hex8 v prefix)) (prefix_chars prefix ++ (hex_char <$> hex_digits 2 v)).
Proof. intros Hv. apply prints_lift. intros s Hs. eexists. by apply console_put_hex8_run. Qed.

Lemma prints_hex16 v prefix : 0 ≤ v < 0x10000 →
  prints (S := S) (lift (console_put_hex16 v prefix)) (prefix_chars prefix ++ (hex_char <$> hex_digits 4 v)).
Proof. intros Hv. apply prints_lift. intros s Hs. eexists. by apply console_put_hex16_run. Qed.
End prints.
End print.

(** *** A line of text *)

Definition plain (ch : Z) : Prop := ch ≠ 0 ∧ ch ≠ 8 ∧ ch ≠ 10.

Lemma term_putc_plain ch c :
  console_ok c → plain ch → cursor_x c < 79 →
  term_putc ch c =
    Console (cursor_x c + 1) (cursor_y c)
            (<[Z.to_nat (cursor_y c * 80 + cursor_x c) := vga_cell ch]> (vga c)).
Proof.
  intros [Hx Hy Hl] (H0 & H8 & H10) Hx'. destruct c as [x y v]; simpl in *.
  unfold term_putc, term_place.
  rewrite (proj2 (Z.eqb_neq ch 0)), (proj2 (Z.eqb_neq ch 10)), (proj2 (Z.eqb_neq ch 8)) by done.
  unfold term_wrap. cbn [cursor_x cursor_y vga].
  rewrite (proj2 (Z.leb_gt 80 (x + 1))) by lia. unfold term_scroll. cbn [cursor_x cursor_y vga].
  by rewrite (proj2 (Z.ltb_lt y 25)) by lia.
Qed.

Section text.
Context {D : Type} `{!Bus D}.

Lemma con_print_plain l (s : console * D) :
  console_ok s.1 → Forall plain l → cursor_x s.1 + Z.of_nat (length l) < 80 →
  let pos := Z.to_nat (cursor_y s.1 * 80 + cursor_x s.1) in
  (con_print l s).1 =
    Console (cursor_x s.1 + Z.of_nat (length l)) (cursor_y s.1)
            (take pos (vga s.1) ++ (vga_cell <$> l) ++ drop (pos + length l) (vga s.1)).
Proof.
  intros Hs Hl. revert s Hs. induction Hl as [|ch l Hch Hl IH]; intros s Hs Hx pos.
  { simpl. rewrite Nat.add_0_r, take_drop, Z.add_0_r. by destruct (s.1). }
  pose proof Hs as [Hx' Hy' Hlen]. simpl length in *.
  assert (con_print (ch :: l) s = con_print l (con_putc s ch)) as -> by done.
  assert ((con_putc s ch).1 = term_putc ch s.1) as Hp.
  { unfold con_putc. destruct Hch as [? _]. by rewrite (proj2 (Z.eqb_neq ch 0)). }
  rewrite term_putc_plain in Hp by (done || lia).
  rewrite IH; rewrite ?Hp; cbn [cursor_x cursor_y vga].
  - replace (Z.to_nat (cursor_y s.1 * 80 + (cursor_x s.1 + 1))) with (S pos) by lia.
    f_equal; [lia|]. fold pos. rewrite drop_insert_lt by lia.
    rewrite take_S_r with (x := vga_cell ch) by (apply list_lookup_insert_eq; lia).
    rewrite take_insert_ge by lia. rewrite <-app_assoc. simpl. by rewrite Nat.add_succ_r.
  - by apply (con_putc_ok s ch) in Hs; rewrite Hp in Hs.
  - lia.
Qed.
End text.

(** ** Properties *)

Section properties.
Context {D : Type} `{!Bus D}.
Implicit Types (c : console) (d : D).

(** C33 (console, [console_putc]): with the cursor on the screen, every character
    is placed as the terminal [term_putc] says (newline, backspace, wrap at the
    right margin, scroll at the bottom), no cell outside the 80 x 25 buffer is
    touched, the cursor stays on the screen and the CRTC is told where it is;
    a NUL does nothing and counts for nothing. *)
Theorem console_putc_correct c d ch :
  console_ok c →
  console_ok (term_putc ch c) ∧
  console_putc ch (c, d) =
    if ch =? 0 then Ret 0 (c, d)
    else Ret 1 (term_putc ch c,
                crtc_out (cursor_y (term_putc ch c) * 80 + cursor_x (term_putc ch c)) d).
Proof.
  intros Hc. split; [by apply term_putc_ok|].
  rewrite console_putc_run by done. unfold con_putc. by destruct (ch =? 0).
Qed.

(** (console, [console_puts]): a text without control characters that fits
    on the line is written into consecutive cells from the cursor on, every
    other cell keeps its value, and the count returned is its length. *)
Theorem console_puts_line l c d :
  console_ok c → Forall plain l → cursor_x c + Z.of_nat (length l) < 80 →
  let pos := Z.to_nat (cursor_y c * 80 + cursor_x c) in
  ∃ d', console_puts l (c, d) =
    Ret (Z.of_nat (length l))
        (Console (cursor_x c + Z.of_nat (length l)) (cursor_y c)
                 (take pos (vga c) ++ (vga_cell <$> l) ++ drop (pos + length l) (vga c)), d').
Proof.
  intros Hc Hl Hx pos. exists (con_print l (c, d)).2. pose proof Hc as [? _ _].
  rewrite console_puts_run, u8_id; [|lia|done|].
  - f_equal. rewrite (surjective_pairing (con_print l (c, d))). f_equal.
    by rewrite con_print_plain.
  - eapply Forall_impl; [done|]. by intros ch [? _].
Qed.

(** (console, [console_put_dec32]): a 32-bit number is printed as its decimal
    digits, without leading zeros; the ten cells of [digits] are enough. *)
Theorem console_put_dec32_correct val c d :
  console_ok c → 0 ≤ val < 0x100000000 →
  ∃ ds, console_put_dec32 val (c, d) =
          Ret (Z.of_nat (length ds)) (con_print ((λ n, 48 + n) <$> ds) (c, d)) ∧
        digits_value 10 ds = val ∧ Forall (λ n, 0 ≤ n < 10) ds ∧
        (1 ≤ length ds ≤ 10)%nat ∧ (hd 0 ds = 0 → ds = [0]).
Proof. apply (console_put_dec32_run val (c, d)). Qed.

(** (console, [console_put_hex32]): a 32-bit number is printed as exactly its
    eight hexadecimal digits, after [0x] when [prefix] is set, and the count
    returned is the number of characters. *)
Theorem console_put_hex32_correct val prefix c d :
  console_ok c → 0 ≤ val < 0x100000000 →
  ∃ ds, console_put_hex32 val prefix (c, d) =
          Ret (if prefix then 10 else 8)
              (con_print ((if prefix then bytes_of "0x" else []) ++ (hex_char <$> ds)) (c, d)) ∧
        length ds = 8%nat ∧ digits_value 16 ds = val.
Proof.
  intros Hc Hv. exists (hex_digits 8 val). split_and!; [|done|].
  - rewrite console_put_hex32_run by done. by destruct prefix.
  - rewrite hex_digits_value. apply Z.mod_small. done.
Qed.
End properties.

(** ** Witnesses *)

Definition clear_screen : console := Console 3 24 (replicate 2000 blank).

Lemma clear_screen_ok : console_ok clear_screen.
Proof. constructor; simpl; [lia | lia | reflexivity]. Qed.

Definition idle_bus : latches := Latches ∅ [].

Lemma console_putc_correct_witness :
  console_ok clear_screen ∧
  console_putc 10 (clear_screen, idle_bus) =
    Ret 1 (term_putc 10 clear_screen,
           crtc_out (cursor_y (term_putc 10 clear_screen) * 80
                     + cursor_x (term_putc 10 clear_screen)) idle_bus).
Proof.
  split; [exact clear_screen_ok|].
  exact (proj2 (console_putc_correct clear_screen idle_bus 10 clear_screen_ok)).
Defined.

Lemma console_puts_line_witness :
  let l := bytes_of "Done" in
  let pos := Z.to_nat (cursor_y clear_screen * 80 + cursor_x clear_screen) in
  ∃ d', console_puts l (clear_screen, idle_bus) =
    Ret (Z.of_nat (length l))
        (Console (cursor_x clear_screen + Z.of_nat (length l)) (cursor_y clear_screen)
                 (take pos (vga clear_screen) ++ (vga_cell <$> l) ++
                  drop (pos + length l) (vga clear_screen)), d').
Proof.
  apply (console_puts_line (bytes_of "Done") clear_screen idle_bus clear_screen_ok).
  - unfold plain. repeat constructor; done.
  - simpl. lia.
Defined.

Lemma console_put_dec32_correct_witness :
  ∃ ds, console_put_dec32 4294967295 (clear_screen, idle_bus) =
          Ret (Z.of_nat (length ds)) (con_print ((λ n, 48 + n) <$> ds) (clear_screen, idle_bus)) ∧
        digits_value 10 ds = 4294967295 ∧ Forall (λ n, 0 ≤ n < 10) ds ∧
        (1 ≤ length ds ≤ 10)%nat ∧ (hd 0 ds = 0 → ds = [0]).
Proof.
  apply (console_put_dec32_correct 4294967295 clear_screen idle_bus clear_screen_ok). lia.
Defined.

Lemma console_put_hex32_correct_witness :
  ∃ ds, console_put_hex32 0xc0100000 true (clear_screen, idle_bus) =
          Ret 10 (con_print (bytes_of "0x" ++ (hex_char <$> ds)) (clear_screen, idle_bus)) ∧
        length ds = 8%nat ∧ digits_value 16 ds = 0xc0100000.
Proof.
  apply (console_put_hex32_correct 0xc0100000 true clear_screen idle_bus clear_screen_ok). lia.
Defined.
