(* ===== verification/Allocator.v ===== *)
(** * What the kernel needs of its heap

    Clients see the live payloads, by address and size.  Heap.v shows that
    [kmalloc] and [kfree] of src/kernel/heap.c keep these promises. *)

From S2P Require Import Prelude Layout.

Class Allocator `{!Layout} (H : Type) := {
  kmalloc_heap : Z → M H Z;
  kfree_heap : Z → M H unit;
  alloc_ok : H → gmap Z Z → Prop;
  kmalloc_ok h live n :
    alloc_ok h live → 0 ≤ n ≤ KERNEL_HEAP_SIZE →
    (∃ q h' sz, kmalloc_heap n h = Ret q h' ∧ n ≤ sz ∧ live !! q = None ∧
                alloc_ok h' (<[q := sz]> live))
    ∨ kmalloc_heap n h = Ret 0 h;
  kfree_ok h live q sz :
    alloc_ok h live → live !! q = Some sz →
    ∃ h', kfree_heap q h = Ret tt h' ∧ alloc_ok h' (delete q live);
  alloc_range h live q sz :
    alloc_ok h live → live !! q = Some sz →
    kernel_heap < q ∧ 0 ≤ sz ∧ q + sz ≤ kernel_heap + KERNEL_HEAP_SIZE ∧ q mod 4 = 0;
  alloc_apart h live q1 n1 q2 n2 :
    alloc_ok h live → live !! q1 = Some n1 → live !! q2 = Some n2 → q1 ≠ q2 →
    apart q1 n1 q2 n2;
}.
#[global] Hint Mode Allocator - + : typeclass_instances.
