(* ===== verification/Heap.v ===== *)
(** * The kernel heap (src/kernel/heap.c)

    The heap is the 64 KiB array [kernel_heap], tiled by blocks; a block is a
    12-byte header [heap_block_t] followed by its payload, and the headers form
    a list through [next].  The state keeps the headers by their addresses.
    The first part is the code; the second relates it to a list of segments. *)

From S2P Require Import Prelude Layout Allocator.

(** ** The code *)

(** [sizeof(heap_block_t)] on i386: two words and a padded byte. *)
Definition HEADER : Z := 12.

Record heap_block_t := HB { hb_size : Z; hb_is_free : bool; hb_next : Z }.

Record heap := Heap { hdrs : gmap Z heap_block_t; heap_head : Z }.

Definition load_block (p : Z) : M heap heap_block_t := λ h,
  match hdrs h !! p with
  | Some b => Ret b h
  | None => Fault WildAccess h
  end.

Definition store_block (p : Z) (b : heap_block_t) : M heap unit :=
  modify (λ h, Heap (<[p := b]> (hdrs h)) (heap_head h)).

Section code.
Context `{!Layout}.

(** [init_heap] without its two console messages. *)
Definition init_heap_blocks : M heap unit :=
  modify (λ h, Heap (hdrs h) kernel_heap);;
  store_block kernel_heap (HB (KERNEL_HEAP_SIZE - HEADER) true 0).
End code.

Definition split_block (block size : Z) : M heap unit :=
  b ← load_block block;
  if hb_size b <? size +ᵤ HEADER +ᵤ 8 then mret tt
  else
    let new_block := block +ᵤ HEADER +ᵤ size in
    store_block new_block (HB (hb_size b -ᵤ size -ᵤ HEADER) true (hb_next b));;
    store_block block (HB size (hb_is_free b) new_block).

Definition align_up (size : Z) : Z := Z.land (size +ᵤ 0x7) 0xfffffff8.

Fixpoint kmalloc_loop (fuel : nat) (block size : Z) : M heap Z :=
  match fuel with
  | O => fail NoFuel
  | S fuel =>
      if block =? 0 then mret 0
      else
        b ← load_block block;
        if hb_is_free b && (size <=? hb_size b) then
          split_block block size;;
          b ← load_block block;
          store_block block (HB (hb_size b) false (hb_next b));;
          mret (block +ᵤ HEADER)
        else kmalloc_loop fuel (hb_next b) size
  end.

(** No list of headers is longer than the number of stored headers. *)
Definition heap_fuel (h : heap) : nat := S (size (hdrs h)).

Definition kmalloc (size : Z) : M heap Z :=
  let size := align_up size in
  head ← gets heap_head;
  fuel ← gets heap_fuel;
  kmalloc_loop fuel head size.

(** The condition [block->is_free && block->next->is_free && block_consec ==
    (uintptr_t) block->next], with its short circuit; on success the header of
    [block->next]. *)
Definition next_to_merge (b : heap_block_t) (block_consec : Z) : M heap (option heap_block_t) :=
  if hb_is_free b then
    nb ← load_block (hb_next b);
    if hb_is_free nb && (block_consec =? hb_next b) then mret (Some nb) else mret None
  else mret None.

Fixpoint coalesce_loop (fuel : nat) (block : Z) : M heap unit :=
  match fuel with
  | O => fail NoFuel
  | S fuel =>
      if block =? 0 then mret tt
      else
        b ← load_block block;
        if hb_next b =? 0 then mret tt
        else
          let block_consec := block +ᵤ HEADER +ᵤ hb_size b in
          merge ← next_to_merge b block_consec;
          match merge with
          | Some nb =>
              store_block block
                (HB (hb_size b +ᵤ (HEADER +ᵤ hb_size nb)) (hb_is_free b) (hb_next nb));;
              coalesce_loop fuel block
          | None => coalesce_loop fuel (hb_next b)
          end
  end.

Definition coalesce_free_blocks : M heap unit :=
  head ← gets heap_head;
  fuel ← gets heap_fuel;
  coalesce_loop fuel head.

Definition kfree (data_ptr : Z) : M heap unit :=
  let block := data_ptr -ᵤ HEADER in
  b ← load_block block;
  store_block block (HB (hb_size b) true (hb_next b));;
  coalesce_free_blocks.

(** ** Segments: what the list of headers means

    A segment is the size of a block's payload and whether it is free.  The
    blocks of a list of segments that starts at [p] tile the addresses from [p]
    on. *)

Abbreviation seg := (Z * bool)%type.

Definition seg_end (p : Z) (s : seg) : Z := p + HEADER + s.1.

Definition extent (l : list seg) : Z := zsum ((λ s, HEADER + s.1) <$> l).

Definition link (p : Z) (l : list seg) : Z := match l with [] => 0 | _ :: _ => p end.

Fixpoint chain (m : gmap Z heap_block_t) (p : Z) (l : list seg) : Prop :=
  match l with
  | [] => True
  | s :: l =>
      m !! p = Some (HB s.1 s.2 (link (seg_end p s) l)) ∧ chain m (seg_end p s) l
  end.

(** First fit over segments: the payload address and the segments left. *)
Definition carve (n : Z) (s : seg) : list seg :=
  if s.1 <? n + HEADER + 8 then [(s.1, false)] else [(n, false); (s.1 - n - HEADER, true)].

Fixpoint first_fit (n p : Z) (l : list seg) : option (Z * list seg) :=
  match l with
  | [] => None
  | s :: l =>
      if s.2 && (n <=? s.1) then Some (p + HEADER, carve n s ++ l)
      else match first_fit n (seg_end p s) l with
           | Some (q, l') => Some (q, s :: l')
           | None => None
           end
  end.

(** Merging every free segment with a free segment after it. *)
Definition merge_into (s : seg) (l : list seg) : list seg :=
  match l with
  | t :: l' => if s.2 && t.2 then (s.1 + (HEADER + t.1), true) :: l' else s :: l
  | [] => [s]
  end.

Definition coalesce (l : list seg) : list seg := foldr merge_into [] l.

(** Marking as free the segment whose payload starts at [q]. *)
Fixpoint mark_free (q p : Z) (l : list seg) : list seg :=
  match l with
  | [] => []
  | s :: l =>
      if p + HEADER =? q then (s.1, true) :: l else s :: mark_free q (seg_end p s) l
  end.

(** The allocated payloads: their addresses and sizes. *)
Fixpoint payloads (p : Z) (l : list seg) : gmap Z Z :=
  match l with
  | [] => ∅
  | s :: l =>
      let m := payloads (seg_end p s) l in
      if s.2 then m else <[p + HEADER := s.1]> m
  end.

(** No free segment is followed by a free one. *)
Fixpoint coalesced (l : list seg) : bool :=
  match l with
  | s :: ((t :: _) as l') => negb (s.2 && t.2) && coalesced l'
  | _ => true
  end.

(** ** Segment lists *)

Implicit Types (s t : seg) (l : list seg) (m : gmap Z heap_block_t).

Definition sized l : Prop := Forall (λ s, 0 ≤ s.1 ∧ s.1 mod 4 = 0) l.

Lemma chain_ext m m' p l :
  sized l → chain m p l → (∀ a, p ≤ a → m' !! a = m !! a) → chain m' p l.
Proof.
  revert p. induction l as [|s l IH]; intros p Hs Hc Hm; [done|].
  apply Forall_cons in Hs as [? Hs]. destruct Hc as [Hp Hc]. split.
  - rewrite Hm; [done | lia].
  - apply IH; [done..|]. unfold seg_end, HEADER. intros a ?. apply Hm. lia.
Qed.

Lemma chain_length m p l : sized l → chain m p l → (length l ≤ size m)%nat.
Proof.
  revert m p. induction l as [|s l IH]; intros m p Hs Hc; [simpl; lia|].
  apply Forall_cons in Hs as [? Hs]. destruct Hc as [Hp Hc].
  assert (length l ≤ size (delete p m))%nat as Hl.
  { eapply IH; [done|]. eapply chain_ext; [done..|].
    unfold seg_end, HEADER. intros a ?. apply lookup_delete_ne. lia. }
  rewrite map_size_delete_Some in Hl by eauto.
  assert (size m ≠ 0%nat). { intros E%map_size_empty_inv. set_solver. }
  simpl. lia.
Qed.

Lemma link_nonempty p l l' : l ≠ [] → l' ≠ [] → link p l = link p l'.
Proof. by destruct l, l'. Qed.

Lemma first_fit_nonempty n p l q l' : first_fit n p l = Some (q, l') → l' ≠ [].
Proof.
  destruct l as [|s l]; simpl; [done|]. unfold carve. repeat case_match; naive_solver.
Qed.

Lemma coalesce_nonempty l : l ≠ [] → coalesce l ≠ [].
Proof.
  destruct l as [|s l]; [done|]. simpl. unfold merge_into. by repeat case_match.
Qed.

Lemma extent_cons s l : extent (s :: l) = HEADER + s.1 + extent l.
Proof. done. Qed.
Lemma extent_app l1 l2 : extent (l1 ++ l2) = extent l1 + extent l2.
Proof. unfold extent. by rewrite fmap_app, zsum_app. Qed.
Lemma extent_nonneg l : sized l → 0 ≤ extent l.
Proof. induction 1; rewrite ?extent_cons; unfold HEADER, extent in *; simpl in *; lia. Qed.

(** First fit takes a free segment that is large enough, exactly when there is
    one; it moves no other payload and keeps the extent. *)
Lemma first_fit_None n p l :
  first_fit n p l = None ↔ Forall (λ s, s.2 = true → s.1 < n) l.
Proof.
  revert p. induction l as [|s l IH]; intros p; simpl; [done|].
  rewrite Forall_cons, <-(IH (seg_end p s)).
  assert (s.2 && (n <=? s.1) = false ↔ (s.2 = true → s.1 < n)) as <-.
  { destruct s.2; simpl; [rewrite Z.leb_gt; tauto | done]. }
  destruct (s.2 && (n <=? s.1)); [by split; [|intros [? _]]|].
  destruct (first_fit n (seg_end p s) l) as [[]|]; [by split; [|intros [_ ?]] | tauto].
Qed.

Lemma first_fit_extent n p l q l' :
  first_fit n p l = Some (q, l') → extent l' = extent l.
Proof.
  revert p q l'. induction l as [|s l IH]; intros p q l' H; simpl in H; [done|].
  destruct (s.2 && (n <=? s.1)).
  - simplify_eq. rewrite extent_app, extent_cons. f_equal. unfold carve.
    case_match; unfold extent, HEADER; simpl; lia.
  - destruct (first_fit n (seg_end p s) l) as [[q0 l0]|] eqn:E; simplify_eq.
    rewrite !extent_cons. erewrite IH; eauto.
Qed.

Lemma first_fit_sized n p l q l' :
  0 ≤ n → n mod 4 = 0 → sized l → first_fit n p l = Some (q, l') → sized l'.
Proof.
  intros Hn Hm Hs. revert p q l'.
  induction Hs as [|s l [Hs0 Hs4] Hs IH]; intros p q l' H; simpl in H; [done|].
  destruct (s.2 && (n <=? s.1)) eqn:E.
  - apply andb_prop in E as [_ ?%Z.leb_le]. simplify_eq.
    apply Forall_app; split; [|done]. unfold carve, HEADER.
    destruct (Z.ltb_spec s.1 (n + 12 + 8)); rewrite ?Forall_cons, Forall_nil; simpl;
      split_and!; try done; Z.div_mod_to_equations; lia.
  - destruct (first_fit n (seg_end p s) l) as [[q0 l0]|] eqn:E0; simplify_eq.
    apply Forall_cons. split; [done | by eapply IH].
Qed.

Definition starts_free l : bool := match l with [] => false | t :: _ => t.2 end.

Lemma coalesced_cons s l :
  coalesced (s :: l) = negb (s.2 && starts_free l) && coalesced l.
Proof. destruct l; simpl; [by rewrite andb_false_r | done]. Qed.

Lemma coalesced_app_r l1 l2 : coalesced (l1 ++ l2) = true → coalesced l2 = true.
Proof.
  induction l1 as [|s l1 IH]; [done|]. simpl app. rewrite coalesced_cons.
  intros [_ ?]%andb_prop. auto.
Qed.

Lemma first_fit_starts_free n p l q l' :
  first_fit n p l = Some (q, l') → starts_free l = false → starts_free l' = false.
Proof.
  destruct l as [|s l]; simpl; [done|]. intros H Hs. rewrite Hs in H. simpl in H.
  repeat case_match; by simplify_eq.
Qed.

Lemma first_fit_coalesced n p l q l' :
  coalesced l = true → first_fit n p l = Some (q, l') → coalesced l' = true.
Proof.
  revert p q l'. induction l as [|s l IH]; intros p q l' Hc H; simpl in H; [done|].
  rewrite coalesced_cons in Hc. apply andb_prop in Hc as [Hst Hl].
  destruct (s.2 && (n <=? s.1)) eqn:E.
  - apply andb_prop in E as [Hfree _]. rewrite Hfree in Hst. simpl in Hst. simplify_eq.
    unfold carve. case_match; simpl app; rewrite !coalesced_cons, Hl; simpl; [done|].
    by rewrite Hst.
  - destruct (first_fit n (seg_end p s) l) as [[q0 l0]|] eqn:E0; simplify_eq.
    rewrite coalesced_cons. erewrite IH by eauto. rewrite andb_true_r.
    destruct s.2; [|done]. simpl in *. erewrite first_fit_starts_free; [done..|].
    by apply negb_true_iff.
Qed.

Lemma payloads_below p l q : sized l → q < p + HEADER → payloads p l !! q = None.
Proof.
  intros Hs. revert p. induction Hs as [|s l [Hs0 _] Hs IH]; intros p Hq; simpl; [done|].
  assert (payloads (seg_end p s) l !! q = None) by (apply IH; unfold seg_end, HEADER in *; lia).
  case_match; [done|]. rewrite lookup_insert_ne; [done | lia].
Qed.

Lemma first_fit_payloads n p l q l' :
  0 ≤ n → sized l → first_fit n p l = Some (q, l') →
  p + HEADER ≤ q ∧ payloads p l !! q = None ∧
  ∃ sz, n ≤ sz < n + HEADER + 8 ∧ payloads p l' = <[q := sz]> (payloads p l).
Proof.
  intros Hn Hs. revert p q l'.
  induction Hs as [|s l [Hs0 Hs4] Hs IH]; intros p q l' H; simpl in H; [done|].
  destruct (s.2 && (n <=? s.1)) eqn:E.
  - apply andb_prop in E as [Hfree ?%Z.leb_le]. simplify_eq. simpl. rewrite Hfree.
    split_and!; [lia | apply payloads_below; [done | unfold seg_end, HEADER; lia] |].
    unfold carve. destruct (Z.ltb_spec s.1 (n + HEADER + 8)).
    + exists s.1. split; [lia|]. done.
    + exists n. split; [unfold HEADER; lia|]. simpl. do 2 f_equal.
      unfold seg_end; simpl. lia.
  - destruct (first_fit n (seg_end p s) l) as [[q0 l0]|] eqn:E0; simplify_eq.
    edestruct IH as (Hq & Hnone & sz & Hsz & Hpay); [done|].
    assert (p + HEADER < q) by (unfold seg_end, HEADER in *; lia).
    split; [lia|]. simpl. rewrite Hpay. destruct s.2.
    + eauto.
    + rewrite lookup_insert_ne by lia. split; [done|]. exists sz. split; [done|].
      apply insert_insert_ne. lia.
Qed.

(** Merging keeps the extent and the payloads, and leaves no two free
    neighbours; on a coalesced list it does nothing. *)
Lemma coalesce_cons s l : coalesce (s :: l) = merge_into s (coalesce l).
Proof. done. Qed.

Lemma coalesce_starts_free l : starts_free (coalesce l) = starts_free l.
Proof.
  destruct l as [|s l]; [done|]. rewrite coalesce_cons. unfold merge_into.
  destruct (coalesce l) as [|t l']; [done|].
  destruct (s.2 && t.2) eqn:E; [|done]. apply andb_prop in E as [E _]. simpl. by rewrite E.
Qed.

Lemma coalesce_coalesced l : coalesced (coalesce l) = true.
Proof.
  induction l as [|s l IH]; [done|]. rewrite coalesce_cons. unfold merge_into.
  destruct (coalesce l) as [|t l'] eqn:El; [done|].
  destruct (s.2 && t.2) eqn:E.
  - rewrite coalesced_cons in IH |- *. apply andb_prop in IH as [Ht ->].
    apply andb_prop in E as [_ E]. rewrite E in Ht. simpl in *. by rewrite Ht.
  - rewrite coalesced_cons. simpl. by rewrite E.
Qed.

Lemma coalesce_id l : coalesced l = true → coalesce l = l.
Proof.
  induction l as [|s l IH]; [done|]. rewrite coalesced_cons, coalesce_cons.
  intros [Hs Hl]%andb_prop. rewrite IH by done. unfold merge_into.
  destruct l as [|t l]; [done|]. simpl in Hs. apply negb_true_iff in Hs. by rewrite Hs.
Qed.

Lemma coalesce_extent l : extent (coalesce l) = extent l.
Proof.
  induction l as [|s l IH]; [done|]. rewrite coalesce_cons. unfold merge_into.
  destruct (coalesce l) as [|t l'].
  - rewrite !extent_cons, <-IH. done.
  - destruct (s.2 && t.2); rewrite !extent_cons, <-IH, extent_cons; simpl; lia.
Qed.

Lemma coalesce_sized l : sized l → sized (coalesce l).
Proof.
  induction 1 as [|s l [Hs Hm] Hl IH]; [by apply Forall_nil|]. rewrite coalesce_cons. unfold merge_into.
  destruct (coalesce l) as [|t l']; [by apply Forall_singleton|].
  apply Forall_cons in IH as [[Ht Htm] IH].
  destruct (s.2 && t.2); unfold sized; rewrite !Forall_cons; unfold HEADER; simpl;
    split_and!; try done; Z.div_mod_to_equations; lia.
Qed.

Lemma coalesce_payloads p l : payloads p (coalesce l) = payloads p l.
Proof.
  revert p. induction l as [|s l IH]; intros p; [done|]. rewrite coalesce_cons.
  unfold merge_into. simpl. specialize (IH (seg_end p s)).
  destruct (coalesce l) as [|t l']; [by rewrite <-IH|].
  destruct (s.2 && t.2) eqn:E; simpl; rewrite <-IH; simpl; [|done].
  apply andb_prop in E as [-> ->]. unfold seg_end; simpl. f_equal. lia.
Qed.

Lemma mark_free_extent q p l : extent (mark_free q p l) = extent l.
Proof.
  revert p. induction l as [|s l IH]; intros p; simpl; [done|].
  case_match; rewrite !extent_cons; [done | by rewrite IH].
Qed.

Lemma mark_free_sized q p l : sized l → sized (mark_free q p l).
Proof.
  intros Hs. revert p. induction Hs; intros p; simpl; [by apply Forall_nil|].
  case_match; apply Forall_cons; split; try done. apply IHHs.
Qed.

Lemma mark_free_payloads q p l :
  sized l → payloads p (mark_free q p l) = delete q (payloads p l).
Proof.
  intros Hs. revert p. induction Hs as [|s l [Hs0 _] Hs IH]; intros p; simpl.
  { by rewrite delete_empty. }
  destruct (Z.eqb_spec (p + HEADER) q) as [<-|Hne]; simpl.
  - assert (payloads (seg_end p s) l !! (p + HEADER) = None).
    { apply payloads_below; [done | unfold seg_end, HEADER; lia]. }
    unfold seg_end; simpl. destruct s.2.
    + by rewrite delete_id.
    + rewrite delete_insert_eq. by rewrite delete_id.
  - rewrite IH. destruct s.2; [done|]. by rewrite delete_insert_ne by congruence.
Qed.

(** The round trip over segments: releasing what first fit has just handed out
    restores the list. *)
Lemma first_fit_release n p l q l' :
  0 ≤ n → sized l → coalesced l = true →
  first_fit n p l = Some (q, l') → coalesce (mark_free q p l') = l.
Proof.
  intros Hn Hs Hc. revert p q l' Hc.
  induction Hs as [|s l [Hs0 Hs4] Hs IH]; intros p q l' Hc H; simpl in H; [done|].
  pose proof Hc as Hc'. rewrite coalesced_cons in Hc'. apply andb_prop in Hc' as [Hst Hcl].
  destruct (s.2 && (n <=? s.1)) eqn:E.
  - apply andb_prop in E as [Hfree ?%Z.leb_le]. simplify_eq.
    destruct s as [sz fr]; simpl in *; subst fr. simpl in Hst. apply negb_true_iff in Hst.
    unfold carve. simpl. destruct (sz <? n + HEADER + 8); simpl; rewrite Z.eqb_refl.
    + rewrite !coalesce_cons, coalesce_id by done. unfold merge_into.
      destruct l as [|t l]; [done|]. simpl in *. by rewrite Hst.
    + rewrite !coalesce_cons, coalesce_id by done. unfold merge_into.
      destruct l as [|t l]; simpl; [|simpl in Hst; rewrite Hst; simpl];
        repeat f_equal; lia.
  - destruct (first_fit n (seg_end p s) l) as [[q0 l0]|] eqn:E0; simplify_eq. simpl.
    assert (p + HEADER ≠ q) as Hne.
    { apply first_fit_payloads in E0 as [? _]; [|done..].
      unfold seg_end, HEADER in *. lia. }
    apply Z.eqb_neq in Hne. rewrite Hne, coalesce_cons. erewrite IH by eauto.
    unfold merge_into. destruct l as [|t l]; [done|]. simpl in Hst.
    apply negb_true_iff in Hst. by rewrite Hst.
Qed.

(** ** The code refines the segments *)

(** [below p h h']: the two heaps have the same headers below [p]. *)
Definition below (p : Z) (h h' : heap) : Prop :=
  heap_head h' = heap_head h ∧ ∀ a, a < p → hdrs h' !! a = hdrs h !! a.

Lemma load_block_ret p b h : hdrs h !! p = Some b → load_block p h = Ret b h.
Proof. unfold load_block. by intros ->. Qed.

Lemma split_block_ret m hd p sz l n :
  20 ≤ p → 0 ≤ n ≤ sz → p + HEADER + sz + extent l < 0x100000000 → sized l →
  m !! p = Some (HB sz true (link (p + HEADER + sz) l)) → chain m (p + HEADER + sz) l →
  ∃ m', (split_block p n;; b ← load_block p;
         store_block p (HB (hb_size b) false (hb_next b));; mret (p +ᵤ HEADER))
          (Heap m hd) = Ret (p + HEADER) (Heap m' hd) ∧
        chain m' p (carve n (sz, true) ++ l) ∧ (∀ a, a < p → m' !! a = m !! a).
Proof.
  intros Hp Hn Hend Hs Hm Hc. pose proof (extent_nonneg _ Hs).
  unfold split_block, load_block, store_block, carve, HEADER in *. run. rewrite Hm. simpl.
  rewrite (u32_id (n + 12)), (u32_id (n + 12 + 8)), (u32_id (p + 12)) by lia.
  destruct (Z.ltb_spec sz (n + 12 + 8)); run; rewrite ?Hm, ?lookup_insert_eq; simpl.
  - eexists; split; [done|]. split.
    + rewrite lookup_insert_eq. split; [done|].
      eapply chain_ext; [done..|]. unfold seg_end, HEADER; simpl.
      intros a ?. apply lookup_insert_ne. lia.
    + intros a ?. apply lookup_insert_ne. lia.
  - rewrite (u32_id (p + 12 + n)) by lia.
    rewrite (u32_id (sz - n)), (u32_id (sz - n - 12)) by lia.
    eexists; split; [done|]. unfold seg_end, HEADER; simpl. split_and!.
    + by rewrite lookup_insert_eq.
    + rewrite !lookup_insert_ne by lia. rewrite lookup_insert_eq.
      do 3 f_equal. lia.
    + replace (p + 12 + n + 12 + (sz - n - 12)) with (p + 12 + sz) by lia.
      eapply chain_ext; [done..|]. intros a ?. by rewrite !lookup_insert_ne by lia.
    + intros a ?. by rewrite !lookup_insert_ne by lia.
Qed.

Lemma kmalloc_loop_refines fuel n p l m hd :
  20 ≤ p → p + extent l < 0x100000000 → 0 ≤ n → sized l → chain m p l →
  (length l < fuel)%nat →
  match first_fit n p l with
  | None => kmalloc_loop fuel (link p l) n (Heap m hd) = Ret 0 (Heap m hd)
  | Some (q, l') => ∃ m',
      kmalloc_loop fuel (link p l) n (Heap m hd) = Ret q (Heap m' hd) ∧
      chain m' p l' ∧ ∀ a, a < p → m' !! a = m !! a
  end.
Proof.
  intros Hp He Hn Hs. revert fuel p Hp He.
  induction Hs as [|s l [Hs0 _] Hs IH]; intros fuel p Hp He Hc Hf;
    (destruct fuel as [|fuel]; [simpl in Hf; lia|]); [done|].
  destruct Hc as [Hm Hc]. rewrite extent_cons in He. unfold seg_end in *. simpl.
  pose proof (extent_nonneg _ Hs).
  destruct (Z.eqb_spec p 0) as [?|_]; [lia|].
  rewrite (bind_ret _ _ _ _ _ (load_block_ret p _ (Heap m hd) Hm)). simpl.
  destruct s as [sz fr]; simpl in *. destruct (fr && (n <=? sz)) eqn:E.
  - apply andb_prop in E as [-> ?%Z.leb_le].
    destruct (split_block_ret m hd p sz l n) as (m' & Hrun & Hc' & Hb); [done||lia..|].
    by exists m'.
  - unfold HEADER in *. specialize (IH fuel (p + 12 + sz)).
    change (seg_end p (sz, fr)) with (p + 12 + sz).
    destruct (first_fit n (p + 12 + sz) l) as [[q l']|] eqn:Eff; [|apply IH; simpl in *; (done || lia)].
    destruct IH as (m' & Hrun & Hc' & Hb); [simpl in *; (done || lia)..|].
    exists m'. split; [done|]. split; [|intros a ?; apply Hb; lia]. split; [|done].
    simpl. change (seg_end p (sz, fr)) with (p + 12 + sz).
    rewrite Hb by lia. rewrite Hm. do 2 f_equal.
    apply link_nonempty; [by intros -> | by eapply first_fit_nonempty].
Qed.

Lemma coalesce_merge s t l :
  s.2 && t.2 = true →
  coalesce (s :: t :: l) = coalesce ((s.1 + (HEADER + t.1), true) :: l).
Proof.
  intros [Es Et]%andb_prop. rewrite !coalesce_cons. unfold merge_into.
  destruct (coalesce l) as [|u l']; simpl; [by rewrite Es, Et|].
  rewrite Et. simpl. destruct u.2; simpl; rewrite Es; simpl; [|by rewrite Et].
  do 2 f_equal. lia.
Qed.

Lemma coalesce_skip s t l :
  s.2 && t.2 = false → coalesce (s :: t :: l) = s :: coalesce (t :: l).
Proof.
  intros E. rewrite (coalesce_cons s). pose proof (coalesce_starts_free (t :: l)) as Ht.
  pose proof (coalesce_nonempty (t :: l)) as Hne. unfold merge_into.
  destruct (coalesce (t :: l)) as [|u l']; [by destruct Hne|].
  simpl in Ht. by rewrite Ht, E.
Qed.

(** One turn of the loop at a block with a block after it. *)
Lemma coalesce_loop_step fuel p s t l m hd :
  20 ≤ p → p + extent (s :: t :: l) < 0x100000000 → sized (s :: t :: l) →
  chain m p (s :: t :: l) →
  coalesce_loop (S fuel) p (Heap m hd) =
    if s.2 && t.2 then
      coalesce_loop fuel p
        (Heap (<[p := HB (s.1 + (HEADER + t.1)) true
                         (link (seg_end p (s.1 + (HEADER + t.1), true)) l)]> m) hd)
    else coalesce_loop fuel (seg_end p s) (Heap m hd).
Proof.
  intros Hp He [[Hs0 Hs4] [[Ht0 Ht4] Hl]%Forall_cons]%Forall_cons (Hm & Hm2 & _).
  rewrite !extent_cons in He. pose proof (extent_nonneg _ Hl).
  unfold seg_end, HEADER in *. simpl link in *. simpl.
  destruct (Z.eqb_spec p 0) as [?|_]; [lia|].
  rewrite (bind_ret _ _ _ _ _ (load_block_ret p _ (Heap m hd) Hm)). simpl.
  destruct (Z.eqb_spec (p + 12 + s.1) 0) as [?|_]; [lia|].
  unfold HEADER. rewrite (u32_id (p + 12)), (u32_id (p + 12 + s.1)) by lia.
  unfold next_to_merge, load_block, store_block. simpl.
  destruct s.2; simpl; [|done]. run. rewrite Hm2. simpl. rewrite Z.eqb_refl.
  destruct t.2; simpl; [|done]. unfold HEADER.
  rewrite (u32_id (12 + t.1)), (u32_id (s.1 + (12 + t.1))) by lia.
  by replace (p + 12 + (s.1 + (12 + t.1))) with (p + 12 + s.1 + 12 + t.1) by lia.
Qed.

Lemma coalesce_loop_refines fuel p l m hd :
  20 ≤ p → p + extent l < 0x100000000 → sized l → chain m p l →
  (length l < fuel)%nat →
  ∃ m', coalesce_loop fuel (link p l) (Heap m hd) = Ret tt (Heap m' hd) ∧
        chain m' p (coalesce l) ∧ ∀ a, a < p → m' !! a = m !! a.
Proof.
  revert p l m. induction fuel as [|fuel IH]; intros p l m Hp He Hs Hc Hf; [lia|].
  destruct l as [|s [|t l]]; [by exists m| |].
  { exists m. destruct Hc as [Hm _]. split; [|done]. simpl.
    destruct (Z.eqb_spec p 0); [done|].
    by rewrite (bind_ret _ _ _ _ _ (load_block_ret p _ (Heap m hd) Hm)). }
  rewrite (coalesce_loop_step fuel p s t l) by done.
  pose proof Hs as [[Hs0 Hs4] [[Ht0 Ht4] Hl]%Forall_cons]%Forall_cons.
  pose proof Hc as (Hm & Hm2 & Hc'). rewrite !extent_cons in He.
  pose proof (extent_nonneg _ Hl). destruct (s.2 && t.2) eqn:E.
  - rewrite coalesce_merge by done.
    edestruct (IH p ((s.1 + (HEADER + t.1), true) :: l)) as (m' & Hrun & Hcm & Hb);
      [| | | | |exists m'; split; [exact Hrun|split; [done|]]]; [done|..].
    + rewrite extent_cons. simpl. lia.
    + apply Forall_cons. unfold HEADER. simpl.
      split_and!; [lia | Z.div_mod_to_equations; lia | done].
    + split; [by rewrite lookup_insert_eq|].
      replace (seg_end p _) with (seg_end (seg_end p s) t)
        by (unfold seg_end; simpl; lia).
      eapply chain_ext; [done..|]. intros a ?. apply lookup_insert_ne.
      unfold seg_end, HEADER in *. lia.
    + simpl in *. lia.
    + intros a ?. rewrite Hb by lia. apply lookup_insert_ne. lia.
  - rewrite coalesce_skip by done. unfold seg_end, HEADER in *.
    destruct (IH (p + 12 + s.1) (t :: l) m) as (m' & Hrun & Hcm & Hb).
    1-5: rewrite ?extent_cons; unfold sized, HEADER; rewrite ?Forall_cons;
      simpl in *; (done || lia).
    exists m'. split; [done|]. split; [|intros a ?; apply Hb; lia].
    split; [|done]. unfold seg_end, HEADER. rewrite Hb by lia. rewrite Hm.
    do 2 f_equal. by apply link_nonempty, coalesce_nonempty.
Qed.

(** ** The heap invariant and the operations *)

Lemma align_up_eq n : 0 ≤ n < 0xfffffff9 → align_up n = n + 7 - (n + 7) mod 8.
Proof.
  intros ?. unfold align_up. rewrite u32_id by lia.
  by rewrite (land_ldiff_ones (n + 0x7) 3) by (done || lia).
Qed.

Lemma align_up_spec n :
  0 ≤ n < 0xfffffff9 → n ≤ align_up n < n + 8 ∧ align_up n mod 8 = 0.
Proof. intros ?. rewrite align_up_eq by done. Z.div_mod_to_equations. lia. Qed.

Lemma align_up_wraps n : 0xfffffff9 ≤ n < 0x100000000 → align_up n = 0.
Proof.
  intros ?. unfold align_up, u32.
  replace ((n + 7) mod 4294967296) with (n + 7 - 4294967296)
    by (Z.div_mod_to_equations; lia).
  rewrite (land_ldiff_ones _ 3) by (done || lia). Z.div_mod_to_equations. lia.
Qed.

(** Payloads lie inside the tiled addresses, aligned to 4 and pairwise apart by
    at least a header. *)
Lemma payloads_range p l q n :
  sized l → payloads p l !! q = Some n →
  0 ≤ n ∧ p + HEADER ≤ q ∧ q + n ≤ p + extent l ∧ (p mod 4 = 0 → q mod 4 = 0).
Proof.
  intros Hs. revert p. induction Hs as [|s l [Hs0 Hs4] Hs IH]; intros p Hq; [done|].
  rewrite extent_cons. simpl in Hq. pose proof (extent_nonneg _ Hs).
  assert (payloads (seg_end p s) l !! q = Some n ∨ q = p + HEADER ∧ n = s.1) as [H'|[-> ->]].
  { destruct s.2; [by left|]. apply lookup_insert_Some in Hq as [[<- <-]|[_ ?]]; auto. }
  - apply IH in H' as (? & ? & ? & Hmod). unfold seg_end, HEADER in *.
    split_and!; try lia. intros ?. apply Hmod. Z.div_mod_to_equations. lia.
  - unfold HEADER. split_and!; try lia. intros ?. Z.div_mod_to_equations. lia.
Qed.

Lemma payloads_apart p l q1 n1 q2 n2 :
  sized l → payloads p l !! q1 = Some n1 → payloads p l !! q2 = Some n2 → q1 < q2 →
  q1 + n1 + HEADER ≤ q2.
Proof.
  intros Hs. revert p. induction Hs as [|s l [Hs0 Hs4] Hs IH]; intros p H1 H2 ?; [done|].
  simpl in *. destruct s.2; [by eapply IH|].
  apply lookup_insert_Some in H1 as [[<- <-]|[? H1]], H2 as [[<- <-]|[? H2]]; [lia|..].
  - apply payloads_range in H2; [|done]. unfold seg_end in *. lia.
  - apply payloads_range in H1; [|done]. unfold seg_end, HEADER in *. lia.
  - by eapply IH.
Qed.

Section heap_inv.
Context `{!Layout}.

Record heap_inv (h : heap) (l : list seg) : Prop := {
  hi_head : heap_head h = kernel_heap;
  hi_chain : chain (hdrs h) kernel_heap l;
  hi_sized : sized l;
  hi_extent : extent l = KERNEL_HEAP_SIZE;
  hi_coalesced : coalesced l = true;
}.

(** The allocated payloads, by address. *)
Definition live (l : list seg) : gmap Z Z := payloads kernel_heap l.

Lemma kernel_heap_bounds :
  20 ≤ kernel_heap ∧ kernel_heap + KERNEL_HEAP_SIZE < 0x100000000.
Proof. pose proof kernel_heap_range. unfold in_kernel, KERNEL_VMA, KERNEL_VMA_END in *. lia. Qed.

Lemma link_head h l : heap_inv h l → link kernel_heap l = heap_head h.
Proof.
  intros []. destruct l; [|done]. unfold extent in *. simpl in *. done.
Qed.

Lemma heap_fuel_enough h l : heap_inv h l → (length l < heap_fuel h)%nat.
Proof.
  intros []. unfold heap_fuel. apply Nat.lt_succ_r.
  by eapply chain_length.
Qed.

Lemma kmalloc_refines h l n :
  heap_inv h l → 0 ≤ align_up n → align_up n mod 4 = 0 →
  match first_fit (align_up n) kernel_heap l with
  | None => kmalloc n h = Ret 0 h
  | Some (q, l') => ∃ h', kmalloc n h = Ret q h' ∧ heap_inv h' l'
  end.
Proof.
  intros Hh Hn Hn4. pose proof Hh as []. pose proof kernel_heap_bounds.
  pose proof (kmalloc_loop_refines (heap_fuel h) (align_up n) kernel_heap l
                (hdrs h) (heap_head h)) as Hloop.
  specialize (Hloop ltac:(lia) ltac:(lia) Hn hi_sized0 hi_chain0 (heap_fuel_enough _ _ Hh)).
  rewrite (link_head _ _ Hh) in Hloop. unfold kmalloc. run.
  destruct h as [m hd]; simpl in *.
  destruct (first_fit _ _ _) as [[q l']|] eqn:E; [|done].
  destruct Hloop as (m' & Hrun & Hc & _). eexists; split; [done|]. constructor; simpl; try done.
  - by eapply first_fit_sized.
  - by erewrite first_fit_extent.
  - by eapply first_fit_coalesced.
Qed.

Lemma live_block_present p l q sz m :
  sized l → chain m p l → payloads p l !! q = Some sz →
  ∃ nx, m !! (q - HEADER) = Some (HB sz false nx) ∧
        chain (<[q - HEADER := HB sz true nx]> m) p (mark_free q p l) ∧
        p + HEADER ≤ q ∧ q + sz ≤ p + extent l ∧ sz mod 4 = 0.
Proof.
  intros Hs. revert p. induction Hs as [|s l [Hs0 Hs4] Hs IH]; intros p Hc Hq; [done|].
  destruct Hc as [Hm Hc]. simpl in *. rewrite extent_cons.
  pose proof (extent_nonneg _ Hs).
  destruct (Z.eqb_spec (p + HEADER) q) as [<-|Hne].
  - assert (payloads (seg_end p s) l !! (p + HEADER) = None) as Hnone.
    { apply payloads_below; [done | unfold seg_end, HEADER; lia]. }
    destruct s as [z [|]]; simpl in *; [by rewrite Hnone in Hq|].
    rewrite lookup_insert_eq in Hq. simplify_eq.
    replace (p + HEADER - HEADER) with p by lia.
    exists (link (seg_end p (sz, false)) l). split; [done|].
    split; [|split; [lia | split; [lia | done]]]. split; simpl.
    + by rewrite lookup_insert_eq.
    + eapply chain_ext; [done..|]. unfold seg_end, HEADER; simpl. intros a ?.
      apply lookup_insert_ne. lia.
  - assert (payloads (seg_end p s) l !! q = Some sz) as Hq'.
    { destruct s.2; [done|]. by rewrite lookup_insert_ne in Hq. }
    destruct (IH _ Hc Hq') as (nx & Hx & Hc' & Hlo & Hhi & H4).
    exists nx. unfold seg_end, HEADER in *. split; [done|].
    split; [|split; [lia | split; [lia | done]]]. split; simpl.
    + rewrite lookup_insert_ne by lia. rewrite Hm. do 2 f_equal.
      destruct l; simpl; [done | by destruct (_ =? q)].
    + unfold seg_end, HEADER. done.
Qed.

Lemma kfree_refines h l q sz :
  heap_inv h l → live l !! q = Some sz →
  ∃ h', kfree q h = Ret tt h' ∧ heap_inv h' (coalesce (mark_free q kernel_heap l)).
Proof.
  intros Hh Hq. pose proof Hh as []. pose proof kernel_heap_bounds.
  destruct (live_block_present kernel_heap l q sz (hdrs h)) as (nx & Hx & Hc & Hlo & Hhi & _);
    [done..|].
  destruct (payloads_range kernel_heap l q sz) as (? & _); [done..|].
  unfold kfree. rewrite u32_id by (unfold HEADER in *; lia).
  rewrite (bind_ret _ _ _ _ _ (load_block_ret _ _ _ Hx)). simpl.
  destruct (coalesce_loop_refines
              (heap_fuel (Heap (<[q - HEADER := HB sz true nx]> (hdrs h)) (heap_head h)))
              kernel_heap (mark_free q kernel_heap l)
              (<[q - HEADER := HB sz true nx]> (hdrs h)) (heap_head h))
    as (m' & Hrun & Hc' & _); try (done || lia).
  - rewrite mark_free_extent. lia.
  - by apply mark_free_sized.
  - unfold heap_fuel. apply Nat.lt_succ_r. eapply chain_length; [|done].
    by apply mark_free_sized.
  - exists (Heap m' (heap_head h)). split.
    + unfold coalesce_free_blocks, store_block. run. rewrite <-Hrun. f_equal.
      destruct l as [|s l]; [done|]. simpl. rewrite hi_head0. by destruct (_ =? q).
    + constructor; simpl; try done.
      * by apply coalesce_sized, mark_free_sized.
      * by rewrite coalesce_extent, mark_free_extent.
      * apply coalesce_coalesced.
Qed.

Lemma live_separated h l q1 n1 q2 n2 :
  heap_inv h l → live l !! q1 = Some n1 → live l !! q2 = Some n2 →
  kernel_heap + HEADER ≤ q1 ∧ q1 + n1 ≤ kernel_heap + KERNEL_HEAP_SIZE ∧ q1 mod 4 = 0 ∧
  0 ≤ n1 ∧ (q1 = q2 ∨ q1 + n1 + HEADER ≤ q2 ∨ q2 + n2 + HEADER ≤ q1).
Proof.
  intros [_ _ Hs He _] H1 H2. pose proof kernel_heap_aligned.
  destruct (payloads_range _ _ _ _ Hs H1) as (? & ? & ? & Hmod).
  split_and!; try lia.
  - apply Hmod. Z.div_mod_to_equations. lia.
  - destruct (Z.lt_trichotomy q1 q2) as [?|[?|?]]; [|by left|];
      right; [left|right]; by eapply payloads_apart.
Qed.

Lemma kmalloc_cases h l n :
  heap_inv h l → 0 ≤ n < 0xfffffff9 →
  (∃ q h' l' sz,
      kmalloc n h = Ret q h' ∧ heap_inv h' l' ∧ live l !! q = None ∧
      live l' = <[q := sz]> (live l) ∧ n ≤ sz < n + 28 ∧
      first_fit (align_up n) kernel_heap l = Some (q, l')) ∨
  (kmalloc n h = Ret 0 h ∧ ∀ s, s ∈ l → s.2 = true → s.1 < align_up n).
Proof.
  intros Hh Hn. destruct (align_up_spec n Hn) as [? ?].
  pose proof (kmalloc_refines h l n Hh) as Hr.
  specialize (Hr ltac:(lia) ltac:(Z.div_mod_to_equations; lia)).
  destruct (first_fit _ _ _) as [[q l']|] eqn:E; [left | right].
  - destruct Hr as (h' & Hrun & Hh'). pose proof Hh as [].
    destruct (first_fit_payloads (align_up n) kernel_heap l q l')
      as (_ & Hnone & sz & Hsz & Hpay); [lia | done..|].
    exists q, h', l', sz. unfold HEADER in *. split_and!; try done; lia.
  - split; [done|]. apply first_fit_None in E. rewrite Forall_forall in E. done.
Qed.
End heap_inv.

(** The heap keeps the promises of [Allocator]. *)
#[export, refine] Instance heap_allocator `{!Layout} : Allocator heap := {|
  kmalloc_heap := kmalloc;
  kfree_heap := kfree;
  alloc_ok h lv := ∃ l, heap_inv h l ∧ live l = lv;
|}.
Proof.
  - intros h lv n (l & Hh & <-) Hn. unfold KERNEL_HEAP_SIZE in Hn.
    destruct (kmalloc_cases h l n Hh) as [(q & h' & l' & sz & ? & ? & ? & ? & ? & _)|[? _]];
      [lia | left | by right].
    exists q, h', sz. split_and!; [done | lia | done | by exists l'].
  - intros h lv q sz (l & Hh & <-) Hq. destruct (kfree_refines h l q sz Hh Hq) as (h' & ? & ?).
    exists h'. split; [done|]. eexists. split; [done|]. unfold live.
    rewrite coalesce_payloads, mark_free_payloads; [done | by destruct Hh].
  - intros h lv q sz (l & Hh & <-) Hq.
    destruct (live_separated h l q sz q sz) as (? & ? & ? & ? & _); [done..|].
    unfold HEADER in *. split_and!; (done || lia).
  - intros h lv q1 n1 q2 n2 (l & Hh & <-) H1 H2 Hne.
    destruct (live_separated h l q1 n1 q2 n2) as (_ & _ & _ & _ & [|[|]]); [done..| |];
      unfold apart, HEADER in *; lia.
Defined.

(** ** Properties *)

Section properties.
Context `{!Layout}.

(** (heap, initialisation and invariant): [init_heap] makes the whole array
    one free block, whatever the memory held. *)
Theorem init_heap_inv h0 :
  ∃ h, init_heap_blocks h0 = Ret tt h ∧
       heap_inv h [(KERNEL_HEAP_SIZE - HEADER, true)] ∧ live [(KERNEL_HEAP_SIZE - HEADER, true)] = ∅.
Proof.
  eexists; split; [done|]. split; [|done]. constructor; simpl; try done.
  - split; [|done]. by rewrite lookup_insert_eq.
  - by apply Forall_singleton.
Qed.

(** C15 (heap, [kmalloc]): a request below [2^32 - 7] bytes terminates without a
    wild access.  It either hands out a payload that was not live, at least as
    large as the request, inside the heap, 4-aligned and apart from every live
    payload, and keeps the invariant; or no free block is large enough and the
    heap is unchanged. *)
Theorem kmalloc_correct h l n :
  heap_inv h l → 0 ≤ n < 0xfffffff9 →
  (∃ q h' l' sz,
      kmalloc n h = Ret q h' ∧ heap_inv h' l' ∧ n ≤ sz ∧
      live l !! q = None ∧ live l' = <[q := sz]> (live l) ∧
      kernel_heap + HEADER ≤ q ∧ q + sz ≤ kernel_heap + KERNEL_HEAP_SIZE ∧ q mod 4 = 0 ∧
      (∀ q2 n2, live l !! q2 = Some n2 → q + sz + HEADER ≤ q2 ∨ q2 + n2 + HEADER ≤ q)) ∨
  (kmalloc n h = Ret 0 h ∧ ∀ s, s ∈ l → s.2 = true → s.1 < align_up n).
Proof.
  intros Hh Hn. destruct (kmalloc_cases h l n Hh Hn) as [(q & h' & l' & sz & Hr & Hh' & Hq & Hl & Hsz & _)|?];
    [left | by right].
  assert (live l' !! q = Some sz) as Hq' by (by rewrite Hl, lookup_insert_eq).
  destruct (live_separated h' l' q sz q sz) as (? & ? & ? & _); [done..|].
  exists q, h', l', sz. split_and!; try (done || lia). intros q2 n2 Hq2.
  destruct (live_separated h' l' q sz q2 n2) as (_ & _ & _ & _ & [->|?]); try done.
  - rewrite Hl, lookup_insert_ne; [done|]. intros ->. by rewrite Hq in Hq2.
  - by rewrite Hq in Hq2.
Qed.

(** C16 (heap, [kfree]): freeing a live payload terminates, removes that payload
    and no other, and leaves the invariant, in particular no two free blocks
    side by side. *)
Theorem kfree_correct h l q sz :
  heap_inv h l → live l !! q = Some sz →
  ∃ h' l', kfree q h = Ret tt h' ∧ heap_inv h' l' ∧ live l' = delete q (live l).
Proof.
  intros Hh Hq. destruct (kfree_refines h l q sz Hh Hq) as (h' & Hr & Hh').
  exists h', (coalesce (mark_free q kernel_heap l)). split_and!; try done. unfold live.
  rewrite coalesce_payloads, mark_free_payloads; [done | by destruct Hh].
Qed.

(** C36 (heap, round trip): freeing at once what [kmalloc] returned restores the
    very segments of the heap: no fragmentation is left behind. *)
Theorem kmalloc_kfree h l n q h' :
  heap_inv h l → 0 ≤ n < 0xfffffff9 → kmalloc n h = Ret q h' → q ≠ 0 →
  ∃ h'', kfree q h' = Ret tt h'' ∧ heap_inv h'' l.
Proof.
  intros Hh Hn Hr Hq. destruct (align_up_spec n Hn) as [? ?]. pose proof Hh as [].
  destruct (kmalloc_cases h l n Hh Hn)
    as [(q1 & h1 & l1 & sz & Hr1 & Hh1 & _ & Hl & _ & Hff)|[Hr0 _]]; [|congruence].
  assert (q1 = q ∧ h1 = h') as [-> ->] by (split; congruence).
  destruct (kfree_refines h' l1 q sz) as (h'' & Hf & Hh''); [done|by rewrite Hl, lookup_insert_eq|].
  exists h''. split; [done|]. by rewrite (first_fit_release (align_up n) kernel_heap l) in Hh'' by (done || lia).
Qed.

(** (heap, overflow): a request within 7 bytes of [2^32] wraps to zero in
    [align_up], so it succeeds on any heap with a free block, and the payload
    it returns is smaller than 28 bytes. *)
Theorem kmalloc_overflow h l n :
  heap_inv h l → 0xfffffff9 ≤ n < 0x100000000 → (∃ s, s ∈ l ∧ s.2 = true) →
  ∃ q h' l' sz, kmalloc n h = Ret q h' ∧ q ≠ 0 ∧ heap_inv h' l' ∧
                live l' !! q = Some sz ∧ sz < 28.
Proof.
  intros Hh Hn (s & Hs & Hfree).
  assert (kmalloc n h = kmalloc 0 h) as ->.
  { unfold kmalloc. rewrite align_up_wraps by done. reflexivity. }
  destruct (kmalloc_cases h l 0 Hh) as [(q & h' & l' & sz & Hr & Hh' & _ & Hl & Hsz & _)|[_ Hno]]; [lia| |].
  - assert (live l' !! q = Some sz) as Hq by (by rewrite Hl, lookup_insert_eq).
    destruct (live_separated h' l' q sz q sz) as (? & _); [done..|].
    exists q, h', l', sz. split_and!; try (done || lia).
    pose proof kernel_heap_bounds. unfold HEADER in *. lia.
  - specialize (Hno s Hs Hfree). destruct Hh as [_ _ Hsz _ _].
    eapply Forall_forall in Hsz; [|done]. change (align_up 0) with 0 in Hno. lia.
Qed.
End properties.

(** ** Witnesses *)

Section witnesses.
#[local] Existing Instance sample_layout.

Definition empty_heap : heap := Heap ∅ 0.

Definition heap0 : heap := Heap {[kernel_heap := HB 65524 true 0]} kernel_heap.

Lemma heap0_inv : heap_inv heap0 [(65524, true)].
Proof.
  constructor; try reflexivity; [|by apply Forall_singleton].
  split; [reflexivity | done].
Qed.

(** [heap0] after one request of 100 bytes. *)
Definition heap1 : heap :=
  Heap (<[kernel_heap := HB 104 false (kernel_heap + 116)]>
          {[kernel_heap + 116 := HB 65408 true 0]}) kernel_heap.

Lemma heap1_inv : heap_inv heap1 [(104, false); (65408, true)].
Proof.
  constructor; try reflexivity; [|by repeat constructor].
  split; [|split; [|done]]; vm_compute; reflexivity.
Qed.

Lemma kmalloc_correct_witness :
  heap_inv heap1 [(104, false); (65408, true)] ∧
  ((∃ q h' l' sz,
      kmalloc 20 heap1 = Ret q h' ∧ heap_inv h' l' ∧ 20 ≤ sz ∧
      live [(104, false); (65408, true)] !! q = None ∧
      live l' = <[q := sz]> (live [(104, false); (65408, true)]) ∧
      kernel_heap + HEADER ≤ q ∧ q + sz ≤ kernel_heap + KERNEL_HEAP_SIZE ∧ q mod 4 = 0 ∧
      (∀ q2 n2, live [(104, false); (65408, true)] !! q2 = Some n2 →
                q + sz + HEADER ≤ q2 ∨ q2 + n2 + HEADER ≤ q)) ∨
   (kmalloc 20 heap1 = Ret 0 heap1 ∧
    ∀ s, s ∈ [(104, false); (65408, true)] → s.2 = true → s.1 < align_up 20)).
Proof. split; [exact heap1_inv | apply (kmalloc_correct heap1 _ 20 heap1_inv); lia]. Defined.

Lemma kfree_correct_witness :
  ∃ h' l', kfree (kernel_heap + 12) heap1 = Ret tt h' ∧ heap_inv h' l' ∧
           live l' = delete (kernel_heap + 12) (live [(104, false); (65408, true)]).
Proof. apply (kfree_correct heap1 _ (kernel_heap + 12) 104 heap1_inv). reflexivity. Defined.

Lemma kmalloc_kfree_witness :
  ∃ h'', kfree (kernel_heap + 12) heap1 = Ret tt h'' ∧ heap_inv h'' [(65524, true)].
Proof.
  apply (kmalloc_kfree heap0 _ 100 (kernel_heap + 12) heap1 heap0_inv); [lia | | done].
  vm_compute. reflexivity.
Defined.

Lemma kmalloc_overflow_witness :
  ∃ q h' l' sz, kmalloc 0xffffffff heap0 = Ret q h' ∧ q ≠ 0 ∧ heap_inv h' l' ∧
                live l' !! q = Some sz ∧ sz < 28.
Proof.
  apply (kmalloc_overflow heap0 _ 0xffffffff heap0_inv); [lia|].
  exists (65524, true). split; [by left | reflexivity].
Defined.
End witnesses.
