(* ===== verification/Tty.v ===== *)
(** * The terminal queue and the keyboard (src/kernel/tty.c, src/kernel/keyboard.c)

    The keyboard interrupt pushes characters into a ring of 256 cells and the
    reader of [tty_read] pops them.  The first part is the code, the second the
    ring as a queue, the third the interleaving of the interrupt with the
    reader's own steps. *)

From S2P Require Import Prelude Ports Console.

Definition TTY_QUEUE_SIZE : Z := 256.

Record tty := Tty { tty_queue : list Z; tty_queue_head : Z; tty_queue_tail : Z }.

Definition queue_empty (t : tty) : bool := tty_queue_head t =? tty_queue_tail t.

Definition tty_queue_push_char (c : Z) : M tty unit := λ t,
  let h := tty_queue_head t in
  if in_array (tty_queue t) h then
    Ret tt (Tty (<[Z.to_nat h := c]> (tty_queue t)) ((h + 1) mod TTY_QUEUE_SIZE) (tty_queue_tail t))
  else Fault OutOfBounds t.

(** The two statements of [tty_queue_pop_char]: the load and the advance. *)
Definition pop_load : M tty Z :=
  t ← gets (λ t, t);
  nth_or (tty_queue t) (tty_queue_tail t).

Definition pop_advance : M tty unit :=
  modify (λ t, Tty (tty_queue t) (tty_queue_head t) ((tty_queue_tail t + 1) mod TTY_QUEUE_SIZE)).

Definition tty_queue_pop_char : M tty Z :=
  c ← pop_load;
  pop_advance;;
  mret c.

(** [init_tty] without its two console messages. *)
Definition init_tty_queue : M tty unit := modify (λ t, Tty (tty_queue t) 0 0).

Definition tty_putc (c : Z) : M tty unit :=
  if c =? 0 then mret tt
  else tty_queue_push_char (if c =? 13 then 10 else c).

Fixpoint deliver (keys : list Z) : M tty unit :=
  match keys with
  | [] => mret tt
  | c :: keys => tty_putc c;; deliver keys
  end.

(** While the queue is empty the processor sleeps in [hlt]; each interrupt that
    wakes it has delivered the next batch of keys. *)
Abbreviation Reader := (M (tty * list (list Z))).

Fixpoint wait_not_empty (fuel : nat) : Reader unit :=
  match fuel with
  | O => fail NoFuel
  | S fuel =>
      s ← gets (λ s, s);
      if queue_empty s.1 then
        match s.2 with
        | [] => fail Asleep
        | keys :: later =>
            lift (modify (λ _ : list (list Z), later));;
            lift (deliver keys);;
            wait_not_empty fuel
        end
      else mret tt
  end.

(** [buf] holds the characters stored so far; the count returned is its length. *)
Fixpoint tty_read_loop (count : nat) (buf : list Z) : Reader (list Z) :=
  match count with
  | O => mret buf
  | S count =>
      s ← gets (λ s, s);
      wait_not_empty (S (length s.2));;
      c ← lift tty_queue_pop_char;
      tty_read_loop count (buf ++ [c])
  end.

Definition tty_read (count : Z) : Reader (list Z) := tty_read_loop (Z.to_nat count) [].

Section write.
Context {D : Type} `{!Bus D}.

Definition tty_write (buf : list Z) (count : Z) : M (console * D) Z :=
  for_range 0 count (λ written, c ← nth_or buf written; console_putc c;; mret tt);;
  mret count.
End write.

(** ** The keyboard *)

Definition KEYBOARD_CONTROLLER_DATA_REGISTER : Z := 0x60.

Definition scancode_map : list Z :=
  [0; 27] ++ bytes_of "1234567890-=" ++ [8; 0] ++
  bytes_of "qwertyuiop[]" ++ [10; 0] ++ bytes_of "as" ++
  bytes_of "dfghjkl;'`" ++ [0; 92] ++ bytes_of "zxcv" ++
  bytes_of "bnm,./" ++ [0; 42; 0; 32; 0; 0; 0; 0; 0; 0] ++
  [0; 0; 0] ++ bytes_of "789-456+1230." ++ replicate 48 0.

Section keyboard.
Context {D : Type} `{!Bus D}.

Definition keyboard_irq_handler : M (tty * D) unit :=
  scancode ← lift (inb KEYBOARD_CONTROLLER_DATA_REGISTER);
  if (Z.land scancode 0x80 =? 0) && (scancode <? Z.of_nat (length scancode_map)) then
    c ← nth_or scancode_map scancode;
    lift (tty_putc c)
  else mret tt.
End keyboard.

(** ** The ring as a queue *)

Record tty_ok (t : tty) : Prop := {
  ok_queue : length (tty_queue t) = 256%nat;
  ok_head : 0 ≤ tty_queue_head t < 256;
  ok_tail : 0 ≤ tty_queue_tail t < 256;
}.

Definition occupancy (t : tty) : Z := (tty_queue_head t - tty_queue_tail t) mod 256.

Definition pending (t : tty) : list Z :=
  (λ i, nth (Z.to_nat ((tty_queue_tail t + i) mod 256)) (tty_queue t) 0)
    <$> seqZ 0 (occupancy t).

Lemma pending_length t : length (pending t) = Z.to_nat (occupancy t).
Proof. unfold pending. by rewrite length_fmap, length_seqZ. Qed.

Lemma queue_empty_pending t : tty_ok t → queue_empty t = true ↔ pending t = [].
Proof.
  intros [_ Hh Ht]. unfold queue_empty. rewrite Z.eqb_eq, <-length_zero_iff_nil, pending_length.
  unfold occupancy. Z.div_mod_to_equations. lia.
Qed.

Lemma push_pending t c :
  tty_ok t → occupancy t < 255 →
  ∃ t', tty_queue_push_char c t = Ret tt t' ∧ tty_ok t' ∧ pending t' = pending t ++ [c] ∧
        tty_queue_tail t' = tty_queue_tail t ∧ occupancy t' = occupancy t + 1.
Proof.
  intros [Hq Hh Ht] Hroom. unfold tty_queue_push_char, in_array, TTY_QUEUE_SIZE.
  rewrite Hq, (proj2 (Z.leb_le _ _)), (proj2 (Z.ltb_lt _ _)) by lia. simpl.
  set (t' := Tty _ _ _).
  assert (occupancy t' = occupancy t + 1) as Hocc.
  { unfold occupancy, t' in *; simpl. Z.div_mod_to_equations. lia. }
  exists t'. split_and!; try done.
  - constructor; simpl; [by rewrite length_insert | | done]. Z.div_mod_to_equations. lia.
  - unfold pending. rewrite Hocc. rewrite seqZ_app by (unfold occupancy; Z.div_mod_to_equations; lia).
    rewrite fmap_app. f_equal.
    + apply list_fmap_ext. intros k i Hi%lookup_seqZ. simpl.
      rewrite !nth_lookup, list_lookup_insert_ne; [done|].
      unfold occupancy in *. Z.div_mod_to_equations. lia.
    + rewrite (seqZ_cons _ 1), (seqZ_nil _ (Z.pred 1)) by lia. simpl. f_equal.
      rewrite nth_lookup. replace (Z.to_nat _) with (Z.to_nat (tty_queue_head t))
        by (unfold occupancy in *; Z.div_mod_to_equations; lia).
      by rewrite list_lookup_insert_eq by lia.
Qed.

Lemma pop_pending t c l :
  tty_ok t → pending t = c :: l →
  pop_load t = Ret c t ∧
  ∃ t', pop_advance t = Ret tt t' ∧ tty_ok t' ∧ pending t' = l ∧ occupancy t' = occupancy t - 1.
Proof.
  intros [Hq Hh Ht] Hp.
  assert (0 < occupancy t) as Hocc.
  { pose proof (pending_length t) as Hl. rewrite Hp in Hl. simpl in Hl. lia. }
  unfold pending in Hp. rewrite seqZ_cons in Hp by done.
  injection Hp as Hc Hl. rewrite Z.add_0_r, Z.mod_small in Hc by lia. split.
  - unfold pop_load, nth_or. rewrite gets_bind. rewrite (proj2 (Z.ltb_ge _ _)) by lia.
    rewrite nth_lookup in Hc.
    destruct (tty_queue t !! Z.to_nat (tty_queue_tail t)) as [x|] eqn:Ex; [by rewrite <-Hc|].
    apply lookup_ge_None in Ex. lia.
  - eexists. split; [done|]. unfold TTY_QUEUE_SIZE.
    set (t' := Tty _ _ _). assert (occupancy t' = occupancy t - 1) as Hocc'.
    { unfold occupancy, t' in *; simpl. Z.div_mod_to_equations. lia. }
    split_and!; try done.
    + constructor; simpl; [done..|]. Z.div_mod_to_equations. lia.
    + rewrite <-Hl. unfold pending. rewrite Hocc'.
      change (seqZ (Z.succ 0)) with (seqZ (1 + 0)). rewrite <-fmap_add_seqZ, <-list_fmap_compose.
      apply list_fmap_ext. intros k i Hi%lookup_seqZ. simpl. do 2 f_equal.
      unfold occupancy, t' in *. simpl in *. Z.div_mod_to_equations. lia.
Qed.

(** ** The interrupt and the reader, step by step

    The reader of [tty_read] is at the test of the [while] loop, before the load
    of [tty_queue_pop_char], or between its load and its advance; the keyboard
    interrupt runs to completion between any two of these.  [s_keys] records the
    characters that were pushed, [s_buf] those that were read. *)

Inductive reader := Testing | Popping | Advancing (c : Z).

Record system := System { s_tty : tty; s_reader : reader; s_buf : list Z; s_keys : list Z }.

(** The character [tty_putc] pushes, if any. *)
Definition key_pushed (c : Z) : list Z :=
  if c =? 0 then [] else [if c =? 13 then 10 else c].

Inductive system_step : system → system → Prop :=
  | step_key t t' r buf keys c :
      occupancy t < 255 → tty_putc c t = Ret tt t' →
      system_step (System t r buf keys) (System t' r buf (keys ++ key_pushed c))
  | step_sleep t buf keys :
      queue_empty t = true →
      system_step (System t Testing buf keys) (System t Testing buf keys)
  | step_test t buf keys :
      queue_empty t = false →
      system_step (System t Testing buf keys) (System t Popping buf keys)
  | step_load t t' c buf keys :
      pop_load t = Ret c t' →
      system_step (System t Popping buf keys) (System t' (Advancing c) buf keys)
  | step_advance t t' c buf keys :
      pop_advance t = Ret tt t' →
      system_step (System t (Advancing c) buf keys) (System t' Testing (buf ++ [c]) keys).

Definition reader_ok (t : tty) (r : reader) : Prop :=
  match r with
  | Testing => True
  | Popping => pending t ≠ []
  | Advancing c => ∃ l, pending t = c :: l
  end.

Definition system_inv (s : system) : Prop :=
  tty_ok (s_tty s) ∧ s_keys s = s_buf s ++ pending (s_tty s) ∧ reader_ok (s_tty s) (s_reader s).

Lemma tty_putc_pending t c :
  tty_ok t → occupancy t < 255 →
  ∃ t', tty_putc c t = Ret tt t' ∧ tty_ok t' ∧ pending t' = pending t ++ key_pushed c ∧
        occupancy t' ≤ occupancy t + 1.
Proof.
  intros Ht Hocc. unfold tty_putc, key_pushed. destruct (c =? 0).
  - exists t. rewrite app_nil_r. split_and!; try done. lia.
  - destruct (push_pending t (if c =? 13 then 10 else c)) as (t' & ? & ? & ? & _ & ?); try done.
    exists t'. split_and!; (done || lia).
Qed.

Lemma reader_ok_app t t' r l : pending t' = pending t ++ l → reader_ok t r → reader_ok t' r.
Proof.
  intros Hp. destruct r as [| |c]; simpl; [done|..]; rewrite Hp.
  - by destruct (pending t).
  - intros [l' ->]. by exists (l' ++ l).
Qed.

Lemma system_step_inv s s' : system_inv s → system_step s s' → system_inv s'.
Proof.
  intros (Ht & Hk & Hr) Hstep.
  destruct Hstep as [t t' r buf keys c Hocc Hp|t buf keys He|t buf keys He|t t' c buf keys Hl|t t' c buf keys Ha];
    simpl in *; [| done | | |].
  - destruct (tty_putc_pending t c Ht Hocc) as (t1 & Hp1 & ? & Hpend & _).
    assert (t1 = t') as -> by congruence. split_and!; simpl; [done | |].
    + by rewrite Hpend, Hk, app_assoc.
    + by eapply reader_ok_app.
  - split_and!; simpl; [done..|]. intros E%queue_empty_pending; [|done]. congruence.
  - destruct (pending t) as [|x l] eqn:E; [done|].
    destruct (pop_pending t x l Ht E) as [Hl' _].
    assert (x = c ∧ t' = t) as [-> ->] by (split; congruence).
    split_and!; simpl; [done | by rewrite Hk, E | by exists l].
  - destruct Hr as [l E]. destruct (pop_pending t c l Ht E) as [_ (t1 & Ha1 & ? & Hpend & _)].
    assert (t1 = t') as -> by congruence. split_and!; simpl; [done | | done].
    by rewrite Hk, Hpend, E, <-app_assoc.
Qed.

(** ** The sequential reader *)

Lemma deliver_pending keys t :
  tty_ok t → occupancy t + Z.of_nat (length keys) < 256 →
  ∃ t', deliver keys t = Ret tt t' ∧ tty_ok t' ∧ pending t' = pending t ++ (keys ≫= key_pushed).
Proof.
  revert t. induction keys as [|c keys IH]; intros t Ht Hocc; simpl in *.
  { exists t. by rewrite app_nil_r. }
  destruct (tty_putc_pending t c) as (t1 & H1 & Ht1 & Hp1 & Ho1); [done | lia|].
  rewrite (bind_ret _ _ _ _ _ H1).
  destruct (IH t1) as (t' & ? & ? & Hp'); [done | lia|].
  exists t'. split_and!; try done. by rewrite Hp', Hp1, <-app_assoc.
Qed.

Lemma deliver_snoc keys k t : deliver (keys ++ [k]) t = (deliver keys;; tty_putc k) t.
Proof.
  revert t. induction keys as [|c keys IH]; intros t; simpl.
  - rewrite mret_bind. unfold mbind, M_bind. by destruct (tty_putc k t) as [[] ?|].
  - rewrite bind_bind. unfold mbind, M_bind in *. destruct (tty_putc c t) as [[] t1|]; [|done].
    by rewrite IH.
Qed.

(** Batches that fit in the ring, and the characters they bring. *)
Definition fits (later : list (list Z)) : Prop :=
  Forall (λ keys : list Z, (length keys < 256)%nat) later.
Definition arriving (later : list (list Z)) : list Z := concat later ≫= key_pushed.

Lemma wait_not_empty_run fuel t later :
  tty_ok t → fits later → pending t ++ arriving later ≠ [] → (length later < fuel)%nat →
  ∃ t' later', wait_not_empty fuel (t, later) = Ret tt (t', later') ∧
    tty_ok t' ∧ fits later' ∧ pending t' ≠ [] ∧ (length later' ≤ length later)%nat ∧
    pending t' ++ arriving later' = pending t ++ arriving later.
Proof.
  revert t later. induction fuel as [|fuel IH]; intros t later Ht Hfit Hne Hfuel; [lia|].
  simpl. rewrite gets_bind. simpl. destruct (queue_empty t) eqn:E.
  - apply queue_empty_pending in E; [|done]. rewrite E in *.
    destruct later as [|keys later]; [done|]. apply Forall_cons in Hfit as [Hk Hfit].
    assert (occupancy t = 0) as Hocc.
    { pose proof (pending_length t) as Hl. rewrite E in Hl. simpl in Hl.
      unfold occupancy in *. Z.div_mod_to_equations. lia. }
    destruct (deliver_pending keys t) as (t1 & Hd & Ht1 & Hp1); [done | lia|].
    erewrite bind_ret by reflexivity. simpl.
    rewrite (bind_ret _ _ _ _ _ (lift_ret _ (t, later) _ _ Hd)). simpl.
    assert (pending t1 ++ arriving later = arriving (keys :: later)) as Heq.
    { rewrite Hp1, E. unfold arriving. simpl. by rewrite bind_app. }
    destruct (IH t1 later) as (t' & later' & ? & ? & ? & ? & ? & Hp'); [done..| | |].
    + by rewrite Heq.
    + simpl in Hfuel. lia.
    + exists t', later'. split_and!; try done; [simpl; lia|]. by rewrite Hp', Heq.
  - exists t, later. split_and!; try done. intros Hnil.
    apply queue_empty_pending in Hnil; congruence.
Qed.

Lemma tty_read_loop_run count buf t later :
  tty_ok t → fits later → (count ≤ length (pending t ++ arriving later))%nat →
  ∃ t' later', tty_read_loop count buf (t, later) =
      Ret (buf ++ take count (pending t ++ arriving later)) (t', later') ∧
    tty_ok t' ∧ pending t' ++ arriving later' = drop count (pending t ++ arriving later).
Proof.
  revert buf t later. induction count as [|count IH]; intros buf t later Ht Hfit Hlen.
  { exists t, later. by rewrite app_nil_r. }
  simpl. rewrite gets_bind.
  destruct (wait_not_empty_run (S (length later)) t later) as
    (t1 & later1 & Hw & Ht1 & Hfit1 & Hne & _ & Hp1); [done..| |lia|].
  { intros E. rewrite E in Hlen. simpl in Hlen. lia. }
  rewrite (bind_ret _ _ _ _ _ Hw). rewrite <-Hp1 in *. clear Hp1 Hw.
  destruct (pending t1) as [|c l] eqn:E; [done|].
  destruct (pop_pending t1 c l Ht1 E) as [Hl (t2 & Ha & Ht2 & Hp2 & _)].
  assert (tty_queue_pop_char t1 = Ret c t2) as Hpop.
  { unfold tty_queue_pop_char. by rewrite (bind_ret _ _ _ _ _ Hl), (bind_ret _ _ _ _ _ Ha). }
  rewrite (bind_ret _ _ _ _ _ (lift_ret _ (t1, later1) _ _ Hpop)). simpl.
  destruct (IH (buf ++ [c]) t2 later1) as (t' & later' & Hrun & ? & Hp'); [done..| |].
  - rewrite Hp2. simpl in Hlen. lia.
  - exists t', later'. rewrite Hrun, Hp', Hp2, <-app_assoc. done.
Qed.

Lemma scancode_cell sc :
  0 ≤ sc < 128 → ∃ c, scancode_map !! Z.to_nat sc = Some c ∧ c ≠ 13.
Proof.
  intros Hsc. destruct (lookup_lt_is_Some_2 scancode_map (Z.to_nat sc)) as [c Hc].
  { change (length scancode_map) with 128%nat. lia. }
  exists c. split; [done|]. assert (forallb (λ c, negb (c =? 13)) scancode_map = true) as HF
    by (vm_compute; reflexivity).
  rewrite forallb_forall in HF. apply list_elem_of_lookup_2, list_elem_of_In, HF in Hc.
  by apply negb_true_iff, Z.eqb_neq in Hc.
Qed.

Lemma scancode_down sc :
  is_byte sc →
  ((Z.land sc 0x80 =? 0) && (sc <? Z.of_nat (length scancode_map))) = (sc <? 128).
Proof.
  intros H. apply (byte_check (λ sc, Bool.eqb ((Z.land sc 0x80 =? 0) &&
    (sc <? Z.of_nat (length scancode_map))) (sc <? 128))) in H; [|vm_compute; reflexivity].
  by apply Bool.eqb_prop in H.
Qed.

#[local] Opaque scancode_map.

Section tty_write.
Context {D : Type} `{!Bus D}.

Lemma tty_write_run buf count (s : console * D) :
  console_ok s.1 → 0 ≤ count ≤ Z.of_nat (length buf) →
  tty_write buf count s = Ret count (con_print (take (Z.to_nat count) buf) s).
Proof.
  intros Hs Hc. unfold tty_write.
  destruct (for_range_inv (λ i s', s' = con_print (take (Z.to_nat i) buf) s) 0 count
    (λ written, c ← nth_or buf written; console_putc c;; mret tt) s) as (s' & Hrun & ->);
    [lia | done | |].
  - intros i s0 Hi ->. destruct (lookup_lt_is_Some_2 buf (Z.to_nat i)) as [c Hcell]; [lia|].
    unfold nth_or. rewrite (proj2 (Z.ltb_ge _ _)), Hcell by lia. simpl. rewrite mret_bind.
    rewrite (bind_ret _ _ _ _ _ (console_putc_run c _ (con_print_ok _ _ Hs))).
    eexists; split; [done|]. replace (Z.to_nat (i + 1)) with (S (Z.to_nat i)) by lia.
    by rewrite (take_S_r _ _ c) by done; rewrite con_print_app.
  - by rewrite (bind_ret _ _ _ _ _ Hrun).
Qed.
End tty_write.

(** ** Properties *)

(** C24 (tty, interleaving): whatever the order in which keyboard interrupts fall
    between the steps of the reader, as long as no interrupt finds 255 characters
    unread, the characters read so far are the first ones pushed, in order, and
    the rest are in the ring: nothing is lost, duplicated or reordered. *)
Theorem tty_fifo t s :
  tty_ok t → pending t = [] → rtc system_step (System t Testing [] []) s →
  tty_ok (s_tty s) ∧ s_keys s = s_buf s ++ pending (s_tty s).
Proof.
  intros Ht Hp Hsteps.
  assert (system_inv s) as (? & ? & _); [|done].
  assert (system_inv (System t Testing [] [])) as Hinv by (split_and!; simpl; [done | by rewrite Hp | done]).
  revert Hinv. induction Hsteps; [done|]. intros Hinv.
  by apply IHHsteps; eapply system_step_inv.
Qed.

(** (tty, [tty_read]): when at least [count] characters are in the ring or
    still to come, in batches that fit in the ring, the call returns, with
    exactly the first [count] of them; the others stay for the next reader. *)
Theorem tty_read_correct count t later :
  tty_ok t → fits later → 0 ≤ count ≤ Z.of_nat (length (pending t ++ arriving later)) →
  ∃ t' later', tty_read count (t, later) =
      Ret (take (Z.to_nat count) (pending t ++ arriving later)) (t', later') ∧
    tty_ok t' ∧
    pending t' ++ arriving later' = drop (Z.to_nat count) (pending t ++ arriving later).
Proof. intros Ht Hfit Hc. apply (tty_read_loop_run (Z.to_nat count) []); [done..|lia]. Qed.

(** (tty, overrun): nothing stops the interrupt from filling the ring: 256 keys
    typed while nobody reads leave it empty, and all of them are lost. *)
Theorem tty_overrun t keys :
  tty_ok t → pending t = [] → length keys = 256%nat → Forall (λ c, c ≠ 0) keys →
  ∃ t', deliver keys t = Ret tt t' ∧ tty_ok t' ∧ pending t' = [].
Proof.
  intros Ht Hp Hl Hnz.
  assert (occupancy t = 0) as Hocc.
  { pose proof (pending_length t) as H. rewrite Hp in H. simpl in H.
    unfold occupancy in *. Z.div_mod_to_equations. lia. }
  assert (∃ ks k, keys = ks ++ [k]) as (ks & k & ->).
  { destruct keys as [|k ks _] using rev_ind; [done | by eauto]. }
  rewrite length_app in Hl. simpl in Hl. apply Forall_app in Hnz as [Hks Hk].
  apply Forall_cons_1 in Hk as [Hk _].
  destruct (deliver_pending ks t) as (t1 & H1 & Ht1 & Hp1); [done | lia|].
  assert (occupancy t1 = 255) as Hocc1.
  { pose proof (pending_length t1) as H. rewrite Hp1, Hp in H.
    assert (length (ks ≫= key_pushed) = length ks) as E.
    { clear -Hks. induction Hks as [|c ks Hc _ IH]; [done|].
      rewrite bind_cons, length_app, IH. unfold key_pushed.
      by rewrite (proj2 (Z.eqb_neq c 0)). }
    simpl in H. rewrite E in H. unfold occupancy in *. Z.div_mod_to_equations. lia. }
  rewrite deliver_snoc, (bind_ret _ _ _ _ _ H1). unfold tty_putc.
  rewrite (proj2 (Z.eqb_neq k 0)) by exact Hk. destruct Ht1 as [Hq1 Hh1 Hta1].
  unfold tty_queue_push_char, in_array, TTY_QUEUE_SIZE.
  rewrite Hq1, (proj2 (Z.leb_le _ _)), (proj2 (Z.ltb_lt _ _)) by lia. simpl.
  eexists; split; [done|]. split.
  - constructor; simpl; [by rewrite length_insert | | done]. Z.div_mod_to_equations. lia.
  - unfold pending. rewrite seqZ_nil; [done|]. unfold occupancy in *. simpl.
    Z.div_mod_to_equations. lia.
Qed.

(** C37 (keyboard, interrupt handler): while fewer than 255 characters are unread, a
    key-down code below 128 whose map entry is not 0 pushes exactly that character;
    every other code (key releases, keys without a character) leaves the queue
    alone; no code reads outside the map.  ([tty_overrun] is what one more unread
    character does.) *)
Theorem keyboard_irq_handler_correct {D} `{!Bus D} (t : tty) (d d' : D) v :
  tty_ok t → occupancy t < 255 → in8 0x60 d = (v, d') →
  ∃ t', keyboard_irq_handler (t, d) = Ret tt (t', d') ∧ tty_ok t' ∧
        pending t' = pending t ++
          (if u8 v <? 128 then filter (λ c, c ≠ 0) [nth (Z.to_nat (u8 v)) scancode_map 0] else []).
Proof.
  intros Ht Hocc Hin. unfold keyboard_irq_handler.
  assert (inb KEYBOARD_CONTROLLER_DATA_REGISTER d = Ret (u8 v) d') as Hinb.
  { unfold inb. change (u16 KEYBOARD_CONTROLLER_DATA_REGISTER) with 0x60. by rewrite Hin. }
  rewrite (bind_ret _ _ _ _ _ (lift_ret _ (t, d) _ _ Hinb)). simpl.
  pose proof (u8_range v) as Hv. rewrite scancode_down by done.
  destruct (Z.ltb_spec (u8 v) 128); [|exists t; by rewrite app_nil_r].
  destruct (scancode_cell (u8 v)) as (c & Hc & H13); [lia|].
  unfold nth_or. rewrite (proj2 (Z.ltb_ge _ _)), Hc by lia. cbn [from_option_or].
  rewrite mret_bind.
  destruct (tty_putc_pending t c Ht Hocc) as (t' & Hp & Ht' & Hpend & _).
  exists t'. rewrite (lift_ret _ (t, d') _ _ Hp). split_and!; [done..|].
  rewrite Hpend, nth_lookup, Hc. cbn [default from_option id]. f_equal. unfold key_pushed.
  rewrite (proj2 (Z.eqb_neq c 13)) by done.
  destruct (Z.eqb_spec c 0) as [->|]; [done|]. by rewrite filter_cons_True.
Qed.

(** (tty, [tty_write]): the first [count] bytes of the buffer go to the console
    in order, and [count] is returned. *)
Theorem tty_write_correct {D} `{!Bus D} buf count c (d : D) :
  console_ok c → 0 ≤ count ≤ Z.of_nat (length buf) →
  tty_write buf count (c, d) = Ret count (con_print (take (Z.to_nat count) buf) (c, d)).
Proof. intros Hc. by apply (tty_write_run buf count (c, d)). Qed.

(** ** Witnesses *)

#[local] Transparent scancode_map.

Definition empty_tty : tty := Tty (replicate 256 0) 250 250.

Lemma empty_tty_ok : tty_ok empty_tty.
Proof. constructor; simpl; [reflexivity | lia | lia]. Qed.

Lemma tty_fifo_witness :
  let s := System (Tty (<[250%nat := 97]> (replicate 256 0)) 251 250) Popping [] [97] in
  rtc system_step (System empty_tty Testing [] []) s ∧
  tty_ok (s_tty s) ∧ s_keys s = s_buf s ++ pending (s_tty s).
Proof.
  intros s. assert (rtc system_step (System empty_tty Testing [] []) s) as Hs.
  { eapply rtc_l; [eapply (step_key _ _ _ _ _ 97); reflexivity|].
    eapply rtc_l; [apply step_test; reflexivity|]. reflexivity. }
  split; [exact Hs|].
  exact (tty_fifo empty_tty s empty_tty_ok eq_refl Hs).
Defined.

Lemma tty_read_correct_witness :
  ∃ t' later', tty_read 2 (empty_tty, [[]; [104; 0; 13]; [105]]) = Ret [104; 10] (t', later') ∧
    tty_ok t' ∧ pending t' ++ arriving later' = [105].
Proof.
  apply (tty_read_correct 2 empty_tty [[]; [104; 0; 13]; [105]] empty_tty_ok).
  - unfold fits. rewrite !Forall_cons, Forall_nil. simpl. lia.
  - vm_compute. split; discriminate.
Defined.

Lemma tty_overrun_witness :
  ∃ t', deliver (replicate 256 97) empty_tty = Ret tt t' ∧ tty_ok t' ∧ pending t' = [].
Proof.
  apply (tty_overrun empty_tty (replicate 256 97) empty_tty_ok eq_refl eq_refl).
  apply Forall_replicate. lia.
Defined.

Lemma keyboard_irq_handler_correct_witness :
  ∃ t', keyboard_irq_handler (empty_tty, Latches {[0x60 := 0x1e]} []) =
          Ret tt (t', Latches {[0x60 := 0x1e]} []) ∧ tty_ok t' ∧ pending t' = [97].
Proof.
  apply (keyboard_irq_handler_correct empty_tty (Latches {[0x60 := 0x1e]} []) _ 0x1e empty_tty_ok);
    reflexivity.
Defined.

Lemma tty_write_correct_witness :
  tty_write (bytes_of "hello") 4 (clear_screen, idle_bus) =
    Ret 4 (con_print (bytes_of "hell") (clear_screen, idle_bus)).
Proof.
  apply (tty_write_correct (bytes_of "hello") 4 clear_screen idle_bus clear_screen_ok).
  simpl. lia.
Defined.
