(* ===== verification/Pci.v ===== *)
(** * The PCI bus (src/kernel/pci.c, src/include/kernel/pci.h)

    The scan of the configuration space and the table of the devices found. *)

From S2P Require Import Prelude Ports Console.

Definition PCI_CFG_ADDR_REGISTER : Z := 0xcf8.
Definition PCI_CFG_DATA_REGISTER : Z := 0xcfc.

Record pci_cfg_t := PciCfg {
  vendor_id : Z; device_id : Z; command : Z; status : Z; revision : Z; prog_if : Z; sub_class : Z;
  base_class : Z; bar : list Z;
}.

Record pci_device_t := PciDevice { pci_bus : Z; pci_dev : Z; pci_func : Z; cfg : pci_cfg_t }.

Definition zero_cfg : pci_cfg_t := PciCfg 0 0 0 0 0 0 0 0 (replicate 6 0).
Definition zero_device : pci_device_t := PciDevice 0 0 0 zero_cfg.

(** The static variables of pci.c. *)
Record pci := Pci { pci_device_count : Z; pci_devices : list pci_device_t }.

Definition pci_addr (bus device func offset : Z) : Z :=
  Z.lor (Z.lor (Z.lor (Z.lor 0x80000000 (u32 (Z.shiftl bus 16))) (u32 (Z.shiftl device 11))) (u32 (Z.shiftl func 8)))
    (Z.land offset 0xfc).

(** ** The code *)

Section ports.
Context {D : Type} `{!Bus D}.

Definition pci_read16 (addr : Z) : M D Z :=
  outl PCI_CFG_ADDR_REGISTER addr;;
  inw (PCI_CFG_DATA_REGISTER + Z.land addr 0x2).

Definition pci_write16 (addr val : Z) : M D unit :=
  outl PCI_CFG_ADDR_REGISTER addr;;
  outw (PCI_CFG_DATA_REGISTER + Z.land addr 0x2) val.

Definition pci_read32 (addr : Z) : M D Z :=
  outl PCI_CFG_ADDR_REGISTER addr;;
  inl PCI_CFG_DATA_REGISTER.

Definition pci_write32 (addr val : Z) : M D unit :=
  outl PCI_CFG_ADDR_REGISTER addr;;
  outl PCI_CFG_DATA_REGISTER val.

(** [for (i = from; i < 6; i++) cfg->bar[i] = ...]: the registers read, in order. *)
Fixpoint pci_read_bars (n : nat) (bus device func i : Z) : M D (list Z) :=
  match n with
  | O => mret []
  | S n =>
      b ← pci_read32 (pci_addr bus device func (u8 (0x10 + i * 4)));
      rest ← pci_read_bars n bus device func (i + 1);
      mret (b :: rest)
  end.

(** [None] where the C function returns 0. *)
Definition pci_read_device (bus device func : Z) : M D (option pci_cfg_t) :=
  vendor_device ← pci_read32 (pci_addr bus device func 0x0);
  if vendor_device =? 0xffffffff then mret None
  else
    cmd_stat ← pci_read32 (pci_addr bus device func 0x4);
    rev_cls ← pci_read32 (pci_addr bus device func 0x8);
    bars ← pci_read_bars 6 bus device func 0;
    mret (Some (PciCfg (u16 vendor_device) (u16 (Z.shiftr vendor_device 16)) (u16 cmd_stat)
      (u16 (Z.shiftr cmd_stat 16)) (u8 rev_cls) (u8 (Z.shiftr rev_cls 8)) (u8 (Z.shiftr rev_cls 16))
      (u8 (Z.shiftr rev_cls 24)) bars)).

(** The device with its new command register. *)
Definition pci_enable_bus_master (dev : pci_device_t) : M D pci_device_t :=
  let c := cfg dev in
  if negb (Z.land (command c) 0x4 =? 0) then mret dev
  else
    let c := PciCfg (vendor_id c) (device_id c) (Z.lor (command c) 0x4) (status c) (revision c) (prog_if c)
      (sub_class c) (base_class c) (bar c) in
    pci_write16 (pci_addr (pci_bus dev) (pci_dev dev) (pci_func dev) 0x4) (command c);;
    mret (PciDevice (pci_bus dev) (pci_dev dev) (pci_func dev) c).

(** *** The scan *)

Abbreviation S := (pci * (console * D))%type.

Definition on_console {A} (m : M (console * D) A) : M S A := lift (T := console * D) m.
Definition say (s : string) : M S unit := on_console (console_puts (bytes_of s));; mret tt.
Definition say_line (s : string) : M S unit := on_console (console_puts (bytes_of s ++ [10]));; mret tt.

(** [pci_devices[pci_device_count] = dev; pci_device_count++;] *)
Definition record_device (dev : pci_device_t) : M pci unit := λ p,
  match put_nth (pci_device_count p) dev (pci_devices p) with
  | Ret _ l => Ret tt (Pci (u8 (pci_device_count p + 1)) l)
  | Fault f _ => Fault f p
  end.

Definition print_device (dev : pci_device_t) : M S unit :=
  say "  ";;
  on_console (console_put_hex8 (u8 (pci_bus dev)) false);;
  say ":";;
  on_console (console_put_hex8 (pci_dev dev) false);;
  say ".";;
  on_console (console_put_hex8 (pci_func dev) false);;
  say ", Vendor: ";;
  on_console (console_put_hex16 (vendor_id (cfg dev)) true);;
  say ", Device: ";;
  on_console (console_put_hex16 (device_id (cfg dev)) true);;
  say ", Class code: ";;
  on_console (console_put_hex8 (base_class (cfg dev)) true);;
  on_console (console_put_hex8 (sub_class (cfg dev)) false);;
  on_console (console_put_hex8 (prog_if (cfg dev)) false);;
  say_line "".

Definition scan_function (bus device func : Z) : M S unit :=
  c ← on_console (lift (T := D) (pci_read_device bus device func));
  match c with
  | None => mret tt
  | Some c =>
      let dev := PciDevice bus device func c in
      lift (T := pci) (record_device dev);;
      print_device dev
  end.

Definition scan_pci : M S Z :=
  say_line "Scanning PCIs ...";;
  for_range 0 256 (λ bus, for_range 0 32 (λ device, for_range 0 8 (λ func, scan_function bus device func)));;
  n ← gets (λ s, pci_device_count s.1);
  (if n =? 0 then say_line "  No PCI found" else mret tt);;
  say_line "Done";;
  mret 1.
End ports.

(** The device found, where the C function returns 1. *)
Definition pci_find_device (base sub : Z) : M pci (option pci_device_t) :=
  count ← gets pci_device_count;
  for_return 0 count (λ i,
    devices ← gets pci_devices;
    dev ← nth_or devices i;
    if (base_class (cfg dev) =? base) && (sub_class (cfg dev) =? sub) then mret (Some dev) else mret None).

(** ** Configuration space

    The first mechanism of the PCI local bus specification: a doubleword written
    to 0xcf8 selects a register, which is read at 0xcfc. *)

Class PciSpace (D : Type) `{!Bus D} := {
  config : D → Z → Z;
  selected : D → Z;
  config_range d a : 0 ≤ config d a < 0x100000000;
  select_out v d : selected (out32 0xcf8 v d) = v;
  select_config v d a : config (out32 0xcf8 v d) a = config d a;
  config_in d : (in32 0xcfc d).1 = config d (selected d);
  config_in_keeps d a : config (in32 0xcfc d).2 a = config d a;
  config_in8 p d a : config (in8 p d).2 a = config d a;
  config_out8 p v d a : ¬ 0xcf8 ≤ p < 0xd00 → config (out8 p v d) a = config d a;
}.

(** A port of neither the configuration space nor the interrupt controllers. *)
Definition other_port (p : Z) : bool :=
  negb ((0xcf8 <=? p) && (p <? 0xd00)) && bool_decide (p ∉ [0x20; 0x21; 0xa0; 0xa1]).

(** Bus accesses that leave the configuration space and the interrupt controllers
    as they are. *)
Inductive access {D : Type} `{!Bus D} (d : D) : D → Prop :=
  | access_select v : access d (out32 0xcf8 v d)
  | access_read : access d (in32 0xcfc d).2
  | access_in8 p : access d (in8 p d).2
  | access_out8 p v : other_port p = true → access d (out8 p v d).

Definition traffic {D : Type} `{!Bus D} : D → D → Prop := rtc access.

Section scan.
Context {D : Type} `{!Bus D} `{!PciSpace D}.
Implicit Types (d : D) (p : pci) (s : pci * (console * D)).

Definition same_config d d' : Prop := ∀ a, config d' a = config d a.

Lemma traffic_config d d' : traffic d d' → same_config d d'.
Proof.
  induction 1 as [d|d d1 d2 Hd _ IH]; [done|]. intros a. rewrite (IH a). destruct Hd as [v| |p|p v Hp].
  - apply select_config. - apply config_in_keeps. - apply config_in8.
  - apply config_out8. intros Hr. apply andb_true_iff in Hp as [Hp _].
    rewrite (proj2 (Z.leb_le _ _)), (proj2 (Z.ltb_lt _ _)) in Hp by lia. done.
Qed.

Lemma traffic_select v d : traffic d (out32 0xcf8 v d).
Proof. apply rtc_once. constructor. Qed.
Lemma traffic_read d : traffic d (in32 0xcfc d).2.
Proof. apply rtc_once. constructor. Qed.

(** *** Reading *)

Lemma pci_read32_run addr d : 0 ≤ addr < 0x100000000 →
  ∃ d', pci_read32 addr d = Ret (config d addr) d' ∧ traffic d d'.
Proof.
  intros Ha. unfold pci_read32, outl, inl. rewrite modify_bind, u32_id by done.
  change (u16 PCI_CFG_ADDR_REGISTER) with 0xcf8. change (u16 PCI_CFG_DATA_REGISTER) with 0xcfc.
  set (d1 := out32 0xcf8 addr d). pose proof (config_in d1) as Hv. pose proof (traffic_read d1) as Hk.
  destruct (in32 0xcfc d1) as [v d2]. cbn in Hv, Hk. exists d2. split.
  - rewrite Hv. unfold d1. by rewrite select_out, select_config, u32_id by apply config_range.
  - by etrans; [apply traffic_select|].
Qed.

(** A function's registers: what [pci_read_device] makes of them. *)
Definition register d (bus device func offset : Z) : Z := config d (pci_addr bus device func offset).

Definition config_of d (bus device func : Z) : option pci_cfg_t :=
  let r := register d bus device func in
  if r 0x0 =? 0xffffffff then None
  else Some (PciCfg (u16 (r 0x0)) (u16 (Z.shiftr (r 0x0) 16)) (u16 (r 0x4)) (u16 (Z.shiftr (r 0x4) 16))
    (u8 (r 0x8)) (u8 (Z.shiftr (r 0x8) 8)) (u8 (Z.shiftr (r 0x8) 16)) (u8 (Z.shiftr (r 0x8) 24))
    ((λ i, r (0x10 + i * 4)) <$> seqZ 0 6)).

(** The number of a function is one of the 65536. *)
Definition is_function (bus device func : Z) : Prop := 0 ≤ bus < 256 ∧ 0 ≤ device < 32 ∧ 0 ≤ func < 8.

Lemma pci_addr_range bus device func offset : 0 ≤ pci_addr bus device func offset < 0x100000000.
Proof.
  unfold pci_addr. assert (∀ x y, 0 ≤ x < 2 ^ 32 → 0 ≤ y < 2 ^ 32 → 0 ≤ Z.lor x y < 2 ^ 32) as Hlor.
  { intros x y Hx Hy. split; [apply Z.lor_nonneg; lia|].
    destruct (Z.eq_dec (Z.lor x y) 0) as [->|Hne]; [lia|]. assert (0 < Z.lor x y) by (pose proof (Z.lor_nonneg x y); lia).
    apply Z.log2_lt_pow2; [lia|]. rewrite Z.log2_lor by lia.
    destruct (Z.eq_dec x 0) as [->|]; destruct (Z.eq_dec y 0) as [->|]; rewrite ?Z.max_lub_lt_iff; cbn; try lia;
      repeat split; try lia; apply Z.log2_lt_pow2; lia. }
  change 0x100000000 with (2 ^ 32). repeat apply Hlor; try lia; try apply u32_range.
  replace (Z.land offset 0xfc) with (Z.land offset 0xfc mod 2 ^ 8); [Z.div_mod_to_equations; lia|].
  by rewrite <-Z.land_ones, <-Z.land_assoc by lia.
Qed.

Lemma read_register bus device func offset d :
  ∃ d', pci_read32 (pci_addr bus device func offset) d = Ret (register d bus device func offset) d' ∧ traffic d d'.
Proof. apply pci_read32_run, pci_addr_range. Qed.

Lemma register_same d d' bus device func offset :
  traffic d d' → register d' bus device func offset = register d bus device func offset.
Proof. intros E. apply (traffic_config _ _ E). Qed.

Lemma pci_read_bars_run n bus device func i d : 0 ≤ i → i + Z.of_nat n ≤ 6 →
  ∃ d', pci_read_bars n bus device func i d =
    Ret ((λ i, register d bus device func (0x10 + i * 4)) <$> seqZ i (Z.of_nat n)) d' ∧ traffic d d'.
Proof.
  revert i d. induction n as [|n IH]; intros i d Hi Hn; [by exists d|].
  cbn [pci_read_bars]. rewrite u8_id by lia.
  destruct (read_register bus device func (0x10 + i * 4) d) as (d1 & Hrun & Hd1). rewrite (bind_ret _ _ _ _ _ Hrun).
  destruct (IH (i + 1) d1) as (d2 & Hrun2 & Hd2); [lia..|]. rewrite (bind_ret _ _ _ _ _ Hrun2).
  exists d2. split; [|by etrans]. rewrite (seqZ_cons i) by lia.
  replace (Z.pred (Z.of_nat (Datatypes.S n))) with (Z.of_nat n) by lia. rewrite fmap_cons. do 2 f_equal.
  apply list_fmap_ext. intros j x _. by apply register_same.
Qed.

Lemma pci_read_device_run bus device func d :
  ∃ d', pci_read_device bus device func d = Ret (config_of d bus device func) d' ∧ traffic d d'.
Proof.
  unfold pci_read_device, config_of. destruct (read_register bus device func 0x0 d) as (d1 & Hrun1 & Hd1).
  rewrite (bind_ret _ _ _ _ _ Hrun1). destruct (_ =? _); [by exists d1|].
  destruct (read_register bus device func 0x4 d1) as (d2 & Hrun2 & Hd2). rewrite (bind_ret _ _ _ _ _ Hrun2).
  destruct (read_register bus device func 0x8 d2) as (d3 & Hrun3 & Hd3). rewrite (bind_ret _ _ _ _ _ Hrun3).
  destruct (pci_read_bars_run 6 bus device func 0 d3) as (d4 & Hrun4 & Hd4); [lia..|]. rewrite (bind_ret _ _ _ _ _ Hrun4).
  assert (traffic d d2) as H2 by (by etrans).
  assert (traffic d d3) as H3 by (by etrans).
  exists d4. split; [|by etrans]. rewrite !(register_same _ _ _ _ _ _ Hd1).
  rewrite !(register_same _ _ _ _ _ _ H2). unfold mret, M_ret. do 3 f_equal.
  apply list_fmap_ext. intros j x _. by apply register_same.
Qed.

(** *** Printing *)

Lemma traffic_print l (cd : console * D) : traffic cd.2 (con_print l cd).2.
Proof.
  revert cd. induction l as [|ch l IH]; intros cd; [done|]. cbn [con_print foldl].
  etrans; [|apply IH]. unfold con_putc. destruct (ch =? 0); [done|]. cbn [snd].
  unfold crtc_out. do 4 (eapply rtc_r; [|by apply access_out8]). done.
Qed.

(** The text of one line of the list of devices. *)
Definition hex (n : nat) (v : Z) : list Z := hex_char <$> hex_digits n v.
Definition device_line (dev : pci_device_t) : list Z :=
  bytes_of "  " ++ hex 2 (u8 (pci_bus dev)) ++ bytes_of ":" ++ hex 2 (pci_dev dev) ++ bytes_of "." ++
  hex 2 (pci_func dev) ++ bytes_of ", Vendor: " ++ (bytes_of "0x" ++ hex 4 (vendor_id (cfg dev))) ++
  bytes_of ", Device: " ++ (bytes_of "0x" ++ hex 4 (device_id (cfg dev))) ++
  bytes_of ", Class code: " ++ (bytes_of "0x" ++ hex 2 (base_class (cfg dev))) ++
  hex 2 (sub_class (cfg dev)) ++ hex 2 (prog_if (cfg dev)) ++ [10].

Record device_ok (dev : pci_device_t) : Prop := {
  do_dev : 0 ≤ pci_dev dev < 0x100; do_func : 0 ≤ pci_func dev < 0x100;
  do_vendor : 0 ≤ vendor_id (cfg dev) < 0x10000; do_device : 0 ≤ device_id (cfg dev) < 0x10000;
  do_base : 0 ≤ base_class (cfg dev) < 0x100; do_sub : 0 ≤ sub_class (cfg dev) < 0x100;
  do_prog : 0 ≤ prog_if (cfg dev) < 0x100;
}.

Lemma prints_say t : Forall (λ ch, ch ≠ 0) (bytes_of t) → prints (say t : M (pci * (console * D)) unit) (bytes_of t).
Proof.
  intros Ht. rewrite <-(app_nil_r (bytes_of t)). apply prints_bind; [by apply prints_puts|]. intros a. apply prints_ret.
Qed.
Lemma prints_say_line t : Forall (λ ch, ch ≠ 0) (bytes_of t) →
  prints (say_line t : M (pci * (console * D)) unit) (bytes_of t ++ [10]).
Proof.
  intros Ht. rewrite <-(app_nil_r (bytes_of t ++ [10])). apply prints_bind; [|intros a; apply prints_ret].
  apply prints_puts, Forall_app. split; [done|]. by repeat constructor.
Qed.

Lemma prints_device dev : device_ok dev → prints (print_device dev : M (pci * (console * D)) unit) (device_line dev).
Proof.
  intros []. unfold print_device, device_line.
  repeat (apply prints_bind; [first [by apply prints_say; decided | by apply (prints_hex8 _ false)
    | by apply (prints_hex8 _ false), u8_range | by apply (prints_hex16 _ true) | by apply (prints_hex8 _ true)]|intros _]).
  apply (prints_say_line ""). decided.
Qed.

(** *** The scan *)

Definition functions : list (Z * Z * Z) :=
  seqZ 0 256 ≫= λ bus, seqZ 0 32 ≫= λ device, (λ func, (bus, device, func)) <$> seqZ 0 8.

(** The devices that answer among [fs], in the order of the scan. *)
Definition found d (fs : list (Z * Z * Z)) : list pci_device_t :=
  omap (λ f, PciDevice f.1.1 f.1.2 f.2 <$> config_of d f.1.1 f.1.2 f.2) fs.

Definition lines (devs : list pci_device_t) : list Z := devs ≫= device_line.

(** After some functions, with the devices [devs] found: [d0] and [c0] are the bus and
    the screen at the start. *)
Record scanning d0 (c0 : console) (devs : list pci_device_t) s : Prop := {
  sc_count : pci_device_count s.1 = Z.of_nat (length devs);
  sc_length : length (pci_devices s.1) = 64%nat;
  sc_table : take (length devs) (pci_devices s.1) = devs;
  sc_fit : (length devs ≤ 64)%nat;
  sc_console : console_ok s.2.1;
  sc_screen : s.2.1 = screen (lines devs) c0;
  sc_config : traffic d0 s.2.2;
}.

Lemma lines_nil c : screen (lines []) c = c.
Proof. done. Qed.

Lemma config_of_ok d bus device func c :
  is_function bus device func → config_of d bus device func = Some c → device_ok (PciDevice bus device func c).
Proof.
  intros (Hb & Hd & Hf). unfold config_of. destruct (_ =? _); [done|]. intros [= <-].
  constructor; cbn; auto with word; lia.
Qed.

Lemma config_of_same d d' bus device func :
  traffic d d' → config_of d' bus device func = config_of d bus device func.
Proof.
  intros E. unfold config_of. rewrite !(register_same _ _ _ _ _ _ E). case_match; [done|].
  do 2 f_equal. apply list_fmap_ext. intros j x _. by apply register_same.
Qed.

Lemma scan_function_run bus device func d0 c0 devs s :
  is_function bus device func → scanning d0 c0 devs s →
  match config_of d0 bus device func with
  | None => ∃ s', scan_function bus device func s = Ret tt s' ∧ scanning d0 c0 devs s'
  | Some c =>
      if (Nat.ltb (length devs) 64) then
        ∃ s', scan_function bus device func s = Ret tt s' ∧ scanning d0 c0 (devs ++ [PciDevice bus device func c]) s'
      else ∃ s', scan_function bus device func s = Fault OutOfBounds s'
  end.
Proof.
  intros Hf [Hcount Hlen Htab Hfit Hcon Hscr Hcfg]. destruct s as [p [cn d]]. cbn [fst snd] in *.
  destruct (pci_read_device_run bus device func d) as (d1 & Hrun & Hd1). rewrite (config_of_same d0 d) in Hrun by done.
  assert (traffic d0 d1) as Hc1 by (by etrans).
  unfold scan_function, on_console.
  assert (lift (T := console * D) (lift (T := D) (pci_read_device bus device func)) (p, (cn, d)) =
    Ret (config_of d0 bus device func) (p, (cn, d1))) as Hrun'.
  { unfold lift. cbn [part Has_snd snd]. by rewrite Hrun. }
  rewrite (bind_ret _ _ _ _ _ Hrun'). destruct (config_of d0 bus device func) as [c|] eqn:Ec.
  2:{ eexists. split; [reflexivity|]. by constructor. }
  pose proof (config_of_ok _ _ _ _ _ Hf Ec) as Hdev. set (dev := PciDevice bus device func c) in *.
  destruct (Nat.ltb_spec (length devs) 64).
  - assert (record_device dev p = Ret tt (Pci (Z.of_nat (length (devs ++ [dev])))
      (<[length devs := dev]> (pci_devices p)))) as Hrec.
    { unfold record_device. rewrite Hcount, put_nth_ret, Nat2Z.id, u8_id by lia.
      assert (Z.of_nat (length devs) + 1 = Z.of_nat (length (devs ++ [dev]))) as -> by (rewrite length_app; cbn [length]; lia).
      reflexivity. }
    rewrite (bind_ret _ _ _ _ _ (lift_ret (T := pci) _ (p, (cn, d1)) _ _ Hrec)).
    destruct (prints_device dev Hdev (Pci (Z.of_nat (length (devs ++ [dev]))) (<[length devs := dev]> (pci_devices p)), (cn, d1)) Hcon)
      as ([] & Hprint). eexists. split; [exact Hprint|]. constructor; cbn [fst snd set_part part Has_snd pci_device_count pci_devices].
    + done.
    + by rewrite length_insert.
    + rewrite length_app, Nat.add_1_r. rewrite (take_S_r _ _ dev) by (apply list_lookup_insert_eq; lia).
      by rewrite take_insert_ge, Htab by lia.
    + rewrite length_app. cbn. lia.
    + by apply con_print_ok.
    + rewrite con_print_screen. cbn [fst]. rewrite Hscr. unfold lines. rewrite bind_app, screen_app.
      change ([dev] ≫= device_line) with (device_line dev ++ []). by rewrite app_nil_r.
    + etrans; [exact Hc1|apply (traffic_print _ (cn, d1))].
  - eexists. apply bind_fault. unfold lift. cbn [part Has_fst fst]. unfold record_device.
    rewrite Hcount, put_nth_out by lia. reflexivity.
Qed.

Lemma scan_list_run fs d0 c0 devs s :
  Forall (λ f, is_function f.1.1 f.1.2 f.2) fs → scanning d0 c0 devs s →
  if Nat.leb (length (devs ++ found d0 fs)) 64 then
    ∃ s', for_list fs (λ f, scan_function f.1.1 f.1.2 f.2) s = Ret tt s' ∧ scanning d0 c0 (devs ++ found d0 fs) s'
  else ∃ s', for_list fs (λ f, scan_function f.1.1 f.1.2 f.2) s = Fault OutOfBounds s'.
Proof.
  intros Hfs. revert devs s. induction Hfs as [|[[b dv] f] fs Hf _ IH]; intros devs s Hs.
  { change (found d0 []) with (@nil pci_device_t). rewrite app_nil_r.
    rewrite (proj2 (Nat.leb_le _ _)) by apply (sc_fit _ _ _ _ Hs). by exists s. }
  pose proof (scan_function_run b dv f d0 c0 devs s Hf Hs) as Hstep. cbn [for_list fst snd].
  assert (found d0 ((b, dv, f) :: fs) = match config_of d0 b dv f with
    | Some c => PciDevice b dv f c :: found d0 fs | None => found d0 fs end) as ->.
  { unfold found. cbn. by destruct (config_of d0 b dv f). }
  destruct (config_of d0 b dv f) as [c|].
  - destruct (Nat.ltb_spec (length devs) 64).
    + destruct Hstep as (s1 & Hrun & Hs1). specialize (IH _ s1 Hs1). rewrite <-app_assoc in IH.
      cbn [app] in IH. case_match; destruct IH as (s' & Hrest); rewrite (bind_ret _ _ _ _ _ Hrun); by exists s'.
    + destruct Hstep as (s1 & Hrun). rewrite (proj2 (Nat.leb_gt _ _)) by (rewrite length_app; cbn [length]; lia).
      exists s1. by apply bind_fault.
  - destruct Hstep as (s1 & Hrun & Hs1). specialize (IH _ s1 Hs1).
    case_match; destruct IH as (s' & Hrest); rewrite (bind_ret _ _ _ _ _ Hrun); by exists s'.
Qed.

Lemma functions_ok : Forall (λ f, is_function f.1.1 f.1.2 f.2) functions.
Proof.
  apply Forall_bind, Forall_forall. intros bus Hb%elem_of_seqZ. apply Forall_bind, Forall_forall. intros device Hd%elem_of_seqZ.
  apply Forall_fmap, Forall_forall. intros func Hf%elem_of_seqZ. split; cbn; lia.
Qed.

Lemma loops_functions s :
  for_range 0 256 (λ bus, for_range 0 32 (λ device, for_range 0 8 (λ func, scan_function bus device func))) s =
  for_list functions (λ f, scan_function f.1.1 f.1.2 f.2) s.
Proof.
  rewrite (for_range_list 0 256). unfold functions. rewrite for_list_bind. apply for_list_ext. intros bus s1.
  rewrite (for_range_list 0 32), for_list_bind. apply for_list_ext. intros device s2.
  rewrite (for_range_list 0 8), for_list_fmap. by apply for_list_ext.
Qed.

(** *** Finding a device *)

(** The first device of a class. *)
Definition find_device (base sub : Z) (devs : list pci_device_t) : option pci_device_t :=
  snd <$> list_find (λ dev, base_class (cfg dev) = base ∧ sub_class (cfg dev) = sub) devs.

Lemma pci_find_device_run base sub p devs :
  pci_device_count p = Z.of_nat (length devs) → take (length devs) (pci_devices p) = devs →
  pci_find_device base sub p = Ret (find_device base sub devs) p.
Proof.
  intros Hcount Htab. unfold pci_find_device. rewrite gets_bind, Hcount. unfold find_device.
  assert (∀ i, 0 ≤ i < Z.of_nat (length devs) → ∃ dev, devs !! Z.to_nat i = Some dev ∧
    (devices ← gets pci_devices; dev ← nth_or devices i;
     if (base_class (cfg dev) =? base) && (sub_class (cfg dev) =? sub) then mret (Some dev) else mret None) p =
    Ret (if decide (base_class (cfg dev) = base ∧ sub_class (cfg dev) = sub) then Some dev else None) p) as Hbody.
  { intros i Hi. destruct (lookup_lt_is_Some_2 devs (Z.to_nat i)) as [dev Hdev]; [lia|]. exists dev. split; [done|].
    rewrite gets_bind. assert (pci_devices p !! Z.to_nat i = Some dev) as Hd.
    { rewrite <-Htab in Hdev. by apply lookup_take_Some in Hdev as [? _]. }
    rewrite (bind_ret _ _ _ _ _ (nth_or_ret _ _ _ p (proj1 Hi) Hd)).
    destruct (decide _) as [[Hb Hs]|Hn]; [by rewrite Hb, Hs, !Z.eqb_refl|].
    destruct (Z.eqb_spec (base_class (cfg dev)) base), (Z.eqb_spec (sub_class (cfg dev)) sub); try done. tauto. }
  destruct (list_find _ devs) as [[j dev]|] eqn:E.
  - apply list_find_Some in E as (Hj & HP & Hbefore). pose proof (lookup_lt_Some _ _ _ Hj) as Hlt.
    apply (for_return_hit 0 _ (Z.of_nat j)); [lia| |].
    + intros i Hi. destruct (Hbody i ltac:(lia)) as (dev' & Hdev' & ->).
      rewrite decide_False; [done|]. apply (Hbefore (Z.to_nat i) dev' Hdev'). lia.
    + destruct (Hbody (Z.of_nat j) ltac:(lia)) as (dev' & Hdev' & ->). rewrite Nat2Z.id in Hdev'.
      assert (dev' = dev) as -> by congruence. by rewrite decide_True.
  - apply list_find_None in E. rewrite Forall_forall in E. apply for_return_miss. intros i Hi.
    destruct (Hbody i Hi) as (dev & Hdev & ->). rewrite decide_False; [done|].
    apply E. by eapply list_elem_of_lookup_2.
Qed.

Lemma find_device_elem base sub devs dev :
  find_device base sub devs = Some dev → dev ∈ devs ∧ base_class (cfg dev) = base ∧ sub_class (cfg dev) = sub.
Proof.
  unfold find_device. intros ([j dev'] & (Hj & HP & _)%list_find_Some & ->)%fmap_Some. split; [|done].
  by eapply list_elem_of_lookup_2.
Qed.

(** Every device found has six base address registers. *)
Lemma found_bars d fs dev : dev ∈ found d fs → length (bar (cfg dev)) = 6%nat.
Proof.
  unfold found. intros ([[b dv] f] & _ & Hc)%list_elem_of_omap. apply fmap_Some in Hc as (c & Hc & ->).
  unfold config_of in Hc. cbn in Hc. destruct (_ =? _); [done|]. injection Hc as <-. done.
Qed.

#[local] Opaque functions found.

(** What the scan shows on the screen. *)
Definition scan_text (devs : list pci_device_t) : list Z :=
  bytes_of "Scanning PCIs ..." ++ [10] ++ lines devs ++
  (if decide (devs = []) then bytes_of "  No PCI found" ++ [10] else []) ++ bytes_of "Done" ++ [10].

Lemma scan_pci_run p c d :
  pci_device_count p = 0 → length (pci_devices p) = 64%nat → console_ok c →
  let devs := found d functions in
  if Nat.leb (length devs) 64 then
    ∃ p' c' d', scan_pci (p, (c, d)) = Ret 1 (p', (c', d')) ∧
      pci_device_count p' = Z.of_nat (length devs) ∧ take (length devs) (pci_devices p') = devs ∧
      length (pci_devices p') = 64%nat ∧ c' = screen (scan_text devs) c ∧ traffic d d'
  else ∃ s', scan_pci (p, (c, d)) = Fault OutOfBounds s'.
Proof.
  intros Hcount Hlen Hc devs. set (c0 := screen (bytes_of "Scanning PCIs ..." ++ [10]) c).
  destruct (prints_say_line "Scanning PCIs ..." ltac:(decided) (p, (c, d)) Hc) as ([] & Hrun1).
  cbn [set_part part Has_snd fst snd] in Hrun1. set (cd1 := con_print _ (c, d)) in Hrun1.
  assert (scanning d c0 [] (p, cd1)) as Hs1.
  { constructor; cbn [fst snd].
    - by rewrite Hcount. - exact Hlen. - done. - cbn. lia. - by apply con_print_ok.
    - unfold cd1. rewrite con_print_screen, lines_nil. reflexivity. - apply (traffic_print _ (c, d)). }
  pose proof (scan_list_run functions d c0 [] _ functions_ok Hs1) as Hlist. cbn [app] in Hlist. fold devs in Hlist.
  unfold scan_pci. destruct (Nat.leb (length devs) 64).
  - destruct Hlist as ([p2 [c2 d2]] & Hrun2 & [Hcount2 Hlen2 Htab2 Hfit2 Hcon2 Hscr2 Hcfg2]). cbn [fst snd] in *.
    rewrite (bind_ret _ _ _ _ _ Hrun1), (bind_ret _ _ _ _ _ (eq_trans (loops_functions _) Hrun2)), gets_bind. cbn [fst].
    set (tail := (if decide (devs = []) then bytes_of "  No PCI found" ++ [10] else [])).
    assert (prints ((if pci_device_count p2 =? 0 then say_line "  No PCI found" else mret tt) : M (pci * (console * D)) unit) tail) as Hp.
    { rewrite Hcount2. unfold tail. destruct (decide (devs = [])) as [-> | Hne].
      - apply (prints_say_line "  No PCI found"). decided.
      - rewrite (proj2 (Z.eqb_neq _ 0)); [apply prints_ret|]. intros E. apply Hne, nil_length_inv. lia. }
    destruct (Hp (p2, (c2, d2)) Hcon2) as ([] & Hrun3). rewrite (bind_ret _ _ _ _ _ Hrun3). clear Hrun1 Hrun2 Hrun3 Hp.
    cbn [set_part part Has_snd fst snd]. set (cd3 := con_print tail (c2, d2)).
    assert (console_ok cd3.1) as Hc3 by (by apply con_print_ok).
    destruct (prints_say_line "Done" ltac:(decided) (p2, cd3) Hc3) as ([] & Hrun4). rewrite (bind_ret _ _ _ _ _ Hrun4).
    cbn [set_part part Has_snd fst snd]. rewrite (surjective_pairing (con_print _ cd3)).
    do 3 eexists. split; [reflexivity|]. do 3 (split; [done|]). split.
    + rewrite con_print_screen. unfold cd3. rewrite con_print_screen. cbn [fst]. rewrite Hscr2. unfold c0, scan_text.
      by rewrite !screen_app.
    + etrans; [exact Hcfg2|]. etrans; [apply (traffic_print tail (c2, d2))|].
      apply traffic_print.
  - destruct Hlist as (s' & Hrun2). exists s'. rewrite (bind_ret _ _ _ _ _ Hrun1). apply bind_fault.
    by rewrite loops_functions.
Qed.
(** C32 (PCI, [scan_pci]): the scan leaves in the table, in the order of bus, device and
    function, exactly the functions that answer, each with its registers, and
    shows one line for each; the configuration space is as before.  With more than
    64 functions it writes past the end of the table. *)
Theorem scan_pci_correct p c d :
  pci_device_count p = 0 → length (pci_devices p) = 64%nat → console_ok c →
  let devs := found d functions in
  if Nat.leb (length devs) 64 then
    ∃ p' c' d', scan_pci (p, (c, d)) = Ret 1 (p', (c', d')) ∧
      pci_device_count p' = Z.of_nat (length devs) ∧ take (length devs) (pci_devices p') = devs ∧
      length (pci_devices p') = 64%nat ∧ c' = screen (scan_text devs) c ∧ same_config d d'
  else ∃ s', scan_pci (p, (c, d)) = Fault OutOfBounds s'.
Proof.
  intros Hcount Hlen Hc devs. pose proof (scan_pci_run p c d Hcount Hlen Hc) as Hrun. cbv zeta in Hrun.
  fold devs in Hrun. destruct (Nat.leb (length devs) 64); [|exact Hrun].
  destruct Hrun as (p' & c' & d' & Hrun & Hcount' & Htab & Hlen' & Hscr & Ht). exists p', c', d'.
  do 5 (split; [done|]). by apply traffic_config.
Qed.
End scan.

(** ** A bus with one device

    An IDE controller, function 1 of device 1 of bus 0. *)

Record one_device := OneDevice { od_selected : Z }.

Definition od_config (a : Z) : Z :=
  if a =? 0x80000900 then 0x71118086 else if a =? 0x80000908 then 0x01018000
  else if Z.land a 0xffffff00 =? 0x80000900 then 0 else 0xffffffff.

#[export] Instance one_device_bus : Bus one_device :=
  let get p d := ((if p =? 0xcfc then od_config (od_selected d) else 0), d) in
  let put p v d := if p =? 0xcf8 then OneDevice v else d in
  {| in8 := get; in16 := get; in32 := get; out8 := put; out16 := put; out32 := put |}.

#[export, refine] Instance one_device_space : PciSpace one_device :=
  {| config _ a := od_config a; selected := od_selected |}.
Proof.
  all: try done. intros _ a. unfold od_config. repeat case_match; lia.
Defined.

#[local] Transparent functions found.

Lemma one_device_found : found (OneDevice 0) functions =
  [PciDevice 0 1 1 (PciCfg 0x8086 0x7111 0 0 0 0x80 1 1 (replicate 6 0))].
Proof. vm_compute. reflexivity. Qed.

Lemma scan_pci_correct_witness :
  ∃ p' c' d', scan_pci (Pci 0 (replicate 64 zero_device), (clear_screen, OneDevice 0)) = Ret 1 (p', (c', d')) ∧
    pci_device_count p' = 1 ∧
    take 1 (pci_devices p') = [PciDevice 0 1 1 (PciCfg 0x8086 0x7111 0 0 0 0x80 1 1 (replicate 6 0))].
Proof.
  pose proof (scan_pci_correct (Pci 0 (replicate 64 zero_device)) clear_screen (OneDevice 0)
    eq_refl eq_refl clear_screen_ok) as Hs.
  cbv zeta in Hs. rewrite one_device_found in Hs. cbn [length Nat.leb] in Hs.
  destruct Hs as (p' & c' & d' & Hrun & Hcount & Htab & _). exists p', c', d'.
  split; [exact Hrun|]. split; [exact Hcount | exact Htab].
Defined.
