(* ===== verification/Shell.v ===== *)
(** * User programs (src/programs, src/lib)

    The library's system calls and the shell.  A user program is run against the
    characters the terminal delivers and the trace of the system calls it makes;
    [execve] returns here, as it does when it fails: a successful call ends the
    program, so its run is the trace up to that call. *)

From S2P Require Import Prelude.

(** ** The system calls of src/lib *)

(** src/include/kernel/syscall.h *)
Definition SYS_EXIT : Z := 0x1.
Definition SYS_FORK : Z := 0x2.
Definition SYS_READ : Z := 0x3.
Definition SYS_WRITE : Z := 0x4.
Definition SYS_OPEN : Z := 0x5.
Definition SYS_CLOSE : Z := 0x6.
Definition SYS_EXECVE : Z := 59.

(** A register at [int 0x80]: a number, or a pointer to a string or an array, given
    by its contents. *)
Inductive arg := Int (z : Z) | Ptr (contents : list Z) | Unset.

Record int80 := Int80 { i_eax : Z; i_ebx : arg; i_ecx : arg; i_edx : arg }.

Record user := User { typed : list Z; trace : list int80 }.

(** The instruction: the call is recorded; a call other than [read] gives [ret]. *)
Definition trap (call : int80) (ret : Z) : M user Z := λ u,
  Ret ret (User (typed u) (trace u ++ [call])).

Definition write (fd : Z) (buf : list Z) (count : Z) : M user Z :=
  trap (Int80 SYS_WRITE (Int fd) (Ptr buf) (Int count)) count.

(** The result and the bytes stored in the buffer; the call waits for the terminal. *)
Definition read (fd count : Z) : M user (Z * list Z) := λ u,
  if Z.of_nat (length (typed u)) <? count then Fault Asleep u
  else Ret (count, take (Z.to_nat count) (typed u))
    (User (drop (Z.to_nat count) (typed u)) (trace u ++ [Int80 SYS_READ (Int fd) Unset (Int count)])).

Definition execve (pathname : list Z) (argv envp : Z) : M user Z :=
  trap (Int80 SYS_EXECVE (Ptr pathname) (Int argv) (Int envp)) (-1).

Definition open (pathname : list Z) (flags : Z) : M user Z :=
  trap (Int80 SYS_OPEN (Ptr pathname) (Int flags) Unset) (-1).

Definition close (fd : Z) : M user Z := trap (Int80 SYS_CLOSE (Int fd) Unset Unset) (-1).

(** The call of [_exit] does not return. *)
Definition _exit {A} (status_code : Z) : M user A :=
  trap (Int80 SYS_EXIT (Int status_code) Unset Unset) 0;;
  fail SpinForever.

(** ** hello *)

Definition hello_msg : list Z := bytes_of "|-| [- |_ |_ ()" ++ [10; 0].

Definition hello : M user unit :=
  write 1 hello_msg (Z.of_nat (length hello_msg) - 1);;
  _exit 0.

(** ** potatoshell *)

Definition INPUT_MAX_LENGTH : nat := 256.
Definition bin_dir : list Z := bytes_of "/bin/" ++ [0].
Definition not_found : list Z := bytes_of ": command not found" ++ [10; 0].
Definition shell_prompt : list Z := bytes_of "potato$hell> " ++ [0].

(** [for (i = 0; from[i]; i++) path[path_length++] = from[i];] *)
Fixpoint append_string (fuel : nat) (from : list Z) (i : Z) (path : list Z) (path_length : Z) : M user (list Z * Z) :=
  match fuel with
  | O => fail NoFuel
  | S fuel =>
      c ← nth_or from i;
      if c =? 0 then mret (path, path_length)
      else if in_array path path_length then
        append_string fuel from (i + 1) (<[Z.to_nat path_length := c]> path) (path_length + 1)
      else fail OutOfBounds
  end.

(** The part of an array that a pointer and a count give to [write]. *)
Definition run_command (name path : list Z) : M user unit :=
  '(path, path_length) ← append_string (S (length bin_dir)) bin_dir 0 path 0;
  '(path, path_length) ← append_string (S (length name)) name 0 path path_length;
  (if in_array path path_length then mret tt else fail OutOfBounds);;
  let path := <[Z.to_nat path_length := 0]> path in
  execve path 0 0;;
  write 1 name (path_length - (Z.of_nat (length bin_dir) - 1));;
  write 1 not_found (Z.of_nat (length not_found) - 1);;
  mret tt.

Record shell := Shell { input : list Z; input_char_count : Z }.

Definition prompt : M user unit := write 1 shell_prompt (Z.of_nat (length shell_prompt) - 1);; mret tt.

(** The body of the loop; [path] is what the array of [run_command] holds before it
    is written. *)
Definition shell_turn (path : list Z) (s : shell) : M user shell :=
  '(received, got) ← read 0 1;
  if received <=? 0 then mret s
  else
    let n := input_char_count s in
    if in_array (input s) n then
      let input := <[Z.to_nat n := default 0 (head got)]> (input s) in
      c ← nth_or input n;
      if c =? 8 then
        if n =? 0 then mret (Shell input n)
        else
          write 1 (drop (Z.to_nat n) input) 1;;
          mret (Shell input (u8 (n - 1)))
      else if c =? 10 then
        write 1 (drop (Z.to_nat n) input) 1;;
        let input := <[Z.to_nat n := 0]> input in
        (if 0 <? n then run_command input path else mret tt);;
        prompt;;
        mret (Shell input 0)
      else
        write 1 (drop (Z.to_nat n) input) 1;;
        mret (Shell input (u8 (n + 1)))
    else fail OutOfBounds.

(** The loop, as long as it has turns. *)
Fixpoint shell_loop (turns : nat) (path : list Z) (s : shell) : M user shell :=
  match turns with
  | O => mret s
  | S turns => s ← shell_turn path s; shell_loop turns path s
  end.

Definition potatoshell (turns : nat) (path input : list Z) : M user shell :=
  prompt;;
  shell_loop turns path (Shell input 0).

(** ** What the user sees

    The bytes that a call sends to the terminal, and the commands that are run. *)

Inductive seen := Echo (bytes : list Z) | Run (path : list Z).

Fixpoint until_nul (l : list Z) : list Z :=
  match l with
  | [] => []
  | c :: l => if c =? 0 then [] else c :: until_nul l
  end.

Definition seen_of (c : int80) : option seen :=
  match c with
  | Int80 4 _ (Ptr buf) (Int n) => Some (Echo (take (Z.to_nat n) buf))
  | Int80 59 (Ptr path) _ _ => Some (Run (until_nul path))
  | _ => None
  end.

Definition session (u : user) : list seen := omap seen_of (trace u).

(** The reference: a line editor over lists, with no arrays and no counters. *)
Definition edit (line : list Z) (c : Z) : list seen * list Z :=
  if c =? 8 then if bool_decide (line = []) then ([], []) else ([Echo [8]], removelast line)
  else if c =? 10 then
    ([Echo [10]] ++
     (if bool_decide (line = []) then []
      else [Run (bytes_of "/bin/" ++ line); Echo line; Echo (removelast not_found)]) ++
     [Echo (removelast shell_prompt)], [])
  else ([Echo [c]], line ++ [c]).

Fixpoint edits (line : list Z) (keys : list Z) : list seen :=
  match keys with
  | [] => []
  | c :: keys => let '(out, line) := edit line c in out ++ edits line keys
  end.

(** The longest line in progress. *)
Fixpoint lines_below (n : nat) (line keys : list Z) : bool :=
  match keys with
  | [] => true
  | c :: keys => (length (edit line c).2 <? n)%nat && lines_below n (edit line c).2 keys
  end.

(** ** Correctness *)

Lemma until_nul_app l tl : Forall (λ c, c ≠ 0) l → until_nul (l ++ 0 :: tl) = l.
Proof.
  induction 1 as [|c l Hc _ IH]; [done|]. simpl. rewrite (proj2 (Z.eqb_neq c 0)) by done. by rewrite IH.
Qed.

Lemma until_nul_split l : 0 ∈ l → ∃ tl, l = until_nul l ++ 0 :: tl.
Proof.
  induction l as [|c l IH]; [by intros ?%not_elem_of_nil|]. simpl. destruct (Z.eqb_spec c 0) as [->|Hc]; [by exists l|].
  intros [E0|Hl]%elem_of_cons; [congruence|]. destruct (IH Hl) as [tl E]. exists tl. simpl. by rewrite <-E.
Qed.

Lemma until_nul_nonzero l : Forall (λ c, c ≠ 0) (until_nul l).
Proof. induction l as [|c l IH]; simpl; [done|]. destruct (Z.eqb_spec c 0); by constructor. Qed.

Lemma in_array_ok {A} (l : list A) i : 0 ≤ i < Z.of_nat (length l) → in_array l i = true.
Proof. intros Hi. unfold in_array. by rewrite (proj2 (Z.leb_le _ _)), (proj2 (Z.ltb_lt _ _)) by lia. Qed.

Lemma append_string_run fuel before l tl pre old post u :
  Forall (λ c, c ≠ 0) l → (length l < fuel)%nat → length old = length l →
  append_string fuel (before ++ l ++ 0 :: tl) (Z.of_nat (length before)) (pre ++ old ++ post) (Z.of_nat (length pre)) u =
    Ret (pre ++ l ++ post, Z.of_nat (length pre + length l)) u.
Proof.
  revert before l pre old. induction fuel as [|fuel IH]; intros before l pre old Hl Hfuel Hold; [lia|].
  cbn [append_string]. destruct l as [|c l].
  - destruct old; [|done]. cbn [app].
    erewrite bind_ret; [|apply nth_or_ret; [lia|]; rewrite Nat2Z.id; by apply list_lookup_middle].
    rewrite Z.eqb_refl, Nat.add_0_r. done.
  - destruct old as [|x old]; [done|]. apply Forall_cons in Hl as [Hc Hl]. simpl in Hfuel, Hold.
    erewrite bind_ret; [|apply nth_or_ret; [lia|]; rewrite Nat2Z.id; by apply list_lookup_middle].
    rewrite (proj2 (Z.eqb_neq c 0)) by done.
    rewrite in_array_ok by (rewrite !length_app; simpl; lia). rewrite Nat2Z.id.
    assert (<[length pre := c]> (pre ++ (x :: old) ++ post) = (pre ++ [c]) ++ old ++ post) as ->.
    { rewrite insert_app_r_alt, Nat.sub_diag by lia. by rewrite <-app_assoc. }
    specialize (IH (before ++ [c]) l (pre ++ [c]) old Hl ltac:(lia) ltac:(lia)).
    rewrite !length_app, <-!app_assoc in IH. cbn [length app] in IH. cbn [app].
    replace (Z.of_nat (length before) + 1) with (Z.of_nat (length before + 1)) by lia.
    replace (Z.of_nat (length pre) + 1) with (Z.of_nat (length pre + 1)) by lia.
    rewrite <-!app_assoc. cbn [app]. rewrite IH. do 2 f_equal. simpl. lia.
Qed.

(** The size of the array [path] of [run_command]. *)
Definition path_size : nat := length bin_dir + INPUT_MAX_LENGTH.

Definition command_calls (line name rest : list Z) : list int80 :=
  [Int80 SYS_EXECVE (Ptr (bytes_of "/bin/" ++ line ++ 0 :: rest)) (Int 0) (Int 0);
   Int80 SYS_WRITE (Int 1) (Ptr name) (Int (Z.of_nat (length line)));
   Int80 SYS_WRITE (Int 1) (Ptr not_found) (Int (Z.of_nat (length not_found) - 1))].

Lemma run_command_run line tl path u :
  Forall (λ c, c ≠ 0) line → (length line < INPUT_MAX_LENGTH)%nat → length path = path_size →
  ∃ rest, run_command (line ++ 0 :: tl) path u =
    Ret tt (User (typed u) (trace u ++ command_calls line (line ++ 0 :: tl) rest)).
Proof.
  intros Hl Hlen Hpath. unfold path_size, INPUT_MAX_LENGTH in *.
  assert (Forall (λ c, c ≠ 0) (bytes_of "/bin/")) as Hbin by (apply (bool_decide_unpack _); vm_compute; exact I).
  assert (length bin_dir = 6%nat) as E6 by reflexivity. rewrite E6 in Hpath.
  assert (length (bytes_of "/bin/") = 5%nat) as E5 by reflexivity.
  set (old := take 5 path). set (p1 := drop 5 path).
  set (mid := take (length line) p1). set (post := drop (length line) p1).
  assert (path = [] ++ old ++ p1) as Ep by (symmetry; apply (take_drop 5)).
  assert (p1 = mid ++ post) as Ep1 by (symmetry; apply take_drop).
  assert (length p1 = 257%nat) as Hp1 by (unfold p1; rewrite length_drop; lia).
  assert (length mid = length line) as Hmid by (unfold mid; rewrite length_take; lia).
  destruct post as [|x rest] eqn:Epost.
  { assert (length post = 0%nat) as Hz by by rewrite Epost. unfold post in Hz. rewrite length_drop in Hz. lia. }
  exists rest. unfold run_command.
  assert (append_string (S (length bin_dir)) bin_dir 0 path 0 u = Ret (bytes_of "/bin/" ++ p1, 5) u) as H1.
  { rewrite Ep. apply (append_string_run _ [] (bytes_of "/bin/") [] [] old p1); [done | simpl; lia|].
    unfold old. rewrite length_take, E5, Hpath. lia. }
  rewrite (bind_ret _ _ _ _ _ H1). cbv beta iota.
  assert (append_string (S (length (line ++ 0 :: tl))) (line ++ 0 :: tl) 0 (bytes_of "/bin/" ++ p1) 5 u =
    Ret (bytes_of "/bin/" ++ line ++ x :: rest, Z.of_nat (5 + length line)) u) as H2.
  { rewrite Ep1. apply (append_string_run _ [] line tl (bytes_of "/bin/") mid (x :: rest)); [done | | done].
    rewrite length_app. simpl. lia. }
  rewrite (bind_ret _ _ _ _ _ H2). cbv beta iota.
  rewrite in_array_ok by (rewrite !length_app, E5; cbn [length]; lia). rewrite mret_bind, Nat2Z.id.
  assert (<[(5 + length line)%nat := 0]> (bytes_of "/bin/" ++ line ++ x :: rest) = bytes_of "/bin/" ++ line ++ 0 :: rest) as ->.
  { rewrite (insert_app_r (bytes_of "/bin/") (line ++ x :: rest) (length line)).
    f_equal. rewrite insert_app_r_alt, Nat.sub_diag by lia. done. }
  unfold execve, write, trap, command_calls. unfold mbind, M_bind, mret, M_ret. cbn [typed trace].
  rewrite E6. replace (Z.of_nat (5 + length line) - (Z.of_nat 6 - 1)) with (Z.of_nat (length line)) by lia.
  by rewrite <-!app_assoc.
Qed.

(** The array holds the line in progress. *)
Record holds (s : shell) (line : list Z) : Prop := {
  hd_size : length (input s) = INPUT_MAX_LENGTH;
  hd_count : input_char_count s = Z.of_nat (length line);
  hd_line : ∃ tl, input s = line ++ tl;
  hd_nonzero : Forall (λ c, c ≠ 0) line;
  hd_room : (length line < INPUT_MAX_LENGTH)%nat;
}.

Lemma prompt_run u : prompt u = Ret tt (User (typed u)
  (trace u ++ [Int80 SYS_WRITE (Int 1) (Ptr shell_prompt) (Int (Z.of_nat (length shell_prompt) - 1))])).
Proof. reflexivity. Qed.

Lemma read_key_run c rest tr :
  read 0 1 (User (c :: rest) tr) = Ret (1, [c]) (User rest (tr ++ [Int80 SYS_READ (Int 0) Unset (Int 1)])).
Proof.
  unfold read. cbn [typed trace]. rewrite (proj2 (Z.ltb_ge _ _)) by (simpl; lia). reflexivity.
Qed.

Lemma shell_turn_run s line path c rest tr :
  holds s line → length path = path_size → c ≠ 0 → (length (edit line c).2 < INPUT_MAX_LENGTH)%nat →
  ∃ s' calls, shell_turn path s (User (c :: rest) tr) = Ret s' (User rest (tr ++ calls)) ∧
    holds s' (edit line c).2 ∧ omap seen_of calls = (edit line c).1.
Proof.
  intros [Hsz Hn [tl Htl] Hnz Hroom] Hpath Hc. unfold shell_turn.
  rewrite (bind_ret _ _ _ _ _ (read_key_run c rest tr)). cbn [Z.leb Z.compare]. cbv zeta beta iota.
  rewrite Hn, in_array_ok by lia. rewrite Nat2Z.id. change (default 0 (head [c])) with c.
  destruct tl as [|x tl].
  { rewrite Htl, app_nil_r in Hsz. lia. }
  assert (<[length line := c]> (input s) = line ++ c :: tl) as Ein.
  { rewrite Htl, insert_app_r_alt, Nat.sub_diag by lia. done. }
  rewrite Ein.
  assert (∀ u : user, nth_or (line ++ c :: tl) (Z.of_nat (length line)) u = Ret c u) as Hnth.
  { intros u. apply nth_or_ret; [lia|]. rewrite Nat2Z.id. by apply list_lookup_middle. }
  rewrite (bind_ret _ _ _ _ _ (Hnth _)). cbv beta.
  assert (drop (length line) (line ++ c :: tl) = c :: tl) as Edrop by (by rewrite drop_app_length).
  rewrite Edrop. set (tr1 := tr ++ [Int80 SYS_READ (Int 0) Unset (Int 1)]).
  set (w := Int80 SYS_WRITE (Int 1) (Ptr (c :: tl)) (Int 1)).
  assert (write 1 (c :: tl) 1 (User rest tr1) = Ret 1 (User rest (tr1 ++ [w]))) as Hw by reflexivity.
  assert (∀ l, tr1 ++ l = tr ++ ([Int80 SYS_READ (Int 0) Unset (Int 1)] ++ l)) as Etr by (intros l; unfold tr1; by rewrite <-app_assoc).
  assert (length (line ++ c :: tl) = INPUT_MAX_LENGTH) as Hsz'.
  { rewrite <-Hsz, Htl, !length_app. done. }
  unfold edit. destruct (Z.eqb_spec c 8) as [->|H8].
  - destruct line as [|y line] using rev_ind; cbn [length Z.of_nat Z.eqb].
    + rewrite bool_decide_true by done. intros _. eexists _, [_]. split; [reflexivity|]. split; [|done].
      constructor; cbn; (done || lia || by eexists).
    + rewrite (proj2 (Z.eqb_neq _ _)) by (rewrite length_app; simpl; lia).
      rewrite bool_decide_false by (by destruct line). cbn [snd fst].
      rewrite removelast_last. intros _. rewrite (bind_ret _ _ _ _ _ Hw).
      eexists _, ([_] ++ [w]). rewrite Etr. split; [reflexivity|]. split; [|done].
      rewrite length_app in Hroom. rewrite (length_app line [y]). cbn [length] in *.
      apply Forall_app in Hnz as [Hnz _]. constructor; cbn [input input_char_count].
      * done.
      * rewrite u8_id; [lia|]. unfold INPUT_MAX_LENGTH in *. lia.
      * rewrite <-app_assoc. by eexists.
      * done.
      * lia.
  - destruct (Z.eqb_spec c 10) as [->|H10].
    + intros _. rewrite (bind_ret _ _ _ _ _ Hw). cbv zeta.
      assert (<[length line := 0]> (line ++ 10 :: tl) = line ++ 0 :: tl) as ->.
      { by rewrite insert_app_r_alt, Nat.sub_diag by lia. }
      assert (length (line ++ 0 :: tl) = INPUT_MAX_LENGTH) as Hsz0.
      { rewrite <-Hsz', !length_app. done. }
      assert (holds (Shell (line ++ 0 :: tl) 0) []) as Hh by (constructor; cbn; (done || lia || by eexists)).
      cbn [fst snd]. destruct line as [|y line]; cbn [length].
      * rewrite bool_decide_true by done. change (0 <? Z.of_nat 0) with false. cbv iota. rewrite mret_bind, (bind_ret _ _ _ _ _ (prompt_run _)). cbn [typed trace].
        rewrite <-app_assoc, Etr. eexists _, _. split; [reflexivity|]. done.
      * rewrite bool_decide_false by done. rewrite (proj2 (Z.ltb_lt _ _)) by lia.
        destruct (run_command_run (y :: line) tl path (User rest (tr1 ++ [w])) Hnz Hroom Hpath) as (more & Hrun).
        rewrite (bind_ret _ _ _ _ _ Hrun), (bind_ret _ _ _ _ _ (prompt_run _)). cbn [typed trace].
        rewrite <-!app_assoc, Etr. eexists _, _. split; [reflexivity|]. split; [done|].
        cbn [omap list_omap app seen_of command_calls w SYS_EXECVE SYS_WRITE SYS_READ].
        rewrite Nat2Z.id. do 2 f_equal.
        -- f_equal. change (until_nul (bytes_of "/bin/" ++ (y :: line) ++ 0 :: more) = bytes_of "/bin/" ++ y :: line).
           rewrite app_assoc, until_nul_app; [done|]. apply Forall_app. split; [|done].
           apply (bool_decide_unpack _); vm_compute; exact I.
        -- f_equal. f_equal. exact (take_app_length (y :: line) (0 :: tl)).
    + cbn [fst snd]. rewrite length_app. cbn [length]. intros Hroom'. rewrite (bind_ret _ _ _ _ _ Hw).
      eexists _, ([_] ++ [w]). rewrite Etr. split; [reflexivity|]. split; [|done].
      constructor; cbn [input input_char_count].
      * done.
      * rewrite u8_id; rewrite ?length_app; cbn [length]; unfold INPUT_MAX_LENGTH in *; lia.
      * exists tl. by rewrite <-app_assoc.
      * apply Forall_app. split; [done|]. by constructor.
      * by rewrite length_app.
Qed.

Lemma shell_loop_run keys s line path tr :
  holds s line → length path = path_size → Forall (λ c, c ≠ 0) keys → lines_below INPUT_MAX_LENGTH line keys = true →
  ∃ s' calls, shell_loop (length keys) path s (User keys tr) = Ret s' (User [] (tr ++ calls)) ∧
    omap seen_of calls = edits line keys.
Proof.
  intros Hs Hpath. revert s line tr Hs. induction keys as [|c keys IH]; intros s line tr Hs.
  - intros _ _. exists s, []. by rewrite app_nil_r.
  - intros [Hc Hkeys]%Forall_cons [Hb%Nat.ltb_lt Hbs]%andb_prop.
    destruct (shell_turn_run s line path c keys tr Hs Hpath Hc Hb) as (s1 & calls & Hrun & Hs1 & Hseen).
    destruct (IH s1 _ (tr ++ calls) Hs1 Hkeys Hbs) as (s2 & calls2 & Hrun2 & Hseen2).
    exists s2, (calls ++ calls2). cbn [length shell_loop]. rewrite (bind_ret _ _ _ _ _ Hrun), Hrun2, <-app_assoc.
    split; [done|]. rewrite omap_app, Hseen, Hseen2. cbn [edits]. by destruct (edit line c).
Qed.

(** C31 (shell, the line editor): while no line in progress reaches 256 characters,
    what potatoshell shows and runs for the keys typed is what the line editor on
    lists gives: every key is echoed, backspace removes the last character of a
    non-empty line, return runs [/bin/] followed by the line if there is one, and
    prompts again; no access leaves the arrays. *)
Theorem shell_line_editor keys path cells :
  Forall (λ c, c ≠ 0) keys → lines_below INPUT_MAX_LENGTH [] keys = true →
  length path = path_size → length cells = INPUT_MAX_LENGTH →
  ∃ s u, potatoshell (length keys) path cells (User keys []) = Ret s u ∧ typed u = [] ∧
    session u = Echo (bytes_of "potato$hell> ") :: edits [] keys.
Proof.
  intros Hkeys Hb Hpath Hcells. unfold potatoshell. rewrite (bind_ret _ _ _ _ _ (prompt_run _)). cbn [typed trace app].
  assert (holds (Shell cells 0) []) as Hs by (constructor; cbn; (done || (unfold INPUT_MAX_LENGTH; lia) || by eexists)).
  destruct (shell_loop_run keys _ _ path
    [Int80 SYS_WRITE (Int 1) (Ptr shell_prompt) (Int (Z.of_nat (length shell_prompt) - 1))] Hs Hpath Hkeys Hb)
    as (s & calls & Hrun & Hseen).
  exists s, (User [] ([Int80 SYS_WRITE (Int 1) (Ptr shell_prompt) (Int (Z.of_nat (length shell_prompt) - 1))] ++ calls)).
  split; [exact Hrun|]. split; [done|]. unfold session. cbn [trace]. rewrite omap_app, Hseen. reflexivity.
Qed.

(** ** The array is never left *)

Record in_bounds (s : shell) : Prop := {
  ib_size : length (input s) = INPUT_MAX_LENGTH;
  ib_count : 0 ≤ input_char_count s < 256;
}.

Lemma shell_turn_bounds s path c rest tr :
  in_bounds s → length path = path_size →
  ∃ s' tr', shell_turn path s (User (c :: rest) tr) = Ret s' (User rest tr') ∧ in_bounds s'.
Proof.
  intros [Hsz Hn] Hpath. unfold shell_turn. rewrite (bind_ret _ _ _ _ _ (read_key_run c rest tr)).
  cbn [Z.leb Z.compare]. cbv zeta beta iota. set (n := input_char_count s) in *. unfold INPUT_MAX_LENGTH in *.
  rewrite in_array_ok by lia. change (default 0 (head [c])) with c.
  assert (length (<[Z.to_nat n:=c]> (input s)) = 256%nat) as Hsz1 by (by rewrite length_insert).
  assert (∀ u : user, nth_or (<[Z.to_nat n:=c]> (input s)) n u = Ret c u) as Hnth.
  { intros u. apply nth_or_ret; [lia|]. apply list_lookup_insert_eq. lia. }
  rewrite (bind_ret _ _ _ _ _ (Hnth _)). cbv beta.
  set (tr1 := tr ++ _). set (line := <[Z.to_nat n:=c]> (input s)) in *.
  assert (∃ w, write 1 (drop (Z.to_nat n) line) 1 (User rest tr1) = Ret 1 (User rest w)) as [w Hw] by (by eexists).
  destruct (Z.eqb_spec c 8); [|destruct (Z.eqb_spec c 10)].
  - destruct (Z.eqb_spec n 0); [eexists _, _; by split|]. rewrite (bind_ret _ _ _ _ _ Hw).
    eexists _, _. split; [reflexivity|]. split; [done|]. cbn. apply u8_range.
  - rewrite (bind_ret _ _ _ _ _ Hw). cbv zeta. set (line0 := <[Z.to_nat n:=0]> line).
    assert (length line0 = 256%nat) as Hsz0 by (unfold line0; by rewrite length_insert).
    assert (in_bounds (Shell line0 0)) as Hb by (split; cbn; (done || lia)).
    assert (∃ tr', (if 0 <? n then run_command line0 path else mret tt) (User rest w) = Ret tt (User rest tr')) as [tr' Hrun].
    { destruct (0 <? n); [|by eexists].
      assert (line0 !! Z.to_nat n = Some 0) as Hz by (apply list_lookup_insert_eq; lia).
      destruct (until_nul_split line0) as [tl Etl]; [by eapply list_elem_of_lookup_2|].
      destruct (run_command_run (until_nul line0) tl path (User rest w) (until_nul_nonzero _)) as (more & Hrun); [|done|].
      - apply (f_equal length) in Etl. rewrite length_app in Etl. cbn [length] in Etl. unfold INPUT_MAX_LENGTH. lia.
      - rewrite <-Etl in Hrun. by eexists. }
    rewrite (bind_ret _ _ _ _ _ Hrun), (bind_ret _ _ _ _ _ (prompt_run _)). eexists _, _. by split.
  - rewrite (bind_ret _ _ _ _ _ Hw). eexists _, _. split; [reflexivity|]. split; [done|]. cbn. apply u8_range.
Qed.

(** (shell, bounds): whatever is typed, however long the line, potatoshell keeps
    its accesses inside [input] and [path]; it stops only to wait for a key. *)
Theorem shell_in_bounds turns keys path cells :
  length path = path_size → length cells = INPUT_MAX_LENGTH →
  (∃ s u, potatoshell turns path cells (User keys []) = Ret s u ∧ in_bounds s) ∨
  ∃ u, potatoshell turns path cells (User keys []) = Fault Asleep u ∧ typed u = [].
Proof.
  intros Hpath Hcells. unfold potatoshell. rewrite (bind_ret _ _ _ _ _ (prompt_run _)). cbn [typed trace app].
  assert (in_bounds (Shell cells 0)) as Hs by (constructor; cbn; (done || lia)).
  revert Hs. generalize (Shell cells 0). generalize [Int80 SYS_WRITE (Int 1) (Ptr shell_prompt) (Int (Z.of_nat (length shell_prompt) - 1))].
  revert keys. induction turns as [|turns IH]; intros keys tr s Hs; [left; by exists s, (User keys tr)|].
  cbn [shell_loop]. destruct keys as [|c keys].
  - right. exists (User [] tr). split; [|done]. by unfold shell_turn.
  - destruct (shell_turn_bounds s path c keys tr Hs Hpath) as (s1 & tr1 & Hrun & Hs1).
    rewrite (bind_ret _ _ _ _ _ Hrun). by apply IH.
Qed.

(** A line of 256 characters is forgotten: the counter is back at 0. *)
Lemma shell_forgets :
  ∃ s u, potatoshell 257 (replicate path_size 0) (replicate INPUT_MAX_LENGTH 0) (User (replicate 256 97 ++ [10]) []) = Ret s u ∧
    (∀ p, Run p ∉ session u) ∧ ∃ p, Run p ∈ edits [] (replicate 256 97 ++ [10]).
Proof.
  eexists _, _. split; [vm_compute; reflexivity|].
  assert (∀ l : list seen, forallb (λ x, match x with Run _ => false | Echo _ => true end) l = true → ∀ p, Run p ∉ l) as Hn.
  { intros l Hl p Hp. rewrite forallb_forall in Hl. by specialize (Hl _ (proj1 (list_elem_of_In _ _) Hp)). }
  split; [apply Hn; vm_compute; reflexivity|]. exists (bytes_of "/bin/" ++ replicate 256 97).
  apply list_elem_of_In. assert (edits [] (replicate 256 97 ++ [10]) =
    ((λ c, Echo [c]) <$> replicate 256 97) ++ [Echo [10]; Run (bytes_of "/bin/" ++ replicate 256 97);
      Echo (replicate 256 97); Echo (removelast not_found); Echo (removelast shell_prompt)]) as -> by (vm_compute; reflexivity).
  apply in_or_app. right. right. by left.
Qed.

Lemma shell_line_editor_witness :
  ∃ s u, potatoshell 6 (replicate path_size 7) (replicate INPUT_MAX_LENGTH 7) (User [108; 120; 8; 115; 10; 8] []) = Ret s u ∧
    session u = [Echo (bytes_of "potato$hell> "); Echo [108]; Echo [120]; Echo [8]; Echo [115]; Echo [10];
      Run (bytes_of "/bin/ls"); Echo (bytes_of "ls"); Echo (bytes_of ": command not found" ++ [10]);
      Echo (bytes_of "potato$hell> ")].
Proof.
  destruct (shell_line_editor [108; 120; 8; 115; 10; 8] (replicate path_size 7) (replicate INPUT_MAX_LENGTH 7))
    as (s & u & Hrun & _ & Hs).
  - repeat constructor; discriminate.
  - vm_compute. reflexivity.
  - exact (length_replicate _ _).
  - exact (length_replicate _ _).
  - exists s, u. split; [exact Hrun|]. etrans; [exact Hs|]. vm_compute. reflexivity.
Defined.

Lemma shell_in_bounds_witness :
  ∃ u, potatoshell 3 (replicate path_size 7) (replicate INPUT_MAX_LENGTH 7) (User [10; 8] []) = Fault Asleep u.
Proof.
  destruct (shell_in_bounds 3 [10; 8] (replicate path_size 7) (replicate INPUT_MAX_LENGTH 7)
    (length_replicate _ _) (length_replicate _ _)) as [(s & u & Hrun & _)|(u & Hrun & _)].
  - vm_compute in Hrun. discriminate Hrun.
  - exists u. exact Hrun.
Defined.
