(* ===== verification/Frames.v ===== *)
(** * Physical frames (src/kernel/memory.c)

    [physical_frame_in_use] has one flag for each of the 16384 frames of 64
    MiB; the first 1024 frames are the 4 MiB the kernel itself is mapped in. *)

From S2P Require Import Prelude.

(** ** The code *)

Definition PAGE_SIZE : Z := 4096.
Definition PAGE_TABLE_ENTRIES : Z := 1024.
Definition PHYSICAL_FRAMES : Z := 16384.

Abbreviation frames := (list bool).

Definition mask_kernel_pages : M frames unit :=
  for_range 0 PAGE_TABLE_ENTRIES (λ i, put_nth i true).

(** [init_physical_memory_allocator] without its two console messages. *)
Definition init_frames : M frames unit :=
  modify (λ _, replicate (Z.to_nat PHYSICAL_FRAMES) false);;
  mask_kernel_pages.

Definition alloc_phys_frame : M frames Z :=
  r ← take_first_clear PHYSICAL_FRAMES (λ i, i *ᵤ PAGE_SIZE);
  mret (default 0 r).

Definition free_phys_frame (frame_base_addr : Z) : M frames Z :=
  let frame_index := frame_base_addr `div` PAGE_SIZE in
  if frame_index <? PAGE_TABLE_ENTRIES then mret 0
  else
    put_nth frame_index false;;
    mret 1.

(** ** The frames in use *)

Definition frame_of (i : nat) : Z := Z.of_nat i * 4096.

(** The kernel's frames are in use for good. *)
Record frames_ok (f : frames) : Prop := {
  frames_length : Z.of_nat (length f) = PHYSICAL_FRAMES;
  frames_kernel : ∀ i, Z.of_nat i < 1024 → f !! i = Some true;
}.

Definition frame_in_use (f : frames) (i : nat) : Prop := f !! i = Some true.

Lemma frames_clear f i : frames_ok f → f !! i = Some false → 1024 ≤ Z.of_nat i < 16384.
Proof.
  intros [Hl Hk] Hi. pose proof (lookup_lt_Some _ _ _ Hi) as Hlt.
  unfold PHYSICAL_FRAMES in Hl.
  destruct (decide (Z.of_nat i < 1024)) as [H|]; [|lia]. rewrite (Hk i H) in Hi. done.
Qed.

Lemma frames_ok_insert f i b : frames_ok f → 1024 ≤ Z.of_nat i → frames_ok (<[i := b]> f).
Proof.
  intros [Hl Hk] Hi. constructor; [by rewrite length_insert|].
  intros j Hj. rewrite list_lookup_insert_ne by lia. auto.
Qed.

Lemma alloc_phys_frame_run f :
  frames_ok f →
  match first_clear f with
  | Some i => alloc_phys_frame f = Ret (frame_of i) (<[i := true]> f)
  | None => alloc_phys_frame f = Ret 0 f
  end.
Proof.
  intros Hf. unfold alloc_phys_frame, mbind, M_bind.
  rewrite take_first_clear_run by (rewrite (frames_length _ Hf); done).
  destruct (first_clear f) as [i|] eqn:E; [|done].
  apply first_clear_Some in E as [Hi _]. apply frames_clear in Hi; [|done]. simpl.
  rewrite u32_id; [done|]. unfold PAGE_SIZE. lia.
Qed.

Lemma free_phys_frame_run f i :
  frames_ok f → 1024 ≤ Z.of_nat i < 16384 → free_phys_frame (frame_of i) f = Ret 1 (<[i := false]> f).
Proof.
  intros [Hl _] Hi. unfold free_phys_frame, frame_of, PAGE_SIZE.
  rewrite Z.div_mul by lia. rewrite (proj2 (Z.ltb_ge _ _)) by (unfold PAGE_TABLE_ENTRIES; lia).
  erewrite bind_ret; [|apply put_nth_ret; unfold PHYSICAL_FRAMES in Hl; lia].
  by rewrite Nat2Z.id.
Qed.

Lemma init_frames_run f :
  ∃ f', init_frames f = Ret tt f' ∧ frames_ok f' ∧ ∀ i, 1024 ≤ Z.of_nat i < 16384 → f' !! i = Some false.
Proof.
  unfold init_frames. autorewrite with monad. unfold mask_kernel_pages.
  destruct (for_range_inv (λ i (f : frames), Z.of_nat (length f) = PHYSICAL_FRAMES ∧
    ∀ j, Z.of_nat j < 16384 → f !! j = Some (Z.of_nat j <? i))
    0 PAGE_TABLE_ENTRIES (λ i, put_nth i true) (replicate (Z.to_nat PHYSICAL_FRAMES) false))
    as (f' & -> & Hl & Hf').
  - unfold PAGE_TABLE_ENTRIES. lia.
  - split; [by rewrite length_replicate|]. intros j Hj.
    rewrite (proj2 (Z.ltb_ge _ _)) by lia. apply lookup_replicate.
    unfold PHYSICAL_FRAMES. split; [done | lia].
  - intros i f0 Hi [Hl Hf]. unfold PAGE_TABLE_ENTRIES, PHYSICAL_FRAMES in *.
    eexists; split; [apply put_nth_ret; lia|]. split; [by rewrite length_insert|].
    intros j Hj. destruct (decide (j = Z.to_nat i)) as [->|].
    + rewrite list_lookup_insert_eq by lia. by rewrite (proj2 (Z.ltb_lt _ _)) by lia.
    + rewrite list_lookup_insert_ne, Hf by lia. f_equal.
      destruct (Z.ltb_spec (Z.of_nat j) i), (Z.ltb_spec (Z.of_nat j) (i + 1)); lia.
  - exists f'. unfold PAGE_TABLE_ENTRIES in Hf'. split_and!; [done| |].
    + constructor; [done|]. intros i Hi. rewrite Hf' by lia.
      by rewrite (proj2 (Z.ltb_lt _ _)) by lia.
    + intros i Hi. rewrite Hf' by lia. by rewrite (proj2 (Z.ltb_ge _ _)) by lia.
Qed.

(** ** Properties *)

(** C35 (frames, [alloc_phys_frame]): the allocator returns the lowest free frame,
    which is above the kernel's 4 MiB, and marks only that frame, or returns 0
    and changes nothing when every frame is in use. *)
Theorem alloc_phys_frame_correct f :
  frames_ok f →
  (∃ i, alloc_phys_frame f = Ret (frame_of i) (<[i := true]> f) ∧ frames_ok (<[i := true]> f) ∧
        1024 ≤ Z.of_nat i < 16384 ∧ f !! i = Some false ∧ ∀ j, (j < i)%nat → frame_in_use f j)
  ∨ (alloc_phys_frame f = Ret 0 f ∧ ∀ i, Z.of_nat i < 16384 → frame_in_use f i).
Proof.
  intros Hf. pose proof (alloc_phys_frame_run f Hf) as Hrun.
  destruct (first_clear f) as [i|] eqn:E.
  - left. apply first_clear_Some in E as [Hi Hlt].
    pose proof (frames_clear f i Hf Hi). exists i.
    split_and!; try done; [|lia..]. apply frames_ok_insert; [done | lia].
  - right. split; [done|]. intros i Hi.
    destruct (lookup_lt_is_Some_2 f i) as [b Hb]; [pose proof (frames_length _ Hf); unfold PHYSICAL_FRAMES in *; lia|].
    unfold frame_in_use. by rewrite Hb, (first_clear_None _ _ _ E Hb).
Qed.

(** C38 (frames, [free_phys_frame]): a kernel frame is refused, a frame of the 64
    MiB is freed, and any other address writes outside the array. *)
Theorem free_phys_frame_correct f a :
  frames_ok f → 0 ≤ a < 0x100000000 →
  free_phys_frame a f =
    if a <? 0x400000 then Ret 0 f
    else if a <? 0x4000000 then Ret 1 (<[Z.to_nat (a `div` 4096) := false]> f)
    else Fault OutOfBounds f.
Proof.
  intros [Hl _] Ha. unfold free_phys_frame, PAGE_SIZE, PAGE_TABLE_ENTRIES.
  unfold PHYSICAL_FRAMES in Hl.
  destruct (Z.ltb_spec a 0x400000).
  - rewrite (proj2 (Z.ltb_lt _ _)); [done | Z.div_mod_to_equations; lia].
  - rewrite (proj2 (Z.ltb_ge _ _)) by (Z.div_mod_to_equations; lia).
    destruct (Z.ltb_spec a 0x4000000).
    + erewrite bind_ret; [done|]. apply put_nth_ret. Z.div_mod_to_equations. lia.
    + erewrite bind_fault; [done|]. apply put_nth_out. Z.div_mod_to_equations. lia.
Qed.

(** ** Witnesses *)

Definition fresh_frames : frames := replicate 1024 true ++ replicate (Z.to_nat 15360) false.

Lemma fresh_frames_ok : frames_ok fresh_frames.
Proof.
  constructor; [by unfold fresh_frames; rewrite length_app, !length_replicate|]. intros i Hi. unfold fresh_frames.
  rewrite lookup_app_l by (rewrite length_replicate; lia). apply lookup_replicate. lia.
Qed.

Lemma alloc_phys_frame_correct_witness :
  alloc_phys_frame fresh_frames = Ret 0x400000 (<[1024%nat := true]> fresh_frames).
Proof.
  assert (fresh_frames !! 1024%nat = Some false) as H by (vm_compute; reflexivity).
  destruct (alloc_phys_frame_correct fresh_frames fresh_frames_ok)
    as [(i & -> & _ & Hi & _ & Hlow) | [_ Hall]].
  - assert (i = 1024%nat) as ->; [|done].
    destruct (decide (1024 < Z.of_nat i)) as [Hlt|]; [|lia].
    specialize (Hlow 1024%nat). unfold frame_in_use in Hlow. rewrite Hlow in H by lia. done.
  - specialize (Hall 1024%nat). unfold frame_in_use in Hall. rewrite Hall in H by lia. done.
Defined.

Lemma free_phys_frame_correct_witness :
  free_phys_frame 0x4000000 fresh_frames = Fault OutOfBounds fresh_frames.
Proof. apply (free_phys_frame_correct fresh_frames 0x4000000 fresh_frames_ok). lia. Defined.
