(* ===== verification/Paging.v ===== *)
(** * Page tables (src/kernel/paging.c)

    The state holds the words of the kernel's page directories and tables by
    their virtual addresses, the flags of the two pools, the register [cr3] and
    the translations that the processor may have cached.  The first part is the
    code, the second the processor's walk of the tables, the third the
    invariant of the pools and what the operations do to the walks. *)

From S2P Require Import Prelude Layout Frames.

(** ** The code *)

Definition PAGING_DIRECTORY_POOL_SIZE : Z := 16.
Definition PAGING_TABLE_POOL_SIZE : Z := 64.
Definition PAGE_DIRECTORY_ENTRIES : Z := 1024.
Definition KERNEL_VMA_TO_LMA_OFFSET : Z := 0xc0000000.
Definition PAGE_FLAG_PRESENT : Z := 0x1.
Definition PAGE_FLAG_WRITABLE : Z := 0x2.
Definition PAGE_FLAG_USER : Z := 0x4.
Definition PAGE_ADDRESS_MASK : Z := 0xfffff000.

Record paging := Paging {
  words : gmap Z Z;         (* pd_pool, pt_pool and the boot tables *)
  pd_in_use : list bool;
  pt_in_use : list bool;
  cr3 : Z;
  tlb : gmap Z Z;           (* page table entries cached for pages of [cr3] *)
}.

Definition set_words w p := Paging w (pd_in_use p) (pt_in_use p) (cr3 p) (tlb p).
Definition set_pd_in_use l p := Paging (words p) l (pt_in_use p) (cr3 p) (tlb p).
Definition set_pt_in_use l p := Paging (words p) (pd_in_use p) l (cr3 p) (tlb p).

#[refine] Definition has_pd_in_use : Has (list bool) paging :=
  {| part := pd_in_use; set_part := set_pd_in_use |}.
Proof. all: by try intros []. Defined.
#[refine] Definition has_pt_in_use : Has (list bool) paging :=
  {| part := pt_in_use; set_part := set_pt_in_use |}.
Proof. all: by try intros []. Defined.

(** The kernel reads and writes paging words through its own mapping of the
    first 4 MiB at [KERNEL_VMA_TO_LMA_OFFSET]; nothing else is mapped there. *)
Definition kernel_word (a : Z) : bool :=
  (KERNEL_VMA_TO_LMA_OFFSET <=? a) && (a <? KERNEL_VMA_END) && (a mod 4 =? 0).

Definition word (p : paging) (a : Z) : Z := default 0 (words p !! a).

Definition load_word (a : Z) : M paging Z := λ p,
  if kernel_word a then Ret (word p a) p else Fault WildAccess p.

Definition store_word (a v : Z) : M paging unit := λ p,
  if kernel_word a then Ret tt (set_words (<[a := v]> (words p)) p) else Fault WildAccess p.

(** [memset(a, 0, PAGE_SIZE)], a word at a time. *)
Definition clear_page (a : Z) : M paging unit :=
  for_range 0 1024 (λ i, store_word (a + 4 * i) 0).

Section pools.
Context `{!Layout}.

Definition pd_slot (i : Z) : Z := pd_pool + i * PAGE_SIZE.
Definition pt_slot (i : Z) : Z := pt_pool + i * PAGE_SIZE.

Definition alloc_pd : M paging Z :=
  r ← lift (Has0 := has_pd_in_use) (take_first_clear PAGING_DIRECTORY_POOL_SIZE pd_slot);
  match r with
  | Some pgd => clear_page pgd;; mret pgd
  | None => mret 0
  end.

Definition free_pd (pgd : Z) : M paging Z :=
  r ← for_return 0 PAGING_DIRECTORY_POOL_SIZE (λ i,
        if pd_slot i =? pgd then lift (Has0 := has_pd_in_use) (put_nth i false);; mret (Some 1)
        else mret None);
  mret (default 0 r).

Definition alloc_pt : M paging Z :=
  r ← lift (Has0 := has_pt_in_use) (take_first_clear PAGING_TABLE_POOL_SIZE pt_slot);
  match r with
  | Some pgt => clear_page pgt;; mret pgt
  | None => mret 0
  end.

Definition free_pt (pgt : Z) : M paging Z :=
  r ← for_return 0 PAGING_TABLE_POOL_SIZE (λ i,
        if pt_slot i =? pgt then lift (Has0 := has_pt_in_use) (put_nth i false);; mret (Some 1)
        else mret None);
  mret (default 0 r).
End pools.

Definition get_cr3 : M paging Z := gets (λ p, Z.land (cr3 p) PAGE_ADDRESS_MASK).

(** Loading [cr3] drops every cached translation. *)
Definition set_cr3 (v : Z) : M paging unit :=
  modify (λ p, Paging (words p) (pd_in_use p) (pt_in_use p) v ∅).

Definition get_pd_lma (pgd_virt : Z) : Z :=
  Z.land (pgd_virt -ᵤ KERNEL_VMA_TO_LMA_OFFSET) PAGE_ADDRESS_MASK.

Definition get_pd_vma (pgd_phys : Z) : Z :=
  Z.land pgd_phys PAGE_ADDRESS_MASK +ᵤ KERNEL_VMA_TO_LMA_OFFSET.

(** [invlpg] drops the translation of the page that contains [vma]. *)
Definition flush_tlb_single (vma : Z) : M paging unit :=
  modify (λ p, Paging (words p) (pd_in_use p) (pt_in_use p) (cr3 p) (delete (vma `div` 4096) (tlb p))).

Definition pde_index (page_base_addr : Z) : Z := Z.land (Z.shiftr page_base_addr 22) 0x3ff.
Definition pte_index (page_base_addr : Z) : Z := Z.land (Z.shiftr page_base_addr 12) 0x3ff.

Definition flush_if_current (pgd page_base_addr : Z) : M paging unit :=
  current ← get_cr3;
  if current =? get_pd_lma pgd then flush_tlb_single page_base_addr else mret tt.

Definition map_page (pgd page_base_addr frame_base_addr flags : Z) : M paging Z :=
  if Z.land flags PAGE_FLAG_PRESENT =? 0 then mret 0
  else
    pde ← load_word (pgd +ᵤ 4 * pde_index page_base_addr);
    let page_table := get_pd_vma pde in
    if page_table =? 0 then mret 0
    else
      store_word (page_table +ᵤ 4 * pte_index page_base_addr) (Z.lor frame_base_addr flags);;
      flush_if_current pgd page_base_addr;;
      mret 1.

Definition unmap_page (pgd page_base_addr : Z) : M paging Z :=
  pde ← load_word (pgd +ᵤ 4 * pde_index page_base_addr);
  if Z.land pde PAGE_FLAG_PRESENT =? 0 then mret 0
  else
    let page_table := get_pd_vma pde in
    store_word (page_table +ᵤ 4 * pte_index page_base_addr) 0;;
    flush_if_current pgd page_base_addr;;
    mret 1.

(** ** The processor's walk *)

Definition present (e : Z) : bool := negb (Z.land e PAGE_FLAG_PRESENT =? 0).
Definition user (e : Z) : bool := negb (Z.land e PAGE_FLAG_USER =? 0).

Definition pde (p : paging) (pgd k : Z) : Z := word p (pgd + 4 * k).

(** The entry for [va] in the directory at the kernel address [pgd]. *)
Definition walk (p : paging) (pgd va : Z) : option Z :=
  let e := pde p pgd (pde_index va) in
  if present e then
    let t := word p (get_pd_vma e + 4 * pte_index va) in
    if present t then Some t else None
  else None.

(** The cached translations agree with the current tables. *)
Definition tlb_coherent (p : paging) : Prop :=
  ∀ page e, tlb p !! page = Some e →
    0 ≤ page < 0x100000 ∧ walk p (get_pd_vma (cr3 p)) (page * 4096) = Some e.

(** The processor may cache a translation at any time, of a valid entry only. *)
Inductive tlb_fill : paging → paging → Prop :=
  | tlb_fill_page p va e :
      0 ≤ va < 0x100000000 → walk p (get_pd_vma (cr3 p)) va = Some e →
      tlb_fill p (Paging (words p) (pd_in_use p) (pt_in_use p) (cr3 p)
                         (<[va `div` 4096 := e]> (tlb p))).

(** ** Addresses *)

Lemma pde_index_div va : 0 ≤ va < 0x100000000 → pde_index va = va `div` 4194304.
Proof.
  intros Hva. unfold pde_index. rewrite Z.shiftr_div_pow2 by lia.
  rewrite (land_low _ 10) by (reflexivity || lia).
  apply Z.mod_small. change (2 ^ 22) with 4194304. Z.div_mod_to_equations. lia.
Qed.

Lemma pte_index_mod va : pte_index va = va `div` 4096 mod 1024.
Proof.
  unfold pte_index. rewrite Z.shiftr_div_pow2 by lia. apply (land_low _ 10); [lia | done].
Qed.

Lemma pde_index_range va : 0 ≤ pde_index va < 1024.
Proof.
  unfold pde_index. rewrite (land_low _ 10) by (reflexivity || lia). apply Z.mod_pos_bound. lia.
Qed.
Lemma pte_index_range va : 0 ≤ pte_index va < 1024.
Proof. rewrite pte_index_mod. apply Z.mod_pos_bound. lia. Qed.
#[export] Hint Resolve pde_index_range pte_index_range : word.

Lemma index_inj va va' :
  0 ≤ va < 0x100000000 → 0 ≤ va' < 0x100000000 →
  pde_index va = pde_index va' → pte_index va = pte_index va' → va `div` 4096 = va' `div` 4096.
Proof.
  intros ??. rewrite !pde_index_div, !pte_index_mod by done. intros.
  Z.div_mod_to_equations. lia.
Qed.

Lemma index_page va :
  0 ≤ va < 0x100000000 →
  pde_index (va `div` 4096 * 4096) = pde_index va ∧ pte_index (va `div` 4096 * 4096) = pte_index va.
Proof.
  intros ?. rewrite !pde_index_div, !pte_index_mod by (Z.div_mod_to_equations; lia).
  rewrite Z.div_mul by lia. split; [|done]. Z.div_mod_to_equations. lia.
Qed.

Lemma walk_page p pgd va :
  0 ≤ va < 0x100000000 → walk p pgd (va `div` 4096 * 4096) = walk p pgd va.
Proof. intros H. unfold walk. by destruct (index_page va H) as [-> ->]. Qed.

Lemma get_pd_lma_kernel a :
  0xc0000000 ≤ a < 0x100000000 → a mod 4096 = 0 → get_pd_lma a = a - 0xc0000000.
Proof.
  intros Ha Hm. unfold get_pd_lma, KERNEL_VMA_TO_LMA_OFFSET, PAGE_ADDRESS_MASK.
  rewrite u32_id, land_page_mask by lia. Z.div_mod_to_equations. lia.
Qed.

(** The two address translations are inverse on the kernel's pages, whatever
    flags the entry carries. *)
Lemma get_pd_vma_lma a fl :
  0xc0000000 ≤ a < 0x100000000 → a mod 4096 = 0 → 0 ≤ fl < 4096 →
  get_pd_vma (Z.lor (get_pd_lma a) fl) = a.
Proof.
  intros Ha Hm Hfl. rewrite get_pd_lma_kernel by done.
  unfold get_pd_vma, KERNEL_VMA_TO_LMA_OFFSET, PAGE_ADDRESS_MASK.
  rewrite lor_page_mask by (Z.div_mod_to_equations; lia). rewrite u32_id; lia.
Qed.

Lemma get_pd_lma_vma e : get_pd_lma (get_pd_vma e) = Z.land e PAGE_ADDRESS_MASK.
Proof.
  unfold get_pd_lma, get_pd_vma, KERNEL_VMA_TO_LMA_OFFSET, PAGE_ADDRESS_MASK.
  assert (∀ m, 0 ≤ m → Z.land m 0xfffff000 = Z.land (u32 m) 0xfffff000) as Hu.
  { intros m Hm. unfold u32. change 0x100000000 with (2 ^ 32). rewrite <-Z.land_ones by lia.
    by rewrite <-Z.land_assoc. }
  unfold u32 at 1 2. rewrite Zminus_mod_idemp_l.
  replace (Z.land e 0xfffff000 + 3221225472 - 3221225472) with (Z.land e 0xfffff000) by lia.
  change (_ mod 4294967296) with (u32 (Z.land e 0xfffff000)).
  assert (0 ≤ Z.land e 0xfffff000) by (apply Z.land_nonneg; lia).
  rewrite <-Hu by done. by rewrite <-Z.land_assoc.
Qed.

Lemma present_lor a fl : a mod 4096 = 0 → present (Z.lor a fl) = present fl.
Proof. intros. unfold present, PAGE_FLAG_PRESENT. by rewrite lor_page_land by lia. Qed.
Lemma user_lor a fl : a mod 4096 = 0 → user (Z.lor a fl) = user fl.
Proof. intros. unfold user, PAGE_FLAG_USER. by rewrite lor_page_land by lia. Qed.

(** The entries for the kernel's own 4 MiB. *)
Definition kernel_pde (k : Z) : Prop := k = 0 ∨ k = 768.

(** Brings the layout's laws into the context. *)
Ltac layout :=
  pose proof pd_pool_aligned; pose proof pt_pool_aligned;
  pose proof boot_page_directory_aligned; pose proof boot_page_table_aligned;
  pose proof pd_pool_range; pose proof pt_pool_range;
  pose proof boot_page_directory_range; pose proof boot_page_table_range;
  pose proof pools_apart; pose proof boot_pd_apart_pd; pose proof boot_pd_apart_pt;
  pose proof boot_pt_apart_pd; pose proof boot_pt_apart_pt; pose proof boot_apart;
  unfold in_kernel, apart, KERNEL_VMA, KERNEL_VMA_END, pd_slot, pt_slot, PAGE_SIZE,
    kernel_pde in *.

Section invariant.
Context `{!Layout}.

(** ** The invariant of the pools *)

Definition pd_live (p : paging) (i : Z) : Prop :=
  0 ≤ i < 16 ∧ pd_in_use p !! Z.to_nat i = Some true.
Definition pt_live (p : paging) (j : Z) : Prop :=
  0 ≤ j < 64 ∧ pt_in_use p !! Z.to_nat j = Some true.

(** What boot.asm leaves in the boot directory: the 4 MiB at 0 and at
    [KERNEL_VMA_TO_LMA_OFFSET], for the kernel only. *)
Definition boot_pde (k : Z) : Z :=
  if (k =? 0) || (k =? 768) then Z.lor (get_pd_lma boot_page_table) 0x3 else 0.

(** Entry [k] of directory [i] refers to the page table [j]. *)
Definition maps (p : paging) (i k j : Z) : Prop :=
  pd_live p i ∧ pt_live p j ∧ 0 ≤ k < 1024 ∧ ¬ kernel_pde k ∧
  present (pde p (pd_slot i) k) = true ∧ user (pde p (pd_slot i) k) = true ∧
  get_pd_vma (pde p (pd_slot i) k) = pt_slot j.

Definition pde_ok (p : paging) (i k : Z) : Prop :=
  present (pde p (pd_slot i) k) = false ∨
  (kernel_pde k ∧ pde p (pd_slot i) k = boot_pde k) ∨
  ∃ j, maps p i k j.

Definition directory (p : paging) (pgd : Z) : Prop :=
  pgd = boot_page_directory ∨ ∃ i, pd_live p i ∧ pgd = pd_slot i.

Record paging_ok (p : paging) : Prop := {
  po_pds : length (pd_in_use p) = 16%nat;
  po_pts : length (pt_in_use p) = 64%nat;
  po_words : ∀ a, 0 ≤ word p a < 0x100000000;
  po_boot : ∀ k, 0 ≤ k < 1024 → pde p boot_page_directory k = boot_pde k;
  po_pde : ∀ i k, pd_live p i → 0 ≤ k < 1024 → pde_ok p i k;
  po_unique : ∀ i k i' k' j, maps p i k j → maps p i' k' j → i = i' ∧ k = k';
  po_cr3 : directory p (get_pd_vma (cr3 p));
}.

Lemma kernel_word_page a k :
  in_kernel a 4096 → a mod 4096 = 0 → 0 ≤ k < 1024 → kernel_word (a + 4 * k) = true.
Proof.
  unfold in_kernel, kernel_word, KERNEL_VMA, KERNEL_VMA_END, KERNEL_VMA_TO_LMA_OFFSET.
  intros. rewrite (proj2 (Z.leb_le _ _)), (proj2 (Z.ltb_lt _ _)), (proj2 (Z.eqb_eq _ _));
    [done | Z.div_mod_to_equations; lia | lia..].
Qed.

Lemma pd_slot_page i : 0 ≤ i < 16 → in_kernel (pd_slot i) 4096 ∧ pd_slot i mod 4096 = 0.
Proof. intros. layout. split; [lia | Z.div_mod_to_equations; lia]. Qed.
Lemma pt_slot_page j : 0 ≤ j < 64 → in_kernel (pt_slot j) 4096 ∧ pt_slot j mod 4096 = 0.
Proof. intros. layout. split; [lia | Z.div_mod_to_equations; lia]. Qed.

Lemma in_kernel_u32 a n : in_kernel a n → 0 ≤ n → 0xc0000000 ≤ a < 0x100000000.
Proof. unfold in_kernel, KERNEL_VMA, KERNEL_VMA_END. lia. Qed.

Lemma pd_slot_lma i fl : 0 ≤ i < 16 → 0 ≤ fl < 4096 →
  get_pd_vma (Z.lor (get_pd_lma (pd_slot i)) fl) = pd_slot i.
Proof. intros Hi Hfl. layout. apply get_pd_vma_lma; [lia | Z.div_mod_to_equations; lia | done]. Qed.
Lemma pt_slot_lma j fl : 0 ≤ j < 64 → 0 ≤ fl < 4096 →
  get_pd_vma (Z.lor (get_pd_lma (pt_slot j)) fl) = pt_slot j.
Proof. intros Hi Hfl. layout. apply get_pd_vma_lma; [lia | Z.div_mod_to_equations; lia | done]. Qed.
Lemma boot_pde_vma k : kernel_pde k → get_pd_vma (boot_pde k) = boot_page_table.
Proof.
  intros Hk. assert (boot_pde k = Z.lor (get_pd_lma boot_page_table) 3) as ->.
  { unfold boot_pde. by destruct Hk as [-> | ->]. }
  layout. apply get_pd_vma_lma; lia.
Qed.

Lemma word_set p a v b :
  word (set_words (<[a := v]> (words p)) p) b = if decide (a = b) then v else word p b.
Proof.
  unfold word. simpl. destruct (decide (a = b)) as [->|]; [by rewrite lookup_insert_eq|].
  by rewrite lookup_insert_ne.
Qed.

(** *** Storing a page table entry *)

Definition set_pte (j m v : Z) (p : paging) : paging :=
  set_words (<[pt_slot j + 4 * m := v]> (words p)) p.

Lemma directory_page p pgd : directory p pgd → in_kernel pgd 4096 ∧ pgd mod 4096 = 0.
Proof.
  intros [-> | (i & [Hi _] & ->)]; [|by apply pd_slot_page]. layout. split; lia.
Qed.

Lemma pde_set_pte j m v p pgd k :
  0 ≤ j < 64 → 0 ≤ m < 1024 → 0 ≤ k < 1024 → directory p pgd →
  pde (set_pte j m v p) pgd k = pde p pgd k.
Proof.
  intros Hj Hm Hk Hd. unfold pde, set_pte. rewrite word_set, decide_False; [done|].
  destruct Hd as [-> | (i & [Hi _] & ->)]; layout; lia.
Qed.

Lemma directory_set_pte j m v p pgd : directory (set_pte j m v p) pgd ↔ directory p pgd.
Proof. done. Qed.

Lemma maps_set_pte j m v p i k j' :
  0 ≤ j < 64 → 0 ≤ m < 1024 → maps (set_pte j m v p) i k j' ↔ maps p i k j'.
Proof.
  intros Hj Hm. unfold maps.
  assert (pd_live p i → 0 ≤ k < 1024 → pde (set_pte j m v p) (pd_slot i) k = pde p (pd_slot i) k) as E.
  { intros Hi Hk. apply pde_set_pte; [done..|]. right. by exists i. }
  split; intros (Hi & Hj' & Hk & Hrest); [rewrite (E Hi Hk) in Hrest | rewrite (E Hi Hk)];
    exact (conj Hi (conj Hj' (conj Hk Hrest))).
Qed.

Lemma paging_ok_set_pte j m v p :
  0 ≤ j < 64 → 0 ≤ m < 1024 → 0 ≤ v < 0x100000000 → paging_ok p → paging_ok (set_pte j m v p).
Proof.
  intros Hj Hm Hv [H1 H2 Hw Hb He Hu Hc]. constructor; try done.
  - intros a. unfold set_pte. rewrite word_set. case_decide; auto.
  - intros k Hk. rewrite pde_set_pte by (done || by left). auto.
  - intros i k Hi Hk. assert (directory p (pd_slot i)) by (right; by exists i).
    destruct (He i k Hi Hk) as [Hn | [[Hk' Hb'] | [j' Hj']]]; unfold pde_ok.
    + left. by rewrite pde_set_pte.
    + right; left. by rewrite pde_set_pte.
    + right; right. exists j'. by apply maps_set_pte.
  - intros i k i' k' j' X X'. apply maps_set_pte in X, X'; eauto.
Qed.

(** Where the walk reads the page table entry for [va]. *)
Lemma walk_table p pgd va :
  paging_ok p → directory p pgd → 0 ≤ va < 0x100000000 →
  present (pde p pgd (pde_index va)) = true →
  get_pd_vma (pde p pgd (pde_index va)) = boot_page_table ∨
  ∃ i j, pgd = pd_slot i ∧ maps p i (pde_index va) j.
Proof.
  intros Hp Hd Hva Hpr. pose proof (pde_index_range va) as Hk.
  destruct Hd as [-> | (i & Hi & ->)].
  - left. rewrite (po_boot _ Hp) in Hpr |- * by done. apply boot_pde_vma. unfold kernel_pde, boot_pde in *.
    destruct (Z.eqb_spec (pde_index va) 0), (Z.eqb_spec (pde_index va) 768);
      [by auto.. | done].
  - destruct (po_pde _ Hp i _ Hi Hk) as [Hn | [[Hk' Hb'] | [j' Hj']]].
    + congruence.
    + left. rewrite Hb'. by apply boot_pde_vma.
    + right. by exists i, j'.
Qed.

Lemma walk_set_pte_other i k j m v p pgd va :
  paging_ok p → maps p i k j → 0 ≤ m < 1024 → directory p pgd → 0 ≤ va < 0x100000000 →
  (pgd ≠ pd_slot i ∨ pde_index va ≠ k ∨ pte_index va ≠ m) →
  walk (set_pte j m v p) pgd va = walk p pgd va.
Proof.
  intros Hp Hmaps Hm Hd Hva Hne. pose proof Hmaps as (_ & [Hj _] & _).
  pose proof (pde_index_range va) as Hk. pose proof (pte_index_range va) as Ht.
  unfold walk. rewrite pde_set_pte by done.
  destruct (present (pde p pgd (pde_index va))) eqn:Hpr; [|done].
  assert (word (set_pte j m v p) (get_pd_vma (pde p pgd (pde_index va)) + 4 * pte_index va) =
          word p (get_pd_vma (pde p pgd (pde_index va)) + 4 * pte_index va)) as ->; [|done].
  unfold set_pte. rewrite word_set, decide_False; [done|]. intros E.
  destruct (walk_table p pgd va) as [Hb | (i' & j' & -> & Hm')]; [done..| |].
  - rewrite Hb in E. layout. lia.
  - destruct Hm' as (Hi' & Hj' & Hrest). pose proof Hrest as (_ & _ & _ & _ & Hvma).
    rewrite Hvma in E. pose proof Hj' as [Hj'r _].
    assert (j = j' ∧ m = pte_index va) as [<- ->] by (unfold pt_slot, PAGE_SIZE in E; lia).
    destruct (po_unique _ Hp i k i' (pde_index va) j) as [-> ->];
      [done | exact (conj Hi' (conj Hj' Hrest)) | clear -Hne; tauto].
Qed.

Lemma walk_set_pte_same i k j m v p va :
  maps p i k j → pde_index va = k → pte_index va = m →
  walk (set_pte j m v p) (pd_slot i) va = if present v then Some v else None.
Proof.
  intros Hmaps <- <-. pose proof Hmaps as (Hi & [Hj _] & Hk & _ & Hpr & _ & Hvma).
  unfold walk. rewrite pde_set_pte; [|done | apply pte_index_range | done | right; by exists i].
  rewrite Hpr, Hvma. unfold set_pte. by rewrite word_set, decide_True.
Qed.

(** *** Mapping and unmapping *)

Definition flushed (pgd page : Z) (p : paging) : paging :=
  if Z.land (cr3 p) PAGE_ADDRESS_MASK =? get_pd_lma pgd then
    Paging (words p) (pd_in_use p) (pt_in_use p) (cr3 p) (delete (page `div` 4096) (tlb p))
  else p.

Lemma flush_if_current_run pgd page p :
  flush_if_current pgd page p = Ret tt (flushed pgd page p).
Proof. unfold flush_if_current, flushed, get_cr3. rewrite gets_bind. by case_match. Qed.

Lemma flushed_walk pgd page p pgd' va : walk (flushed pgd page p) pgd' va = walk p pgd' va.
Proof. unfold flushed. by case_match. Qed.

Lemma paging_ok_flushed pgd page p : paging_ok p → paging_ok (flushed pgd page p).
Proof. intros [H1 H2 Hw Hb He Hu Hc]. unfold flushed. by case_match; constructor. Qed.

Lemma maps_walk_word p i k j m :
  maps p i k j → 0 ≤ m < 1024 →
  pd_slot i +ᵤ 4 * k = pd_slot i + 4 * k ∧ kernel_word (pd_slot i + 4 * k) = true ∧
  get_pd_vma (pde p (pd_slot i) k) +ᵤ 4 * m = pt_slot j + 4 * m ∧
  kernel_word (pt_slot j + 4 * m) = true ∧ get_pd_vma (pde p (pd_slot i) k) ≠ 0.
Proof.
  intros ([Hi _] & [Hj _] & Hk & _ & _ & _ & Hvma) Hm. rewrite Hvma.
  destruct (pd_slot_page i Hi), (pt_slot_page j Hj).
  rewrite !kernel_word_page by done. layout. rewrite !u32_id by lia. split_and!; lia || done.
Qed.

Lemma map_page_run p i j page frame flags :
  maps p i (pde_index page) j → present flags = true →
  map_page (pd_slot i) page frame flags p =
    Ret 1 (flushed (pd_slot i) page (set_pte j (pte_index page) (Z.lor frame flags) p)).
Proof.
  intros Hm Hf.
  destruct (maps_walk_word p i _ j (pte_index page) Hm) as (E1 & K1 & E2 & K2 & Hnz).
  { apply pte_index_range. }
  unfold map_page. apply negb_true_iff in Hf. rewrite Hf, E1.
  erewrite bind_ret; [|unfold load_word; by rewrite K1].
  fold (pde p (pd_slot i) (pde_index page)). cbv zeta.
  rewrite (proj2 (Z.eqb_neq _ _)), E2 by done.
  erewrite bind_ret; [|unfold store_word; by rewrite K2].
  erewrite bind_ret; [|apply flush_if_current_run]. done.
Qed.

Lemma unmap_page_run p i j page :
  maps p i (pde_index page) j →
  unmap_page (pd_slot i) page p =
    Ret 1 (flushed (pd_slot i) page (set_pte j (pte_index page) 0 p)).
Proof.
  intros Hm. pose proof Hm as (_ & _ & _ & _ & Hpr & _).
  destruct (maps_walk_word p i _ j (pte_index page) Hm) as (E1 & K1 & E2 & K2 & Hnz).
  { apply pte_index_range. }
  unfold unmap_page. rewrite E1.
  erewrite bind_ret; [|unfold load_word; by rewrite K1].
  fold (pde p (pd_slot i) (pde_index page)). cbv zeta.
  apply negb_true_iff in Hpr. rewrite Hpr, E2.
  erewrite bind_ret; [|unfold store_word; by rewrite K2].
  erewrite bind_ret; [|apply flush_if_current_run]. done.
Qed.

(** Storing an entry and flushing its page keeps the cached translations right. *)
Lemma tlb_coherent_set_pte p i j page v :
  paging_ok p → tlb_coherent p → maps p i (pde_index page) j → 0 ≤ page < 0x100000000 →
  tlb_coherent (flushed (pd_slot i) page (set_pte j (pte_index page) v p)).
Proof.
  intros Hp Ht Hm Hpage page' e. rewrite flushed_walk.
  assert (cr3 (flushed (pd_slot i) page (set_pte j (pte_index page) v p)) = cr3 p) as ->
    by (unfold flushed; by case_match).
  assert (∀ va, 0 ≤ va < 0x100000000 →
    get_pd_vma (cr3 p) ≠ pd_slot i ∨ va `div` 4096 ≠ page `div` 4096 →
    walk (set_pte j (pte_index page) v p) (get_pd_vma (cr3 p)) va =
    walk p (get_pd_vma (cr3 p)) va) as Hother.
  { intros va Hva Hne. eapply walk_set_pte_other; try done; [auto with word | by apply po_cr3 |].
    destruct Hne as [|Hne]; [by left|].
    destruct (decide (pde_index va = pde_index page)); [|tauto].
    destruct (decide (pte_index va = pte_index page)); [|tauto].
    by destruct Hne; apply index_inj. }
  unfold flushed. case_match eqn:E; simpl.
  - intros [Hne He]%lookup_delete_Some. destruct (Ht _ _ He) as [Hr Hw]. split; [done|].
    rewrite Hother, Hw; [done | lia|]. right. rewrite Z.div_mul by lia. congruence.
  - intros He. destruct (Ht _ _ He) as [Hr Hw]. split; [done|].
    rewrite Hother, Hw; [done | lia|]. left. intros Hc. apply Z.eqb_neq in E.
    apply E. rewrite <-get_pd_lma_vma. simpl. by rewrite Hc.
Qed.

Lemma set_pte_others p i j page v pgd va :
  paging_ok p → maps p i (pde_index page) j → 0 ≤ page < 0x100000000 →
  directory p pgd → 0 ≤ va < 0x100000000 →
  pgd ≠ pd_slot i ∨ va `div` 4096 ≠ page `div` 4096 →
  walk (flushed (pd_slot i) page (set_pte j (pte_index page) v p)) pgd va = walk p pgd va.
Proof.
  intros Hp Hm Hpage Hd Hva Hne. rewrite flushed_walk.
  eapply walk_set_pte_other; try done; [auto with word|].
  destruct Hne as [|Hne]; [by left|].
  destruct (decide (pde_index va = pde_index page)); [|tauto].
  destruct (decide (pte_index va = pte_index page)); [|tauto].
  by destruct Hne; apply index_inj.
Qed.

(** *** The pools *)

(** [p'] is [p] with the page at [a] zeroed. *)
Definition zeroed (a : Z) (p p' : paging) : Prop :=
  p' = set_words (words p') p ∧
  ∀ b, word p' b = if decide (a ≤ b < a + 4096 ∧ b mod 4 = 0) then 0 else word p b.

Lemma clear_page_run a p :
  in_kernel a 4096 → a mod 4096 = 0 → ∃ p', clear_page a p = Ret tt p' ∧ zeroed a p p'.
Proof.
  intros Ha Hm. unfold clear_page.
  destruct (for_range_inv (λ n p', p' = set_words (words p') p ∧
      ∀ b, word p' b = if decide (a ≤ b < a + 4 * n ∧ b mod 4 = 0) then 0 else word p b)
    0 1024 (λ i, store_word (a + 4 * i) 0) p) as (p' & Hrun & Hz); [lia | | |by exists p'].
  - split; [by destruct p|]. intros b. rewrite decide_False; [done | lia].
  - intros n p0 Hn [Hp0 Hw]. eexists. unfold store_word. rewrite kernel_word_page by done.
    split; [done|]. split; [by rewrite Hp0|]. intros b. rewrite word_set, Hw.
    repeat case_decide; try done; exfalso; Z.div_mod_to_equations; lia.
Qed.

Lemma zeroed_word a p p' b : zeroed a p p' → ¬ a ≤ b < a + 4096 → word p' b = word p b.
Proof. intros [_ Hz] Hb. rewrite Hz, decide_False; [done | lia]. Qed.
Lemma zeroed_page a p p' k :
  zeroed a p p' → a mod 4096 = 0 → 0 ≤ k < 1024 → word p' (a + 4 * k) = 0.
Proof.
  intros [_ Hz] Ha Hk. rewrite Hz, decide_True; [done|]. split; [lia|]. Z.div_mod_to_equations. lia.
Qed.

Lemma flags_lookup (l : list bool) i j :
  (<[Z.to_nat i := true]> l) !! Z.to_nat j = Some true → 0 ≤ i → 0 ≤ j →
  i = j ∨ l !! Z.to_nat j = Some true.
Proof.
  intros Hl Hi Hj. destruct (decide (i = j)) as [|Hne]; [by left|]. right.
  rewrite list_lookup_insert_ne in Hl; [done | lia].
Qed.

(** What the invariant needs of a change of words that keeps every live entry. *)
Lemma paging_ok_grow_pd p p' i :
  paging_ok p → 0 ≤ i < 16 → pd_in_use p !! Z.to_nat i = Some false →
  zeroed (pd_slot i) (set_pd_in_use (<[Z.to_nat i := true]> (pd_in_use p)) p) p' →
  paging_ok p' ∧ (∀ i' k j, maps p' i' k j ↔ maps p i' k j) ∧
  (∀ k, 0 ≤ k < 1024 → pde p' (pd_slot i) k = 0) ∧
  (∀ pgd k, directory p pgd → 0 ≤ k < 1024 → pde p' pgd k = pde p pgd k).
Proof.
  intros Hp Hi Hfree Hz. pose proof Hz as [Hwords _].
  destruct (pd_slot_page i Hi) as [Hin Hal].
  assert (∀ k, 0 ≤ k < 1024 → pde p' (pd_slot i) k = 0) as Hnew.
  { intros k Hk. by apply (zeroed_page _ _ _ _ Hz). }
  assert (∀ pgd k, directory p pgd → 0 ≤ k < 1024 → pde p' pgd k = pde p pgd k) as Hold.
  { intros pgd k Hd Hk. unfold pde. rewrite (zeroed_word _ _ _ _ Hz); [done|].
    destruct Hd as [-> | (i' & [Hi' Hl] & ->)]; [layout; lia|].
    assert (i ≠ i') by congruence. layout. lia. }
  assert (∀ i', pd_live p i' → pd_live p' i') as Hl1.
  { intros i' [Hr Hl]. split; [done|]. rewrite Hwords. simpl.
    destruct (decide (i = i')) as [<-|]; [congruence|]. rewrite list_lookup_insert_ne; [done | lia]. }
  assert (∀ i', pd_live p' i' → i' = i ∨ pd_live p i') as Hl2.
  { intros i' [Hr Hl]. rewrite Hwords in Hl. simpl in Hl.
    apply flags_lookup in Hl; [|lia..]. destruct Hl; [by left | by right]. }
  assert (∀ j, pt_live p' j ↔ pt_live p j) as Hpt by (intros j; unfold pt_live; by rewrite Hwords).
  assert (∀ i', pd_live p i' → directory p (pd_slot i')) as Hdir by (intros i' ?; right; by exists i').
  assert (∀ i' k j, maps p' i' k j ↔ maps p i' k j) as Hmaps.
  { intros i' k j. split; intros (Hlive & Hj & Hk & Hnk & Hrest).
    - destruct (Hl2 i' Hlive) as [-> | Hlive'].
      + rewrite (Hnew k Hk) in Hrest. by destruct Hrest.
      + rewrite (Hold _ _ (Hdir _ Hlive') Hk) in Hrest. apply Hpt in Hj. by unfold maps.
    - rewrite <-(Hold _ _ (Hdir _ Hlive) Hk) in Hrest. apply Hpt in Hj. apply Hl1 in Hlive.
      by unfold maps. }
  split; [|done]. destruct Hp as [H1 H2 Hw Hb He Hu Hc]. constructor.
  - rewrite Hwords. simpl. by rewrite length_insert.
  - by rewrite Hwords.
  - intros a. destruct Hz as [_ Hz]. rewrite Hz. case_decide; [lia | apply Hw].
  - intros k Hk. rewrite Hold; [auto | by left | done].
  - intros i' k Hlive Hk. unfold pde_ok. destruct (Hl2 i' Hlive) as [-> | Hlive'].
    + left. by rewrite Hnew.
    + rewrite (Hold _ _ (Hdir _ Hlive') Hk). destruct (He i' k Hlive' Hk) as [|[|[j Hj]]]; [auto..|].
      right; right. exists j. by apply Hmaps.
  - intros i1 k1 i2 k2 j M1 M2. apply Hmaps in M1, M2. eauto.
  - assert (cr3 p' = cr3 p) as -> by (by rewrite Hwords).
    destruct Hc as [|(i' & ? & ?)]; [by left | right; exists i'; auto].
Qed.

Lemma alloc_pd_run p :
  paging_ok p →
  match first_clear (pd_in_use p) with
  | Some i => ∃ p', alloc_pd p = Ret (pd_slot (Z.of_nat i)) p' ∧ Z.of_nat i < 16 ∧
      zeroed (pd_slot (Z.of_nat i)) (set_pd_in_use (<[i := true]> (pd_in_use p)) p) p'
  | None => alloc_pd p = Ret 0 p
  end.
Proof.
  intros Hp. pose proof (po_pds _ Hp) as Hl.
  assert (take_first_clear PAGING_DIRECTORY_POOL_SIZE pd_slot (pd_in_use p) =
    match first_clear (pd_in_use p) with
    | Some i => Ret (Some (pd_slot (Z.of_nat i))) (<[i := true]> (pd_in_use p))
    | None => Ret None (pd_in_use p)
    end) as Hrun by (apply take_first_clear_run; by rewrite Hl).
  unfold alloc_pd. destruct (first_clear (pd_in_use p)) as [i|] eqn:E.
  - apply first_clear_Some in E as [Hi _]. apply lookup_lt_Some in Hi.
    step (lift_ret (Has0 := has_pd_in_use) _ _ _ _ Hrun).
    destruct (pd_slot_page (Z.of_nat i)) as [Hin Hal]; [lia|].
    destruct (clear_page_run (pd_slot (Z.of_nat i))
      (set_pd_in_use (<[i := true]> (pd_in_use p)) p)) as (p' & Hc & Hz); [done..|].
    exists p'. step Hc. split_and!; [done | lia | done].
  - step (lift_ret (Has0 := has_pd_in_use) _ _ _ _ Hrun). by destruct p.
Qed.

Lemma alloc_pt_run p :
  paging_ok p →
  match first_clear (pt_in_use p) with
  | Some j => ∃ p', alloc_pt p = Ret (pt_slot (Z.of_nat j)) p' ∧ Z.of_nat j < 64 ∧
      zeroed (pt_slot (Z.of_nat j)) (set_pt_in_use (<[j := true]> (pt_in_use p)) p) p'
  | None => alloc_pt p = Ret 0 p
  end.
Proof.
  intros Hp. pose proof (po_pts _ Hp) as Hl.
  assert (take_first_clear PAGING_TABLE_POOL_SIZE pt_slot (pt_in_use p) =
    match first_clear (pt_in_use p) with
    | Some i => Ret (Some (pt_slot (Z.of_nat i))) (<[i := true]> (pt_in_use p))
    | None => Ret None (pt_in_use p)
    end) as Hrun by (apply take_first_clear_run; by rewrite Hl).
  unfold alloc_pt. destruct (first_clear (pt_in_use p)) as [j|] eqn:E.
  - apply first_clear_Some in E as [Hj _]. apply lookup_lt_Some in Hj.
    step (lift_ret (Has0 := has_pt_in_use) _ _ _ _ Hrun).
    destruct (pt_slot_page (Z.of_nat j)) as [Hin Hal]; [lia|].
    destruct (clear_page_run (pt_slot (Z.of_nat j))
      (set_pt_in_use (<[j := true]> (pt_in_use p)) p)) as (p' & Hc & Hz); [done..|].
    exists p'. step Hc. split_and!; [done | lia | done].
  - step (lift_ret (Has0 := has_pt_in_use) _ _ _ _ Hrun). by destruct p.
Qed.

Lemma paging_ok_grow_pt p p' j :
  paging_ok p → 0 ≤ j < 64 → pt_in_use p !! Z.to_nat j = Some false →
  zeroed (pt_slot j) (set_pt_in_use (<[Z.to_nat j := true]> (pt_in_use p)) p) p' →
  paging_ok p' ∧ pt_live p' j ∧ (∀ i k, ¬ maps p' i k j) ∧
  (∀ i k j', maps p' i k j' ↔ maps p i k j') ∧
  (∀ pgd k, directory p pgd → 0 ≤ k < 1024 → pde p' pgd k = pde p pgd k) ∧
  (∀ j', pt_live p' j' → j' = j ∨ pt_live p j') ∧ (∀ j', pt_live p j' → pt_live p' j').
Proof.
  intros Hp Hj Hfree Hz. pose proof Hz as [Hwords _].
  assert (∀ pgd k, directory p pgd → 0 ≤ k < 1024 → pde p' pgd k = pde p pgd k) as Hold.
  { intros pgd k Hd Hk. unfold pde. rewrite (zeroed_word _ _ _ _ Hz); [done|].
    destruct Hd as [-> | (i' & [Hi' Hl] & ->)]; layout; lia. }
  assert (∀ j', pt_live p j' → pt_live p' j') as Hl1.
  { intros j' [Hr Hl]. split; [done|]. rewrite Hwords. simpl.
    destruct (decide (j = j')) as [<-|]; [congruence|]. rewrite list_lookup_insert_ne; [done | lia]. }
  assert (∀ j', pt_live p' j' → j' = j ∨ pt_live p j') as Hl2.
  { intros j' [Hr Hl]. rewrite Hwords in Hl. simpl in Hl.
    apply flags_lookup in Hl; [|lia..]. destruct Hl; [by left | by right]. }
  assert (pt_live p' j) as Hlj.
  { split; [done|]. rewrite Hwords. simpl. apply list_lookup_insert_eq.
    rewrite (po_pts _ Hp). lia. }
  assert (∀ i, pd_live p' i ↔ pd_live p i) as Hpd by (intros i; unfold pd_live; by rewrite Hwords).
  assert (∀ i, pd_live p i → directory p (pd_slot i)) as Hdir by (intros i' ?; right; by exists i').
  assert (∀ i k, ¬ maps p' i k j) as Hno.
  { intros i k (Hlive & _ & Hk & Hnk & Hpr & _ & Hvma). apply Hpd in Hlive.
    rewrite (Hold _ _ (Hdir _ Hlive) Hk) in Hpr, Hvma.
    destruct (po_pde _ Hp i k Hlive Hk) as [Hn | [[Hk' _] | [j' (_ & [Hj' Hl] & _ & _ & _ & _ & Hvma')]]].
    - congruence.
    - done.
    - assert (j' = j) as -> by (rewrite Hvma in Hvma'; unfold pt_slot, PAGE_SIZE in Hvma'; lia).
      congruence. }
  assert (∀ i k j', maps p' i k j' ↔ maps p i k j') as Hmaps.
  { intros i k j'. split; intros Hm; pose proof Hm as (Hlive & Hj' & Hk & Hnk & Hrest).
    - destruct (Hl2 j' Hj') as [-> | Hlive']; [by destruct (Hno i k)|]. apply Hpd in Hlive.
      rewrite (Hold _ _ (Hdir _ Hlive) Hk) in Hrest. by unfold maps.
    - rewrite <-(Hold _ _ (Hdir _ Hlive) Hk) in Hrest. apply Hpd in Hlive. apply Hl1 in Hj'.
      by unfold maps. }
  split_and!; [|done..]. destruct Hp as [H1 H2 Hw Hb He Hu Hc]. constructor.
  - by rewrite Hwords.
  - rewrite Hwords. simpl. by rewrite length_insert.
  - intros a. destruct Hz as [_ Hz]. rewrite Hz. case_decide; [lia | apply Hw].
  - intros k Hk. rewrite Hold; [auto | by left | done].
  - intros i k Hlive Hk. apply Hpd in Hlive. unfold pde_ok.
    rewrite (Hold _ _ (Hdir _ Hlive) Hk). destruct (He i k Hlive Hk) as [|[|[j' Hj']]]; [auto..|].
    right; right. exists j'. by apply Hmaps.
  - intros i1 k1 i2 k2 j' M1 M2. apply Hmaps in M1, M2. eauto.
  - assert (cr3 p' = cr3 p) as -> by (by rewrite Hwords).
    destruct Hc as [|(i' & ? & ?)]; [by left | right; exists i'; by rewrite Hpd].
Qed.

(** *** Storing a directory entry *)

Definition set_pde (i k v : Z) (p : paging) : paging :=
  set_words (<[pd_slot i + 4 * k := v]> (words p)) p.

Lemma pde_set_pde i k v p i' k' :
  0 ≤ i < 16 → 0 ≤ i' < 16 → 0 ≤ k < 1024 → 0 ≤ k' < 1024 →
  pde (set_pde i k v p) (pd_slot i') k' = if decide (i = i' ∧ k = k') then v else pde p (pd_slot i') k'.
Proof.
  intros. unfold pde, set_pde. rewrite word_set. unfold pd_slot, PAGE_SIZE.
  repeat case_decide; [done | lia | lia | done].
Qed.

Lemma pde_set_pde_boot i k v p k' :
  0 ≤ i < 16 → 0 ≤ k < 1024 → 0 ≤ k' < 1024 →
  pde (set_pde i k v p) boot_page_directory k' = pde p boot_page_directory k'.
Proof. intros. unfold pde, set_pde. rewrite word_set, decide_False; [done|]. layout. lia. Qed.

Lemma word_set_pde i k v p j m :
  0 ≤ i < 16 → 0 ≤ k < 1024 → 0 ≤ j < 64 → 0 ≤ m < 1024 →
  word (set_pde i k v p) (pt_slot j + 4 * m) = word p (pt_slot j + 4 * m).
Proof. intros. unfold set_pde. rewrite word_set, decide_False; [done|]. layout. lia. Qed.

(** A value that entry [k] of directory [i] may take. *)
Definition pde_value (p : paging) (i k v : Z) : Prop :=
  present v = false ∨ (kernel_pde k ∧ v = boot_pde k) ∨
  (¬ kernel_pde k ∧ present v = true ∧ user v = true ∧
   ∃ j, pt_live p j ∧ get_pd_vma v = pt_slot j ∧ ∀ i' k', maps p i' k' j → i' = i ∧ k' = k).

Lemma maps_set_pde i k v p i' k' j :
  0 ≤ i < 16 → 0 ≤ k < 1024 →
  maps (set_pde i k v p) i' k' j ↔
    (i = i' ∧ k = k' ∧ pd_live p i ∧ pt_live p j ∧ ¬ kernel_pde k ∧ present v = true ∧
     user v = true ∧ get_pd_vma v = pt_slot j) ∨ (¬ (i = i' ∧ k = k') ∧ maps p i' k' j).
Proof.
  intros Hi Hk. unfold maps. change (pd_live (set_pde i k v p)) with (pd_live p).
  change (pt_live (set_pde i k v p)) with (pt_live p). split.
  - intros (Hlive & Hj & Hk' & Hnk & Hrest). pose proof Hlive as [Hi' _].
    rewrite pde_set_pde in Hrest by done. case_decide as Hd.
    + left. destruct Hd as [-> ->]. tauto.
    + right. tauto.
  - intros [(<- & <- & Hlive & Hj & Hnk & Hrest) | [Hne (Hlive & Hj & Hk' & Hnk & Hrest)]].
    + rewrite pde_set_pde, decide_True by done. tauto.
    + pose proof Hlive as [Hi' _]. rewrite pde_set_pde, decide_False by done. tauto.
Qed.

Lemma paging_ok_set_pde p i k v :
  paging_ok p → pd_live p i → 0 ≤ k < 1024 → 0 ≤ v < 0x100000000 → pde_value p i k v →
  paging_ok (set_pde i k v p).
Proof.
  intros [H1 H2 Hw Hb He Hu Hc] Hlive Hk Hv Hval. pose proof Hlive as [Hi _]. constructor; try done.
  - intros a. unfold set_pde. rewrite word_set. by case_decide.
  - intros k' Hk'. rewrite pde_set_pde_boot; auto.
  - intros i' k' Hlive' Hk'. pose proof Hlive' as [Hi' _]. unfold pde_ok.
    rewrite pde_set_pde by done. case_decide as Hd.
    + destruct Hd as [<- <-]. destruct Hval as [|[|(Hnk & Hpr & Hus & j & Hj & Hvma & _)]]; [auto..|].
      right; right. exists j. apply maps_set_pde; [done..|]. by left.
    + destruct (He i' k' Hlive' Hk') as [|[|[j Hj]]]; [auto..|].
      right; right. exists j. apply maps_set_pde; [done..|]. by right.
  - assert (∀ i' k' j, maps p i' k' j → ¬ (i = i' ∧ k = k') → present v = true → user v = true →
      ¬ kernel_pde k → get_pd_vma v = pt_slot j → False) as Hfresh.
    { intros i' k' j Hm Hne Hpr Hus Hnk Hvma.
      destruct Hval as [|[[]|(_ & _ & _ & j' & [Hj' _] & Hvma' & Hun)]]; [congruence | done |].
      pose proof Hm as (_ & [Hj _] & _).
      assert (j' = j) as -> by (rewrite Hvma in Hvma'; unfold pt_slot, PAGE_SIZE in Hvma'; lia).
      destruct (Hun i' k' Hm) as [-> ->]. by apply Hne. }
    intros i1 k1 i2 k2 j M1 M2. apply maps_set_pde in M1, M2; [|done..].
    destruct M1 as [(<- & <- & _ & _ & ? & ? & ? & ?) | [N1 M1]],
      M2 as [(<- & <- & _ & _ & ? & ? & ? & ?) | [N2 M2]]; [done | exfalso; eauto..| eauto].
Qed.

(** *** Freeing *)

Lemma free_pt_run p j :
  paging_ok p → 0 ≤ j < 64 →
  free_pt (pt_slot j) p = Ret 1 (set_pt_in_use (<[Z.to_nat j := false]> (pt_in_use p)) p).
Proof.
  intros Hp Hj. unfold free_pt.
  erewrite (bind_ret (for_return _ _ _) _ _ (Some 1)); [done|]. eapply (for_return_hit _ _ j).
  - unfold PAGING_TABLE_POOL_SIZE. lia.
  - intros i Hi. cbv beta. rewrite (proj2 (Z.eqb_neq _ _)); [done|].
    unfold pt_slot, PAGE_SIZE. lia.
  - cbv beta. rewrite Z.eqb_refl. erewrite bind_ret; [done|].
    apply (lift_ret (Has0 := has_pt_in_use)), put_nth_ret. simpl. rewrite (po_pts _ Hp). lia.
Qed.

Lemma free_pd_run p i :
  paging_ok p → 0 ≤ i < 16 →
  free_pd (pd_slot i) p = Ret 1 (set_pd_in_use (<[Z.to_nat i := false]> (pd_in_use p)) p).
Proof.
  intros Hp Hi. unfold free_pd.
  erewrite (bind_ret (for_return _ _ _) _ _ (Some 1)); [done|]. eapply (for_return_hit _ _ i).
  - unfold PAGING_DIRECTORY_POOL_SIZE. lia.
  - intros i' Hi'. cbv beta. rewrite (proj2 (Z.eqb_neq _ _)); [done|].
    unfold pd_slot, PAGE_SIZE. lia.
  - cbv beta. rewrite Z.eqb_refl. erewrite bind_ret; [done|].
    apply (lift_ret (Has0 := has_pd_in_use)), put_nth_ret. simpl. rewrite (po_pds _ Hp). lia.
Qed.

Lemma flags_cleared (l : list bool) i j :
  0 ≤ i → 0 ≤ j →
  (<[Z.to_nat i := false]> l) !! Z.to_nat j = Some true ↔ i ≠ j ∧ l !! Z.to_nat j = Some true.
Proof.
  intros Hi Hj. destruct (decide (i = j)) as [->|Hne].
  - split; [|by intros [? _]]. intros [(_ & ? & _)|[? _]]%list_lookup_insert_Some; done.
  - rewrite list_lookup_insert_ne by lia. tauto.
Qed.

Lemma paging_ok_free_pt p j :
  paging_ok p → 0 ≤ j < 64 → (∀ i k, ¬ maps p i k j) →
  paging_ok (set_pt_in_use (<[Z.to_nat j := false]> (pt_in_use p)) p).
Proof.
  intros [H1 H2 Hw Hb He Hu Hc] Hj Hno. set (p' := set_pt_in_use _ p).
  assert (∀ j', pt_live p' j' ↔ j ≠ j' ∧ pt_live p j') as Hpt.
  { intros j'. unfold pt_live, p'. simpl. split.
    - intros [? Hl]. rewrite flags_cleared in Hl by lia. tauto.
    - intros (? & ? & ?). rewrite flags_cleared by lia. tauto. }
  assert (∀ i k j', maps p' i k j' ↔ maps p i k j') as Hmaps.
  { intros i k j'. unfold maps. rewrite Hpt. change (pd_live p') with (pd_live p).
    change (pde p') with (pde p). split; [tauto|]. intros Hm. split_and!; try tauto.
    intros <-. by apply (Hno i k). }
  constructor; try done.
  - simpl. by rewrite length_insert.
  - intros i k Hi Hk. destruct (He i k Hi Hk) as [|[|[j' Hj']]]; [by left | by right; left|].
    right; right. exists j'. by apply Hmaps.
  - intros i1 k1 i2 k2 j' M1 M2. apply Hmaps in M1, M2. eauto.
Qed.

Lemma paging_ok_free_pd p i :
  paging_ok p → 0 ≤ i < 16 → get_pd_vma (cr3 p) ≠ pd_slot i →
  paging_ok (set_pd_in_use (<[Z.to_nat i := false]> (pd_in_use p)) p).
Proof.
  intros [H1 H2 Hw Hb He Hu Hc] Hi Hcr3. set (p' := set_pd_in_use _ p).
  assert (∀ i', pd_live p' i' ↔ i ≠ i' ∧ pd_live p i') as Hpd.
  { intros i'. unfold pd_live, p'. simpl. split.
    - intros [? Hl]. rewrite flags_cleared in Hl by lia. tauto.
    - intros (? & ? & ?). rewrite flags_cleared by lia. tauto. }
  assert (∀ i' k j, maps p' i' k j ↔ i ≠ i' ∧ maps p i' k j) as Hmaps.
  { intros i' k j. unfold maps. rewrite Hpd. change (pt_live p') with (pt_live p).
    change (pde p') with (pde p). tauto. }
  constructor; try done.
  - simpl. by rewrite length_insert.
  - intros i' k Hi' Hk. apply Hpd in Hi' as [Hne Hi'].
    destruct (He i' k Hi' Hk) as [|[|[j' Hj']]]; [by left | by right; left|].
    right; right. exists j'. by apply Hmaps.
  - intros i1 k1 i2 k2 j' M1 M2. apply Hmaps in M1 as [_ M1], M2 as [_ M2]. eauto.
  - destruct Hc as [|(i' & ? & E)]; [by left | right; exists i'].
    split; [|done]. apply Hpd. split; [|done]. intros ->. by apply Hcr3.
Qed.

(** *** The life of the tables *)

Inductive paging_step : paging → paging → Prop :=
  | step_map p p' i j page frame flags r :
      maps p i (pde_index page) j → 0 ≤ page < 0x100000000 → 0 ≤ Z.lor frame flags < 0x100000000 →
      map_page (pd_slot i) page frame flags p = Ret r p' → paging_step p p'
  | step_unmap p p' i j page r :
      maps p i (pde_index page) j → 0 ≤ page < 0x100000000 →
      unmap_page (pd_slot i) page p = Ret r p' → paging_step p p'
  | step_set_cr3 p p' v :
      directory p (get_pd_vma v) → set_cr3 v p = Ret tt p' → paging_step p p'
  | step_fill p p' : tlb_fill p p' → paging_step p p'.

Lemma paging_step_ok p p' :
  paging_step p p' → paging_ok p → tlb_coherent p → paging_ok p' ∧ tlb_coherent p'.
Proof.
  intros Hstep Hp Ht.
  destruct Hstep as [p p' i j page frame flags r Hm Hpage Hv Hrun | p p' i j page r Hm Hpage Hrun
    | p p' v Hd Hrun | p p' [p0 va e Hva Hw]].
  - pose proof Hm as (_ & [Hj _] & _). destruct (present flags) eqn:Hf.
    + rewrite (map_page_run _ _ _ _ _ _ Hm Hf) in Hrun. injection Hrun as _ <-. split.
      * apply paging_ok_flushed, paging_ok_set_pte; auto with word.
      * by apply tlb_coherent_set_pte.
    + unfold map_page in Hrun. apply negb_false_iff in Hf. rewrite Hf in Hrun.
      by injection Hrun as _ <-.
  - pose proof Hm as (_ & [Hj _] & _). rewrite (unmap_page_run _ _ _ _ Hm) in Hrun.
    injection Hrun as _ <-. split.
    + apply paging_ok_flushed, paging_ok_set_pte; auto with word. lia.
    + by apply tlb_coherent_set_pte.
  - injection Hrun as <-. split; [|by intros page e]. by destruct Hp; constructor.
  - split; [by destruct Hp; constructor|]. intros page e0. simpl.
    intros [[<- <-]|[_ He]]%lookup_insert_Some; [|by apply Ht].
    split; [Z.div_mod_to_equations; lia|]. by rewrite <-Hw, <-(walk_page p0 _ va).
Qed.
(** *** The tables that boot.asm leaves *)

(** [setup_boot_paging]: the table of the first 4 MiB, entered twice in the
    directory. *)
Definition boot_words : gmap Z Z :=
  foldr (λ k m, <[boot_page_table + 4 * k := Z.lor (k * PAGE_SIZE) 0x3]> m)
    (<[boot_page_directory + 4 * 768 := boot_pde 768]>
      (<[boot_page_directory := boot_pde 0]> ∅)) (seqZ 0 1024).

Definition boot_paging (pds pts : list bool) : paging :=
  Paging boot_words pds pts (get_pd_lma boot_page_directory) ∅.

Lemma foldr_insert_ne {A} (f : Z → Z) (g : Z → A) (m : gmap Z A) l a :
  (∀ k, k ∈ l → a ≠ f k) → foldr (λ k m, <[f k := g k]> m) m l !! a = m !! a.
Proof.
  induction l as [|k l IH]; intros Hne; simpl; [done|].
  rewrite lookup_insert_ne by (intros E; apply (Hne k); [left | done]).
  apply IH. intros k' Hk'. apply Hne. by right.
Qed.

Lemma boot_words_directory pds pts k :
  0 ≤ k < 1024 → pde (boot_paging pds pts) boot_page_directory k = boot_pde k.
Proof.
  intros Hk. unfold pde, word; cbn [boot_paging words].
  unfold boot_words. rewrite (foldr_insert_ne (λ k, boot_page_table + 4 * k)).
  2: { intros k' Hk'%elem_of_seqZ. layout. lia. }
  rewrite !lookup_insert, lookup_empty. unfold boot_pde.
  destruct (Z.eqb_spec k 0), (Z.eqb_spec k 768); repeat case_decide;
    (done || lia || by subst).
Qed.

Lemma boot_words_elsewhere a :
  apart a 4 boot_page_directory 4096 → apart a 4 boot_page_table 4096 → boot_words !! a = None.
Proof.
  intros Hd Ht. unfold boot_words.
  rewrite (foldr_insert_ne (λ k, boot_page_table + 4 * k)).
  2: { intros k' Hk'%elem_of_seqZ. unfold apart in *. lia. }
  unfold apart in *. rewrite !lookup_insert_ne by lia. done.
Qed.

Lemma boot_words_pt pds pts j m :
  0 ≤ j < 64 → 0 ≤ m < 1024 → word (boot_paging pds pts) (pt_slot j + 4 * m) = 0.
Proof.
  intros Hj Hm. unfold word; cbn [boot_paging words].
  rewrite boot_words_elsewhere; [done|..]; layout; lia.
Qed.

Lemma boot_pde_range k : 0 ≤ boot_pde k < 0x100000000.
Proof.
  unfold boot_pde. case_match; [|lia].
  layout. rewrite get_pd_lma_kernel by lia. apply lor_page_range; Z.div_mod_to_equations; lia.
Qed.

Lemma boot_words_range pds pts a : 0 ≤ word (boot_paging pds pts) a < 0x100000000.
Proof.
  unfold word; cbn [boot_paging words]. unfold boot_words.
  assert (∀ k, k ∈ seqZ 0 1024 → 0 ≤ k < 1024) as Hl by (intros k Hk%elem_of_seqZ; lia).
  induction (seqZ 0 1024) as [|k l IH]; cbn [foldr].
  - pose proof (boot_pde_range 0). pose proof (boot_pde_range 768).
    rewrite !lookup_insert, lookup_empty. repeat case_decide; simpl; lia.
  - rewrite lookup_insert. case_decide; [|apply IH; intros k' ?; apply Hl; by right].
    assert (0 ≤ k < 1024) by (apply Hl; left). simpl. unfold PAGE_SIZE.
    apply lor_page_range; [lia | | lia]. Z.div_mod_to_equations. lia.
Qed.

Lemma boot_paging_ok pds pts :
  length pds = 16%nat → length pts = 64%nat → paging_ok (boot_paging pds pts).
Proof.
  intros Hd Ht.
  assert (∀ i k, 0 ≤ i < 16 → 0 ≤ k < 1024 → pde (boot_paging pds pts) (pd_slot i) k = 0) as Hz.
  { intros i k Hi Hk. unfold pde, word; cbn [boot_paging words]. rewrite boot_words_elsewhere; [done|..];
      layout; lia. }
  constructor; try done.
  - apply boot_words_range.
  - apply boot_words_directory.
  - intros i k [Hi _] Hk. left. by rewrite Hz.
  - intros i k i' k' j ([Hi _] & _ & Hk & _ & Hpr & _). by rewrite Hz in Hpr.
  - left. simpl. layout. rewrite <-(Z.lor_0_r (get_pd_lma _)). apply get_pd_vma_lma; lia.
Qed.
End invariant.

(** ** Properties *)

Section properties.
Context `{!Layout}.

(** C14 (paging, [map_page]): mapping a page whose directory entry has a table
    makes the processor find exactly the new entry there, changes no other page
    of any address space, and keeps the invariant and the cached translations
    right. *)
Theorem map_page_correct p i j page frame flags :
  paging_ok p → tlb_coherent p → maps p i (pde_index page) j → 0 ≤ page < 0x100000000 →
  0 ≤ frame < 0x100000000 → frame mod 4096 = 0 → 0 ≤ flags < 4096 → present flags = true →
  ∃ p', map_page (pd_slot i) page frame flags p = Ret 1 p' ∧ paging_ok p' ∧ tlb_coherent p' ∧
    walk p' (pd_slot i) page = Some (Z.lor frame flags) ∧
    ∀ pgd va, directory p pgd → 0 ≤ va < 0x100000000 →
      pgd ≠ pd_slot i ∨ va `div` 4096 ≠ page `div` 4096 → walk p' pgd va = walk p pgd va.
Proof.
  intros Hp Ht Hm Hpage Hframe Hal Hfl Hpr. pose proof Hm as (_ & [Hj _] & _).
  pose proof (lor_page_range frame flags Hframe Hal Hfl).
  eexists. split; [by apply map_page_run|]. split_and!.
  - apply paging_ok_flushed, paging_ok_set_pte; auto with word.
  - by apply tlb_coherent_set_pte.
  - rewrite flushed_walk. erewrite walk_set_pte_same; [|done..].
    by rewrite present_lor, Hpr.
  - intros pgd va. by apply set_pte_others.
Qed.

(** C34 (paging, [unmap_page]): after unmapping, the processor finds nothing for
    the page, neither in the tables nor cached; no other page changes. *)
Theorem unmap_page_correct p i j page :
  paging_ok p → tlb_coherent p → maps p i (pde_index page) j → 0 ≤ page < 0x100000000 →
  ∃ p', unmap_page (pd_slot i) page p = Ret 1 p' ∧ paging_ok p' ∧ tlb_coherent p' ∧
    walk p' (pd_slot i) page = None ∧
    (get_pd_vma (cr3 p) = pd_slot i → tlb p' !! (page `div` 4096) = None) ∧
    ∀ pgd va, directory p pgd → 0 ≤ va < 0x100000000 →
      pgd ≠ pd_slot i ∨ va `div` 4096 ≠ page `div` 4096 → walk p' pgd va = walk p pgd va.
Proof.
  intros Hp Ht Hm Hpage. pose proof Hm as (_ & [Hj _] & _).
  eexists. split; [by apply unmap_page_run|]. split_and!.
  - apply paging_ok_flushed, paging_ok_set_pte; auto with word. lia.
  - by apply tlb_coherent_set_pte.
  - rewrite flushed_walk. by erewrite walk_set_pte_same.
  - intros Hc. unfold flushed. simpl.
    rewrite <-get_pd_lma_vma, Hc, Z.eqb_refl. simpl. apply lookup_delete_eq.
  - intros pgd va. by apply set_pte_others.
Qed.

(** C17 (paging, translation cache): however mappings, unmappings, loads of [cr3]
    and fills of the translation cache alternate, the processor never uses a
    translation that the tables do not contain. *)
Theorem tlb_never_stale p p' :
  paging_ok p → tlb_coherent p → rtc paging_step p p' → paging_ok p' ∧ tlb_coherent p'.
Proof.
  intros Hp Ht Hsteps. induction Hsteps as [|p p1 p' Hstep _ IH]; [done|].
  destruct (paging_step_ok p p1); auto.
Qed.

(** (paging, absent table): the test [!page_table] of [map_page] never fails
    for a directory entry that is 0: the call succeeds and stores the new entry
    at the bottom of the kernel's mapping, and the page stays unmapped. *)
Theorem map_page_absent_table p i page frame flags :
  0 ≤ i < 16 → pde p (pd_slot i) (pde_index page) = 0 → present flags = true →
  ∃ p', map_page (pd_slot i) page frame flags p = Ret 1 p' ∧
    word p' (0xc0000000 + 4 * pte_index page) = Z.lor frame flags ∧
    walk p' (pd_slot i) page = None.
Proof.
  intros Hi Hz Hf. destruct (pd_slot_page i Hi) as [Hin Hal].
  pose proof (pde_index_range page) as Hk. pose proof (pte_index_range page) as Hm.
  pose proof (in_kernel_u32 _ _ Hin ltac:(lia)) as Hr.
  assert (pd_slot i +ᵤ 4 * pde_index page = pd_slot i + 4 * pde_index page) as E1.
  { apply u32_id. unfold in_kernel, KERNEL_VMA_END in Hin. lia. }
  assert (0xc0000000 +ᵤ 4 * pte_index page = 0xc0000000 + 4 * pte_index page) as E2.
  { apply u32_id. lia. }
  assert (kernel_word (0xc0000000 + 4 * pte_index page) = true) as K2.
  { unfold kernel_word, KERNEL_VMA_TO_LMA_OFFSET, KERNEL_VMA_END.
    rewrite (proj2 (Z.leb_le _ _)), (proj2 (Z.ltb_lt _ _)), (proj2 (Z.eqb_eq _ _));
      [done | Z.div_mod_to_equations; lia | lia..]. }
  unfold map_page. apply negb_true_iff in Hf. rewrite Hf, E1.
  erewrite bind_ret; [|unfold load_word; by rewrite kernel_word_page].
  fold (pde p (pd_slot i) (pde_index page)). rewrite Hz.
  change (get_pd_vma 0) with 0xc0000000. cbv zeta.
  change (0xc0000000 =? 0) with false. cbv iota. rewrite E2.
  erewrite bind_ret; [|unfold store_word; by rewrite K2].
  erewrite bind_ret; [|apply flush_if_current_run].
  eexists. split; [done|]. split.
  - assert (∀ q pgd, word (flushed pgd page q) = word q) as -> by (intros; unfold flushed; by case_match).
    by rewrite word_set, decide_True.
  - rewrite flushed_walk. unfold walk.
    assert (pde (set_words (<[3221225472 + 4 * pte_index page := Z.lor frame flags]> (words p)) p)
      (pd_slot i) (pde_index page) = 0) as ->; [|done].
    unfold pde. rewrite word_set, decide_False; [done|].
    unfold in_kernel, KERNEL_VMA in Hin. lia.
Qed.
End properties.

(** ** Witnesses *)

Section witnesses.
#[local] Existing Instance sample_layout.

(** One directory, whose entry 1 refers to the first page table. *)
Definition one_table : paging :=
  set_pde 0 1 (Z.lor (get_pd_lma (pt_slot 0)) 0x7)
    (boot_paging (true :: replicate 15 false) (true :: replicate 63 false)).

Lemma one_table_base_ok :
  paging_ok (boot_paging (true :: replicate 15 false) (true :: replicate 63 false)).
Proof. by apply boot_paging_ok. Qed.

Lemma one_table_pde_value :
  pde_value (boot_paging (true :: replicate 15 false) (true :: replicate 63 false)) 0 1
    (Z.lor (get_pd_lma (pt_slot 0)) 0x7).
Proof.
  right; right. split_and!; [unfold kernel_pde; lia | done..|]. exists 0.
  split_and!; [split; [lia | done] | done |].
  intros i k ([Hi _] & _ & Hk & _ & Hpr & _). unfold pde, word in Hpr; cbn [boot_paging words] in Hpr.
  rewrite boot_words_elsewhere in Hpr; [done|..]; pose proof boot_pd_apart_pd;
    pose proof boot_pt_apart_pd; unfold apart, pd_slot, PAGE_SIZE in *; lia.
Qed.

Lemma one_table_ok : paging_ok one_table.
Proof.
  apply paging_ok_set_pde; [apply one_table_base_ok | split; [lia | done] | lia | vm_compute; split; [discriminate | done] |].
  apply one_table_pde_value.
Qed.

Lemma one_table_maps : maps one_table 0 1 0.
Proof.
  apply maps_set_pde; [lia..|]. left.
  split_and!; [done | done | split; [lia | done] | split; [lia | done] | unfold kernel_pde; lia | done..].
Qed.

Lemma one_table_coherent : tlb_coherent one_table.
Proof. by intros page e. Qed.

Lemma map_page_correct_witness :
  ∃ p', map_page pd_pool 0x403000 0x500000 0x7 one_table = Ret 1 p' ∧ paging_ok p' ∧
    tlb_coherent p' ∧ walk p' pd_pool 0x403abc = Some 0x500007 ∧
    ∀ pgd va, directory one_table pgd → 0 ≤ va < 0x100000000 →
      pgd ≠ pd_pool ∨ va `div` 4096 ≠ 0x403 → walk p' pgd va = walk one_table pgd va.
Proof.
  exact (map_page_correct one_table 0 0 0x403000 0x500000 0x7 one_table_ok one_table_coherent
    one_table_maps ltac:(lia) ltac:(lia) eq_refl ltac:(lia) eq_refl).
Defined.

Lemma unmap_page_correct_witness :
  ∃ p', unmap_page pd_pool 0x403000 one_table = Ret 1 p' ∧ paging_ok p' ∧ tlb_coherent p' ∧
    walk p' pd_pool 0x403000 = None ∧
    (get_pd_vma (cr3 one_table) = pd_pool → tlb p' !! 0x403 = None) ∧
    ∀ pgd va, directory one_table pgd → 0 ≤ va < 0x100000000 →
      pgd ≠ pd_pool ∨ va `div` 4096 ≠ 0x403 → walk p' pgd va = walk one_table pgd va.
Proof.
  exact (unmap_page_correct one_table 0 0 0x403000 one_table_ok one_table_coherent
    one_table_maps ltac:(lia)).
Defined.

Lemma tlb_never_stale_witness :
  ∃ p', rtc paging_step one_table p' ∧ paging_ok p' ∧ tlb_coherent p' ∧ p' ≠ one_table.
Proof.
  assert (∃ p', set_cr3 (get_pd_lma pd_pool) one_table = Ret tt p' ∧ p' ≠ one_table) as (p' & H & Hne).
  { eexists. split; [done|]. intros E. by apply (f_equal cr3) in E. }
  assert (rtc paging_step one_table p') as Hsteps.
  { eapply rtc_l; [eapply step_set_cr3; [|exact H]|reflexivity].
    right. exists 0. split; [split; [lia | done] | done]. }
  destruct (tlb_never_stale one_table p' one_table_ok one_table_coherent Hsteps).
  by exists p'.
Defined.

Lemma map_page_absent_table_witness :
  ∃ p', map_page pd_pool 0x801000 0x500000 0x7 one_table = Ret 1 p' ∧
    word p' 0xc0000004 = 0x500007 ∧ walk p' pd_pool 0x801000 = None.
Proof.
  assert (pde one_table (pd_slot 0) 2 = 0) as H by (vm_compute; reflexivity).
  exact (map_page_absent_table one_table 0 0x801000 0x500000 0x7 ltac:(lia) H eq_refl).
Defined.
End witnesses.
