(* ===== verification/BlockDevice.v ===== *)
(** * What the file system needs of a disk

    [disk_read lba sectors] gives the result of the call and the bytes it has
    stored in the buffer.  A healthy device has contents, which reads return and
    do not change.  Disk.v shows that the ATA driver is such a device. *)

From S2P Require Import Prelude.

Class BlockDevice (B : Type) := {
  disk_read : Z → Z → M B (Z * list Z);
  disk_ok : B → Prop;
  sector : B → Z → list Z;
  sector_size b n : disk_ok b → length (sector b n) = 512%nat ∧ Forall is_byte (sector b n);
  disk_read_ok b lba n :
    disk_ok b → 0 ≤ lba → lba + n ≤ 0x10000000 → 0 < n < 256 →
    ∃ b', disk_read lba n b = Ret (1, mjoin (sector b <$> seqZ lba n)) b' ∧
          disk_ok b' ∧ sector b' = sector b;
}.

(** A disk for the witnesses: the sectors are given, every read succeeds. *)
Definition plain_sector (image : gmap Z (list Z)) (n : Z) : list Z :=
  match image !! n with
  | Some l => take 512 (((λ b, b mod 256) <$> l) ++ replicate 512 0)
  | None => replicate 512 0
  end.

#[export, refine] Instance plain_disk : BlockDevice (gmap Z (list Z)) := {|
  disk_read lba n image := Ret (1, mjoin (plain_sector image <$> seqZ lba n)) image;
  disk_ok _ := True;
  sector := plain_sector;
|}.
Proof.
  - intros image n _. unfold plain_sector. destruct (image !! n) as [l|].
    + split; [rewrite length_take, length_app, length_replicate; lia|].
      apply Forall_take, Forall_app. split.
      * apply Forall_fmap, Forall_true. intros b. simpl. apply Z.mod_pos_bound. lia.
      * apply Forall_replicate. unfold is_byte. lia.
    + split; [by rewrite length_replicate|]. apply Forall_replicate. unfold is_byte. lia.
  - intros image lba n _ _ _ _. by exists image.
Defined.
