(* ===== verification/Disk.v ===== *)
(** * The ATA disk driver (src/kernel/disk.c)

    The driver polls an IDE controller through its ports and exchanges the data
    in a buffer that the controller reaches by bus mastering.  The first part is
    the code; the second shows that it always returns, whatever the controller
    does, if the timer runs; the third that with a controller that follows its
    documentation the driver is the disk that the file system needs. *)

From S2P Require Import Prelude Bytes Layout Ports Pci BlockDevice Paging.

(** src/include/kernel/disk.h *)
Definition DISK_SECTOR_SIZE : Z := 512.
Definition DISK_DMA_MAX_SECTORS : Z := 8.
Definition ATA_PRIMARY_CONTROL_REGISTER : Z := 0x3f6.
Definition ATA_PRIMARY_DATA_REGISTER : Z := 0x1f0.
Definition ATA_FEATURE_REGISTER_OFFSET : Z := 0x1.
Definition ATA_SECCOUNT_REGISTER_OFFSET : Z := 0x2.
Definition ATA_LBALOW_REGISTER_OFFSET : Z := 0x3.
Definition ATA_LBAMID_REGISTER_OFFSET : Z := 0x4.
Definition ATA_LBAHIGHT_REGISTER_OFFSET : Z := 0x5.
Definition ATA_DRVHEAD_REGISTER_OFFSET : Z := 0x6.
Definition ATA_COMMAND_REGISTER_OFFSET : Z := 0x7.
Definition ATA_STATUS_REGISTER_OFFSET : Z := 0x7.
Definition BM_COMMAND_REGISTER_OFFSET : Z := 0x0.
Definition BM_STATUS_REGISTER_OFFSET : Z := 0x2.
Definition BM_PRDT_REGISTER_OFFSET : Z := 0x4.
Definition ATA_COMMAND_DMA_READ : Z := 0xc8.
Definition ATA_COMMAND_DMA_WRITE : Z := 0xca.
Definition ATA_COMMAND_DMA_CACHE_FLUSH : Z := 0xe7.
Definition ATA_STATUS_ERROR : Z := 0x1.
Definition ATA_STATUS_FAULT : Z := 0x20.
Definition ATA_STATUS_BUSY : Z := 0x80.
Definition BM_COMMAND_START : Z := 0x1.
Definition BM_COMMAND_READ : Z := 0x8.
Definition BM_COMMAND_WRITE : Z := 0x0.
Definition BM_STATUS_ERROR : Z := 0x2.
Definition BM_STATUS_IRQ_COMPLETED : Z := 0x4.
Definition PRDT_END : Z := 0x8000.
Definition ATA_BUSY_TIMEOUT_TICKS : Z := 100.
Definition ATA_DMA_TIMEOUT_TICKS : Z := 100.

Record prdt_entry_t := Prdt { buffer_phys_addr : Z; transfer_bytes : Z; reserved : Z }.

(** The memory that the controller shares with the driver: [dma_buffer] and
    [primary_prdt]. *)
Class Dma (D : Type) := {
  dma_buffer : D → list Z;
  put_dma_buffer : list Z → D → D;
  primary_prdt : D → prdt_entry_t;
  put_primary_prdt : prdt_entry_t → D → D;
}.

(** The timer's counter, as the code finds it at each reading. *)
Class Clock (D : Type) := { tick_read : D → Z * D }.

(** The driver's state: the controller with the shared memory, and [ide_dev]. *)
Record ata (D : Type) := Ata { a_bus : D; ide_dev : pci_device_t }.
Arguments Ata {D} _ _.
Arguments a_bus {D} _.
Arguments ide_dev {D} _.

#[export, refine] Instance Has_bus D : Has D (ata D) :=
  {| part := a_bus; set_part d s := Ata d (ide_dev s) |}.
Proof. all: by try intros []. Defined.

(** ** The code *)

Section code.
Context {L : Layout} {D : Type} `{!Bus D} `{!Dma D} `{!Clock D}.

Definition get_current_ticks : M D Z := λ d, let '(t, d) := tick_read d in Ret (u32 t) d.

Definition kernel_phys_ptr (ptr : Z) : Z := ptr -ᵤ KERNEL_VMA_TO_LMA_OFFSET.

Definition ata_irq_handler : M D unit :=
  inb (ATA_PRIMARY_DATA_REGISTER + ATA_STATUS_REGISTER_OFFSET);;
  mret tt.

Definition ata_io_wait : M D unit :=
  inb ATA_PRIMARY_CONTROL_REGISTER;;
  inb ATA_PRIMARY_CONTROL_REGISTER;;
  inb ATA_PRIMARY_CONTROL_REGISTER;;
  inb ATA_PRIMARY_CONTROL_REGISTER;;
  mret tt.

(** A polling loop that starts at the tick [start]; a poll may decide the result. *)
Fixpoint poll (fuel : nat) (start timeout : Z) (body : M D (option bool)) : M D bool :=
  match fuel with
  | O => fail NoFuel
  | S fuel =>
      now ← get_current_ticks;
      if now -ᵤ start <? timeout then
        r ← body;
        match r with
        | Some b => mret b
        | None => poll fuel start timeout body
        end
      else mret false
  end.

Definition not_busy_poll : M D (option bool) :=
  ata_status ← inb (ATA_PRIMARY_DATA_REGISTER + ATA_STATUS_REGISTER_OFFSET);
  if Z.land ata_status ATA_STATUS_BUSY =? 0 then mret (Some true)
  else ata_io_wait;; mret None.

Definition ata_wait4_not_busy (fuel : nat) : M D bool :=
  start ← get_current_ticks;
  poll fuel start ATA_BUSY_TIMEOUT_TICKS not_busy_poll.

Definition ata_set_lba28 (lba : Z) : M D unit :=
  outb (ATA_PRIMARY_DATA_REGISTER + ATA_DRVHEAD_REGISTER_OFFSET) (u8 (Z.lor 0xe0 (Z.land (Z.shiftr lba 24) 0xf)));;
  ata_io_wait.

Definition dma_poll (bm_base : Z) : M D (option bool) :=
  ata_status ← inb (ATA_PRIMARY_DATA_REGISTER + ATA_STATUS_REGISTER_OFFSET);
  bm_status ← inb (bm_base + BM_STATUS_REGISTER_OFFSET);
  if negb (Z.land ata_status (Z.lor ATA_STATUS_ERROR ATA_STATUS_FAULT) =? 0) then mret (Some false)
  else if negb (Z.land bm_status BM_STATUS_ERROR =? 0) then mret (Some false)
  else if negb (Z.land bm_status BM_STATUS_IRQ_COMPLETED =? 0) then mret (Some true)
  else mret None.

Definition ata_wait4_dma (fuel : nat) (bm_base : Z) : M D bool :=
  start ← get_current_ticks;
  poll fuel start ATA_DMA_TIMEOUT_TICKS (dma_poll bm_base).

(** The registers programmed for the transfer, up to the command. *)
Definition ata_start (bm_base lba sectors : Z) (is_write : bool) : M D unit :=
  let bm_command_port := u16 (bm_base + BM_COMMAND_REGISTER_OFFSET) in
  let bm_direction := if is_write then BM_COMMAND_WRITE else BM_COMMAND_READ in
  let bm_status_port := u16 (bm_base + BM_STATUS_REGISTER_OFFSET) in
  let bm_prdt_port := u16 (bm_base + BM_PRDT_REGISTER_OFFSET) in
  v ← inb bm_command_port;
  outb bm_command_port (u8 (Z.land v (Z.lnot BM_COMMAND_START)));;
  outb bm_command_port bm_direction;;
  outb bm_status_port (u8 (Z.lor BM_STATUS_IRQ_COMPLETED BM_STATUS_ERROR));;
  outl bm_prdt_port (kernel_phys_ptr primary_prdt_address);;
  ata_set_lba28 lba;;
  outb (ATA_PRIMARY_DATA_REGISTER + ATA_FEATURE_REGISTER_OFFSET) 0x0;;
  outb (ATA_PRIMARY_DATA_REGISTER + ATA_SECCOUNT_REGISTER_OFFSET) sectors;;
  outb (ATA_PRIMARY_DATA_REGISTER + ATA_LBALOW_REGISTER_OFFSET) (u8 lba);;
  outb (ATA_PRIMARY_DATA_REGISTER + ATA_LBAMID_REGISTER_OFFSET) (u8 (Z.shiftr lba 8));;
  outb (ATA_PRIMARY_DATA_REGISTER + ATA_LBAHIGHT_REGISTER_OFFSET) (u8 (Z.shiftr lba 16));;
  outb bm_command_port (u8 (Z.lor bm_direction BM_COMMAND_START));;
  outb (ATA_PRIMARY_DATA_REGISTER + ATA_COMMAND_REGISTER_OFFSET)
    (if is_write then ATA_COMMAND_DMA_WRITE else ATA_COMMAND_DMA_READ).

(** After the transfer: the controller stopped, the status of both sides. *)
Definition ata_finish (fuel : nat) (bm_base : Z) (is_write : bool) : M D bool :=
  let bm_command_port := u16 (bm_base + BM_COMMAND_REGISTER_OFFSET) in
  let bm_status_port := u16 (bm_base + BM_STATUS_REGISTER_OFFSET) in
  outb bm_command_port (if is_write then BM_COMMAND_WRITE else BM_COMMAND_READ);;
  ok ← ata_wait4_not_busy fuel;
  if negb ok then mret false
  else
    status ← inb (ATA_PRIMARY_DATA_REGISTER + ATA_STATUS_REGISTER_OFFSET);
    bm_status ← inb bm_status_port;
    outb bm_status_port (Z.lor BM_STATUS_IRQ_COMPLETED BM_STATUS_ERROR);;
    if negb (Z.land status (Z.lor ATA_STATUS_ERROR ATA_STATUS_FAULT) =? 0) || negb (Z.land bm_status BM_STATUS_ERROR =? 0)
    then mret false
    else if is_write then
      outb (ATA_PRIMARY_DATA_REGISTER + ATA_COMMAND_REGISTER_OFFSET) ATA_COMMAND_DMA_CACHE_FLUSH;;
      ok ← ata_wait4_not_busy fuel;
      if negb ok then mret false
      else
        status ← inb (ATA_PRIMARY_DATA_REGISTER + ATA_STATUS_REGISTER_OFFSET);
        mret (Z.land status (Z.lor ATA_STATUS_ERROR ATA_STATUS_FAULT) =? 0)
    else mret true.

Definition ata_dma_transfer (fuel : nat) (bm_base lba sectors : Z) (is_write : bool) : M D bool :=
  if (sectors =? 0) || (DISK_DMA_MAX_SECTORS <? sectors) then mret false
  else
    modify (put_primary_prdt (Prdt (kernel_phys_ptr dma_buffer_address) (u16 (sectors * DISK_SECTOR_SIZE)) PRDT_END));;
    ok ← ata_wait4_not_busy fuel;
    if negb ok then mret false
    else
      ata_start bm_base lba sectors is_write;;
      ok ← ata_wait4_dma fuel bm_base;
      if negb ok then
        outb (u16 (bm_base + BM_COMMAND_REGISTER_OFFSET)) (if is_write then BM_COMMAND_WRITE else BM_COMMAND_READ);;
        mret false
      else ata_finish fuel bm_base is_write.

(** [memcpy(out, dma_buffer, bytes)] and [memcpy(dma_buffer, in, bytes)]. *)
Definition from_dma_buffer (bytes : Z) : M D (list Z) := gets (λ d, take (Z.to_nat bytes) (dma_buffer d)).
Definition to_dma_buffer (l : list Z) : M D unit :=
  modify (λ d, put_dma_buffer (l ++ drop (length l) (dma_buffer d)) d).

(** They are the loop of string.h. *)
Lemma to_dma_buffer_memcpy l d buf :
  (length l ≤ length (dma_buffer d))%nat → memcpy l (Z.of_nat (length l)) (dma_buffer d) = Ret tt buf →
  to_dma_buffer l d = Ret tt (put_dma_buffer buf d).
Proof.
  intros Hl. rewrite memcpy_run by lia. rewrite Nat2Z.id, take_ge by lia. by intros [= <-].
Qed.
Lemma from_dma_buffer_memcpy bytes d out out' :
  0 ≤ bytes ≤ Z.of_nat (length (dma_buffer d)) → Z.of_nat (length out) = bytes → memcpy (dma_buffer d) bytes out = Ret tt out' →
  from_dma_buffer bytes d = Ret out' d.
Proof.
  intros Hb Ho. rewrite memcpy_run by lia. rewrite drop_ge, app_nil_r by lia. by intros [= <-].
Qed.

(** The result of the call and the bytes stored in the buffer so far. *)
Fixpoint disk_read_loop (chunks fuel : nat) (bm_base current_lba remaining : Z) : M D (Z * list Z) :=
  match chunks with
  | O => fail NoFuel
  | S chunks =>
      if remaining =? 0 then mret (1, [])
      else
        let chunk := if DISK_DMA_MAX_SECTORS <? remaining then DISK_DMA_MAX_SECTORS else remaining in
        let bytes := u16 (chunk * DISK_SECTOR_SIZE) in
        ok ← ata_dma_transfer fuel bm_base current_lba chunk false;
        if negb ok then mret (0, [])
        else
          out ← from_dma_buffer bytes;
          '(r, rest) ← disk_read_loop chunks fuel bm_base (current_lba +ᵤ chunk) (u8 (remaining - chunk));
          mret (r, out ++ rest)
  end.

(** [buffer] is the memory at the pointer that the caller passes; bytes after the end
    of a list shorter than the request are not modelled. *)
Fixpoint disk_write_loop (chunks fuel : nat) (bm_base current_lba remaining : Z) (buffer : list Z) : M D Z :=
  match chunks with
  | O => fail NoFuel
  | S chunks =>
      if remaining =? 0 then mret 1
      else
        let chunk := if DISK_DMA_MAX_SECTORS <? remaining then DISK_DMA_MAX_SECTORS else remaining in
        let bytes := u16 (chunk * DISK_SECTOR_SIZE) in
        to_dma_buffer (take (Z.to_nat bytes) buffer);;
        ok ← ata_dma_transfer fuel bm_base current_lba chunk true;
        if negb ok then mret 0
        else disk_write_loop chunks fuel bm_base (current_lba +ᵤ chunk) (u8 (remaining - chunk)) (drop (Z.to_nat bytes) buffer)
  end.

(** [ide_dev.cfg.bar[4] & 0xfffc]: the scan gives every device six registers. *)
Definition bm_base_of (dev : pci_device_t) : Z := Z.land (nth 4 (bar (cfg dev)) 0) 0xfffc.

(** 33 chunks of 8 sectors are more than a [uint8_t] can ask for. *)
Definition max_chunks : nat := 33.

Definition ata_read (fuel : nat) (lba sectors : Z) : M (ata D) (Z * list Z) :=
  dev ← gets ide_dev;
  lift (T := D) (disk_read_loop max_chunks fuel (bm_base_of dev) lba sectors).

Definition ata_write (fuel : nat) (lba : Z) (buffer : list Z) (sectors : Z) : M (ata D) Z :=
  dev ← gets ide_dev;
  lift (T := D) (disk_write_loop max_chunks fuel (bm_base_of dev) lba sectors buffer).
End code.

(** ** The driver as the rest of the kernel uses it

    [disk_attach] is the part of [init_disk] that touches the driver's own state and
    ports; [disk_irq] is [ata_irq_handler]. *)

Class DiskDriver (B : Type) := { disk_attach : pci_device_t → M B unit; disk_irq : M B unit }.

Section attach.
Context {D : Type} `{!Bus D}.

Definition ata_attach (dev : pci_device_t) : M (ata D) unit :=
  modify (λ a, Ata (a_bus a) dev);;
  lift (T := D) (outb ATA_PRIMARY_CONTROL_REGISTER 0x0).

#[export] Instance ata_driver : DiskDriver (ata D) :=
  {| disk_attach := ata_attach; disk_irq := lift (T := D) ata_irq_handler |}.
End attach.

(** ** The driver always returns *)

(** The timer runs: an access of the driver sees time stand still or go on by at
    most [stride] ticks, and after [max_patience] readings in a row that find the
    same tick the next one finds a later one. *)
Class RunningClock (D : Type) `{!Bus D} `{!Dma D} `{!Clock D} := {
  ticks : D → Z;
  stride : Z;
  patience : D → nat;
  max_patience : nat;
  stride_range : 0 ≤ stride ≤ 0x100000;
  patience_max d : (patience d ≤ max_patience)%nat;
  tick_value d : (tick_read d).1 = ticks (tick_read d).2;
  tick_later d : ticks d ≤ ticks (tick_read d).2 ≤ ticks d + stride ∧
    (ticks (tick_read d).2 = ticks d → (patience (tick_read d).2 < patience d)%nat);
  in8_later p d : ticks d ≤ ticks (in8 p d).2 ≤ ticks d + stride ∧
    (ticks (in8 p d).2 = ticks d → (patience (in8 p d).2 ≤ patience d)%nat);
}.

Section returns.
Context {L : Layout} {D : Type} `{!Bus D} `{!Dma D} `{!Clock D} `{!RunningClock D}.

(** Polls enough for [timeout] ticks. *)
Definition poll_fuel : nat := 100 * S max_patience + S max_patience.

Definition returns {A} (m : M D A) : Prop := ∀ d, ∃ a d', m d = Ret a d'.

Lemma returns_bind {A B} (m : M D A) (k : A → M D B) : returns m → (∀ a, returns (k a)) → returns (m ≫= k).
Proof.
  intros Hm Hk d. destruct (Hm d) as (a & d1 & E). rewrite (bind_ret _ _ _ _ _ E). apply Hk.
Qed.
Lemma returns_ret {A} (a : A) : returns (mret a).
Proof. intros d. by eexists _, _. Qed.
Lemma returns_gets {A} (f : D → A) : returns (gets f).
Proof. intros d. by eexists _, _. Qed.
Lemma returns_modify (f : D → D) : returns (modify f).
Proof. intros d. by eexists _, _. Qed.
Lemma returns_outb p v : returns (outb p v).
Proof. apply returns_modify. Qed.
Lemma returns_outl p v : returns (outl p v).
Proof. apply returns_modify. Qed.
Lemma inb_run p d : inb p d = Ret (u8 (in8 (u16 p) d).1) (in8 (u16 p) d).2.
Proof. unfold inb. by destruct (in8 (u16 p) d). Qed.
Lemma returns_inb p : returns (inb p).
Proof. intros d. rewrite inb_run. by eexists _, _. Qed.
Lemma returns_if {A} (b : bool) (m1 m2 : M D A) : returns m1 → returns m2 → returns (if b then m1 else m2).
Proof. by destruct b. Qed.
Lemma get_current_ticks_run d : get_current_ticks d = Ret (u32 (ticks (tick_read d).2)) (tick_read d).2.
Proof. unfold get_current_ticks. pose proof (tick_value d) as E. destruct (tick_read d). simpl in *. by rewrite E. Qed.

(** What one turn of a polling loop does to the time. *)
Definition passes (k : Z) d d' : Prop :=
  ticks d ≤ ticks d' ≤ ticks d + k * stride ∧ (ticks d' = ticks d → (patience d' ≤ patience d)%nat).

Lemma passes_trans j k d1 d2 d3 : passes j d1 d2 → passes k d2 d3 → passes (j + k) d1 d3.
Proof.
  intros [H1 P1] [H2 P2]. split; [nia|]. intros E. assert (ticks d2 = ticks d1) by lia.
  rewrite P2 by lia. apply P1. lia.
Qed.
Lemma passes_in p d : passes 1 d (in8 p d).2.
Proof. destruct (in8_later p d). split; [lia|done]. Qed.
Lemma passes_weaken j k d d' : j ≤ k → passes j d d' → passes k d d'.
Proof. intros Hjk [H P]. pose proof stride_range. split; [nia|done]. Qed.

Definition quick (body : M D (option bool)) : Prop := ∀ d, ∃ r d', body d = Ret r d' ∧ passes 5 d d'.

Lemma not_busy_quick : quick not_busy_poll.
Proof.
  intros d. unfold not_busy_poll, ata_io_wait. rewrite (bind_ret _ _ _ _ _ (inb_run _ d)). case_match.
  - eexists _, _. split; [reflexivity|]. by apply (passes_weaken 1), passes_in.
  - repeat (rewrite bind_bind || rewrite (bind_ret _ _ _ _ _ (inb_run _ _))). eexists _, _. split; [reflexivity|].
    eapply (passes_trans 1 4); [apply passes_in|]. eapply (passes_trans 1 3); [apply passes_in|].
    eapply (passes_trans 1 2); [apply passes_in|]. eapply (passes_trans 1 1); apply passes_in.
Qed.

Lemma dma_quick bm_base : quick (dma_poll bm_base).
Proof.
  intros d. unfold dma_poll. rewrite (bind_ret _ _ _ _ _ (inb_run _ d)), (bind_ret _ _ _ _ _ (inb_run _ _)).
  set (d2 := (in8 _ (in8 _ d).2).2).
  assert (passes 5 d d2) as Hp by (apply (passes_weaken 2); [done|]; eapply (passes_trans 1 1); apply passes_in).
  repeat case_match; eexists _, _; (split; [reflexivity | exact Hp]).
Qed.

Lemma u32_diff t t0 : 0 ≤ t - t0 < 0x100000000 → u32 t -ᵤ u32 t0 = t - t0.
Proof. intros H. unfold u32. rewrite <-Zminus_mod. by apply Z.mod_small. Qed.

(** A loop ends when its time is over, whatever the controller answers. *)
Lemma poll_returns body timeout t0 fuel d :
  quick body → 0 ≤ timeout ≤ 100 → 0 ≤ ticks d - t0 < timeout + 6 * stride →
  (Z.to_nat (timeout - (ticks d - t0)) * S max_patience + patience d < fuel)%nat →
  ∃ b d', poll fuel (u32 t0) timeout body d = Ret b d'.
Proof.
  intros Hq Ht. pose proof stride_range as Hs. revert d. induction fuel as [|fuel IH]; intros d He Hf; [lia|].
  cbn [poll]. rewrite (bind_ret _ _ _ _ _ (get_current_ticks_run d)). destruct (tick_later d) as [Hl Hp].
  set (d1 := (tick_read d).2) in *. rewrite u32_diff by lia.
  destruct (Z.ltb_spec (ticks d1 - t0) timeout) as [Hlt|]; [|by eexists _, _].
  destruct (Hq d1) as (r & d2 & Hrun & [H2 P2]). rewrite (bind_ret _ _ _ _ _ Hrun). destruct r as [b|]; [by eexists _, _|].
  apply IH; [lia|]. pose proof (patience_max d2). destruct (decide (ticks d2 = ticks d)) as [E|Hne].
  - specialize (P2 ltac:(lia)). specialize (Hp ltac:(lia)). rewrite E. lia.
  - assert (Z.to_nat (timeout - (ticks d2 - t0)) + 1 ≤ Z.to_nat (timeout - (ticks d - t0)))%nat as Hm by lia. nia.
Qed.

Lemma wait_returns body fuel :
  quick body → (poll_fuel ≤ fuel)%nat → returns (start ← get_current_ticks; poll fuel start 100 body).
Proof.
  intros Hq Hf d. rewrite (bind_ret _ _ _ _ _ (get_current_ticks_run d)). set (d1 := (tick_read d).2).
  pose proof stride_range. pose proof (patience_max d1). apply poll_returns; [done | lia | lia|].
  rewrite Z.sub_diag. unfold poll_fuel in Hf. change (Z.to_nat (100 - 0)) with 100%nat. lia.
Qed.

Lemma ata_dma_transfer_returns fuel bm_base lba sectors w :
  (poll_fuel ≤ fuel)%nat → returns (ata_dma_transfer fuel bm_base lba sectors w).
Proof.
  intros Hf. pose proof (wait_returns _ fuel not_busy_quick Hf) as Hnb.
  pose proof (wait_returns _ fuel (dma_quick bm_base) Hf) as Hdma.
  unfold ata_dma_transfer, ata_start, ata_finish, ata_set_lba28, ata_io_wait.
  repeat first [ exact Hnb | exact Hdma | apply returns_bind; [|intros ?] | apply returns_ret | apply returns_outb
    | apply returns_outl | apply returns_inb | apply returns_modify | apply returns_if ].
Qed.

Lemma disk_read_loop_returns chunks fuel bm_base lba n d :
  (poll_fuel ≤ fuel)%nat → 0 ≤ n < 256 → n + 8 ≤ 8 * Z.of_nat chunks →
  ∃ r out d', disk_read_loop chunks fuel bm_base lba n d = Ret (r, out) d' ∧ (r = 0 ∨ r = 1).
Proof.
  intros Hf. revert lba n d. induction chunks as [|chunks IH]; intros lba n d Hn Hc; [lia|]. cbn [disk_read_loop].
  destruct (Z.eqb_spec n 0); [eexists _, _, _; split; [reflexivity|]; by right|]. cbv zeta.
  set (chunk := if DISK_DMA_MAX_SECTORS <? n then DISK_DMA_MAX_SECTORS else n).
  assert (0 < chunk ≤ n ∧ (chunk = 8 ∨ chunk = n)) as [Hch Hch'].
  { unfold chunk, DISK_DMA_MAX_SECTORS. destruct (Z.ltb_spec 8 n); lia. }
  destruct (ata_dma_transfer_returns fuel bm_base lba chunk false Hf d) as (ok & d1 & Hrun).
  rewrite (bind_ret _ _ _ _ _ Hrun). destruct ok; cbn [negb]; [|eexists _, _, _; split; [reflexivity|]; by left].
  unfold from_dma_buffer. rewrite gets_bind, u8_id by lia.
  destruct (IH (lba +ᵤ chunk) (n - chunk) d1) as (r & out & d2 & Hrun2 & Hr); [lia..|].
  rewrite (bind_ret _ _ _ _ _ Hrun2). by eexists _, _, _.
Qed.

Lemma disk_write_loop_returns chunks fuel bm_base lba n buf d :
  (poll_fuel ≤ fuel)%nat → 0 ≤ n < 256 → n + 8 ≤ 8 * Z.of_nat chunks →
  ∃ r d', disk_write_loop chunks fuel bm_base lba n buf d = Ret r d' ∧ (r = 0 ∨ r = 1).
Proof.
  intros Hf. revert lba n buf d. induction chunks as [|chunks IH]; intros lba n buf d Hn Hc; [lia|]. cbn [disk_write_loop].
  destruct (Z.eqb_spec n 0); [eexists _, _; split; [reflexivity|]; by right|]. cbv zeta.
  set (chunk := if DISK_DMA_MAX_SECTORS <? n then DISK_DMA_MAX_SECTORS else n).
  assert (0 < chunk ≤ n ∧ (chunk = 8 ∨ chunk = n)) as [Hch Hch'].
  { unfold chunk, DISK_DMA_MAX_SECTORS. destruct (Z.ltb_spec 8 n); lia. }
  unfold to_dma_buffer. rewrite modify_bind. set (d0 := put_dma_buffer _ d).
  destruct (ata_dma_transfer_returns fuel bm_base lba chunk true Hf d0) as (ok & d1 & Hrun).
  rewrite (bind_ret _ _ _ _ _ Hrun). destruct ok; cbn [negb]; [|eexists _, _; split; [reflexivity|]; by left].
  rewrite u8_id by lia. apply IH; lia.
Qed.

(** C20 (disk, termination): if the timer runs, [disk_read] and [disk_write] return
    0 or 1 for every request, whatever the controller answers: the polling loops
    end by their timeouts, the loops over chunks after at most 32 of them. *)
Theorem disk_returns (a : ata D) lba n buf :
  0 ≤ n < 256 →
  (∃ r out a', ata_read poll_fuel lba n a = Ret (r, out) a' ∧ (r = 0 ∨ r = 1)) ∧
  (∃ r a', ata_write poll_fuel lba buf n a = Ret r a' ∧ (r = 0 ∨ r = 1)).
Proof.
  intros Hn. unfold ata_read, ata_write. rewrite !gets_bind. split.
  - destruct (disk_read_loop_returns max_chunks poll_fuel (bm_base_of (ide_dev a)) lba n (a_bus a))
      as (r & out & d' & Hrun & Hr); [exact (le_n _) | exact Hn | unfold max_chunks; lia|].
    eexists _, _, _. split; [apply (lift_ret (T := D)), Hrun | exact Hr].
  - destruct (disk_write_loop_returns max_chunks poll_fuel (bm_base_of (ide_dev a)) lba n buf (a_bus a))
      as (r & d' & Hrun & Hr); [exact (le_n _) | exact Hn | unfold max_chunks; lia|].
    eexists _, _. split; [apply (lift_ret (T := D)), Hrun | exact Hr].
Qed.
End returns.

(** ** A controller that follows its documentation

    What the driver relies on of the ATA-6 task file and the bus-mastering IDE
    interface: the registers, the transfer that a programmed command performs,
    and that it is over within 90 ticks. *)

Inductive phase := Idle | Reading (lba n : Z) | Writing (lba n : Z) | Flushing.

#[export] Instance phase_eq_dec : EqDecision phase.
Proof. solve_decision. Defined.
#[export] Instance prdt_eq_dec : EqDecision prdt_entry_t.
Proof. solve_decision. Defined.

(** [completed] is the interrupt bit of the bus-master status; [buffer] and [prd]
    are the shared memory. *)
Record drive := Drive {
  taskfile : gmap Z Z; bm_cmd : Z; bm_prdt : Z; op : phase; completed : bool;
  image : Z → list Z; buffer : list Z; prd : prdt_entry_t;
}.

Definition set_taskfile v dr := Drive v (bm_cmd dr) (bm_prdt dr) (op dr) (completed dr) (image dr) (buffer dr) (prd dr).
Definition set_bm_cmd v dr := Drive (taskfile dr) v (bm_prdt dr) (op dr) (completed dr) (image dr) (buffer dr) (prd dr).
Definition set_bm_prdt v dr := Drive (taskfile dr) (bm_cmd dr) v (op dr) (completed dr) (image dr) (buffer dr) (prd dr).
Definition set_op v dr := Drive (taskfile dr) (bm_cmd dr) (bm_prdt dr) v (completed dr) (image dr) (buffer dr) (prd dr).
Definition set_completed v dr := Drive (taskfile dr) (bm_cmd dr) (bm_prdt dr) (op dr) v (image dr) (buffer dr) (prd dr).
Definition set_image v dr := Drive (taskfile dr) (bm_cmd dr) (bm_prdt dr) (op dr) (completed dr) v (buffer dr) (prd dr).
Definition set_buffer v dr := Drive (taskfile dr) (bm_cmd dr) (bm_prdt dr) (op dr) (completed dr) (image dr) v (prd dr).
Definition set_prd v dr := Drive (taskfile dr) (bm_cmd dr) (bm_prdt dr) (op dr) (completed dr) (image dr) (buffer dr) v.

Section controller.
Context {L : Layout}.

Definition task_register (dr : drive) (r : Z) : Z := default 0 (taskfile dr !! r).

Definition lba_of (dr : drive) : Z :=
  task_register dr 3 + task_register dr 4 * 0x100 + task_register dr 5 * 0x10000 +
  Z.land (task_register dr 6) 0xf * 0x1000000.

(** Everything is set for a transfer of at most 8 sectors. *)
Definition programmed (dr : drive) (is_write : bool) : bool :=
  (bm_cmd dr =? (if is_write then 1 else 9)) && (bm_prdt dr =? kernel_phys_ptr primary_prdt_address) &&
  bool_decide (prd dr = Prdt (kernel_phys_ptr dma_buffer_address) (task_register dr 2 * 512) PRDT_END) &&
  (Z.land (task_register dr 6) 0xf0 =? 0xe0) && (0 <? task_register dr 2) && (task_register dr 2 <=? 8).

(** A byte written to a register of an idle drive, where the driver does so. *)
Definition drive_after (base p v : Z) (dr : drive) : option drive :=
  if bool_decide (op dr ≠ Idle) then None
  else if p =? base then Some (set_bm_cmd v dr)
  else if p =? base + 2 then Some (set_completed (completed dr && negb (Z.testbit v 2)) dr)
  else if (0x1f1 <=? p) && (p <=? 0x1f6) then Some (set_taskfile (<[p - 0x1f0 := v]> (taskfile dr)) dr)
  else if p =? 0x1f7 then
    if (v =? ATA_COMMAND_DMA_READ) && programmed dr false then
      Some (set_op (Reading (lba_of dr) (task_register dr 2)) dr)
    else if (v =? ATA_COMMAND_DMA_WRITE) && programmed dr true then
      Some (set_op (Writing (lba_of dr) (task_register dr 2)) dr)
    else if v =? ATA_COMMAND_DMA_CACHE_FLUSH then Some (set_op Flushing dr)
    else None
  else if (p =? ATA_PRIMARY_CONTROL_REGISTER) && (v =? 0) then Some dr
  else None.

(** The end of the operation. *)
Definition sectors_of (im : Z → list Z) (lba n : Z) : list Z := mjoin (im <$> seqZ lba n).
Definition written (im : Z → list Z) (lba n : Z) (data : list Z) : Z → list Z := λ i,
  if bool_decide (lba ≤ i < lba + n) then take 512 (drop (Z.to_nat ((i - lba) * 512)) data) else im i.

Definition finish (dr : drive) : drive :=
  match op dr with
  | Idle => dr
  | Reading lba n =>
      let data := sectors_of (image dr) lba n in
      set_completed true (set_op Idle (set_buffer (data ++ drop (length data) (buffer dr)) dr))
  | Writing lba n => set_completed true (set_op Idle (set_image (written (image dr) lba n (buffer dr)) dr))
  | Flushing => set_op Idle dr
  end.

(** What a status register reads. *)
Definition answers (base p v : Z) (dr : drive) : Prop :=
  (p = 0x1f7 → Z.land v 0x21 = 0 ∧ (op dr = Idle → Z.land v 0x80 = 0) ∧ (op dr = Flushing → Z.land v 0x80 ≠ 0)) ∧
  (p = base + 2 → Z.land v 0x2 = 0 ∧ (Z.land v 0x4 ≠ 0 ↔ completed dr = true)).

Definition read_port (base p : Z) : Prop := p = base ∨ p = base + 2 ∨ p = 0x1f7 ∨ p = 0x3f6.
End controller.

(** Reading a port may find the operation finished; it has to be by its due time. *)
Class IdeController {L : Layout} (D : Type) (base : Z) `{!Bus D} `{!Dma D} `{!Clock D} `{!RunningClock D} := {
  ic_base : Z.land base 0xfffc = base ∧ 0x400 ≤ base < 0xfff8;
  ic_stride : stride ≤ 1;
  drive_of : D → drive;
  due : D → Z;
  ic_buffer d : dma_buffer d = buffer (drive_of d);
  ic_put_buffer l d : drive_of (put_dma_buffer l d) = set_buffer l (drive_of d);
  ic_put_prdt e d : drive_of (put_primary_prdt e d) = set_prd e (drive_of d);
  ic_tick d : drive_of (tick_read d).2 = drive_of d ∧ due (tick_read d).2 = due d;
  ic_out8 p v d dr : drive_after base p v (drive_of d) = Some dr →
    drive_of (out8 p v d) = dr ∧ due (out8 p v d) ≤ ticks (out8 p v d) + 90;
  ic_out32 v d : op (drive_of d) = Idle → drive_of (out32 (base + 4) v d) = set_bm_prdt v (drive_of d);
  ic_in8 p d : read_port base p → answers base p (in8 p d).1 (drive_of (in8 p d).2) ∧
    ((drive_of (in8 p d).2 = drive_of d ∧ due (in8 p d).2 = due d ∧ (op (drive_of d) ≠ Idle → ticks d < due d)) ∨
     (op (drive_of d) ≠ Idle ∧ drive_of (in8 p d).2 = finish (drive_of d)));
  ic_in8_byte p d : is_byte (in8 p d).1;
}.

Section driver.
Context {L : Layout} {D : Type} (base : Z) `{!Bus D} `{!Dma D} `{!Clock D} `{!RunningClock D} `{!IdeController D base}.
Implicit Types (d : D) (dr : drive).

Lemma base_ports : u16 base = base ∧ u16 (base + 2) = base + 2 ∧ u16 (base + 4) = base + 4 ∧ 0x400 ≤ base < 0xfff8.
Proof. destruct ic_base as [_ Hb]. rewrite !u16_id by lia. done. Qed.

(** Reading a port of an idle drive changes nothing. *)
Lemma inb_idle p d :
  read_port base (u16 p) → op (drive_of d) = Idle →
  ∃ v d', inb p d = Ret v d' ∧ drive_of d' = drive_of d ∧ answers base (u16 p) v (drive_of d).
Proof.
  intros Hp Hidle. rewrite inb_run. destruct (ic_in8 (u16 p) d Hp) as [Ha [(Hd & _)|[? _]]]; [|done].
  eexists _, _. split; [reflexivity|]. split; [done|]. rewrite Hd in Ha. rewrite u8_id by apply ic_in8_byte. done.
Qed.

Lemma io_wait_idle d :
  op (drive_of d) = Idle → ∃ d', ata_io_wait d = Ret tt d' ∧ drive_of d' = drive_of d.
Proof.
  intros Hidle. unfold ata_io_wait. assert (read_port base (u16 ATA_PRIMARY_CONTROL_REGISTER)) as Hp by (by do 3 right).
  destruct (inb_idle _ d Hp Hidle) as (v1 & d1 & H1 & E1 & _). rewrite (bind_ret _ _ _ _ _ H1). rewrite <-E1 in Hidle.
  destruct (inb_idle _ d1 Hp Hidle) as (v2 & d2 & H2 & E2 & _). rewrite (bind_ret _ _ _ _ _ H2). rewrite <-E2 in Hidle.
  destruct (inb_idle _ d2 Hp Hidle) as (v3 & d3 & H3 & E3 & _). rewrite (bind_ret _ _ _ _ _ H3). rewrite <-E3 in Hidle.
  destruct (inb_idle _ d3 Hp Hidle) as (v4 & d4 & H4 & E4 & _). rewrite (bind_ret _ _ _ _ _ H4).
  exists d4. split; [done|]. by rewrite E4, E3, E2, E1.
Qed.

Lemma not_busy_idle fuel d :
  (0 < fuel)%nat → op (drive_of d) = Idle →
  ∃ d', ata_wait4_not_busy fuel d = Ret true d' ∧ drive_of d' = drive_of d.
Proof.
  intros Hf Hidle. unfold ata_wait4_not_busy. rewrite (bind_ret _ _ _ _ _ (get_current_ticks_run d)).
  set (d1 := (tick_read d).2). destruct (ic_tick d) as [E1 _]. fold d1 in E1. destruct fuel as [|fuel]; [lia|]. cbn [poll].
  rewrite (bind_ret _ _ _ _ _ (get_current_ticks_run d1)). destruct (tick_later d1) as [Hl _].
  destruct (ic_tick d1) as [E2 _]. set (d2 := (tick_read d1).2) in *. pose proof ic_stride.
  rewrite u32_diff by lia. rewrite (proj2 (Z.ltb_lt _ _)) by (unfold ATA_BUSY_TIMEOUT_TICKS; lia).
  assert (op (drive_of d2) = Idle) as Hidle2 by (by rewrite E2, E1).
  destruct (inb_idle (ATA_PRIMARY_DATA_REGISTER + ATA_STATUS_REGISTER_OFFSET) d2) as (v & d3 & H3 & E3 & [Ha _]);
    [by right; right; left | done|].
  unfold not_busy_poll. rewrite bind_bind, (bind_ret _ _ _ _ _ H3). destruct (Ha eq_refl) as (_ & Hnb & _).
  change ATA_STATUS_BUSY with 0x80. rewrite (Hnb Hidle2), Z.eqb_refl. exists d3. split; [done|]. by rewrite E3, E2, E1.
Qed.

(** *** Programming the transfer *)

Lemma outb_run p v d dr :
  drive_after base (u16 p) (u8 v) (drive_of d) = Some dr →
  ∃ d', outb p v d = Ret tt d' ∧ drive_of d' = dr ∧ due d' ≤ ticks d' + 90.
Proof. intros Hd. eexists. split; [reflexivity|]. by apply ic_out8. Qed.

Lemma after_cmd v dr : op dr = Idle → drive_after base base v dr = Some (set_bm_cmd v dr).
Proof. intros Hi. unfold drive_after. rewrite bool_decide_false by (rewrite Hi; auto). by rewrite Z.eqb_refl. Qed.

Lemma after_status v dr :
  op dr = Idle → drive_after base (base + 2) v dr = Some (set_completed (completed dr && negb (Z.testbit v 2)) dr).
Proof.
  intros Hi. unfold drive_after. rewrite bool_decide_false by (rewrite Hi; auto).
  by rewrite (proj2 (Z.eqb_neq (base + 2) base)), Z.eqb_refl by lia.
Qed.

Lemma after_task r v dr :
  op dr = Idle → 1 ≤ r ≤ 6 → drive_after base (0x1f0 + r) v dr = Some (set_taskfile (<[r := v]> (taskfile dr)) dr).
Proof.
  intros Hi Hr. destruct base_ports as (_ & _ & _ & Hb). unfold drive_after.
  rewrite bool_decide_false by (rewrite Hi; auto).
  rewrite (proj2 (Z.eqb_neq (0x1f0 + r) base)), (proj2 (Z.eqb_neq (0x1f0 + r) (base + 2))) by lia.
  rewrite (proj2 (Z.leb_le _ _)), (proj2 (Z.leb_le _ _)) by lia. cbn [andb]. do 4 f_equal. lia.
Qed.

Lemma after_command v dr :
  op dr = Idle →
  drive_after base 0x1f7 v dr =
    if (v =? ATA_COMMAND_DMA_READ) && programmed dr false then Some (set_op (Reading (lba_of dr) (task_register dr 2)) dr)
    else if (v =? ATA_COMMAND_DMA_WRITE) && programmed dr true then Some (set_op (Writing (lba_of dr) (task_register dr 2)) dr)
    else if v =? ATA_COMMAND_DMA_CACHE_FLUSH then Some (set_op Flushing dr) else None.
Proof.
  intros Hi. destruct base_ports as (_ & _ & _ & Hb). unfold drive_after. rewrite bool_decide_false by (rewrite Hi; auto).
  by rewrite (proj2 (Z.eqb_neq 0x1f7 base)), (proj2 (Z.eqb_neq 0x1f7 (base + 2))) by lia.
Qed.

(** The registers that hold the request. *)
Lemma lba_bytes lba :
  0 ≤ lba < 0x10000000 →
  let h := u8 (Z.lor 0xe0 (Z.land (Z.shiftr lba 24) 0xf)) in
  u8 lba + u8 (Z.shiftr lba 8) * 0x100 + u8 (Z.shiftr lba 16) * 0x10000 + Z.land h 0xf * 0x1000000 = lba ∧
  Z.land h 0xf0 = 0xe0.
Proof.
  intros Hl. cbv zeta. rewrite !Z.shiftr_div_pow2 by lia. change (2 ^ 8) with 0x100. change (2 ^ 16) with 0x10000.
  change (2 ^ 24) with 0x1000000. change 0xf with (Z.ones 4). rewrite !Z.land_ones by lia. change (2 ^ 4) with 16.
  assert (0 ≤ lba `div` 0x1000000 < 16) as Hh by (Z.div_mod_to_equations; lia).
  rewrite (Z.mod_small (lba `div` 0x1000000)) by done. set (h := lba `div` 0x1000000) in *.
  assert (∀ h, 0 ≤ h < 16 → u8 (Z.lor 0xe0 h) mod 16 = h ∧ Z.land (u8 (Z.lor 0xe0 h)) 0xf0 = 0xe0) as Hc.
  { clear. intros h Hh. assert (forallb (λ h, (u8 (Z.lor 0xe0 h) mod 16 =? h) && (Z.land (u8 (Z.lor 0xe0 h)) 0xf0 =? 0xe0))
      (seqZ 0 16) = true) as Hc by (vm_compute; reflexivity).
    rewrite forallb_forall in Hc. assert (h ∈ seqZ 0 16) as Hin by (apply elem_of_seqZ; lia).
    specialize (Hc h (proj1 (list_elem_of_In _ _) Hin)).
    apply andb_prop in Hc as [?%Z.eqb_eq ?%Z.eqb_eq]. done. }
  destruct (Hc h Hh) as [-> ->]. split; [|done]. unfold h, u8. Z.div_mod_to_equations. lia.
Qed.
(** The operation that [ata_start] starts. *)
Definition request (w : bool) (lba n : Z) : phase := if w then Writing lba n else Reading lba n.

Record started (w : bool) (lba n : Z) dr dr' : Prop := {
  st_op : op dr' = request w lba n;
  st_completed : completed dr' = false;
  st_image : image dr' = image dr;
  st_buffer : buffer dr' = buffer dr;
}.

Tactic Notation "drive_simpl" := cbn [set_taskfile set_bm_cmd set_bm_prdt set_op set_completed set_image set_buffer
  set_prd taskfile bm_cmd bm_prdt op completed image buffer prd].
Tactic Notation "drive_simpl" "in" hyp(E) := cbn [set_taskfile set_bm_cmd set_bm_prdt set_op set_completed set_image
  set_buffer set_prd taskfile bm_cmd bm_prdt op completed image buffer prd] in E.

(** One byte written on the way: [E] gives the drive before it, [t] its effect. *)
Tactic Notation "out" hyp(E) "by" tactic3(t) "as" ident(d') ident(E') :=
  match goal with |- context [(outb ?p ?v ≫= ?k) ?d0] =>
    let H := fresh in
    edestruct (outb_run p v d0) as (d' & H & E' & _); [rewrite E; t | rewrite (bind_ret _ _ _ _ _ H); clear H; drive_simpl in E']
  end.

Lemma ata_start_run w lba n d :
  op (drive_of d) = Idle → 0 ≤ lba < 0x10000000 → 0 < n ≤ 8 →
  prd (drive_of d) = Prdt (kernel_phys_ptr dma_buffer_address) (n * 512) PRDT_END →
  ∃ d', ata_start base lba n w d = Ret tt d' ∧ started w lba n (drive_of d) (drive_of d') ∧ due d' ≤ ticks d' + 90.
Proof.
  intros Hidle Hlba Hn Hprd. destruct base_ports as (B0 & B2 & B4 & Hb). destruct (lba_bytes lba Hlba) as [Elba Ehigh].
  set (h := u8 (Z.lor 0xe0 (Z.land (Z.shiftr lba 24) 0xf))) in *.
  set (dir := if w then BM_COMMAND_WRITE else BM_COMMAND_READ).
  assert (is_byte dir ∧ is_byte (Z.lor dir 1) ∧ Z.lor dir 1 = if w then 1 else 9) as (Hdir & Hdir1 & Edir)
    by (unfold dir; by destruct w).
  unfold ata_start, BM_COMMAND_REGISTER_OFFSET, BM_STATUS_REGISTER_OFFSET, BM_PRDT_REGISTER_OFFSET.
  cbv zeta. fold dir. rewrite !Z.add_0_r, B0, B2, B4. set (dr := drive_of d).
  destruct (inb_idle base d) as (v & d1 & H1 & E1 & _); [left; by rewrite B0 | done|]. rewrite (bind_ret _ _ _ _ _ H1).
  out E1 by (rewrite B0; by apply after_cmd) as d2 E2. out E2 by (rewrite B0; by apply after_cmd) as d3 E3.
  out E3 by (rewrite B2; by apply after_status) as d4 E4.

  assert (outl (base + 4) (kernel_phys_ptr primary_prdt_address) d4 =
    Ret tt (out32 (base + 4) (kernel_phys_ptr primary_prdt_address) d4)) as H5.
  { unfold outl. rewrite B4. unfold kernel_phys_ptr at 1. by rewrite u32_u32. }
  rewrite (bind_ret _ _ _ _ _ H5). set (d5 := out32 _ _ d4).
  assert (drive_of d5 = set_bm_prdt (kernel_phys_ptr primary_prdt_address) (drive_of d4)) as E5
    by (apply ic_out32; by rewrite E4).
  unfold ata_set_lba28. rewrite bind_bind. fold h.
  out E5 by (apply (after_task 6); [by rewrite E4 | lia]) as d6 E6.
  destruct (io_wait_idle d6) as (d7 & H7 & E7); [by rewrite E6, E4|]. rewrite (bind_ret _ _ _ _ _ H7). rewrite E6, E4 in E7.
  out E7 by (by apply (after_task 1)) as d8 E8.
  out E8 by (by apply (after_task 2)) as d9 E9.
  out E9 by (by apply (after_task 3)) as d10 E10.
  out E10 by (by apply (after_task 4)) as d11 E11.
  out E11 by (by apply (after_task 5)) as d12 E12.
  out E12 by (rewrite B0; by apply after_cmd) as d13 E13.
  set (dr13 := drive_of d13).
  assert (op dr13 = Idle) as I13 by (unfold dr13; by rewrite E13).
  assert (task_register dr13 2 = n) as R2.
  { unfold task_register, dr13. rewrite E13. drive_simpl. rewrite !lookup_insert_ne, lookup_insert_eq by done.
    apply u8_id. lia. }
  assert (task_register dr13 6 = h) as R6.
  { unfold task_register, dr13. rewrite E13. drive_simpl. rewrite !lookup_insert_ne, lookup_insert_eq by done.
    apply u8_id, u8_range. }
  assert (lba_of dr13 = lba) as Hl.
  { unfold lba_of. rewrite R6. etrans; [|exact Elba]. f_equal. unfold task_register, dr13. rewrite E13. drive_simpl.
    repeat (rewrite lookup_insert_eq || rewrite lookup_insert_ne by done). cbn [default].
    unfold id. by rewrite !(u8_id (u8 _)) by apply u8_range. }
  assert (programmed dr13 w = true) as Hprog.
  { unfold programmed. rewrite R2, R6, Ehigh. unfold dr13. rewrite E13. drive_simpl.
    change BM_COMMAND_START with 1. rewrite (u8_id (u8 _)) by apply u8_range. rewrite (u8_id _ Hdir1), Edir, !Z.eqb_refl.
    rewrite Hprd, bool_decide_true by done.
    by rewrite (proj2 (Z.ltb_lt _ _)), (proj2 (Z.leb_le _ _)) by lia. }
  destruct (outb_run (ATA_PRIMARY_DATA_REGISTER + ATA_COMMAND_REGISTER_OFFSET)
    (if w then ATA_COMMAND_DMA_WRITE else ATA_COMMAND_DMA_READ) d13 (set_op (request w lba n) dr13)) as (d14 & H14 & E14 & T14).
  { etrans; [by apply after_command|]. fold dr13. rewrite Hl, R2. destruct w; rewrite Hprog; reflexivity. }
  exists d14. split; [exact H14|]. split; [|exact T14]. rewrite E14. unfold dr13. rewrite E13.
  constructor; try reflexivity. apply andb_false_r.
Qed.
(** *** Waiting for the end *)

(** A poll that meets [inv] within 95 ticks either ends the loop in a state of [post]
    or meets [inv] again. *)
Lemma poll_finishes body t0 (inv post : D → Prop) fuel d :
  (∀ d, inv d → inv (tick_read d).2) →
  (∀ d, inv d → ticks d - t0 < 100 → ∃ r d', body d = Ret r d' ∧ passes 5 d d' ∧
     ((r = Some true ∧ post d') ∨ (r = None ∧ inv d' ∧ ticks d' - t0 ≤ 95))) →
  inv d → 0 ≤ ticks d - t0 ≤ 95 →
  (Z.to_nat (100 - (ticks d - t0)) * S max_patience + patience d < fuel)%nat →
  ∃ d', poll fuel (u32 t0) 100 body d = Ret true d' ∧ post d'.
Proof.
  intros Htick Hbody. pose proof ic_stride as Hs1. pose proof stride_range as Hs0.
  revert d. induction fuel as [|fuel IH]; intros d Hi He Hf; [lia|].
  cbn [poll]. rewrite (bind_ret _ _ _ _ _ (get_current_ticks_run d)). destruct (tick_later d) as [Hl Hp].
  apply Htick in Hi. set (d1 := (tick_read d).2) in *. rewrite u32_diff by lia. rewrite (proj2 (Z.ltb_lt _ _)) by lia.
  destruct (Hbody d1 Hi ltac:(lia)) as (r & d2 & Hrun & [H2 P2] & Hr). rewrite (bind_ret _ _ _ _ _ Hrun).
  destruct Hr as [[-> Hpost]|(-> & Hi2 & H95)]; [by exists d2|].
  apply IH; [done | lia|]. pose proof (patience_max d2). destruct (decide (ticks d2 = ticks d)) as [E|Hne].
  - specialize (P2 ltac:(lia)). specialize (Hp ltac:(lia)). rewrite E. lia.
  - assert (Z.to_nat (100 - (ticks d2 - t0)) + 1 ≤ Z.to_nat (100 - (ticks d - t0)))%nat as Hm by lia. nia.
Qed.

(** The drive works on [o], or has just finished. *)
Definition working dr (t : Z) d : Prop := (drive_of d = dr ∧ due d ≤ t) ∨ drive_of d = finish dr.

Lemma working_tick dr t d : working dr t d → working dr t (tick_read d).2.
Proof. destruct (ic_tick d) as [E1 E2]. unfold working. by rewrite E1, E2. Qed.

Lemma finish_idle dr : op (finish dr) = Idle.
Proof. unfold finish. destruct (op dr) eqn:E; [exact E | reflexivity..]. Qed.

(** Reading a port while the drive works: if it still works the time is not over. *)
Lemma inb_working p dr t d :
  read_port base (u16 p) → op dr ≠ Idle → working dr t d →
  ∃ v d', inb p d = Ret v d' ∧ passes 1 d d' ∧ working dr t d' ∧ answers base (u16 p) v (drive_of d') ∧
    (drive_of d' = finish dr ∨ (drive_of d' = dr ∧ ticks d < t)) ∧ (drive_of d = finish dr → drive_of d' = finish dr).
Proof.
  intros Hp Hop Hw. rewrite inb_run. destruct (ic_in8 (u16 p) d Hp) as [Ha Hc].
  rewrite u8_id by apply ic_in8_byte. eexists _, _. split; [reflexivity|]. split; [apply passes_in|].
  set (d' := (in8 (u16 p) d).2) in *. destruct Hw as [[Hd Hdue]|Hd].
  - rewrite Hd in Hc. destruct Hc as [(E & Edue & Hlt)|[_ E]].
    + specialize (Hlt Hop). split; [left; split; [done | by rewrite Edue]|]. split; [done|]. split; [right; split; [done|lia]|].
      intros Hf. congruence.
    + split; [by right|]. split; [done|]. split; [by left | done].
  - rewrite Hd in Hc. destruct Hc as [(E & _)|[Hne _]]; [|by rewrite finish_idle in Hne].
    split; [by right|]. split; [done|]. split; [by left | done].
Qed.

Lemma status_read_port : read_port base (u16 (ATA_PRIMARY_DATA_REGISTER + ATA_STATUS_REGISTER_OFFSET)).
Proof. right. right. by left. Qed.

Lemma dma_poll_working dr t0 d :
  (∃ w lba n, op dr = request w lba n) → completed dr = false → working dr (t0 + 90) d →
  ∃ r d', dma_poll base d = Ret r d' ∧ passes 5 d d' ∧
    ((r = Some true ∧ drive_of d' = finish dr) ∨ (r = None ∧ working dr (t0 + 90) d' ∧ ticks d' - t0 ≤ 95)).
Proof.
  intros (w & lba & n & Hop) Hcompl Hw. destruct base_ports as (_ & B2 & _ & Hb). pose proof ic_stride.
  assert (op dr ≠ Idle) as Hne by (rewrite Hop; by destruct w).
  assert (completed (finish dr) = true) as Hfc by (unfold finish; rewrite Hop; by destruct w).
  destruct (inb_working _ dr _ d status_read_port Hne Hw) as (v1 & d1 & H1 & P1 & W1 & [A1 _] & _ & F1).
  destruct (inb_working (base + BM_STATUS_REGISTER_OFFSET) dr (t0 + 90) d1) as (v2 & d2 & H2 & P2 & W2 & [_ A2] & C2 & _);
    [right; left; exact B2 | done | done|].
  unfold dma_poll. rewrite (bind_ret _ _ _ _ _ H1), (bind_ret _ _ _ _ _ H2).
  destruct (A1 eq_refl) as (Hs & _). destruct (A2 B2) as (Hbs & Hirq).
  change (Z.lor ATA_STATUS_ERROR ATA_STATUS_FAULT) with 0x21. rewrite Hs. cbn [Z.eqb negb].
  change BM_STATUS_ERROR with 0x2. rewrite Hbs. cbn [Z.eqb negb]. change BM_STATUS_IRQ_COMPLETED with 0x4.
  assert (passes 5 d d2) as P by (apply (passes_weaken 2); [done|]; exact (passes_trans 1 1 _ _ _ P1 P2)).
  destruct (Z.eqb_spec (Z.land v2 0x4) 0) as [Hz|Hnz]; cbn [negb]; eexists _, d2;
    (split; [reflexivity|]; split; [exact P|]).
  - right. split; [done|]. split; [done|]. destruct C2 as [E|[_ Hlt]].
    + exfalso. apply Hirq; [by rewrite E | done].
    + destruct P2 as [? _]. lia.
  - left. split; [done|]. destruct C2 as [E|[E _]]; [done|]. apply Hirq in Hnz. rewrite E in Hnz. congruence.
Qed.

Lemma wait4_dma_run w lba n dr d fuel :
  drive_of d = dr → op dr = request w lba n → completed dr = false → due d ≤ ticks d + 90 → (poll_fuel ≤ fuel)%nat →
  ∃ d', ata_wait4_dma fuel base d = Ret true d' ∧ drive_of d' = finish dr.
Proof.
  intros Hd Hop Hc Hdue Hf. unfold ata_wait4_dma. rewrite (bind_ret _ _ _ _ _ (get_current_ticks_run d)).
  destruct (ic_tick d) as [E1 E2]. destruct (tick_later d) as [Hl _]. set (d1 := (tick_read d).2) in *.
  pose proof (patience_max d1).
  apply (poll_finishes _ (ticks d1) (working dr (ticks d1 + 90)) (λ d', drive_of d' = finish dr)).
  - intros d2. apply working_tick.
  - intros d2 Hw _. apply dma_poll_working; [by exists w, lba, n | done | done].
  - left. rewrite E1, E2. split; [done | lia].
  - lia.
  - rewrite Z.sub_diag. unfold poll_fuel in Hf. change (Z.to_nat (100 - 0)) with 100%nat. lia.
Qed.

Lemma io_wait_working dr t d :
  op dr ≠ Idle → working dr t d → ∃ d', ata_io_wait d = Ret tt d' ∧ passes 4 d d' ∧ working dr t d'.
Proof.
  intros Hop Hw. unfold ata_io_wait.
  assert (read_port base (u16 ATA_PRIMARY_CONTROL_REGISTER)) as Hp by (by do 3 right).
  destruct (inb_working _ dr t d Hp Hop Hw) as (v1 & d1 & H1 & P1 & W1 & _). rewrite (bind_ret _ _ _ _ _ H1).
  destruct (inb_working _ dr t d1 Hp Hop W1) as (v2 & d2 & H2 & P2 & W2 & _). rewrite (bind_ret _ _ _ _ _ H2).
  destruct (inb_working _ dr t d2 Hp Hop W2) as (v3 & d3 & H3 & P3 & W3 & _). rewrite (bind_ret _ _ _ _ _ H3).
  destruct (inb_working _ dr t d3 Hp Hop W3) as (v4 & d4 & H4 & P4 & W4 & _). rewrite (bind_ret _ _ _ _ _ H4).
  exists d4. split; [done|]. split; [|done].
  exact (passes_trans 1 3 _ _ _ P1 (passes_trans 1 2 _ _ _ P2 (passes_trans 1 1 _ _ _ P3 P4))).
Qed.

Lemma flush_poll_working dr t0 d :
  op dr = Flushing → working dr (t0 + 90) d →
  ∃ r d', not_busy_poll d = Ret r d' ∧ passes 5 d d' ∧
    ((r = Some true ∧ drive_of d' = finish dr) ∨ (r = None ∧ working dr (t0 + 90) d' ∧ ticks d' - t0 ≤ 95)).
Proof.
  intros Hop Hw. pose proof ic_stride. assert (op dr ≠ Idle) as Hne by (by rewrite Hop).
  destruct (inb_working _ dr _ d status_read_port Hne Hw) as (v & d1 & H1 & P1 & W1 & [A _] & C & _).
  unfold not_busy_poll. rewrite (bind_ret _ _ _ _ _ H1). destruct (A eq_refl) as (_ & Hidle & Hflush).
  change ATA_STATUS_BUSY with 0x80. destruct C as [E|[E Hlt]]; rewrite E in Hidle, Hflush.
  - rewrite (Hidle (finish_idle _)). cbn [Z.eqb]. eexists _, d1. split; [reflexivity|].
    split; [by apply (passes_weaken 1)|]. by left.
  - rewrite (proj2 (Z.eqb_neq _ _)) by auto.
    destruct (io_wait_working dr _ d1 Hne W1) as (d2 & H2 & P2 & W2). rewrite (bind_ret _ _ _ _ _ H2).
    eexists _, d2. split; [reflexivity|]. split; [exact (passes_trans 1 4 _ _ _ P1 P2)|]. right. split; [done|].
    split; [done|]. destruct P1 as [? _], P2 as [? _]. lia.
Qed.

Lemma wait_flush_run dr d fuel :
  drive_of d = dr → op dr = Flushing → due d ≤ ticks d + 90 → (poll_fuel ≤ fuel)%nat →
  ∃ d', ata_wait4_not_busy fuel d = Ret true d' ∧ drive_of d' = finish dr.
Proof.
  intros Hd Hop Hdue Hf. unfold ata_wait4_not_busy. rewrite (bind_ret _ _ _ _ _ (get_current_ticks_run d)).
  destruct (ic_tick d) as [E1 E2]. destruct (tick_later d) as [Hl _]. set (d1 := (tick_read d).2) in *.
  pose proof (patience_max d1).
  apply (poll_finishes _ (ticks d1) (working dr (ticks d1 + 90)) (λ d', drive_of d' = finish dr)).
  - intros d2. apply working_tick.
  - intros d2 Hw _. by apply flush_poll_working.
  - left. rewrite E1, E2. split; [done | lia].
  - lia.
  - rewrite Z.sub_diag. unfold poll_fuel in Hf. change (Z.to_nat (100 - 0)) with 100%nat. lia.
Qed.

(** *** The whole transfer *)

(** What a transfer leaves of the drive: the image and the buffer. *)
Definition transferred (w : bool) (lba n : Z) dr dr' : Prop :=
  op dr' = Idle ∧
  image dr' = (if w then written (image dr) lba n (buffer dr) else image dr) ∧
  buffer dr' = (if w then buffer dr
    else sectors_of (image dr) lba n ++ drop (length (sectors_of (image dr) lba n)) (buffer dr)).

Lemma ata_finish_run fuel w d :
  op (drive_of d) = Idle → (poll_fuel ≤ fuel)%nat →
  ∃ d', ata_finish fuel base w d = Ret true d' ∧ op (drive_of d') = Idle ∧
    image (drive_of d') = image (drive_of d) ∧ buffer (drive_of d') = buffer (drive_of d).
Proof.
  intros Hidle Hf. destruct base_ports as (B0 & B2 & _ & Hb). unfold ata_finish, BM_COMMAND_REGISTER_OFFSET, BM_STATUS_REGISTER_OFFSET.
  cbv zeta. rewrite Z.add_0_r, B0, B2. remember (drive_of d) as dr eqn:E0. symmetry in E0.
  assert (0 < fuel)%nat as Hf0 by (unfold poll_fuel in Hf; lia).
  out E0 by (rewrite B0; by apply after_cmd) as d1 E1.
  destruct (not_busy_idle fuel d1 Hf0) as (d2 & H2 & E2); [by rewrite E1|]. rewrite (bind_ret _ _ _ _ _ H2). cbn [negb].
  rewrite E1 in E2.
  destruct (inb_idle (ATA_PRIMARY_DATA_REGISTER + ATA_STATUS_REGISTER_OFFSET) d2 status_read_port) as (v3 & d3 & H3 & E3 & [A3 _]);
    [by rewrite E2|]. rewrite (bind_ret _ _ _ _ _ H3). rewrite E2 in E3, A3.
  destruct (inb_idle (base + 2) d3) as (v4 & d4 & H4 & E4 & [_ A4]); [by right; left; rewrite B2 | by rewrite E3|].
  rewrite (bind_ret _ _ _ _ _ H4). rewrite E3 in E4, A4.
  out E4 by (rewrite B2; by apply after_status) as d5 E5.
  destruct (A3 eq_refl) as [Hs _]. destruct (A4 B2) as [Hbs _].
  change (Z.lor ATA_STATUS_ERROR ATA_STATUS_FAULT) with 0x21. change BM_STATUS_ERROR with 0x2. rewrite Hs, Hbs. cbn [Z.eqb negb orb].
  destruct w; [|exists d5; rewrite E5; by repeat split].
  assert (drive_after base 0x1f7 ATA_COMMAND_DMA_CACHE_FLUSH (drive_of d5) = Some (set_op Flushing (drive_of d5))) as Hflush
    by (rewrite after_command by (by rewrite E5); done).
  destruct (outb_run (ATA_PRIMARY_DATA_REGISTER + ATA_COMMAND_REGISTER_OFFSET) ATA_COMMAND_DMA_CACHE_FLUSH d5 _ Hflush)
    as (d6 & H6 & E6 & T6). rewrite (bind_ret _ _ _ _ _ H6).
  destruct (wait_flush_run _ d6 fuel E6 eq_refl T6 Hf) as (d7 & H7 & E7). rewrite (bind_ret _ _ _ _ _ H7). cbn [negb].
  destruct (inb_idle (ATA_PRIMARY_DATA_REGISTER + ATA_STATUS_REGISTER_OFFSET) d7 status_read_port) as (v8 & d8 & H8 & E8 & [A8 _]);
    [by rewrite E7|]. rewrite (bind_ret _ _ _ _ _ H8). destruct (A8 eq_refl) as [Hs8 _]. rewrite Hs8.
  exists d8. split; [reflexivity|]. rewrite E8, E7, E5. by repeat split.
Qed.

Lemma ata_dma_transfer_run fuel lba n w d :
  op (drive_of d) = Idle → 0 ≤ lba < 0x10000000 → 0 < n ≤ 8 → (poll_fuel ≤ fuel)%nat →
  ∃ d', ata_dma_transfer fuel base lba n w d = Ret true d' ∧ transferred w lba n (drive_of d) (drive_of d').
Proof.
  intros Hidle Hlba Hn Hf. unfold ata_dma_transfer.
  rewrite (proj2 (Z.eqb_neq n 0)), (proj2 (Z.ltb_ge DISK_DMA_MAX_SECTORS n)) by (unfold DISK_DMA_MAX_SECTORS; lia). cbn [orb].
  rewrite modify_bind. set (d0 := put_primary_prdt _ d). assert (0 < fuel)%nat as Hf0 by (unfold poll_fuel in Hf; lia).
  pose proof (ic_put_prdt (Prdt (kernel_phys_ptr dma_buffer_address) (u16 (n * DISK_SECTOR_SIZE)) PRDT_END) d) as E0.
  fold d0 in E0. rewrite (u16_id (n * DISK_SECTOR_SIZE)) in E0 by (unfold DISK_SECTOR_SIZE; lia).
  destruct (not_busy_idle fuel d0 Hf0) as (d1 & H1 & E1); [by rewrite E0|]. rewrite (bind_ret _ _ _ _ _ H1). cbn [negb].
  rewrite E0 in E1.
  destruct (ata_start_run w lba n d1) as (d2 & H2 & [S1 S2 S3 S4] & T2); [by rewrite E1 | done | done | by rewrite E1|].
  rewrite (bind_ret _ _ _ _ _ H2). rewrite E1 in S3, S4. cbn in S3, S4.
  destruct (wait4_dma_run w lba n _ d2 fuel eq_refl S1 S2 T2 Hf) as (d3 & H3 & E3). rewrite (bind_ret _ _ _ _ _ H3). cbn [negb].
  destruct (ata_finish_run fuel w d3) as (d4 & H4 & I4 & Im4 & B4); [by rewrite E3, finish_idle | done|].
  exists d4. split; [exact H4|]. split; [done|]. rewrite Im4, B4, E3. unfold finish. rewrite S1.
  destruct w; cbn; by rewrite ?S3, ?S4.
Qed.
(** *** Requests of any size *)

Definition image_ok (im : Z → list Z) : Prop := ∀ i, length (im i) = 512%nat ∧ Forall is_byte (im i).

Lemma sectors_of_app im lba a b :
  0 ≤ a → 0 ≤ b → sectors_of im lba (a + b) = sectors_of im lba a ++ sectors_of im (lba + a) b.
Proof. intros Ha Hb. unfold sectors_of. by rewrite seqZ_app, fmap_app, join_app by done. Qed.

Lemma sectors_of_one im lba : sectors_of im lba 1 = im lba.
Proof.
  unfold sectors_of. change (seqZ lba 1) with [lba]. cbn [fmap list_fmap mjoin list_join]. apply app_nil_r.
Qed.

Lemma sectors_of_length im lba n : 0 ≤ n → image_ok im → length (sectors_of im lba n) = Z.to_nat (n * 512).
Proof.
  intros Hn Him. revert n Hn lba. refine (natlike_ind _ _ _); [done|]. intros n Hn IH lba.
  unfold Z.succ. rewrite sectors_of_app, length_app, IH, sectors_of_one by lia. destruct (Him (lba + n)) as [-> _]. lia.
Qed.

Lemma chunk_bounds n : 0 < n < 256 →
  let chunk := if DISK_DMA_MAX_SECTORS <? n then DISK_DMA_MAX_SECTORS else n in
  0 < chunk ≤ 8 ∧ chunk ≤ n ∧ (chunk = 8 ∨ chunk = n).
Proof. intros Hn. cbv zeta. unfold DISK_DMA_MAX_SECTORS. destruct (Z.ltb_spec 8 n); lia. Qed.

Lemma disk_read_loop_run chunks fuel lba n d :
  (poll_fuel ≤ fuel)%nat → 0 ≤ lba → 0 ≤ n < 256 → lba + n ≤ 0x10000000 → n + 8 ≤ 8 * Z.of_nat chunks →
  op (drive_of d) = Idle → image_ok (image (drive_of d)) →
  ∃ d', disk_read_loop chunks fuel base lba n d = Ret (1, sectors_of (image (drive_of d)) lba n) d' ∧
    op (drive_of d') = Idle ∧ image (drive_of d') = image (drive_of d).
Proof.
  intros Hf. revert lba n d. induction chunks as [|chunks IH]; intros lba n d Hlba Hn Hend Hc Hidle Him; [lia|].
  cbn [disk_read_loop]. destruct (Z.eqb_spec n 0) as [->|Hne]; [by exists d|].
  pose proof (chunk_bounds n ltac:(lia)) as Hchunk. cbv zeta in *.
  set (chunk := if DISK_DMA_MAX_SECTORS <? n then DISK_DMA_MAX_SECTORS else n) in *. destruct Hchunk as (H8 & Hle & Hcase).
  destruct (ata_dma_transfer_run fuel lba chunk false d Hidle ltac:(lia) ltac:(lia) Hf) as (d1 & H1 & I1 & Im1 & B1).
  rewrite (bind_ret _ _ _ _ _ H1). cbn [negb]. unfold from_dma_buffer. rewrite gets_bind.
  rewrite ic_buffer, B1, (u16_id (chunk * _)) by (unfold DISK_SECTOR_SIZE; lia).
  rewrite take_app_length' by (rewrite sectors_of_length by (done || lia); unfold DISK_SECTOR_SIZE; lia).
  rewrite u32_id, u8_id by lia.
  destruct (IH (lba + chunk) (n - chunk) d1) as (d2 & H2 & I2 & Im2); [lia..|done|by rewrite Im1|].
  rewrite (bind_ret _ _ _ _ _ H2). cbv beta iota. exists d2. rewrite Im1, <-sectors_of_app by lia.
  replace (chunk + (n - chunk)) with n by lia. split; [done|]. split; [done|]. by rewrite Im2.
Qed.

(** The image after the sectors from [lba] on are overwritten. *)
Lemma disk_write_loop_run chunks fuel lba n buf d :
  (poll_fuel ≤ fuel)%nat → 0 ≤ lba → 0 ≤ n < 256 → lba + n ≤ 0x10000000 → n + 8 ≤ 8 * Z.of_nat chunks →
  op (drive_of d) = Idle → n * 512 ≤ Z.of_nat (length buf) →
  ∃ d', disk_write_loop chunks fuel base lba n buf d = Ret 1 d' ∧ op (drive_of d') = Idle ∧
    ∀ i, image (drive_of d') i = written (image (drive_of d)) lba n buf i.
Proof.
  intros Hf. revert lba n buf d. induction chunks as [|chunks IH]; intros lba n buf d Hlba Hn Hend Hc Hidle Hbuf; [lia|].
  cbn [disk_write_loop]. destruct (Z.eqb_spec n 0) as [->|Hne].
  { exists d. split; [done|]. split; [done|]. intros i. unfold written. by rewrite bool_decide_false by lia. }
  pose proof (chunk_bounds n ltac:(lia)) as Hchunk. cbv zeta in *.
  set (chunk := if DISK_DMA_MAX_SECTORS <? n then DISK_DMA_MAX_SECTORS else n) in *. destruct Hchunk as (H8 & Hle & Hcase).
  rewrite (u16_id (chunk * _)) by (unfold DISK_SECTOR_SIZE; lia). unfold DISK_SECTOR_SIZE.
  unfold to_dma_buffer. rewrite modify_bind. set (d0 := put_dma_buffer _ d).
  set (l := take (Z.to_nat (chunk * 512)) buf) in *.
  assert (length l = Z.to_nat (chunk * 512)) as Hl by (unfold l; rewrite length_take; lia).
  assert (drive_of d0 = set_buffer (l ++ drop (length l) (dma_buffer d)) (drive_of d)) as E0 by apply ic_put_buffer.
  destruct (ata_dma_transfer_run fuel lba chunk true d0) as (d1 & H1 & I1 & Im1 & _); [by rewrite E0 | lia | lia | done|].
  rewrite (bind_ret _ _ _ _ _ H1). cbn [negb]. rewrite u32_id, u8_id by lia.
  destruct (IH (lba + chunk) (n - chunk) (drop (Z.to_nat (chunk * 512)) buf) d1) as (d2 & H2 & I2 & Im2);
    [lia.. | done | rewrite length_drop; lia|].
  exists d2. split; [exact H2|]. split; [done|]. intros i. rewrite Im2, Im1, E0. unfold written. cbn [image buffer set_buffer].
  destruct (decide (lba + chunk ≤ i < lba + chunk + (n - chunk))) as [Hi|Hi].
  - rewrite (bool_decide_true (_ ≤ i < _ + (n - chunk))), bool_decide_true by lia. rewrite drop_drop. do 2 f_equal. lia.
  - rewrite (bool_decide_false (_ ≤ i < _ + (n - chunk))) by lia. destruct (decide (lba ≤ i < lba + chunk)) as [Hi2|Hi2].
    + rewrite !bool_decide_true by lia. rewrite drop_app_le by (rewrite Hl; lia).
      rewrite take_app_le by (rewrite length_drop, Hl; lia). unfold l. rewrite skipn_firstn_comm, take_take.
      f_equal. lia.
    + by rewrite !bool_decide_false by lia.
Qed.

(** ** The driver is a block device *)

Definition ata_ok (a : ata D) : Prop :=
  op (drive_of (a_bus a)) = Idle ∧ bm_base_of (ide_dev a) = base ∧ image_ok (image (drive_of (a_bus a))).

Definition ata_sector (a : ata D) : Z → list Z := image (drive_of (a_bus a)).

Lemma ata_read_run (a : ata D) lba n :
  ata_ok a → 0 ≤ lba → lba + n ≤ 0x10000000 → 0 ≤ n < 256 →
  ∃ a', ata_read poll_fuel lba n a = Ret (1, sectors_of (ata_sector a) lba n) a' ∧ ata_ok a' ∧ ata_sector a' = ata_sector a.
Proof.
  intros (Hi & Hb & Him) Hlba Hend Hn. unfold ata_read. rewrite gets_bind, Hb.
  destruct (disk_read_loop_run max_chunks poll_fuel lba n (a_bus a)) as (d' & Hrun & Hi' & Him');
    [exact (le_n _) | done | done | done | unfold max_chunks; lia | done | done|].
  eexists. split; [apply (lift_ret (T := D)), Hrun|].
  split; [|exact Him']. split; [exact Hi'|]. split; [exact Hb|]. cbn. by rewrite Him'.
Qed.

Lemma ata_write_run (a : ata D) lba n buf :
  ata_ok a → 0 ≤ lba → lba + n ≤ 0x10000000 → 0 ≤ n < 256 →
  Z.of_nat (length buf) = n * 512 → Forall is_byte buf →
  ∃ a', ata_write poll_fuel lba buf n a = Ret 1 a' ∧ ata_ok a' ∧
    ∀ i, ata_sector a' i = written (ata_sector a) lba n buf i.
Proof.
  intros (Hi & Hb & Him) Hlba Hend Hn Hlen Hbytes. unfold ata_write. rewrite gets_bind, Hb.
  destruct (disk_write_loop_run max_chunks poll_fuel lba n buf (a_bus a)) as (d' & Hrun & Hi' & Him');
    [exact (le_n _) | done | done | done | unfold max_chunks; lia | done | lia|].
  eexists. split; [apply (lift_ret (T := D)), Hrun|].
  split; [|exact Him']. split; [exact Hi'|]. split; [exact Hb|]. intros i. cbn. rewrite Him'. unfold written.
  case_bool_decide as Hr; [|apply Him]. split; [rewrite length_take, length_drop; lia|].
  by apply Forall_take, Forall_drop.
Qed.

#[export, refine] Instance ata_disk : BlockDevice (ata D) := {|
  disk_read lba n := ata_read poll_fuel lba n;
  disk_ok := ata_ok;
  sector := ata_sector;
|}.
Proof.
  - intros a n (_ & _ & Him). apply Him.
  - intros a lba n Ha Hl He Hn. destruct (ata_read_run a lba n Ha Hl He ltac:(lia)) as (a' & Hrun & Ha' & Hs).
    exists a'. by split.
Defined.

(** The device that [init_disk] gives the driver, when its bus-master registers are
    the controller's. *)
Lemma ata_attach_run (a : ata D) dev :
  op (drive_of (a_bus a)) = Idle → image_ok (image (drive_of (a_bus a))) → bm_base_of dev = base →
  ∃ a', ata_attach dev a = Ret tt a' ∧ ata_ok a' ∧ ata_sector a' = ata_sector a.
Proof.
  intros Hi Him Hb. destruct base_ports as (_ & _ & _ & Hbase).
  assert (drive_after base (u16 ATA_PRIMARY_CONTROL_REGISTER) (u8 0) (drive_of (a_bus a)) = Some (drive_of (a_bus a))) as Hd.
  { unfold drive_after. rewrite bool_decide_false by (rewrite Hi; auto).
    change (u16 ATA_PRIMARY_CONTROL_REGISTER) with 0x3f6. by rewrite !(proj2 (Z.eqb_neq 0x3f6 _)) by lia. }
  destruct (outb_run _ _ _ _ Hd) as (d' & Hrun & Hd' & _). unfold ata_attach. rewrite modify_bind.
  eexists. split; [apply (lift_ret (T := D)), Hrun|]. unfold ata_ok, ata_sector. cbn. by rewrite Hd'.
Qed.

(** C21 (disk, the driver): with a controller that follows its documentation the
    driver is a disk: [disk_write] of any number of sectors below 256 returns 1
    and replaces just these sectors, and [disk_read] returns 1 with their contents
    and changes none; what was written is read back. *)
Theorem disk_write_read (a : ata D) lba n buf :
  ata_ok a → 0 ≤ lba → lba + n ≤ 0x10000000 → 0 ≤ n < 256 →
  Z.of_nat (length buf) = n * 512 → Forall is_byte buf →
  ∃ a1 a2, ata_write poll_fuel lba buf n a = Ret 1 a1 ∧ ata_read poll_fuel lba n a1 = Ret (1, buf) a2 ∧
    ata_ok a2 ∧ (∀ i, ¬ lba ≤ i < lba + n → ata_sector a2 i = ata_sector a i).
Proof.
  intros Ha Hl He Hn Hlen Hb. destruct (ata_write_run a lba n buf Ha Hl He Hn Hlen Hb) as (a1 & Hw & Ha1 & Hs1).
  destruct (ata_read_run a1 lba n Ha1 Hl He Hn) as (a2 & Hr & Ha2 & Hs2). exists a1, a2. split; [exact Hw|].
  assert (∀ im m, 0 ≤ m → (∀ i, lba ≤ i < lba + m → im i = take 512 (drop (Z.to_nat ((i - lba) * 512)) buf)) →
    m * 512 ≤ Z.of_nat (length buf) → sectors_of im lba m = take (Z.to_nat (m * 512)) buf) as Hsec.
  { intros im. refine (natlike_ind _ _ _); [done|]. intros m Hm IH Him Hle. unfold Z.succ.
    rewrite sectors_of_app, IH, sectors_of_one by (done || lia || (intros; apply Him; lia)).
    rewrite Him by lia. replace (lba + m - lba) with m by lia.
    replace (Z.to_nat ((m + 1) * 512)) with (Z.to_nat (m * 512) + 512)%nat by lia.
    by rewrite take_take_drop. }
  rewrite (Hsec _ n) in Hr; [|lia| |lia].
  - rewrite take_ge in Hr by lia. split; [exact Hr|]. split; [exact Ha2|]. intros i Hi. rewrite Hs2, Hs1. unfold written.
    by rewrite bool_decide_false.
  - intros i Hi. rewrite Hs1. unfold written. by rewrite bool_decide_true.
Qed.
End driver.

(** ** A controller for the witnesses

    The operation is over when a port is read; every reading of the timer is a
    tick later. *)

Record toy := Toy { toy_drive : drive; toy_ticks : nat }.

#[local] Existing Instance sample_layout.

Definition toy_base : Z := 0xc000.

Definition toy_status (p : Z) (dr : drive) : Z := if (p =? toy_base + 2) && completed dr then 4 else 0.

#[export] Instance toy_bus : Bus toy := {|
  in8 p d := (toy_status p (finish (toy_drive d)), Toy (finish (toy_drive d)) (toy_ticks d));
  in16 p d := (0, d);
  in32 p d := (0, d);
  out8 p v d := Toy (default (toy_drive d) (drive_after toy_base p v (toy_drive d))) (toy_ticks d);
  out16 p v d := d;
  out32 p v d := if p =? toy_base + 4 then Toy (set_bm_prdt v (toy_drive d)) (toy_ticks d) else d;
|}.
#[export] Instance toy_dma : Dma toy := {|
  dma_buffer d := buffer (toy_drive d);
  put_dma_buffer l d := Toy (set_buffer l (toy_drive d)) (toy_ticks d);
  primary_prdt d := prd (toy_drive d);
  put_primary_prdt e d := Toy (set_prd e (toy_drive d)) (toy_ticks d);
|}.
#[export] Instance toy_clock : Clock toy := {|
  tick_read d := (Z.of_nat (S (toy_ticks d)), Toy (toy_drive d) (S (toy_ticks d)));
|}.

#[export, refine] Instance toy_runs : RunningClock toy := {|
  ticks d := Z.of_nat (toy_ticks d); stride := 1; patience _ := 0%nat; max_patience := 0%nat;
|}.
Proof. all: intros; cbn [tick_read toy_clock in8 toy_bus fst snd toy_ticks]; lia || (split; lia). Defined.

#[export, refine] Instance toy_controller : IdeController toy toy_base := {|
  drive_of := toy_drive;
  due _ := 0;
|}.
Proof.
  - done.
  - done.
  - done.
  - done.
  - done.
  - done.
  - intros p v d dr Hd. cbn [out8 toy_bus toy_drive]. rewrite Hd. split; [done|]. cbn [ticks toy_runs toy_ticks]. lia.
  - intros v d Hd. cbn [out32 toy_bus]. by rewrite Z.eqb_refl.
  - intros p d Hp. cbn [in8 toy_bus fst snd toy_drive]. pose proof (finish_idle (toy_drive d)) as Hi. split.
    + split; intros ->.
      * split; [done|]. split; [done|]. by rewrite Hi.
      * unfold toy_status. rewrite Z.eqb_refl. by destruct (completed (finish (toy_drive d))).
    + destruct (decide (op (toy_drive d) = Idle)) as [E|E]; [left | by right].
      unfold finish. by rewrite E.
  - intros p d. cbn [in8 toy_bus fst]. unfold toy_status. by destruct (_ && _).
Defined.

Definition toy_device : pci_device_t :=
  PciDevice 0 1 1 (PciCfg 0x8086 0x7010 0x5 0 0 0x80 1 1 [0; 0; 0; 0; 0xc001; 0]).
Definition toy_disk : ata toy :=
  Ata (Toy (Drive ∅ 0 0 Idle false (λ _, replicate 512 0) (replicate 4096 0) (Prdt 0 0 0)) 0) toy_device.

Lemma toy_disk_ok : ata_ok toy_base toy_disk.
Proof.
  split; [done|]. split; [done|]. intros i. cbn [toy_disk a_bus drive_of toy_controller toy_drive image].
  split; [exact (length_replicate 512 0)|]. apply Forall_replicate. unfold is_byte. lia.
Qed.

Lemma disk_returns_witness :
  ∃ r a', ata_write poll_fuel 7 (replicate 1536 0) 3 toy_disk = Ret r a' ∧ (r = 0 ∨ r = 1).
Proof. exact (proj2 (disk_returns toy_disk 7 3 (replicate 1536 0) ltac:(lia))). Defined.

Lemma disk_write_read_witness :
  ∃ a1 a2, ata_write poll_fuel 5 (replicate 512 7) 1 toy_disk = Ret 1 a1 ∧
    ata_read poll_fuel 5 1 a1 = Ret (1, replicate 512 7) a2 ∧ ata_sector toy_base a2 6 = replicate 512 0.
Proof.
  assert (Forall is_byte (replicate 512 7)) as Hb by (apply Forall_replicate; unfold is_byte; lia).
  assert (Z.of_nat (length (replicate 512 7)) = 1 * 512) as Hl by (rewrite length_replicate; reflexivity).
  destruct (disk_write_read toy_base toy_disk 5 1 (replicate 512 7) toy_disk_ok ltac:(lia) ltac:(lia) ltac:(lia) Hl Hb)
    as (a1 & a2 & Hw & Hr & _ & Hs).
  exists a1, a2. split; [exact Hw|]. split; [exact Hr|]. exact (Hs 6 ltac:(lia)).
Defined.
