(* ===== verification/Paths.v ===== *)
(** * Path names (src/kernel/fs.c)

    [split_path] cuts a path into the rows of a fixed array of 32 names, and
    [name_equal] compares a name with a directory entry's.  The second part
    gives the meaning of both: the parts of the path between slashes, and
    equality of C strings. *)

From S2P Require Import Prelude.

(** ** The code *)

Definition PATH_COMPONENTS : nat := 32.
Definition MINIX_MAX_NAME_LENGTH : nat := 30.

Definition byte_at (l : list Z) (i : nat) : Z := nth i l 0.

Definition SLASH : Z := 47.

Abbreviation components_t := (list (list Z)).

(** [components[name_i][char_i] = c]: a subscript outside the row is a fault, though
    the byte may still be one of the array, in a later row. *)
Definition put_component (name_i char_i c : Z) : M components_t unit := λ cs,
  match cs !! Z.to_nat name_i with
  | Some row =>
      if in_array row char_i
      then Ret tt (<[Z.to_nat name_i := <[Z.to_nat char_i := c]> row]> cs)
      else Fault OutOfBounds cs
  | None => Fault OutOfBounds cs
  end.

Fixpoint skip_slashes (path : list Z) : list Z :=
  match path with
  | c :: path' => if c =? SLASH then skip_slashes path' else path
  | [] => []
  end.

(** Copies up to the next slash; what is left of the path, and [char_i]. *)
Fixpoint copy_component (name_i char_i : Z) (path : list Z) : M components_t (list Z * Z) :=
  match path with
  | [] => mret ([], char_i)
  | c :: path' =>
      if c =? SLASH then mret (path, char_i)
      else
        put_component name_i char_i c;;
        copy_component name_i (char_i + 1) path'
  end.

Fixpoint split_path_loop (fuel : nat) (name_i : Z) (path : list Z) : M components_t Z :=
  match fuel with
  | O => fail NoFuel
  | S fuel =>
      match path with
      | [] => mret name_i
      | _ :: _ =>
          match skip_slashes path with
          | [] => mret name_i
          | rest =>
              '(rest, char_i) ← copy_component name_i 0 rest;
              put_component name_i char_i 0;;
              split_path_loop fuel (name_i + 1) rest
          end
      end
  end.

(** [path] is a C string, [None] the null pointer. *)
Definition split_path (path : option (list Z)) : M components_t Z :=
  match path with
  | Some (c :: path') =>
      if c =? SLASH then split_path_loop (S (length (c :: path'))) 0 (c :: path') else mret 0
  | _ => mret 0
  end.

Definition fresh_components : components_t := replicate PATH_COMPONENTS (replicate (MINIX_MAX_NAME_LENGTH + 1) 0).

(** The loop of [name_equal] from [i] on, [n] more characters to compare. *)
Fixpoint name_equal_from (n i : nat) (name1 name2 : list Z) : bool :=
  match n with
  | O => false
  | S n =>
      if negb (byte_at name1 i =? byte_at name2 i) then false
      else if byte_at name1 i =? 0 then byte_at name2 i =? 0
      else name_equal_from n (S i) name1 name2
  end.

Definition name_equal (name1 name2 : list Z) : bool := name_equal_from (MINIX_MAX_NAME_LENGTH + 1) 0 name1 name2.

(** ** Names *)

(** The string that an array of characters holds. *)
Fixpoint cstr (l : list Z) : list Z :=
  match l with
  | [] => []
  | c :: l => if c =? 0 then [] else c :: cstr l
  end.

(** The non-empty parts of a path between slashes; [cur] is the part at hand. *)
Fixpoint split_names (cur path : list Z) : list (list Z) :=
  match path with
  | [] => if decide (cur = []) then [] else [cur]
  | c :: path =>
      if c =? SLASH then
        if decide (cur = []) then split_names [] path else cur :: split_names [] path
      else split_names (cur ++ [c]) path
  end.

(** The first part of a path that does not start with a slash, and the rest. *)
Fixpoint span_name (path : list Z) : list Z * list Z :=
  match path with
  | [] => ([], [])
  | c :: path' =>
      if c =? SLASH then ([], path) else let '(name, rest) := span_name path' in (c :: name, rest)
  end.

(** The array can hold the names from row [i] on. *)
Definition fits (i : Z) (names : list (list Z)) : bool :=
  (i + Z.of_nat (length names) <=? 32) && forallb (λ n, Nat.leb (length n) 30) names.

Definition rows_ok (cs : components_t) : Prop :=
  length cs = 32%nat ∧ Forall (λ row : list Z, length row = 31%nat) cs.

Lemma name_equal_from_cstr n i l1 l2 :
  (length (cstr (drop i l1)) < n)%nat →
  name_equal_from n i l1 l2 = bool_decide (cstr (drop i l1) = cstr (drop i l2)).
Proof.
  revert i. induction n as [|n IH]; intros i Hn; [lia|]. cbn [name_equal_from].
  assert (∀ l : list Z, cstr (drop i l) =
    if byte_at l i =? 0 then [] else byte_at l i :: cstr (drop (S i) l)) as E.
  { intros l. unfold byte_at. rewrite nth_lookup. destruct (l !! i) as [c|] eqn:Hl.
    - by rewrite (drop_S _ _ _ Hl).
    - apply lookup_ge_None_1 in Hl. by rewrite drop_ge. }
  rewrite !E in *. destruct (Z.eqb_spec (byte_at l1 i) (byte_at l2 i)) as [<-|Hne]; simpl.
  - destruct (byte_at l1 i =? 0) eqn:Hz; [done|]. simpl in Hn. rewrite IH by lia.
    apply bool_decide_ext. split; [by intros -> | by intros [= ->]].
  - symmetry. apply bool_decide_eq_false.
    destruct (Z.eqb_spec (byte_at l1 i) 0), (Z.eqb_spec (byte_at l2 i) 0); congruence.
Qed.

Lemma split_names_span cur path :
  Forall (λ c, c ≠ SLASH) cur →
  split_names cur path =
    if decide (cur ++ (span_name path).1 = []) then split_names [] (drop 1 (span_name path).2)
    else (cur ++ (span_name path).1) :: split_names [] (span_name path).2.
Proof.
  revert cur. induction path as [|c path IH]; intros cur Hcur; simpl.
  - rewrite app_nil_r. by case_decide.
  - destruct (Z.eqb_spec c SLASH) as [->|Hc]; simpl.
    + rewrite app_nil_r. by case_decide.
    + rewrite IH by (apply Forall_app; split; [done | by apply Forall_singleton]).
      destruct (span_name path) as [name rest]. simpl. by rewrite <-app_assoc.
Qed.

Lemma split_names_skip path : split_names [] path = split_names [] (skip_slashes path).
Proof.
  induction path as [|c path IH]; simpl; [done|].
  destruct (Z.eqb_spec c SLASH) as [->|Hc]; [exact IH|].
  simpl. by rewrite (proj2 (Z.eqb_neq _ _)).
Qed.

Lemma skip_slashes_length path : (length (skip_slashes path) ≤ length path)%nat.
Proof. induction path as [|c path]; simpl; [done|]. case_match; simpl; lia. Qed.

Lemma skip_slashes_cons path c rest : skip_slashes path = c :: rest → c ≠ SLASH.
Proof.
  induction path as [|c' path IH]; simpl; [done|].
  destruct (Z.eqb_spec c' SLASH); [done|]. by intros [= -> _].
Qed.

Lemma span_name_length path : (length (span_name path).1 + length (span_name path).2 = length path)%nat.
Proof.
  induction path as [|c path IH]; simpl; [done|].
  destruct (c =? SLASH); simpl; [done|]. destruct (span_name path). simpl in *. lia.
Qed.

Lemma put_component_run cs i row j c :
  cs !! Z.to_nat i = Some row → 0 ≤ j < Z.of_nat (length row) →
  put_component i j c cs = Ret tt (<[Z.to_nat i := <[Z.to_nat j := c]> row]> cs).
Proof.
  intros Hr Hj. unfold put_component, in_array. rewrite Hr.
  by rewrite (proj2 (Z.leb_le _ _)), (proj2 (Z.ltb_lt _ _)) by lia.
Qed.

Lemma put_component_fault cs i j c :
  (∀ row, cs !! Z.to_nat i = Some row → Z.of_nat (length row) ≤ j) →
  put_component i j c cs = Fault OutOfBounds cs.
Proof.
  intros Hr. unfold put_component, in_array. destruct (cs !! Z.to_nat i) as [row|]; [|done].
  by rewrite (proj2 (Z.ltb_ge _ _)), andb_false_r by auto.
Qed.

Lemma rows_ok_insert cs i row : rows_ok cs → length row = 31%nat → rows_ok (<[i := row]> cs).
Proof. intros [Hl Hf] Hr. split; [by rewrite length_insert|]. by apply Forall_insert. Qed.

Lemma rows_ok_row cs i : rows_ok cs → (i < 32)%nat → ∃ row, cs !! i = Some row ∧ length row = 31%nat.
Proof.
  intros [Hl Hf] Hi. destruct (lookup_lt_is_Some_2 cs i) as [row Hrow]; [lia|].
  exists row. split; [done|]. by apply (Forall_lookup_1 _ _ _ _ Hf Hrow).
Qed.

Lemma copy_component_run path i j cs row :
  rows_ok cs → 0 ≤ i → cs !! Z.to_nat i = Some row → 0 ≤ j →
  j + Z.of_nat (length (span_name path).1) ≤ 31 →
  ∃ row', copy_component i j path cs =
      Ret ((span_name path).2, j + Z.of_nat (length (span_name path).1)) (<[Z.to_nat i := row']> cs) ∧
    length row' = 31%nat ∧
    take (Z.to_nat j + length (span_name path).1) row' = take (Z.to_nat j) row ++ (span_name path).1.
Proof.
  revert j cs row. induction path as [|c path IH]; intros j cs row Hcs Hi Hrow Hj Hlen; simpl in *.
  - exists row. rewrite list_insert_id, Z.add_0_r, Nat.add_0_r, app_nil_r by done.
    destruct Hcs as [_ Hf]. split_and!; [done | by apply (Forall_lookup_1 _ _ _ _ Hf Hrow) | done].
  - destruct (c =? SLASH); simpl in *.
    { exists row. rewrite list_insert_id, Z.add_0_r, Nat.add_0_r, app_nil_r by done.
      destruct Hcs as [_ Hf]. split_and!; [done | by apply (Forall_lookup_1 _ _ _ _ Hf Hrow) | done]. }
    destruct (span_name path) as [name rest] eqn:E. simpl in *.
    assert (length row = 31%nat) as Hl by (destruct Hcs as [_ Hf]; by apply (Forall_lookup_1 _ _ _ _ Hf Hrow)).
    erewrite bind_ret; [|by apply put_component_run; [|rewrite Hl; lia]].
    set (row1 := <[Z.to_nat j := c]> row).
    assert (length row1 = 31%nat) as Hl1 by (unfold row1; by rewrite length_insert).
    destruct (IH (j + 1) (<[Z.to_nat i := row1]> cs) row1) as (row' & Hrun & Hl' & Htake).
    + by apply rows_ok_insert.
    + done.
    + apply list_lookup_insert_eq. by eapply lookup_lt_Some.
    + lia.
    + lia.
    + exists row'. rewrite Hrun. rewrite list_insert_insert_eq. split_and!; [|done|].
      * do 2 f_equal. lia.
      * replace (Z.to_nat j + S (length name))%nat with (Z.to_nat (j + 1) + length name)%nat by lia.
        rewrite Htake. replace (Z.to_nat (j + 1)) with (S (Z.to_nat j)) by lia.
        unfold row1. rewrite (take_S_r _ _ c), take_insert_ge, <-app_assoc; [done | lia |].
        apply list_lookup_insert_eq. lia.
Qed.

Lemma copy_component_fault path i j cs :
  rows_ok cs → 0 ≤ i → 0 ≤ j ≤ 31 →
  31 < j + Z.of_nat (length (span_name path).1) ∨ (32 ≤ i ∧ (span_name path).1 ≠ []) →
  ∃ cs', copy_component i j path cs = Fault OutOfBounds cs'.
Proof.
  revert j cs. induction path as [|c path IH]; intros j cs Hcs Hi Hj Hlen; simpl in *.
  { destruct Hlen as [|[_ ?]]; [lia | done]. }
  destruct (c =? SLASH); simpl in *.
  { destruct Hlen as [|[_ ?]]; [lia | done]. }
  destruct (span_name path) as [name rest] eqn:E. simpl in *.
  destruct (decide (i < 32)) as [Hi32|Hi32].
  - destruct (rows_ok_row cs (Z.to_nat i) Hcs) as (row & Hrow & Hl); [lia|].
    destruct (decide (j = 31)) as [->|].
    + exists cs. erewrite bind_fault; [done|]. apply put_component_fault.
      intros row' Hrow'. assert (row' = row) as -> by congruence. lia.
    + erewrite bind_ret; [|by apply put_component_run; [|rewrite Hl; lia]].
      apply IH; [by apply rows_ok_insert; [|rewrite length_insert] | done | lia | left; lia].
  - exists cs. erewrite bind_fault; [done|]. apply put_component_fault.
    intros row' Hrow'%lookup_lt_Some. destruct Hcs as [Hl _]. lia.
Qed.

Lemma cstr_app_nul l l' : Forall (λ c, c ≠ 0) l → cstr (l ++ 0 :: l') = l.
Proof.
  induction 1 as [|c l Hc Hl IH]; [done|]. simpl. by rewrite (proj2 (Z.eqb_neq _ _)), IH.
Qed.

Lemma span_name_nonzero path :
  Forall (λ c, c ≠ 0) path →
  Forall (λ c, c ≠ 0) (span_name path).1 ∧ Forall (λ c, c ≠ 0) (span_name path).2.
Proof.
  induction 1 as [|c path Hc Hp IH]; simpl; [done|]. case_match; simpl.
  - split; [done | by constructor].
  - destruct (span_name path). simpl in *. split; [constructor|]; tauto.
Qed.

Lemma skip_slashes_nonzero path :
  Forall (λ c, c ≠ 0) path → Forall (λ c, c ≠ 0) (skip_slashes path).
Proof. induction 1; simpl; [done|]. case_match; [done | by constructor]. Qed.

(** Cutting one name off. *)
Lemma split_names_step path c p :
  skip_slashes path = c :: p →
  split_names [] path = (span_name (c :: p)).1 :: split_names [] (span_name (c :: p)).2 ∧
  (span_name (c :: p)).1 ≠ [].
Proof.
  intros E. rewrite split_names_skip, E, split_names_span by done. simpl app.
  apply skip_slashes_cons, Z.eqb_neq in E.
  assert ((span_name (c :: p)).1 ≠ []) as Hne by (simpl; rewrite E; by destruct (span_name p)).
  by rewrite decide_False.
Qed.

(** What the loop has stored: the rows below [i] as before, then the names. *)
Definition stored (i : nat) (names : list (list Z)) (cs cs' : components_t) : Prop :=
  rows_ok cs' ∧ (∀ k, (k < i)%nat → cs' !! k = cs !! k) ∧
  ∀ k name, names !! k = Some name → ∃ row, cs' !! (i + k)%nat = Some row ∧ cstr row = name.

Lemma fits_cons i name names :
  fits i (name :: names) = (i <? 32) && (Nat.leb (length name) 30) && fits (i + 1) names.
Proof.
  unfold fits. simpl length. simpl forallb.
  destruct (Z.leb_spec (i + Z.of_nat (S (length names))) 32),
    (Z.leb_spec (i + 1 + Z.of_nat (length names)) 32), (Z.ltb_spec i 32); try lia;
    by destruct (Nat.leb (length name) 30).
Qed.

(** One round of the loop on a path whose next name is [name]. *)
Lemma store_name_run i name rest path cs :
  rows_ok cs → 0 ≤ i → span_name path = (name, rest) → name ≠ [] → Forall (λ c, c ≠ 0) name →
  if (i <? 32) && (Nat.leb (length name) 30) then
    ∃ row cs', ('(rest, char_i) ← copy_component i 0 path;
                put_component i char_i 0;; mret rest) cs = Ret rest cs' ∧
      cs' = <[Z.to_nat i := row]> cs ∧ rows_ok cs' ∧ cstr row = name
  else
    ∃ cs', ('(rest, char_i) ← copy_component i 0 path;
            put_component i char_i 0;; mret rest) cs = Fault OutOfBounds cs'.
Proof.
  intros Hcs Hi Hspan Hne Hnz.
  destruct (Z.ltb_spec i 32) as [Hi32|Hi32]; simpl.
  2: { destruct (copy_component_fault path i 0 cs) as (cs' & Hf); [done..| lia | rewrite Hspan; auto |].
       exists cs'. by rewrite (bind_fault _ _ _ _ _ Hf). }
  destruct (rows_ok_row cs (Z.to_nat i) Hcs) as (row & Hrow & Hl); [lia|].
  destruct (decide (length name ≤ 31)%nat) as [H31|H31].
  2: { rewrite (proj2 (Nat.leb_gt _ _)) by lia.
       destruct (copy_component_fault path i 0 cs) as (cs' & Hf);
         [done..| lia | rewrite Hspan; simpl; lia |].
       exists cs'. by rewrite (bind_fault _ _ _ _ _ Hf). }
  destruct (copy_component_run path i 0 cs row) as (row' & Hrun & Hl' & Htake);
    [done..| rewrite Hspan; simpl; lia |].
  rewrite Hspan in Hrun, Htake. simpl in Hrun, Htake. rewrite (bind_ret _ _ _ _ _ Hrun).
  assert (<[Z.to_nat i:=row']> cs !! Z.to_nat i = Some row') as Hrow'
    by (apply list_lookup_insert_eq; by eapply lookup_lt_Some).
  destruct (Nat.leb_spec (length name) 30) as [H30|H30].
  - erewrite bind_ret; [|by apply put_component_run; [|rewrite Hl'; lia]].
    eexists _, _. split; [done|]. rewrite list_insert_insert_eq. split; [done|]. split.
    + apply rows_ok_insert; [done | by rewrite length_insert].
    + rewrite Z.add_0_l, Nat2Z.id, insert_take_drop, Htake by lia. by apply cstr_app_nul.
  - eexists. erewrite bind_fault; [done|]. apply put_component_fault.
    intros row0 Hrow0. assert (row0 = row') as -> by congruence. lia.
Qed.

Lemma split_path_loop_run fuel i path cs :
  rows_ok cs → 0 ≤ i → Forall (λ c, c ≠ 0) path → (length path < fuel)%nat →
  if fits i (split_names [] path) then
    ∃ cs', split_path_loop fuel i path cs =
        Ret (i + Z.of_nat (length (split_names [] path))) cs' ∧
      stored (Z.to_nat i) (split_names [] path) cs cs'
  else i ≤ 32 → ∃ cs', split_path_loop fuel i path cs = Fault OutOfBounds cs'.
Proof.
  revert i path cs. induction fuel as [|fuel IH]; intros i path cs Hcs Hi Hnz Hfuel; [lia|].
  cbn [split_path_loop].
  assert (∀ ns, ns = [] → if fits i ns then ∃ cs', Ret i cs = Ret (i + Z.of_nat (length ns)) cs' ∧
      stored (Z.to_nat i) ns cs cs'
    else i ≤ 32 → ∃ cs', Ret i cs = Fault OutOfBounds cs' :> res components_t Z) as Hend.
  { intros ns ->. unfold fits. simpl. rewrite andb_true_r, Z.add_0_r.
    destruct (Z.leb_spec i 32); [|lia]. exists cs. split; [done|]. by split_and!. }
  destruct path as [|c0 p0] eqn:Hpath; [by apply Hend|]. rewrite <-Hpath in *.
  destruct (skip_slashes path) as [|c p] eqn:Hskip.
  { apply Hend. by rewrite split_names_skip, Hskip. }
  destruct (split_names_step path c p Hskip) as [-> Hne].
  destruct (span_name_nonzero (c :: p)) as [Hn1 Hn2].
  { rewrite <-Hskip. by apply skip_slashes_nonzero. }
  pose proof (span_name_length (c :: p)) as Hlen. pose proof (skip_slashes_length path) as Hlen'.
  rewrite Hskip in Hlen'. destruct (span_name (c :: p)) as [name rest] eqn:Hspan. simpl fst in *. simpl snd in *.
  assert (length rest < fuel)%nat as Hfuel' by (destruct name; [done | simpl in *; lia]).
  pose proof (store_name_run i name rest (c :: p) cs Hcs Hi Hspan Hne Hn1) as Hstore.
  rewrite fits_cons. destruct ((i <? 32) && Nat.leb (length name) 30) eqn:Hfit; simpl andb.
  - destruct Hstore as (row & cs1 & Hrun & -> & Hok1 & Hrow).
    assert (('(rest, char_i) ← copy_component i 0 (c :: p); put_component i char_i 0;;
      split_path_loop fuel (i + 1) rest) cs =
      split_path_loop fuel (i + 1) rest (<[Z.to_nat i := row]> cs)) as ->.
    { revert Hrun. unfold mbind, M_bind, mret, M_ret.
      destruct (copy_component i 0 (c :: p) cs) as [[r ci] s1|]; [|done].
      destruct (put_component i ci 0 s1); [|done]. by intros [= -> ->]. }
    specialize (IH (i + 1) rest (<[Z.to_nat i := row]> cs) Hok1 ltac:(lia) Hn2 Hfuel').
    apply andb_prop in Hfit as [Hi32%Z.ltb_lt _].
    destruct (fits (i + 1) (split_names [] rest)); [|intros _; apply IH; lia].
    destruct IH as (cs' & Hrun' & Hok' & Hbelow & Hnames). exists cs'.
    rewrite Hrun'. split; [f_equal; simpl length; lia|]. split; [done|]. split.
    + intros k Hk. rewrite Hbelow by lia. apply list_lookup_insert_ne. lia.
    + intros [|k] name0 Hk; simpl in Hk.
      * injection Hk as <-. exists row. split; [|done]. rewrite Nat.add_0_r, Hbelow by lia.
        apply list_lookup_insert_eq. destruct Hcs as [Hl _]. lia.
      * destruct (Hnames k name0 Hk) as (row0 & Hrow0 & ?). exists row0. split; [|done].
        rewrite <-Hrow0. f_equal. lia.
  - intros _. destruct Hstore as (cs1 & Hrun). exists cs1. revert Hrun.
    unfold mbind, M_bind, mret, M_ret.
    destruct (copy_component i 0 (c :: p) cs) as [[r ci] s1|]; [|by intros [= -> ->]].
    destruct (put_component i ci 0 s1); [done|]. by intros [= -> ->].
Qed.

Lemma stored_names names cs cs' : stored 0 names cs cs' → cstr <$> take (length names) cs' = names.
Proof.
  intros ((Hl & _) & _ & Hn). apply list_eq. intros k.
  rewrite list_lookup_fmap. destruct (names !! k) as [name|] eqn:E.
  - destruct (Hn k name E) as (row & Hrow & Hc). simpl in Hrow.
    apply lookup_lt_Some in E. by rewrite lookup_take_lt, Hrow, <-Hc by done.
  - apply lookup_ge_None_1 in E. rewrite lookup_take_ge by done. done.
Qed.

Lemma fresh_components_ok : rows_ok fresh_components.
Proof.
  split; [done|]. apply Forall_replicate. done.
Qed.

(** ** Properties *)

(** C40 (paths, [split_path]): for an absolute path of at most 32 names of at most
    30 characters each, the rows hold the names between the slashes, in order; for
    any other absolute path the function uses a subscript outside the row, or the
    number of rows, of [components] (a long name in a row before the last one then
    runs into the rows after it). *)
Theorem split_path_correct path :
  Forall (λ c, c ≠ 0) path → head path = Some SLASH →
  let names := split_names [] path in
  if fits 0 names then
    ∃ cs, split_path (Some path) fresh_components = Ret (Z.of_nat (length names)) cs ∧
          rows_ok cs ∧ cstr <$> take (length names) cs = names
  else ∃ cs, split_path (Some path) fresh_components = Fault OutOfBounds cs.
Proof.
  intros Hnz Hhead names. destruct path as [|c p]; [done|]. injection Hhead as ->.
  pose proof (split_path_loop_run (S (length (SLASH :: p))) 0 (SLASH :: p) fresh_components
    fresh_components_ok ltac:(lia) Hnz ltac:(lia)) as Hrun.
  unfold split_path. rewrite Z.eqb_refl. fold names in Hrun.
  destruct (fits 0 names); [|apply Hrun; lia].
  destruct Hrun as (cs & Hr & Hst). exists cs. split; [done|].
  split; [apply Hst | by eapply stored_names].
Qed.

Lemma split_path_correct_witness :
  (∃ cs, split_path (Some (bytes_of "//bin/potatoshell/")) fresh_components = Ret 2 cs ∧
     rows_ok cs ∧ cstr <$> take 2 cs = [bytes_of "bin"; bytes_of "potatoshell"]) ∧
  ∃ cs, split_path (Some (bytes_of "/a-name-of-more-than-thirty-characters"))
          fresh_components = Fault OutOfBounds cs.
Proof.
  split.
  - apply (split_path_correct (bytes_of "//bin/potatoshell/")); [|reflexivity].
    decided.
  - apply (split_path_correct (bytes_of "/a-name-of-more-than-thirty-characters")); [|reflexivity].
    decided.
Defined.
