(* ===== verification/Fs.v ===== *)
(** * The file system (src/kernel/fs.c)

    A Minix version 1 file system, read-only, on a block device.  The first part
    is the code on inode and file values (the objects that hold them are in
    Files.v); the second says what an image contains; the third relates them. *)

From S2P Require Import Prelude BlockDevice Paths.

(** ** The code *)

Definition FILE_SYSTEM_BASE_SECTOR : Z := 2048.
Definition FS_BLOCK_SIZE : Z := 1024.
Definition SECTORS_PER_BLOCK : Z := 2.
Definition INODES_PER_BLOCK : Z := 32.
Definition DIRECT_ZONES : Z := 7.
Definition INDIRECT_ZONE_INDEX : nat := 7.
Definition DOUBLE_INDIRECT_ZONE_INDEX : nat := 8.
Definition POINTERS_PER_ZONE : Z := 512.
Definition MINIX_ROOT_INODE : Z := 1.
Definition MINIX_MODE_MASK : Z := 0xf000.
Definition MINIX_MODE_DIRECTORY : Z := 0x4000.

Record minix_inode_t := Inode {
  i_mode : Z; i_uid : Z; i_size : Z; i_time : Z; i_gid : Z; i_nlinks : Z; i_zone : list Z;
}.

(** Little-endian fields of a packed structure. *)
Definition le16 (l : list Z) (i : nat) : Z := byte_at l i + 256 * byte_at l (i + 1).
Definition le32 (l : list Z) (i : nat) : Z := le16 l i + 0x10000 * le16 l (i + 2).

Definition inode_of_bytes (l : list Z) : minix_inode_t :=
  Inode (le16 l 0) (le16 l 2) (le32 l 4) (le32 l 8) (byte_at l 12) (byte_at l 13)
        ((λ k, le16 l (14 + 2 * k)) <$> seq 0 9).

(** [memcpy(_, buf + off, n)] from an array. *)
Definition slice {S} (buf : list Z) (off n : Z) : M S (list Z) :=
  if (0 <=? off) && (off + n <=? Z.of_nat (length buf))
  then mret (take (Z.to_nat n) (drop (Z.to_nat off) buf))
  else fail OutOfBounds.

Record fs (B : Type) := Fs { super_block_buf : list Z; fs_dev : B }.
Arguments Fs {B} _ _.
Arguments super_block_buf {B} _.
Arguments fs_dev {B} _.

#[export, refine] Instance Has_fs_dev B : Has B (fs B) :=
  {| part := fs_dev; set_part b s := Fs (super_block_buf s) b |}.
Proof. all: by try intros []. Defined.

Definition s_imap_blocks (super : list Z) : Z := le16 super 4.
Definition s_zmap_blocks (super : list Z) : Z := le16 super 6.

Section code.
Context {B : Type} `{!BlockDevice B}.

Definition read_block (block_idx : Z) : M (fs B) (Z * list Z) :=
  let lba := FILE_SYSTEM_BASE_SECTOR +ᵤ (block_idx *ᵤ SECTORS_PER_BLOCK) in
  lift (disk_read lba SECTORS_PER_BLOCK).

(** [init_fs] without its console messages; [false] when the read fails. *)
Definition init_fs_super : M (fs B) bool :=
  let super_block_lba := FILE_SYSTEM_BASE_SECTOR + 2 in
  '(ok, bytes) ← lift (disk_read super_block_lba SECTORS_PER_BLOCK);
  if ok =? 0 then mret false
  else modify (λ s, Fs bytes (fs_dev s));; mret true.

Definition read_inode (inode_num : Z) : M (fs B) (option minix_inode_t) :=
  super ← gets super_block_buf;
  let inode_idx := u16 (inode_num - 1) in
  let block_idx := 2 +ᵤ s_imap_blocks super +ᵤ s_zmap_blocks super
                   +ᵤ (inode_idx `div` INODES_PER_BLOCK) in
  let inode_offset := (inode_idx mod INODES_PER_BLOCK) * 32 in
  '(ok, block_buf) ← read_block block_idx;
  if ok =? 0 then mret None
  else
    bytes ← slice block_buf inode_offset 32;
    mret (Some (inode_of_bytes bytes)).

(** [block_buf] is read as an array of 512 [uint16_t]. *)
Definition read_zone_indirect_pointer (indirect_zone idx : Z) : M (fs B) (option Z) :=
  '(ok, block_buf) ← read_block indirect_zone;
  if ok =? 0 then mret None
  else
    bytes ← slice block_buf (2 * idx) 2;
    mret (Some (le16 bytes 0)).

Definition map_file_block (inode : minix_inode_t) (zone_idx : Z) : M (fs B) (option Z) :=
  zone ←
    if zone_idx <? DIRECT_ZONES then
      z ← nth_or (i_zone inode) zone_idx; mret (Some z)
    else if zone_idx -ᵤ DIRECT_ZONES <? POINTERS_PER_ZONE then
      let indirect_zone := nth INDIRECT_ZONE_INDEX (i_zone inode) 0 in
      read_zone_indirect_pointer indirect_zone (zone_idx -ᵤ DIRECT_ZONES)
    else if zone_idx -ᵤ DIRECT_ZONES -ᵤ POINTERS_PER_ZONE
              <? POINTERS_PER_ZONE * POINTERS_PER_ZONE then
      let lvl1_zone := nth DOUBLE_INDIRECT_ZONE_INDEX (i_zone inode) 0 in
      let lvl1_idx := (zone_idx -ᵤ DIRECT_ZONES -ᵤ POINTERS_PER_ZONE) `div` POINTERS_PER_ZONE in
      let lvl2_idx := (zone_idx -ᵤ DIRECT_ZONES -ᵤ POINTERS_PER_ZONE) mod POINTERS_PER_ZONE in
      lvl2_zone ← read_zone_indirect_pointer lvl1_zone lvl1_idx;
      match lvl2_zone with
      | None => mret None
      | Some lvl2_zone => read_zone_indirect_pointer lvl2_zone lvl2_idx
      end
    else mret None;
  match zone with
  | None => mret None
  | Some zone => if zone =? 0 then mret None else mret (Some zone)
  end.

(** [out] is what the buffer holds so far.  The result is [read], or [None] for
    the two early [return 0]. *)
Fixpoint vfs_read_loop (fuel : nat) (inode : minix_inode_t) (file_pos max_bytes_to_read read : Z)
    (out : list Z) : M (fs B) (option Z * list Z) :=
  match fuel with
  | O => fail NoFuel
  | S fuel =>
      if read <? max_bytes_to_read then
        let current_file_pos := file_pos +ᵤ read in
        let file_block := current_file_pos `div` FS_BLOCK_SIZE in
        let block_offset := current_file_pos mod FS_BLOCK_SIZE in
        let chunk_size := FS_BLOCK_SIZE - block_offset in
        let remaining := max_bytes_to_read - read in
        let chunk_size := if remaining <? chunk_size then remaining else chunk_size in
        disk_block ← map_file_block inode file_block;
        match disk_block with
        | None => mret (None, out)
        | Some disk_block =>
            '(ok, block_buf) ← read_block disk_block;
            if ok =? 0 then mret (None, out)
            else
              chunk ← slice block_buf block_offset chunk_size;
              vfs_read_loop fuel inode file_pos max_bytes_to_read (read + chunk_size) (out ++ chunk)
        end
      else mret (Some read, out)
  end.

(** A read of [m] bytes touches at most [m / 1024 + 2] blocks. *)
Definition read_fuel (m : Z) : nat := Z.to_nat (m `div` FS_BLOCK_SIZE + 3).

(** The returned value, the new [f_pos] and the bytes stored in the buffer. *)
Definition vfs_read (inode : minix_inode_t) (f_pos count : Z) : M (fs B) (Z * Z * list Z) :=
  let remaining_in_file := i_size inode -ᵤ f_pos in
  let max_bytes_to_read := if remaining_in_file <? count then remaining_in_file else count in
  '(read, out) ← vfs_read_loop (read_fuel max_bytes_to_read) inode f_pos max_bytes_to_read 0 [];
  match read with
  | None => mret (0, f_pos, out)
  | Some read => mret (i32 read, f_pos +ᵤ read, out)
  end.

Definition is_directory (inode : minix_inode_t) : bool :=
  Z.land (i_mode inode) MINIX_MODE_MASK =? MINIX_MODE_DIRECTORY.

(** The entries of one block of a directory, from [entry_offset] on; a block
    has at most 32. *)
Fixpoint scan_entries (fuel : nat) (block_buf : list Z) (entry_offset read : Z) (name : list Z)
    : M (fs B) (option Z) :=
  match fuel with
  | O => fail NoFuel
  | S fuel =>
      if entry_offset + 32 <=? read then
        entry ← slice block_buf entry_offset 32;
        let child_inode_num := le16 entry 0 in
        if child_inode_num =? 0 then scan_entries fuel block_buf (entry_offset + 32) read name
        else
          let entry_name := drop 2 entry ++ [0] in
          if name_equal entry_name name then mret (Some child_inode_num)
          else scan_entries fuel block_buf (entry_offset + 32) read name
      else mret None
  end.

Fixpoint scan_directory (fuel : nat) (dir_inode : minix_inode_t) (f_pos : Z) (name : list Z)
    : M (fs B) Z :=
  match fuel with
  | O => fail NoFuel
  | S fuel =>
      if f_pos <? i_size dir_inode then
        let remaining := i_size dir_inode -ᵤ f_pos in
        let to_read := if remaining <? FS_BLOCK_SIZE then remaining else FS_BLOCK_SIZE in
        '(read, f_pos, block_buf) ← vfs_read dir_inode f_pos to_read;
        if read =? 0 then mret 0
        else
          found ← scan_entries 33 block_buf 0 read name;
          match found with
          | Some child => mret child
          | None => scan_directory fuel dir_inode f_pos name
          end
      else mret 0
  end.

Definition get_child_inode_num (dir_inode : minix_inode_t) (name : list Z) : M (fs B) Z :=
  if negb (is_directory dir_inode) then mret 0
  else scan_directory (Z.to_nat (i_size dir_inode `div` FS_BLOCK_SIZE + 2)) dir_inode 0 name.

(** The loop of [vfs_open] over the components that are left. *)
Fixpoint open_components (components : components_t) (current_inode : minix_inode_t)
    : M (fs B) (option minix_inode_t) :=
  match components with
  | [] => mret (Some current_inode)
  | name :: components =>
      child_inode_num ← get_child_inode_num current_inode name;
      if child_inode_num =? 0 then mret None
      else
        child ← read_inode child_inode_num;
        match child with
        | None => mret None
        | Some inode => open_components components inode
        end
  end.
End code.

(** ** The contents of an image *)

(** Block [n] of the file system on a disk with the given sectors. *)
Definition block (image : Z → list Z) (n : Z) : list Z :=
  image (FILE_SYSTEM_BASE_SECTOR + 2 * n) ++ image (FILE_SYSTEM_BASE_SECTOR + 2 * n + 1).

Definition zone_index (inode : minix_inode_t) (k : nat) : Z := nth k (i_zone inode) 0.

(** Entry [i] of a block of zone pointers; the zone 0 has none. *)
Definition pointer (image : Z → list Z) (zone i : Z) : Z :=
  if zone =? 0 then 0 else le16 (block image zone) (Z.to_nat (2 * i)).

(** The zone of block [k] of a file; 0 when the file has no such block. *)
Definition zone_of (image : Z → list Z) (inode : minix_inode_t) (k : Z) : Z :=
  if k <? 7 then zone_index inode (Z.to_nat k)
  else if k <? 519 then pointer image (zone_index inode 7) (k - 7)
  else if k <? 262663 then
    pointer image (pointer image (zone_index inode 8) ((k - 519) `div` 512)) ((k - 519) mod 512)
  else 0.

Definition file_byte (image : Z → list Z) (inode : minix_inode_t) (o : Z) : Z :=
  byte_at (block image (zone_of image inode (o `div` 1024))) (Z.to_nat (o mod 1024)).

(** [n] bytes of a file from the offset [pos]. *)
Definition file_range (image : Z → list Z) (inode : minix_inode_t) (pos n : Z) : list Z :=
  file_byte image inode <$> seqZ pos n.

(** The blocks that hold these bytes are there. *)
Definition mapped (image : Z → list Z) (inode : minix_inode_t) (pos n : Z) : Prop :=
  ∀ o, pos ≤ o < pos + n → zone_of image inode (o `div` 1024) ≠ 0.

Record inode_ok (inode : minix_inode_t) : Prop := {
  inode_zones : length (i_zone inode) = 9%nat;
  inode_zone_range : Forall (λ z, 0 ≤ z < 0x10000) (i_zone inode);
  inode_size_range : 0 ≤ i_size inode < 0x100000000;
}.

Lemma is_byte_at l i : Forall is_byte l → is_byte (byte_at l i).
Proof.
  intros Hl. unfold byte_at. destruct (nth_in_or_default i l 0) as [Hi | ->]; [|unfold is_byte; lia].
  rewrite Forall_forall in Hl. by apply Hl, list_elem_of_In.
Qed.

Lemma le16_range l i : Forall is_byte l → 0 ≤ le16 l i < 0x10000.
Proof.
  intros Hl. pose proof (is_byte_at l i Hl). pose proof (is_byte_at l (i + 1) Hl).
  unfold le16, is_byte in *. lia.
Qed.
Lemma le32_range l i : Forall is_byte l → 0 ≤ le32 l i < 0x100000000.
Proof.
  intros Hl. pose proof (le16_range l i Hl). pose proof (le16_range l (i + 2) Hl).
  unfold le32. lia.
Qed.

Lemma inode_of_bytes_ok l : Forall is_byte l → inode_ok (inode_of_bytes l).
Proof.
  intros Hl. constructor; [done | | by apply le32_range].
  apply Forall_fmap, Forall_true. intros k. by apply le16_range.
Qed.

(** A field read from a slice is the field of the whole. *)
Lemma byte_at_slice l off n i :
  (i < n)%nat → byte_at (take n (drop off l)) i = byte_at l (off + i).
Proof.
  intros Hi. unfold byte_at. rewrite !nth_lookup, lookup_take_lt, lookup_drop by done. done.
Qed.

(** *** Directories

    A directory's contents are entries of 32 bytes: an inode number and a name.
    [dir_lookup] looks at the first [n] entries. *)

Definition entry_matches (e name : list Z) : bool :=
  negb (le16 e 0 =? 0) && bool_decide (cstr (take 30 (drop 2 e)) = name).

Fixpoint dir_lookup (n : nat) (content name : list Z) : Z :=
  match n with
  | O => 0
  | S n =>
      let e := take 32 content in
      if entry_matches e name then le16 e 0 else dir_lookup n (drop 32 content) name
  end.

Lemma dir_lookup_app n m l1 l2 name :
  length l1 = (32 * n)%nat →
  dir_lookup (n + m) (l1 ++ l2) name =
    if dir_lookup n l1 name =? 0 then dir_lookup m l2 name else dir_lookup n l1 name.
Proof.
  revert l1. induction n as [|n IH]; intros l1 Hl; cbn [dir_lookup Nat.add].
  { by destruct l1. }
  rewrite take_app_le, drop_app_le by lia.
  destruct (entry_matches (take 32 l1) name) eqn:E.
  - unfold entry_matches in E. apply andb_prop in E as [E%negb_true_iff _]. by rewrite E.
  - apply IH. rewrite length_drop. lia.
Qed.

Section spec.
Context {B : Type} `{!BlockDevice B}.
Implicit Types (s : fs B) (inode : minix_inode_t).

Definition image s : Z → list Z := sector (fs_dev s).

(** The disk works; the state may differ only inside the driver. *)
Definition fs_ok s : Prop := disk_ok (fs_dev s).
Definition same_fs s s' : Prop :=
  fs_ok s' ∧ image s' = image s ∧ super_block_buf s' = super_block_buf s.

Lemma same_fs_refl s : fs_ok s → same_fs s s.
Proof. done. Qed.
Lemma same_fs_trans s1 s2 s3 : same_fs s1 s2 → same_fs s2 s3 → same_fs s1 s3.
Proof. intros (? & E1 & E2) (? & E3 & E4). split_and!; [done|..]; by rewrite ?E3, ?E4. Qed.

Lemma block_size s n : fs_ok s →
  length (block (image s) n) = 1024%nat ∧ Forall is_byte (block (image s) n).
Proof.
  intros Hs. unfold block, image.
  destruct (sector_size (fs_dev s) (FILE_SYSTEM_BASE_SECTOR + 2 * n) Hs) as [L1 F1].
  destruct (sector_size (fs_dev s) (FILE_SYSTEM_BASE_SECTOR + 2 * n + 1) Hs) as [L2 F2].
  rewrite length_app, L1, L2. split; [done|]. by apply Forall_app.
Qed.

Lemma pointer_range s z i : fs_ok s → 0 ≤ pointer (image s) z i < 0x10000.
Proof.
  intros Hs. unfold pointer. case_match; [lia|]. by apply le16_range, block_size.
Qed.

Lemma zone_index_range inode k : inode_ok inode → 0 ≤ zone_index inode k < 0x10000.
Proof.
  intros [_ Hz _]. unfold zone_index. rewrite nth_lookup.
  destruct (i_zone inode !! k) as [z|] eqn:E; simpl; [|lia]. by apply (Forall_lookup_1 _ _ _ _ Hz E).
Qed.

Lemma zone_of_range s inode k : fs_ok s → inode_ok inode → 0 ≤ zone_of (image s) inode k < 0x10000.
Proof.
  intros Hs Hi. unfold zone_of. repeat case_match; try lia; auto using pointer_range, zone_index_range.
Qed.

(** *** Reading blocks and pointers *)

Lemma read_block_run n s :
  fs_ok s → 0 ≤ n < 0x40000 →
  ∃ s', read_block n s = Ret (1, block (image s) n) s' ∧ same_fs s s'.
Proof.
  intros Hs Hn. unfold read_block, FILE_SYSTEM_BASE_SECTOR, SECTORS_PER_BLOCK.
  rewrite (u32_id (n * 2)), u32_id by lia.
  destruct (disk_read_ok (fs_dev s) (2048 + n * 2) 2) as (b & Hrun & Hok & Himg); [done | lia..|].
  exists (Fs (super_block_buf s) b). split; [|done].
  rewrite (lift_ret _ s _ _ Hrun). rewrite !seqZ_cons, seqZ_nil by lia.
  unfold block, image, FILE_SYSTEM_BASE_SECTOR, Z.succ. simpl. rewrite app_nil_r.
  by replace (2048 + 2 * n) with (2048 + n * 2) by lia.
Qed.

Lemma slice_run {S} buf off n (s : S) :
  0 ≤ off → off + n ≤ Z.of_nat (length buf) →
  slice buf off n s = Ret (take (Z.to_nat n) (drop (Z.to_nat off) buf)) s.
Proof.
  intros. unfold slice. by rewrite (proj2 (Z.leb_le 0 off)), (proj2 (Z.leb_le _ _)) by lia.
Qed.

(** A successful read of a block. *)
Ltac read_step H := step H; cbv beta iota; change (1 =? 0) with false; cbv iota.

Lemma read_zone_run zone i s :
  fs_ok s → 0 ≤ zone < 0x10000 → 0 ≤ i < 512 →
  ∃ s', read_zone_indirect_pointer zone i s =
      Ret (Some (le16 (block (image s) zone) (Z.to_nat (2 * i)))) s' ∧ same_fs s s'.
Proof.
  intros Hs Hz Hi. unfold read_zone_indirect_pointer.
  destruct (read_block_run zone s) as (s' & Hrun & Hsame); [done | lia|].
  read_step Hrun. destruct (block_size s zone Hs) as [Hl _].
  erewrite bind_ret; [|apply slice_run; lia].
  exists s'. split; [|done]. unfold mret, M_ret, le16. do 3 f_equal.
  - rewrite byte_at_slice by lia. by rewrite Nat.add_0_r.
  - f_equal. rewrite byte_at_slice by lia. done.
Qed.

Lemma map_file_block_run inode k s :
  fs_ok s → inode_ok inode → 0 ≤ k < 0x100000000 → zone_of (image s) inode k ≠ 0 →
  ∃ s', map_file_block inode k s = Ret (Some (zone_of (image s) inode k)) s' ∧ same_fs s s'.
Proof.
  intros Hs Hi Hk Hz.
  assert (∀ z, z ≠ 0 → (if z =? 0 then mret None else mret (Some z)) = mret (M := M (fs B)) (Some z)) as Hnz.
  { intros z Hne. by rewrite (proj2 (Z.eqb_neq _ _)). }
  unfold map_file_block, zone_of, pointer, DIRECT_ZONES, POINTERS_PER_ZONE in *.
  pose proof (zone_index_range inode 7 Hi) as H7. pose proof (zone_index_range inode 8 Hi) as H8.
  destruct (Z.ltb_spec k 7).
  { destruct (lookup_lt_is_Some_2 (i_zone inode) (Z.to_nat k)) as [z Hl]; [rewrite (inode_zones _ Hi); lia|].
    assert (zone_index inode (Z.to_nat k) = z) as E by (unfold zone_index; by rewrite nth_lookup, Hl).
    rewrite E in *. exists s. split; [|done]. rewrite bind_bind.
    erewrite bind_ret; [|by apply nth_or_ret; [lia|]]. rewrite mret_bind. by rewrite Hnz. }
  rewrite (u32_id (k - 7)) by lia.
  destruct (Z.ltb_spec k 519).
  { rewrite (proj2 (Z.ltb_lt _ _)) by lia.
    destruct (Z.eqb_spec (zone_index inode 7) 0); [done|].
    destruct (read_zone_run (zone_index inode 7) (k - 7) s) as (s' & Hrun & Hsame); [done | lia..|].
    unfold zone_index, INDIRECT_ZONE_INDEX in *. step Hrun. rewrite Hnz by done. by exists s'. }
  rewrite (proj2 (Z.ltb_ge (k - 7) _)), u32_id by lia.
  destruct (Z.ltb_spec k 262663); [|done].
  rewrite (proj2 (Z.ltb_lt _ _)) by lia. replace (k - 7 - 512) with (k - 519) by lia.
  destruct (Z.eqb_spec (zone_index inode 8) 0); [done|].
  destruct (read_zone_run (zone_index inode 8) ((k - 519) `div` 512) s) as (s1 & Hrun1 & Hsame1);
    [done | lia | Z.div_mod_to_equations; lia |].
  set (z2 := le16 _ _) in *. destruct (Z.eqb_spec z2 0); [done|].
  assert (0 ≤ z2 < 0x10000) as Hz2 by (by apply le16_range, block_size).
  destruct (read_zone_run z2 ((k - 519) mod 512) s1) as (s2 & Hrun2 & Hsame2);
    [apply Hsame1 | done | apply Z.mod_pos_bound; lia |].
  unfold zone_index, DOUBLE_INDIRECT_ZONE_INDEX in *. rewrite bind_bind. step Hrun1. step Hrun2.
  destruct Hsame1 as (? & Himg & ?). rewrite Himg, Hnz by done.
  exists s2. split; [done|]. by eapply same_fs_trans.
Qed.

(** *** Reading a file *)

Lemma file_range_app img inode p n m :
  0 ≤ n → 0 ≤ m → file_range img inode p (n + m) = file_range img inode p n ++ file_range img inode (p + n) m.
Proof. intros. unfold file_range. by rewrite seqZ_app, fmap_app by lia. Qed.

Lemma file_range_length img inode p n : length (file_range img inode p n) = Z.to_nat n.
Proof. unfold file_range. by rewrite length_fmap, length_seqZ. Qed.

Lemma file_range_lookup img inode p n i :
  (i < Z.to_nat n)%nat → file_range img inode p n !! i = Some (file_byte img inode (p + Z.of_nat i)).
Proof.
  intros Hi. unfold file_range. rewrite list_lookup_fmap.
  rewrite (proj2 (lookup_seqZ p n i (p + Z.of_nat i))); [done | lia].
Qed.

(** A piece of a file inside one block is a slice of the block. *)
Lemma file_range_block s inode p c :
  fs_ok s → 0 ≤ p → 0 ≤ c → p mod 1024 + c ≤ 1024 →
  take (Z.to_nat c) (drop (Z.to_nat (p mod 1024)) (block (image s) (zone_of (image s) inode (p `div` 1024))))
  = file_range (image s) inode p c.
Proof.
  intros Hs Hp Hc Hoff. set (l := block _ _).
  assert (length l = 1024%nat) as Hl by by apply block_size.
  pose proof (Z.mod_pos_bound p 1024 ltac:(lia)).
  apply list_eq. intros i. destruct (decide (i < Z.to_nat c)%nat) as [Hi|Hi].
  - rewrite file_range_lookup, lookup_take_lt, lookup_drop by done.
    unfold file_byte, byte_at. replace ((p + Z.of_nat i) `div` 1024) with (p `div` 1024)
      by (Z.div_mod_to_equations; lia).
    replace ((p + Z.of_nat i) mod 1024) with (p mod 1024 + Z.of_nat i) by (Z.div_mod_to_equations; lia).
    fold l. rewrite nth_lookup. replace (Z.to_nat (p mod 1024 + Z.of_nat i)) with
      (Z.to_nat (p mod 1024) + i)%nat by lia.
    by destruct (lookup_lt_is_Some_2 l (Z.to_nat (p mod 1024) + i)%nat) as [x ->]; [lia|].
  - rewrite !lookup_ge_None_2; [done | rewrite file_range_length; lia | rewrite length_take; lia].
Qed.

Lemma zone_of_bound img inode k : zone_of img inode k ≠ 0 → k < 262663.
Proof. unfold zone_of. repeat case_match; try done; lia. Qed.

Lemma vfs_read_loop_run fuel inode pos m read out s :
  fs_ok s → inode_ok inode → 0 ≤ pos → pos + m < 0x100000000 → 0 ≤ read ≤ m →
  mapped (image s) inode pos m →
  (if read =? m then 0 else (pos + m - 1) `div` 1024 - (pos + read) `div` 1024 + 1) < Z.of_nat fuel →
  ∃ s', vfs_read_loop fuel inode pos m read out s =
      Ret (Some m, out ++ file_range (image s) inode (pos + read) (m - read)) s' ∧ same_fs s s'.
Proof.
  revert read out s. induction fuel as [|fuel IH]; intros read out s Hs Hi Hpos Hm Hread Hmap Hfuel.
  { exfalso. case_match eqn:E; [lia|]. apply Z.eqb_neq in E. Z.div_mod_to_equations. lia. }
  cbn [vfs_read_loop]. destruct (Z.ltb_spec read m) as [Hlt|Hge].
  2: { assert (read = m) as -> by lia. exists s. split; [|done].
       rewrite Z.sub_diag. by rewrite app_nil_r. }
  rewrite u32_id by lia. unfold FS_BLOCK_SIZE.
  assert (zone_of (image s) inode ((pos + read) `div` 1024) ≠ 0) as Hz by (apply Hmap; lia).
  destruct (map_file_block_run inode ((pos + read) `div` 1024) s) as (s1 & Hrun1 & Hs1);
    [done..| Z.div_mod_to_equations; lia | done |].
  step Hrun1. cbv beta iota. pose proof Hs1 as (Hok1 & Himg1 & _).
  set (z := zone_of _ _ _) in *.
  assert (0 ≤ z < 0x10000) by by apply zone_of_range.
  destruct (read_block_run z s1) as (s2 & Hrun2 & Hs2); [done | lia |]. read_step Hrun2.
  pose proof (Z.mod_pos_bound (pos + read) 1024 ltac:(lia)) as Hoff.
  set (c := if m - read <? _ then _ else _).
  assert (0 < c ∧ (pos + read) mod 1024 + c ≤ 1024 ∧ read + c ≤ m ∧
    (c = m - read ∨ (pos + read) mod 1024 + c = 1024)) as (Hc0 & Hc1 & Hc2 & Hc3).
  { unfold c. destruct (Z.ltb_spec (m - read) (1024 - (pos + read) mod 1024)); lia. }
  rewrite Himg1 in Hrun2 |- *.
  erewrite bind_ret; [|apply slice_run; [lia|]].
  2: { destruct (block_size s z Hs) as [-> _]. lia. }
  unfold z. rewrite file_range_block by (done || lia).
  pose proof (same_fs_trans _ _ _ Hs1 Hs2) as Hs12. pose proof Hs12 as (Hok2 & Himg2 & _).
  destruct (IH (read + c) (out ++ file_range (image s) inode (pos + read) c) s2)
    as (s' & Hrun & Hsame); [done..| lia | by rewrite Himg2 | |].
  { rewrite (proj2 (Z.eqb_neq read m)) in Hfuel by lia.
    destruct (Z.eqb_spec (read + c) m); [Z.div_mod_to_equations; lia|].
    destruct Hc3 as [E|E]; [lia|]. Z.div_mod_to_equations. lia. }
  exists s'. rewrite Hrun, Himg2. split; [|by eapply same_fs_trans].
  rewrite <-app_assoc, Z.add_assoc. do 4 f_equal.
  rewrite <-file_range_app by lia. f_equal. lia.
Qed.

Lemma read_fuel_enough pos n :
  0 ≤ pos → 0 ≤ n →
  (if 0 =? n then 0 else (pos + n - 1) `div` 1024 - (pos + 0) `div` 1024 + 1) < Z.of_nat (read_fuel n).
Proof.
  intros. unfold read_fuel, FS_BLOCK_SIZE. case_match; Z.div_mod_to_equations; lia.
Qed.

Lemma vfs_read_run inode pos count s n :
  fs_ok s → inode_ok inode → 0 ≤ pos → 0 ≤ count → pos + n < 0x100000000 →
  n = Z.min (i_size inode -ᵤ pos) count → mapped (image s) inode pos n →
  ∃ s', vfs_read inode pos count s = Ret (n, pos + n, file_range (image s) inode pos n) s' ∧
        same_fs s s'.
Proof.
  intros Hs Hi Hpos Hcount Hn En Hmap. pose proof (u32_range (i_size inode - pos)) as Hr.
  unfold vfs_read. set (m := if _ <? _ then _ else _).
  assert (m = n) as -> by (unfold m; destruct (Z.ltb_spec (i_size inode -ᵤ pos) count); lia).
  destruct (vfs_read_loop_run (read_fuel n) inode pos n 0 [] s) as (s' & Hrun & Hsame);
    try done; [lia | by apply read_fuel_enough; lia |].
  exists s'. split; [|done]. step Hrun. cbv beta iota. rewrite Z.add_0_r, Z.sub_0_r. simpl.
  rewrite u32_id by lia. rewrite i32_id; [done|]. split; [lia|].
  destruct (decide (n = 0)) as [->|]; [lia|].
  specialize (Hmap (pos + n - 1) ltac:(lia)). apply zone_of_bound in Hmap.
  Z.div_mod_to_equations. lia.
Qed.

(** Reads inside the file, the whole rest of it at most. *)
Lemma vfs_read_inside inode pos count s :
  fs_ok s → inode_ok inode → 0 ≤ pos ≤ i_size inode → 0 ≤ count →
  mapped (image s) inode pos (Z.min (i_size inode - pos) count) →
  ∃ s', vfs_read inode pos count s =
      Ret (Z.min (i_size inode - pos) count, pos + Z.min (i_size inode - pos) count,
           file_range (image s) inode pos (Z.min (i_size inode - pos) count)) s' ∧
    same_fs s s'.
Proof.
  intros Hs Hi Hpos Hcount Hmap. pose proof (inode_size_range _ Hi).
  apply vfs_read_run; try done; [lia.. |]. by rewrite u32_id by lia.
Qed.

(** *** Inodes *)

Definition inode_block s (num : Z) : Z :=
  2 + s_imap_blocks (super_block_buf s) + s_zmap_blocks (super_block_buf s) + (num - 1) `div` 32.

(** Inode [num] of the image: 32 bytes of the inode table. *)
Definition inode_at s (num : Z) : minix_inode_t :=
  inode_of_bytes
    (take 32 (drop (Z.to_nat ((num - 1) mod 32 * 32)) (block (image s) (inode_block s num)))).

Lemma Forall_slice (P : Z → Prop) n m (l : list Z) : Forall P l → Forall P (take n (drop m l)).
Proof. intros. by apply Forall_take, Forall_drop. Qed.

Lemma inode_at_ok s num : fs_ok s → inode_ok (inode_at s num).
Proof. intros Hs. by apply inode_of_bytes_ok, Forall_slice, block_size. Qed.

Lemma read_inode_run num s :
  fs_ok s → Forall is_byte (super_block_buf s) → 1 ≤ num < 0x10000 →
  ∃ s', read_inode num s = Ret (Some (inode_at s num)) s' ∧ same_fs s s'.
Proof.
  intros Hs Hsup Hnum. unfold read_inode. rewrite gets_bind.
  pose proof (le16_range _ 4 Hsup) as H4. pose proof (le16_range _ 6 Hsup) as H6.
  assert (0 ≤ inode_block s num < 0x40000) as Hb.
  { unfold inode_block, s_imap_blocks, s_zmap_blocks. Z.div_mod_to_equations. lia. }
  rewrite u16_id by lia. unfold INODES_PER_BLOCK.
  unfold s_imap_blocks, s_zmap_blocks in *.
  rewrite (u32_id (2 + _)), (u32_id (_ + le16 _ 6)), u32_id
    by (Z.div_mod_to_equations; lia).
  change (2 + le16 (super_block_buf s) 4 + le16 (super_block_buf s) 6 + (num - 1) `div` 32)
    with (inode_block s num).
  destruct (read_block_run (inode_block s num) s) as (s' & Hrun & Hsame); [done..|].
  read_step Hrun. destruct (block_size s (inode_block s num) Hs) as [Hl _].
  pose proof (Z.mod_pos_bound (num - 1) 32 ltac:(lia)).
  erewrite bind_ret; [|apply slice_run; lia]. by exists s'.
Qed.

(** *** Directories *)

Lemma cstr_snoc_nul l : cstr (l ++ [0]) = cstr l.
Proof. induction l as [|c l IH]; simpl; [done|]. by rewrite IH. Qed.
Lemma cstr_length l : (length (cstr l) ≤ length l)%nat.
Proof. induction l as [|c l IH]; simpl; [done|]. case_match; simpl; lia. Qed.

Lemma name_equal_entry e name :
  length e = 32%nat → name_equal (drop 2 e ++ [0]) name = bool_decide (cstr (take 30 (drop 2 e)) = cstr name).
Proof.
  intros He. unfold name_equal.
  assert (take 30 (drop 2 e) = drop 2 e) as -> by (apply take_ge; rewrite length_drop; lia).
  pose proof (cstr_length (drop 2 e)) as Hl. rewrite length_drop, He in Hl.
  rewrite name_equal_from_cstr; rewrite !drop_0, cstr_snoc_nul; [done|].
  unfold MINIX_MAX_NAME_LENGTH. lia.
Qed.

Lemma scan_entries_run fuel buf off read name s :
  read = Z.of_nat (length buf) → 0 ≤ off ≤ read → (read - off) `div` 32 < Z.of_nat fuel →
  let r := dir_lookup (Z.to_nat ((read - off) `div` 32)) (drop (Z.to_nat off) buf) (cstr name) in
  scan_entries fuel buf off read name s = Ret (if r =? 0 then None else Some r) s.
Proof.
  revert off. induction fuel as [|fuel IH]; intros off Hread Hoff Hfuel; cbv zeta.
  { exfalso. Z.div_mod_to_equations. lia. }
  cbn [scan_entries]. destruct (Z.leb_spec (off + 32) read) as [Hle|Hgt].
  2: { replace (Z.to_nat _) with 0%nat by (Z.div_mod_to_equations; lia). done. }
  erewrite bind_ret; [|apply slice_run; lia].
  change (Z.to_nat 32) with 32%nat. set (e := take 32 (drop (Z.to_nat off) buf)).
  assert (length e = 32%nat) as He by (unfold e; rewrite length_take, length_drop; lia).
  replace (Z.to_nat ((read - off) `div` 32)) with (S (Z.to_nat ((read - (off + 32)) `div` 32)))
    by (Z.div_mod_to_equations; lia).
  cbn [dir_lookup]. fold e.
  specialize (IH (off + 32) Hread ltac:(lia)). cbv zeta in IH.
  rewrite drop_drop. replace (Z.to_nat off + 32)%nat with (Z.to_nat (off + 32)) by lia.
  unfold entry_matches. rewrite name_equal_entry by done.
  destruct (Z.eqb_spec (le16 e 0) 0) as [Hz|Hz]; simpl.
  - apply IH. Z.div_mod_to_equations. lia.
  - case_bool_decide; [by rewrite (proj2 (Z.eqb_neq _ _))|]. apply IH. Z.div_mod_to_equations. lia.
Qed.

(** The number of the child of a directory, 0 when there is none. *)
Definition child_num s (dir_inode : minix_inode_t) (name : list Z) : Z :=
  if is_directory dir_inode then
    dir_lookup (Z.to_nat (i_size dir_inode `div` 32))
      (file_range (image s) dir_inode 0 (i_size dir_inode)) name
  else 0.

Lemma mapped_sub img inode pos n pos' n' :
  mapped img inode pos n → pos ≤ pos' → pos' + n' ≤ pos + n → mapped img inode pos' n'.
Proof. intros Hm ?? o ?. apply Hm. lia. Qed.

Lemma scan_directory_run fuel inode f_pos name s :
  fs_ok s → inode_ok inode → 0 ≤ f_pos ≤ i_size inode →
  f_pos mod 1024 = 0 ∨ f_pos = i_size inode →
  mapped (image s) inode 0 (i_size inode) →
  (i_size inode - f_pos + 1023) `div` 1024 < Z.of_nat fuel →
  ∃ s', scan_directory fuel inode f_pos name s =
      Ret (dir_lookup (Z.to_nat ((i_size inode - f_pos) `div` 32))
             (file_range (image s) inode f_pos (i_size inode - f_pos)) (cstr name)) s' ∧
    same_fs s s'.
Proof.
  revert f_pos s. induction fuel as [|fuel IH]; intros f_pos s Hs Hi Hpos Hal Hmap Hfuel.
  { exfalso. Z.div_mod_to_equations. lia. }
  pose proof (inode_size_range _ Hi) as Hsz. cbn [scan_directory].
  destruct (Z.ltb_spec f_pos (i_size inode)) as [Hlt|Hge].
  2: { replace (i_size inode - f_pos) with 0 by lia. by exists s. }
  unfold FS_BLOCK_SIZE. rewrite u32_id by lia.
  set (n := if _ <? 1024 then _ else _).
  assert (0 < n ∧ n ≤ i_size inode - f_pos ∧ n ≤ 1024 ∧ (n = 1024 ∨ n = i_size inode - f_pos))
    as (Hn0 & Hn1 & Hn2 & Hn3) by (unfold n; destruct (Z.ltb_spec (i_size inode - f_pos) 1024); lia).
  destruct (vfs_read_inside inode f_pos n s) as (s1 & Hrun & Hs1);
    [done | done | lia | lia | eapply mapped_sub; [done | lia..] |].
  rewrite Z.min_r in Hrun by lia. step Hrun. cbv beta iota.
  rewrite (proj2 (Z.eqb_neq n 0)) by lia.
  pose proof (file_range_length (image s) inode f_pos n) as Hlen.
  pose proof (scan_entries_run 33 (file_range (image s) inode f_pos n) 0 n name s1
    ltac:(lia) ltac:(lia) ltac:(Z.div_mod_to_equations; lia)) as Hscan.
  cbv zeta in Hscan. change (Z.to_nat 0) with 0%nat in Hscan. rewrite drop_0, Z.sub_0_r in Hscan.
  step Hscan. pose proof Hs1 as (Hok1 & Himg1 & _).
  destruct (decide (n = 1024)) as [->|Hn].
  - replace (i_size inode - f_pos) with (1024 + (i_size inode - (f_pos + 1024))) by lia.
    rewrite file_range_app by lia.
    replace (Z.to_nat ((1024 + (i_size inode - (f_pos + 1024))) `div` 32)) with
      (32 + Z.to_nat ((i_size inode - (f_pos + 1024)) `div` 32))%nat by (Z.div_mod_to_equations; lia).
    rewrite dir_lookup_app by (rewrite file_range_length; lia).
    change (Z.to_nat (1024 `div` 32)) with 32%nat in *.
    destruct (dir_lookup 32 _ _ =? 0) eqn:E; [|by exists s1].
    destruct (IH (f_pos + 1024) s1) as (s' & Hrun' & Hs'); [done..| lia | | by rewrite Himg1 | |].
    + Z.div_mod_to_equations. lia.
    + Z.div_mod_to_equations. lia.
    + exists s'. rewrite Hrun', Himg1. split; [done | by eapply same_fs_trans].
  - assert (n = i_size inode - f_pos) as En by lia. rewrite <-En.
    destruct (Z.eqb_spec (dir_lookup (Z.to_nat (n `div` 32)) (file_range (image s) inode f_pos n) (cstr name)) 0)
      as [E|E]; [|by exists s1].
    destruct (IH (f_pos + n) s1) as (s' & Hrun' & Hs'); [done..| lia | lia | by rewrite Himg1 | |].
    + Z.div_mod_to_equations. lia.
    + exists s'. rewrite Hrun'. split; [|by eapply same_fs_trans].
      replace (i_size inode - (f_pos + n)) with 0 by lia. by rewrite E.
Qed.

Lemma le16_dir_range n l name : Forall is_byte l → 0 ≤ dir_lookup n l name < 0x10000.
Proof.
  revert l. induction n as [|n IH]; intros l Hl; cbn [dir_lookup]; [lia|].
  case_match; [|by apply IH, Forall_drop]. by apply le16_range, Forall_take.
Qed.

Lemma file_range_bytes s inode pos n : fs_ok s → Forall is_byte (file_range (image s) inode pos n).
Proof.
  intros Hs. apply Forall_fmap, Forall_true. intros o. by apply is_byte_at, block_size.
Qed.

Lemma child_num_range s inode name : fs_ok s → 0 ≤ child_num s inode name < 0x10000.
Proof. intros Hs. unfold child_num. case_match; [|lia]. by apply le16_dir_range, file_range_bytes. Qed.

Lemma child_num_same s s' inode name : same_fs s s' → child_num s' inode name = child_num s inode name.
Proof. intros (_ & Himg & _). unfold child_num. by rewrite Himg. Qed.

Lemma inode_at_same s s' num : same_fs s s' → inode_at s' num = inode_at s num.
Proof. intros (_ & Himg & Hsup). unfold inode_at, inode_block. by rewrite Himg, Hsup. Qed.

Lemma get_child_run inode name s :
  fs_ok s → inode_ok inode →
  (is_directory inode = true → mapped (image s) inode 0 (i_size inode)) →
  ∃ s', get_child_inode_num inode name s = Ret (child_num s inode (cstr name)) s' ∧ same_fs s s'.
Proof.
  intros Hs Hi Hmap. unfold get_child_inode_num, child_num.
  destruct (is_directory inode); simpl; [|by exists s]. pose proof (inode_size_range _ Hi).
  destruct (scan_directory_run (Z.to_nat (i_size inode `div` FS_BLOCK_SIZE + 2)) inode 0 name s)
    as (s' & Hrun & Hs'); try done; [lia | by left | by apply Hmap | |].
  - unfold FS_BLOCK_SIZE. Z.div_mod_to_equations. lia.
  - rewrite Z.sub_0_r in Hrun. by exists s'.
Qed.

(** *** Paths *)

(** The inode that a list of names leads to from a directory. *)
Fixpoint resolve s (names : list (list Z)) (inode : minix_inode_t) : option minix_inode_t :=
  match names with
  | [] => Some inode
  | name :: names =>
      let num := child_num s inode name in
      if num =? 0 then None else resolve s names (inode_at s num)
  end.

(** The directories on the way have all their blocks. *)
Fixpoint way_mapped s (names : list (list Z)) (inode : minix_inode_t) : Prop :=
  match names with
  | [] => True
  | name :: names =>
      (is_directory inode = true → mapped (image s) inode 0 (i_size inode)) ∧
      let num := child_num s inode name in
      (num ≠ 0 → way_mapped s names (inode_at s num))
  end.

Lemma way_mapped_same s s' names inode :
  same_fs s s' → way_mapped s names inode → way_mapped s' names inode.
Proof.
  intros Hsame. revert inode. induction names as [|name names IH]; intros inode; [done|]. simpl.
  rewrite (child_num_same _ _ _ _ Hsame), (inode_at_same _ _ _ Hsame).
  destruct Hsame as (_ & -> & _). intros [? Hw]. split; [done|]. auto.
Qed.

Lemma resolve_same s s' names inode : same_fs s s' → resolve s' names inode = resolve s names inode.
Proof.
  intros Hsame. revert inode. induction names as [|name names IH]; intros inode; [done|]. simpl.
  by rewrite (child_num_same _ _ _ _ Hsame), (inode_at_same _ _ _ Hsame), IH.
Qed.

Lemma open_components_run rows inode s :
  fs_ok s → Forall is_byte (super_block_buf s) → inode_ok inode →
  way_mapped s (cstr <$> rows) inode →
  ∃ s', open_components rows inode s = Ret (resolve s (cstr <$> rows) inode) s' ∧ same_fs s s'.
Proof.
  revert inode s. induction rows as [|row rows IH]; intros inode s Hs Hsup Hi Hway; simpl in *.
  { by exists s. }
  destruct Hway as [Hmap Hway].
  destruct (get_child_run inode row s) as (s1 & Hrun & Hs1); [done..|]. step Hrun.
  pose proof (child_num_range s inode (cstr row) Hs) as Hr.
  destruct (Z.eqb_spec (child_num s inode (cstr row)) 0) as [E|E]; [by exists s1|].
  pose proof Hs1 as (Hok1 & _ & Hsup1).
  destruct (read_inode_run (child_num s inode (cstr row)) s1) as (s2 & Hrun2 & Hs2);
    [done | by rewrite Hsup1 | lia |].
  step Hrun2. rewrite (inode_at_same _ _ _ Hs1). pose proof (same_fs_trans _ _ _ Hs1 Hs2) as Hs12.
  pose proof Hs12 as (Hok2 & _ & Hsup2).
  destruct (IH (inode_at s (child_num s inode (cstr row))) s2) as (s' & Hrun' & Hs');
    [done | by rewrite Hsup2 | by apply inode_at_ok | by eapply way_mapped_same; [|auto] |].
  exists s'. cbv beta iota. rewrite Hrun', (resolve_same _ _ _ _ Hs12).
  split; [done | by eapply same_fs_trans].
Qed.
End spec.

(** ** Properties *)

Section properties.
Context {B : Type} `{!BlockDevice B}.

(** C18 (file system, [vfs_read]): on a working disk a read inside a file whose
    blocks are there returns the bytes that the image has at that offset, as many
    as asked for or as the file still has, advances [f_pos] by them, and never
    reads outside a block. *)
Theorem vfs_read_correct (s : fs B) inode pos count :
  fs_ok s → inode_ok inode → 0 ≤ pos ≤ i_size inode → 0 ≤ count →
  let n := Z.min (i_size inode - pos) count in
  mapped (image s) inode pos n →
  ∃ s', vfs_read inode pos count s = Ret (n, pos + n, file_range (image s) inode pos n) s' ∧
        same_fs s s'.
Proof. intros Hs Hi Hpos Hcount n Hmap. by apply vfs_read_inside. Qed.

(** (file system, read past the end): with [f_pos] beyond [i_size] the
    subtraction wraps, and the call returns [count] bytes of the last block that
    lie after the end of the file. *)
Theorem vfs_read_past_end (s : fs B) inode pos count :
  fs_ok s → inode_ok inode → i_size inode < pos → 0 ≤ count →
  pos + count < 0x100000000 → mapped (image s) inode pos count →
  ∃ s', vfs_read inode pos count s =
    Ret (count, pos + count, file_range (image s) inode pos count) s'.
Proof.
  intros Hs Hi Hpos Hcount Hsum Hmap. pose proof (inode_size_range _ Hi).
  assert (i_size inode -ᵤ pos = i_size inode - pos + 0x100000000) as E.
  { unfold u32. symmetry. apply (Z.mod_unique _ _ (-1)); lia. }
  destruct (vfs_read_run inode pos count s count) as (s' & Hrun & _); try done; [lia | lia |].
  by exists s'.
Qed.

(** (file system, [get_child_inode_num]): in a directory whose blocks are there
    the search finds the inode number of the first entry with that name, and 0
    when there is none; in anything but a directory it finds 0. *)
Theorem get_child_inode_num_correct (s : fs B) inode name :
  fs_ok s → inode_ok inode → (is_directory inode = true → mapped (image s) inode 0 (i_size inode)) →
  ∃ s', get_child_inode_num inode name s =
    Ret (if is_directory inode
         then dir_lookup (Z.to_nat (i_size inode `div` 32))
                (file_range (image s) inode 0 (i_size inode)) (cstr name)
         else 0) s' ∧ same_fs s s'.
Proof. apply get_child_run. Qed.
End properties.

(** ** Witnesses *)

(** An image with a root directory that holds the file [/a]. *)
Definition enc16 (v : Z) : list Z := [v mod 256; v `div` 256].
Definition enc_inode (mode size zone : Z) : list Z :=
  enc16 mode ++ [0; 0] ++ enc16 size ++ [0; 0] ++ [0; 0; 0; 0; 0; 1] ++ enc16 zone ++ replicate 16 0.
Definition enc_entry (num : Z) (name : string) : list Z :=
  enc16 num ++ take 30 (bytes_of name ++ replicate 30 0).

Definition sample_disk : gmap Z (list Z) := list_to_map [
  (2056, enc_inode 0x41ed 96 10 ++ enc_inode 0x81a4 12 11);
  (2068, enc_entry 1 "." ++ enc_entry 1 ".." ++ enc_entry 2 "a");
  (2070, bytes_of "hello, world")].

Definition sample_super : list Z := replicate 4 0 ++ [1; 0; 1; 0] ++ replicate 1016 0.
Definition sample_fs : fs (gmap Z (list Z)) := Fs sample_super sample_disk.

Lemma sample_fs_ok : fs_ok sample_fs.
Proof. unfold fs_ok. simpl. done. Qed.

Lemma sample_mapped num n :
  n ≤ 1024 → zone_of (image sample_fs) (inode_at sample_fs num) 0 ≠ 0 →
  mapped (image sample_fs) (inode_at sample_fs num) 0 n.
Proof. intros Hn Hz o Ho. replace (o `div` 1024) with 0; [done|]. Z.div_mod_to_equations. lia. Qed.

Lemma sample_root_mapped : mapped (image sample_fs) (inode_at sample_fs 1) 0 (i_size (inode_at sample_fs 1)).
Proof. apply sample_mapped; vm_compute; congruence. Qed.

Lemma vfs_read_correct_witness :
  ∃ s', vfs_read (inode_at sample_fs 2) 7 100 sample_fs = Ret (5, 12, bytes_of "world") s' ∧
        same_fs sample_fs s'.
Proof.
  destruct (vfs_read_correct sample_fs (inode_at sample_fs 2) 7 100 sample_fs_ok) as (s' & Hrun & Hs').
  - apply inode_at_ok, sample_fs_ok.
  - vm_compute. split; congruence.
  - lia.
  - apply (mapped_sub _ _ 0 12); [apply sample_mapped | | ]; vm_compute; congruence.
  - exists s'. split; [|exact Hs']. rewrite Hrun. f_equal; vm_compute; reflexivity.
Defined.

Lemma vfs_read_past_end_witness :
  ∃ s', vfs_read (inode_at sample_fs 2) 100 3 sample_fs = Ret (3, 103, [0; 0; 0]) s'.
Proof.
  destruct (vfs_read_past_end sample_fs (inode_at sample_fs 2) 100 3 sample_fs_ok) as (s' & Hrun).
  - apply inode_at_ok, sample_fs_ok.
  - vm_compute. congruence.
  - lia.
  - lia.
  - apply (mapped_sub _ _ 0 103); [apply sample_mapped | | ]; vm_compute; congruence.
  - exists s'. rewrite Hrun. f_equal; vm_compute; reflexivity.
Defined.

Lemma get_child_inode_num_correct_witness :
  ∃ s', get_child_inode_num (inode_at sample_fs 1) (bytes_of "a" ++ replicate 30 0) sample_fs =
          Ret 2 s' ∧ same_fs sample_fs s'.
Proof.
  destruct (get_child_inode_num_correct sample_fs (inode_at sample_fs 1)
    (bytes_of "a" ++ replicate 30 0) sample_fs_ok) as (s' & Hrun & Hs').
  - apply inode_at_ok, sample_fs_ok.
  - intros _. apply sample_root_mapped.
  - exists s'. split; [|exact Hs']. rewrite Hrun. f_equal; vm_compute; reflexivity.
Defined.
