(* ===== verification/Objects.v ===== *)
(** * Kernel objects

    The structures that kernel code reaches through pointers (tasks, address
    spaces, memory areas, files, inodes, kernel stacks) live in a store, by
    address.  Memory that [kmalloc] returns holds no object before its fields
    are written, and [kfree] removes the object: a later access is a fault. *)

From S2P Require Import Prelude Layout Allocator Fs.

(** ** The structures *)

(** src/include/kernel/memory.h *)
Record mm_t := Mm { pgd : Z; mmap : Z }.

Record vm_area_t := Vma {
  vm_start : Z; vm_end : Z; vm_offset : Z; vm_mm : Z; vm_file : Z; vm_prev : Z; vm_next : Z;
}.

(** src/include/kernel/fs.h *)
Record file_t := File { f_inode : Z; f_pos : Z }.

(** src/include/kernel/process.h *)
Definition PROCESS_FDS : nat := 32.
Definition PROCESS_KERNEL_STACK_SIZE : Z := 8192.
Definition TASK_NEW : Z := 0.
Definition TASK_READY : Z := 1.
Definition TASK_RUNNING : Z := 2.
Definition TASK_BLOCKED : Z := 3.
Definition TASK_ZOMBIE : Z := 4.

Record task_t := Task {
  t_pid : Z; t_parent : Z; t_state : Z; t_exit_code : Z; t_mm : Z;
  t_kernel_stack_base : Z; t_kernel_stack_top : Z; t_kernel_esp : Z; t_cr3 : Z;
  t_file : list Z; t_prev : Z; t_next : Z;
}.

(** What [memset(task, 0, sizeof( *task))] leaves. *)
Definition zero_task : task_t := Task 0 0 0 0 0 0 0 0 0 (replicate PROCESS_FDS 0) 0 0.

Definition set_state v t := Task (t_pid t) (t_parent t) v (t_exit_code t) (t_mm t)
  (t_kernel_stack_base t) (t_kernel_stack_top t) (t_kernel_esp t) (t_cr3 t) (t_file t) (t_prev t) (t_next t).
Definition set_exit_code v t := Task (t_pid t) (t_parent t) (t_state t) v (t_mm t)
  (t_kernel_stack_base t) (t_kernel_stack_top t) (t_kernel_esp t) (t_cr3 t) (t_file t) (t_prev t) (t_next t).
Definition set_mm v t := Task (t_pid t) (t_parent t) (t_state t) (t_exit_code t) v
  (t_kernel_stack_base t) (t_kernel_stack_top t) (t_kernel_esp t) (t_cr3 t) (t_file t) (t_prev t) (t_next t).
Definition set_stack base top t := Task (t_pid t) (t_parent t) (t_state t) (t_exit_code t) (t_mm t)
  base top (t_kernel_esp t) (t_cr3 t) (t_file t) (t_prev t) (t_next t).
Definition set_kernel_esp v t := Task (t_pid t) (t_parent t) (t_state t) (t_exit_code t) (t_mm t)
  (t_kernel_stack_base t) (t_kernel_stack_top t) v (t_cr3 t) (t_file t) (t_prev t) (t_next t).
Definition set_task_cr3 v t := Task (t_pid t) (t_parent t) (t_state t) (t_exit_code t) (t_mm t)
  (t_kernel_stack_base t) (t_kernel_stack_top t) (t_kernel_esp t) v (t_file t) (t_prev t) (t_next t).
Definition set_files v t := Task (t_pid t) (t_parent t) (t_state t) (t_exit_code t) (t_mm t)
  (t_kernel_stack_base t) (t_kernel_stack_top t) (t_kernel_esp t) (t_cr3 t) v (t_prev t) (t_next t).
Definition set_prev v t := Task (t_pid t) (t_parent t) (t_state t) (t_exit_code t) (t_mm t)
  (t_kernel_stack_base t) (t_kernel_stack_top t) (t_kernel_esp t) (t_cr3 t) (t_file t) v (t_next t).
Definition set_next v t := Task (t_pid t) (t_parent t) (t_state t) (t_exit_code t) (t_mm t)
  (t_kernel_stack_base t) (t_kernel_stack_top t) (t_kernel_esp t) (t_cr3 t) (t_file t) (t_prev t) v.

(** [sizeof] on i386. *)
Definition SIZEOF_TASK : Z := 172.
Definition SIZEOF_MM : Z := 8.
Definition SIZEOF_VMA : Z := 28.
Definition SIZEOF_FILE : Z := 8.
Definition SIZEOF_INODE : Z := 32.

(** ** The store *)

Inductive obj :=
  | OTask (t : task_t)
  | OMm (m : mm_t)
  | OVma (v : vm_area_t)
  | OFile (f : file_t)
  | OInode (i : minix_inode_t)
  | OStack (stack_words : gmap Z Z).   (* a kernel stack, by address *)

Class Object (T : Type) := { inj : T → obj; prj : obj → option T; prj_inj t : prj (inj t) = Some t }.
#[global] Hint Mode Object + : typeclass_instances.

#[export, refine] Instance task_object : Object task_t :=
  {| inj := OTask; prj o := match o with OTask t => Some t | _ => None end |}.
Proof. done. Defined.
#[export, refine] Instance mm_object : Object mm_t :=
  {| inj := OMm; prj o := match o with OMm t => Some t | _ => None end |}.
Proof. done. Defined.
#[export, refine] Instance vma_object : Object vm_area_t :=
  {| inj := OVma; prj o := match o with OVma t => Some t | _ => None end |}.
Proof. done. Defined.
#[export, refine] Instance file_object : Object file_t :=
  {| inj := OFile; prj o := match o with OFile t => Some t | _ => None end |}.
Proof. done. Defined.
#[export, refine] Instance inode_object : Object minix_inode_t :=
  {| inj := OInode; prj o := match o with OInode t => Some t | _ => None end |}.
Proof. done. Defined.

#[export, refine] Instance stack_object : Object (gmap Z Z) :=
  {| inj := OStack; prj o := match o with OStack t => Some t | _ => None end |}.
Proof. done. Defined.

Record store (H : Type) := Store { st_heap : H; objs : gmap Z obj }.
Arguments Store {H} _ _.
Arguments st_heap {H} _.
Arguments objs {H} _.

#[export, refine] Instance Has_heap H : Has H (store H) :=
  {| part := st_heap; set_part h s := Store h (objs s) |}.
Proof. all: by try intros []. Defined.

Section store.
Context {L : Layout} {H : Type} `{!Allocator H}.

Definition kmalloc (size : Z) : M (store H) Z := lift (T := H) (kmalloc_heap size).

Definition kfree (p : Z) : M (store H) unit :=
  lift (T := H) (kfree_heap p);;
  modify (λ s, Store (st_heap s) (delete p (objs s))).

(** The object of type [T] at [p]; the null pointer refers to none. *)
Definition load {T} `{!Object T} (p : Z) : M (store H) T := λ s,
  match objs s !! p ≫= prj with
  | Some t => Ret t s
  | None => Fault WildAccess s
  end.

(** The first write to a piece of memory, all fields at once. *)
Definition put {T} `{!Object T} (p : Z) (t : T) : M (store H) unit := λ s,
  if p =? 0 then Fault WildAccess s else Ret tt (Store (st_heap s) (<[p := inj t]> (objs s))).

(** Writing fields of the object at [p]. *)
Definition update {T} `{!Object T} (p : Z) (f : T → T) : M (store H) unit :=
  t ← load p;
  put p (f t).
End store.

(** ** Objects and memory *)

Definition obj_size (o : obj) : Z :=
  match o with
  | OTask _ => SIZEOF_TASK
  | OMm _ => SIZEOF_MM
  | OVma _ => SIZEOF_VMA
  | OFile _ => SIZEOF_FILE
  | OInode _ => SIZEOF_INODE
  | OStack _ => PROCESS_KERNEL_STACK_SIZE
  end.

Section store_ok.
Context {L : Layout} {H : Type} `{!Allocator H}.
Implicit Types (s : store H) (live : gmap Z Z).

(** The idle task and its stack are no heap objects. *)
Definition static (p : Z) : Prop := p = idle_task ∨ p = idle_task_stack.

(** Every other object fills a live payload of the heap. *)
Definition store_ok s live : Prop :=
  alloc_ok (st_heap s) live ∧ objs s !! 0 = None ∧
  ∀ p o, objs s !! p = Some o → ¬ static p → ∃ sz, live !! p = Some sz ∧ obj_size o ≤ sz.

Lemma load_ret {T} `{!Object T} p (t : T) s : objs s !! p = Some (inj t) → load p s = Ret t s.
Proof. intros Hp. unfold load. rewrite Hp. simpl. by rewrite prj_inj. Qed.

Lemma put_ret {T} `{!Object T} p (t : T) s :
  p ≠ 0 → put p t s = Ret tt (Store (st_heap s) (<[p := inj t]> (objs s))).
Proof. intros Hp. unfold put. by rewrite (proj2 (Z.eqb_neq _ _)). Qed.

Lemma update_ret {T} `{!Object T} p (t : T) (f : T → T) s :
  objs s !! p = Some (inj t) → p ≠ 0 →
  update p f s = Ret tt (Store (st_heap s) (<[p := inj (f t)]> (objs s))).
Proof. intros Hp Hnz. unfold update. rewrite (bind_ret _ _ _ _ _ (load_ret p t s Hp)). by apply put_ret. Qed.

Lemma load_vma p t s : objs s !! p = Some (OVma t) → load (T := vm_area_t) p s = Ret t s.
Proof. exact (load_ret p t s). Qed.
Lemma update_vma p t (f : vm_area_t → vm_area_t) s :
  objs s !! p = Some (OVma t) → p ≠ 0 →
  update p f s = Ret tt (Store (st_heap s) (<[p := OVma (f t)]> (objs s))).
Proof. exact (update_ret p t f s). Qed.
Lemma load_mm p t s : objs s !! p = Some (OMm t) → load (T := mm_t) p s = Ret t s.
Proof. exact (load_ret p t s). Qed.
Lemma update_mm p t (f : mm_t → mm_t) s :
  objs s !! p = Some (OMm t) → p ≠ 0 →
  update p f s = Ret tt (Store (st_heap s) (<[p := OMm (f t)]> (objs s))).
Proof. exact (update_ret p t f s). Qed.
Lemma load_task p t s : objs s !! p = Some (OTask t) → load (T := task_t) p s = Ret t s.
Proof. exact (load_ret p t s). Qed.
Lemma update_task p t (f : task_t → task_t) s :
  objs s !! p = Some (OTask t) → p ≠ 0 →
  update p f s = Ret tt (Store (st_heap s) (<[p := OTask (f t)]> (objs s))).
Proof. exact (update_ret p t f s). Qed.
Lemma load_file p t s : objs s !! p = Some (OFile t) → load (T := file_t) p s = Ret t s.
Proof. exact (load_ret p t s). Qed.
Lemma update_file p t (f : file_t → file_t) s :
  objs s !! p = Some (OFile t) → p ≠ 0 →
  update p f s = Ret tt (Store (st_heap s) (<[p := OFile (f t)]> (objs s))).
Proof. exact (update_ret p t f s). Qed.
Lemma load_inode p t s : objs s !! p = Some (OInode t) → load (T := minix_inode_t) p s = Ret t s.
Proof. exact (load_ret p t s). Qed.
Lemma update_inode p t (f : minix_inode_t → minix_inode_t) s :
  objs s !! p = Some (OInode t) → p ≠ 0 →
  update p f s = Ret tt (Store (st_heap s) (<[p := OInode (f t)]> (objs s))).
Proof. exact (update_ret p t f s). Qed.

Lemma live_nonzero s live p sz : store_ok s live → live !! p = Some sz → p ≠ 0.
Proof.
  intros (Ha & _) Hp. pose proof (alloc_range _ _ _ _ Ha Hp) as (? & _).
  pose proof kernel_heap_range. unfold in_kernel, KERNEL_VMA in *. lia.
Qed.

Lemma obj_nonzero s live p o : store_ok s live → objs s !! p = Some o → p ≠ 0.
Proof. intros (_ & Hz & _) Hp ->. congruence. Qed.

Lemma live_not_static s live p sz :
  store_ok s live → live !! p = Some sz → 0 < sz → ¬ static p.
Proof.
  intros (Ha & _) Hp ?. pose proof (alloc_range _ _ _ _ Ha Hp) as (? & ? & ? & _).
  pose proof idle_task_not_heap. pose proof idle_stack_not_heap. unfold apart, static in *. lia.
Qed.

(** Fresh memory is no object's. *)
Lemma kmalloc_run s live n :
  store_ok s live → 0 < n ≤ KERNEL_HEAP_SIZE →
  (∃ q h sz, kmalloc n s = Ret q (Store h (objs s)) ∧ q ≠ 0 ∧ ¬ static q ∧ n ≤ sz ∧
     live !! q = None ∧ objs s !! q = None ∧ store_ok (Store h (objs s)) (<[q := sz]> live))
  ∨ kmalloc n s = Ret 0 s.
Proof.
  intros Hs Hn. pose proof Hs as (Ha & Hz & Ho).
  destruct (kmalloc_ok _ _ n Ha ltac:(lia)) as [(q & h & sz & Hrun & Hsz & Hq & Ha')|Hrun].
  - left. exists q, h, sz. assert (store_ok (Store h (objs s)) (<[q := sz]> live)) as Hs'.
    { split; [done|]. split; [done|]. intros p o Hp Hne. destruct (Ho p o Hp Hne) as (sz' & Hl & ?).
      exists sz'. split; [|done]. rewrite lookup_insert_ne; [done|]. congruence. }
    assert (<[q := sz]> live !! q = Some sz) as Hl by apply lookup_insert_eq.
    pose proof (live_nonzero _ _ _ _ Hs' Hl). pose proof (live_not_static _ _ _ _ Hs' Hl ltac:(lia)).
    split_and!; try done; [exact (lift_ret (T := H) _ s _ _ Hrun)|].
    destruct (objs s !! q) as [o|] eqn:E; [|done].
    destruct (Ho q o E) as (sz' & ? & _); [done | congruence].
  - right. unfold kmalloc. rewrite (lift_ret (T := H) _ s _ _ Hrun). by destruct s.
Qed.

(** [kmalloc] of a store is that of its heap. *)
Lemma kmalloc_heap_run n s q s' : kmalloc n s = Ret q s' → kmalloc_heap n (st_heap s) = Ret q (st_heap s').
Proof. unfold kmalloc, lift. cbn. destruct (kmalloc_heap n (st_heap s)) as [x h|]; [|done]. by intros [= -> <-]. Qed.

Lemma kfree_run s live q sz :
  store_ok s live → live !! q = Some sz →
  ∃ h, kfree q s = Ret tt (Store h (delete q (objs s))) ∧
       store_ok (Store h (delete q (objs s))) (delete q live).
Proof.
  intros (Ha & Hz & Ho) Hq. destruct (kfree_ok _ _ _ _ Ha Hq) as (h & Hrun & Ha').
  exists h. split.
  - unfold kfree. by rewrite (bind_ret _ _ _ _ _ (lift_ret (T := H) _ s _ _ Hrun)).
  - split; [done|]. split; simpl; [by rewrite lookup_delete_None; right|].
    intros p o [Hne Hp]%lookup_delete_Some Hi. destruct (Ho p o Hp Hi) as (sz' & Hl & ?).
    exists sz'. split; [|done]. by rewrite lookup_delete_ne.
Qed.

Lemma store_ok_put s live q sz o :
  store_ok s live → live !! q = Some sz → obj_size o ≤ sz →
  store_ok (Store (st_heap s) (<[q := o]> (objs s))) live.
Proof.
  intros Hs Hq Hsz. pose proof (live_nonzero _ _ _ _ Hs Hq). destruct Hs as (Ha & Hz & Ho).
  split; [done|]. split; simpl; [by rewrite lookup_insert_ne|].
  intros p o' [[<- <-]|[Hne Hp]]%lookup_insert_Some Hi; eauto.
Qed.

Lemma store_ok_update s live q o o' :
  store_ok s live → objs s !! q = Some o → obj_size o' ≤ obj_size o →
  store_ok (Store (st_heap s) (<[q := o']> (objs s))) live.
Proof.
  intros (Ha & Hz & Ho) Hq Hsz. split; [done|].
  split; simpl; [rewrite lookup_insert_ne; [done | congruence]|].
  intros p o1 [[<- <-]|[Hne Hp]]%lookup_insert_Some Hi; [|eauto].
  destruct (Ho q o Hq Hi) as (sz & ? & ?). exists sz. split; [done | lia].
Qed.

(** What a command on objects keeps: the heap, the objects it does not name, and
    the agreement of objects with memory. *)
Definition touches (s s' : store H) (P : Z → Prop) : Prop :=
  st_heap s' = st_heap s ∧ (∀ x, ¬ P x → objs s' !! x = objs s !! x) ∧
  ∀ live, store_ok s live → store_ok s' live.

Lemma touches_update s p ob' (P : Z → Prop) :
  (∃ ob, objs s !! p = Some ob ∧ obj_size ob' ≤ obj_size ob) → P p →
  touches s (Store (st_heap s) (<[p := ob']> (objs s))) P.
Proof.
  intros (ob & Hp & Hsz) HP. split; [done|]. split.
  - intros x Hx. simpl. apply lookup_insert_ne. by intros ->.
  - intros live Hs. by eapply store_ok_update.
Qed.

Lemma touches_trans s1 s2 s3 (P Q : Z → Prop) :
  (∀ x, P x → Q x) → touches s1 s2 P → touches s2 s3 Q → touches s1 s3 Q.
Proof.
  intros HPQ (H1 & O1 & S1) (H2 & O2 & S2). split; [by rewrite H2|]. split; [|auto].
  intros x Hx. rewrite O2, O1; auto.
Qed.

Lemma touches_weaken s1 s2 (P Q : Z → Prop) :
  (∀ x, P x → Q x) → touches s1 s2 P → touches s1 s2 Q.
Proof. intros HPQ (H1 & O1 & S1). split_and!; auto. Qed.
End store_ok.

(** ** The scheduler's variables (src/kernel/sched.c) *)

Record tasks (H : Type) := Tasks {
  tk_store : store H; task_ptr : Z; current_task : Z; dead_task : Z;
}.
Arguments Tasks {H} _ _ _ _.
Arguments tk_store {H} _.
Arguments task_ptr {H} _.
Arguments current_task {H} _.
Arguments dead_task {H} _.

#[export, refine] Instance Has_store H : Has (store H) (tasks H) :=
  {| part := tk_store; set_part st s := Tasks st (task_ptr s) (current_task s) (dead_task s) |}.
Proof. all: by try intros []. Defined.

Definition set_task_ptr {H} (p : Z) : M (tasks H) unit :=
  modify (λ s, Tasks (tk_store s) p (current_task s) (dead_task s)).
Definition set_current_task {H} (p : Z) : M (tasks H) unit :=
  modify (λ s, Tasks (tk_store s) (task_ptr s) p (dead_task s)).
Definition set_dead_task {H} (p : Z) : M (tasks H) unit :=
  modify (λ s, Tasks (tk_store s) (task_ptr s) (current_task s) p).
Definition get_current_task {H} : M (tasks H) Z := gets current_task.

Section lifted.
Context {L : Layout} {H : Type} `{!Allocator H}.

Definition on_store {A} (m : M (store H) A) : M (tasks H) A := lift (T := store H) m.

Definition with_store (s : tasks H) (st : store H) : tasks H :=
  Tasks st (task_ptr s) (current_task s) (dead_task s).

Lemma on_store_ret {A} (m : M (store H) A) (s : tasks H) a st :
  m (tk_store s) = Ret a st → on_store m s = Ret a (with_store s st).
Proof. intros Hm. exact (lift_ret (T := store H) m s a st Hm). Qed.
End lifted.
