(* ===== verification/Linked.v ===== *)
(** * Doubly linked lists in the store

    The kernel links memory areas and tasks by [prev] and [next] pointers.  An
    item is a node's address with its contents; [mk] makes the object from the
    contents and the two links. *)

From S2P Require Import Prelude Objects.

Section linked.
Context {A : Type} (mk : A → Z → Z → obj).
Implicit Types (o : gmap Z obj) (l : list (Z * A)).

(** From the node [p], which follows [prev], the nodes are those of [l]; the last
    is [prev'], followed by [p']. *)
Fixpoint dseg o (prev p : Z) l (prev' p' : Z) : Prop :=
  match l with
  | [] => prev = prev' ∧ p = p'
  | (q, a) :: l =>
      p = q ∧ q ≠ 0 ∧ ∃ next, o !! q = Some (mk a prev next) ∧ dseg o q next l prev' p'
  end.

Definition first l (p : Z) : Z := match l with [] => p | (q, _) :: _ => q end.
Definition final l (p : Z) : Z := match last l with Some (q, _) => q | None => p end.

Lemma first_app l1 l2 p : first (l1 ++ l2) p = first l1 (first l2 p).
Proof. by destruct l1 as [|[??]]. Qed.
Lemma final_snoc l q a p : final (l ++ [(q, a)]) p = q.
Proof. unfold final. by rewrite last_snoc. Qed.
Lemma final_cons q a l p : final ((q, a) :: l) p = final l q.
Proof.
  unfold final. destruct l as [|x l]; [done|]. rewrite last_cons_cons.
  destruct (last (x :: l)) as [[??]|] eqn:E; [done|]. by apply last_None in E.
Qed.
Lemma final_app l1 l2 p : final (l1 ++ l2) p = final l2 (final l1 p).
Proof.
  destruct l2 as [|[q a] l2 _] using rev_ind; [by rewrite app_nil_r|].
  by rewrite app_assoc, !final_snoc.
Qed.

Lemma dseg_app o prev p l1 l2 prev' p' :
  dseg o prev p (l1 ++ l2) prev' p' ↔
  ∃ prev1 p1, dseg o prev p l1 prev1 p1 ∧ dseg o prev1 p1 l2 prev' p'.
Proof.
  revert prev p. induction l1 as [|[q a] l1 IH]; intros prev p; simpl.
  - split; [intros ?; by exists prev, p | by intros (? & ? & [-> ->] & ?)].
  - split.
    + intros (-> & ? & next & ? & (prev1 & p1 & ? & ?)%IH). exists prev1, p1. by eauto 10.
    + intros (prev1 & p1 & (-> & ? & next & ? & ?) & ?). split; [done|]. split; [done|].
      exists next. split; [done|]. apply IH. by exists prev1, p1.
Qed.

Lemma dseg_ext o o' prev p l prev' p' :
  (∀ q, q ∈ l.*1 → o' !! q = o !! q) → dseg o prev p l prev' p' → dseg o' prev p l prev' p'.
Proof.
  revert prev p. induction l as [|[q a] l IH]; intros prev p Ho; simpl; [done|].
  intros (-> & ? & next & Hq & Hl). split; [done|]. split; [done|]. exists next. split.
  - rewrite Ho; [done|]. by left.
  - apply IH; [|done]. intros q' ?. apply Ho. by right.
Qed.

Lemma dseg_insert_ne o prev p l prev' p' x v :
  x ∉ l.*1 → dseg o prev p l prev' p' → dseg (<[x := v]> o) prev p l prev' p'.
Proof.
  intros Hx. apply dseg_ext. intros q Hq. apply lookup_insert_ne. by intros ->.
Qed.

Lemma dseg_first o prev p l prev' p' : dseg o prev p l prev' p' → p = first l p'.
Proof. destruct l as [|[q a] l]; simpl; [by intros [_ ?] | by intros [? _]]. Qed.

Lemma dseg_final o prev p l prev' p' : dseg o prev p l prev' p' → prev' = final l prev.
Proof.
  revert prev p. induction l as [|[q a] l IH]; intros prev p; simpl.
  - by intros [-> _].
  - intros (-> & _ & next & _ & Hl). by rewrite (IH _ _ Hl), final_cons.
Qed.

(** The two parts of a segment. *)
Lemma dseg_split o prev p l1 l2 prev' p' :
  dseg o prev p (l1 ++ l2) prev' p' →
  dseg o prev p l1 (final l1 prev) (first l2 p') ∧
  dseg o (final l1 prev) (first l2 p') l2 prev' p'.
Proof.
  intros (prev1 & p1 & H1 & H2)%dseg_app. pose proof (dseg_final _ _ _ _ _ _ H1) as ->.
  by pose proof (dseg_first _ _ _ _ _ _ H2) as ->.
Qed.

Lemma dseg_join o prev p l1 l2 prev1 p1 prev' p' :
  dseg o prev p l1 prev1 p1 → dseg o prev1 p1 l2 prev' p' → dseg o prev p (l1 ++ l2) prev' p'.
Proof. intros. apply dseg_app. by exists prev1, p1. Qed.

Lemma dseg_lookup o prev p l prev' p' q a :
  dseg o prev p l prev' p' → (q, a) ∈ l → q ≠ 0 ∧ ∃ r n, o !! q = Some (mk a r n).
Proof.
  revert prev p. induction l as [|[q0 a0] l IH]; intros prev p; simpl; [by intros _ ?%not_elem_of_nil|].
  intros (-> & Hnz & next & Hq & Hl) [[= -> ->]|Hin]%elem_of_cons; [by eauto|]. by eapply IH.
Qed.

Lemma dseg_length o prev p l prev' p' :
  NoDup l.*1 → dseg o prev p l prev' p' → (length l ≤ size o)%nat.
Proof.
  revert o prev p. induction l as [|[q a] l IH]; intros o prev p; simpl; [lia|].
  intros [Hq Hnd]%NoDup_cons (-> & Hnz & next & Ho & Hl).
  assert (length l ≤ size (delete q o))%nat as Hlen.
  { eapply IH; [done|]. eapply dseg_ext; [|done]. intros q' Hq'.
    apply lookup_delete_ne. by intros <-. }
  rewrite map_size_delete_Some in Hlen by eauto.
  assert (size o ≠ 0%nat). { intros E%map_size_empty_inv. set_solver. }
  lia.
Qed.

(** The links between a segment and what comes after or before it. *)
Lemma dseg_set_next o prev p l q a prev' p' r :
  NoDup (l ++ [(q, a)]).*1 → dseg o prev p (l ++ [(q, a)]) prev' p' →
  q ≠ 0 ∧ o !! q = Some (mk a (final l prev) p') ∧
  dseg (<[q := mk a (final l prev) r]> o) prev p (l ++ [(q, a)]) q r.
Proof.
  rewrite fmap_app. intros (Hnd & Hdisj & _)%NoDup_app Hseg.
  apply dseg_split in Hseg as (Hl & (_ & Hnz & next & Hq & <- & <-)).
  split; [done|]. split; [done|]. eapply dseg_join.
  - apply dseg_insert_ne; [|done]. intros Hin. apply (Hdisj q Hin). by left.
  - simpl. split; [done|]. split; [done|]. exists r. by rewrite lookup_insert_eq.
Qed.

Lemma dseg_set_prev o prev p q a l prev' p' r :
  NoDup ((q, a) :: l).*1 → dseg o prev p ((q, a) :: l) prev' p' →
  q ≠ 0 ∧ o !! q = Some (mk a prev (first l p')) ∧
  dseg (<[q := mk a r (first l p')]> o) r q ((q, a) :: l) (final l q) p'.
Proof.
  simpl. intros [Hq Hnd]%NoDup_cons (-> & Hnz & next & Ho & Hl).
  pose proof (dseg_first _ _ _ _ _ _ Hl) as ->. pose proof (dseg_final _ _ _ _ _ _ Hl) as ->.
  split; [done|]. split; [done|]. split; [done|]. split; [done|].
  exists (first l p'). rewrite lookup_insert_eq. split; [done | by apply dseg_insert_ne].
Qed.
(** Changing the contents of one node. *)
Lemma dseg_set_content o prev p l1 q a a' l2 prev' p' :
  NoDup (l1 ++ (q, a) :: l2).*1 → dseg o prev p (l1 ++ (q, a) :: l2) prev' p' →
  q ≠ 0 ∧ o !! q = Some (mk a (final l1 prev) (first l2 p')) ∧
  dseg (<[q := mk a' (final l1 prev) (first l2 p')]> o) prev p (l1 ++ (q, a') :: l2) prev' p'.
Proof.
  rewrite fmap_app, fmap_cons. intros (Hnd1 & Hdisj & [Hq Hnd2]%NoDup_cons)%NoDup_app Hseg.
  apply dseg_split in Hseg as (Hl1 & (_ & Hnz & next & Ho & Hl2)).
  pose proof (dseg_first _ _ _ _ _ _ Hl2) as ->.
  split; [done|]. split; [done|]. eapply dseg_join.
  - apply dseg_insert_ne; [|exact Hl1]. intros Hin. apply (Hdisj q Hin). by left.
  - simpl. split; [done|]. split; [done|]. exists (first l2 p'). rewrite lookup_insert_eq.
    split; [done | by apply dseg_insert_ne].
Qed.

(** The same for a segment that is not empty, by its ends. *)
Lemma dseg_relink_first o prev p l prev' p' r :
  l ≠ [] → NoDup l.*1 → dseg o prev p l prev' p' →
  ∃ a n, p ≠ 0 ∧ o !! p = Some (mk a prev n) ∧ dseg (<[p := mk a r n]> o) r p l (final l 0) p'.
Proof.
  intros Hne Hnd Hseg. destruct l as [|[q a] l]; [done|].
  pose proof Hseg as [-> _]. destruct (dseg_set_prev _ _ _ _ _ _ _ _ r Hnd Hseg) as (? & ? & ?).
  rewrite final_cons. eauto.
Qed.

Lemma dseg_relink_last o prev p l prev' p' r :
  l ≠ [] → NoDup l.*1 → dseg o prev p l prev' p' →
  ∃ a m, final l 0 ≠ 0 ∧ o !! final l 0 = Some (mk a m p') ∧
         dseg (<[final l 0 := mk a m r]> o) prev p l (final l 0) r.
Proof.
  intros Hne Hnd Hseg. destruct l as [|[q a] l _] using rev_ind; [done|]. rewrite final_snoc.
  destruct (dseg_set_next _ _ _ _ _ _ _ _ r Hnd Hseg) as (? & ? & ?). eauto.
Qed.

Lemma final_in l p : l ≠ [] → final l p ∈ l.*1.
Proof.
  intros Hne. destruct l as [|[q a] l _] using rev_ind; [done|].
  rewrite final_snoc, fmap_app. apply elem_of_app. right. by left.
Qed.
Lemma first_in l p : l ≠ [] → first l p ∈ l.*1.
Proof. intros Hne. destruct l as [|[q a] l]; [done|]. by left. Qed.

(** A closed list: the last node is followed by the first. *)
Definition ring o l : Prop :=
  l ≠ [] ∧ NoDup l.*1 ∧ dseg o (final l 0) (first l 0) l (final l 0) (first l 0).

Lemma first_nonempty l p p' : l ≠ [] → first l p = first l p'.
Proof. by destruct l as [|[??]]. Qed.
Lemma final_nonempty l p p' : l ≠ [] → final l p = final l p'.
Proof. unfold final. destruct l as [|x l _] using rev_ind; [done|]. by rewrite last_snoc. Qed.

Lemma ring_intro o l p q :
  l ≠ [] → NoDup l.*1 → p = final l 0 → q = first l 0 → dseg o p q l p q → ring o l.
Proof. intros ? ? -> -> ?. by split_and!. Qed.

Lemma ring_rotate o l1 l2 : ring o (l1 ++ l2) → ring o (l2 ++ l1).
Proof.
  intros (Hne & Hnd & Hseg). destruct l1 as [|[q a] l1]; [by rewrite app_nil_r|].
  destruct l2 as [|[r b] l2]; [by rewrite app_nil_r in *|].
  apply dseg_split in Hseg as [H1 H2]. rewrite final_app in H1, H2. rewrite first_app in H1, H2.
  rewrite !final_cons in H1, H2. cbn [first] in H1, H2.
  apply (ring_intro _ _ (final l1 q) r).
  - done.
  - by rewrite fmap_app, Permutation_app_comm, <-fmap_app.
  - by rewrite final_app, !final_cons.
  - done.
  - eapply dseg_join; [exact H2|]. exact H1.
Qed.

Lemma ring_lookup o l q a : ring o l → (q, a) ∈ l → q ≠ 0 ∧ ∃ r n, o !! q = Some (mk a r n).
Proof. intros (_ & _ & Hseg) Hin. by eapply dseg_lookup. Qed.

Lemma ring_ext o o' l : (∀ q, q ∈ l.*1 → o' !! q = o !! q) → ring o l → ring o' l.
Proof. intros Ho (? & ? & ?). split_and!; [done..|]. by eapply dseg_ext. Qed.

Lemma ring_set_content o l1 q a a' l2 :
  ring o (l1 ++ (q, a) :: l2) →
  ∃ r n, q ≠ 0 ∧ o !! q = Some (mk a r n) ∧ ring (<[q := mk a' r n]> o) (l1 ++ (q, a') :: l2).
Proof.
  intros (Hne & Hnd & Hseg).
  destruct (dseg_set_content _ _ _ _ _ _ a' _ _ _ Hnd Hseg) as (Hq & Ho & Hseg').
  eexists _, _. split; [done|]. split; [done|].
  eapply ring_intro; [by destruct l1 | | | |exact Hseg'].
  - by rewrite fmap_app in *.
  - by rewrite !final_app, !final_cons.
  - by rewrite !first_app.
Qed.

(** A node linked between the last and the first. *)
Lemma ring_snoc o l q b :
  ring o l → q ∉ l.*1 → q ≠ 0 → o !! q = Some (mk b (final l 0) (first l 0)) →
  ∃ a1 m1 n1 a2 m2 n2, first l 0 ≠ 0 ∧ o !! first l 0 = Some (mk a1 m1 n1) ∧
    let o1 := <[first l 0 := mk a1 q n1]> o in
    final l 0 ≠ 0 ∧ o1 !! final l 0 = Some (mk a2 m2 n2) ∧
    ring (<[final l 0 := mk a2 m2 q]> o1) (l ++ [(q, b)]).
Proof.
  intros (Hne & Hnd & Hseg) Hq Hnz Ho.
  destruct (dseg_relink_first _ _ _ _ _ _ q Hne Hnd Hseg) as (a1 & n1 & Hf & Hof & Hseg1).
  set (o1 := <[first l 0 := mk a1 q n1]> o) in *.
  destruct (dseg_relink_last _ _ _ _ _ _ q Hne Hnd Hseg1) as (a2 & m2 & He & Hoe & Hseg2).
  exists a1, (final l 0), n1, a2, m2, (first l 0).
  split; [done|]. split; [done|]. cbv zeta. split; [done|]. split; [done|].
  eapply (ring_intro _ _ q (first l 0)).
  - by destruct l.
  - rewrite fmap_app. apply NoDup_app. split; [done|]. split; [|by apply NoDup_singleton].
    intros x Hx ->%list_elem_of_singleton. done.
  - by rewrite final_snoc.
  - by destruct l as [|[??]].
  - eapply dseg_join; [exact Hseg2|]. simpl. split; [done|]. split; [done|].
    exists (first l 0). split; [|done].
    rewrite !lookup_insert_ne; [done| |]; intros <-; apply Hq; [by apply first_in | by apply final_in].
Qed.

(** The first node unlinked, its own links apart. *)
Lemma ring_tail o l q b :
  ring o ((q, b) :: l) → l ≠ [] →
  ∃ a1 m1 n1 a2 m2 n2, o !! q = Some (mk b (final l 0) (first l 0)) ∧
    final l 0 ≠ 0 ∧ o !! final l 0 = Some (mk a1 m1 n1) ∧
    let o1 := <[final l 0 := mk a1 m1 (first l 0)]> o in
    o1 !! q = o !! q ∧ first l 0 ≠ 0 ∧ o1 !! first l 0 = Some (mk a2 m2 n2) ∧
    let o2 := <[first l 0 := mk a2 (final l 0) n2]> o1 in
    o2 !! q = o !! q ∧ ring o2 l.
Proof.
  intros (_ & Hnd & Hseg) Hne. rewrite final_cons in Hseg. cbn [first] in Hseg.
  apply (dseg_split _ _ _ [(q, b)] l) in Hseg as [(_ & Hnz & next & Ho & _ & ->) Hseg].
  rewrite final_cons in Hseg. cbn [final last] in Hseg.
  rewrite fmap_cons in Hnd. apply NoDup_cons in Hnd as [Hq Hnd].
  rewrite (final_nonempty l q 0), (first_nonempty l q 0) in * by done.
  destruct (dseg_relink_last _ _ _ _ _ _ (first l 0) Hne Hnd Hseg) as (a1 & m1 & He & Hoe & Hseg1).
  set (o1 := <[final l 0 := mk a1 m1 (first l 0)]> o) in *.
  destruct (dseg_relink_first _ _ _ _ _ _ (final l 0) Hne Hnd Hseg1) as (a2 & n2 & Hf & Hof & Hseg2).
  assert (final l 0 ≠ q) by (intros <-; by apply Hq, final_in).
  assert (first l 0 ≠ q) by (intros <-; by apply Hq, first_in).
  exists a1, m1, q, a2, q, n2.
  do 3 (split; [done|]). cbv zeta. fold o1.
  split; [unfold o1; by rewrite lookup_insert_ne|]. do 2 (split; [done|]).
  split; [unfold o1; by rewrite !lookup_insert_ne|].
  by eapply ring_intro.
Qed.
End linked.

#[global] Arguments first {A} _ _.
#[global] Arguments final {A} _ _.
