(* ===== verification/Mmap.v ===== *)
(** * Memory areas (src/kernel/mmap.c, find_vma of src/kernel/fault.c)

    The areas of an address space form a doubly linked list through the store,
    headed by [mm->mmap].  The first part is the code, the second the list as
    a sequence of areas, the third the effect of the code on it. *)

From S2P Require Import Prelude Layout Allocator Heap Frames Objects Linked.

(** ** The code *)

Definition align_down (addr : Z) : Z := Z.land addr 0xfffff000.
Definition align_up (addr : Z) : Z := Z.land (addr +ᵤ PAGE_SIZE -ᵤ 1) 0xfffff000.

Section code.
Context {L : Layout} {H : Type} `{!Allocator H}.

(** The loop [while (iter && iter->vm_start < start)]: [prev] and [iter] after it. *)
Fixpoint seek (fuel : nat) (start prev iter : Z) : M (store H) (Z * Z) :=
  match fuel with
  | O => fail NoFuel
  | S fuel =>
      if iter =? 0 then mret (prev, iter)
      else
        v ← load (T := vm_area_t) iter;
        if vm_start v <? start then seek fuel start iter (vm_next v) else mret (prev, iter)
  end.

(** Every loop over a list of objects is shorter than the store. *)
Definition list_fuel (s : store H) : nat := S (size (objs s)).

(** [(prev && prev->vm_end > start) || (iter && end > iter->vm_start)] *)
Definition overlaps (prev iter start end_ : Z) : M (store H) bool :=
  left_bad ←
    if prev =? 0 then mret false
    else v ← load (T := vm_area_t) prev; mret (start <? vm_end v);
  if (left_bad : bool) then mret true
  else if iter =? 0 then mret false
  else v ← load (T := vm_area_t) iter; mret (vm_start v <? end_).

Definition set_vm_prev p v := Vma (vm_start v) (vm_end v) (vm_offset v) (vm_mm v) (vm_file v) p (vm_next v).
Definition set_vm_next p v := Vma (vm_start v) (vm_end v) (vm_offset v) (vm_mm v) (vm_file v) (vm_prev v) p.

(** The six assignments that link [vma] between [prev] and [iter]. *)
Definition link_vma (mm vma prev iter : Z) : M (store H) unit :=
  update vma (set_vm_prev prev);;
  update vma (set_vm_next iter);;
  (if prev =? 0 then update mm (λ m, Mm (pgd m) vma) else update prev (set_vm_next vma));;
  if iter =? 0 then mret tt else update iter (set_vm_prev vma).

Definition do_mmap (addr length file offset : Z) : M (tasks H) Z :=
  task ← get_current_task;
  t ← on_store (load (T := task_t) task);
  let mm := t_mm t in
  let start := align_down addr in
  if negb (file =? 0) && (offset <? addr -ᵤ start) then mret 0
  else
    let end_ := align_up (addr +ᵤ length) in
    vma ← on_store (kmalloc SIZEOF_VMA);
    if vma =? 0 then mret 0
    else
      on_store (put vma
        (Vma start end_ (if file =? 0 then 0 else offset -ᵤ (addr -ᵤ start)) mm file 0 0));;
      m ← on_store (load (T := mm_t) mm);
      if mmap m =? 0 then
        on_store (update mm (λ m, Mm (pgd m) vma));;
        mret vma
      else
        fuel ← gets (λ s : tasks H, list_fuel (tk_store s));
        '(prev, iter) ← on_store (seek fuel start 0 (mmap m));
        bad ← on_store (overlaps prev iter start end_);
        if (bad : bool) then
          on_store (kfree vma);;
          mret 0
        else
          on_store (link_vma mm vma prev iter);;
          mret vma.

Definition vm_brk_flags (addr length : Z) : M (tasks H) Z := do_mmap addr length 0 0.

Fixpoint find_vma_loop (fuel : nat) (addr vma : Z) : M (store H) Z :=
  match fuel with
  | O => fail NoFuel
  | S fuel =>
      if vma =? 0 then mret 0
      else
        v ← load (T := vm_area_t) vma;
        if (vm_start v <=? addr) && (addr <? vm_end v) then mret vma
        else find_vma_loop fuel addr (vm_next v)
  end.

Definition find_vma (mm addr : Z) : M (store H) Z :=
  m ← load (T := mm_t) mm;
  fuel ← gets list_fuel;
  find_vma_loop fuel addr (mmap m).
End code.

(** ** The list of areas *)

Record area := Area { a_start : Z; a_end : Z; a_offset : Z; a_file : Z }.

Definition vma_of (a : area) (mm prev next : Z) : vm_area_t :=
  Vma (a_start a) (a_end a) (a_offset a) mm (a_file a) prev next.

(** The nodes of the areas of [mm]. *)
Abbreviation vma_node mm := (λ a prev next, OVma (vma_of a mm prev next)).
Abbreviation vseg o mm := (dseg (vma_node mm) o).

(** The address space [mm] has the page directory [pd] and the areas [l]. *)
Definition space (o : gmap Z obj) (mm pd : Z) (l : list (Z * area)) : Prop :=
  o !! mm = Some (OMm (Mm pd (first l 0))) ∧ NoDup l.*1 ∧ vseg o mm 0 (first l 0) l (final l 0) 0.

(** Where an area goes: after those that start before it. *)
Fixpoint starts_before (start : Z) (l : list (Z * area)) : list (Z * area) * list (Z * area) :=
  match l with
  | [] => ([], [])
  | x :: l' =>
      if a_start x.2 <? start then let '(l1, l2) := starts_before start l' in (x :: l1, l2)
      else ([], l)
  end.

Definition room (a : area) (l1 l2 : list (Z * area)) : bool :=
  match last l1 with Some x => a_end x.2 <=? a_start a | None => true end &&
  match l2 with x :: _ => a_end a <=? a_start x.2 | [] => true end.

(** The list with the area [a] at the node [q], if it overlaps no neighbour. *)
Definition place (q : Z) (a : area) (l : list (Z * area)) : option (list (Z * area)) :=
  let '(l1, l2) := starts_before (a_start a) l in
  if room a l1 l2 then Some (l1 ++ (q, a) :: l2) else None.

(** Non-empty areas in ascending order, apart from each other. *)
Fixpoint ordered (l : list (Z * area)) : Prop :=
  match l with
  | [] => True
  | x :: l => a_start x.2 < a_end x.2 ∧ Forall (λ y, a_end x.2 ≤ a_start y.2) l ∧ ordered l
  end.

(** The area that [do_mmap] asks for. *)
Definition mmap_area (addr length file offset : Z) : area :=
  Area (align_down addr) (align_up (addr +ᵤ length))
    (if file =? 0 then 0 else offset -ᵤ (addr -ᵤ align_down addr)) file.

(** ** Lists of areas *)

Implicit Types (o : gmap Z obj) (l : list (Z * area)) (a : area).

Lemma starts_before_app start l l1 l2 :
  starts_before start l = (l1, l2) →
  l = l1 ++ l2 ∧ Forall (λ x, a_start x.2 < start) l1 ∧
  match l2 with x :: _ => start ≤ a_start x.2 | [] => True end.
Proof.
  revert l1 l2. induction l as [|x l IH]; intros l1 l2; simpl; [by intros [= <- <-]|].
  destruct (Z.ltb_spec (a_start x.2) start).
  - destruct (starts_before start l) as [k1 k2]. intros [= <- <-].
    destruct (IH k1 k2) as (-> & ? & ?); [done|]. split_and!; [done | by constructor | done].
  - intros [= <- <-]. done.
Qed.

(** ** Order *)

Lemma ordered_app l1 l2 :
  ordered (l1 ++ l2) ↔
  ordered l1 ∧ ordered l2 ∧ ∀ x y, x ∈ l1 → y ∈ l2 → a_end x.2 ≤ a_start y.2.
Proof.
  induction l1 as [|x l1 IH]; simpl.
  - split; [intros Hl; split_and!; [done..|] | tauto]. by intros x y ?%not_elem_of_nil.
  - rewrite IH, Forall_app, (Forall_forall _ l2). split.
    + intros (? & [? Hx] & ? & ? & Hxy). split_and!; [done..|].
      intros x' y [->|?]%elem_of_cons Hy; auto.
    + intros ((? & ? & ?) & ? & Hxy). split_and!; try done.
      * intros y Hy. apply Hxy; [by left | done].
      * intros x' y ??. apply Hxy; [by right | done].
Qed.

Lemma ordered_nonempty l x : ordered l → x ∈ l → a_start x.2 < a_end x.2.
Proof.
  induction l as [|y l IH]; simpl; [by intros _ ?%not_elem_of_nil|].
  intros (? & _ & ?) [->|?]%elem_of_cons; auto.
Qed.

Lemma ordered_last l z x :
  ordered (l ++ [z]) → x ∈ l ++ [z] → a_end x.2 ≤ a_end z.2.
Proof.
  intros Ho Hx. pose proof (ordered_nonempty _ z Ho) as Hz.
  apply ordered_app in Ho as (_ & _ & Hxy).
  apply elem_of_app in Hx as [Hx|Hx%list_elem_of_singleton]; [|by subst].
  specialize (Hxy x z Hx ltac:(by left)). specialize (Hz ltac:(set_solver)). lia.
Qed.

Lemma ordered_head l x y : ordered (x :: l) → y ∈ x :: l → a_start x.2 ≤ a_start y.2.
Proof.
  simpl. intros (? & Hf & _) [->|Hy]%elem_of_cons; [lia|].
  rewrite Forall_forall in Hf. specialize (Hf y Hy). lia.
Qed.

Definition clashes a (x : Z * area) : Prop := a_start x.2 < a_end a ∧ a_start a < a_end x.2.

Lemma place_Some q a l l' :
  ordered l → a_start a < a_end a → place q a l = Some l' →
  ordered l' ∧ l' ≡ₚ (q, a) :: l ∧ ∀ x, x ∈ l → ¬ clashes a x.
Proof.
  intros Ho Ha. unfold place. destruct (starts_before (a_start a) l) as [l1 l2] eqn:E.
  apply starts_before_app in E as (-> & Hl1 & Hl2). destruct (room a l1 l2) eqn:Hr; [|done].
  intros [= <-]. apply andb_prop in Hr as [Hr1 Hr2].
  apply ordered_app in Ho as (Ho1 & Ho2 & Ho12).
  assert (∀ x, x ∈ l1 → a_end x.2 ≤ a_start a) as H1.
  { intros x Hx. destruct l1 as [|z l1' _] using rev_ind; [by apply not_elem_of_nil in Hx|].
    rewrite last_snoc in Hr1. apply Z.leb_le in Hr1. pose proof (ordered_last _ _ _ Ho1 Hx). lia. }
  assert (∀ y, y ∈ l2 → a_end a ≤ a_start y.2) as H2.
  { intros y Hy. destruct l2 as [|z l2]; [by apply not_elem_of_nil in Hy|].
    apply Z.leb_le in Hr2. pose proof (ordered_head _ _ _ Ho2 Hy). lia. }
  split; [|split; [by rewrite Permutation_middle|]].
  - apply ordered_app. split; [done|]. split; [|].
    + split; [done|]. split; [by apply Forall_forall|done].
    + intros x y Hx [->|Hy]%elem_of_cons; auto.
  - intros x [Hx|Hx]%elem_of_app [??]; [specialize (H1 x Hx) | specialize (H2 x Hx)]; lia.
Qed.

Lemma place_None q a l :
  ordered l → a_start a < a_end a → place q a l = None → ∃ x, x ∈ l ∧ clashes a x.
Proof.
  intros Ho Ha. unfold place. destruct (starts_before (a_start a) l) as [l1 l2] eqn:E.
  apply starts_before_app in E as (-> & Hl1 & Hl2). destruct (room a l1 l2) eqn:Hr; [done|].
  intros _. apply andb_false_iff in Hr as [Hr|Hr].
  - destruct (last l1) as [x|] eqn:El; [|done]. apply Z.leb_gt in Hr. exists x.
    assert (x ∈ l1) as Hx by (apply last_Some in El as [l' ->]; set_solver).
    split; [set_solver|]. rewrite Forall_forall in Hl1. specialize (Hl1 x Hx). split; lia.
  - destruct l2 as [|x l2]; [done|]. apply Z.leb_gt in Hr. exists x. split; [set_solver|].
    pose proof (ordered_nonempty _ x Ho ltac:(set_solver)). split; lia.
Qed.

(** ** Page rounding *)

Lemma align_down_mod addr : 0 ≤ addr < 0x100000000 → align_down addr = addr - addr mod 4096.
Proof. apply land_page_mask. Qed.

Lemma align_up_mod addr :
  0 ≤ addr → align_up addr = u32 (addr + 4095) - u32 (addr + 4095) mod 4096.
Proof.
  intros Ha. unfold align_up, PAGE_SIZE.
  replace (addr +ᵤ 4096 -ᵤ 1) with (u32 (addr + 4095)).
  - apply land_page_mask, u32_range.
  - unfold u32. rewrite Zminus_mod_idemp_l. f_equal. lia.
Qed.

(** A request that does not wrap around covers its bytes with whole pages. *)
Lemma mmap_area_covers addr length file offset :
  0 ≤ addr → 0 < length → addr + length ≤ 0xfffff000 →
  let a := mmap_area addr length file offset in
  a_start a ≤ addr ∧ addr + length ≤ a_end a ∧ addr < a_start a + 4096 ∧
  a_end a < addr + length + 4096 ∧ a_start a mod 4096 = 0 ∧ a_end a mod 4096 = 0 ∧
  a_end a ≤ 0xfffff000.
Proof.
  intros Ha Hl Hs. simpl. rewrite align_down_mod, align_up_mod, !u32_id by (rewrite ?u32_id; lia).
  Z.div_mod_to_equations. lia.
Qed.

Section proofs.
Context {L : Layout} {H : Type} `{!Allocator H}.
Implicit Types (s : store H) (live : gmap Z Z).

Lemma seek_run fuel start mm prev p l1 l2 prev' s :
  vseg (objs s) mm prev p (l1 ++ l2) prev' 0 → (length l1 < fuel)%nat →
  Forall (λ x, a_start x.2 < start) l1 →
  match l2 with x :: _ => start ≤ a_start x.2 | [] => True end →
  seek fuel start prev p s = Ret (final l1 prev, first l2 0) s.
Proof.
  revert prev p l1. induction fuel as [|fuel IH]; intros prev p l1 Hseg Hfuel Hl1 Hl2; [lia|].
  cbn [seek]. destruct l1 as [|[q a] l1]; simpl in Hseg.
  - destruct l2 as [|[q a] l2]; simpl in *.
    + by destruct Hseg as [-> ->].
    + destruct Hseg as (-> & Hnz & next & Ho & _). rewrite (proj2 (Z.eqb_neq q 0)) by done.
      rewrite (bind_ret _ _ _ _ _ (load_vma q _ s Ho)). simpl.
      by rewrite (proj2 (Z.ltb_ge _ _)).
  - destruct Hseg as (-> & Hnz & next & Ho & Hseg). apply Forall_cons in Hl1 as [Ha Hl1].
    rewrite (proj2 (Z.eqb_neq q 0)) by done.
    rewrite (bind_ret _ _ _ _ _ (load_vma q _ s Ho)). simpl in *.
    rewrite (proj2 (Z.ltb_lt _ _)) by done.
    rewrite (IH _ _ l1); [|done|lia|done..]. do 2 f_equal. unfold final.
    destruct l1 as [|x l1]; [done|]. rewrite last_cons_cons.
    destruct (last (x :: l1)) as [[??]|] eqn:E; [done|]. by apply last_None in E.
Qed.

Lemma final_last l x q0 : last l = Some x → final l q0 = x.1.
Proof. intros E. unfold final. rewrite E. by destruct x. Qed.

Lemma overlaps_run mm prev p l1 l2 prev' a s :
  vseg (objs s) mm 0 p (l1 ++ l2) prev' 0 → prev = final l1 0 →
  overlaps prev (first l2 0) (a_start a) (a_end a) s = Ret (negb (room a l1 l2)) s.
Proof.
  intros Hseg ->. unfold overlaps, room.
  assert (∀ x, x ∈ l1 ++ l2 → ∃ v, load (T := vm_area_t) x.1 s = Ret v s ∧ x.1 ≠ 0 ∧
    vm_start v = a_start x.2 ∧ vm_end v = a_end x.2) as Hload.
  { intros [q b] Hx. destruct (dseg_lookup _ _ _ _ _ _ _ _ _ Hseg Hx) as (Hnz & r & n & Ho).
    exists (vma_of b mm r n). split_and!; try done. by apply load_vma. }
  assert ((if final l1 0 =? 0 then mret false
      else v ← load (T := vm_area_t) (final l1 0); mret (a_start a <? vm_end v)) s =
    Ret (match last l1 with Some x => a_start a <? a_end x.2 | None => false end) s) as Hleft.
  { destruct (last l1) as [x|] eqn:E; [|unfold final; by rewrite E].
    rewrite (final_last _ _ _ E). destruct (Hload x) as (v & Hv & Hnz & _ & <-).
    { apply elem_of_app. left. apply last_Some in E as [l' ->]. set_solver. }
    rewrite (proj2 (Z.eqb_neq _ _)) by done. by rewrite (bind_ret _ _ _ _ _ Hv). }
  rewrite (bind_ret _ _ _ _ _ Hleft).
  destruct (last l1) as [x|]; [rewrite Z.leb_antisym; destruct (a_start a <? a_end x.2); [done|]|]; simpl.
  all: destruct l2 as [|y l2]; [done|].
  all: destruct (Hload y) as (v & Hv & Hnz & Hvs & _); [set_solver|].
  all: destruct y as [q b]; simpl in *; rewrite (proj2 (Z.eqb_neq _ _)) by done.
  all: rewrite (bind_ret _ _ _ _ _ Hv), Hvs, Z.leb_antisym, negb_involutive; done.
Qed.

(** ** Linking a node *)

Lemma link_left mm pd l1 p' q s :
  NoDup l1.*1 → mm ∉ l1.*1 → mm ≠ 0 → objs s !! mm = Some (OMm (Mm pd (first l1 p'))) →
  vseg (objs s) mm 0 (first l1 p') l1 (final l1 0) p' →
  ∃ s', (if final l1 0 =? 0 then update mm (λ m, Mm (pgd m) q)
         else update (final l1 0) (set_vm_next q)) s = Ret tt s' ∧
    touches s s' (λ x, x = mm ∨ x ∈ l1.*1) ∧
    objs s' !! mm = Some (OMm (Mm pd (first l1 q))) ∧
    vseg (objs s') mm 0 (first l1 q) l1 (final l1 0) q.
Proof.
  intros Hnd Hmm Hnz Hm Hseg. destruct l1 as [|[r b] l0 _] using rev_ind.
  - simpl in *. eexists. split; [by apply update_mm|].
    split; [apply touches_update; [by eexists|by left]|].
    split; [simpl; by rewrite lookup_insert_eq | done].
  - rewrite final_snoc in *.
    destruct (dseg_set_next _ _ _ _ _ _ _ _ _ q Hnd Hseg) as (Hrnz & Hr & Hseg').
    assert (r ∈ (l0 ++ [(r, b)]).*1) as Hin by (rewrite fmap_app; set_solver).
    rewrite !first_app in *. cbn [first] in *.
    rewrite (proj2 (Z.eqb_neq r 0)) by done.
    eexists. split; [by apply update_vma|].
    split; [apply touches_update; [by eexists | by right]|]. split; [|done].
    simpl. rewrite lookup_insert_ne; [done|]. by intros ->.
Qed.

Lemma link_right mm prev l2 prev' q s :
  NoDup l2.*1 → vseg (objs s) mm prev (first l2 0) l2 prev' 0 →
  ∃ s', (if first l2 0 =? 0 then mret tt else update (first l2 0) (set_vm_prev q)) s = Ret tt s' ∧
    touches s s' (λ x, x ∈ l2.*1) ∧ vseg (objs s') mm q (first l2 0) l2 (final l2 q) 0.
Proof.
  intros Hnd Hseg. destruct l2 as [|[r b] l2].
  - exists s. split; [done|]. split; [by split|done].
  - destruct (dseg_set_prev _ _ _ _ _ _ _ _ _ q Hnd Hseg) as (Hrnz & Hr & Hseg').
    cbn [first]. rewrite (proj2 (Z.eqb_neq r 0)) by done.
    eexists. split; [by apply update_vma|]. rewrite final_cons. split; [|done].
    apply touches_update; [by eexists | by left].
Qed.

Lemma vseg_touches s s' (P : Z → Prop) mm prev p l prev' p' :
  touches s s' P → (∀ x, x ∈ l.*1 → ¬ P x) →
  vseg (objs s) mm prev p l prev' p' → vseg (objs s') mm prev p l prev' p'.
Proof. intros (_ & Ho & _) HP. apply dseg_ext. auto. Qed.

Lemma link_vma_run mm pd l1 l2 q a s :
  space (objs s) mm pd (l1 ++ l2) → mm ≠ 0 → mm ∉ (l1 ++ l2).*1 → q ∉ (l1 ++ l2).*1 → q ≠ mm →
  q ≠ 0 → objs s !! q = Some (OVma (vma_of a mm 0 0)) →
  ∃ s', link_vma mm q (final l1 0) (first l2 0) s = Ret tt s' ∧
    touches s s' (λ x, x = q ∨ x = mm ∨ x ∈ (l1 ++ l2).*1) ∧
    space (objs s') mm pd (l1 ++ (q, a) :: l2).
Proof.
  intros (Hm & Hnd & Hseg) Hmnz Hmm Hq Hqm Hqnz Ho. unfold link_vma.
  rewrite (bind_ret _ _ _ _ _ (update_vma q _ (set_vm_prev (final l1 0)) s Ho Hqnz)).
  set (s1 := Store _ _). assert (touches s s1 (λ x, x = q ∨ x = mm ∨ x ∈ (l1 ++ l2).*1)) as T1
    by (apply touches_update; [by eexists | by left]).
  assert (objs s1 !! q = Some (OVma (vma_of a mm (final l1 0) 0))) as Ho1 by apply lookup_insert_eq.
  rewrite (bind_ret _ _ _ _ _ (update_vma q _ (set_vm_next (first l2 0)) s1 Ho1 Hqnz)).
  set (s2 := Store (st_heap s1) _).
  assert (touches s s2 (λ x, x = q ∨ x = mm ∨ x ∈ (l1 ++ l2).*1)) as T2.
  { eapply touches_trans; [|exact T1|]; [done|]. apply touches_update; [by eexists | by left]. }
  assert (objs s2 !! q = Some (OVma (vma_of a mm (final l1 0) (first l2 0)))) as Ho2
    by apply lookup_insert_eq.
  assert (∀ x, x ≠ q → objs s2 !! x = objs s !! x) as Hx2
    by (intros x Hne; simpl; by rewrite !lookup_insert_ne).
  rewrite fmap_app in *. apply NoDup_app in Hnd as (Hnd1 & Hd12 & Hnd2).
  apply not_elem_of_app in Hmm as [Hmm1 Hmm2], Hq as [Hq1 Hq2].
  apply dseg_app in Hseg as (prev1 & p1 & Hseg1 & Hseg2).
  pose proof (dseg_final _ _ _ _ _ _ _ Hseg1) as ->. pose proof (dseg_first _ _ _ _ _ _ _ Hseg2) as ->.
  assert (first (l1 ++ l2) 0 = first l1 (first l2 0)) as Hf by (by destruct l1 as [|[??]]).
  rewrite Hf in Hm, Hseg1.
  destruct (link_left mm pd l1 (first l2 0) q s2) as (s3 & Hrun3 & T3 & Hm3 & Hseg3); try done.
  { by rewrite Hx2. }
  { eapply dseg_ext; [|done]. intros x Hx. apply Hx2. by intros ->. }
  rewrite (bind_ret _ _ _ _ _ Hrun3).
  assert (objs s3 !! q = objs s2 !! q) as Hq3 by (apply T3; tauto).
  destruct (link_right mm (final l1 0) l2 (final (l1 ++ l2) 0) q s3) as (s4 & Hrun4 & T4 & Hseg4); try done.
  { eapply dseg_ext; [|done]. intros x Hx. destruct T3 as (_ & T3 & _).
    rewrite T3, Hx2; [done | by intros -> |]. intros [-> | ?]; [done|]. by eapply Hd12. }
  exists s4. split; [done|]. split.
  { eapply touches_trans; [|exact T2|].
    2: { eapply touches_trans; [|eapply touches_weaken; [|exact T3]|eapply touches_weaken; [|exact T4]].
         - intros x Hx. exact Hx.
         - intros x [|]; [tauto|]. right; right. apply elem_of_app. by left.
         - intros x ?. right; right. apply elem_of_app. by right. }
    done. }
  assert (∀ x, x ∉ l2.*1 → objs s4 !! x = objs s3 !! x) as Hx4 by apply T4.
  assert (first (l1 ++ (q, a) :: l2) 0 = first l1 q) as Hf' by (by destruct l1 as [|[??]]).
  assert (vseg (objs s4) mm 0 (first l1 q) (l1 ++ (q, a) :: l2) (final l2 q) 0) as Hseg5.
  { apply dseg_app. exists (final l1 0), q. split.
    - eapply dseg_ext; [|done]. intros x Hx. apply Hx4. intros ?. by eapply Hd12.
    - simpl. split; [done|]. split; [done|]. exists (first l2 0).
      rewrite Hx4, Hq3, Ho2 by done. done. }
  split; [|split].
  - rewrite Hf', Hx4, Hm3 by done. done.
  - rewrite fmap_app, fmap_cons. apply NoDup_app. split; [done|]. split.
    + intros x Hx [->|Hx2']%elem_of_cons; [done|]. by eapply Hd12.
    + by apply NoDup_cons.
  - rewrite Hf'. by rewrite (dseg_final _ _ _ _ _ _ _ Hseg5) in Hseg5.
Qed.

(** ** The whole call *)

Lemma space_mm_not_in o mm pd l : space o mm pd l → mm ∉ l.*1.
Proof.
  intros (Hm & _ & Hseg) [[q b] [Hq Hin]]%list_elem_of_fmap. simpl in Hq. subst q.
  destruct (dseg_lookup _ _ _ _ _ _ _ _ _ Hseg Hin) as (_ & r & n & Ho). congruence.
Qed.

Lemma space_lookup_None o mm pd l q : space o mm pd l → o !! q = None → (q ∉ l.*1) ∧ q ≠ mm.
Proof.
  intros (Hm & _ & Hseg) Hq. split; [|congruence].
  intros [[q' b] [Hq' Hin]]%list_elem_of_fmap. simpl in Hq'. subst q'.
  destruct (dseg_lookup _ _ _ _ _ _ _ _ _ Hseg Hin) as (_ & r & n & Ho). congruence.
Qed.

Lemma space_insert o mm pd l q b :
  space o mm pd l → q ∉ l.*1 → q ≠ mm → space (<[q := b]> o) mm pd l.
Proof.
  intros (Hm & Hnd & Hseg) Hq Hne. split; [by rewrite lookup_insert_ne|]. split; [done|].
  by apply dseg_insert_ne.
Qed.

Lemma space_first_zero o mm pd l : space o mm pd l → first l 0 = 0 → l = [].
Proof.
  intros (_ & _ & Hseg) Hf. destruct l as [|[q b] l]; [done|]. simpl in *.
  by destruct Hseg as (_ & ? & _).
Qed.

Lemma touches_space_out s s' mm l q x :
  touches s s' (λ y, y = q ∨ y = mm ∨ y ∈ l.*1) → x ≠ q → x ≠ mm → x ∉ l.*1 →
  objs s' !! x = objs s !! x.
Proof. intros (_ & Ho & _) ???. apply Ho. tauto. Qed.

(** [do_mmap] after the node [q] has been allocated and filled. *)
Definition do_mmap_link (mm q start end_ : Z) : M (tasks H) Z :=
  m ← on_store (load (T := mm_t) mm);
  if mmap m =? 0 then
    on_store (update mm (λ m, Mm (pgd m) q));;
    mret q
  else
    fuel ← gets (λ s : tasks H, list_fuel (tk_store s));
    '(prev, iter) ← on_store (seek fuel start 0 (mmap m));
    bad ← on_store (overlaps prev iter start end_);
    if (bad : bool) then
      on_store (kfree q);;
      mret 0
    else
      on_store (link_vma mm q prev iter);;
      mret q.

Lemma do_mmap_link_run mm pd l q sz a live (s : tasks H) :
  let st := tk_store s in
  store_ok st live → live !! q = Some sz → space (objs st) mm pd l → q ∉ l.*1 → q ≠ mm →
  objs st !! q = Some (OVma (vma_of a mm 0 0)) →
  match place q a l with
  | Some l' => ∃ st', do_mmap_link mm q (a_start a) (a_end a) s = Ret q (with_store s st') ∧
      touches st st' (λ x, x = q ∨ x = mm ∨ x ∈ l.*1) ∧ space (objs st') mm pd l'
  | None => ∃ h, do_mmap_link mm q (a_start a) (a_end a) s =
        Ret 0 (with_store s (Store h (delete q (objs st)))) ∧
      store_ok (Store h (delete q (objs st))) (delete q live)
  end.
Proof.
  intros st Hst Hq Hsp Hql Hqm Ho. pose proof Hsp as (Hm & Hnd & Hseg).
  pose proof (live_nonzero _ _ _ _ Hst Hq) as Hqnz. pose proof (obj_nonzero _ _ _ _ Hst Hm) as Hmnz.
  unfold do_mmap_link.
  rewrite (bind_ret _ _ _ _ _ (on_store_ret _ s _ _ (load_mm mm _ st Hm))). cbn [mmap].
  replace (with_store s st) with s by (by destruct s).
  destruct (Z.eqb_spec (first l 0) 0) as [Hz|Hz].
  { rewrite (space_first_zero _ _ _ _ Hsp Hz) in *. simpl place.
    rewrite (bind_ret _ _ _ _ _ (on_store_ret _ s _ _ (update_mm mm _ (λ m, Mm (pgd m) q) st Hm Hmnz))).
    eexists. split; [done|]. split; [apply touches_update; [by eexists | tauto]|].
    split; [simpl; by rewrite lookup_insert_eq|]. split; [by apply NoDup_singleton|].
    simpl. split; [done|]. split; [done|]. exists 0. by rewrite lookup_insert_ne. }
  rewrite gets_bind. unfold place. destruct (starts_before (a_start a) l) as [l1 l2] eqn:E.
  apply starts_before_app in E as (-> & Hl1 & Hl2).
  assert (length l1 < list_fuel st)%nat as Hfuel.
  { pose proof (dseg_length _ _ _ _ _ _ _ Hnd Hseg) as Hlen. unfold list_fuel.
    rewrite length_app in Hlen. lia. }
  rewrite (bind_ret _ _ _ _ _ (on_store_ret _ s _ _ (seek_run _ _ _ _ _ _ _ _ _ Hseg Hfuel Hl1 Hl2))).
  replace (with_store s st) with s by (by destruct s). cbv beta iota.
  rewrite (bind_ret _ _ _ _ _ (on_store_ret _ s _ _ (overlaps_run _ _ _ _ _ _ _ _ Hseg eq_refl))).
  replace (with_store s st) with s by (by destruct s).
  destruct (room a l1 l2); cbv beta iota delta [negb].
  - destruct (link_vma_run mm pd l1 l2 q a st) as (st' & Hrun & Ht & Hsp'); try done;
      [by eapply space_mm_not_in|].
    rewrite (bind_ret _ _ _ _ _ (on_store_ret _ s _ _ Hrun)). by exists st'.
  - destruct (kfree_run st live q sz Hst Hq) as (h & Hrun & Hok).
    rewrite (bind_ret _ _ _ _ _ (on_store_ret _ s _ _ Hrun)). by exists h.
Qed.

(** The current task and its address space. *)
Definition current_space (s : tasks H) (mm pd : Z) (l : list (Z * area)) : Prop :=
  ∃ t, objs (tk_store s) !! current_task s = Some (OTask t) ∧ t_mm t = mm ∧
       space (objs (tk_store s)) mm pd l.

Lemma do_mmap_run addr length file offset mm pd l live (s : tasks H) :
  store_ok (tk_store s) live → current_space s mm pd l →
  let a := mmap_area addr length file offset in
  (do_mmap addr length file offset s = Ret 0 s ∧
     (file ≠ 0 ∧ offset < addr -ᵤ align_down addr ∨ kmalloc SIZEOF_VMA (tk_store s) = Ret 0 (tk_store s))) ∨
  ∃ q sz st', live !! q = None ∧ objs (tk_store s) !! q = None ∧
    match place q a l with
    | Some l' => do_mmap addr length file offset s = Ret q (with_store s st') ∧
        store_ok st' (<[q := sz]> live) ∧ space (objs st') mm pd l' ∧
        ∀ x, x ≠ q → x ≠ mm → x ∉ l.*1 → objs st' !! x = objs (tk_store s) !! x
    | None => do_mmap addr length file offset s = Ret 0 (with_store s st') ∧
        store_ok st' live ∧ objs st' = objs (tk_store s)
    end.
Proof.
  intros Hst (t & Ht & <- & Hsp) a. unfold do_mmap, get_current_task. rewrite gets_bind.
  rewrite (bind_ret _ _ _ _ _ (on_store_ret _ s _ _ (load_task _ _ (tk_store s) Ht))).
  replace (with_store s (tk_store s)) with s by (by destruct s). cbv zeta.
  destruct (negb (file =? 0) && (offset <? addr -ᵤ align_down addr)) eqn:Eoff.
  { left. split; [done|]. left. apply andb_prop in Eoff as [?%negb_true_iff ?%Z.ltb_lt].
    split; [by apply Z.eqb_neq | done]. }
  destruct (kmalloc_run (tk_store s) live SIZEOF_VMA) as [(q & h & sz & Hrun & Hqnz & Hqi & Hsz & Hq & Ho & Hok)|Hrun].
  { done. } { unfold SIZEOF_VMA, KERNEL_HEAP_SIZE. lia. }
  2: { left. rewrite (bind_ret _ _ _ _ _ (on_store_ret _ s _ _ Hrun)). split; [|by right]. by destruct s. }
  right. exists q, sz. rewrite (bind_ret _ _ _ _ _ (on_store_ret _ s _ _ Hrun)).
  rewrite (proj2 (Z.eqb_neq q 0)) by done. set (s1 := with_store s _).
  rewrite (bind_ret _ _ _ _ _ (on_store_ret _ s1 _ _ (put_ret q _ (tk_store s1) Hqnz))).
  set (s2 := with_store s1 _).
  destruct (space_lookup_None _ _ _ _ q Hsp Ho) as [Hql Hqm].
  pose proof (do_mmap_link_run (t_mm t) pd l q sz a (<[q:=sz]> live) s2) as Hlink. cbv zeta in Hlink.
  assert (store_ok (tk_store s2) (<[q:=sz]> live)) as Hok2.
  { eapply store_ok_put; [exact Hok | apply lookup_insert_eq | done]. }
  specialize (Hlink Hok2 (lookup_insert_eq _ _ _) (space_insert _ _ _ _ _ _ Hsp Hql Hqm) Hql Hqm
    (lookup_insert_eq _ _ _)).
  change (m ← on_store (load (t_mm t)); _) with (do_mmap_link (t_mm t) q (a_start a) (a_end a)).
  destruct (place q a l) as [l'|].
  - destruct Hlink as (st' & Hrun' & Ht' & Hsp'). exists st'. split_and!; try done.
    + by apply Ht'.
    + intros x Hx1 Hx2 Hx3. rewrite (touches_space_out _ _ _ _ _ _ Ht') by done.
      simpl. by rewrite lookup_insert_ne.
  - destruct Hlink as (h' & Hrun' & Hok'). rewrite delete_insert_id in Hok' by done.
    simpl in Hrun', Hok'. rewrite delete_insert_id in Hrun', Hok' by done. by eexists.
Qed.

(** ** The area of an address *)

Definition covers (addr : Z) (x : Z * area) : bool := (a_start x.2 <=? addr) && (addr <? a_end x.2).

Fixpoint area_at (addr : Z) l : option (Z * area) :=
  match l with
  | [] => None
  | x :: l => if covers addr x then Some x else area_at addr l
  end.

Lemma area_at_Some addr l x : area_at addr l = Some x → x ∈ l ∧ covers addr x = true.
Proof.
  induction l as [|y l IH]; simpl; [done|]. destruct (covers addr y) eqn:E.
  - intros [= <-]. split; [by left | done].
  - intros Hx. destruct (IH Hx). split; [by right | done].
Qed.

Lemma area_at_None addr l x : area_at addr l = None → x ∈ l → covers addr x = false.
Proof.
  induction l as [|y l IH]; simpl; [by intros _ ?%not_elem_of_nil|].
  destruct (covers addr y) eqn:E; [done|]. intros Hn [->|Hx]%elem_of_cons; auto.
Qed.

Lemma find_vma_loop_run fuel addr mm prev p l prev' s :
  vseg (objs s) mm prev p l prev' 0 → (length l < fuel)%nat →
  find_vma_loop fuel addr p s = Ret (match area_at addr l with Some x => x.1 | None => 0 end) s.
Proof.
  revert prev p l. induction fuel as [|fuel IH]; intros prev p l Hseg Hfuel; [lia|].
  cbn [find_vma_loop]. destruct l as [|[q a] l]; simpl in Hseg.
  - by destruct Hseg as [_ ->].
  - destruct Hseg as (-> & Hnz & next & Ho & Hl). rewrite (proj2 (Z.eqb_neq q 0)) by done.
    rewrite (bind_ret _ _ _ _ _ (load_vma q _ s Ho)). simpl. unfold covers. simpl.
    destruct ((a_start a <=? addr) && (addr <? a_end a)); [done|].
    apply (IH _ _ _ Hl). simpl in Hfuel. lia.
Qed.

Lemma find_vma_run addr mm pd l s :
  space (objs s) mm pd l →
  find_vma mm addr s = Ret (match area_at addr l with Some x => x.1 | None => 0 end) s.
Proof.
  intros (Hm & Hnd & Hseg). unfold find_vma. rewrite (bind_ret _ _ _ _ _ (load_mm mm _ s Hm)).
  rewrite gets_bind. cbn [mmap]. apply (find_vma_loop_run _ _ _ _ _ _ _ _ Hseg).
  pose proof (dseg_length _ _ _ _ _ _ _ Hnd Hseg). unfold list_fuel. lia.
Qed.
End proofs.

(** ** Properties *)

Section properties.
Context {L : Layout} {H : Type} `{!Allocator H}.

Lemma do_mmap_area_run addr length file offset mm pd l live (s : tasks H) :
  store_ok (tk_store s) live → current_space s mm pd l → ordered l →
  0 ≤ addr → 0 < length → addr + length ≤ 0xfffff000 →
  let a := mmap_area addr length file offset in
  (∃ q sz st' l', do_mmap addr length file offset s = Ret q (with_store s st') ∧
     live !! q = None ∧ objs (tk_store s) !! q = None ∧ store_ok st' (<[q := sz]> live) ∧ space (objs st') mm pd l' ∧
     ordered l' ∧ l' ≡ₚ (q, a) :: l ∧ (∀ x, x ∈ l → ¬ clashes a x) ∧
     ∀ x, x ≠ q → x ≠ mm → x ∉ l.*1 → objs st' !! x = objs (tk_store s) !! x) ∨
  (∃ st', do_mmap addr length file offset s = Ret 0 (with_store s st') ∧ store_ok st' live ∧
     objs st' = objs (tk_store s) ∧
     (file ≠ 0 ∧ offset < addr -ᵤ align_down addr ∨
      st' = tk_store s ∧ kmalloc SIZEOF_VMA st' = Ret 0 st' ∨
      ∃ x, x ∈ l ∧ clashes a x)).
Proof.
  intros Hst Hcur Ho Ha Hl Hs a.
  destruct (mmap_area_covers addr length file offset Ha Hl Hs) as (H1 & H2 & _).
  fold a in H1, H2. assert (a_start a < a_end a) as Hne by lia.
  destruct (do_mmap_run addr length file offset mm pd l live s Hst Hcur)
    as [[Hrun Hwhy] | (q & sz & st' & Hq & Hqo & Hplace)].
  - right. exists (tk_store s). split; [by rewrite Hrun; destruct s|]. tauto.
  - destruct (place q (mmap_area addr length file offset) l) as [l'|] eqn:E.
    + left. destruct Hplace as (Hrun & Hok & Hsp & Hframe). exists q, sz, st', l'.
      destruct (place_Some _ _ _ _ Ho Hne E) as (? & ? & ?). split_and!; done.
    + right. destruct Hplace as (Hrun & Hok & Hobjs). exists st'.
      pose proof (place_None _ _ _ Ho Hne E). tauto.
Qed.

(** C13 (memory areas, [do_mmap]): for a request that does not wrap around, on a
    list of areas in order: the call either adds one area of whole pages that
    covers the request, overlaps none of the others and keeps the list in order
    and doubly linked; or returns 0 and leaves every object as it was, and then
    the file offset was below the page offset, or there was no memory for the
    node, or an area overlaps the request. *)
Theorem do_mmap_correct addr length file offset mm pd l live (s : tasks H) :
  store_ok (tk_store s) live → current_space s mm pd l → ordered l →
  0 ≤ addr → 0 < length → addr + length ≤ 0xfffff000 →
  let a := mmap_area addr length file offset in
  (∃ q sz st' l', do_mmap addr length file offset s = Ret q (with_store s st') ∧
     live !! q = None ∧ objs (tk_store s) !! q = None ∧ store_ok st' (<[q := sz]> live) ∧ space (objs st') mm pd l' ∧
     ordered l' ∧ l' ≡ₚ (q, a) :: l ∧ (∀ x, x ∈ l → ¬ clashes a x) ∧
     ∀ x, x ≠ q → x ≠ mm → x ∉ l.*1 → objs st' !! x = objs (tk_store s) !! x) ∨
  (∃ st', do_mmap addr length file offset s = Ret 0 (with_store s st') ∧ store_ok st' live ∧
     objs st' = objs (tk_store s) ∧
     (file ≠ 0 ∧ offset < addr -ᵤ align_down addr ∨
      st' = tk_store s ∧ kmalloc SIZEOF_VMA st' = Ret 0 st' ∨
      ∃ x, x ∈ l ∧ clashes a x)).
Proof. exact (do_mmap_area_run addr length file offset mm pd l live s). Qed.

(** (memory areas, wrap-around): when [addr + length] passes the end of the
    address space, a call on an empty list still succeeds, and the area it
    records ends before it starts: no address is in it. *)
Theorem do_mmap_wraps addr length mm pd live (s : tasks H) q st' :
  store_ok (tk_store s) live → current_space s mm pd [] →
  0 ≤ addr < 0x100000000 → 0 < length < 0x100000000 → 0x100000000 ≤ addr + length →
  align_up (addr + length - 0x100000000) < align_down addr →
  do_mmap addr length 0 0 s = Ret q (with_store s st') → q ≠ 0 →
  ∃ a, space (objs st') mm pd [(q, a)] ∧ a_start a = align_down addr ∧ a_end a < a_start a ∧
       ∀ x, find_vma mm x st' = Ret 0 st'.
Proof.
  intros Hst Hcur Ha Hl Hw Hend Hrun Hq.
  assert (addr +ᵤ length = addr + length - 0x100000000) as Eu.
  { unfold u32. symmetry. apply (Z.mod_unique _ _ 1); lia. }
  destruct (do_mmap_run addr length 0 0 mm pd [] live s Hst Hcur)
    as [[Hrun' _] | (q' & sz & st1 & _ & _ & Hplace)]; [congruence|].
  destruct Hplace as (Hrun' & _ & Hsp & _). rewrite Hrun' in Hrun. injection Hrun as -> Est.
  assert (st1 = st') as -> by done.
  exists (mmap_area addr length 0 0). split; [done|]. split; [done|].
  assert (a_end (mmap_area addr length 0 0) < a_start (mmap_area addr length 0 0)) as Hlt
    by (simpl; by rewrite Eu).
  split; [done|]. intros x. rewrite (find_vma_run _ _ _ _ _ Hsp). simpl area_at.
  assert (covers x (q, mmap_area addr length 0 0) = false) as ->; [|done].
  unfold covers. cbn [snd]. destruct (Z.leb_spec (a_start (mmap_area addr length 0 0)) x); [|done].
  rewrite andb_true_l. apply Z.ltb_ge. lia.
Qed.

(** (memory areas, [find_vma]): on areas in order, the node returned is the one
    whose area contains the address, and 0 is returned exactly when there is none;
    the search terminates and changes nothing. *)
Theorem find_vma_correct addr mm pd l (s : store H) :
  space (objs s) mm pd l → ordered l →
  (∃ q a, find_vma mm addr s = Ret q s ∧ (q, a) ∈ l ∧ a_start a ≤ addr < a_end a ∧
     ∀ x, x ∈ l → a_start x.2 ≤ addr < a_end x.2 → x = (q, a)) ∨
  (find_vma mm addr s = Ret 0 s ∧ ∀ x, x ∈ l → ¬ a_start x.2 ≤ addr < a_end x.2).
Proof.
  intros Hsp Ho. rewrite (find_vma_run _ _ _ _ _ Hsp).
  destruct (area_at addr l) as [[q a]|] eqn:E.
  - left. exists q, a. apply area_at_Some in E as [Hin [H1%Z.leb_le H2%Z.ltb_lt]%andb_prop].
    split_and!; [done..|]. intros x Hx Hr.
    apply list_elem_of_split in Hin as (l1 & l2 & ->). simpl in *.
    apply ordered_app in Ho as (_ & [_ [Hf _]] & Hxy).
    apply elem_of_app in Hx as [Hx|[->|Hx]%elem_of_cons]; [|done|].
    + specialize (Hxy x (q, a) Hx ltac:(by left)). simpl in Hxy. lia.
    + rewrite Forall_forall in Hf. specialize (Hf x Hx). simpl in Hf. lia.
  - right. split; [done|]. intros x Hx Hr. apply (area_at_None _ _ _ E) in Hx.
    apply andb_false_iff in Hx as [?%Z.leb_gt|?%Z.ltb_ge]; lia.
Qed.
End properties.

(** ** Witnesses *)

Section witnesses.
#[local] Existing Instance sample_layout.

(** A heap with a task, its address space and one area. *)
Definition sample_segs : list seg := [(176, false); (8, false); (32, false); (65272, true)].
Definition sample_heap : heap := Heap (list_to_map [
  (0xc0110000, HB 176 false 0xc01100bc); (0xc01100bc, HB 8 false 0xc01100d0);
  (0xc01100d0, HB 32 false 0xc01100fc); (0xc01100fc, HB 65272 true 0)]) 0xc0110000.

Definition the_task : Z := 0xc011000c.
Definition the_mm : Z := 0xc01100c8.
Definition the_vma : Z := 0xc01100dc.
Definition the_area : area := Area 0x8048000 0x804a000 0 0.

Definition sample_tasks (head : Z) : tasks heap :=
  Tasks (Store sample_heap (list_to_map [
    (the_task, OTask (set_mm the_mm zero_task)); (the_mm, OMm (Mm 0xc0120000 head));
    (the_vma, OVma (vma_of the_area the_mm 0 0))])) 0 the_task 0.

Lemma sample_heap_inv : heap_inv sample_heap sample_segs.
Proof.
  constructor; try reflexivity; [|by repeat constructor].
  split; [|split; [|split; [|split; [|done]]]]; vm_compute; reflexivity.
Qed.

Lemma sample_store_ok head : store_ok (tk_store (sample_tasks head)) (live sample_segs).
Proof.
  split; [by exists sample_segs; split; [apply sample_heap_inv|]|]. split; [done|].
  intros p ob Hp _. simpl in Hp.
  repeat (apply lookup_insert_Some in Hp as [[<- <-]|[_ Hp]];
    [eexists; split; [vm_compute; reflexivity | vm_compute; discriminate]|]).
  done.
Qed.

Lemma sample_space : current_space (sample_tasks the_vma) the_mm 0xc0120000 [(the_vma, the_area)].
Proof.
  eexists. split; [reflexivity|]. split; [done|]. split; [done|]. split; [by apply NoDup_singleton|].
  split; [done|]. split; [done|]. by exists 0.
Qed.

Lemma sample_space_empty : current_space (sample_tasks 0) the_mm 0xc0120000 [].
Proof. eexists. split; [reflexivity|]. split; [done|]. split; [done|]. by split; [apply NoDup_nil|]. Qed.

Lemma sample_ordered : ordered [(the_vma, the_area)].
Proof. simpl. split; [lia|]. split; [by apply Forall_nil|done]. Qed.

Lemma do_mmap_correct_witness :
  ∃ q st' l', do_mmap 0x804a010 0xfff 0 0 (sample_tasks the_vma) = Ret q (with_store (sample_tasks the_vma) st') ∧
    space (objs st') the_mm 0xc0120000 l' ∧ ordered l' ∧
    l' ≡ₚ [(q, Area 0x804a000 0x804c000 0 0); (the_vma, the_area)].
Proof.
  destruct (do_mmap_correct 0x804a010 0xfff 0 0 the_mm 0xc0120000 [(the_vma, the_area)] _ _
    (sample_store_ok the_vma) sample_space sample_ordered ltac:(lia) ltac:(lia) ltac:(lia))
    as [(q & sz & st' & l' & Hrun & _ & _ & _ & Hsp & Ho & Hp & _) | (st' & _ & _ & _ & [[? _]|[[-> Hk]|(x & Hx & Hc)]])].
  - exists q, st', l'. split; [exact Hrun|]. split; [exact Hsp|]. split; [exact Ho|].
    assert (mmap_area 0x804a010 0xfff 0 0 = Area 0x804a000 0x804c000 0 0) as E
      by (vm_compute; reflexivity).
    rewrite E in Hp. exact Hp.
  - done.
  - apply (f_equal (λ r, match r with Ret q _ => q | _ => 0 end)) in Hk. vm_compute in Hk. done.
  - apply list_elem_of_singleton in Hx as ->. destruct Hc as [_ Hc]. vm_compute in Hc. done.
Defined.

Lemma do_mmap_wraps_witness :
  ∃ q a st', do_mmap 0xfffff000 0x2000 0 0 (sample_tasks 0) = Ret q (with_store (sample_tasks 0) st') ∧
    space (objs st') the_mm 0xc0120000 [(q, a)] ∧ a_end a < a_start a ∧
    ∀ x, find_vma the_mm x st' = Ret 0 st'.
Proof.
  assert (∃ q st', do_mmap 0xfffff000 0x2000 0 0 (sample_tasks 0) =
    Ret q (with_store (sample_tasks 0) st') ∧ q ≠ 0) as (q & st' & Hrun & Hq).
  { eexists _, _. split; [vm_compute; reflexivity | done]. }
  destruct (do_mmap_wraps 0xfffff000 0x2000 the_mm 0xc0120000 _ (sample_tasks 0) q st'
    (sample_store_ok 0) sample_space_empty ltac:(lia) ltac:(lia) ltac:(lia) eq_refl Hrun Hq)
    as (a & Hsp & _ & Hlt & Hfind).
  exists q, a, st'. exact (conj Hrun (conj Hsp (conj Hlt Hfind))).
Defined.

Lemma find_vma_correct_witness :
  find_vma the_mm 0x8049fff (tk_store (sample_tasks the_vma)) =
    Ret the_vma (tk_store (sample_tasks the_vma)).
Proof.
  destruct sample_space as (t & _ & _ & Hsp).
  destruct (find_vma_correct 0x8049fff the_mm 0xc0120000 _ _ Hsp sample_ordered)
    as [(q & a & Hrun & Hin & _) | [_ Hno]].
  - apply list_elem_of_singleton in Hin. injection Hin as -> ->. exact Hrun.
  - destruct (Hno (the_vma, the_area)); [by left | simpl; lia].
Defined.
End witnesses.
