(* ===== verification/Kernel.v ===== *)
(** * The state of the kernel

    One record of the components, for the code that uses several of them. *)

From S2P Require Import Prelude Layout Allocator Ports Gdt Console Frames Paging BlockDevice Fs Objects.

(** The heap [H], the disk [B] and the display's ports [D] are parameters. *)
Record kernel (H B D : Type) := Kernel {
  k_tasks : tasks H;          (* sched.c, and every object in the heap *)
  k_frames : frames;          (* memory.c *)
  k_paging : paging;          (* paging.c and the registers it uses *)
  k_fs : fs B;                (* fs.c and the disk *)
  k_console : console * D;    (* console.c and its ports *)
  k_pid_count : Z;            (* process.c *)
  k_tss : tss_entry_t;        (* tss.c *)
  k_eflags : Z;               (* the processor's flags *)
  k_user : gmap Z Z;          (* bytes of the frames above the kernel, by physical address *)
}.
Arguments Kernel {H B D} _ _ _ _ _ _ _ _ _.
Arguments k_tasks {H B D} _.
Arguments k_frames {H B D} _.
Arguments k_paging {H B D} _.
Arguments k_fs {H B D} _.
Arguments k_console {H B D} _.
Arguments k_pid_count {H B D} _.
Arguments k_tss {H B D} _.
Arguments k_eflags {H B D} _.
Arguments k_user {H B D} _.

Section parts.
Context {H B D : Type}.
Implicit Types k : kernel H B D.

Definition set_tasks x k : kernel H B D := Kernel x (k_frames k) (k_paging k) (k_fs k) (k_console k)
  (k_pid_count k) (k_tss k) (k_eflags k) (k_user k).
Definition set_frames x k : kernel H B D := Kernel (k_tasks k) x (k_paging k) (k_fs k) (k_console k)
  (k_pid_count k) (k_tss k) (k_eflags k) (k_user k).
Definition set_paging x k : kernel H B D := Kernel (k_tasks k) (k_frames k) x (k_fs k) (k_console k)
  (k_pid_count k) (k_tss k) (k_eflags k) (k_user k).
Definition set_fs x k : kernel H B D := Kernel (k_tasks k) (k_frames k) (k_paging k) x (k_console k)
  (k_pid_count k) (k_tss k) (k_eflags k) (k_user k).
Definition set_console x k : kernel H B D := Kernel (k_tasks k) (k_frames k) (k_paging k) (k_fs k) x
  (k_pid_count k) (k_tss k) (k_eflags k) (k_user k).
Definition set_pid_count x k : kernel H B D := Kernel (k_tasks k) (k_frames k) (k_paging k) (k_fs k) (k_console k)
  x (k_tss k) (k_eflags k) (k_user k).
Definition set_tss x k : kernel H B D := Kernel (k_tasks k) (k_frames k) (k_paging k) (k_fs k) (k_console k)
  (k_pid_count k) x (k_eflags k) (k_user k).
Definition set_eflags x k : kernel H B D := Kernel (k_tasks k) (k_frames k) (k_paging k) (k_fs k) (k_console k)
  (k_pid_count k) (k_tss k) x (k_user k).
Definition set_user x k : kernel H B D := Kernel (k_tasks k) (k_frames k) (k_paging k) (k_fs k) (k_console k)
  (k_pid_count k) (k_tss k) (k_eflags k) x.

Definition k_esp0 k : Z := esp0 (k_tss k).
Definition set_esp0 x k : kernel H B D := set_tss (set_tss_esp0 x (k_tss k)) k.

#[export, refine] Instance Has_tasks : Has (tasks H) (kernel H B D) :=
  {| part := k_tasks; set_part := set_tasks |}.
Proof. all: by try intros []. Defined.
#[export, refine] Instance Has_frames : Has frames (kernel H B D) :=
  {| part := k_frames; set_part := set_frames |}.
Proof. all: by try intros []. Defined.
#[export, refine] Instance Has_paging : Has paging (kernel H B D) :=
  {| part := k_paging; set_part := set_paging |}.
Proof. all: by try intros []. Defined.
#[export, refine] Instance Has_fs : Has (fs B) (kernel H B D) :=
  {| part := k_fs; set_part := set_fs |}.
Proof. all: by try intros []. Defined.
#[export, refine] Instance Has_console : Has (console * D) (kernel H B D) :=
  {| part := k_console; set_part := set_console |}.
Proof. all: by try intros []. Defined.

(** Commands of a component in the whole kernel. *)
Definition in_tasks {A} (m : M (tasks H) A) : M (kernel H B D) A := lift (T := tasks H) m.
Definition in_store {A} (m : M (store H) A) : M (kernel H B D) A := in_tasks (on_store m).
Definition in_frames {A} (m : M frames A) : M (kernel H B D) A := lift (T := frames) m.
Definition in_paging {A} (m : M paging A) : M (kernel H B D) A := lift (T := paging) m.
Definition in_fs {A} (m : M (fs B) A) : M (kernel H B D) A := lift (T := fs B) m.
Definition in_console {A} (m : M (console * D) A) : M (kernel H B D) A := lift (T := console * D) m.

Definition set_store (st : store H) k : kernel H B D := set_tasks (with_store (k_tasks k) st) k.

Lemma in_tasks_ret {A} (m : M (tasks H) A) k a t :
  m (k_tasks k) = Ret a t → in_tasks m k = Ret a (set_tasks t k).
Proof. intros Hm. exact (lift_ret (T := tasks H) m k a t Hm). Qed.
Lemma in_store_ret {A} (m : M (store H) A) k a st :
  m (tk_store (k_tasks k)) = Ret a st → in_store m k = Ret a (set_store st k).
Proof. intros Hm. apply in_tasks_ret, on_store_ret, Hm. Qed.
Lemma in_frames_ret {A} (m : M frames A) k a t :
  m (k_frames k) = Ret a t → in_frames m k = Ret a (set_frames t k).
Proof. intros Hm. exact (lift_ret (T := frames) m k a t Hm). Qed.
Lemma in_paging_ret {A} (m : M paging A) k a t :
  m (k_paging k) = Ret a t → in_paging m k = Ret a (set_paging t k).
Proof. intros Hm. exact (lift_ret (T := paging) m k a t Hm). Qed.
Lemma in_fs_ret {A} (m : M (fs B) A) k a t :
  m (k_fs k) = Ret a t → in_fs m k = Ret a (set_fs t k).
Proof. intros Hm. exact (lift_ret (T := fs B) m k a t Hm). Qed.
Lemma in_console_ret {A} (m : M (console * D) A) k a t :
  m (k_console k) = Ret a t → in_console m k = Ret a (set_console t k).
Proof. intros Hm. exact (lift_ret (T := console * D) m k a t Hm). Qed.
End parts.

(** ** Messages *)

Section messages.
Context {H B D : Type} `{!Bus D}.

(** [print "..."] is [console_puts] on the kernel's console. *)
Definition print (s : string) : M (kernel H B D) unit :=
  in_console (console_puts (bytes_of s));; mret tt.
Definition newline : Z := 10.
Definition print_line (s : string) : M (kernel H B D) unit :=
  in_console (console_puts (bytes_of s ++ [newline]));; mret tt.
End messages.

(** ** Objects *)

Section objects.
Context {L : Layout} {H : Type} `{!Allocator H} {B D : Type}.
Implicit Types (k : kernel H B D).

Lemma set_store_id k : set_store (tk_store (k_tasks k)) k = k.
Proof. by destruct k as [[[]]]. Qed.

Lemma in_current k : in_tasks get_current_task k = Ret (current_task (k_tasks k)) k.
Proof. by destruct k. Qed.

Lemma in_store_read {A} (m : M (store H) A) k a :
  m (tk_store (k_tasks k)) = Ret a (tk_store (k_tasks k)) → in_store m k = Ret a k.
Proof. intros Hm. by rewrite (in_store_ret _ k _ _ Hm), set_store_id. Qed.

Lemma in_paging_read {A} (m : M paging A) k a : m (k_paging k) = Ret a (k_paging k) → in_paging m k = Ret a k.
Proof. intros Hm. rewrite (in_paging_ret _ k _ _ Hm). by destruct k. Qed.

Lemma in_get_cr3 k : in_paging get_cr3 k = Ret (Z.land (cr3 (k_paging k)) PAGE_ADDRESS_MASK) k.
Proof. by destruct k. Qed.

Definition insert_obj (p : Z) (o : obj) k : kernel H B D :=
  set_store (Store (st_heap (tk_store (k_tasks k))) (<[p := o]> (objs (tk_store (k_tasks k))))) k.

Section generic.
Context {T : Type} `{!Object T}.

Lemma in_load k p (t : T) : objs (tk_store (k_tasks k)) !! p = Some (inj t) → in_store (load p) k = Ret t k.
Proof. intros Ho. rewrite (in_store_ret _ k _ _ (load_ret p t _ Ho)). by rewrite set_store_id. Qed.

Lemma in_put k p (t : T) : p ≠ 0 → in_store (put p t) k = Ret tt (insert_obj p (inj t) k).
Proof. intros Hp. exact (in_store_ret _ k _ _ (put_ret p t _ Hp)). Qed.

Lemma in_update k p (t : T) (f : T → T) :
  objs (tk_store (k_tasks k)) !! p = Some (inj t) → p ≠ 0 →
  in_store (update p f) k = Ret tt (insert_obj p (inj (f t)) k).
Proof. intros Ho Hp. exact (in_store_ret _ k _ _ (update_ret p t f _ Ho Hp)). Qed.
End generic.

Lemma in_load_task k p (t : task_t) :
  objs (tk_store (k_tasks k)) !! p = Some (OTask t) → in_store (load (T := task_t) p) k = Ret t k.
Proof. exact (in_load k p t). Qed.
Lemma in_put_task k p (t : task_t) : p ≠ 0 → in_store (put p t) k = Ret tt (insert_obj p (OTask t) k).
Proof. exact (in_put k p t). Qed.
Lemma in_update_task k p (t : task_t) (f : task_t → task_t) :
  objs (tk_store (k_tasks k)) !! p = Some (OTask t) → p ≠ 0 →
  in_store (update p f) k = Ret tt (insert_obj p (OTask (f t)) k).
Proof. exact (in_update k p t f). Qed.

Lemma in_load_mm k p (t : mm_t) :
  objs (tk_store (k_tasks k)) !! p = Some (OMm t) → in_store (load (T := mm_t) p) k = Ret t k.
Proof. exact (in_load k p t). Qed.
Lemma in_put_mm k p (t : mm_t) : p ≠ 0 → in_store (put p t) k = Ret tt (insert_obj p (OMm t) k).
Proof. exact (in_put k p t). Qed.
Lemma in_update_mm k p (t : mm_t) (f : mm_t → mm_t) :
  objs (tk_store (k_tasks k)) !! p = Some (OMm t) → p ≠ 0 →
  in_store (update p f) k = Ret tt (insert_obj p (OMm (f t)) k).
Proof. exact (in_update k p t f). Qed.

Lemma in_load_vma k p (t : vm_area_t) :
  objs (tk_store (k_tasks k)) !! p = Some (OVma t) → in_store (load (T := vm_area_t) p) k = Ret t k.
Proof. exact (in_load k p t). Qed.
Lemma in_put_vma k p (t : vm_area_t) : p ≠ 0 → in_store (put p t) k = Ret tt (insert_obj p (OVma t) k).
Proof. exact (in_put k p t). Qed.
Lemma in_update_vma k p (t : vm_area_t) (f : vm_area_t → vm_area_t) :
  objs (tk_store (k_tasks k)) !! p = Some (OVma t) → p ≠ 0 →
  in_store (update p f) k = Ret tt (insert_obj p (OVma (f t)) k).
Proof. exact (in_update k p t f). Qed.

Lemma in_load_file k p (t : file_t) :
  objs (tk_store (k_tasks k)) !! p = Some (OFile t) → in_store (load (T := file_t) p) k = Ret t k.
Proof. exact (in_load k p t). Qed.
Lemma in_put_file k p (t : file_t) : p ≠ 0 → in_store (put p t) k = Ret tt (insert_obj p (OFile t) k).
Proof. exact (in_put k p t). Qed.
Lemma in_update_file k p (t : file_t) (f : file_t → file_t) :
  objs (tk_store (k_tasks k)) !! p = Some (OFile t) → p ≠ 0 →
  in_store (update p f) k = Ret tt (insert_obj p (OFile (f t)) k).
Proof. exact (in_update k p t f). Qed.

Lemma in_load_inode k p (t : minix_inode_t) :
  objs (tk_store (k_tasks k)) !! p = Some (OInode t) → in_store (load (T := minix_inode_t) p) k = Ret t k.
Proof. exact (in_load k p t). Qed.
Lemma in_put_inode k p (t : minix_inode_t) : p ≠ 0 → in_store (put p t) k = Ret tt (insert_obj p (OInode t) k).
Proof. exact (in_put k p t). Qed.
Lemma in_update_inode k p (t : minix_inode_t) (f : minix_inode_t → minix_inode_t) :
  objs (tk_store (k_tasks k)) !! p = Some (OInode t) → p ≠ 0 →
  in_store (update p f) k = Ret tt (insert_obj p (OInode (f t)) k).
Proof. exact (in_update k p t f). Qed.

Lemma in_load_stack k p (t : gmap Z Z) :
  objs (tk_store (k_tasks k)) !! p = Some (OStack t) → in_store (load (T := gmap Z Z) p) k = Ret t k.
Proof. exact (in_load k p t). Qed.
Lemma in_put_stack k p (t : gmap Z Z) : p ≠ 0 → in_store (put p t) k = Ret tt (insert_obj p (OStack t) k).
Proof. exact (in_put k p t). Qed.
Lemma in_update_stack k p (t : gmap Z Z) (f : gmap Z Z → gmap Z Z) :
  objs (tk_store (k_tasks k)) !! p = Some (OStack t) → p ≠ 0 →
  in_store (update p f) k = Ret tt (insert_obj p (OStack (f t)) k).
Proof. exact (in_update k p t f). Qed.
End objects.
