(* ===== verification/Space.v ===== *)
(** * Address spaces and physical memory

    What paging.c and memory.c together promise: every page that a page table of
    a process shows is a frame of its own.  The second part is user memory as the
    kernel reaches it, through the current page directory. *)

From S2P Require Import Prelude Layout Ports Console Frames Paging Fs Objects Kernel.

Section space.
Context {L : Layout}.
Implicit Types (p : paging) (f : frames).

Definition pte p (j m : Z) : Z := word p (pt_slot j + 4 * m).

(** Entry [m] of the table that entry [k] of directory [i] refers to is the valid [e]. *)
Definition entry p (i k m e : Z) : Prop :=
  ∃ j, maps p i k j ∧ 0 ≤ m < 1024 ∧ pte p j m = e ∧ present e = true.

#[export] Instance kernel_pde_dec k : Decision (kernel_pde k).
Proof. unfold kernel_pde. apply _. Defined.

Definition frame_in (e : Z) : Z := Z.land e PAGE_ADDRESS_MASK.

(** Mapped frames are in use, lie above the kernel, and are mapped once. *)
Record mem_ok p f : Prop := {
  mo_paging : paging_ok p;
  mo_frames : frames_ok f;
  mo_backed : ∀ i k m e, entry p i k m e →
    ∃ n, 1024 ≤ Z.of_nat n < 16384 ∧ f !! n = Some true ∧ frame_in e = frame_of n;
  mo_unique : ∀ i k m e i' k' m' e', entry p i k m e → entry p i' k' m' e' →
    frame_in e = frame_in e' → i = i' ∧ k = k' ∧ m = m';
}.

Lemma frame_of_inj n n' : frame_of n = frame_of n' → n = n'.
Proof. unfold frame_of. lia. Qed.

(** The processor's walk in a process's directory finds the entries, and in the
    kernel's part the boot table. *)
Lemma walk_entry p i va e :
  paging_ok p → pd_live p i → 0 ≤ va < 0x100000000 → ¬ kernel_pde (pde_index va) →
  walk p (pd_slot i) va = Some e ↔ entry p i (pde_index va) (pte_index va) e.
Proof.
  intros Hp Hi Hva Hk. unfold walk, entry, pte. split.
  - intros Hw. destruct (present (pde p (pd_slot i) (pde_index va))) eqn:Hpr; [|done].
    destruct (po_pde _ Hp i _ Hi (pde_index_range va)) as [Hn|[[? _]|(j & Hm)]]; [congruence | done |].
    exists j. pose proof Hm as (_ & _ & _ & _ & _ & _ & Hvma). rewrite Hvma in Hw.
    destruct (present (word p (pt_slot j + 4 * pte_index va))) eqn:He; [|done]. injection Hw as <-.
    split; [done|]. split; [apply pte_index_range | done].
  - intros (j & (_ & _ & _ & _ & Hpr & _ & Hvma) & _ & He & Hpe). by rewrite Hpr, Hvma, He, Hpe.
Qed.

(** *** Words of the tables *)

Lemma pde_word_run p i k :
  0 ≤ i < 16 → 0 ≤ k < 1024 → load_word (pd_slot i +ᵤ 4 * k) p = Ret (pde p (pd_slot i) k) p.
Proof.
  intros Hi Hk. destruct (pd_slot_page i Hi) as [Hin Hal].
  rewrite u32_id by (pose proof (in_kernel_u32 _ _ Hin); unfold in_kernel, KERNEL_VMA_END in *; lia).
  unfold load_word. by rewrite kernel_word_page.
Qed.

Lemma set_pde_run p i k v :
  0 ≤ i < 16 → 0 ≤ k < 1024 → store_word (pd_slot i +ᵤ 4 * k) v p = Ret tt (set_pde i k v p).
Proof.
  intros Hi Hk. destruct (pd_slot_page i Hi) as [Hin Hal].
  rewrite u32_id by (pose proof (in_kernel_u32 _ _ Hin); unfold in_kernel, KERNEL_VMA_END in *; lia).
  unfold store_word. by rewrite kernel_word_page.
Qed.

Lemma pte_word_run p j m :
  0 ≤ j < 64 → 0 ≤ m < 1024 → load_word (pt_slot j +ᵤ 4 * m) p = Ret (pte p j m) p.
Proof.
  intros Hj Hm. destruct (pt_slot_page j Hj) as [Hin Hal].
  rewrite u32_id by (pose proof (in_kernel_u32 _ _ Hin); unfold in_kernel, KERNEL_VMA_END in *; lia).
  unfold load_word. by rewrite kernel_word_page.
Qed.

(** *** The frame of one page mapped *)

Lemma pte_set_pte j m v p j' m' :
  0 ≤ j < 64 → 0 ≤ j' < 64 → 0 ≤ m < 1024 → 0 ≤ m' < 1024 →
  pte (set_pte j m v p) j' m' = if decide (j = j' ∧ m = m') then v else pte p j' m'.
Proof.
  intros. unfold pte, set_pte. rewrite word_set. unfold pt_slot, PAGE_SIZE.
  repeat case_decide; [done | lia | lia | done].
Qed.

Lemma entry_set_pte p i k j m v i' k' m' e :
  paging_ok p → maps p i k j → 0 ≤ m < 1024 →
  entry (set_pte j m v p) i' k' m' e ↔
    (i' = i ∧ k' = k ∧ m' = m ∧ e = v ∧ present v = true) ∨
    (¬ (i' = i ∧ k' = k ∧ m' = m) ∧ entry p i' k' m' e).
Proof.
  intros Hp Hm Hr. pose proof Hm as (_ & [Hj _] & _). unfold entry. split.
  - intros (j' & Hm' & Hr' & He & Hpr). apply maps_set_pte in Hm'; [|done..].
    pose proof Hm' as (_ & [Hj' _] & _). rewrite pte_set_pte in He by done. case_decide as Hd.
    + destruct Hd as [<- <-]. left. destruct (po_unique _ Hp _ _ _ _ _ Hm Hm') as [<- <-]. by subst.
    + right. split; [|by exists j']. intros (-> & -> & ->). apply Hd. split; [|done].
      pose proof Hm as (_ & _ & _ & _ & _ & _ & V). pose proof Hm' as (_ & _ & _ & _ & _ & _ & V').
      unfold pt_slot, PAGE_SIZE in *. lia.
  - intros [(-> & -> & -> & -> & Hpr)|(Hne & j' & Hm' & Hr' & He & Hpr)].
    + exists j. split; [by apply maps_set_pte|]. split; [done|]. by rewrite pte_set_pte, decide_True.
    + exists j'. pose proof Hm' as (_ & [Hj' _] & _). split; [by apply maps_set_pte|]. split; [done|].
      rewrite pte_set_pte, decide_False; [done| |done..]. intros [<- <-]. apply Hne.
      by destruct (po_unique _ Hp _ _ _ _ _ Hm Hm') as [<- <-].
Qed.

Lemma frame_of_aligned n : frame_of n mod 4096 = 0.
Proof. unfold frame_of. by apply Z.mod_mul. Qed.

Lemma frame_in_lor n fl : Z.of_nat n < 16384 → 0 ≤ fl < 4096 → frame_in (Z.lor (frame_of n) fl) = frame_of n.
Proof. intros Hn Hfl. apply lor_page_mask; [|apply frame_of_aligned|done]. unfold frame_of. lia. Qed.

Lemma mem_ok_map p f i k j m n fl :
  mem_ok p f → maps p i k j → 0 ≤ m < 1024 → f !! n = Some false → 0 ≤ fl < 4096 → present fl = true →
  mem_ok (set_pte j m (Z.lor (frame_of n) fl) p) (<[n := true]> f).
Proof.
  intros [Hp Hf Hb Hu] Hm Hr Hn Hfl Hpr. pose proof (frames_clear _ _ Hf Hn) as Hnr.
  pose proof Hm as (_ & [Hj _] & _).
  assert (∀ i' k' m' e, entry p i' k' m' e → frame_in e ≠ frame_of n) as Hnew.
  { intros i' k' m' e He E. destruct (Hb _ _ _ _ He) as (n' & _ & Hn' & E'). rewrite E in E'.
    apply frame_of_inj in E' as <-. congruence. }
  assert (frame_in (Z.lor (frame_of n) fl) = frame_of n) as Efr by (apply frame_in_lor; [lia | done]).
  constructor.
  - apply paging_ok_set_pte; try done. apply lor_page_range; [unfold frame_of; lia | apply frame_of_aligned | done].
  - apply frames_ok_insert; [done | lia].
  - intros i' k' m' e He. apply (entry_set_pte p i k j) in He as [(-> & -> & -> & -> & _)|[_ He]]; [| |done..].
    + exists n. split; [done|]. split; [|done]. apply list_lookup_insert_eq. by eapply lookup_lt_Some.
    + destruct (Hb _ _ _ _ He) as (n' & Hr' & Hn' & E). exists n'. split; [done|]. split; [|done].
      rewrite list_lookup_insert_ne; [done | congruence].
  - intros i1 k1 m1 e1 i2 k2 m2 e2 H1 H2 E. apply (entry_set_pte p i k j) in H1, H2; [|done..].
    destruct H1 as [(-> & -> & -> & -> & _)|[_ H1]], H2 as [(-> & -> & -> & -> & _)|[_ H2]].
    + done.
    + destruct (Hnew _ _ _ _ H2). by rewrite <-E.
    + destruct (Hnew _ _ _ _ H1). by rewrite E.
    + by eapply Hu.
Qed.

(** *** A page table added *)

Lemma entry_grow_pt p p' i k j v :
  paging_ok p → pd_live p i → 0 ≤ k < 1024 → ¬ kernel_pde k → present (pde p (pd_slot i) k) = false →
  0 ≤ j < 64 → pt_in_use p !! Z.to_nat j = Some false →
  zeroed (pt_slot j) (set_pt_in_use (<[Z.to_nat j := true]> (pt_in_use p)) p) p' →
  0 ≤ v < 0x100000000 → present v = true → user v = true → get_pd_vma v = pt_slot j →
  paging_ok (set_pde i k v p') ∧ maps (set_pde i k v p') i k j ∧
  (∀ i' k' m e, entry (set_pde i k v p') i' k' m e ↔ entry p i' k' m e) ∧
  (∀ pgd k', directory p pgd → 0 ≤ k' < 1024 → ¬ (pgd = pd_slot i ∧ k' = k) →
     pde (set_pde i k v p') pgd k' = pde p pgd k').
Proof.
  intros Hp Hi Hk Hnk Habs Hj Hfree Hz Hv Hpr Hus Hvma.
  destruct (paging_ok_grow_pt _ _ _ Hp Hj Hfree Hz) as (Hp' & Hlj & Hno & Hmaps & Hpde & Hl2 & _).
  pose proof Hz as [Hwords _]. pose proof Hi as [Hir _].
  assert (pd_live p' i) as Hi' by (unfold pd_live; by rewrite Hwords).
  assert (pde_value p' i k v) as Hval.
  { right; right. do 3 (split; [done|]). exists j. split; [done|]. split; [done|].
    intros i' k' Hm. by destruct (Hno i' k'). }
  assert (maps (set_pde i k v p') i k j) as Hm.
  { apply maps_set_pde; [done..|]. left. done. }
  split; [by apply paging_ok_set_pde|]. split; [done|]. split.
  - intros i' k' m e. unfold entry. split; intros (j' & Hmj & Hr & He & Hpe).
    + pose proof Hmj as (_ & [Hj' _] & _). unfold pte in He. rewrite word_set_pde in He by done.
      apply maps_set_pde in Hmj as [(<- & <- & _ & _ & _ & _ & _ & Hv')|[_ Hmj]]; [| |done..].
      * exfalso. assert (j' = j) as -> by (rewrite Hvma in Hv'; unfold pt_slot, PAGE_SIZE in Hv'; lia).
        rewrite (zeroed_page _ _ _ m Hz) in He by (layout; Z.div_mod_to_equations; lia). by subst e.
      * exists j'. apply Hmaps in Hmj. split; [done|]. split; [done|]. split; [|done].
        rewrite (zeroed_word _ _ _ _ Hz) in He; [exact He|].
        assert (j' ≠ j). { intros ->. apply (Hno i' k'). by apply Hmaps. }
        unfold pt_slot, PAGE_SIZE. lia.
    + pose proof Hmj as (_ & [Hj' _] & _).
      assert (j' ≠ j) as Hjne. { intros ->. apply (Hno i' k'). by apply Hmaps. }
      exists j'. split; [|split; [done|split; [|done]]].
      * apply maps_set_pde; [done..|]. right. split; [|by apply Hmaps].
        intros [<- <-]. destruct Hmj as (_ & _ & _ & _ & Hpr' & _). congruence.
      * unfold pte. rewrite word_set_pde by done. rewrite (zeroed_word _ _ _ _ Hz); [exact He|].
        unfold pt_slot, PAGE_SIZE. lia.
  - intros pgd k' Hd Hk' Hne. rewrite <-(Hpde pgd k' Hd Hk'). destruct Hd as [-> | (i' & [Hi'r _] & ->)].
    + by apply pde_set_pde_boot.
    + rewrite pde_set_pde by done. rewrite decide_False; [done|]. intros [<- <-]. by apply Hne.
Qed.

(** The processor's translations depend on the entries and the kernel's part. *)
Lemma walk_ext p p' pgd va :
  paging_ok p → paging_ok p' → directory p pgd → 0 ≤ va < 0x100000000 →
  (∀ k, 0 ≤ k < 1024 → word p' (boot_page_table + 4 * k) = word p (boot_page_table + 4 * k)) →
  (∀ i, pgd = pd_slot i → pd_live p i → pd_live p' i ∧
     (∀ k m e, entry p' i k m e ↔ entry p i k m e) ∧
     ∀ k, kernel_pde k → pde p' (pd_slot i) k = pde p (pd_slot i) k) →
  walk p' pgd va = walk p pgd va.
Proof.
  intros Hp Hp' Hd Hva Hboot Hpd. pose proof (pde_index_range va) as Hk.
  assert (∀ e, e = boot_pde (pde_index va) → present e = true → kernel_pde (pde_index va) →
    word p' (get_pd_vma e + 4 * pte_index va) = word p (get_pd_vma e + 4 * pte_index va)) as Hb.
  { intros e -> _ Hke. rewrite boot_pde_vma by done. apply Hboot, pte_index_range. }
  destruct Hd as [->|(i & Hi & ->)].
  - unfold walk. rewrite (po_boot _ Hp), (po_boot _ Hp') by done.
    destruct (present (boot_pde (pde_index va))) eqn:E; [|done]. rewrite Hb; [done..|].
    unfold boot_pde in E. destruct ((pde_index va =? 0) || (pde_index va =? 768)) eqn:E'; [|done].
    apply orb_true_iff in E' as [?%Z.eqb_eq|?%Z.eqb_eq]; [by left | by right].
  - destruct (Hpd i eq_refl Hi) as (Hi' & Hent & Hkern).
    destruct (decide (kernel_pde (pde_index va))) as [Hke|Hke].
    + unfold walk. rewrite Hkern by done. destruct (present (pde p (pd_slot i) (pde_index va))) eqn:E; [|done].
      destruct (po_pde _ Hp i _ Hi Hk) as [Hn|[[_ Hv]|(j & _ & _ & _ & Hnk & _)]]; [congruence | | done].
      by rewrite Hb.
    + apply option_eq. intros e. rewrite !walk_entry by auto. apply Hent.
Qed.

Lemma boot_table_set_pde i k v p k' :
  0 ≤ i < 16 → 0 ≤ k < 1024 → 0 ≤ k' < 1024 →
  word (set_pde i k v p) (boot_page_table + 4 * k') = word p (boot_page_table + 4 * k').
Proof. intros. unfold set_pde. rewrite word_set, decide_False; [done|]. layout. lia. Qed.

Lemma tlb_coherent_ext p p' :
  (∀ va, 0 ≤ va < 0x100000000 → walk p' (get_pd_vma (cr3 p)) va = walk p (get_pd_vma (cr3 p)) va) →
  cr3 p' = cr3 p → tlb p' = tlb p → tlb_coherent p → tlb_coherent p'.
Proof.
  intros Hw Hc Ht Hco page e. rewrite Ht, Hc. intros He. destruct (Hco _ _ He) as [Hr Hwe].
  split; [done|]. rewrite Hw; [done | lia].
Qed.

(** The invariant depends on the entries only. *)
Lemma mem_ok_entries p p' f :
  paging_ok p' → (∀ i k m e, entry p' i k m e → entry p i k m e) → mem_ok p f → mem_ok p' f.
Proof.
  intros Hp' He [Hp Hf Hb Hu]. constructor; [done..| |].
  - intros i k m e ?. apply (Hb i k m e). by apply He.
  - intros i k m e i' k' m' e' H1 H2 E. by apply (Hu i k m e i' k' m' e' (He _ _ _ _ H1) (He _ _ _ _ H2)).
Qed.
End space.

(** ** User memory *)

(** The physical address of [va] under the current directory. *)
Definition translate (p : paging) (va : Z) : option Z :=
  e ← walk p (get_pd_vma (cr3 p)) va; Some (frame_in e + va mod 4096).

(** The bytes [l] from the address [a] on. *)
Fixpoint put_bytes (a : Z) (l : list Z) (m : gmap Z Z) : gmap Z Z :=
  match l with
  | [] => m
  | b :: l => put_bytes (a + 1) l (<[a := b]> m)
  end.

Lemma put_bytes_out a l m x : ¬ a ≤ x < a + Z.of_nat (length l) → put_bytes a l m !! x = m !! x.
Proof.
  revert a m. induction l as [|b l IH]; intros a m Hx; [done|]. cbn [put_bytes length] in *.
  rewrite IH by lia. apply lookup_insert_ne. lia.
Qed.

Lemma put_bytes_in a l m x :
  a ≤ x < a + Z.of_nat (length l) → put_bytes a l m !! x = l !! Z.to_nat (x - a).
Proof.
  revert a m. induction l as [|b l IH]; intros a m Hx; cbn [put_bytes length] in *; [lia|].
  destruct (decide (x = a)) as [->|].
  - rewrite put_bytes_out, lookup_insert_eq, Z.sub_diag by lia. done.
  - rewrite IH by lia. replace (Z.to_nat (x - a)) with (S (Z.to_nat (x - (a + 1)))) by lia. done.
Qed.

Section user.
Context {H B D : Type}.
Implicit Types (k : kernel H B D).

(** A store to [va] from kernel code.  Kernel memory is no part of this model: a
    store that lands there, like one to an unmapped page, is a fault. *)
Definition store_byte (va b : Z) : M (kernel H B D) unit := λ k,
  match translate (k_paging k) va with
  | Some pa =>
      if pa <? 0x400000 then Fault WildAccess k else Ret tt (set_user (<[pa := b]> (k_user k)) k)
  | None => Fault PageFault k
  end.

Fixpoint store_bytes (va : Z) (l : list Z) : M (kernel H B D) unit :=
  match l with
  | [] => mret tt
  | b :: l => store_byte va b;; store_bytes (u32 (va + 1)) l
  end.

Lemma translate_page p va pa n :
  translate p va = Some pa → 0 ≤ va < 0x100000000 → va mod 4096 + n < 4096 → 0 ≤ n →
  translate p (va + n) = Some (pa + n).
Proof.
  intros Ht Hva Hn Hn0. unfold translate in *.
  assert (walk p (get_pd_vma (cr3 p)) (va + n) = walk p (get_pd_vma (cr3 p)) va) as ->.
  { rewrite <-(walk_page _ _ va), <-(walk_page _ _ (va + n)) by (Z.div_mod_to_equations; lia).
    replace ((va + n) `div` 4096) with (va `div` 4096); [done|]. Z.div_mod_to_equations. lia. }
  destruct (walk p (get_pd_vma (cr3 p)) va) as [e|]; [|done]. injection Ht as <-. simpl. f_equal.
  Z.div_mod_to_equations. lia.
Qed.

(** Stores inside one page of user memory. *)
Lemma store_bytes_run va pa l k :
  translate (k_paging k) va = Some pa → 0x400000 ≤ pa → 0 ≤ va < 0x100000000 →
  va mod 4096 + Z.of_nat (length l) ≤ 4096 →
  store_bytes va l k = Ret tt (set_user (put_bytes pa l (k_user k)) k).
Proof.
  revert va pa k. induction l as [|b l IH]; intros va pa k Ht Hpa Hva Hlen.
  { by destruct k. }
  cbn [store_bytes length put_bytes] in *.
  assert (store_byte va b k = Ret tt (set_user (<[pa := b]> (k_user k)) k)) as Hb.
  { unfold store_byte. by rewrite Ht, (proj2 (Z.ltb_ge _ _)) by lia. }
  rewrite (bind_ret _ _ _ _ _ Hb). destruct l as [|b' l]; [done|]. cbn [length] in Hlen.
  rewrite u32_id by (Z.div_mod_to_equations; lia).
  apply (IH (va + 1) (pa + 1) (set_user _ k)); cbn [k_paging set_user length].
  - apply (translate_page _ _ _ 1 Ht); lia.
  - lia.
  - Z.div_mod_to_equations. lia.
  - cbn [length]. Z.div_mod_to_equations. lia.
Qed.
End user.
