(* ===== verification/Files.v ===== *)
(** * Open files (src/kernel/fs.c)

    [vfs_open], [vfs_read] and [vfs_close] on file objects in the kernel's heap;
    the search for an inode and the reading of its bytes are in Fs.v.  A file owns
    a copy of its inode. *)

From S2P Require Import Prelude Layout Gdt Allocator BlockDevice Heap Paths Frames Paging Console Fs Objects Linked Mmap Kernel.

Section code.
Context {L : Layout} {H : Type} `{!Allocator H} {B : Type} `{!BlockDevice B} {D : Type}.
Abbreviation K := (M (kernel H B D)).

(** The inode's fields are written even when there is no memory. *)
Definition set_inode (file : Z) (inode : minix_inode_t) : K Z :=
  file_inode ← in_store (kmalloc SIZEOF_INODE);
  in_store (put file_inode inode);;
  in_store (update file (λ _, File file_inode 0));;
  mret 1.

(** [split_path] into the array on the stack of [vfs_open]. *)
Definition split_components (path : option (list Z)) : K (Z * components_t) := λ k,
  match split_path path fresh_components with
  | Ret n components => Ret (n, components) k
  | Fault f _ => Fault f k
  end.

Definition vfs_open (path : option (list Z)) (file : Z) : K Z :=
  '(component_count, components) ← split_components path;
  in_store (put file (File 0 0));;
  root ← in_fs (read_inode MINIX_ROOT_INODE);
  match root with
  | None => mret 0
  | Some current_inode =>
      if component_count =? 0 then set_inode file current_inode
      else
        found ← in_fs (open_components (take (Z.to_nat component_count) components) current_inode);
        match found with
        | None => mret 0
        | Some inode => set_inode file inode
        end
  end.

(** [vfs_read]: the returned value and the bytes stored in the buffer. *)
Definition vfs_read_file (file count : Z) : K (Z * list Z) :=
  f ← in_store (load (T := file_t) file);
  inode ← in_store (load (T := minix_inode_t) (f_inode f));
  '(ret, pos, out) ← in_fs (vfs_read inode (f_pos f) count);
  in_store (update file (λ f, File (f_inode f) pos));;
  mret (ret, out).

Definition vfs_close (file : Z) : K unit :=
  f ← in_store (load (T := file_t) file);
  (if f_inode f =? 0 then mret tt
   else
     in_store (kfree (f_inode f));;
     in_store (update file (λ f, File 0 (f_pos f))));;
  in_store (update file (λ f, File (f_inode f) 0)).
End code.

(** ** The names of a path *)

(** A path that does not start with a slash has no names: it leads to the root. *)
Definition path_names (path : option (list Z)) : list (list Z) :=
  match path with
  | Some (c :: p) => if c =? SLASH then split_names [] (c :: p) else []
  | _ => []
  end.

Lemma split_components_run {H B D} path (k : kernel H B D) :
  Forall (λ c, c ≠ 0) (default [] path) → fits 0 (path_names path) = true →
  ∃ cs, split_components path k = Ret (Z.of_nat (length (path_names path)), cs) k ∧
        cstr <$> take (length (path_names path)) cs = path_names path.
Proof.
  intros Hnz Hfits. unfold split_components.
  destruct path as [[|c p]|]; [by eexists | | by eexists].
  cbn [split_path path_names default] in *. destruct (c =? SLASH); [|by eexists].
  pose proof (split_path_loop_run (S (length (c :: p))) 0 (c :: p) fresh_components fresh_components_ok
    ltac:(lia) Hnz ltac:(lia)) as Hrun. rewrite Hfits in Hrun. destruct Hrun as (cs & -> & Hst).
  exists cs. rewrite Z.add_0_l. split; [done|]. by eapply stored_names.
Qed.

(** ** Correctness *)

Section files.
Context {L : Layout} {H : Type} `{!Allocator H} {B : Type} `{!BlockDevice B} {D : Type}.
Implicit Types (k : kernel H B D) (live : gmap Z Z).

Abbreviation k_store k := (tk_store (k_tasks k)).
Abbreviation k_objs k := (objs (k_store k)).

(** The kernel with other objects and another state of the disk driver. *)
Definition with_objs_fs k (st : store H) (f : fs B) : kernel H B D := set_fs f (set_store st k).

Lemma set_inode_run k live fp fsz f inode :
  store_ok (k_store k) live → live !! fp = Some fsz → SIZEOF_FILE ≤ fsz →
  k_objs k !! fp = Some (OFile f) →
  (∃ q sz h, set_inode fp inode k =
      Ret 1 (set_store (Store h (<[fp := OFile (File q 0)]> (<[q := OInode inode]> (k_objs k)))) k) ∧
    kmalloc_heap SIZEOF_INODE (st_heap (k_store k)) = Ret q h ∧
    q ≠ 0 ∧ live !! q = None ∧ k_objs k !! q = None ∧
    store_ok (Store h (<[fp := OFile (File q 0)]> (<[q := OInode inode]> (k_objs k)))) (<[q := sz]> live))
  ∨ set_inode fp inode k = Fault WildAccess k ∧
    kmalloc_heap SIZEOF_INODE (st_heap (k_store k)) = Ret 0 (st_heap (k_store k)).
Proof.
  intros Hs Hfl Hfsz Hfo. unfold set_inode.
  destruct (kmalloc_run _ _ SIZEOF_INODE Hs ltac:(unfold SIZEOF_INODE, KERNEL_HEAP_SIZE; lia))
    as [(q & h & sz & Hrun & Hnz & _ & Hsz & Hnew & Hnone & Hok)|Hrun].
  - left. pose proof (in_store_ret _ k _ _ Hrun) as Hrun'.
    assert (fp ≠ q) by congruence.
    pose proof (live_nonzero _ _ _ _ Hs Hfl) as Hfnz.
    exists q, sz, h. split.
    { rewrite (bind_ret _ _ _ _ _ Hrun'). set (k1 := set_store _ k).
      rewrite (bind_ret _ _ _ _ _ (in_put_inode k1 q inode Hnz)). set (k2 := insert_obj _ _ k1).
      assert (k_objs k2 !! fp = Some (OFile f)) as Ho2 by (unfold k2; cbn; by rewrite lookup_insert_ne).
      by rewrite (bind_ret _ _ _ _ _ (in_update_file k2 fp f (λ _, File q 0) Ho2 Hfnz)). }
    split; [exact (kmalloc_heap_run _ _ _ _ Hrun)|]. split; [done|]. split; [done|]. split; [done|].
    assert (store_ok (Store h (<[q := OInode inode]> (k_objs k))) (<[q := sz]> live)) as Hok2.
    { exact (store_ok_put (Store h (k_objs k)) _ q sz (OInode inode) Hok (lookup_insert_eq _ _ _) Hsz). }
    apply (store_ok_update _ _ fp (OFile f) (OFile (File q 0)) Hok2); [|done].
    cbn. by rewrite lookup_insert_ne.
  - right. split; [|exact (kmalloc_heap_run _ _ _ _ Hrun)].
    pose proof (in_store_ret _ k _ _ Hrun) as Hrun'. rewrite set_store_id in Hrun'.
    rewrite (bind_ret _ _ _ _ _ Hrun'). apply bind_fault.
    unfold in_store, in_tasks, on_store, lift. cbn. by destruct k as [[[]]].
Qed.

Lemma in_fs_run k {A} (m : M (fs B) A) a f :
  m (k_fs k) = Ret a f → in_fs m k = Ret a (set_fs f k).
Proof. apply in_fs_ret. Qed.

(** What opening needs of the file's memory, the disk and the path. *)
Record openable k live (fp fsz : Z) (path : option (list Z)) : Prop := {
  op_store : store_ok (k_store k) live;
  op_live : live !! fp = Some fsz;
  op_size : SIZEOF_FILE ≤ fsz;
  op_fs : fs_ok (k_fs k);
  op_super : Forall is_byte (super_block_buf (k_fs k));
  op_path : Forall (λ c, c ≠ 0) (default [] path);
  op_fits : fits 0 (path_names path) = true;
  op_way : way_mapped (k_fs k) (path_names path) (inode_at (k_fs k) MINIX_ROOT_INODE);
}.

(** The inode that a path leads to. *)
Definition lookup_path k (path : option (list Z)) : option minix_inode_t :=
  resolve (k_fs k) (path_names path) (inode_at (k_fs k) MINIX_ROOT_INODE).

(** [vfs_open] after [split_path] and the reset of the file, up to [set_inode]. *)
Definition find_inode (path : option (list Z)) (n : Z) (cs : components_t) : M (kernel H B D) (option minix_inode_t) :=
  root ← in_fs (read_inode MINIX_ROOT_INODE);
  match root with
  | None => mret None
  | Some inode =>
      if n =? 0 then mret (Some inode) else in_fs (open_components (take (Z.to_nat n) cs) inode)
  end.

Lemma find_inode_run k live fp fsz path cs :
  openable k live fp fsz path → cstr <$> take (length (path_names path)) cs = path_names path →
  ∃ f', find_inode path (Z.of_nat (length (path_names path))) cs k = Ret (lookup_path k path) (set_fs f' k) ∧
        same_fs (k_fs k) f'.
Proof.
  intros [_ _ _ Hfs Hsup _ _ Hway] Hcs. unfold find_inode, lookup_path.
  destruct (read_inode_run MINIX_ROOT_INODE (k_fs k)) as (f1 & Hr & Hf1); [done | done | done |].
  rewrite (bind_ret _ _ _ _ _ (in_fs_run k _ _ _ Hr)).
  set (names := path_names path) in *.
  destruct (Z.eqb_spec (Z.of_nat (length names)) 0) as [E|E].
  { destruct names; [|done]. by exists f1. }
  rewrite Nat2Z.id. pose proof Hf1 as (Hok1 & _ & Hsup1).
  destruct (open_components_run (take (length names) cs) (inode_at (k_fs k) MINIX_ROOT_INODE) f1)
    as (f2 & Hr2 & Hf2); [done | by rewrite Hsup1 | by apply inode_at_ok | | ].
  { rewrite Hcs. by eapply way_mapped_same. }
  rewrite Hcs, (resolve_same _ _ _ _ Hf1) in Hr2. exists f2. split; [|by eapply same_fs_trans].
  by rewrite (in_fs_run (set_fs f1 k) _ _ _ Hr2).
Qed.

Lemma vfs_open_steps k live fp fsz path :
  openable k live fp fsz path →
  ∃ k1, k_objs k1 !! fp = Some (OFile (File 0 0)) ∧ store_ok (k_store k1) live ∧
    (∃ f', same_fs (k_fs k) f' ∧
       k1 = with_objs_fs k (Store (st_heap (k_store k)) (<[fp := OFile (File 0 0)]> (k_objs k))) f') ∧
    vfs_open path fp k =
      match lookup_path k path with
      | None => Ret 0 k1
      | Some inode => set_inode fp inode k1
      end.
Proof.
  intros Hop. pose proof Hop as [Hs Hl Hsz _ _ Hnz Hfits _].
  pose proof (live_nonzero _ _ _ _ Hs Hl) as Hfnz.
  destruct (split_components_run path k Hnz Hfits) as (cs & Hsplit & Hcs).
  set (k0 := insert_obj fp (OFile (File 0 0)) k).
  assert (openable k0 live fp fsz path) as Hop0.
  { destruct Hop. constructor; try done. by apply (store_ok_put _ _ fp fsz). }
  destruct (find_inode_run k0 live fp fsz path cs Hop0 Hcs) as (f' & Hfind & Hf').
  exists (set_fs f' k0). split; [apply lookup_insert_eq|]. split; [apply (op_store _ _ _ _ _ Hop0)|].
  split; [by exists f'|].
  unfold vfs_open. rewrite (bind_ret _ _ _ _ _ Hsplit). cbv iota beta.
  rewrite (bind_ret _ _ _ _ _ (in_put_file k fp (File 0 0) Hfnz)). fold k0.
  unfold find_inode in Hfind. apply bind_Ret_inv in Hfind as (root & k1 & Hroot & Hfind).
  rewrite (bind_ret _ _ _ _ _ Hroot). change (lookup_path k path) with (lookup_path k0 path).
  destruct root as [inode|]; [|by injection Hfind as <- ->].
  destruct (Z.of_nat (length (path_names path)) =? 0); [by injection Hfind as <- ->|].
  rewrite (bind_ret _ _ _ _ _ Hfind). by destruct (lookup_path k0 path).
Qed.

(** The kernel after a successful open: the file refers to a copy of the inode. *)
Definition opened k (h : H) (fp q : Z) (inode : minix_inode_t) (f' : fs B) : kernel H B D :=
  with_objs_fs k (Store h (<[fp := OFile (File q 0)]> (<[q := OInode inode]> (k_objs k)))) f'.

Lemma vfs_open_run k live fp fsz path inode :
  openable k live fp fsz path → lookup_path k path = Some inode →
  (∃ q sz h f', vfs_open path fp k = Ret 1 (opened k h fp q inode f') ∧ same_fs (k_fs k) f' ∧
     kmalloc_heap SIZEOF_INODE (st_heap (k_store k)) = Ret q h ∧ q ≠ 0 ∧ live !! q = None ∧ k_objs k !! q = None ∧
     store_ok (k_store (opened k h fp q inode f')) (<[q := sz]> live))
  ∨ (∃ k', vfs_open path fp k = Fault WildAccess k') ∧
    kmalloc_heap SIZEOF_INODE (st_heap (k_store k)) = Ret 0 (st_heap (k_store k)).
Proof.
  intros Hop Hlook.
  destruct (vfs_open_steps _ _ _ _ _ Hop) as (k1 & Ho & Hs & (f' & Hf' & Ek) & Hrun).
  rewrite Hlook in Hrun. pose proof Hop as [_ Hl Hsz _ _ _ _ _].
  destruct (set_inode_run k1 live fp fsz _ inode Hs Hl Hsz Ho)
    as [(q & sz & h & Hset & Hkm & Hq & Hnew & Hnone & Hok)|[Hfault Hkm]]; subst k1.
  - left. cbn in Hnone, Hok, Hset. apply lookup_insert_None in Hnone as [Hnone Hne].
    assert (<[fp:=OFile (File q 0)]> (<[q:=OInode inode]> (<[fp:=OFile (File 0 0)]> (k_objs k))) =
            <[fp:=OFile (File q 0)]> (<[q:=OInode inode]> (k_objs k))) as E.
    { by rewrite (insert_insert_ne _ q fp), insert_insert_eq by done. }
    rewrite E in Hset, Hok. exists q, sz, h, f'. rewrite Hrun, Hset. done.
  - right. rewrite Hrun. split; [by eexists | exact Hkm].
Qed.

Lemma vfs_close_run k live fp fsz q sz pos inode :
  store_ok (k_store k) live → live !! fp = Some fsz → live !! q = Some sz → q ≠ fp →
  k_objs k !! fp = Some (OFile (File q pos)) → k_objs k !! q = Some (OInode inode) →
  ∃ h, vfs_close fp k = Ret tt (set_store (Store h (<[fp := OFile (File 0 0)]> (delete q (k_objs k)))) k) ∧
       store_ok (Store h (<[fp := OFile (File 0 0)]> (delete q (k_objs k)))) (delete q live).
Proof.
  intros Hs Hfl Hql Hne Hfo Hqo.
  pose proof (live_nonzero _ _ _ _ Hs Hql) as Hqnz. pose proof (live_nonzero _ _ _ _ Hs Hfl) as Hfnz.
  destruct (kfree_run _ _ _ _ Hs Hql) as (h & Hfree & Hok).
  set (k1 := set_store (Store h (delete q (k_objs k))) k).
  assert (k_objs k1 !! fp = Some (OFile (File q pos))) as Ho1 by (cbn; by rewrite lookup_delete_ne).
  exists h. split.
  - unfold vfs_close. rewrite (bind_ret _ _ _ _ _ (in_load_file k fp (File q pos) Hfo)). cbn [f_inode].
    rewrite (proj2 (Z.eqb_neq q 0)) by done.
    assert ((in_store (kfree q);; in_store (update fp (λ f, File 0 (f_pos f)))) k =
      Ret tt (set_store (Store h (<[fp := OFile (File 0 pos)]> (delete q (k_objs k)))) k)) as Hb.
    { rewrite (bind_ret _ _ _ _ _ (in_store_ret _ k _ _ Hfree)). exact (in_update_file k1 fp _ _ Ho1 Hfnz). }
    rewrite (bind_ret _ _ _ _ _ Hb). set (k2 := set_store _ k).
    assert (k_objs k2 !! fp = Some (OFile (File 0 pos))) as Ho2 by apply lookup_insert_eq.
    rewrite (in_update_file k2 fp _ _ Ho2 Hfnz). unfold k2, insert_obj, set_store, set_tasks, with_store. cbn.
    by rewrite insert_insert_eq.
  - apply (store_ok_update (k_store k1) _ fp (OFile (File q pos))); done.
Qed.

(** Reading inside a file. *)
Lemma vfs_read_file_run k fp q pos inode count :
  k_objs k !! fp = Some (OFile (File q pos)) → k_objs k !! q = Some (OInode inode) → fp ≠ 0 →
  fs_ok (k_fs k) → inode_ok inode → 0 ≤ pos ≤ i_size inode → 0 ≤ count →
  let n := Z.min (i_size inode - pos) count in
  mapped (image (k_fs k)) inode pos n →
  ∃ f', vfs_read_file fp count k =
      Ret (n, file_range (image (k_fs k)) inode pos n)
          (set_fs f' (insert_obj fp (OFile (File q (pos + n))) k)) ∧
    same_fs (k_fs k) f'.
Proof.
  intros Hf Hi Hnz Hfs Hino Hpos Hcount n Hmap.
  destruct (vfs_read_inside inode pos count (k_fs k) Hfs Hino Hpos Hcount Hmap) as (f' & Hrun & Hf').
  exists f'. split; [|done]. unfold vfs_read_file.
  rewrite (bind_ret _ _ _ _ _ (in_load_file k _ _ Hf)), (bind_ret _ _ _ _ _ (in_load_inode k _ _ Hi)).
  rewrite (bind_ret _ _ _ _ _ (in_fs_run k _ _ _ Hrun)). cbv iota beta.
  by rewrite (bind_ret _ _ _ _ _ (in_update_file (set_fs f' k) fp _ _ Hf Hnz)).
Qed.

(** *** Properties *)

(** C19 (functional): On a working disk [vfs_open] opens a file exactly when its
    path leads to an inode: the file then refers to a fresh copy of that inode, at
    position 0, in the payload that [kmalloc] gives.  When the path leads nowhere
    [vfs_open] returns 0 and leaves the file closed.  When, and only when, the path
    leads to an inode and [kmalloc] returns 0 for the copy (the heap has no free
    segment of that size), it writes through the null pointer.  Nothing else in the
    heap changes. *)
Theorem vfs_open_correct k live fp fsz path :
  openable k live fp fsz path →
  match lookup_path k path with
  | None => ∃ f', same_fs (k_fs k) f' ∧ vfs_open path fp k =
      Ret 0 (with_objs_fs k (Store (st_heap (k_store k)) (<[fp := OFile (File 0 0)]> (k_objs k))) f')
  | Some inode =>
      (∃ q sz h f', vfs_open path fp k = Ret 1 (opened k h fp q inode f') ∧ same_fs (k_fs k) f' ∧
         kmalloc_heap SIZEOF_INODE (st_heap (k_store k)) = Ret q h ∧
         q ≠ 0 ∧ live !! q = None ∧ k_objs k !! q = None ∧
         store_ok (k_store (opened k h fp q inode f')) (<[q := sz]> live))
      ∨ (∃ k', vfs_open path fp k = Fault WildAccess k') ∧
        kmalloc_heap SIZEOF_INODE (st_heap (k_store k)) = Ret 0 (st_heap (k_store k))
  end.
Proof.
  intros Hop. destruct (lookup_path k path) as [inode|] eqn:E; [by eapply vfs_open_run|].
  destruct (vfs_open_steps _ _ _ _ _ Hop) as (k1 & _ & _ & (f' & Hf' & ->) & Hrun).
  rewrite E in Hrun. by exists f'.
Qed.

(** C39 (round trip): Closing a file that [vfs_open] opened gives back what opening
    took: the same payloads are live, and no object but the closed file differs
    from before the two calls. *)
Theorem vfs_open_close k k' live fp fsz path :
  openable k live fp fsz path → vfs_open path fp k = Ret 1 k' →
  ∃ k'', vfs_close fp k' = Ret tt k'' ∧ store_ok (k_store k'') live ∧
    k_objs k'' = <[fp := OFile (File 0 0)]> (k_objs k) ∧ same_fs (k_fs k) (k_fs k'') ∧
    k'' = with_objs_fs k (k_store k'') (k_fs k'').
Proof.
  intros Hop Hopen. destruct (lookup_path k path) as [inode|] eqn:E.
  - destruct (vfs_open_run _ _ _ _ _ _ Hop E) as [(q & sz & h & f' & Hrun & Hf' & _ & Hq & Hnew & Hnone & Hok)|[(k1 & Hrun) _]];
      [|congruence].
    rewrite Hopen in Hrun. injection Hrun as ->. pose proof Hop as [Hs Hl _ _ _ _ _ _].
    assert (q ≠ fp) as Hne by congruence. set (k1 := opened k h fp q inode f') in *.
    destruct (vfs_close_run k1 (<[q := sz]> live) fp fsz q sz 0 inode Hok) as (h' & Hclose & Hok').
    + by rewrite lookup_insert_ne.
    + apply lookup_insert_eq.
    + done.
    + apply lookup_insert_eq.
    + cbn. rewrite lookup_insert_ne by done. apply lookup_insert_eq.
    + assert (<[fp:=OFile (File 0 0)]> (delete q (k_objs k1)) = <[fp:=OFile (File 0 0)]> (k_objs k)) as Eo.
      { cbn. rewrite delete_insert_ne, insert_insert_eq by done. f_equal.
        by rewrite delete_insert_id. }
      rewrite Eo in Hclose, Hok'. rewrite delete_insert_id in Hok' by done.
      eexists. split; [exact Hclose|]. by split_and!.
  - destruct (vfs_open_steps _ _ _ _ _ Hop) as (k1 & _ & _ & _ & Hrun). rewrite E in Hrun. congruence.
Qed.
End files.

(** ** A file system with the file [/a] *)

#[local] Existing Instance sample_layout.

Definition files_kernel : kernel heap (gmap Z (list Z)) () :=
  Kernel (Tasks (Store sample_heap ∅) 0 0 0) [] (Paging ∅ [] [] 0 ∅) sample_fs (Console 0 0 [], ()) 0 zero_tss 0 ∅.

Definition path_a : option (list Z) := Some (bytes_of "/a").

Lemma files_openable : openable files_kernel (live sample_segs) the_vma 32 path_a.
Proof.
  constructor.
  - split; [by exists sample_segs; split; [apply sample_heap_inv|]|]. split; [done|]. intros p o Hp. done.
  - vm_compute. reflexivity.
  - vm_compute. discriminate.
  - vm_compute. done.
  - decided.
  - decided.
  - vm_compute. reflexivity.
  - unfold path_a, path_names. cbn. split; [|done]. intros _. apply sample_root_mapped.
Qed.

Lemma vfs_open_correct_witness :
  lookup_path files_kernel path_a = Some (inode_at sample_fs 2) ∧
  ∃ q h f', vfs_open path_a the_vma files_kernel =
    Ret 1 (opened files_kernel h the_vma q (inode_at sample_fs 2) f').
Proof.
  assert (lookup_path files_kernel path_a = Some (inode_at sample_fs 2)) as E by (vm_compute; reflexivity).
  split; [exact E|].
  pose proof (vfs_open_correct _ _ _ _ _ files_openable) as Hopen. rewrite E in Hopen.
  destruct Hopen as [(q & sz & h & f' & Hrun & _)|[(k' & Hrun) _]].
  - exists q, h, f'. exact Hrun.
  - apply (f_equal (λ r, match r with Ret _ _ => true | Fault _ _ => false end)) in Hrun.
    vm_compute in Hrun. discriminate.
Defined.

Lemma vfs_open_close_witness :
  ∃ k' k'', vfs_open path_a the_vma files_kernel = Ret 1 k' ∧ vfs_close the_vma k' = Ret tt k'' ∧
    objs (tk_store (k_tasks k'')) = <[the_vma := OFile (File 0 0)]> ∅.
Proof.
  assert (∃ k', vfs_open path_a the_vma files_kernel = Ret 1 k') as (k' & Hopen)
    by (eexists; vm_compute; reflexivity).
  destruct (vfs_open_close _ _ _ _ _ _ files_openable Hopen) as (k'' & Hclose & _ & Ho & _).
  exists k', k''. split; [exact Hopen|]. split; [exact Hclose | exact Ho].
Defined.
