(* ===== verification/Fault.v ===== *)
(** * Page faults (src/kernel/fault.c) and the zeroing of pages (src/kernel/mmap.c)

    A fault on a page of a memory area gets a fresh frame, filled from the file of
    the area.  [read_cr2] is the argument [fault_addr]. *)

From S2P Require Import Prelude Layout Allocator Heap Ports Gdt Console BlockDevice Frames Paging Paths Fs Objects Linked Mmap Kernel Space Files.

(** ** The code *)

Section code.
Context {L : Layout} {H : Type} `{!Allocator H} {B : Type} `{!BlockDevice B} {D : Type} `{!Bus D}.
Abbreviation K := (M (kernel H B D)).

Definition page_fault_panic {A} : K A :=
  print_line "Unhandled page fault";;
  fail PageFaultPanic.

(** The page table for [page_addr], made when there is none; [false] when the pool is empty. *)
Definition ensure_table (pgd page_addr : Z) : M paging bool :=
  let pde_index := Z.land (Z.shiftr page_addr 22) 0x3ff in
  pde ← load_word (pgd +ᵤ 4 * pde_index);
  if Z.land pde PAGE_FLAG_PRESENT =? 0 then
    page_table ← alloc_pt;
    if page_table =? 0 then mret false
    else
      store_word (pgd +ᵤ 4 * pde_index)
        (Z.lor (Z.lor (Z.lor (get_pd_lma page_table) PAGE_FLAG_PRESENT) PAGE_FLAG_WRITABLE) PAGE_FLAG_USER);;
      mret true
  else mret true.

(** The page filled from the file of the area [vma]. *)
Definition fill_from_file (pgd vma page_addr phys_addr : Z) : K unit :=
  v ← in_store (load (T := vm_area_t) vma);
  if vm_file v =? 0 then mret tt
  else
    let file_offset := vm_offset v +ᵤ (page_addr -ᵤ vm_start v) in
    f ← in_store (load (T := file_t) (vm_file v));
    inode ← in_store (load (T := minix_inode_t) (f_inode f));
    let file_size := i_size inode in
    if file_offset <? file_size then
      let bytes_to_read :=
        if file_size - file_offset <? PAGE_SIZE then file_size - file_offset else PAGE_SIZE in
      let current_pos := f_pos f in
      in_store (update (vm_file v) (λ f, File (f_inode f) file_offset));;
      '(ret, out) ← vfs_read_file (vm_file v) bytes_to_read;
      store_bytes page_addr out;;
      in_store (update (vm_file v) (λ f, File (f_inode f) current_pos));;
      if negb (ret =? i32 bytes_to_read) then
        in_paging (unmap_page pgd page_addr);;
        in_frames (free_phys_frame phys_addr);;
        page_fault_panic
      else mret tt
    else mret tt.

Definition page_fault_handler (err_code fault_addr : Z) : K unit :=
  task ← in_tasks get_current_task;
  if task =? 0 then page_fault_panic
  else
    t ← in_store (load (T := task_t) task);
    if t_mm t =? 0 then page_fault_panic
    else if negb (Z.land err_code 0x1 =? 0) then page_fault_panic
    else
      vma ← in_store (find_vma (t_mm t) fault_addr);
      if vma =? 0 then page_fault_panic
      else
        let page_addr := Z.land fault_addr PAGE_ADDRESS_MASK in
        phys_addr ← in_frames alloc_phys_frame;
        if phys_addr =? 0 then page_fault_panic
        else
          m ← in_store (load (T := mm_t) (t_mm t));
          ok ← in_paging (ensure_table (pgd m) page_addr);
          if negb ok then
            in_frames (free_phys_frame phys_addr);;
            page_fault_panic
          else
            let flags := Z.lor (Z.lor PAGE_FLAG_PRESENT PAGE_FLAG_WRITABLE) PAGE_FLAG_USER in
            mapped ← in_paging (map_page (pgd m) page_addr phys_addr flags);
            if mapped =? 0 then
              in_frames (free_phys_frame phys_addr);;
              page_fault_panic
            else
              store_bytes page_addr (replicate (Z.to_nat PAGE_SIZE) 0);;
              fill_from_file (pgd m) vma page_addr phys_addr.

(** A store from kernel code to a user page that may not be there yet: the
    processor takes the fault and tries the store again. *)
Definition touch_byte (va b : Z) : K unit := λ k,
  match store_byte va b k with
  | Fault PageFault k => (page_fault_handler 0x2 va;; store_byte va b) k
  | r => r
  end.

Fixpoint touch_bytes (va : Z) (l : list Z) : K unit :=
  match l with
  | [] => mret tt
  | b :: l => touch_byte va b;; touch_bytes (u32 (va + 1)) l
  end.

Definition padzero (addr : Z) : K Z :=
  task ← in_tasks get_current_task;
  let num_zeros := align_up addr -ᵤ addr in
  current_cr3 ← in_paging get_cr3;
  t ← in_store (load (T := task_t) task);
  m ← in_store (load (T := mm_t) (t_mm t));
  let target_cr3 := get_pd_lma (pgd m) in
  (if negb (current_cr3 =? target_cr3) then in_paging (set_cr3 target_cr3) else mret tt);;
  touch_bytes addr (replicate (Z.to_nat num_zeros) 0);;
  (if negb (current_cr3 =? target_cr3) then in_paging (set_cr3 current_cr3) else mret tt);;
  mret 1.
End code.

(** ** Correctness *)

Section table.
Context {L : Layout}.
Implicit Types (p : paging) (f : frames).

(** What [ensure_table] keeps: the entries, the translations and the cache. *)
Record same_space p p' : Prop := {
  ss_entry i k m e : entry p' i k m e ↔ entry p i k m e;
  ss_walk pgd va : directory p pgd → 0 ≤ va < 0x100000000 → walk p' pgd va = walk p pgd va;
  ss_cr3 : cr3 p' = cr3 p;
  ss_tlb : tlb p' = tlb p;
  ss_pds : pd_in_use p' = pd_in_use p;
  ss_pts : (free_count (pt_in_use p) ≤ S (free_count (pt_in_use p')))%nat;
}.

Lemma same_space_refl p : same_space p p.
Proof. constructor; try done. lia. Qed.

Definition user_pde (j : Z) : Z := Z.lor (get_pd_lma (pt_slot j)) 7.

Lemma user_pde_spec j : 0 ≤ j < 64 →
  0 ≤ user_pde j < 0x100000000 ∧ present (user_pde j) = true ∧ user (user_pde j) = true ∧
  get_pd_vma (user_pde j) = pt_slot j.
Proof.
  intros Hj. unfold user_pde. destruct (pt_slot_page j Hj) as [Hin Hal].
  pose proof (in_kernel_u32 _ _ Hin ltac:(lia)) as Hr.
  rewrite pt_slot_lma by lia. rewrite get_pd_lma_kernel by done.
  assert ((pt_slot j - 0xc0000000) mod 4096 = 0) by (Z.div_mod_to_equations; lia).
  rewrite present_lor, user_lor by done.
  split; [apply lor_page_range; lia|]. done.
Qed.

Lemma ensure_table_run p f i page :
  mem_ok p f → pd_live p i → ¬ kernel_pde (pde_index page) →
  (∃ p' j, ensure_table (pd_slot i) page p = Ret true p' ∧ mem_ok p' f ∧
     maps p' i (pde_index page) j ∧ same_space p p') ∨
  (ensure_table (pd_slot i) page p = Ret false p ∧ ∀ j, 0 ≤ j < 64 → pt_live p j).
Proof.
  intros Hmem Hi Hnk. pose proof Hmem as [Hp _ _ _]. pose proof Hi as [Hir _].
  pose proof (pde_index_range page) as Hk. unfold ensure_table. fold (pde_index page).
  rewrite (bind_ret _ _ _ _ _ (pde_word_run p i _ Hir Hk)).
  destruct (present (pde p (pd_slot i) (pde_index page))) eqn:Hpr.
  { pose proof Hpr as Hpr'. unfold present in Hpr'. apply negb_true_iff in Hpr' as ->. left.
    destruct (po_pde _ Hp i _ Hi Hk) as [Hn|[[? _]|(j & Hm)]]; [congruence | done |].
    exists p, j. split; [done|]. split; [done|]. split; [done | apply same_space_refl]. }
  pose proof Hpr as Hpr'. unfold present in Hpr'. apply negb_false_iff in Hpr' as ->.
  pose proof (alloc_pt_run p Hp) as Halloc. destruct (first_clear (pt_in_use p)) as [j|] eqn:Hfree.
  - left. destruct Halloc as (p1 & Hrun & Hj & Hz). rewrite (bind_ret _ _ _ _ _ Hrun).
    apply first_clear_Some in Hfree as [Hfree _].
    set (j' := Z.of_nat j) in *. assert (0 ≤ j' < 64) as Hjr by lia.
    replace j with (Z.to_nat j') in Hz, Hfree by lia.
    destruct (user_pde_spec j' Hjr) as (Hv & Hvp & Hvu & Hvma).
    destruct (entry_grow_pt p p1 i _ j' _ Hp Hi Hk Hnk Hpr Hjr Hfree Hz Hv Hvp Hvu Hvma)
      as (Hp' & Hm & Hent & Hpde).
    rewrite (proj2 (Z.eqb_neq (pt_slot j') 0)) by (layout; lia).
    rewrite <-!Z.lor_assoc. change (Z.lor 1 (Z.lor 2 4)) with 7. fold (user_pde j').
    change (Z.lor PAGE_FLAG_PRESENT (Z.lor PAGE_FLAG_WRITABLE PAGE_FLAG_USER)) with 7. fold (user_pde j').
    rewrite (bind_ret _ _ _ _ _ (set_pde_run p1 i _ (user_pde j') Hir Hk)).
    pose proof Hz as [Hw _].
    assert (∀ i', pd_live p i' → pd_live (set_pde i (pde_index page) (user_pde j') p1) i') as Hlive.
    { intros i'. unfold pd_live, set_pde. cbn. by rewrite Hw. }
    eexists _, j'. split; [reflexivity|]. split; [|split; [exact Hm|constructor]].
    + eapply mem_ok_entries; [exact Hp' | | exact Hmem]. intros. by apply Hent.
    + exact Hent.
    + intros pgd va Hd Hva. apply walk_ext; try done.
      * intros k0 Hk0. rewrite boot_table_set_pde by done. apply (zeroed_word _ _ _ _ Hz). layout. lia.
      * intros i' -> Hi'. split; [by apply Hlive|]. split; [intros; apply Hent|].
        intros k0 Hk0. apply Hpde; [done | unfold kernel_pde in Hk0; lia|]. intros [_ ->]. done.
    + unfold set_pde. cbn. by rewrite Hw.
    + unfold set_pde. cbn. by rewrite Hw.
    + unfold set_pde. cbn. by rewrite Hw.
    + pose proof (f_equal pt_in_use Hw) as Hpt. cbn [pt_in_use set_words set_pt_in_use] in Hpt.
      unfold set_pde. cbn [pt_in_use set_words]. rewrite Hpt, <-free_count_take; done.
  - right. rewrite (bind_ret _ _ _ _ _ Halloc). split; [done|]. intros j Hj. split; [done|].
    destruct (lookup_lt_is_Some_2 (pt_in_use p) (Z.to_nat j)) as [b Hb]; [rewrite (po_pts _ Hp); lia|].
    by rewrite (first_clear_None _ _ _ Hfree Hb) in Hb.
Qed.
End table.

Section handler.
Context {L : Layout} {H : Type} `{!Allocator H} {B : Type} `{!BlockDevice B} {D : Type} `{!Bus D}.
Implicit Types (k : kernel H B D) (l : list (Z * area)) (a : area).

Abbreviation k_objs k := (objs (tk_store (k_tasks k))).

(** *** The contents of a page *)

(** Where the page [page] of an area lies in the area's file. *)
Definition file_offset a (page : Z) : Z := a_offset a +ᵤ (page -ᵤ a_start a).

(** The bytes that the file has for the page; none for an anonymous area or
    after the end of the file. *)
Definition page_bytes k a (page : Z) : list Z :=
  match k_objs k !! a_file a with
  | Some (OFile f) =>
      match k_objs k !! f_inode f with
      | Some (OInode inode) =>
          let off := file_offset a page in
          if off <? i_size inode
          then file_range (image (k_fs k)) inode off (Z.min (i_size inode - off) 4096)
          else []
      | _ => []
      end
  | _ => []
  end.

(** The file of the area is open, and its blocks for the page are there. *)
Definition file_ready k a (page : Z) : Prop :=
  k_objs k !! 0 = None ∧
  (a_file a ≠ 0 → fs_ok (k_fs k) ∧ ∃ ip pos inode,
     k_objs k !! a_file a = Some (OFile (File ip pos)) ∧ k_objs k !! ip = Some (OInode inode) ∧ inode_ok inode ∧
     let off := file_offset a page in
     off < i_size inode → mapped (image (k_fs k)) inode off (Z.min (i_size inode - off) 4096)).

Lemma length_file_range img inode pos n : 0 ≤ n → length (file_range img inode pos n) = Z.to_nat n.
Proof. intros. unfold file_range. by rewrite length_fmap, length_seqZ. Qed.

Lemma page_bytes_length k a page : Z.of_nat (length (page_bytes k a page)) ≤ 4096.
Proof.
  unfold page_bytes. repeat case_match; simpl; try lia. rewrite length_file_range; lia.
Qed.

Lemma set_same k : set_fs (k_fs k) (set_user (k_user k) k) = k.
Proof. by destruct k. Qed.

Lemma fill_from_file_run k mm prev next vma a pgd page pa :
  k_objs k !! vma = Some (OVma (vma_of a mm prev next)) → file_ready k a page →
  translate (k_paging k) page = Some pa → 0x400000 ≤ pa → 0 ≤ page < 0x100000000 → page mod 4096 = 0 →
  ∃ f', fill_from_file pgd vma page pa k =
      Ret tt (set_fs f' (set_user (put_bytes pa (page_bytes k a page) (k_user k)) k)) ∧
    (same_fs (k_fs k) f' ∨ f' = k_fs k).
Proof.
  intros Hv [Hnull Hfile] Ht Hpa Hpage Hal. unfold fill_from_file.
  rewrite (bind_ret _ _ _ _ _ (in_load_vma k _ _ Hv)). cbn [vm_file vma_of vm_offset vm_start].
  unfold page_bytes. destruct (Z.eqb_spec (a_file a) 0) as [E|Hnz].
  { exists (k_fs k). rewrite E, Hnull. cbn [put_bytes]. rewrite set_same. split; [done | by right]. }
  destruct (Hfile Hnz) as (Hfs & ip & pos & inode & Hf & Hi & Hino & Hmap). rewrite Hf. cbn [f_inode]. rewrite Hi.
  fold (file_offset a page). set (off := file_offset a page) in *. cbv zeta in *.
  rewrite (bind_ret _ _ _ _ _ (in_load_file k _ _ Hf)). cbn [f_inode f_pos].
  rewrite (bind_ret _ _ _ _ _ (in_load_inode k _ _ Hi)).
  destruct (Z.ltb_spec off (i_size inode)) as [Hlt|]; [|exists (k_fs k); cbn [put_bytes]; rewrite set_same; split; [done | by right]].
  set (n := Z.min (i_size inode - off) 4096) in *.
  assert ((if i_size inode - off <? PAGE_SIZE then i_size inode - off else PAGE_SIZE) = n) as ->.
  { unfold n, PAGE_SIZE. destruct (Z.ltb_spec (i_size inode - off) 4096); lia. }
  assert (0 ≤ off) as Hoff by apply u32_range.
  assert (0 < n ≤ 4096) as Hn by lia.
  rewrite (bind_ret _ _ _ _ _ (in_update_file k _ _ _ Hf Hnz)). cbn [f_inode].
  set (k1 := insert_obj (a_file a) (OFile (File ip off)) k).
  assert (ip ≠ a_file a) as Hne by congruence.
  assert (k_objs k1 !! a_file a = Some (OFile (File ip off))) as Hf1 by apply lookup_insert_eq.
  assert (k_objs k1 !! ip = Some (OInode inode)) as Hi1 by (unfold k1; cbn; by rewrite lookup_insert_ne).
  assert (Z.min (i_size inode - off) n = n) as En by lia.
  destruct (vfs_read_file_run k1 (a_file a) ip off inode n Hf1 Hi1 Hnz Hfs Hino) as (f' & Hrun & Hf'); [lia | lia | |].
  { rewrite En. by apply Hmap. }
  rewrite En in Hrun. rewrite (bind_ret _ _ _ _ _ Hrun). cbv iota beta. set (k2 := set_fs f' _).
  assert (Hs : store_bytes page (file_range (image (k_fs k1)) inode off n) k2 =
    Ret tt (set_user (put_bytes pa (file_range (image (k_fs k1)) inode off n) (k_user k2)) k2)).
  { apply store_bytes_run; [done..|]. rewrite length_file_range, Hal by lia. lia. }
  rewrite (bind_ret _ _ _ _ _ Hs). set (k3 := set_user _ k2).
  assert (k_objs k3 !! a_file a = Some (OFile (File ip (off + n)))) as Hf3 by apply lookup_insert_eq.
  rewrite (bind_ret _ _ _ _ _ (in_update_file k3 _ _ _ Hf3 Hnz)). cbn [f_inode].
  rewrite i32_id, Z.eqb_refl by lia. cbn [negb]. exists f'. split; [|by left]. cbn.
  unfold mret, M_ret. f_equal. unfold k3, k2, k1, insert_obj, set_store, set_tasks, with_store, set_user, set_fs. cbn.
  rewrite !insert_insert_eq, insert_id by done. by destruct k as [[[]]].
Qed.

(** *** The handler *)

(** A task runs in its address space: the directory [i], the areas [l]. *)
Record running k (mm i : Z) l : Prop := {
  rn_task : ∃ t, k_objs k !! current_task (k_tasks k) = Some (OTask t) ∧ t_mm t = mm;
  rn_null : k_objs k !! 0 = None;
  rn_space : space (k_objs k) mm (pd_slot i) l;
  rn_live : pd_live (k_paging k) i;
  rn_mem : mem_ok (k_paging k) (k_frames k);
  rn_tlb : tlb_coherent (k_paging k);
  rn_cr3 : get_pd_vma (cr3 (k_paging k)) = pd_slot i;
}.

Lemma panic_run {A} k : console_ok (k_console k).1 → ∃ k', page_fault_panic (A := A) k = Fault PageFaultPanic k'.
Proof.
  intros Hc. unfold page_fault_panic, print_line.
  assert (Forall (λ ch, ch ≠ 0) (bytes_of "Unhandled page fault" ++ [newline])) as Hl by decided.
  pose proof (console_puts_run _ _ Hc Hl) as Hrun. rewrite bind_bind.
  rewrite (bind_ret _ _ _ _ _ (in_console_ret _ k _ _ Hrun)), mret_bind. by eexists.
Qed.

Lemma page_of_range addr :
  0 ≤ addr < 0x100000000 → let page := Z.land addr PAGE_ADDRESS_MASK in
  page = addr `div` 4096 * 4096 ∧ 0 ≤ page < 0x100000000 ∧ page mod 4096 = 0.
Proof.
  intros Ha page. assert (page = addr - addr mod 4096) as E by by apply land_page_mask.
  rewrite E. Z.div_mod_to_equations. lia.
Qed.

(** The kernel once the page is mapped: frame [n], table [j] of directory [i]. *)
Definition mapped_kernel k (p' : paging) (i j page : Z) (n : nat) : kernel H B D :=
  set_frames (<[n := true]> (k_frames k))
    (set_paging (flushed (pd_slot i) page (set_pte j (pte_index page) (Z.lor (frame_of n) 7) p')) k).

Lemma mapped_kernel_ok k p' mm i l j page n :
  running k mm i l → mem_ok p' (k_frames k) → maps p' i (pde_index page) j → same_space (k_paging k) p' →
  k_frames k !! n = Some false → 0 ≤ page < 0x100000000 → page mod 4096 = 0 →
  let k' := mapped_kernel k p' i j page n in
  running k' mm i l ∧ walk (k_paging k') (pd_slot i) page = Some (Z.lor (frame_of n) 7) ∧
  translate (k_paging k') page = Some (frame_of n) ∧
  ∀ pgd va, directory (k_paging k) pgd → 0 ≤ va < 0x100000000 →
    pgd ≠ pd_slot i ∨ va `div` 4096 ≠ page `div` 4096 →
    walk (k_paging k') pgd va = walk (k_paging k) pgd va.
Proof.
  intros [Ht Hnull Hsp Hlive Hmem Htlb Hcr3] Hmem' Hm Hsame Hn Hpage Hal k'.
  pose proof (mo_paging _ _ Hmem) as Hp. pose proof (mo_paging _ _ Hmem') as Hp'.
  pose proof (mo_frames _ _ Hmem) as Hfr. pose proof (frames_clear _ _ Hfr Hn) as Hnr.
  set (p2 := set_pte j (pte_index page) (Z.lor (frame_of n) 7) p') in *.
  assert (cr3 (flushed (pd_slot i) page p2) = cr3 (k_paging k)) as Ecr3.
  { rewrite <-(ss_cr3 _ _ Hsame). unfold flushed. by case_match. }
  assert (Hw : walk (k_paging k') (pd_slot i) page = Some (Z.lor (frame_of n) 7)).
  { change (k_paging k') with (flushed (pd_slot i) page p2). rewrite flushed_walk. unfold p2.
    rewrite (walk_set_pte_same i (pde_index page) j (pte_index page) _ p' page Hm eq_refl eq_refl).
    by rewrite present_lor by apply frame_of_aligned. }
  split; [constructor; try done|split; [exact Hw|split]].
  - unfold pd_live. change (k_paging k') with (flushed (pd_slot i) page p2).
    assert (pd_in_use (flushed (pd_slot i) page p2) = pd_in_use (k_paging k)) as ->; [|done].
    rewrite <-(ss_pds _ _ Hsame). unfold flushed. by case_match.
  - change (k_paging k') with (flushed (pd_slot i) page p2).
    change (k_frames k') with (<[n := true]> (k_frames k)).
    pose proof (mem_ok_map p' (k_frames k) i _ j (pte_index page) n 7 Hmem' Hm (pte_index_range page) Hn
      ltac:(lia) eq_refl) as Hok. fold p2 in Hok.
    eapply mem_ok_entries; [apply paging_ok_flushed, (mo_paging _ _ Hok) | | exact Hok].
    intros i' k0 m e (j' & Hm' & Hr & He & Hpe). exists j'. split; [|split; [done|split; [|done]]].
    + revert Hm'. unfold maps, pd_live, pt_live, flushed. by case_match.
    + revert He. unfold flushed. by case_match.
  - change (k_paging k') with (flushed (pd_slot i) page p2).
    apply tlb_coherent_set_pte; try done. eapply tlb_coherent_ext; [| apply Hsame | apply Hsame | exact Htlb].
    intros va Hva. apply (ss_walk _ _ Hsame); [apply po_cr3; done | done].
  - change (k_paging k') with (flushed (pd_slot i) page p2). by rewrite Ecr3.
  - unfold translate. change (k_paging k') with (flushed (pd_slot i) page p2) in *. rewrite Ecr3, Hcr3, Hw.
    simpl. by rewrite frame_in_lor, Hal, Z.add_0_r by lia.
  - intros pgd va Hd Hva Hne. change (k_paging k') with (flushed (pd_slot i) page p2).
    rewrite <-(ss_walk _ _ Hsame pgd va Hd Hva).
    apply set_pte_others; try done. destruct Hd as [->|(i' & Hi' & ->)]; [by left|].
    right. exists i'. split; [|done]. unfold pd_live. by rewrite (ss_pds _ _ Hsame).
Qed.

(** The kernel after a fault that was served. *)
Definition served k (p' : paging) (f' : fs B) (i j page : Z) (n : nat) a : kernel H B D :=
  let k1 := mapped_kernel k p' i j page n in
  set_fs f' (set_user (put_bytes (frame_of n) (page_bytes k a page)
    (put_bytes (frame_of n) (replicate 4096 0) (k_user k))) k1).

(** The handler once the frame [n] is taken. *)
Definition serve (mm vma page phys_addr : Z) : M (kernel H B D) unit :=
  m ← in_store (load (T := mm_t) mm);
  ok ← in_paging (ensure_table (pgd m) page);
  if negb ok then
    in_frames (free_phys_frame phys_addr);;
    page_fault_panic
  else
    let flags := Z.lor (Z.lor PAGE_FLAG_PRESENT PAGE_FLAG_WRITABLE) PAGE_FLAG_USER in
    mapped ← in_paging (map_page (pgd m) page phys_addr flags);
    if mapped =? 0 then
      in_frames (free_phys_frame phys_addr);;
      page_fault_panic
    else
      store_bytes page (replicate (Z.to_nat PAGE_SIZE) 0);;
      fill_from_file (pgd m) vma page phys_addr.

Lemma serve_run k mm i l q a page n :
  running k mm i l → console_ok (k_console k).1 → (q, a) ∈ l →
  k_frames k !! n = Some false → 0 ≤ page < 0x100000000 → page mod 4096 = 0 →
  ¬ kernel_pde (pde_index page) → file_ready k a page →
  let k0 := set_frames (<[n := true]> (k_frames k)) k in
  (∃ p' j f', serve mm q page (frame_of n) k0 = Ret tt (served k p' f' i j page n a) ∧
     mem_ok p' (k_frames k) ∧ maps p' i (pde_index page) j ∧ same_space (k_paging k) p' ∧
     (same_fs (k_fs k) f' ∨ f' = k_fs k)) ∨
  (∃ k', serve mm q page (frame_of n) k0 = Fault PageFaultPanic k' ∧ ∀ j, 0 ≤ j < 64 → pt_live (k_paging k) j).
Proof.
  intros Hrun Hc Hin Hn Hpage Hal Hnk Hfile k0.
  pose proof Hrun as [_ Hnull (Hm & Hnd & Hseg) Hlive Hmem _ _].
  pose proof (mo_frames _ _ Hmem) as Hfr. pose proof (frames_clear _ _ Hfr Hn) as Hnr.
  destruct (dseg_lookup _ _ _ _ _ _ _ _ _ Hseg Hin) as (Hq & r & nx & Hv).
  unfold serve. rewrite (bind_ret _ _ _ _ _ (in_load_mm k0 _ _ Hm)). cbn [pgd].
  destruct (ensure_table_run _ _ _ _ Hmem Hlive Hnk) as [(p' & j & Hens & Hmem' & Hmaps & Hsame)|[Hens Hfull]].
  - left. rewrite (bind_ret _ _ _ _ _ (in_paging_ret _ k0 _ _ Hens)). cbn [negb].
    change (Z.lor (Z.lor PAGE_FLAG_PRESENT PAGE_FLAG_WRITABLE) PAGE_FLAG_USER) with 7.
    set (k1 := set_paging p' k0).
    pose proof (map_page_run p' i j page (frame_of n) 7 Hmaps eq_refl) as Hmap.
    rewrite (bind_ret _ _ _ _ _ (in_paging_ret _ k1 _ _ Hmap)). cbv iota beta zeta.
    destruct (mapped_kernel_ok k p' mm i l j page n Hrun Hmem' Hmaps Hsame Hn Hpage Hal) as (_ & _ & Htr & _).
    set (k2 := mapped_kernel k p' i j page n) in *. change (set_paging _ k1) with k2.
    assert (0x400000 ≤ frame_of n) as Hpa by (unfold frame_of; lia).
    assert (store_bytes page (replicate (Z.to_nat PAGE_SIZE) 0) k2 =
      Ret tt (set_user (put_bytes (frame_of n) (replicate 4096 0) (k_user k2)) k2)) as Hz.
    { change (Z.to_nat PAGE_SIZE) with 4096%nat. apply store_bytes_run; [done..|].
      rewrite length_replicate, Hal. lia. }
    cbn [Z.eqb]. rewrite (bind_ret _ _ _ _ _ Hz). set (k3 := set_user _ k2).
    destruct (fill_from_file_run k3 mm r nx q a (pd_slot i) page (frame_of n) Hv Hfile Htr Hpa Hpage Hal)
      as (f' & Hfill & Hf').
    exists p', j, f'. split; [exact Hfill|]. done.
  - right. rewrite (bind_ret _ _ k0 false k0) by (rewrite (in_paging_ret _ k0 _ _ Hens); by destruct k).
    assert (frames_ok (<[n := true]> (k_frames k))) as Hfr' by (apply frames_ok_insert; [done | lia]).
    cbn [negb]. rewrite (bind_ret _ _ _ _ _ (in_frames_ret _ k0 _ _ (free_phys_frame_run _ n Hfr' Hnr))).
    set (k1 := set_frames _ k0). destruct (panic_run (A := ()) k1 Hc) as (k' & Hp). exists k'. by split.
Qed.

Lemma page_fault_run k mm i l err addr :
  running k mm i l → 0 ≤ addr < 0x100000000 → Z.land err 1 = 0 →
  page_fault_handler err addr k =
  match area_at addr l with
  | None => page_fault_panic k
  | Some x =>
      match first_clear (k_frames k) with
      | None => page_fault_panic k
      | Some n => serve mm x.1 (Z.land addr PAGE_ADDRESS_MASK) (frame_of n)
                    (set_frames (<[n := true]> (k_frames k)) k)
      end
  end.
Proof.
  intros Hrun Haddr Herr. pose proof Hrun as [(t & Ht & Hmm) Hnull Hsp _ Hmem _ _].
  pose proof Hsp as (Hm & _ & Hseg).
  unfold page_fault_handler. rewrite (bind_ret _ _ _ _ _ (in_current k)).
  rewrite (proj2 (Z.eqb_neq (current_task (k_tasks k)) 0)) by congruence.
  rewrite (bind_ret _ _ _ _ _ (in_load_task k _ _ Ht)), Hmm.
  rewrite (proj2 (Z.eqb_neq mm 0)), Herr by congruence. cbn [Z.eqb negb].
  rewrite (bind_ret _ _ _ _ _ (in_store_read _ _ _ (find_vma_run addr mm _ l _ Hsp))).
  destruct (area_at addr l) as [[q a]|] eqn:E; [|done].
  apply area_at_Some in E as [Hin _]. cbn [fst].
  destruct (dseg_lookup _ _ _ _ _ _ _ _ _ Hseg Hin) as (Hq & _).
  rewrite (proj2 (Z.eqb_neq q 0)) by done.
  pose proof (alloc_phys_frame_run _ (mo_frames _ _ Hmem)) as Hall.
  destruct (first_clear (k_frames k)) as [n|] eqn:Ef.
  - rewrite (bind_ret _ _ _ _ _ (in_frames_ret _ k _ _ Hall)).
    apply first_clear_Some in Ef as [Ef _]. pose proof (frames_clear _ _ (mo_frames _ _ Hmem) Ef).
    rewrite (proj2 (Z.eqb_neq (frame_of n) 0)) by (unfold frame_of; lia). reflexivity.
  - rewrite (bind_ret _ _ k 0 k) by (rewrite (in_frames_ret _ k _ _ Hall); by destruct k). done.
Qed.

(** What a page holds after a fault on it. *)
Definition page_byte k a (page o : Z) : Z := default 0 (page_bytes k a page !! Z.to_nat o).

Lemma served_bytes k a page n m o :
  0 ≤ o < 4096 →
  put_bytes (frame_of n) (page_bytes k a page) (put_bytes (frame_of n) (replicate 4096 0) m) !! (frame_of n + o) =
  Some (page_byte k a page o).
Proof.
  intros Ho. unfold page_byte. pose proof (page_bytes_length k a page) as Hlen.
  destruct (decide (o < Z.of_nat (length (page_bytes k a page)))) as [Hlt|Hge].
  - rewrite put_bytes_in by lia. replace (frame_of n + o - frame_of n) with o by lia.
    destruct (lookup_lt_is_Some_2 (page_bytes k a page) (Z.to_nat o)) as [b ->]; [lia | done].
  - rewrite put_bytes_out, put_bytes_in by (rewrite ?length_replicate; lia).
    replace (frame_of n + o - frame_of n) with o by lia.
    rewrite lookup_replicate_2 by lia. by rewrite lookup_ge_None_2 by lia.
Qed.

Lemma served_elsewhere k p' f' i j page n a x :
  ¬ frame_of n ≤ x < frame_of n + 4096 → k_user (served k p' f' i j page n a) !! x = k_user k !! x.
Proof.
  intros Hx. pose proof (page_bytes_length k a page). unfold served.
  cbn [k_user set_fs set_user]. etrans; [apply put_bytes_out; lia|].
  apply put_bytes_out. rewrite length_replicate. lia.
Qed.

(** *** Properties *)

Lemma page_fault_handler_run k mm i l err addr :
  running k mm i l → console_ok (k_console k).1 → 0 ≤ addr < 0x100000000 → Z.land err 1 = 0 →
  ¬ kernel_pde (pde_index addr) →
  let page := Z.land addr PAGE_ADDRESS_MASK in
  match area_at addr l with
  | None => ∃ k', page_fault_handler err addr k = Fault PageFaultPanic k'
  | Some (q, a) => file_ready k a page →
      (∃ n k', page_fault_handler err addr k = Ret tt k' ∧
         k_frames k !! n = Some false ∧ k_frames k' = <[n := true]> (k_frames k) ∧
         running k' mm i l ∧ k_tasks k' = k_tasks k ∧
         walk (k_paging k') (pd_slot i) addr = Some (Z.lor (frame_of n) 7) ∧
         (∀ pgd va, directory (k_paging k) pgd → 0 ≤ va < 0x100000000 →
            pgd ≠ pd_slot i ∨ va `div` 4096 ≠ addr `div` 4096 →
            walk (k_paging k') pgd va = walk (k_paging k) pgd va) ∧
         (∀ o, 0 ≤ o < 4096 → k_user k' !! (frame_of n + o) = Some (page_byte k a page o)) ∧
         (∀ x, ¬ frame_of n ≤ x < frame_of n + 4096 → k_user k' !! x = k_user k !! x) ∧
         k_console k' = k_console k ∧ pd_in_use (k_paging k') = pd_in_use (k_paging k) ∧
         (free_count (pt_in_use (k_paging k)) ≤ S (free_count (pt_in_use (k_paging k'))))%nat ∧ (same_fs (k_fs k) (k_fs k') ∨ k_fs k' = k_fs k)) ∨
      (∃ k', page_fault_handler err addr k = Fault PageFaultPanic k' ∧
         ((∀ n, Z.of_nat n < 16384 → frame_in_use (k_frames k) n) ∨
          ∀ j, 0 ≤ j < 64 → pt_live (k_paging k) j))
  end.
Proof.
  intros Hrun Hc Haddr Herr Hnk page. rewrite (page_fault_run k mm i l) by done. fold page.
  destruct (page_of_range addr Haddr) as (Epage & Hpage & Hal). fold page in Epage, Hpage, Hal.
  destruct (index_page addr Haddr) as [Ek Em]. rewrite <-Epage in Ek, Em.
  destruct (area_at addr l) as [[q a]|] eqn:E; [|by apply panic_run].
  intros Hfile. apply area_at_Some in E as [Hin _].
  pose proof (rn_mem _ _ _ _ Hrun) as Hmem. pose proof (mo_frames _ _ Hmem) as Hfr.
  destruct (first_clear (k_frames k)) as [n|] eqn:Ef.
  - apply first_clear_Some in Ef as [Hn _].
    destruct (serve_run k mm i l q a page n Hrun Hc Hin Hn Hpage Hal ltac:(by rewrite Ek) Hfile)
      as [(p' & j & f' & Hs & Hmem' & Hm & Hsame & Hf')|(k' & Hs & Hfull)]; [left | right; eauto].
    destruct (mapped_kernel_ok k p' mm i l j page n Hrun Hmem' Hm Hsame Hn Hpage Hal) as (Hrun' & Hw & _ & Hother).
    exists n, (served k p' f' i j page n a). split; [exact Hs|]. split; [done|]. split; [done|].
    split; [by destruct Hrun'|]. split; [done|]. split; [|split; [|split; [|split]]].
    + rewrite <-walk_page by done. rewrite <-Epage. exact Hw.
    + intros pgd va Hd Hva Hne. apply Hother; [done..|]. rewrite Epage, Z.div_mul by lia. done.
    + intros o Ho. by apply served_bytes.
    + intros x Hx. by apply served_elsewhere.
    + split; [done|]. split; [|split; [|exact Hf']].
      * rewrite <-(ss_pds _ _ Hsame). cbn. unfold flushed. by case_match.
      * pose proof (ss_pts _ _ Hsame) as Hpts. cbn. unfold flushed. by case_match.
  - right. destruct (panic_run (A := ()) k Hc) as (k' & Hp). exists k'. split; [done|]. left.
    intros n Hn. destruct (lookup_lt_is_Some_2 (k_frames k) n) as [b Hb].
    { pose proof (frames_length _ Hfr). unfold PHYSICAL_FRAMES in *. lia. }
    unfold frame_in_use. by rewrite (first_clear_None _ _ _ Ef Hb) in Hb.
Qed.

(** C3 (functional): A fault on a page that is not present, at an address of one of
    the task's areas, is served with a frame that was free: the page shows it,
    writable for the user, holding the file's bytes and then zeros; no other page
    of any address space, no other frame, no object, no file position, nothing of
    the disk and the screen changes, at most one page table is taken, and the
    translations cached stay right.  The kernel stops in the panic loop
    only when the frames or the page tables are used up, or when no area contains
    the address. *)
Theorem page_fault_correct k mm i l err addr :
  running k mm i l → console_ok (k_console k).1 → 0 ≤ addr < 0x100000000 → Z.land err 1 = 0 →
  ¬ kernel_pde (pde_index addr) →
  let page := Z.land addr PAGE_ADDRESS_MASK in
  match area_at addr l with
  | None => ∃ k', page_fault_handler err addr k = Fault PageFaultPanic k'
  | Some (q, a) => file_ready k a page →
      (∃ n k', page_fault_handler err addr k = Ret tt k' ∧
         k_frames k !! n = Some false ∧ k_frames k' = <[n := true]> (k_frames k) ∧
         running k' mm i l ∧ k_tasks k' = k_tasks k ∧
         walk (k_paging k') (pd_slot i) addr = Some (Z.lor (frame_of n) 7) ∧
         (∀ pgd va, directory (k_paging k) pgd → 0 ≤ va < 0x100000000 →
            pgd ≠ pd_slot i ∨ va `div` 4096 ≠ addr `div` 4096 →
            walk (k_paging k') pgd va = walk (k_paging k) pgd va) ∧
         (∀ o, 0 ≤ o < 4096 → k_user k' !! (frame_of n + o) = Some (page_byte k a page o)) ∧
         (∀ x, ¬ frame_of n ≤ x < frame_of n + 4096 → k_user k' !! x = k_user k !! x) ∧
         k_console k' = k_console k ∧ pd_in_use (k_paging k') = pd_in_use (k_paging k) ∧
         (free_count (pt_in_use (k_paging k)) ≤ S (free_count (pt_in_use (k_paging k'))))%nat ∧ (same_fs (k_fs k) (k_fs k') ∨ k_fs k' = k_fs k)) ∨
      (∃ k', page_fault_handler err addr k = Fault PageFaultPanic k' ∧
         ((∀ n, Z.of_nat n < 16384 → frame_in_use (k_frames k) n) ∨
          ∀ j, 0 ≤ j < 64 → pt_live (k_paging k) j))
  end.
Proof. exact (page_fault_handler_run k mm i l err addr). Qed.
End handler.

(** ** A task with one anonymous area *)

#[local] Existing Instance sample_layout.

Definition task_paging : paging :=
  Paging (words one_table) (pd_in_use one_table) (pt_in_use one_table) (get_pd_lma pd_pool) ∅.

Lemma task_paging_ok : paging_ok task_paging.
Proof.
  destruct one_table_ok as [H1 H2 Hw Hb He Hu Hc]. constructor; try done.
  right. exists 0. split; [split; [lia | done] | done].
Qed.

Lemma task_paging_empty i k m e : ¬ entry task_paging i k m e.
Proof.
  intros (j & (_ & [Hj _] & _) & Hm & He & Hpr). unfold pte in He.
  change (word task_paging) with (word one_table) in He. unfold one_table in He.
  rewrite word_set_pde, boot_words_pt in He by lia. by rewrite <-He in Hpr.
Qed.

Definition fault_kernel : kernel heap (gmap Z (list Z)) latches :=
  Kernel (sample_tasks the_vma) fresh_frames task_paging sample_fs (clear_screen, idle_bus) 0 zero_tss 0 ∅.

Lemma fault_running : running fault_kernel the_mm 0 [(the_vma, the_area)].
Proof.
  constructor.
  - eexists. split; [reflexivity | reflexivity].
  - reflexivity.
  - destruct sample_space as (t & _ & _ & Hsp). exact Hsp.
  - split; [lia | reflexivity].
  - constructor; [exact task_paging_ok | exact fresh_frames_ok | |].
    + intros i k m e He. by destruct (task_paging_empty i k m e).
    + intros i k m e i' k' m' e' He. by destruct (task_paging_empty i k m e).
  - intros page e He. change (tlb (k_paging fault_kernel)) with (∅ : gmap Z Z) in He. by rewrite lookup_empty in He.
  - vm_compute. reflexivity.
Qed.

Lemma page_fault_correct_witness :
  (∃ n k', page_fault_handler 0x6 0x8048123 fault_kernel = Ret tt k' ∧
     walk (k_paging k') pd_pool 0x8048123 = Some (Z.lor (frame_of n) 7) ∧
     (∀ o, 0 ≤ o < 4096 → k_user k' !! (frame_of n + o) = Some 0)) ∧
  ∃ k', page_fault_handler 0x6 0x804a000 fault_kernel = Fault PageFaultPanic k'.
Proof.
  assert (¬ kernel_pde (pde_index 0x8048123)) as Hk1 by (vm_compute; intros [?|?]; discriminate).
  assert (¬ kernel_pde (pde_index 0x804a000)) as Hk2 by (vm_compute; intros [?|?]; discriminate).
  split.
  - pose proof (page_fault_correct fault_kernel _ _ _ 0x6 0x8048123 fault_running clear_screen_ok
      ltac:(lia) eq_refl Hk1) as Hf.
    destruct Hf as [(n & k' & Hrun & _ & _ & _ & _ & Hw & _ & Hb & _)|(k' & _ & [Hall|Hall])].
    + split; [reflexivity|]. intros Hnz. exfalso. by apply Hnz.
    + exists n, k'. split; [exact Hrun|]. split; [exact Hw|]. intros o Ho. rewrite (Hb o Ho). reflexivity.
    + specialize (Hall 1024%nat ltac:(lia)). vm_compute in Hall. discriminate.
    + destruct (Hall 1 ltac:(lia)) as [_ Hl]. vm_compute in Hl. discriminate.
  - exact (page_fault_correct fault_kernel _ _ _ 0x6 0x804a000 fault_running clear_screen_ok
      ltac:(lia) eq_refl Hk2).
Defined.
