(* ===== verification/UserMem.v ===== *)
(** * User memory as a program sees it

    The pages of a task come into memory at the first access, filled from the file
    of their area (src/kernel/fault.c).  [contents] is the memory of an address
    space as if all of it were there; a page fault does not change it, and a store
    of the kernel changes exactly the byte that is stored, in that address space. *)

From S2P Require Import Prelude Layout Gdt Allocator Heap Ports Console BlockDevice Frames Paging Paths Fs Objects Linked Mmap Kernel Space Files Fault.

Section usermem.
Context {L : Layout} {H : Type} `{!Allocator H} {B : Type} `{!BlockDevice B} {D : Type} `{!Bus D}.
Implicit Types (k : kernel H B D) (l : list (Z * area)).
Local Abbreviation k_objs k := (objs (tk_store (k_tasks k))).

Definition user_va (va : Z) : Prop := 0 ≤ va < 0x100000000 ∧ ¬ kernel_pde (pde_index va).

(** ** The abstraction *)

(** The byte at [va] of the address space with the directory [i] and the areas [l]:
    that of the frame if the page is there, else the one that a fault would bring. *)
Definition contents k (i : Z) l (va : Z) : option Z :=
  match walk (k_paging k) (pd_slot i) va with
  | Some e => k_user k !! (frame_in e + va mod 4096)
  | None =>
      match area_at va l with
      | Some x => Some (page_byte k x.2 (va - va mod 4096) (va mod 4096))
      | None => None
      end
  end.

(** [k'] differs from [k], for programs, only at the addresses [P] of the address
    space [i]. *)
Record same_view (P : Z → Prop) k k' (i : Z) l : Prop := {
  sv_own va : user_va va → ¬ P va → contents k' i l va = contents k i l va;
  sv_other i' l' va : pd_live (k_paging k) i' → i' ≠ i → user_va va → contents k' i' l' va = contents k i' l' va;
  sv_walk i' va : pd_live (k_paging k) i' → i' ≠ i → user_va va → walk (k_paging k') (pd_slot i') va = walk (k_paging k) (pd_slot i') va;
}.

(** What faults and stores to user memory leave of the rest of the kernel. *)
Record same_kernel k k' : Prop := {
  sk_tasks : k_tasks k' = k_tasks k;
  sk_console : k_console k' = k_console k;
  sk_fs : same_fs (k_fs k) (k_fs k') ∨ k_fs k' = k_fs k;
  sk_pds : pd_in_use (k_paging k') = pd_in_use (k_paging k);
}.

#[local] Instance same_kernel_po : PreOrder same_kernel.
Proof.
  split; [intros k; constructor; auto|]. intros k1 k2 k3 [E1 E2 E3 E4] [E5 E6 E7 E8].
  constructor; [by rewrite E5 | by rewrite E6 | | by rewrite E8].
  destruct E3 as [E3|E3]; [left | by rewrite <-E3]. destruct E7 as [E7|E7].
  - by eapply same_fs_trans.
  - by rewrite E7.
Qed.

Lemma same_kernel_trans k1 k2 k3 : same_kernel k1 k2 → same_kernel k2 k3 → same_kernel k1 k3.
Proof. by etrans. Qed.

Lemma same_kernel_refl k : same_kernel k k.
Proof. done. Qed.

Lemma same_kernel_live k k' i : same_kernel k k' → pd_live (k_paging k') i ↔ pd_live (k_paging k) i.
Proof. intros Hk. unfold pd_live. by rewrite (sk_pds _ _ Hk). Qed.

Lemma same_view_trans (P Q : Z → Prop) k1 k2 k3 i l :
  same_kernel k1 k2 → same_view P k1 k2 i l → same_view Q k2 k3 i l → same_view (λ va, P va ∨ Q va) k1 k3 i l.
Proof.
  intros Hk [E1 E2 E5] [E3 E4 E6]. constructor.
  - intros va Hva HP. rewrite E3, E1; tauto.
  - intros i' l' va Hi Hne Hva. rewrite E4, E2; try done. by apply (same_kernel_live _ _ _ Hk).
  - intros i' va Hi Hne Hva. rewrite E6, E5; try done. by apply (same_kernel_live _ _ _ Hk).
Qed.

Lemma same_view_weaken (P Q : Z → Prop) k1 k2 i l : (∀ va, user_va va → P va → Q va) → same_view P k1 k2 i l → same_view Q k1 k2 i l.
Proof. intros HPQ [E1 E2 E3]. constructor; [|done..]. intros va Hva HQ. apply E1; [done|]. intros HP. by apply HQ, HPQ. Qed.

Lemma same_image k k' : same_kernel k k' → image (k_fs k') = image (k_fs k).
Proof. intros Hk. by destruct (sk_fs _ _ Hk) as [(_ & E & _)| ->]. Qed.

Lemma same_fs_ok k k' : same_kernel k k' → fs_ok (k_fs k) → fs_ok (k_fs k').
Proof. intros Hk. by destruct (sk_fs _ _ Hk) as [(? & _)| ->]. Qed.

Lemma same_page_byte k k' a page o : same_kernel k k' → page_byte k' a page o = page_byte k a page o.
Proof. intros Hk. unfold page_byte, page_bytes. by rewrite (sk_tasks _ _ Hk), (same_image _ _ Hk). Qed.

Lemma same_file_ready k k' a page : same_kernel k k' → file_ready k a page → file_ready k' a page.
Proof.
  intros Hk [Hn Hf]. split; [by rewrite (sk_tasks _ _ Hk)|]. intros Hnz.
  destruct (Hf Hnz) as (Hok & Hrest). split; [by eapply same_fs_ok|].
  by rewrite (sk_tasks _ _ Hk), (same_image _ _ Hk).
Qed.

(** ** What the handler relies on *)

Definition page_aligned l : Prop := ∀ x, x ∈ l → a_start x.2 mod 4096 = 0 ∧ a_end x.2 mod 4096 = 0.

(** The current task with its address space, all of whose areas can be read in and
    contain the pages that are there. *)
Record user_space k (mm i : Z) l : Prop := {
  us_running : running k mm i l;
  us_console : console_ok (k_console k).1;
  us_ordered : ordered l;
  us_aligned : page_aligned l;
  us_files x page : x ∈ l → a_start x.2 ≤ page < a_end x.2 → page mod 4096 = 0 → file_ready k x.2 page;
  us_resident va e : user_va va → walk (k_paging k) (pd_slot i) va = Some e → is_Some (area_at va l);
}.

(** There are frames and page tables for [n] more faults. *)
Definition can_fault (n : nat) k : Prop :=
  (n ≤ free_count (k_frames k) ∧ n ≤ free_count (pt_in_use (k_paging k)))%nat.

(** At most [n] frames and [n] page tables are taken. *)
Definition takes (n : nat) k k' : Prop :=
  (free_count (k_frames k) ≤ n + free_count (k_frames k') ∧
   free_count (pt_in_use (k_paging k)) ≤ n + free_count (pt_in_use (k_paging k')))%nat.

Lemma takes_refl k : takes 0 k k.
Proof. done. Qed.

Lemma takes_trans n m k1 k2 k3 : takes n k1 k2 → takes m k2 k3 → takes (n + m) k1 k3.
Proof. intros [? ?] [? ?]. split; lia. Qed.

Lemma takes_le n m k k' : (n ≤ m)%nat → takes n k k' → takes m k k'.
Proof. intros ? [? ?]. split; lia. Qed.

Lemma takes_can n m k k' : takes n k k' → can_fault (n + m) k → can_fault m k'.
Proof. intros [? ?] [? ?]. split; lia. Qed.

Lemma used_up k :
  (∀ n, Z.of_nat n < 16384 → frame_in_use (k_frames k) n) ∨ (∀ j, 0 ≤ j < 64 → pt_live (k_paging k) j) →
  frames_ok (k_frames k) → paging_ok (k_paging k) → ¬ can_fault 1 k.
Proof.
  intros [Hall|Hall] Hf Hp [H1 H2].
  - rewrite free_count_none in H1; [lia|]. intros i b Hb. pose proof (lookup_lt_Some _ _ _ Hb) as Hlt.
    pose proof (frames_length _ Hf) as Hlen. unfold PHYSICAL_FRAMES in Hlen. specialize (Hall i ltac:(lia)). unfold frame_in_use in Hall. congruence.
  - rewrite free_count_none in H2; [lia|]. intros i b Hb. pose proof (lookup_lt_Some _ _ _ Hb) as Hlt.
    pose proof (po_pts _ Hp) as Hlen. destruct (Hall (Z.of_nat i) ltac:(lia)) as [_ Hi]. rewrite Nat2Z.id in Hi. congruence.
Qed.

Lemma area_at_unique addr l x :
  ordered l → x ∈ l → a_start x.2 ≤ addr < a_end x.2 → area_at addr l = Some x.
Proof.
  intros Ho Hin Hr. destruct (area_at addr l) as [y|] eqn:E.
  - apply area_at_Some in E as [Hy [H1%Z.leb_le H2%Z.ltb_lt]%andb_prop]. f_equal.
    apply list_elem_of_split in Hin as (l1 & l2 & ->). apply ordered_app in Ho as (_ & [_ [Hf _]] & Hxy).
    apply elem_of_app in Hy as [Hy|[->|Hy]%elem_of_cons]; [|done|].
    + specialize (Hxy y x Hy ltac:(by left)). lia.
    + rewrite Forall_forall in Hf. specialize (Hf y Hy). lia.
  - apply (area_at_None _ _ _ E) in Hin. apply andb_false_iff in Hin as [?%Z.leb_gt|?%Z.ltb_ge]; lia.
Qed.

Lemma area_at_in addr l x : area_at addr l = Some x → x ∈ l ∧ a_start x.2 ≤ addr < a_end x.2.
Proof. by intros [Hin [?%Z.leb_le ?%Z.ltb_lt]%andb_prop]%area_at_Some. Qed.

(** All of a page is in one area. *)
Lemma area_at_page va va' l :
  ordered l → page_aligned l → va' `div` 4096 = va `div` 4096 → area_at va' l = area_at va l.
Proof.
  intros Ho Hal Hpage. assert (∀ u u' x, u' `div` 4096 = u `div` 4096 → area_at u l = Some x → area_at u' l = Some x) as Hone.
  { intros u u' x Hp [Hin Hr]%area_at_in. apply area_at_unique; [done..|]. destruct (Hal x Hin). Z.div_mod_to_equations. lia. }
  destruct (area_at va l) as [x|] eqn:E.
  - by apply (Hone va).
  - destruct (area_at va' l) as [x|] eqn:E'; [|done]. by rewrite (Hone va' va x ltac:(done) E') in E.
Qed.

(** A page that an address space has is a frame above the kernel. *)
Lemma user_frame k i va e :
  mem_ok (k_paging k) (k_frames k) → pd_live (k_paging k) i → user_va va → walk (k_paging k) (pd_slot i) va = Some e →
  ∃ n, 1024 ≤ Z.of_nat n < 16384 ∧ k_frames k !! n = Some true ∧ frame_in e = frame_of n.
Proof.
  intros Hmem Hlive [Hva Hnk] Hw. apply walk_entry in Hw; [|apply (mo_paging _ _ Hmem) | done..].
  by apply (mo_backed _ _ Hmem) in Hw.
Qed.

Lemma running_translate k mm i l va :
  running k mm i l → translate (k_paging k) va = (e ← walk (k_paging k) (pd_slot i) va; Some (frame_in e + va mod 4096)).
Proof. intros Hr. unfold translate. by rewrite (rn_cr3 _ _ _ _ Hr). Qed.

(** ** A page fault changes nothing that a program sees *)

Lemma fault_transparent_run k mm i l err va :
  user_space k mm i l → user_va va → Z.land err 1 = 0 → walk (k_paging k) (pd_slot i) va = None →
  match area_at va l with
  | None => ∃ k', page_fault_handler err va k = Fault PageFaultPanic k'
  | Some _ =>
      (∃ k', page_fault_handler err va k = Ret tt k' ∧ user_space k' mm i l ∧ same_kernel k k' ∧
         is_Some (walk (k_paging k') (pd_slot i) va) ∧ same_view (λ _, False) k k' i l ∧ takes 1 k k') ∨
      (∃ k', page_fault_handler err va k = Fault PageFaultPanic k' ∧ ¬ can_fault 1 k)
  end.
Proof.
  intros [Hrun Hc Ho Hal Hfiles Hres] Huva Herr Habs. pose proof Huva as [Hva Hnk].
  pose proof (page_fault_handler_run k mm i l err va Hrun Hc Hva Herr Hnk) as Hf. cbv zeta in Hf.
  assert (Z.land va PAGE_ADDRESS_MASK = va - va mod 4096) as Epage by (by apply land_page_mask). rewrite Epage in Hf.
  destruct (area_at va l) as [[q a]|] eqn:Ea; [|exact Hf].
  destruct (area_at_in _ _ _ Ea) as [Hin Hrange]. destruct (Hal _ Hin) as [Hs He]. cbn [snd] in *.
  destruct Hf as [(n & k' & Hh & Hn & Hfr & Hrun' & Htasks & Hw & Hother & Hin_page & Hout & Hcon & Hpds & Hpts & Hfs)|(k' & Hh & Hex)].
  { apply (Hfiles (q, a)); [done | Z.div_mod_to_equations; cbn; lia..]. }
  2: { right. exists k'. split; [done|]. apply used_up; [done | apply (rn_mem _ _ _ _ Hrun)..]. }
  assert (same_kernel k k') as Hsk by by constructor.
  assert (mem_ok (k_paging k) (k_frames k)) as Hmem by apply (rn_mem _ _ _ _ Hrun).
  assert (∀ i' va', pd_live (k_paging k) i' → user_va va' → i' ≠ i ∨ va' `div` 4096 ≠ va `div` 4096 →
    walk (k_paging k') (pd_slot i') va' = walk (k_paging k) (pd_slot i') va') as Hwalk.
  { intros i' va' Hi' [Hva' _] Hne. apply Hother; [right; by exists i' | done|].
    destruct Hne as [Hne|]; [left; unfold pd_slot, PAGE_SIZE; lia | by right]. }
  assert (∀ i' l' va', pd_live (k_paging k) i' → user_va va' → i' ≠ i ∨ va' `div` 4096 ≠ va `div` 4096 →
    contents k' i' l' va' = contents k i' l' va') as Hcont.
  { intros i' l' va' Hi' Hva' Hne. unfold contents. rewrite Hwalk by done.
    destruct (walk (k_paging k) (pd_slot i') va') as [e|] eqn:Ew.
    - destruct (user_frame _ _ _ _ Hmem Hi' Hva' Ew) as (n' & _ & Hn' & ->). apply Hout.
      assert (n' ≠ n) by congruence. unfold frame_of. Z.div_mod_to_equations. lia.
    - destruct (area_at va' l'); [|done]. f_equal. by apply same_page_byte. }
  left. exists k'. split; [done|]. split; [|split; [done|split; [by eexists|split; [|split; [rewrite Hfr, (free_count_take _ n Hn)|]; lia]]]].
  - constructor; try done.
    + by rewrite Hcon.
    + intros x page Hx Hp Hpal. eapply same_file_ready; [done|]. by apply Hfiles.
    + intros va' e Hva' Hw'. destruct (decide (va' `div` 4096 = va `div` 4096)) as [E|E].
      * rewrite (area_at_page va va') by done. by rewrite Ea.
      * apply (Hres va' e); [done|]. rewrite <-Hwalk; [done | apply Hrun | done | by right].
  - constructor.
    + intros va' Hva' _. destruct (decide (va' `div` 4096 = va `div` 4096)) as [E|E]; [|apply Hcont; [apply Hrun | done | by right]].
      assert (walk (k_paging k') (pd_slot i) va' = Some (Z.lor (frame_of n) 7)) as Hw'.
      { rewrite <-Hw, <-(walk_page _ _ va') by apply Hva'. rewrite E. by apply walk_page. }
      assert (walk (k_paging k) (pd_slot i) va' = None) as Habs'.
      { rewrite <-Habs, <-(walk_page _ _ va') by apply Hva'. rewrite E. by apply walk_page. }
      unfold contents. rewrite Hw', Habs', (area_at_page va va'), Ea by done. cbn [snd].
      rewrite frame_in_lor; [|destruct (mo_backed _ _ (rn_mem _ _ _ _ Hrun') i _ _ _ (proj1 (walk_entry _ _ _ _ (mo_paging _ _ (rn_mem _ _ _ _ Hrun')) (rn_live _ _ _ _ Hrun') Hva Hnk) Hw)) as (n' & Hn' & _ & _)|lia].
      * rewrite Hin_page by (Z.div_mod_to_equations; lia). do 2 f_equal. Z.div_mod_to_equations. lia.
      * pose proof (frames_length _ (mo_frames _ _ Hmem)) as Hlen. apply lookup_lt_Some in Hn. unfold PHYSICAL_FRAMES in *. lia.
    + intros i' l' va' Hi' Hne Hva'. apply Hcont; [done..|by left].
    + intros i' va' Hi' Hne Hva'. apply Hwalk; [done..|by left].
Qed.

(** ** A store changes one byte of one address space *)

(** Two places of user memory are the same byte only if they are the same address
    of the same address space. *)
Lemma user_place_unique k i i' va va' e e' :
  mem_ok (k_paging k) (k_frames k) → pd_live (k_paging k) i → pd_live (k_paging k) i' → user_va va → user_va va' →
  walk (k_paging k) (pd_slot i) va = Some e → walk (k_paging k) (pd_slot i') va' = Some e' →
  frame_in e + va mod 4096 = frame_in e' + va' mod 4096 → i = i' ∧ va = va'.
Proof.
  intros Hmem Hi Hi' Hva Hva' Hw Hw' Heq.
  destruct (user_frame _ _ _ _ Hmem Hi Hva Hw) as (n & Hn & _ & En), (user_frame _ _ _ _ Hmem Hi' Hva' Hw') as (n' & Hn' & _ & En').
  rewrite En, En' in Heq. unfold frame_of in Heq.
  assert (Z.of_nat n = Z.of_nat n') as Enn by (Z.div_mod_to_equations; lia). apply Nat2Z.inj in Enn as <-.
  destruct Hva as [Hva Hk], Hva' as [Hva' Hk'].
  pose proof (mo_paging _ _ Hmem) as Hp. apply walk_entry in Hw; [|done..]. apply walk_entry in Hw'; [|done..].
  destruct (mo_unique _ _ Hmem _ _ _ _ _ _ _ _ Hw Hw') as (-> & E1 & E2); [congruence|]. split; [done|].
  rewrite !pde_index_div in E1 by done. rewrite !pte_index_mod in E2 by done. Z.div_mod_to_equations. lia.
Qed.

Lemma store_view k mm i l va b e :
  user_space k mm i l → user_va va → walk (k_paging k) (pd_slot i) va = Some e →
  let k' := set_user (<[frame_in e + va mod 4096 := b]> (k_user k)) k in
  store_byte va b k = Ret tt k' ∧ user_space k' mm i l ∧ same_kernel k k' ∧
  contents k' i l va = Some b ∧ same_view (λ va', va' = va) k k' i l.
Proof.
  intros Hus Hva Hw k'. pose proof (us_running _ _ _ _ Hus) as Hrun.
  pose proof (rn_mem _ _ _ _ Hrun) as Hmem. pose proof (rn_live _ _ _ _ Hrun) as Hlive.
  assert (∀ i' l' va', pd_live (k_paging k) i' → user_va va' → ¬ (i' = i ∧ va' = va) →
    contents k' i' l' va' = contents k i' l' va') as Hother.
  { intros i' l' va' Hi' Hva' Hne. unfold contents. change (k_paging k') with (k_paging k).
    destruct (walk (k_paging k) (pd_slot i') va') as [e'|] eqn:Ew; [|done].
    apply lookup_insert_ne. intros Heq. apply Hne.
    destruct (user_place_unique k i i' va va' e e'); naive_solver. }
  split; [|split; [|split; [|split]]].
  - unfold store_byte. rewrite (running_translate _ _ _ _ _ Hrun), Hw. cbn [option_bind mbind].
    destruct (user_frame _ _ _ _ Hmem Hlive Hva Hw) as (n & Hn & _ & En).
    assert (0x400000 ≤ frame_in e + va mod 4096) as Hge by (rewrite En; unfold frame_of; Z.div_mod_to_equations; lia).
    cbn. by rewrite (proj2 (Z.ltb_ge _ _) Hge).
  - destruct Hus as [[Ht Hnull Hsp Hl Hm Htlb Hcr3] Hc Ho Hal Hf Hres]. by do 2 (constructor; try done).
  - constructor; auto.
  - unfold contents. change (k_paging k') with (k_paging k). rewrite Hw. apply lookup_insert_eq.
  - constructor.
    + intros va' Hva' Hne. apply Hother; [done..|]. by intros [_ ?].
    + intros i' l' va' Hi' Hne Hva'. apply Hother; [done..|]. by intros [? _].
    + by intros.
Qed.

(** The faults that an access to [va] takes. *)
Definition absent k (i va : Z) : nat := match walk (k_paging k) (pd_slot i) va with Some _ => 0 | None => 1 end.

Lemma touch_byte_run k mm i l va b :
  user_space k mm i l → user_va va →
  (∃ k', touch_byte va b k = Ret tt k' ∧ user_space k' mm i l ∧ same_kernel k k' ∧
     contents k' i l va = Some b ∧ same_view (λ va', va' = va) k k' i l ∧
     is_Some (walk (k_paging k') (pd_slot i) va) ∧ takes (absent k i va) k k') ∨
  (∃ k', touch_byte va b k = Fault PageFaultPanic k' ∧ (area_at va l = None ∨ ¬ can_fault (absent k i va) k)).
Proof.
  intros Hus Hva. pose proof (us_running _ _ _ _ Hus) as Hrun. unfold absent.
  destruct (walk (k_paging k) (pd_slot i) va) as [e|] eqn:Ew.
  { left. destruct (store_view k mm i l va b e Hus Hva Ew) as (Hst & Hus' & Hsk & Hc & Hsv). eexists.
    split; [unfold touch_byte; by rewrite Hst|]. split; [exact Hus'|]. split; [exact Hsk|]. split; [exact Hc|]. split; [exact Hsv|].
    split; [by exists e|by split]. }
  assert (touch_byte va b k = (page_fault_handler 0x2 va;; store_byte va b) k) as ->.
  { unfold touch_byte, store_byte at 1. by rewrite (running_translate _ _ _ _ _ Hrun), Ew. }
  pose proof (fault_transparent_run k mm i l 0x2 va Hus Hva eq_refl Ew) as Hf.
  destruct (area_at va l) as [x|].
  - destruct Hf as [(k1 & Hh & Hus1 & Hsk1 & [e Hw1] & Hsv1 & Htk)|(k1 & Hh & Hex)].
    + left. rewrite (bind_ret _ _ _ _ _ Hh).
      destruct (store_view k1 mm i l va b e Hus1 Hva Hw1) as (Hst & Hus2 & Hsk2 & Hc & Hsv2).
      eexists. split; [exact Hst|]. split; [done|]. split; [by etrans|]. split; [done|].
      split; [eapply same_view_weaken; [|by eapply same_view_trans]; by intros va' _ [[]| ->]|]. split; [by exists e|exact Htk].
    + right. exists k1. split; [by apply bind_fault|by right].
  - right. destruct Hf as (k1 & Hh). exists k1. split; [by apply bind_fault|by left].
Qed.

(** The pages that [n] bytes from [va] on touch. *)
Definition pages (va n : Z) : Z := if n =? 0 then 0 else (va + n - 1) `div` 4096 - va `div` 4096 + 1.

Lemma absent_page k i va va' :
  0 ≤ va < 0x100000000 → 0 ≤ va' < 0x100000000 → va' `div` 4096 = va `div` 4096 → absent k i va' = absent k i va.
Proof. intros Hva Hva' Hp. unfold absent. by rewrite <-(walk_page _ _ va'), Hp, walk_page. Qed.

(** The faults that stores to [n] bytes from [va] on take at most. *)
Definition store_faults k (i va n : Z) : nat :=
  if n =? 0 then O else (Z.to_nat (pages va n - 1) + absent k i va)%nat.

Lemma store_faults_pages k i va n : 0 ≤ va → 0 ≤ n → (store_faults k i va n ≤ Z.to_nat (pages va n))%nat.
Proof.
  intros Hva Hn. unfold store_faults, pages, absent. destruct (Z.eqb_spec n 0); [lia|].
  destruct (walk _ _ _); Z.div_mod_to_equations; lia.
Qed.

Lemma store_faults_next k k1 i va n :
  0 ≤ va → 0 < n → va + n < 0x100000000 → is_Some (walk (k_paging k1) (pd_slot i) va) →
  (absent k i va + store_faults k1 i (va + 1) n ≤ store_faults k i va (1 + n))%nat.
Proof.
  intros Hva Hn Hmax Hw. unfold store_faults, pages. rewrite !(proj2 (Z.eqb_neq _ _)) by lia.
  destruct (decide ((va + 1) `div` 4096 = va `div` 4096)) as [E|E].
  - assert (absent k1 i (va + 1) = O) as ->.
    { rewrite (absent_page k1 i va) by lia. unfold absent. by destruct Hw as [e ->]. }
    rewrite E. replace (va + (1 + n) - 1) with (va + 1 + n - 1) by lia. lia.
  - assert (absent k1 i (va + 1) ≤ 1)%nat as Hab by (unfold absent; case_match; lia).
    replace (va + (1 + n) - 1) with (va + 1 + n - 1) by lia.
    assert ((va + 1) `div` 4096 = va `div` 4096 + 1) as E1 by (Z.div_mod_to_equations; lia).
    assert (va `div` 4096 + 1 ≤ (va + 1 + n - 1) `div` 4096) as E2 by (rewrite <-E1; apply Z.div_le_mono; lia).
    rewrite E1. lia.
Qed.

Lemma touch_bytes_faults k mm i l va bs :
  user_space k mm i l → (∀ o, 0 ≤ o < Z.of_nat (length bs) → user_va (va + o)) →
  (∃ k', touch_bytes va bs k = Ret tt k' ∧ user_space k' mm i l ∧ same_kernel k k' ∧
     (∀ o b, bs !! o = Some b → contents k' i l (va + Z.of_nat o) = Some b) ∧
     same_view (λ va', va ≤ va' < va + Z.of_nat (length bs)) k k' i l ∧
     takes (store_faults k i va (Z.of_nat (length bs))) k k') ∨
  (∃ k', touch_bytes va bs k = Fault PageFaultPanic k' ∧
     ((∃ o, 0 ≤ o < Z.of_nat (length bs) ∧ area_at (va + o) l = None) ∨
      ¬ can_fault (store_faults k i va (Z.of_nat (length bs))) k)).
Proof.
  revert k va. induction bs as [|b bs IH]; intros k va Hus Hva.
  { left. exists k. split; [done|]. split; [done|]. split; [done|]. split; [done|]. split; [by split|apply takes_refl]. }
  cbn [touch_bytes length] in *. pose proof (Hva 0 ltac:(lia)) as Hva0. rewrite Z.add_0_r in Hva0.
  destruct (touch_byte_run k mm i l va b Hus Hva0) as [(k1 & H1 & Hus1 & Hsk1 & Hc1 & Hsv1 & Hw1 & Ht1)|(k1 & H1 & Hwhy)].
  2: { right. exists k1. split; [by apply bind_fault|]. destruct Hwhy as [Hno|Hex]; [left | right].
       - exists 0. rewrite Z.add_0_r. split; [lia | done].
       - intros [? ?]. apply Hex. unfold store_faults in *. rewrite (proj2 (Z.eqb_neq _ _)) in * by lia. split; lia. }
  rewrite (bind_ret _ _ _ _ _ H1). destruct bs as [|b' bs].
  { left. exists k1. split; [done|]. split; [done|]. split; [done|]. split; [|split].
    - intros [|o] b0 Hb; [|by rewrite lookup_cons, lookup_nil in Hb]. injection Hb as <-. by rewrite Z.add_0_r.
    - eapply same_view_weaken; [|exact Hsv1]. cbn. lia.
    - eapply takes_le; [|exact Ht1]. unfold store_faults. rewrite (proj2 (Z.eqb_neq _ _)) by done. lia. }
  pose proof (Hva (Z.of_nat (length (b' :: bs))) ltac:(cbn [length]; lia)) as [Hmax _].
  assert (va + 1 < 0x100000000) as Hlt by (cbn [length] in Hmax; destruct Hva0; lia). rewrite u32_id by (destruct Hva0; lia).
  replace (Z.of_nat (S (length (b' :: bs)))) with (1 + Z.of_nat (length (b' :: bs))) by lia.
  pose proof (store_faults_next k k1 i va (Z.of_nat (length (b' :: bs))) ltac:(destruct Hva0; lia) ltac:(cbn [length]; lia) ltac:(lia) Hw1) as Hnext.
  destruct (IH k1 (va + 1) Hus1) as [(k2 & H2 & Hus2 & Hsk2 & Hc2 & Hsv2 & Ht2)|(k2 & H2 & Hwhy)].
  - intros o Ho. replace (va + 1 + o) with (va + (1 + o)) by lia. apply Hva. lia.
  - left. exists k2. split; [done|]. split; [done|]. split; [by etrans|]. split; [|split].
    + intros [|o] b0 Hb.
      * injection Hb as <-. rewrite Z.add_0_r, <-Hc1. apply (sv_own _ _ _ _ _ Hsv2); [done|lia].
      * replace (va + Z.of_nat (S o)) with (va + 1 + Z.of_nat o) by lia. by apply Hc2.
    + eapply same_view_weaken; [|by eapply same_view_trans]. cbn [length]. lia.
    + eapply takes_le; [exact Hnext|]. by eapply takes_trans.
  - right. exists k2. split; [done|]. destruct Hwhy as [(o & Ho & Hno)|Hex].
    + left. exists (1 + o). split; [lia|]. by replace (va + (1 + o)) with (va + 1 + o) by lia.
    + right. intros [Hc1' Hc2']. apply Hex. eapply takes_can; [exact Ht1|]. split; lia.
Qed.

(** ** Properties *)

(** C4 (demand paging): a fault on an absent page of an area changes no byte that the
    program sees at any address, nor any byte of another address space, whatever
    its areas: the page is as if it had been there all the time.  The handler stops
    in the panic loop only outside every area or if no frame or no page table is
    left; a fault takes at most one of each. *)
Theorem demand_paging k mm i l err va :
  user_space k mm i l → user_va va → Z.land err 1 = 0 → walk (k_paging k) (pd_slot i) va = None →
  match area_at va l with
  | None => ∃ k', page_fault_handler err va k = Fault PageFaultPanic k'
  | Some _ =>
      (∃ k', page_fault_handler err va k = Ret tt k' ∧ user_space k' mm i l ∧ same_kernel k k' ∧
         is_Some (walk (k_paging k') (pd_slot i) va) ∧ same_view (λ _, False) k k' i l ∧ takes 1 k k') ∨
      (∃ k', page_fault_handler err va k = Fault PageFaultPanic k' ∧ ¬ can_fault 1 k)
  end.
Proof. exact (fault_transparent_run k mm i l err va). Qed.

(** C5 (stores of the kernel to user memory): storing bytes at an address of the program,
    with the page faults this takes, leaves exactly these bytes there and changes
    no other byte of this or another address space; it fails only outside the
    areas, or with fewer free frames or page tables than the pages stored to. *)
Theorem user_store_correct k mm i l va bs :
  user_space k mm i l → (∀ o, 0 ≤ o < Z.of_nat (length bs) → user_va (va + o)) →
  (∃ k', touch_bytes va bs k = Ret tt k' ∧ user_space k' mm i l ∧ same_kernel k k' ∧
     (∀ o b, bs !! o = Some b → contents k' i l (va + Z.of_nat o) = Some b) ∧
     same_view (λ va', va ≤ va' < va + Z.of_nat (length bs)) k k' i l ∧
     takes (Z.to_nat (pages va (Z.of_nat (length bs)))) k k') ∨
  (∃ k', touch_bytes va bs k = Fault PageFaultPanic k' ∧
     ((∃ o, 0 ≤ o < Z.of_nat (length bs) ∧ area_at (va + o) l = None) ∨
      ¬ can_fault (Z.to_nat (pages va (Z.of_nat (length bs)))) k)).
Proof.
  intros Hus Hva. assert (store_faults k i va (Z.of_nat (length bs)) ≤ Z.to_nat (pages va (Z.of_nat (length bs))))%nat as Hle.
  { destruct bs as [|b bs]; [exact (Nat.le_0_l _)|]. apply store_faults_pages; [|lia].
    destruct (Hva 0) as [? _]; [cbn [length]; lia|]. lia. }
  destruct (touch_bytes_faults k mm i l va bs Hus Hva) as [(k' & Hrn & Hus' & Hsk & Hc & Hsv & Ht)|(k' & Hrn & Hwhy)].
  - left. exists k'. split_and!; try done. by eapply takes_le.
  - right. exists k'. split; [done|]. destruct Hwhy as [?|Hex]; [by left|right]. intros [? ?]. apply Hex. split; lia.
Qed.
End usermem.

(** ** The task of Fault.v *)

#[local] Existing Instance sample_layout.

Lemma task_paging_walk va : user_va va → walk task_paging (pd_slot 0) va = None.
Proof.
  intros [Hva Hk]. destruct (walk task_paging (pd_slot 0) va) as [e|] eqn:Hw; [|done]. exfalso.
  apply (walk_entry task_paging 0 va e task_paging_ok) in Hw; [by apply task_paging_empty in Hw | split; [lia|reflexivity] | done..].
Qed.

Lemma fault_user_space : user_space fault_kernel the_mm 0 [(the_vma, the_area)].
Proof.
  constructor.
  - exact fault_running.
  - exact clear_screen_ok.
  - exact sample_ordered.
  - intros x ->%list_elem_of_singleton. split; reflexivity.
  - intros x page ->%list_elem_of_singleton _ _. split; [reflexivity|]. intros Hnz. by destruct Hnz.
  - intros va e Hva Hw. change (walk task_paging (pd_slot 0) va = Some e) in Hw. by rewrite task_paging_walk in Hw.
Qed.

Lemma fault_resources : can_fault 5 fault_kernel.
Proof. split; vm_compute; lia. Qed.

Lemma demand_paging_witness :
  ∃ k', page_fault_handler 0x6 0x8048123 fault_kernel = Ret tt k' ∧
    same_view (λ _, False) fault_kernel k' 0 [(the_vma, the_area)] ∧
    contents k' 0 [(the_vma, the_area)] 0x8048123 = Some 0.
Proof.
  assert (user_va 0x8048123) as Hva by (split; [lia|vm_compute; intros [?|?]; discriminate]).
  assert (walk (k_paging fault_kernel) (pd_slot 0) 0x8048123 = None) as Habs by (vm_compute; reflexivity).
  destruct (demand_paging fault_kernel the_mm 0 [(the_vma, the_area)] 0x6 0x8048123 fault_user_space Hva eq_refl Habs)
    as [(k' & Hrn & _ & _ & _ & Hsv & _)|(k' & _ & Hno)].
  - exists k'. split; [exact Hrn|]. split; [exact Hsv|]. rewrite (sv_own _ _ _ _ _ Hsv _ Hva) by (intros []).
    unfold contents. rewrite Habs. reflexivity.
  - exfalso. apply Hno. destruct fault_resources. split; lia.
Defined.

Lemma user_store_correct_witness :
  ∃ k', touch_bytes 0x8048ffe [1; 2; 3; 4] fault_kernel = Ret tt k' ∧
    contents k' 0 [(the_vma, the_area)] 0x8049001 = Some 4 ∧
    contents k' 0 [(the_vma, the_area)] 0x8049002 = Some 0.
Proof.
  assert (∀ va, 0x8048000 ≤ va < 0x804a000 → user_va va) as Hva.
  { intros va Hr. split; [lia|]. unfold kernel_pde. rewrite pde_index_div by lia. Z.div_mod_to_equations. lia. }
  destruct (user_store_correct fault_kernel the_mm 0 [(the_vma, the_area)] 0x8048ffe [1; 2; 3; 4] fault_user_space)
    as [(k' & Hrn & _ & _ & Hc & Hsv & _)|(k' & _ & [(o & Ho & Hno)|Hno])].
  - intros o Ho. cbn in Ho. apply Hva. lia.
  - exists k'. split; [exact Hrn|]. split; [exact (Hc 3%nat 4 eq_refl)|].
    rewrite (sv_own _ _ _ _ _ Hsv); [reflexivity | apply Hva; lia | cbn; lia].
  - exfalso. cbn in Ho. assert (o = 0 ∨ o = 1 ∨ o = 2 ∨ o = 3) as [->|[->|[->| ->]]] by lia; discriminate.
  - exfalso. apply Hno. assert (Z.to_nat (pages 0x8048ffe (Z.of_nat (length [1; 2; 3; 4]))) = 2%nat) as -> by (vm_compute; reflexivity).
    destruct fault_resources. split; lia.
Defined.
