(* ===== verification/Elf.v ===== *)
(** * Executables (src/kernel/elf.c)

    The loader reads the headers of a file and asks for a memory area for every
    loadable segment.  The array of program headers is on the kernel stack: its
    address is the argument [phdr_address]. *)

From S2P Require Import Prelude Layout Gdt Allocator Heap Ports Console BlockDevice Frames Paging Paths Fs Objects Linked Mmap Kernel Space Files Fault.

(** src/include/kernel/elf.h *)
Definition ELF32_PT_LOAD : Z := 1.

Record elf32_ehdr_t := Ehdr {
  e_ident : list Z; e_type : Z; e_machine : Z; e_version : Z; e_entry : Z; e_phoff : Z; e_shoff : Z; e_flags : Z;
  e_ehsize : Z; e_phentsize : Z; e_phnum : Z; e_shentsize : Z; e_shnum : Z; e_shstrndx : Z;
}.

Record elf32_phdr_t := Phdr {
  p_type : Z; p_offset : Z; p_vaddr : Z; p_paddr : Z; p_filesz : Z; p_memsz : Z; p_flags : Z; p_align : Z;
}.

Definition SIZEOF_EHDR : Z := 52.
Definition SIZEOF_PHDR : Z := 32.

(** The bytes of the packed structures. *)
Definition ehdr_of_bytes (l : list Z) : elf32_ehdr_t :=
  Ehdr (take 16 l) (le16 l 16) (le16 l 18) (le32 l 20) (le32 l 24) (le32 l 28) (le32 l 32) (le32 l 36)
    (le16 l 40) (le16 l 42) (le16 l 44) (le16 l 46) (le16 l 48) (le16 l 50).

Definition phdr_of_bytes (l : list Z) : elf32_phdr_t :=
  Phdr (le32 l 0) (le32 l 4) (le32 l 8) (le32 l 12) (le32 l 16) (le32 l 20) (le32 l 24) (le32 l 28).

(** An array of [n] program headers. *)
Definition phdrs_of_bytes (l : list Z) (n : nat) : list elf32_phdr_t :=
  (λ i, phdr_of_bytes (drop (32 * i) l)) <$> seq 0 n.

(** ** The code *)

Section code.
Context {L : Layout} {H : Type} `{!Allocator H} {B : Type} `{!BlockDevice B} {D : Type} `{!Bus D}.
Abbreviation K := (M (kernel H B D)).

(** The bytes read, where the C function returns 1. *)
Definition read_elf (file offset count : Z) : K (option (list Z)) :=
  f ← in_store (load (T := file_t) file);
  let current_pos := f_pos f in
  in_store (update file (λ f, File (f_inode f) offset));;
  '(ret, out) ← vfs_read_file file count;
  in_store (update file (λ f, File (f_inode f) current_pos));;
  mret (if negb (ret =? i32 count) then None else Some out).

Definition elf32_load_ehdr (file : Z) : K (option elf32_ehdr_t) :=
  r ← read_elf file 0 SIZEOF_EHDR;
  mret (ehdr_of_bytes <$> r).

Definition elf32_load_phdr (file : Z) : K (option (list elf32_phdr_t)) :=
  r ← elf32_load_ehdr file;
  match r with
  | None => mret None
  | Some ehdr =>
      let phdr_bytes := e_phnum ehdr * SIZEOF_PHDR in
      if phdr_bytes =? 0 then mret (Some [])
      else
        r ← read_elf file (e_phoff ehdr) phdr_bytes;
        mret ((λ l, phdrs_of_bytes l (Z.to_nat (e_phnum ehdr))) <$> r)
  end.

(** The body of the loop over the segments; [false] where the C code leaves the
    function with 0 after [kfree(phdr)]. *)
Definition load_segment (file : Z) (ph : elf32_phdr_t) : K bool :=
  if negb (p_type ph =? ELF32_PT_LOAD) then mret true
  else if p_memsz ph <? p_filesz ph then mret false
  else if p_filesz ph =? 0 then
    if p_memsz ph =? 0 then mret true
    else
      r ← in_tasks (vm_brk_flags (p_vaddr ph) (p_memsz ph));
      mret (negb (r =? 0))
  else
    r ← in_tasks (do_mmap (p_vaddr ph) (p_filesz ph) file (p_offset ph));
    if r =? 0 then mret false
    else
      z ← (if p_filesz ph <? p_memsz ph then padzero (p_vaddr ph +ᵤ p_filesz ph) else mret 1);
      if z =? 0 then mret false
      else
        let anonymous_zeros_start := align_up (p_vaddr ph +ᵤ p_filesz ph) in
        let anonymous_zeros_end := p_vaddr ph +ᵤ p_memsz ph in
        if anonymous_zeros_start <? anonymous_zeros_end then
          r ← in_tasks (vm_brk_flags anonymous_zeros_start (anonymous_zeros_end -ᵤ anonymous_zeros_start));
          mret (negb (r =? 0))
        else mret true.

Fixpoint load_segments (file : Z) (phdr : list elf32_phdr_t) : K bool :=
  match phdr with
  | [] => mret true
  | ph :: phdr =>
      ok ← load_segment file ph;
      if (ok : bool) then load_segments file phdr else mret false
  end.

(** The entry point, where the C function returns 1. *)
Definition elf32_load_exec (phdr_address file : Z) : K (option Z) :=
  r ← elf32_load_ehdr file;
  match r with
  | None => mret None
  | Some ehdr =>
      if e_phnum ehdr =? 0 then mret None
      else
        r ← elf32_load_phdr file;
        match r with
        | None => in_store (kfree phdr_address);; mret None
        | Some phdr =>
            ok ← load_segments file phdr;
            if negb ok then in_store (kfree phdr_address);; mret None
            else mret (Some (e_entry ehdr))
        end
  end.
End code.
