(* ===== verification/Load.v ===== *)
(** * Loading a program (src/kernel/elf.c, [padzero] of src/kernel/mmap.c)

    What the loader leaves in the address space of the current task: the areas of
    the segments, each of which reads as the bytes of the file and then zeros. *)

From S2P Require Import Prelude Layout Gdt Allocator Heap Ports Console BlockDevice Frames Paging Paths Fs Objects Linked Mmap Kernel Space Files Fault UserMem Elf.

Section load.
Context {L : Layout} {H : Type} `{!Allocator H} {B : Type} `{!BlockDevice B} {D : Type} `{!Bus D}.
Implicit Types (k : kernel H B D) (l : list (Z * area)) (live : gmap Z Z).
Local Abbreviation k_objs k := (objs (tk_store (k_tasks k))).
Local Abbreviation k_store k := (tk_store (k_tasks k)).

(** ** Files stay as they are *)

Definition open_file k (p : Z) : option file_t := match k_objs k !! p with Some (OFile f) => Some f | _ => None end.
Definition open_inode k (p : Z) : option minix_inode_t := match k_objs k !! p with Some (OInode n) => Some n | _ => None end.

Lemma open_file_Some k p f : open_file k p = Some f ↔ k_objs k !! p = Some (OFile f).
Proof. unfold open_file. destruct (k_objs k !! p) as [[]|]; naive_solver. Qed.
Lemma open_inode_Some k p n : open_inode k p = Some n ↔ k_objs k !! p = Some (OInode n).
Proof. unfold open_inode. destruct (k_objs k !! p) as [[]|]; naive_solver. Qed.

(** The open files, their inodes and the disk are the same. *)
Record same_files k k' : Prop := {
  sf_file p : open_file k' p = open_file k p;
  sf_inode p : open_inode k' p = open_inode k p;
  sf_fs : same_fs (k_fs k) (k_fs k') ∨ k_fs k' = k_fs k;
}.

Lemma same_files_trans k1 k2 k3 : same_files k1 k2 → same_files k2 k3 → same_files k1 k3.
Proof.
  intros [E1 E2 E3] [E4 E5 E6]. constructor.
  - intros p. by rewrite E4.
  - intros p. by rewrite E5.
  - destruct E3 as [E3|E3]; [left | by rewrite <-E3]. destruct E6 as [E6|E6]; [by eapply same_fs_trans | by rewrite E6].
Qed.

Lemma same_kernel_files k k' : same_kernel k k' → same_files k k'.
Proof. intros Hk. constructor; [intros p; unfold open_file, open_inode; by rewrite (sk_tasks _ _ Hk).. | apply Hk]. Qed.

Lemma files_image k k' : same_files k k' → image (k_fs k') = image (k_fs k).
Proof. intros Hk. by destruct (sf_fs _ _ Hk) as [(_ & E & _)| ->]. Qed.

Lemma files_fs_ok k k' : same_files k k' → fs_ok (k_fs k) → fs_ok (k_fs k').
Proof. intros Hk. by destruct (sf_fs _ _ Hk) as [(? & _)| ->]. Qed.

Lemma page_bytes_at k a page :
  page_bytes k a page =
  match open_file k (a_file a) with
  | Some f =>
      match open_inode k (f_inode f) with
      | Some inode =>
          let off := file_offset a page in
          if off <? i_size inode then file_range (image (k_fs k)) inode off (Z.min (i_size inode - off) 4096) else []
      | None => []
      end
  | None => []
  end.
Proof.
  unfold page_bytes, open_file, open_inode. destruct (k_objs k !! a_file a) as [[| | |f| |]|]; try done.
  by destruct (k_objs k !! f_inode f) as [[]|].
Qed.

Lemma files_page_byte k k' a page o : same_files k k' → page_byte k' a page o = page_byte k a page o.
Proof.
  intros Hk. unfold page_byte. rewrite !page_bytes_at, (sf_file _ _ Hk), (files_image _ _ Hk).
  destruct (open_file k (a_file a)) as [f|]; [|done]. by rewrite (sf_inode _ _ Hk).
Qed.

Lemma files_ready k k' a page :
  same_files k k' → k_objs k' !! 0 = None → file_ready k a page → file_ready k' a page.
Proof.
  intros Hk H0 [_ Hf]. split; [done|]. intros Hnz. destruct (Hf Hnz) as (Hok & ip & pos & inode & H1 & H2 & Hrest).
  split; [by eapply files_fs_ok|]. exists ip, pos, inode. rewrite (files_image _ _ Hk).
  apply open_file_Some in H1. apply open_inode_Some in H2. split; [|split; [|done]].
  - apply open_file_Some. by rewrite (sf_file _ _ Hk).
  - apply open_inode_Some. by rewrite (sf_inode _ _ Hk).
Qed.

(** An open file all of whose blocks are on the disk. *)
Record exec_file k (file ip : Z) (inode : minix_inode_t) : Prop := {
  ef_null : k_objs k !! 0 = None;
  ef_file : ∃ pos, open_file k file = Some (File ip pos);
  ef_inode : open_inode k ip = Some inode;
  ef_inode_ok : inode_ok inode;
  ef_fs : fs_ok (k_fs k);
  ef_mapped : mapped (image (k_fs k)) inode 0 (i_size inode);
}.

Lemma exec_file_same k k' file ip inode :
  same_files k k' → k_objs k' !! 0 = None → exec_file k file ip inode → exec_file k' file ip inode.
Proof.
  intros Hk H0 [_ [pos Hf] Hi Hok Hfs Hm]. constructor; [done | exists pos | | done | by eapply files_fs_ok | ].
  - by rewrite (sf_file _ _ Hk).
  - by rewrite (sf_inode _ _ Hk).
  - by rewrite (files_image _ _ Hk).
Qed.

Lemma exec_file_ready k file ip inode a page :
  exec_file k file ip inode → a_file a = 0 ∨ a_file a = file → file_ready k a page.
Proof.
  intros [H0 [pos Hf] Hi Hok Hfs Hm] Ha. split; [done|]. intros Hnz. destruct Ha as [?|Ha]; [done|]. rewrite Ha. split; [done|].
  exists ip, pos, inode. split; [by apply open_file_Some|]. split; [by apply open_inode_Some|]. split; [done|].
  intros off Hoff o Ho. pose proof (u32_range (a_offset a + (page -ᵤ a_start a))) as Hr.
  apply Hm. unfold off, file_offset in *. lia.
Qed.

(** ** A new area *)

(** [k'] with the areas [l'] has all that [k] shows in the areas [l]: only the
    structure [mm], its areas and memory that was free have changed in the heap,
    whose payloads in use are [live]. *)
Record grown (mm : Z) k (i : Z) l (live : gmap Z Z) k' l' (live' : gmap Z Z) : Prop := {
  gr_files : same_files k k';
  gr_area va : is_Some (area_at va l) → is_Some (area_at va l');
  gr_own va : user_va va → is_Some (area_at va l) → contents k' i l' va = contents k i l va;
  gr_live i' : pd_live (k_paging k') i' ↔ pd_live (k_paging k) i';
  gr_other i' l0 va : pd_live (k_paging k) i' → i' ≠ i → user_va va → contents k' i' l0 va = contents k i' l0 va;
  gr_walk i' va : pd_live (k_paging k) i' → i' ≠ i → user_va va → walk (k_paging k') (pd_slot i') va = walk (k_paging k) (pd_slot i') va;
  gr_used : live ⊆ live';
  gr_objs x : is_Some (k_objs k !! x) ∨ is_Some (live !! x) → x ≠ mm → x ∉ l.*1 → k_objs k' !! x = k_objs k !! x;
  gr_stays x : is_Some (k_objs k !! x) → is_Some (k_objs k' !! x);
  gr_new x : x ∈ l'.*1 → x ∈ l.*1 ∨ live !! x = None ∧ k_objs k !! x = None ∧ is_Some (live' !! x);
  gr_tasks : k_tasks k' = with_store (k_tasks k) (k_store k');
  gr_console : k_console k' = k_console k;
  gr_nodes x : x ∈ l.*1 → x ∈ l'.*1;
  gr_exact x : x ∉ l'.*1 → live' !! x = live !! x;
}.

Lemma same_tasks_store k k' : k_tasks k' = k_tasks k → k_tasks k' = with_store (k_tasks k) (k_store k').
Proof. intros ->. by destruct (k_tasks k). Qed.

Lemma grown_trans mm k1 k2 k3 i l1 l2 l3 v1 v2 v3 :
  grown mm k1 i l1 v1 k2 l2 v2 → grown mm k2 i l2 v2 k3 l3 v3 → grown mm k1 i l1 v1 k3 l3 v3.
Proof.
  intros [A1 A2 A3 A4 A5 A12 A6 A7 A11 A8 A9 A10 A13 A14] [B1 B2 B3 B4 B5 B12 B6 B7 B11 B8 B9 B10 B13 B14].
  assert (∀ x, is_Some (k_objs k1 !! x) ∨ is_Some (v1 !! x) → x ∉ l1.*1 → x ∉ l2.*1) as Hold.
  { intros x [[? E]|[? E]] Hx Hx2; destruct (A8 x Hx2) as [?|(? & ? & _)]; congruence. }
  constructor.
  - by eapply same_files_trans.
  - auto.
  - intros va Hva Hin. rewrite B3, A3; auto.
  - intros i'. by rewrite B4.
  - intros i' l0 va Hi Hne Hva. rewrite B5, A5; try done. by apply A4.
  - intros i' va Hi Hne Hva. rewrite B12, A12; try done. by apply A4.
  - by etrans.
  - intros x Hx Hm Hl. pose proof (A7 x Hx Hm Hl) as E. rewrite B7; [done | | done | by apply Hold].
    destruct Hx as [Hx|[y Hx]]; [left; by rewrite E|right]. exists y. by eapply lookup_weaken.
  - auto.
  - intros x Hx. destruct (B8 x Hx) as [Hx2|(Hv & Ho & Hv3)].
    { destruct (A8 x Hx2) as [?|(? & ? & [y Hy])]; [by left|right]. do 2 (split; [done|]). exists y. by eapply lookup_weaken. }
    destruct (decide (x ∈ l1.*1)) as [?|Hnl]; [by left|right]. split; [|split; [|done]].
    + destruct (v1 !! x) as [y|] eqn:E; [|done]. pose proof (lookup_weaken _ _ _ _ E A6). congruence.
    + destruct (k_objs k1 !! x) as [o|] eqn:E; [|done]. destruct (A11 x ltac:(by eexists)). congruence.
  - rewrite B9, A9. by destruct (k_tasks k1).
  - by rewrite B10.
  - auto.
  - intros x Hx. rewrite B14, A14; auto.
Qed.

Lemma grown_refl mm k i l live : grown mm k i l live k l live.
Proof.
  constructor; try done.
  - constructor; try done. by right.
  - intros x ?. by left.
  - by apply same_tasks_store.
Qed.

(** The areas after [do_mmap] has added [x]. *)
Lemma area_at_more l l' x va :
  ordered l → ordered l' → l' ≡ₚ x :: l → is_Some (area_at va l) → area_at va l' = area_at va l.
Proof.
  intros Ho Ho' Hp [y Hy]. rewrite Hy. apply area_at_in in Hy as [Hin Hr]. apply area_at_unique; [done| |done].
  rewrite Hp. by right.
Qed.

Lemma contents_ext k k' i l l' va :
  k_paging k' = k_paging k → k_user k' = k_user k → same_files k k' → area_at va l' = area_at va l →
  contents k' i l' va = contents k i l va.
Proof.
  intros Hp Hu Hf Ha. unfold contents. rewrite Hp, Hu, Ha. destruct (walk _ _ _); [done|].
  destruct (area_at va l); [|done]. f_equal. by apply files_page_byte.
Qed.

(** Objects that are neither areas nor memory structures do not change. *)
Lemma mapped_files k k' mm pd l q a l' :
  k_objs k !! q = None → space (k_objs k) mm pd l → space (k_objs k') mm pd l' → l' ≡ₚ (q, a) :: l →
  (∀ x, x ≠ q → x ≠ mm → x ∉ l.*1 → k_objs k' !! x = k_objs k !! x) → k_fs k' = k_fs k → same_files k k'.
Proof.
  intros Hq (Hm & _ & Hseg) (Hm' & _ & Hseg') Hp Hsame Hfs.
  assert (∀ x, k_objs k' !! x = k_objs k !! x ∨
    (open_file k' x = open_file k x ∧ open_inode k' x = open_inode k x)) as Hx.
  { intros x. destruct (decide (x = mm)) as [->|Hmm].
    { right. unfold open_file, open_inode. by rewrite Hm, Hm'. }
    assert (∀ b, (x, b) ∈ l' → ∃ v, k_objs k' !! x = Some (OVma v)) as Hn'.
    { intros b Hin. destruct (dseg_lookup _ _ _ _ _ _ _ _ _ Hseg' Hin) as (_ & r & nx & Hv). by eexists. }
    destruct (decide (x = q)) as [->|Hxq].
    { right. destruct (Hn' a) as [v Hv]; [rewrite Hp; by left|]. unfold open_file, open_inode. by rewrite Hq, Hv. }
    destruct (decide (x ∈ l.*1)) as [Hin|]; [|left; by apply Hsame].
    apply list_elem_of_fmap in Hin as ([x' b] & -> & Hin). cbn in *. right.
    destruct (Hn' b) as [v Hv]; [rewrite Hp; by right|].
    destruct (dseg_lookup _ _ _ _ _ _ _ _ _ Hseg Hin) as (_ & r & nx & Hv0).
    unfold open_file, open_inode. by rewrite Hv, Hv0. }
  constructor; [| |by right].
  - intros x. destruct (Hx x) as [E|[E _]]; [|done]. unfold open_file. by rewrite E.
  - intros x. destruct (Hx x) as [E|[_ E]]; [|done]. unfold open_inode. by rewrite E.
Qed.

Lemma mapped_user_space k k' mm i l q a l' file ip inode :
  user_space k mm i l → k_objs k !! q = None → q ≠ 0 → space (k_objs k') mm (pd_slot i) l' → ordered l' → l' ≡ₚ (q, a) :: l →
  (∀ x, x ≠ q → x ≠ mm → x ∉ l.*1 → k_objs k' !! x = k_objs k !! x) →
  k' = set_tasks (with_store (k_tasks k) (k_store k')) k →
  exec_file k file ip inode → a_file a = 0 ∨ a_file a = file → a_start a mod 4096 = 0 → a_end a mod 4096 = 0 →
  same_files k k' ∧ user_space k' mm i l' ∧ exec_file k' file ip inode.
Proof.
  intros [Hrun Hc Ho Hal Hfiles Hres] Hq Hqz Hsp' Ho' Hp Hsame Hk' Hex Hfa Hs He. pose proof Hrun as [(t & Ht & Etm) H0 Hsp Hlive Hmem Htlb Hcr3].
  pose proof Hsp as (Hm & _ & Hseg).
  assert (∀ x, (∀ v, k_objs k !! x ≠ Some (OVma v)) → (∀ m, k_objs k !! x ≠ Some (OMm m)) → x ≠ q → k_objs k' !! x = k_objs k !! x) as Hkeep.
  { intros x Hv Hmm Hxq. apply Hsame; [done| |].
    - intros ->. by apply (Hmm _ Hm).
    - intros ([x' b] & -> & Hin)%list_elem_of_fmap. destruct (dseg_lookup _ _ _ _ _ _ _ _ _ Hseg Hin) as (_ & r & nx & Hx).
      by apply (Hv _ Hx). }
  assert (k_objs k' !! 0 = None) as H0' by (rewrite Hkeep; congruence).
  assert (same_files k k') as Hf.
  { eapply (mapped_files k k' mm _ l q a l'); [done..|]. by rewrite Hk'. }
  split; [done|]. split; [|by eapply exec_file_same].
  assert (k_paging k' = k_paging k) as Hpg by by rewrite Hk'.
  constructor.
  - constructor; rewrite ?Hpg; try done.
    + exists t. split; [|done]. replace (current_task (k_tasks k')) with (current_task (k_tasks k)) by (rewrite Hk'; done).
      rewrite Hkeep; congruence.
    + replace (k_frames k') with (k_frames k) by (rewrite Hk'; done). done.
  - by rewrite Hk'.
  - done.
  - intros x Hx. rewrite Hp in Hx. apply elem_of_cons in Hx as [->|Hx]; [done|by apply Hal].
  - intros x page Hx Hpage Hpal. eapply files_ready; [done..|]. rewrite Hp in Hx. apply elem_of_cons in Hx as [->|Hx].
    + by eapply exec_file_ready.
    + by apply Hfiles.
  - intros va e Hva Hw. rewrite Hpg in Hw. destruct (Hres va e Hva Hw) as [y Hy].
    rewrite (area_at_more l l' _ va Ho Ho' Hp) by by eexists. by eexists.
Qed.

(** The state between two steps of the loader. *)
Definition loading k (mm i : Z) l live (file ip : Z) (inode : minix_inode_t) : Prop :=
  user_space k mm i l ∧ store_ok (k_store k) live ∧ exec_file k file ip inode.

(** Another heap with the same objects. *)
Lemma loading_same_objs k mm i l live file ip inode st :
  loading k mm i l live file ip inode → store_ok st live → objs st = k_objs k →
  let k' := set_store st k in loading k' mm i l live file ip inode ∧ grown mm k i l live k' l live.
Proof.
  intros (Hus & Hst & Hex) Hst' Ho k'. assert (k_objs k' = k_objs k) as E by exact Ho.
  assert (same_files k k') as Hsf by (constructor; [intros p; unfold open_file, open_inode; by rewrite E.. | by right]).
  split; [split; [|split; [done | apply (exec_file_same k); [done | rewrite E; apply Hex | done]]]|].
  - destruct Hus as [[Ht H0 Hsp Hl Hm Htl Hc3] Hc Ho' Hal Hfiles Hres]. constructor; [|done..| |done].
    + constructor; rewrite ?E; done.
    + intros x page Hx Hp Hpal. eapply files_ready; [done|by rewrite E|]. by apply Hfiles.
  - constructor; rewrite ?E; try done.
    + intros va Hva Hin. by apply contents_ext.
    + intros i' l0 va Hi Hne Hva. by apply contents_ext.
    + intros x ?. by left.
Qed.

(** Every object stays an object. *)
Lemma mapped_stays k k' mm pd l q a l' :
  space (k_objs k') mm pd l' → l' ≡ₚ (q, a) :: l →
  (∀ x, x ≠ q → x ≠ mm → x ∉ l.*1 → k_objs k' !! x = k_objs k !! x) →
  ∀ x, is_Some (k_objs k !! x) → is_Some (k_objs k' !! x).
Proof.
  intros (Hm' & _ & Hseg') Hp Hsame x Hx. destruct (decide (x = mm)) as [->|Hmm]; [by eexists|].
  destruct (decide (x ∈ l'.*1)) as [Hin|Hno].
  - apply list_elem_of_fmap in Hin as ([x' b] & -> & Hin). destruct (dseg_lookup _ _ _ _ _ _ _ _ _ Hseg' Hin) as (_ & r & nx & Hv).
    by eexists.
  - rewrite Hp in Hno. cbn in Hno. apply not_elem_of_cons in Hno as [? ?]. by rewrite Hsame.
Qed.

Lemma map_area_run k mm i l live file ip inode addr length fl offset :
  user_space k mm i l → store_ok (k_store k) live → exec_file k file ip inode → fl = 0 ∨ fl = file →
  0 ≤ addr → 0 < length → addr + length ≤ 0xfffff000 →
  let a := mmap_area addr length fl offset in
  (∃ q sz l' k', in_tasks (do_mmap addr length fl offset) k = Ret q k' ∧ q ≠ 0 ∧
     store_ok (k_store k') (<[q := sz]> live) ∧ user_space k' mm i l' ∧ exec_file k' file ip inode ∧
     l' ≡ₚ (q, a) :: l ∧ (∀ x, x ∈ l → ¬ clashes a x) ∧ grown mm k i l live k' l' (<[q := sz]> live) ∧ takes 0 k k' ∧
     ∀ va, user_va va → a_start a ≤ va < a_end a →
       contents k' i l' va = Some (page_byte k a (va - va mod 4096) (va mod 4096))) ∨
  (∃ k', in_tasks (do_mmap addr length fl offset) k = Ret 0 k' ∧ loading k' mm i l live file ip inode ∧ grown mm k i l live k' l live ∧
     (fl ≠ 0 ∧ offset < addr -ᵤ align_down addr ∨
      kmalloc SIZEOF_VMA (k_store k') = Ret 0 (k_store k') ∨
      ∃ x, x ∈ l ∧ clashes a x)).
Proof.
  intros Hus Hst Hex Hfl Ha Hlen Hend a. pose proof (us_running _ _ _ _ Hus) as Hrun.
  destruct (mmap_area_covers addr length fl offset Ha Hlen Hend) as (_ & _ & _ & _ & Hs & He & _). fold a in Hs, He.
  assert (current_space (k_tasks k) mm (pd_slot i) l) as Hcur.
  { destruct (rn_task _ _ _ _ Hrun) as (t & Ht & Em). exists t. split; [done|]. split; [done | apply Hrun]. }
  destruct (do_mmap_area_run addr length fl offset mm (pd_slot i) l live (k_tasks k) Hst Hcur (us_ordered _ _ _ _ Hus) Ha Hlen Hend)
    as [(q & sz & st' & l' & Hmm & Hq & Hqo & Hst' & Hsp' & Ho' & Hp & Hcl & Hsame)|(st' & Hmm & Hst' & Hobjs & Hwhy)].
  - left. set (k' := set_tasks (with_store (k_tasks k) st') k). exists q, sz, l', k'.
    assert (q ≠ 0) as Hqz by (eapply live_nonzero; [exact Hst'|apply lookup_insert_eq]).
    destruct (mapped_user_space k k' mm i l q a l' file ip inode) as (Hf & Hus' & Hex'); try done.
    split; [by rewrite (in_tasks_ret _ _ _ _ Hmm)|]. split; [done|]. split; [done|]. split; [done|]. split; [done|].
    split; [done|]. split; [done|].
    assert (∀ va, is_Some (area_at va l) → area_at va l' = area_at va l) as Hmore.
    { intros va. apply (area_at_more l l' (q, a)); [apply Hus | done..]. }
    split.
    + constructor; [done | | | done | | done | | | | | done | done | |].
      * intros va Hva. by rewrite Hmore.
      * intros va Hva Hin. apply contents_ext; [done..|]. by apply Hmore.
      * intros i' l0 va Hi' _ _. by apply contents_ext.
      * by apply insert_subseteq.
      * intros x Hx Hm Hl. apply Hsame; [|done..]. intros ->. destruct Hx as [[? ?]|[? ?]]; congruence.
      * exact (mapped_stays k k' mm (pd_slot i) l q a l' Hsp' Hp Hsame).
      * intros x Hx. rewrite Hp in Hx. apply elem_of_cons in Hx as [->|Hx]; [right|by left].
        do 2 (split; [done|]). exists sz. apply lookup_insert_eq.
      * intros x Hx. rewrite Hp. by right.
      * intros x Hx. rewrite Hp in Hx. apply not_elem_of_cons in Hx as [Hx _]. cbn in Hx. by apply lookup_insert_ne.
    + split; [by split|]. intros va Hva Hr. unfold contents. change (k_paging k') with (k_paging k).
      rewrite (area_at_unique va l' (q, a) Ho'); [|rewrite Hp; by left|done]. cbn [snd].
      rewrite (files_page_byte k k') by done. destruct (walk (k_paging k) (pd_slot i) va) as [e|] eqn:Ew; [|done].
      destruct (us_resident _ _ _ _ Hus va e Hva Ew) as [x [Hx Hxr]%area_at_in].
      exfalso. apply (Hcl x Hx). fold a. split; lia.
  - right. eexists. split; [by rewrite (in_tasks_ret _ _ _ _ Hmm)|].
    destruct (loading_same_objs k mm i l live file ip inode st') as [Hld' Hg']; [by split|done..|].
    split; [done|]. split; [done|]. destruct Hwhy as [?|[[_ ?]|?]]; auto.
Qed.

(** ** The bytes of a file in an area *)

(** The byte of a file at the offset [off], zero after the end. *)
Definition byte_or_zero (img : Z → list Z) (inode : minix_inode_t) (off : Z) : Z :=
  if off <? i_size inode then file_byte img inode off else 0.

Lemma file_area_byte k file ip inode addr length offset va :
  exec_file k file ip inode → file ≠ 0 → 0 ≤ addr → 0 < length → addr + length ≤ 0xfffff000 →
  addr mod 4096 ≤ offset → offset + length + 4096 ≤ 0x100000000 → addr ≤ va < align_up (addr +ᵤ length) →
  page_byte k (mmap_area addr length file offset) (va - va mod 4096) (va mod 4096) =
  byte_or_zero (image (k_fs k)) inode (offset + (va - addr)).
Proof.
  intros [H0 [pos Hf] Hi Hok Hfs Hm] Hnz Ha Hlen Hend Hoff Hwrap Hva.
  destruct (mmap_area_covers addr length file offset Ha Hlen Hend) as (_ & _ & _ & Hup & _ & _ & Hmax).
  cbn [a_end mmap_area] in Hup, Hmax.
  set (a := mmap_area _ _ _ _). unfold page_byte. rewrite page_bytes_at. cbn [a_file a mmap_area]. rewrite Hf. cbn [f_inode]. rewrite Hi.
  assert (file_offset a (va - va mod 4096) = offset + (va - va mod 4096 - addr)) as Eoff.
  { unfold file_offset, a. cbn [a_offset a_start mmap_area]. rewrite (proj2 (Z.eqb_neq _ _) Hnz), align_down_mod by lia.
    replace (addr - (addr - addr mod 4096)) with (addr mod 4096) by lia.
    rewrite (u32_id (addr mod 4096)), (u32_id (offset - _)), (u32_id (_ - _ - _)) by (Z.div_mod_to_equations; lia).
    rewrite u32_id by (Z.div_mod_to_equations; lia). lia. }
  cbv zeta. rewrite Eoff. unfold byte_or_zero. set (off := offset + (va - va mod 4096 - addr)).
  replace (offset + (va - addr)) with (off + va mod 4096) by (unfold off; lia).
  assert (0 ≤ va mod 4096 < 4096) as Hmod by (apply Z.mod_pos_bound; lia).
  destruct (Z.ltb_spec off (i_size inode)).
  - destruct (Z.ltb_spec (off + va mod 4096) (i_size inode)).
    + unfold file_range. rewrite list_lookup_fmap, lookup_seqZ_lt by lia. cbn. by rewrite Z2Nat.id by lia.
    + rewrite lookup_ge_None_2; [done|]. rewrite length_file_range; lia.
  - rewrite (proj2 (Z.ltb_ge _ _)) by lia. done.
Qed.

(** An anonymous area reads as zeros. *)
Lemma zero_area_byte k addr length offset page o :
  k_objs k !! 0 = None → page_byte k (mmap_area addr length 0 offset) page o = 0.
Proof.
  intros H0. unfold page_byte. rewrite page_bytes_at. unfold open_file. cbn [a_file mmap_area]. by rewrite H0.
Qed.

(** ** Zeroing the end of a page *)

Definition page_end (addr : Z) : Z := (addr + 4095) `div` 4096 * 4096.

Lemma align_up_page_end addr : 0 ≤ addr ≤ 0xfffff000 → align_up addr = page_end addr.
Proof. intros Ha. rewrite align_up_mod, u32_id by lia. unfold page_end. Z.div_mod_to_equations. lia. Qed.

Lemma program_va va : 0x400000 ≤ va < 0xc0000000 → user_va va.
Proof.
  intros Hva. split; [lia|]. unfold kernel_pde. rewrite pde_index_div by lia. Z.div_mod_to_equations. lia.
Qed.

Lemma padzero_run k mm i l addr :
  user_space k mm i l → 0x400000 ≤ addr < 0xc0000000 →
  (∃ k', padzero addr k = Ret 1 k' ∧ user_space k' mm i l ∧ same_kernel k k' ∧
     (∀ va, addr ≤ va < page_end addr → contents k' i l va = Some 0) ∧
     same_view (λ va, addr ≤ va < page_end addr) k k' i l ∧ takes 1 k k') ∨
  (∃ k', padzero addr k = Fault PageFaultPanic k' ∧
     (area_at addr l = None ∧ addr mod 4096 ≠ 0 ∨ ¬ can_fault 1 k)).
Proof.
  intros Hus Haddr. pose proof (us_running _ _ _ _ Hus) as Hrun. destruct (rn_task _ _ _ _ Hrun) as (t & Ht & Em).
  pose proof (rn_space _ _ _ _ Hrun) as (Hmm & _). unfold padzero.
  rewrite (bind_ret _ _ _ _ _ (in_current k)), (bind_ret _ _ _ _ _ (in_get_cr3 k)), (bind_ret _ _ _ _ _ (in_load_task k _ t Ht)).
  rewrite Em, (bind_ret _ _ _ _ _ (in_load_mm k _ _ Hmm)). cbn [pgd].
  rewrite <-(rn_cr3 _ _ _ _ Hrun), get_pd_lma_vma, Z.eqb_refl. cbn [negb]. rewrite mret_bind.
  rewrite align_up_page_end by lia. assert (addr ≤ page_end addr < addr + 4096) as Hend by (unfold page_end; Z.div_mod_to_equations; lia).
  assert (page_end addr ≤ 0xc0000000) as Hmax by (unfold page_end; Z.div_mod_to_equations; lia).
  rewrite u32_id by lia. set (n := Z.to_nat (page_end addr - addr)).
  assert (store_faults k i addr (Z.of_nat (length (replicate n 0%Z))) ≤ 1)%nat as Hone.
  { etrans; [apply store_faults_pages; lia|]. rewrite length_replicate. unfold pages. case_match; [lia|].
    unfold n, page_end in *. Z.div_mod_to_equations. lia. }
  destruct (touch_bytes_faults k mm i l addr (replicate n 0) Hus) as [(k' & Hrn & Hus' & Hsk & Hc & Hsv & Htk)|(k' & Hrn & Hwhy)].
  - rewrite length_replicate. intros o Ho. apply program_va. lia.
  - left. exists k'. rewrite (bind_ret _ _ _ _ _ Hrn). split; [done|]. split; [done|]. split; [done|]. split; [|split; [|exact (takes_le _ _ _ _ Hone Htk)]].
    + intros va Hva. replace va with (addr + Z.of_nat (Z.to_nat (va - addr))) by lia. apply Hc. apply lookup_replicate_2. lia.
    + eapply same_view_weaken; [|exact Hsv]. rewrite length_replicate. lia.
  - right. exists k'. split; [by apply bind_fault|]. destruct Hwhy as [(o & Ho & Hno)|Hex]; [left|right; intros [? ?]; apply Hex; split; lia].
    rewrite length_replicate in Ho. split; [|unfold page_end in *; Z.div_mod_to_equations; lia].
    rewrite (area_at_page (addr + o) addr) in *; [done | apply Hus..|]. unfold page_end in *. Z.div_mod_to_equations. lia.
Qed.

(** ** A segment *)

(** The byte of the program at [va], in a segment: of the file, then zeros. *)
Definition segment_byte (img : Z → list Z) (inode : minix_inode_t) (ph : elf32_phdr_t) (va : Z) : Z :=
  if va <? p_vaddr ph + p_filesz ph then byte_or_zero img inode (p_offset ph + (va - p_vaddr ph)) else 0.

(** Segments for the part of the address space that is the program's. *)
Definition user_segment (ph : elf32_phdr_t) : Prop :=
  p_type ph = ELF32_PT_LOAD →
  0x400000 ≤ p_vaddr ph ∧ 0 ≤ p_filesz ph ∧ 0 ≤ p_memsz ph ∧ p_vaddr ph + p_memsz ph ≤ 0xc0000000 ∧
  0 ≤ p_offset ph ∧ p_offset ph + p_filesz ph + 4096 ≤ 0x100000000.

Definition segment_loaded k (i : Z) l (img : Z → list Z) (inode : minix_inode_t) (ph : elf32_phdr_t) : Prop :=
  p_type ph = ELF32_PT_LOAD → ∀ va, p_vaddr ph ≤ va < p_vaddr ph + p_memsz ph →
    is_Some (area_at va l) ∧ contents k i l va = Some (segment_byte img inode ph va).

(** The pages of a segment. *)
Definition seg_start (ph : elf32_phdr_t) : Z := align_down (p_vaddr ph).
Definition seg_end (ph : elf32_phdr_t) : Z := page_end (p_vaddr ph + p_memsz ph).

(** Why a segment is refused, in the state [k'], after the segments [earlier]: a size
    in the file larger than that in memory, an offset that is less than that of the
    address in its page, no room for the node of an area, or an area or an earlier
    segment at its pages. *)
Definition refused k' l (earlier : list elf32_phdr_t) (ph : elf32_phdr_t) : Prop :=
  p_type ph = ELF32_PT_LOAD ∧
  (p_memsz ph < p_filesz ph ∨
   p_offset ph < p_vaddr ph mod 4096 ∨
   kmalloc SIZEOF_VMA (k_store k') = Ret 0 (k_store k') ∨
   (∃ x, x ∈ l ∧ a_start x.2 < seg_end ph ∧ seg_start ph < a_end x.2) ∨
   ∃ ph', ph' ∈ earlier ∧ p_type ph' = ELF32_PT_LOAD ∧ seg_start ph' < seg_end ph ∧ seg_start ph < seg_end ph').

(** Every area of [l'] is one of [l] or lies in the pages of one of the segments,
    with no file or with [file]. *)
Definition areas_from l l' (file : Z) (phs : list elf32_phdr_t) : Prop :=
  ∀ x, x ∈ l' → x ∈ l ∨
    (a_file x.2 = 0 ∨ a_file x.2 = file) ∧ ∃ ph, ph ∈ phs ∧ p_type ph = ELF32_PT_LOAD ∧ seg_start ph ≤ a_start x.2 ∧ a_end x.2 ≤ seg_end ph.

Lemma segment_loaded_grown mm k k' i l l' live live' img inode ph :
  user_segment ph → grown mm k i l live k' l' live' → segment_loaded k i l img inode ph → segment_loaded k' i l' img inode ph.
Proof.
  intros Hu Hg Hs Hpt va Hva. destruct (Hs Hpt va Hva) as [Ha Hc]. destruct (Hu Hpt) as (? & ? & ? & ? & _). split.
  - by apply (gr_area _ _ _ _ _ _ _ _ Hg).
  - rewrite (gr_own _ _ _ _ _ _ _ _ Hg); [done | apply program_va; lia | done].
Qed.

(** An anonymous area: [vm_brk_flags]. *)
Lemma zero_area_run k mm i l live file ip inode addr length :
  loading k mm i l live file ip inode → 0x400000 ≤ addr → 0 < length → addr + length ≤ 0xc0000000 →
  (∃ q l' live' k', in_tasks (vm_brk_flags addr length) k = Ret q k' ∧ q ≠ 0 ∧ loading k' mm i l' live' file ip inode ∧
     grown mm k i l live k' l' live' ∧ takes 0 k k' ∧
     (∀ va, addr ≤ va < addr + length → is_Some (area_at va l') ∧ contents k' i l' va = Some 0) ∧
     ∀ x, x ∈ l' → x ∈ l ∨ a_file x.2 = 0 ∧ a_start x.2 = align_down addr ∧ a_end x.2 = page_end (addr + length)) ∨
  (∃ k', in_tasks (vm_brk_flags addr length) k = Ret 0 k' ∧ loading k' mm i l live file ip inode ∧ grown mm k i l live k' l live ∧
     (kmalloc SIZEOF_VMA (k_store k') = Ret 0 (k_store k') ∨
      ∃ x, x ∈ l ∧ a_start x.2 < page_end (addr + length) ∧ align_down addr < a_end x.2)).
Proof.
  intros (Hus & Hst & Hex) Ha Hlen Hend. unfold vm_brk_flags.
  destruct (mmap_area_covers addr length 0 0 ltac:(lia) Hlen ltac:(lia)) as (H1 & H2 & _).
  assert (a_end (mmap_area addr length 0 0) = page_end (addr + length)) as Ee.
  { cbn [a_end mmap_area]. rewrite u32_id by lia. apply align_up_page_end. lia. }
  destruct (map_area_run k mm i l live file ip inode addr length 0 0 Hus Hst Hex (or_introl eq_refl) ltac:(lia) Hlen ltac:(lia))
    as [(q & sz & l' & k' & Hrn & Hq & Hst' & Hus' & Hex' & Hp & _ & Hg & Ht & Hc)|(k' & Hrn & Hld & Hg & Hwhy)].
  - left. exists q, l', (<[q := sz]> live), k'. split; [done|]. split; [done|]. split; [by split|]. split; [done|]. split; [done|].
    split; [intros va Hva; split|].
    + exists (q, mmap_area addr length 0 0). apply area_at_unique; [apply Hus' | rewrite Hp; by left | cbn [snd]; lia].
    + rewrite Hc; [|apply program_va; lia | lia]. by rewrite zero_area_byte by apply Hex.
    + intros x Hx. rewrite Hp in Hx. apply elem_of_cons in Hx as [->|Hx]; [by right|by left].
  - right. exists k'. split; [done|]. split; [done|]. split; [done|]. destruct Hwhy as [[? _]|[Hk|(x & Hx & Hc1 & Hc2)]]; [done|by left|right].
    exists x. rewrite Ee in Hc1. done.
Qed.

(** A file offset below the page offset is refused. *)
Lemma do_mmap_below k mm i l addr length file offset :
  user_space k mm i l → file ≠ 0 → 0 ≤ addr < 0x100000000 → offset < addr mod 4096 →
  in_tasks (do_mmap addr length file offset) k = Ret 0 k.
Proof.
  intros Hus Hnz Ha Hoff. destruct (rn_task _ _ _ _ (us_running _ _ _ _ Hus)) as (t & Ht & _).
  assert (do_mmap addr length file offset (k_tasks k) = Ret 0 (k_tasks k)) as Hrn; [|rewrite (in_tasks_ret _ _ _ _ Hrn); by destruct k].
  unfold do_mmap, get_current_task. rewrite gets_bind.
  rewrite (bind_ret _ _ _ _ _ (on_store_ret _ _ _ _ (load_task _ _ _ Ht))).
  replace (with_store (k_tasks k) (k_store k)) with (k_tasks k) by (by destruct (k_tasks k)). cbv zeta.
  rewrite (proj2 (Z.eqb_neq _ _) Hnz), align_down_mod, u32_id, (proj2 (Z.ltb_lt _ _)) by (Z.div_mod_to_equations; lia). done.
Qed.

(** The area of the file: [do_mmap]. *)
Lemma file_area_run k mm i l live file ip inode ph :
  loading k mm i l live file ip inode → file ≠ 0 → user_segment ph → p_type ph = ELF32_PT_LOAD → 0 < p_filesz ph ≤ p_memsz ph →
  let pe := page_end (p_vaddr ph + p_filesz ph) in
  (∃ q l' live' k', in_tasks (do_mmap (p_vaddr ph) (p_filesz ph) file (p_offset ph)) k = Ret q k' ∧ q ≠ 0 ∧
     loading k' mm i l' live' file ip inode ∧ grown mm k i l live k' l' live' ∧ takes 0 k k' ∧
     (∀ va, p_vaddr ph ≤ va < pe → is_Some (area_at va l') ∧ ¬ is_Some (area_at va l) ∧
        contents k' i l' va = Some (byte_or_zero (image (k_fs k)) inode (p_offset ph + (va - p_vaddr ph)))) ∧
     ∀ x, x ∈ l' → x ∈ l ∨ a_file x.2 = file ∧ a_start x.2 = seg_start ph ∧ a_end x.2 = pe) ∨
  (∃ k', in_tasks (do_mmap (p_vaddr ph) (p_filesz ph) file (p_offset ph)) k = Ret 0 k' ∧ loading k' mm i l live file ip inode ∧
     grown mm k i l live k' l live ∧ refused k' l [] ph).
Proof.
  intros (Hus & Hst & Hex) Hnz Hu Hpt Hsz pe. destruct (Hu Hpt) as (Hv & _ & _ & Hend & Ho & Hwrap).
  set (a := mmap_area (p_vaddr ph) (p_filesz ph) file (p_offset ph)).
  destruct (mmap_area_covers (p_vaddr ph) (p_filesz ph) file (p_offset ph) ltac:(lia) ltac:(lia) ltac:(lia)) as (H1 & H2 & _).
  fold a in H1, H2. assert (a_end a = pe) as Ee.
  { unfold a. cbn [a_end mmap_area]. rewrite u32_id by lia. apply align_up_page_end. lia. }
  assert (pe ≤ 0xc0000000) as Hmax by (unfold pe, page_end; Z.div_mod_to_equations; lia).
  destruct (decide (p_vaddr ph mod 4096 ≤ p_offset ph)) as [Hoff|Hoff].
  2: { right. exists k. split; [|split; [done|split; [apply grown_refl|split; [done|right; left; lia]]]]. apply (do_mmap_below k mm i l); [done..| | ]; lia. }
  destruct (map_area_run k mm i l live file ip inode (p_vaddr ph) (p_filesz ph) file (p_offset ph) Hus Hst Hex (or_intror eq_refl)
      ltac:(lia) ltac:(lia) ltac:(lia)) as [(q & sz & l' & k' & Hrn & Hq & Hst' & Hus' & Hex' & Hp & Hcl & Hg & Ht & Hc)|(k' & Hrn & Hld & Hg & Hwhy)].
  - left. exists q, l', (<[q := sz]> live), k'. split; [done|]. split; [done|]. split; [by split|]. split; [done|]. split; [done|].
    fold a in Hcl, Hc, Hp. split.
    + intros va Hva. split; [|split].
      * exists (q, a). apply area_at_unique; [apply Hus' | rewrite Hp; by left | cbn [snd]; lia].
      * intros [x [Hx Hr]%area_at_in]. apply (Hcl x Hx). split; lia.
      * rewrite Hc; [|apply program_va; lia | lia]. f_equal. eapply file_area_byte; try done; try lia.
        unfold a in Ee. cbn [a_end mmap_area] in Ee. lia.
    + intros x Hx. rewrite Hp in Hx. apply elem_of_cons in Hx as [->|Hx]; [by right|by left].
  - right. exists k'. split; [done|]. split; [done|]. split; [done|]. split; [done|]. right. destruct Hwhy as [[_ Hlow]|[Hk|(x & Hx & Hc1 & Hc2)]].
    + left. rewrite align_down_mod, u32_id in Hlow by (Z.div_mod_to_equations; lia). lia.
    + right. by left.
    + right. right. left. exists x. split; [done|]. fold a in Hc1, Hc2. rewrite Ee in Hc1. unfold a in Hc2. cbn [a_start mmap_area] in Hc2.
      split; [|done]. unfold pe, seg_end, page_end in *. Z.div_mod_to_equations. lia.
Qed.

(** Zeroing the rest of the last page of the file's part. *)
Lemma pad_run k k1 mm i l l1 live live1 file ip inode ph :
  loading k1 mm i l1 live1 file ip inode → grown mm k i l live k1 l1 live1 → user_segment ph → p_type ph = ELF32_PT_LOAD →
  0 < p_filesz ph ≤ p_memsz ph →
  let addr := p_vaddr ph + p_filesz ph in
  (∀ va, p_vaddr ph ≤ va < page_end addr → is_Some (area_at va l1) ∧ ¬ is_Some (area_at va l) ∧
     contents k1 i l1 va = Some (byte_or_zero (image (k_fs k)) inode (p_offset ph + (va - p_vaddr ph)))) →
  (∃ k2, (if p_filesz ph <? p_memsz ph then padzero addr else mret 1) k1 = Ret 1 k2 ∧
     loading k2 mm i l1 live1 file ip inode ∧ grown mm k i l live k2 l1 live1 ∧ takes 1 k1 k2 ∧
     ∀ va, p_vaddr ph ≤ va < page_end addr → va < p_vaddr ph + p_memsz ph →
       is_Some (area_at va l1) ∧ contents k2 i l1 va = Some (segment_byte (image (k_fs k)) inode ph va)) ∨
  (∃ k2, (if p_filesz ph <? p_memsz ph then padzero addr else mret 1) k1 = Fault PageFaultPanic k2 ∧ ¬ can_fault 1 k1).
Proof.
  intros Hld Hg Hu Hpt Hsz addr Hb. destruct (Hu Hpt) as (Hv & _ & _ & Hend & _).
  pose proof Hld as (Hus & Hst & Hex). unfold segment_byte. fold addr.
  destruct (Z.ltb_spec (p_filesz ph) (p_memsz ph)) as [Hlt|Hge].
  - destruct (padzero_run k1 mm i l1 addr Hus ltac:(lia)) as [(k2 & Hrn & Hus2 & Hsk & Hz & Hsv & Ht)|(k2 & Hrn & Hwhy)].
    + left. exists k2. split; [done|]. split; [|split; [|split; [exact Ht|]]].
      * split; [done|]. split; [by rewrite (sk_tasks _ _ Hsk)|]. eapply exec_file_same; [by apply same_kernel_files| |done].
        rewrite (sk_tasks _ _ Hsk). apply Hex.
      * destruct Hg as [G1 G2 G3 G4 G5 G12 G6 G7 G8 G9 G10 G11 G13 G14]. constructor; rewrite ?(sk_tasks _ _ Hsk); [|done| | | | |done..| |done|done].
        -- eapply same_files_trans; [done|by apply same_kernel_files].
        -- intros va Hva Hin. rewrite (sv_own _ _ _ _ _ Hsv), G3; [done..|]. intros Hr. destruct (Hb va) as (_ & Hn & _); [lia|done].
        -- intros i'. rewrite <-G4. by apply same_kernel_live.
        -- intros i' l0 va Hi Hne Hva. rewrite (sv_other _ _ _ _ _ Hsv), G5; try done. by apply G4.
        -- intros i' va Hi Hne Hva. rewrite (sv_walk _ _ _ _ _ Hsv), G12; try done. by apply G4.
        -- by rewrite (sk_console _ _ Hsk).
      * intros va Hva Hm. destruct (Hb va Hva) as (Ha & _ & Hc). split; [done|]. destruct (Z.ltb_spec va addr).
        -- rewrite (sv_own _ _ _ _ _ Hsv); [done | apply program_va; lia | lia].
        -- apply Hz. lia.
    + right. exists k2. split; [done|]. destruct Hwhy as [[Hno Hal]|Hex3]; [|done].
      exfalso. destruct (Hb addr) as ([x Hx] & _); [|congruence]. unfold page_end. Z.div_mod_to_equations. lia.
  - left. exists k1. split; [done|]. split; [done|]. split; [done|]. split; [by eapply takes_le, takes_refl; lia|]. intros va Hva Hm.
    destruct (Hb va Hva) as (Ha & _ & Hc). split; [done|]. by rewrite (proj2 (Z.ltb_lt _ _)) by lia.
Qed.

Lemma areas_from_refl l file phs : areas_from l l file phs.
Proof. intros x ?. by left. Qed.

(** What a step of the loader can come to. *)
Definition load_result (m : M (kernel H B D) bool) k (mm i : Z) l live (file ip : Z) (inode : minix_inode_t) (phs : list elf32_phdr_t) : Prop :=
  (∃ l' live' k', m k = Ret true k' ∧ loading k' mm i l' live' file ip inode ∧ grown mm k i l live k' l' live' ∧ takes (length phs) k k' ∧
     areas_from l l' file phs ∧ Forall (segment_loaded k' i l' (image (k_fs k)) inode) phs) ∨
  (∃ l' live' k' phs1 ph phs2, m k = Ret false k' ∧ loading k' mm i l' live' file ip inode ∧ grown mm k i l live k' l' live' ∧
     areas_from l l' file phs ∧ phs = phs1 ++ ph :: phs2 ∧ refused k' l phs1 ph) ∨
  (∃ k', m k = Fault PageFaultPanic k' ∧ ¬ can_fault (length phs) k).

(** A segment of which nothing is in the file. *)
Lemma load_zero_segment k mm i l live file ip inode ph :
  loading k mm i l live file ip inode → user_segment ph → p_type ph = ELF32_PT_LOAD → p_filesz ph = 0 → 0 < p_memsz ph →
  load_result (r ← in_tasks (vm_brk_flags (p_vaddr ph) (p_memsz ph)); mret (negb (r =? 0))) k mm i l live file ip inode [ph].
Proof.
  intros Hld Hu Hpt Hfz Hmz. destruct (Hu Hpt) as (Hv & _ & _ & Hend & _). unfold load_result.
  destruct (zero_area_run k mm i l live file ip inode (p_vaddr ph) (p_memsz ph) Hld ltac:(lia) ltac:(lia) ltac:(lia))
    as [(q & l' & live' & k' & Hrn & Hq & Hld' & Hg & Ht & Hz & Hnew)|(k' & Hrn & Hld' & Hg & Hwhy)]; rewrite (bind_ret _ _ _ _ _ Hrn).
  - left. exists l', live', k'. rewrite (proj2 (Z.eqb_neq _ _) Hq). split; [done|]. split; [done|]. split; [done|].
    split; [by eapply takes_le; [|done]; cbn; lia|]. split.
    + intros x Hx. destruct (Hnew x Hx) as [?|(? & E1 & E2)]; [by left|right]. split; [by left|]. exists ph. unfold seg_start, seg_end.
      rewrite E1, E2. split; [by left|]. split; [done|lia].
    + constructor; [|done]. intros _ va Hva. destruct (Hz va Hva) as [Ha Hc]. split; [done|]. rewrite Hc. unfold segment_byte.
      by rewrite (proj2 (Z.ltb_ge _ _)) by lia.
  - right. left. exists l, live, k', [], ph, []. do 3 (split; [done|]). split; [apply areas_from_refl|]. split; [done|]. split; [done|]. right. right. destruct Hwhy as [?|(x & Hx & ? & ?)]; [by left|right; left; by exists x].
Qed.

(** The area of the file's part is in the segment. *)
Lemma tail_areas l l1 file ph :
  user_segment ph → p_type ph = ELF32_PT_LOAD → 0 < p_filesz ph ≤ p_memsz ph →
  (∀ x, x ∈ l1 → x ∈ l ∨ a_file x.2 = file ∧ a_start x.2 = seg_start ph ∧ a_end x.2 = page_end (p_vaddr ph + p_filesz ph)) →
  areas_from l l1 file [ph].
Proof.
  intros Hu Hpt Hsz Hnew x Hx. destruct (Hnew x Hx) as [?|(? & E1 & E2)]; [by left|right]. split; [by right|]. exists ph. rewrite E1, E2.
  split; [by left|]. split; [done|]. split; [lia|]. unfold seg_end, page_end. Z.div_mod_to_equations. lia.
Qed.

(** The zeros after the last page of the file's part. *)
Lemma load_tail k k1 k2 mm i l l1 live live1 file ip inode ph :
  loading k2 mm i l1 live1 file ip inode → grown mm k i l live k2 l1 live1 → takes 1 k k2 → user_segment ph → p_type ph = ELF32_PT_LOAD →
  0 < p_filesz ph ≤ p_memsz ph →
  let pe := page_end (p_vaddr ph + p_filesz ph) in
  (∀ x, x ∈ l1 → x ∈ l ∨ a_file x.2 = file ∧ a_start x.2 = seg_start ph ∧ a_end x.2 = pe) →
  (∀ va, p_vaddr ph ≤ va < pe → va < p_vaddr ph + p_memsz ph →
     is_Some (area_at va l1) ∧ contents k2 i l1 va = Some (segment_byte (image (k_fs k)) inode ph va)) →
  load_result (λ _, (if pe <? p_vaddr ph + p_memsz ph
    then r ← in_tasks (vm_brk_flags pe ((p_vaddr ph + p_memsz ph) -ᵤ pe)); mret (negb (r =? 0)) else mret true) k2)
    k mm i l live file ip inode [ph].
Proof.
  intros Hld Hg Ht Hu Hpt Hsz pe Hnew Hc. destruct (Hu Hpt) as (Hv & _ & _ & Hend & _). unfold load_result.
  assert (p_vaddr ph < pe ≤ 0xc0000000 ∧ pe mod 4096 = 0) as [Hpe Hpm].
  { unfold pe, page_end. split; [Z.div_mod_to_equations; lia|by apply Z_mod_mult]. }
  assert (seg_start ph ≤ p_vaddr ph) as Hs by (unfold seg_start; rewrite align_down_mod by lia; Z.div_mod_to_equations; lia).
  destruct (Z.ltb_spec pe (p_vaddr ph + p_memsz ph)) as [Hlt|Hge].
  2: { left. exists l1, live1, k2. split; [done|]. split; [done|]. split; [done|]. split; [done|]. split.
       - by eapply tail_areas.
       - constructor; [|done]. intros _ va Hva. apply Hc; lia. }
  rewrite u32_id by lia.
  destruct (zero_area_run k2 mm i l1 live1 file ip inode pe (p_vaddr ph + p_memsz ph - pe) Hld ltac:(lia) ltac:(lia) ltac:(lia))
    as [(q3 & l3 & live3 & k3 & Hrn3 & Hq3 & Hld3 & Hg3 & Ht3 & Hz & Hnew3)|(k3 & Hrn3 & Hld3 & Hg3 & Hwhy)]; rewrite (bind_ret _ _ _ _ _ Hrn3);
    rewrite align_down_mod in * by lia; replace (pe + (p_vaddr ph + p_memsz ph - pe)) with (p_vaddr ph + p_memsz ph) in * by lia;
    fold (seg_end ph) in *.
  - left. exists l3, live3, k3. rewrite (proj2 (Z.eqb_neq _ _) Hq3). split; [done|]. split; [done|]. split; [by eapply grown_trans|].
    split; [by apply (takes_trans 1 0 k k2)|]. assert (pe ≤ seg_end ph) as Hpes by (unfold pe, seg_end, page_end; Z.div_mod_to_equations; lia). split.
    + intros x Hx. destruct (Hnew3 x Hx) as [Hx1|(? & E1 & E2)]; [destruct (Hnew x Hx1) as [?|(? & E1 & E2)]; [by left|]|];
        right; (split; [tauto|]); exists ph; rewrite E1, E2; (split; [by left|]); (split; [done|lia]).
    + constructor; [|done]. intros _ va Hva. destruct (decide (va < pe)) as [Hin|Hout].
      * destruct (Hc va) as [Ha Hcv]; [lia..|]. split; [by apply (gr_area _ _ _ _ _ _ _ _ Hg3)|].
        rewrite (gr_own _ _ _ _ _ _ _ _ Hg3); [done | apply program_va; lia | done].
      * destruct (Hz va) as [Ha Hcv]; [lia|]. split; [done|]. rewrite Hcv. unfold segment_byte.
        rewrite (proj2 (Z.ltb_ge _ _)); [done|]. unfold pe, page_end in Hout. Z.div_mod_to_equations. lia.
  - right. left. exists l1, live1, k3, [], ph, []. split; [done|]. split; [done|]. split; [by eapply grown_trans|].
    split; [by eapply tail_areas|]. do 2 (split; [done|]). right. right.
    destruct Hwhy as [Hk|(x & Hx & Hx1 & Hx2)]; [by left|right; left]. destruct (Hnew x Hx) as [Hin|(_ & _ & Heq)]; [|lia].
    exists x. split; [done|]. split; [done|lia].
Qed.

Lemma load_segment_run k mm i l live file ip inode ph :
  loading k mm i l live file ip inode → file ≠ 0 → user_segment ph →
  load_result (load_segment file ph) k mm i l live file ip inode [ph].
Proof.
  intros Hld Hnz Hu. unfold load_segment.
  assert ((∀ va, p_type ph = ELF32_PT_LOAD → ¬ p_vaddr ph ≤ va < p_vaddr ph + p_memsz ph) →
    load_result (mret true) k mm i l live file ip inode [ph]) as Hnothing.
  { intros Hno. left. exists l, live, k. split; [done|]. split; [done|]. split; [apply grown_refl|].
    split; [eapply takes_le, takes_refl; lia|]. split; [intros x; by left|]. constructor; [|done]. intros Hpt va Hva. by destruct (Hno va). }
  destruct (Z.eqb_spec (p_type ph) ELF32_PT_LOAD) as [Hpt|Hpt]; cbn [negb]; [|by apply Hnothing].
  destruct (Hu Hpt) as (Hv & Hfz & Hmz & Hend & Ho & Hwrap).
  destruct (Z.ltb_spec (p_memsz ph) (p_filesz ph)) as [Hlt|Hle].
  { right. left. exists l, live, k, [], ph, []. split; [done|]. split; [done|]. split; [apply grown_refl|].
    split; [apply areas_from_refl|]. split; [done|]. split; [done|by left]. }
  destruct (Z.eqb_spec (p_filesz ph) 0) as [Ef|Ef].
  { destruct (Z.eqb_spec (p_memsz ph) 0) as [Em|Em]; [apply Hnothing; intros; lia|]. apply load_zero_segment; (done || lia). }
  unfold load_result. destruct (file_area_run k mm i l live file ip inode ph Hld Hnz Hu Hpt ltac:(lia))
    as [(q & l1 & live1 & k1 & Hrn & Hq & Hld1 & Hg1 & Ht1 & Hb & Hnew)|(k1 & Hrn & Hld1 & Hg1 & Hwhy)]; rewrite (bind_ret _ _ _ _ _ Hrn).
  2: { right. left. exists l, live, k1, [], ph, []. do 3 (split; [done|]). split; [apply areas_from_refl|done]. }
  rewrite (proj2 (Z.eqb_neq _ _) Hq). rewrite (u32_id (p_vaddr ph + p_filesz ph)) by lia.
  rewrite (u32_id (p_vaddr ph + p_memsz ph)) by lia. rewrite align_up_page_end by lia.
  destruct (pad_run k k1 mm i l l1 live live1 file ip inode ph Hld1 Hg1 Hu Hpt ltac:(lia) Hb)
    as [(k2 & Hrn2 & Hld2 & Hg2 & Ht2 & Hc2)|(k2 & Hrn2 & Hwhy)].
  2: { right. right. exists k2. split; [by apply bind_fault|]. intros Hcan. apply Hwhy. by apply (takes_can 0 1 k k1). }
  rewrite (bind_ret _ _ _ _ _ Hrn2). cbn [Z.eqb].
  exact (load_tail k k1 k2 mm i l l1 live live1 file ip inode ph Hld2 Hg2 (takes_trans 0 1 _ _ _ Ht1 Ht2) Hu Hpt ltac:(lia) Hnew Hc2).
Qed.

Lemma refused_more k' l l1 file earlier ph0 ph :
  areas_from l l1 file [ph0] → refused k' l1 earlier ph → refused k' l (ph0 :: earlier) ph.
Proof.
  intros Hfrom [Hpt Hwhy]. split; [done|]. destruct Hwhy as [?|[?|[?|[(x & Hx & H1 & H2)|(ph' & Hin & Hrest)]]]]; [tauto..| |].
  - destruct (Hfrom x Hx) as [Hl|(_ & ph' & ->%list_elem_of_singleton & Hpt' & H3 & H4)].
    + right. right. right. left. by exists x.
    + do 4 right. exists ph0. split; [by left|]. split; [done|lia].
  - do 4 right. exists ph'. split; [by right|done].
Qed.

Lemma areas_from_cons l l1 l2 file ph phs :
  areas_from l l1 file [ph] → areas_from l1 l2 file phs → areas_from l l2 file (ph :: phs).
Proof.
  intros H1 H2 x Hx. destruct (H2 x Hx) as [Hx1|(Hf2 & ph' & Hin & Hrest)]; [|right; split; [done|]; exists ph'; by split; [right|]].
  destruct (H1 x Hx1) as [?|(Hf1 & ph' & ->%list_elem_of_singleton & Hrest)]; [by left|right]. split; [done|]. exists ph. by split; [left|].
Qed.

Lemma load_segments_run k mm i l live file ip inode phs :
  loading k mm i l live file ip inode → file ≠ 0 → Forall user_segment phs →
  load_result (load_segments file phs) k mm i l live file ip inode phs.
Proof.
  intros Hld Hnz Hu. revert k l live Hld. induction Hu as [|ph phs Hph Hphs IH]; intros k l live Hld.
  { left. exists l, live, k. split; [done|]. split; [done|]. split; [apply grown_refl|]. split; [apply takes_refl|]. split; [intros x; by left|constructor]. }
  unfold load_result. cbn [load_segments length].
  destruct (load_segment_run k mm i l live file ip inode ph Hld Hnz Hph)
    as [(l1 & live1 & k1 & Hrn & Hld1 & Hg1 & Ht1 & Hfrom1 & Hs1)|[(l1 & live1 & k1 & phs1 & ph0 & phs2 & Hrn & Hld1 & Hg1 & Hfrom1 & Hsplit & Hwhy)|(k1 & Hrn & Hwhy)]].
  - rewrite (bind_ret _ _ _ _ _ Hrn). cbn [length] in Ht1.
    destruct (IH k1 l1 live1 Hld1) as [(l2 & live2 & k2 & Hrn2 & Hld2 & Hg2 & Ht2 & Hfrom2 & Hs2)|[(l2 & live2 & k2 & phs1 & ph0 & phs2 & Hrn2 & Hld2 & Hg2 & Hfrom2 & -> & Hr)|(k2 & Hrn2 & Hex)]].
    + left. exists l2, live2, k2. split; [done|]. split; [done|]. split; [by eapply grown_trans|]. split; [by apply (takes_trans 1 _ k k1)|]. split.
      * by eapply areas_from_cons.
      * constructor; [|by rewrite <-(files_image _ _ (gr_files _ _ _ _ _ _ _ _ Hg1))].
        eapply segment_loaded_grown; [done..|]. by inversion Hs1.
    + right. left. exists l2, live2, k2, (ph :: phs1), ph0, phs2. split; [done|]. split; [done|]. split; [by eapply grown_trans|].
      split; [by eapply areas_from_cons|]. split; [done|]. by eapply refused_more.
    + right. right. exists k2. split; [done|]. intros Hcan. apply Hex. by apply (takes_can 1 _ k k1).
  - right. left. exists l1, live1, k1, [], ph, phs. rewrite (bind_ret _ _ _ _ _ Hrn). do 3 (split; [done|]).
    split; [by apply (areas_from_cons l l1 l1), areas_from_refl|]. split; [done|].
    destruct phs1 as [|? [|]]; [|done..]. by injection Hsplit as <- _.
  - right. right. exists k1. split; [by apply bind_fault|]. intros Hcan. apply Hwhy. destruct Hcan. split; cbn; lia.
Qed.

(** ** The headers *)

Lemma read_elf_run k file ip inode offset count :
  exec_file k file ip inode → file ≠ 0 → 0 ≤ offset ≤ i_size inode → 0 ≤ count < 0x80000000 →
  ∃ f', read_elf file offset count k =
      Ret (if offset + count <=? i_size inode then Some (file_range (image (k_fs k)) inode offset count) else None) (set_fs f' k) ∧
    same_fs (k_fs k) f'.
Proof.
  intros [H0 [pos Hf] Hi Hok Hfs Hm] Hnz Hoff Hcount. apply open_file_Some in Hf. apply open_inode_Some in Hi.
  unfold read_elf. rewrite (bind_ret _ _ _ _ _ (in_load_file k _ _ Hf)). cbv zeta. cbn [f_inode f_pos].
  rewrite (bind_ret _ _ _ _ _ (in_update_file k _ _ _ Hf Hnz)). cbn [f_inode].
  set (k1 := insert_obj file (OFile (File ip offset)) k). assert (ip ≠ file) as Hne by congruence.
  assert (k_objs k1 !! file = Some (OFile (File ip offset))) as Hf1 by apply lookup_insert_eq.
  assert (k_objs k1 !! ip = Some (OInode inode)) as Hi1 by (unfold k1; cbn; by rewrite lookup_insert_ne).
  set (n := Z.min (i_size inode - offset) count).
  destruct (vfs_read_file_run k1 file ip offset inode count Hf1 Hi1 Hnz Hfs Hok) as (f' & Hrun & Hf'); [lia | lia | |].
  { intros o Ho. apply Hm. lia. }
  fold n in Hrun. rewrite (bind_ret _ _ _ _ _ Hrun). cbv iota beta. set (k2 := set_fs f' _).
  assert (k_objs k2 !! file = Some (OFile (File ip (offset + n)))) as Hf2 by apply lookup_insert_eq.
  rewrite (bind_ret _ _ _ _ _ (in_update_file k2 _ _ _ Hf2 Hnz)). cbn [f_inode]. exists f'. split; [|done].
  assert (insert_obj file (OFile (File ip pos)) k2 = set_fs f' k) as ->.
  { unfold k2, k1, insert_obj, set_store, set_tasks, with_store, set_fs. cbn. rewrite !insert_insert_eq, insert_id by done.
    by destruct k as [[[]]]. }
  rewrite i32_id by lia. unfold mret, M_ret. f_equal. destruct (Z.leb_spec (offset + count) (i_size inode)).
  - assert (n = count) as -> by lia. by rewrite Z.eqb_refl.
  - rewrite (proj2 (Z.eqb_neq n count)) by lia. done.
Qed.

Lemma loading_set_fs k mm i l live file ip inode f' :
  loading k mm i l live file ip inode → same_fs (k_fs k) f' → loading (set_fs f' k) mm i l live file ip inode ∧ grown mm k i l live (set_fs f' k) l live.
Proof.
  intros (Hus & Hst & Hex) Hf. assert (same_files k (set_fs f' k)) as Hsf by (constructor; try done; by left).
  split; [split; [|split; [done | apply (exec_file_same k); [done | apply Hex | done]]]|].
  - destruct Hus as [[? ? ? ? ? ? ?] Hc Ho Hal Hfiles Hres]. constructor; [by constructor | done..| | done].
    intros x page Hx Hp Hpal. eapply files_ready; [done..|]. by apply Hfiles.
  - constructor; try done.
    + intros va Hva Hin. by apply contents_ext.
    + intros i' l0 va Hi Hne Hva. by apply contents_ext.
    + intros x ?. by left.
    + by apply same_tasks_store.
Qed.

(** The headers in the file. *)
Definition file_ehdr (img : Z → list Z) (inode : minix_inode_t) : elf32_ehdr_t := ehdr_of_bytes (file_range img inode 0 SIZEOF_EHDR).
Definition file_phdrs (img : Z → list Z) (inode : minix_inode_t) : list elf32_phdr_t :=
  let h := file_ehdr img inode in
  phdrs_of_bytes (file_range img inode (e_phoff h) (e_phnum h * SIZEOF_PHDR)) (Z.to_nat (e_phnum h)).

Lemma elf32_load_ehdr_run k file ip inode :
  exec_file k file ip inode → file ≠ 0 →
  ∃ f', elf32_load_ehdr file k =
      Ret (if SIZEOF_EHDR <=? i_size inode then Some (file_ehdr (image (k_fs k)) inode) else None) (set_fs f' k) ∧
    same_fs (k_fs k) f'.
Proof.
  intros Hex Hnz. pose proof (inode_size_range _ (ef_inode_ok _ _ _ _ Hex)).
  destruct (read_elf_run k file ip inode 0 SIZEOF_EHDR Hex Hnz) as (f' & Hrn & Hf);
    [lia | unfold SIZEOF_EHDR; lia |].
  exists f'. split; [|done]. unfold elf32_load_ehdr. rewrite (bind_ret _ _ _ _ _ Hrn). rewrite Z.add_0_l.
  by destruct (SIZEOF_EHDR <=? i_size inode).
Qed.

(** ** The loader *)

(** A loadable segment that lies in the program's part of the address space, with
    offsets that do not wrap around. *)
Definition program_segment (ph : elf32_phdr_t) : Prop :=
  p_type ph = ELF32_PT_LOAD →
  0x400000 ≤ p_vaddr ph ∧ p_vaddr ph + p_memsz ph ≤ 0xc0000000 ∧ p_offset ph + p_filesz ph + 4096 ≤ 0x100000000.

Lemma file_ehdr_range f inode : fs_ok f →
  0 ≤ e_phoff (file_ehdr (image f) inode) < 0x100000000 ∧ 0 ≤ e_phnum (file_ehdr (image f) inode) < 0x10000.
Proof.
  intros Hf. unfold file_ehdr, ehdr_of_bytes. cbn [e_phoff e_phnum].
  split; [apply le32_range|apply le16_range]; by apply file_range_bytes.
Qed.

Lemma file_segments f inode : fs_ok f →
  Forall program_segment (file_phdrs (image f) inode) → Forall user_segment (file_phdrs (image f) inode).
Proof.
  intros Hf Hall. rewrite Forall_forall in Hall |- *. intros ph Hin Hpt. destruct (Hall ph Hin Hpt) as (H1 & H2 & H3).
  unfold file_phdrs, phdrs_of_bytes in Hin. apply list_elem_of_fmap in Hin as (j & -> & _).
  unfold phdr_of_bytes in *. cbn [p_vaddr p_memsz p_filesz p_offset] in *.
  assert (∀ m, 0 ≤ le32 (drop (32 * j) (file_range (image f) inode (e_phoff (file_ehdr (image f) inode))
    (e_phnum (file_ehdr (image f) inode) * SIZEOF_PHDR))) m) as Hr.
  { intros m. apply le32_range, Forall_drop. by apply file_range_bytes. }
  split_and!; try lia; apply Hr.
Qed.

Lemma elf32_load_phdr_run k file ip inode :
  exec_file k file ip inode → file ≠ 0 → SIZEOF_EHDR ≤ i_size inode →
  let h := file_ehdr (image (k_fs k)) inode in
  e_phnum h ≠ 0 → e_phoff h ≤ i_size inode →
  ∃ f', elf32_load_phdr file k =
      Ret (if e_phoff h + e_phnum h * SIZEOF_PHDR <=? i_size inode then Some (file_phdrs (image (k_fs k)) inode) else None)
        (set_fs f' k) ∧ same_fs (k_fs k) f'.
Proof.
  intros Hex Hnz Hsz h Hnum Hoff. destruct (file_ehdr_range (k_fs k) inode (ef_fs _ _ _ _ Hex)) as [Hr1 Hr2]. fold h in Hr1, Hr2.
  destruct (elf32_load_ehdr_run k file ip inode Hex Hnz) as (f1 & Hrn1 & Hf1).
  unfold elf32_load_phdr. rewrite (bind_ret _ _ _ _ _ Hrn1), (proj2 (Z.leb_le _ _)) by done. fold h. cbv zeta.
  rewrite (proj2 (Z.eqb_neq _ _)) by (unfold SIZEOF_PHDR; lia). set (k1 := set_fs f1 k).
  assert (exec_file k1 file ip inode) as Hex1 by (apply (exec_file_same k); [by constructor; try done; left | apply Hex | done]).
  destruct (read_elf_run k1 file ip inode (e_phoff h) (e_phnum h * SIZEOF_PHDR) Hex1 Hnz) as (f2 & Hrn2 & Hf2);
    [lia | unfold SIZEOF_PHDR; lia |].
  exists f2. rewrite (bind_ret _ _ _ _ _ Hrn2). split; [|by eapply same_fs_trans].
  assert (image (k_fs k1) = image (k_fs k)) as -> by apply Hf1.
  unfold file_phdrs. fold h. by destruct (e_phoff h + e_phnum h * SIZEOF_PHDR <=? i_size inode).
Qed.

Lemma elf32_load_exec_run k mm i l live file ip inode phdr_address :
  user_space k mm i l → store_ok (k_store k) live → exec_file k file ip inode → file ≠ 0 →
  let img := image (k_fs k) in
  let h := file_ehdr img inode in
  e_phoff h ≤ i_size inode → Forall program_segment (file_phdrs img inode) →
  (∃ l' live' k', elf32_load_exec phdr_address file k = Ret (Some (e_entry h)) k' ∧
     loading k' mm i l' live' file ip inode ∧ grown mm k i l live k' l' live' ∧ takes (length (file_phdrs img inode)) k k' ∧
     areas_from l l' file (file_phdrs img inode) ∧ Forall (segment_loaded k' i l' img inode) (file_phdrs img inode)) ∨
  (∃ k', elf32_load_exec phdr_address file k = Ret None k' ∧ loading k' mm i l live file ip inode ∧ grown mm k i l live k' l live ∧
     (i_size inode < SIZEOF_EHDR ∨ e_phnum h = 0)) ∨
  (∃ l' live' k', elf32_load_exec phdr_address file k = (in_store (kfree phdr_address);; mret None) k' ∧
     loading k' mm i l' live' file ip inode ∧ grown mm k i l live k' l' live' ∧ areas_from l l' file (file_phdrs img inode) ∧
     (i_size inode < e_phoff h + e_phnum h * SIZEOF_PHDR ∨
      ∃ earlier ph later, file_phdrs img inode = earlier ++ ph :: later ∧ refused k' l earlier ph)) ∨
  (∃ k', elf32_load_exec phdr_address file k = Fault PageFaultPanic k' ∧ ¬ can_fault (length (file_phdrs img inode)) k).
Proof.
  intros Hus Hst Hex Hnz img h Hoff Hsegs.
  assert (loading k mm i l live file ip inode) as Hld by by split.
  destruct (elf32_load_ehdr_run k file ip inode Hex Hnz) as (f1 & Hrn1 & Hf1). fold img in Hrn1. fold h in Hrn1.
  destruct (loading_set_fs k mm i l live file ip inode f1 Hld Hf1) as [Hld1 Hg1].
  set (k1 := set_fs f1 k) in *. assert (image (k_fs k1) = img) as Himg1 by apply Hf1.
  unfold elf32_load_exec. rewrite (bind_ret _ _ _ _ _ Hrn1).
  destruct (Z.leb_spec SIZEOF_EHDR (i_size inode)) as [Hsz|Hsz].
  2: { right. left. exists k1. split; [done|]. split; [done|]. split; [done|]. by left. }
  destruct (Z.eqb_spec (e_phnum h) 0) as [Hnum|Hnum].
  { right. left. exists k1. split; [done|]. split; [done|]. split; [done|]. by right. }
  pose proof (elf32_load_phdr_run k1 file ip inode (proj2 (proj2 Hld1)) Hnz Hsz) as Hph. rewrite Himg1 in Hph. fold h in Hph.
  destruct (Hph Hnum Hoff) as (f2 & Hrn2 & Hf2).
  destruct (loading_set_fs k1 mm i l live file ip inode f2 Hld1 Hf2) as [Hld2 Hg2]. set (k2 := set_fs f2 k1) in *.
  assert (image (k_fs k2) = img) as Himg2 by (rewrite <-Himg1; apply Hf2).
  pose proof (grown_trans _ _ _ _ _ _ _ _ _ _ _ Hg1 Hg2) as Hg.
  rewrite (bind_ret _ _ _ _ _ Hrn2).
  destruct (Z.leb_spec (e_phoff h + e_phnum h * SIZEOF_PHDR) (i_size inode)) as [Hin|Hout].
  2: { right. right. left. exists l, live, k2. do 3 (split; [done|]). split; [apply areas_from_refl|by left]. }
  destruct (load_segments_run k2 mm i l live file ip inode (file_phdrs img inode) Hld2 Hnz)
    as [(l3 & live3 & k3 & Hrn3 & Hld3 & Hg3 & Ht3 & Hfrom3 & Hs3)|[(l3 & live3 & k3 & phs1 & ph & phs2 & Hrn3 & Hld3 & Hg3 & Hfrom3 & Hsplit & Hr)|(k3 & Hrn3 & Hex0)]].
  - apply file_segments; [apply Hex|done].
  - left. exists l3, live3, k3. rewrite (bind_ret _ _ _ _ _ Hrn3). split; [done|]. split; [done|]. split; [by eapply grown_trans|].
    split; [exact Ht3|]. split; [done|]. by rewrite Himg2 in Hs3.
  - right. right. left. exists l3, live3, k3. rewrite (bind_ret _ _ _ _ _ Hrn3). split; [done|]. split; [done|].
    split; [by eapply grown_trans|]. split; [done|]. right. by exists phs1, ph, phs2.
  - right. right. right. exists k3. split; [by apply bind_fault|exact Hex0].
Qed.

(** ** Properties *)

(** C1 (loading a program, [elf32_load_exec]): from an open file whose loadable segments
    lie in the program's part of the address space.  On success the call returns
    the entry point of the header, and every loadable segment reads as the bytes of
    the file at its offset up to its size in the file and as zeros up to its size in
    memory; nothing that the address space showed before has changed, nor any other
    address space, and the areas added lie in the pages of the segments.  A file
    without a whole header or without program headers gives 0 and leaves everything
    as it was.  When the program headers are cut off, or a segment is refused (its
    sizes or its offset are wrong, the heap is full, or its pages overlap an area or
    an earlier segment), the function, with the segments before it mapped, hands the
    array on its stack to [kfree] and then gives 0.  In all these cases the heap
    gains the nodes of the areas added and nothing else.  The kernel stops in the panic loop of the page fault handler only
    with fewer free frames or page tables than segments. *)
Theorem elf32_load_exec_correct k mm i l live file ip inode phdr_address :
  user_space k mm i l → store_ok (k_store k) live → exec_file k file ip inode → file ≠ 0 →
  let img := image (k_fs k) in
  let h := file_ehdr img inode in
  e_phoff h ≤ i_size inode → Forall program_segment (file_phdrs img inode) →
  (∃ l' live' k', elf32_load_exec phdr_address file k = Ret (Some (e_entry h)) k' ∧
     loading k' mm i l' live' file ip inode ∧ grown mm k i l live k' l' live' ∧ takes (length (file_phdrs img inode)) k k' ∧
     areas_from l l' file (file_phdrs img inode) ∧ Forall (segment_loaded k' i l' img inode) (file_phdrs img inode)) ∨
  (∃ k', elf32_load_exec phdr_address file k = Ret None k' ∧ loading k' mm i l live file ip inode ∧ grown mm k i l live k' l live ∧
     (i_size inode < SIZEOF_EHDR ∨ e_phnum h = 0)) ∨
  (∃ l' live' k', elf32_load_exec phdr_address file k = (in_store (kfree phdr_address);; mret None) k' ∧
     loading k' mm i l' live' file ip inode ∧ grown mm k i l live k' l' live' ∧ areas_from l l' file (file_phdrs img inode) ∧
     (i_size inode < e_phoff h + e_phnum h * SIZEOF_PHDR ∨
      ∃ earlier ph later, file_phdrs img inode = earlier ++ ph :: later ∧ refused k' l earlier ph)) ∨
  (∃ k', elf32_load_exec phdr_address file k = Fault PageFaultPanic k' ∧ ¬ can_fault (length (file_phdrs img inode)) k).
Proof. exact (elf32_load_exec_run k mm i l live file ip inode phdr_address). Qed.
End load.

(** ** A program for the witness

    One segment at offset 100 of the file, of 8 bytes in the file and 5000 in
    memory, at 0x8050064. *)

#[local] Existing Instance sample_layout.

Definition enc32 (v : Z) : list Z := enc16 (v mod 0x10000) ++ enc16 (v `div` 0x10000).

Definition program_bytes : list Z :=
  replicate 24 0 ++ enc32 0x8050064 ++ enc32 52 ++ replicate 12 0 ++ enc16 1 ++ replicate 6 0 ++
  enc32 1 ++ enc32 100 ++ enc32 0x8050064 ++ enc32 0 ++ enc32 8 ++ enc32 5000 ++ enc32 0 ++ enc32 0 ++
  replicate 16 0 ++ [1; 2; 3; 4; 5; 6; 7; 8; 9; 9; 9; 9].

Definition program_inode : minix_inode_t := inode_of_bytes (enc_inode 0x81a4 112 11).
Definition program_fs : fs (gmap Z (list Z)) := Fs sample_super (list_to_map [(2070, program_bytes)]).

Definition program_segs : list seg := [(176, false); (8, false); (32, false); (8, false); (65252, true)].
Definition program_heap : heap := Heap (list_to_map [
  (0xc0110000, HB 176 false 0xc01100bc); (0xc01100bc, HB 8 false 0xc01100d0);
  (0xc01100d0, HB 32 false 0xc01100fc); (0xc01100fc, HB 8 false 0xc0110110); (0xc0110110, HB 65252 true 0)]) 0xc0110000.

Definition the_inode : Z := 0xc01100dc.
Definition the_file : Z := 0xc0110108.

Definition program_kernel : kernel heap (gmap Z (list Z)) latches :=
  Kernel (Tasks (Store program_heap (list_to_map [
      (the_task, OTask (set_mm the_mm zero_task)); (the_mm, OMm (Mm 0xc0120000 0));
      (the_inode, OInode program_inode); (the_file, OFile (File the_inode 0))])) 0 the_task 0)
    fresh_frames task_paging program_fs (clear_screen, idle_bus) 0 zero_tss 0 ∅.

Lemma program_store_ok : store_ok (tk_store (k_tasks program_kernel)) (live program_segs).
Proof.
  assert (heap_inv program_heap program_segs) as Hinv.
  { constructor; try reflexivity; [|by repeat constructor].
    split; [|split; [|split; [|split; [|split; [|done]]]]]; vm_compute; reflexivity. }
  split; [by exists program_segs|]. split; [done|].
  intros p ob Hp _. simpl in Hp.
  repeat (apply lookup_insert_Some in Hp as [[<- <-]|[_ Hp]];
    [eexists; split; [vm_compute; reflexivity | vm_compute; discriminate]|]).
  done.
Qed.

Lemma program_user_space : user_space program_kernel the_mm 0 [].
Proof.
  constructor; [| exact clear_screen_ok | done | intros x ?%not_elem_of_nil; done | intros x page ?%not_elem_of_nil; done |].
  - pose proof fault_running as [_ _ _ Hlive Hmem Htlb Hcr3]. constructor; [| reflexivity | | exact Hlive | exact Hmem | exact Htlb | exact Hcr3].
    + eexists. split; reflexivity.
    + split; [reflexivity|]. split; [apply NoDup_nil; done|done].
  - intros va e Hva Hw. change (walk task_paging (pd_slot 0) va = Some e) in Hw. by rewrite task_paging_walk in Hw.
Qed.

Lemma program_exec_file : exec_file program_kernel the_file the_inode program_inode.
Proof.
  constructor; [reflexivity | by exists 0 | reflexivity | | done |].
  - apply inode_of_bytes_ok. decided.
  - intros o Ho. assert (i_size program_inode = 112) as Es by (vm_compute; reflexivity).
    replace (o `div` 1024) with 0 by (Z.div_mod_to_equations; lia). vm_compute. discriminate.
Qed.

Definition program_header : elf32_phdr_t := Phdr 1 100 0x8050064 0 8 5000 0 0.

Lemma program_phdrs : file_phdrs (image program_fs) program_inode = [program_header].
Proof. vm_compute. reflexivity. Qed.

Definition loads (r : res (kernel heap (gmap Z (list Z)) latches) (option Z)) : bool :=
  match r with Ret (Some _) _ => true | _ => false end.

Lemma program_loads : loads (elf32_load_exec 0 the_file program_kernel) = true.
Proof. vm_compute. reflexivity. Qed.

Lemma elf32_load_exec_correct_witness :
  ∃ l k', elf32_load_exec 0 the_file program_kernel = Ret (Some 0x8050064) k' ∧
    contents k' 0 l 0x8050064 = Some 1 ∧ contents k' 0 l 0x805006b = Some 8 ∧
    contents k' 0 l 0x805006c = Some 0 ∧ contents k' 0 l 0x80513eb = Some 0.
Proof.
  assert (i_size program_inode = 112) as Es by (vm_compute; reflexivity).
  assert (e_phoff (file_ehdr (image program_fs) program_inode) = 52) as Eo by (vm_compute; reflexivity).
  assert (e_phnum (file_ehdr (image program_fs) program_inode) = 1) as En by (vm_compute; reflexivity).
  assert (e_entry (file_ehdr (image program_fs) program_inode) = 0x8050064) as Ee by (vm_compute; reflexivity).
  destruct (elf32_load_exec_correct program_kernel the_mm 0 [] _ the_file the_inode program_inode 0 program_user_space
    program_store_ok program_exec_file ltac:(done))
    as [(l & live' & k' & Hrn & _ & _ & _ & _ & Hs)|[(k' & _ & _ & _ & Hno)|[(l' & live' & k' & Hrn & _ & _ & _ & Hno)|(k' & _ & Hno)]]];
    change (k_fs program_kernel) with program_fs in *.
  - rewrite Eo, Es. lia.
  - rewrite program_phdrs. constructor; [|done]. intros _. cbn. lia.
  - exists l, k'. rewrite Ee in Hrn. rewrite program_phdrs in Hs. inversion Hs as [|ph phs Hone _ E]. specialize (Hone eq_refl). cbn in Hone.
    split; [exact Hrn|].
    split; [|split; [|split]]; (etrans; [apply Hone; lia|]); vm_compute; reflexivity.
  - exfalso. rewrite Es, En in Hno. unfold SIZEOF_EHDR in Hno. lia.
  - exfalso. pose proof program_loads as Hl. rewrite Hrn in Hl. unfold loads, mbind, M_bind in Hl.
    by destruct (in_store (kfree 0) k').
  - exfalso. apply Hno. rewrite program_phdrs. destruct fault_resources. split; cbn [length]; [change (k_frames program_kernel) with (k_frames fault_kernel)|change (k_paging program_kernel) with (k_paging fault_kernel)]; lia.
Defined.
