(* ===== verification/Sched.v ===== *)
(** * The scheduler (src/kernel/sched.c)

    The tasks form a ring.  This file has the ring's operations; Switch.v has the
    code that changes tasks, Process.v [exit_task]. *)

From S2P Require Import Prelude Layout Allocator Heap Objects Linked Mmap.

(** ** The ring *)

Section ring_code.
Context {L : Layout} {H : Type} `{!Allocator H}.

Abbreviation load_task_at p := (on_store (load (T := task_t) p)).
Abbreviation update_task p f := (on_store (update (T := task_t) p f)).

(** [do { ... iter = iter->next; } while (iter != start)] *)
Fixpoint next_loop (fuel : nat) (iter start : Z) : M (tasks H) Z :=
  match fuel with
  | O => fail NoFuel
  | S fuel =>
      t ← load_task_at iter;
      if ((t_state t =? TASK_READY) || (t_state t =? TASK_RUNNING)) && negb (iter =? idle_task)
      then mret iter
      else if t_next t =? start then mret idle_task
      else next_loop fuel (t_next t) start
  end.

Definition next_task : M (tasks H) Z :=
  tp ← gets task_ptr;
  if tp =? 0 then mret 0
  else
    current ← get_current_task;
    t ← load_task_at (if current =? 0 then tp else current);
    fuel ← gets (λ s, S (size (objs (tk_store s))));
    next_loop fuel (t_next t) (t_next t).

(** The end of both branches of [enqueue_task]. *)
Definition enqueue_state (task : Z) : M (tasks H) Z :=
  current ← get_current_task;
  if current =? 0 then
    set_current_task task;;
    update_task task (set_state TASK_RUNNING);;
    mret 1
  else
    update_task task (set_state TASK_READY);;
    mret 1.

Definition enqueue_task (task : Z) : M (tasks H) Z :=
  if task =? 0 then mret 0
  else
    t ← load_task_at task;
    if negb (t_prev t =? 0) || negb (t_next t =? 0) || negb (t_state t =? TASK_NEW) then mret 0
    else
      tp ← gets task_ptr;
      if tp =? 0 then
        set_task_ptr task;;
        update_task task (set_prev task);;
        update_task task (set_next task);;
        enqueue_state task
      else
        tail ← load_task_at tp;
        let head := t_next tail in
        update_task task (set_prev tp);;
        update_task task (set_next head);;
        update_task head (set_prev task);;
        update_task tp (set_next task);;
        set_task_ptr task;;
        enqueue_state task.

(** [dequeue_task] on a task that is alone, and on one that is not. *)
Definition dequeue_last (task : Z) : M (tasks H) unit :=
  set_task_ptr 0;;
  current ← get_current_task;
  if current =? task then set_current_task 0 else mret tt.

Definition dequeue_linked (task : Z) : M (tasks H) unit :=
  t ← load_task_at task;
  update_task (t_prev t) (set_next (t_next t));;
  t ← load_task_at task;
  update_task (t_next t) (set_prev (t_prev t));;
  t ← load_task_at task;
  tp ← gets task_ptr;
  (if tp =? task then set_task_ptr (t_prev t) else mret tt);;
  current ← get_current_task;
  if current =? task then set_current_task (t_next t) else mret tt.

Definition dequeue_task (task : Z) : M (tasks H) Z :=
  if task =? 0 then mret 0
  else
    t ← load_task_at task;
    if (t_prev t =? 0) || (t_next t =? 0) then mret 0
    else
      (if t_next t =? task then dequeue_last task else dequeue_linked task);;
      update_task task (set_prev 0);;
      update_task task (set_next 0);;
      mret 1.

Definition reap_dead_task (prev : Z) : M (tasks H) unit :=
  dead ← gets dead_task;
  if (dead =? 0) || (dead =? prev) then mret tt
  else
    dequeue_task dead;;
    t ← load_task_at dead;
    on_store (kfree (t_kernel_stack_base t));;
    on_store (kfree dead);;
    set_dead_task 0.

Definition wake_task (task : Z) : M (tasks H) unit :=
  if task =? 0 then mret tt
  else
    t ← load_task_at task;
    if negb (t_state t =? TASK_BLOCKED) then mret tt
    else update_task task (set_state TASK_READY).
End ring_code.

(** ** The run queue *)

(** A task's contents are its fields but the links. *)
Abbreviation task_node := (λ t prev next, OTask (set_next next (set_prev prev t))).
Abbreviation item := (Z * task_t)%type.

Implicit Types (l : list item) (o : gmap Z obj).

Definition runnable_state (v : Z) : bool := (v =? TASK_READY) || (v =? TASK_RUNNING).

Section ring.
Context {L : Layout} {H : Type} `{!Allocator H}.
Implicit Types (s : tasks H) (live : gmap Z Z).

Abbreviation s_objs s := (objs (tk_store s)).

(** The tasks of the ring, the one [task_ptr] points to last. *)
Definition run_queue s l : Prop :=
  (l = [] ∧ task_ptr s = 0) ∨ (ring task_node (s_objs s) l ∧ task_ptr s = final l 0).

Definition runnable (x : item) : bool := runnable_state (t_state x.2) && negb (x.1 =? idle_task).

(** The first task that may run; the idle task when there is none. *)
Fixpoint pick l : Z :=
  match l with
  | [] => idle_task
  | x :: l => if runnable x then x.1 else pick l
  end.

Lemma on_load_task s p t :
  s_objs s !! p = Some (OTask t) → on_store (load (T := task_t) p) s = Ret t s.
Proof.
  intros Hp. rewrite (on_store_ret _ s _ _ (load_task p t (tk_store s) Hp)). by destruct s.
Qed.

Definition set_objs o s : tasks H := with_store s (Store (st_heap (tk_store s)) o).

Lemma on_update_task s p t f :
  s_objs s !! p = Some (OTask t) → p ≠ 0 →
  on_store (update p f) s = Ret tt (set_objs (<[p := OTask (f t)]> (s_objs s)) s).
Proof. intros Hp Hnz. by rewrite (on_store_ret _ s _ _ (update_task p t f (tk_store s) Hp Hnz)). Qed.

Lemma next_loop_run fuel s start prev p l prev' :
  dseg task_node (s_objs s) prev p l prev' start → l ≠ [] → (length l ≤ fuel)%nat →
  start ∉ (drop 1 l).*1 → next_loop fuel p start s = Ret (pick l) s.
Proof.
  revert prev p l. induction fuel as [|fuel IH]; intros prev p l Hseg Hne Hfuel Hs.
  { by destruct l; simpl in *; [|lia]. }
  destruct l as [|[q t] l]; [done|]. simpl in Hseg. destruct Hseg as (-> & Hnz & next & Ho & Hl).
  cbn [next_loop]. rewrite (bind_ret _ _ _ _ _ (on_load_task _ _ _ Ho)). simpl.
  unfold runnable, runnable_state. simpl.
  destruct (((t_state t =? TASK_READY) || (t_state t =? TASK_RUNNING)) && negb (q =? idle_task)); [done|].
  destruct l as [|[r u] l].
  - destruct Hl as [_ ->]. by rewrite Z.eqb_refl.
  - pose proof (dseg_first _ _ _ _ _ _ _ Hl) as ->. cbn [first].
    assert (r ≠ start) as Hrs by (intros ->; apply Hs; by left).
    rewrite (proj2 (Z.eqb_neq _ _)) by done. apply (IH _ _ _ Hl); [done | simpl in *; lia |].
    intros Hin. apply Hs. simpl. by right.
Qed.

(** The current task is the last of the list, or there is none and [task_ptr]
    points to the last. *)
Definition queue_position s l : Prop :=
  ring task_node (s_objs s) l ∧
  (current_task s = final l 0 ∨ current_task s = 0) ∧ (current_task s = 0 → task_ptr s = final l 0) ∧
  task_ptr s ≠ 0.

Lemma next_task_run s l : queue_position s l → next_task s = Ret (pick l) s.
Proof.
  intros ((Hne & Hnd & Hseg) & Hcur & Htp & Hnz). unfold next_task, get_current_task.
  rewrite gets_bind, (proj2 (Z.eqb_neq _ _)), gets_bind by done.
  destruct l as [|[q t] l0 _] using rev_ind; [done|]. rewrite final_snoc in *.
  assert ((if current_task s =? 0 then task_ptr s else current_task s) = q) as ->.
  { destruct (Z.eqb_spec (current_task s) 0); [auto | by destruct Hcur]. }
  pose proof Hseg as Hseg0. apply dseg_split in Hseg0 as [_ (_ & _ & next & Ho & _ & ->)].
  rewrite (bind_ret _ _ _ _ _ (on_load_task _ _ _ Ho)), gets_bind. cbn [t_next set_next].
  pose proof (dseg_length _ _ _ _ _ _ _ Hnd Hseg) as Hlen.
  eapply next_loop_run; [exact Hseg | done | lia |].
  destruct (l0 ++ [(q, t)]) as [|[r u] l1]; [done|]. simpl in *. by apply NoDup_cons in Hnd as [? _].
Qed.

(** *** [enqueue_task] *)

Lemma touches_task (st : store H) p t t' (P : Z → Prop) :
  objs st !! p = Some (OTask t) → P p →
  touches st (Store (st_heap st) (<[p := OTask t']> (objs st))) P.
Proof. intros Hp HP. apply touches_update; [by eexists | done]. Qed.

Lemma set_objs_twice o o' s : set_objs o (set_objs o' s) = set_objs o s.
Proof. done. Qed.

Lemma enqueue_state_run s task t :
  s_objs s !! task = Some (OTask t) → task ≠ 0 →
  let v := if current_task s =? 0 then TASK_RUNNING else TASK_READY in
  enqueue_state task s = Ret 1 (Tasks (Store (st_heap (tk_store s)) (<[task := OTask (set_state v t)]> (s_objs s)))
    (task_ptr s) (if current_task s =? 0 then task else current_task s) (dead_task s)).
Proof.
  intros Ho Hnz v. unfold enqueue_state, get_current_task. rewrite gets_bind. unfold v.
  destruct (current_task s =? 0).
  - unfold set_current_task. rewrite modify_bind.
    by rewrite (bind_ret _ _ _ _ _ (on_update_task (Tasks (tk_store s) (task_ptr s) task (dead_task s)) _ _ _ Ho Hnz)).
  - by rewrite (bind_ret _ _ _ _ _ (on_update_task _ _ _ (set_state TASK_READY) Ho Hnz)).
Qed.

Lemma enqueue_task_refused s task :
  task = 0 ∨ (∃ t, s_objs s !! task = Some (OTask t) ∧
    (t_prev t ≠ 0 ∨ t_next t ≠ 0 ∨ t_state t ≠ TASK_NEW)) →
  enqueue_task task s = Ret 0 s.
Proof.
  intros Hwhy. unfold enqueue_task. destruct (Z.eqb_spec task 0) as [|Hnz]; [done|].
  destruct Hwhy as [|(t & Ho & Hbad)]; [done|].
  rewrite (bind_ret _ _ _ _ _ (on_load_task _ _ _ Ho)).
  destruct (Z.eqb_spec (t_prev t) 0), (Z.eqb_spec (t_next t) 0), (Z.eqb_spec (t_state t) TASK_NEW);
    try done. tauto.
Qed.

Lemma enqueue_task_run s l task t :
  run_queue s l → s_objs s !! task = Some (OTask t) → task ∉ l.*1 → task ≠ 0 →
  t_prev t = 0 → t_next t = 0 → t_state t = TASK_NEW →
  let v := if current_task s =? 0 then TASK_RUNNING else TASK_READY in
  ∃ s', enqueue_task task s = Ret 1 s' ∧ run_queue s' (l ++ [(task, set_state v t)]) ∧
    task_ptr s' = task ∧ current_task s' = (if current_task s =? 0 then task else current_task s) ∧
    dead_task s' = dead_task s ∧
    touches (tk_store s) (tk_store s') (λ x, x = task ∨ x ∈ l.*1).
Proof.
  intros Hq Ho Hnotin Hnz Hp Hn Hs v. unfold enqueue_task.
  rewrite (proj2 (Z.eqb_neq task 0)) by done.
  rewrite (bind_ret _ _ _ _ _ (on_load_task _ _ _ Ho)), Hp, Hn, Hs. rewrite !Z.eqb_refl. cbn [Z.eqb negb orb]. rewrite gets_bind.
  destruct Hq as [[-> Htp] | [Hring Htp]].
  - rewrite Htp. cbn [Z.eqb]. unfold set_task_ptr. rewrite modify_bind.
    set (s1 := Tasks _ _ _ _).
    rewrite (bind_ret _ _ _ _ _ (on_update_task s1 task t (set_prev task) Ho Hnz)).
    set (s2 := set_objs _ s1).
    assert (s_objs s2 !! task = Some (OTask (set_prev task t))) as Ho2 by apply lookup_insert_eq.
    rewrite (bind_ret _ _ _ _ _ (on_update_task s2 task _ (set_next task) Ho2 Hnz)).
    set (s3 := set_objs _ s2).
    assert (s_objs s3 !! task = Some (OTask (set_next task (set_prev task t)))) as Ho3 by apply lookup_insert_eq.
    eexists. split; [exact (enqueue_state_run s3 task _ Ho3 Hnz)|].
    split; [|do 3 (split; [done|])].
    + right. split; [|done]. split; [done|]. split; [by apply NoDup_singleton|].
      simpl. split; [done|]. split; [done|]. exists task. by rewrite lookup_insert_eq.
    + cbn. unfold s3, s2. cbn. rewrite !insert_insert_eq. apply touches_update; [by eexists | by left].
  - pose proof Hring as (Hne & _ & _).
    assert (final l 0 ∈ l.*1) as Hin by by apply final_in.
    assert (final l 0 ≠ 0 ∧ ∃ te m, s_objs s !! final l 0 = Some (OTask (set_next (first l 0) (set_prev m te))))
      as (Henz & te & m & Hoe).
    { destruct Hring as (_ & Hnd & Hseg).
      destruct (dseg_relink_last _ _ _ _ _ _ _ 0 Hne Hnd Hseg) as (te & m & ? & ? & _). eauto. }
    rewrite Htp, (proj2 (Z.eqb_neq _ _)) by done.
    rewrite (bind_ret _ _ _ _ _ (on_load_task _ _ _ Hoe)). cbn [t_next set_next].
    rewrite (bind_ret _ _ _ _ _ (on_update_task s task t (set_prev (final l 0)) Ho Hnz)).
    set (s1 := set_objs _ s).
    assert (s_objs s1 !! task = Some (OTask (set_prev (final l 0) t))) as Ho1 by apply lookup_insert_eq.
    rewrite (bind_ret _ _ _ _ _ (on_update_task s1 task _ (set_next (first l 0)) Ho1 Hnz)).
    set (s2 := set_objs _ s1).
    assert (ring task_node (s_objs s2) l) as Hring2.
    { eapply ring_ext; [|exact Hring]. intros q Hq. simpl.
      by rewrite !lookup_insert_ne by (by intros <-). }
    destruct (ring_snoc _ _ _ task t Hring2 Hnotin Hnz (lookup_insert_eq _ _ _))
      as (a1 & m1 & n1 & a2 & m2 & n2 & Hf & Hof & He & Hoe2 & Hring3).
    rewrite (bind_ret _ _ _ _ _ (on_update_task s2 _ _ (set_prev task) Hof Hf)).
    set (s3 := set_objs _ s2).
    rewrite (bind_ret _ _ _ _ _ (on_update_task s3 _ _ (set_next task) Hoe2 He)).
    set (s4 := set_objs _ s3). unfold set_task_ptr. rewrite modify_bind. set (s5 := Tasks _ _ _ _).
    destruct (ring_set_content _ _ l task t (set_state v t) [] Hring3) as (r & n & _ & Ho5 & Hring5).
    eexists. split; [exact (enqueue_state_run s5 task _ Ho5 Hnz)|].
    split; [|do 3 (split; [done|])].
    + right. split; [exact Hring5 | by rewrite final_snoc].
    + set (P := λ x, x = task ∨ x ∈ l.*1).
      apply (touches_trans _ (tk_store s1) _ P P); [done | by eapply touches_task; [exact Ho | left]|].
      apply (touches_trans _ (tk_store s2) _ P P); [done | by eapply touches_task; [exact Ho1 | left]|].
      apply (touches_trans _ (tk_store s3) _ P P); [done | by eapply touches_task; [exact Hof | right; apply first_in]|].
      apply (touches_trans _ (tk_store s4) _ P P); [done | by eapply touches_task; [exact Hoe2 | right]|].
      by eapply touches_task; [exact Ho5 | left].
Qed.

(** *** [dequeue_task] *)

(** The links of a task outside the ring. *)
Abbreviation unlinked t := (OTask (set_next 0 (set_prev 0 t))).

Lemma clear_links_run s task t :
  s_objs s !! task = Some (OTask t) → task ≠ 0 →
  (on_store (update task (set_prev 0));; on_store (update task (set_next 0));; mret 1) s =
  Ret 1 (set_objs (<[task := unlinked t]> (s_objs s)) s).
Proof.
  intros Ho Hnz. rewrite (bind_ret _ _ _ _ _ (on_update_task s task t (set_prev 0) Ho Hnz)).
  set (s1 := set_objs _ s).
  assert (s_objs s1 !! task = Some (OTask (set_prev 0 t))) as Ho1 by apply lookup_insert_eq.
  rewrite (bind_ret _ _ _ _ _ (on_update_task s1 task _ (set_next 0) Ho1 Hnz)).
  unfold s1, set_objs, with_store. cbn. by rewrite insert_insert_eq.
Qed.

Lemma dequeue_last_run s task t :
  ring task_node (s_objs s) [(task, t)] →
  let c := if current_task s =? task then 0 else current_task s in
  let o := <[task := unlinked t]> (s_objs s) in
  dequeue_task task s = Ret 1 (Tasks (Store (st_heap (tk_store s)) o) 0 c (dead_task s)).
Proof.
  intros (_ & _ & _ & Hnz & n & Ho & _ & ->) c o. cbn [final last first] in Ho.
  unfold dequeue_task. rewrite (proj2 (Z.eqb_neq task 0)) by done.
  rewrite (bind_ret _ _ _ _ _ (on_load_task _ _ _ Ho)). cbn [t_prev t_next set_next set_prev].
  rewrite (proj2 (Z.eqb_neq task 0)), Z.eqb_refl by done. cbn [orb].
  set (s1 := Tasks (tk_store s) 0 c (dead_task s)).
  assert (dequeue_last task s = Ret tt s1) as Hd.
  { unfold dequeue_last, set_task_ptr, get_current_task. rewrite modify_bind, gets_bind. cbn [current_task].
    unfold s1, c. by destruct (current_task s =? task). }
  rewrite (bind_ret _ _ _ _ _ Hd). exact (clear_links_run s1 task _ Ho Hnz).
Qed.

Lemma dequeue_linked_run s task t l :
  ring task_node (s_objs s) ((task, t) :: l) → l ≠ [] →
  let c := if current_task s =? task then first l 0 else current_task s in
  let tp := if task_ptr s =? task then final l 0 else task_ptr s in
  ∃ o, dequeue_task task s = Ret 1 (Tasks (Store (st_heap (tk_store s)) o) tp c (dead_task s)) ∧
    ring task_node o l ∧ o !! task = Some (unlinked t) ∧
    touches (tk_store s) (Store (st_heap (tk_store s)) o) (λ x, x = task ∨ x ∈ l.*1).
Proof.
  intros Hring Hne c tp. pose proof Hring as (_ & [Hnin _]%NoDup_cons & _).
  destruct (ring_lookup _ _ _ task t Hring) as [Hnz _]; [by left|].
  destruct (ring_tail _ _ _ _ _ Hring Hne)
    as (a1 & m1 & n1 & a2 & m2 & n2 & Ho & He & Hoe & Ho1 & Hf & Hof & Ho2 & Hring').
  assert (first l 0 ≠ task) as Hft by (intros <-; by apply Hnin, first_in).
  unfold dequeue_task. rewrite (proj2 (Z.eqb_neq task 0)) by done.
  rewrite (bind_ret _ _ _ _ _ (on_load_task _ _ _ Ho)). cbn [t_prev t_next set_next set_prev].
  rewrite !(proj2 (Z.eqb_neq _ _)) by done. cbn [orb].
  set (s1 := set_objs (<[final l 0 := OTask (set_next (first l 0) (set_next n1 (set_prev m1 a1)))]> (s_objs s)) s).
  set (s2 := set_objs (<[first l 0 := OTask (set_prev (final l 0) (set_next n2 (set_prev m2 a2)))]> (s_objs s1)) s1).
  set (s3 := Tasks (tk_store s2) tp c (dead_task s)).
  assert (s_objs s1 !! task = s_objs s !! task) as Hs1 by exact Ho1.
  assert (s_objs s2 !! task = s_objs s !! task) as Hs2 by exact Ho2.
  rewrite Ho in Hs1, Hs2.
  assert (dequeue_linked task s = Ret tt s3) as Hd.
  { unfold dequeue_linked. rewrite (bind_ret _ _ _ _ _ (on_load_task _ _ _ Ho)).
    cbn [t_prev t_next set_next set_prev].
    rewrite (bind_ret _ _ _ _ _ (on_update_task s _ _ (set_next (first l 0)) Hoe He)). fold s1.
    rewrite (bind_ret _ _ _ _ _ (on_load_task s1 _ _ Hs1)). cbn [t_prev t_next set_next set_prev].
    rewrite (bind_ret _ _ _ _ _ (on_update_task s1 _ _ (set_prev (final l 0)) Hof Hf)). fold s2.
    rewrite (bind_ret _ _ _ _ _ (on_load_task s2 _ _ Hs2)). cbn [t_prev t_next set_next set_prev].
    rewrite gets_bind. change (task_ptr s2) with (task_ptr s).
    assert ((if task_ptr s =? task then set_task_ptr (final l 0) else mret tt) s2 =
            Ret tt (Tasks (tk_store s2) tp (current_task s) (dead_task s))) as Htp.
    { unfold tp. by destruct (task_ptr s =? task). }
    rewrite (bind_ret _ _ _ _ _ Htp). unfold get_current_task. rewrite gets_bind.
    unfold s3, c. cbn [current_task]. by destruct (current_task s =? task). }
  rewrite (bind_ret _ _ _ _ _ Hd). eexists. split; [exact (clear_links_run s3 task _ Hs2 Hnz)|].
  split; [|split].
  - eapply ring_ext; [|exact Hring']. intros q Hq. apply lookup_insert_ne. by intros <-.
  - apply lookup_insert_eq.
  - set (P := λ x, x = task ∨ x ∈ l.*1).
    apply (touches_trans _ (tk_store s1) _ P P); [done | by eapply touches_task; [exact Hoe | right; apply final_in]|].
    apply (touches_trans _ (tk_store s2) _ P P); [done | by eapply touches_task; [exact Hof | right; apply first_in]|].
    apply (touches_task (tk_store s2) task _ (set_next 0 (set_prev 0 t)) P Hs2). by left.
Qed.

(** *** The list without a task *)

Definition without (p : Z) l : list item := filter (λ x, x.1 ≠ p) l.

Lemma without_notin p l : p ∉ l.*1 → without p l = l.
Proof.
  intros Hp. induction l as [|[q t] l IH]; [done|]. unfold without in *.
  rewrite filter_cons_True.
  - f_equal. apply IH. intros ?. apply Hp. by right.
  - simpl. intros ->. apply Hp. by left.
Qed.

Lemma without_app p t l1 l2 : NoDup (l1 ++ (p, t) :: l2).*1 → without p (l1 ++ (p, t) :: l2) = l1 ++ l2.
Proof.
  rewrite fmap_app, fmap_cons. intros (_ & Hd & [Hp _]%NoDup_cons)%NoDup_app.
  unfold without. rewrite filter_app, filter_cons_False by (simpl; congruence).
  f_equal; apply without_notin; [|done]. intros Hin. apply (Hd p Hin). by left.
Qed.

Lemma run_queue_nodup s l : run_queue s l → NoDup l.*1.
Proof. intros [[-> _]|[(_ & ? & _) _]]; [apply NoDup_nil_2 | done]. Qed.

(** Every task of the ring has both links. *)
Lemma run_queue_links s l1 p t l2 :
  run_queue s (l1 ++ (p, t) :: l2) →
  p ≠ 0 ∧ ∃ m n, m ≠ 0 ∧ n ≠ 0 ∧ s_objs s !! p = Some (OTask (set_next n (set_prev m t))).
Proof.
  intros [[Hnil _]|[Hring _]]; [by destruct l1|]. apply ring_rotate in Hring. cbn [app] in Hring.
  split; [by eapply ring_lookup; [exact Hring | left]|].
  destruct (decide (l2 ++ l1 = [])) as [E|Hne].
  - rewrite E in Hring. destruct Hring as (_ & _ & _ & Hnz & n & Ho & _ & ->). by exists p, p.
  - destruct (ring_tail _ _ _ _ _ Hring Hne) as (? & ? & ? & ? & ? & ? & Ho & ? & _ & _ & ? & _). eauto 10.
Qed.

Lemma dequeue_task_refused s task :
  task = 0 ∨ (∃ t, s_objs s !! task = Some (OTask t) ∧ (t_prev t = 0 ∨ t_next t = 0)) →
  dequeue_task task s = Ret 0 s.
Proof.
  intros Hwhy. unfold dequeue_task. destruct (Z.eqb_spec task 0) as [|Hnz]; [done|].
  destruct Hwhy as [|(t & Ho & Hbad)]; [done|].
  rewrite (bind_ret _ _ _ _ _ (on_load_task _ _ _ Ho)).
  by destruct (Z.eqb_spec (t_prev t) 0), (Z.eqb_spec (t_next t) 0); try tauto.
Qed.

Lemma dequeue_task_run s l1 task t l2 :
  run_queue s (l1 ++ (task, t) :: l2) →
  ∃ s', dequeue_task task s = Ret 1 s' ∧ run_queue s' (l1 ++ l2) ∧
    s_objs s' !! task = Some (unlinked t) ∧
    current_task s' = (if current_task s =? task then first (l2 ++ l1) 0 else current_task s) ∧
    dead_task s' = dead_task s ∧
    touches (tk_store s) (tk_store s') (λ x, x = task ∨ x ∈ (l1 ++ l2).*1).
Proof.
  intros Hq. pose proof (run_queue_nodup _ _ Hq) as Hnd. destruct Hq as [[Hnil _]|[Hring Htp]]; [by destruct l1|].
  rewrite final_app, final_cons in Htp. apply ring_rotate in Hring. cbn [app] in Hring.
  destruct (decide (l2 ++ l1 = [])) as [[-> ->]%app_nil|Hne].
  - eexists. split; [by apply (dequeue_last_run s task t)|]. split; [by left|].
    split; [apply lookup_insert_eq|]. split; [done|]. split; [done|].
    destruct Hring as (_ & _ & _ & _ & n & Ho & _). eapply touches_task; [exact Ho | by left].
  - destruct (dequeue_linked_run s task t _ Hring Hne) as (o & Hrun & Hring' & Ho & Ht).
    eexists. split; [exact Hrun|]. split; [|split; [exact Ho|split; [done|split; [done|]]]].
    + right. split; [by apply ring_rotate|]. cbn [task_ptr]. rewrite Htp.
      destruct l2 as [|[q u] l2 _] using rev_ind.
      * cbn [final last]. by rewrite Z.eqb_refl, app_nil_r.
      * rewrite final_snoc, app_assoc, final_snoc. destruct (Z.eqb_spec q task) as [->|]; [|done].
        rewrite fmap_app, fmap_cons, fmap_app in Hnd. apply NoDup_app in Hnd as (_ & _ & [Hin _]%NoDup_cons).
        destruct Hin. apply elem_of_app. right. by left.
    + eapply touches_weaken; [|exact Ht]. intros x. rewrite !fmap_app, !elem_of_app. tauto.
Qed.

(** *** A task's contents changed in the queue *)

Definition upd (p : Z) (f : task_t → task_t) l : list item :=
  (λ x, if decide (x.1 = p) then (x.1, f x.2) else x) <$> l.

Lemma upd_fst p f l : (upd p f l).*1 = l.*1.
Proof.
  unfold upd. rewrite <-list_fmap_compose. apply list_fmap_ext. intros i x _. simpl. by case_decide.
Qed.

Lemma upd_notin p f l : p ∉ l.*1 → upd p f l = l.
Proof.
  intros Hp. rewrite <-(list_fmap_id l) at 2. apply list_fmap_ext. intros i x Hx. case_decide; [|done].
  destruct Hp. apply list_elem_of_fmap. exists x. split; [done | by apply list_elem_of_lookup_2 with i].
Qed.

Lemma upd_app p f l1 l2 : upd p f (l1 ++ l2) = upd p f l1 ++ upd p f l2.
Proof. apply fmap_app. Qed.

Lemma upd_one p f q t : upd p f [(q, t)] = [(q, if decide (q = p) then f t else t)].
Proof. unfold upd. simpl. by case_decide. Qed.

Lemma upd_split p f t l1 l2 :
  NoDup (l1 ++ (p, t) :: l2).*1 → upd p f (l1 ++ (p, t) :: l2) = l1 ++ (p, f t) :: l2.
Proof.
  rewrite fmap_app, fmap_cons. intros (_ & Hd & [Hp _]%NoDup_cons)%NoDup_app.
  rewrite upd_app. change (upd p f ((p, t) :: l2)) with ((if decide (p = p) then (p, f t) else (p, t)) :: upd p f l2).
  rewrite decide_True by done. rewrite !upd_notin; [done | done |].
  intros Hin. apply (Hd p Hin). by left.
Qed.

Lemma run_queue_update s l p t (f : task_t → task_t) :
  (∀ m n u, f (set_next n (set_prev m u)) = set_next n (set_prev m (f u))) →
  run_queue s l → s_objs s !! p = Some (OTask t) →
  run_queue (set_objs (<[p := OTask (f t)]> (s_objs s)) s) (upd p f l).
Proof.
  intros Hf Hq Hp. pose proof (run_queue_nodup _ _ Hq) as Hnd.
  destruct Hq as [[-> Htp]|[Hring Htp]]; [by left|]. right.
  destruct (decide (p ∈ l.*1)) as [Hin|Hnin].
  - revert Hin. intros ([? u] & -> & (l1 & l2 & ->)%list_elem_of_split)%list_elem_of_fmap. simpl in *.
    rewrite upd_split by done.
    destruct (ring_set_content _ _ l1 _ u (f u) l2 Hring) as (m & n & _ & Ho & Hring').
    rewrite Hp in Ho. injection Ho as ->. rewrite Hf. split; [exact Hring'|].
    cbn [task_ptr set_objs with_store]. rewrite Htp, !final_app, !final_cons. done.
  - rewrite upd_notin by done. split; [|done]. eapply ring_ext; [|exact Hring].
    intros q Hq. apply lookup_insert_ne. by intros <-.
Qed.

(** *** Reaping *)

Lemma reap_nothing s prev : dead_task s = 0 ∨ dead_task s = prev → reap_dead_task prev s = Ret tt s.
Proof.
  intros Hd. unfold reap_dead_task. rewrite gets_bind.
  by destruct Hd as [->| ->]; rewrite ?Z.eqb_refl, ?orb_true_r.
Qed.

Lemma on_kfree s live p sz :
  store_ok (tk_store s) live → live !! p = Some sz →
  ∃ h, on_store (kfree p) s = Ret tt (with_store s (Store h (delete p (s_objs s)))) ∧
       store_ok (Store h (delete p (s_objs s))) (delete p live).
Proof.
  intros Hs Hp. destruct (kfree_run _ _ _ _ Hs Hp) as (h & Hrun & Hok). exists h. split; [|done].
  exact (on_store_ret _ s _ _ Hrun).
Qed.

(** The dead task is in the ring; its memory is its own and its stack's. *)
Definition dead_ok s live l : Prop :=
  dead_task s = 0 ∨ ∃ t sz sz', (dead_task s, t) ∈ l ∧ live !! dead_task s = Some sz ∧ 0 < sz ∧
    live !! t_kernel_stack_base t = Some sz' ∧ 0 < sz' ∧ dead_task s ≠ t_kernel_stack_base t ∧
    t_kernel_stack_base t ∉ l.*1.

Lemma reap_run s live l1 d t l2 prev sz sz' :
  store_ok (tk_store s) live → run_queue s (l1 ++ (d, t) :: l2) → d = dead_task s →
  d ≠ prev → d ≠ current_task s → live !! d = Some sz → live !! t_kernel_stack_base t = Some sz' →
  d ≠ t_kernel_stack_base t → t_kernel_stack_base t ∉ (l1 ++ l2).*1 →
  ∃ s', reap_dead_task prev s = Ret tt s' ∧ run_queue s' (l1 ++ l2) ∧
    store_ok (tk_store s') (delete d (delete (t_kernel_stack_base t) live)) ∧
    current_task s' = current_task s ∧ dead_task s' = 0 ∧
    s_objs s' !! d = None ∧
    (∀ x, x ≠ d → x ≠ t_kernel_stack_base t → x ∉ (l1 ++ l2).*1 → s_objs s' !! x = s_objs s !! x).
Proof.
  intros Hs Hq Hd Hprev Hcur Hl Hl' Hne Hnin. set (base := t_kernel_stack_base t) in *.
  destruct (run_queue_links _ _ _ _ _ Hq) as (Hnz & _).
  pose proof (run_queue_nodup _ _ Hq) as Hnd.
  assert (d ∉ (l1 ++ l2).*1) as Hdl.
  { rewrite <-Permutation_middle, fmap_cons in Hnd. by apply NoDup_cons in Hnd as [? _]. }
  destruct (dequeue_task_run s l1 d t l2 Hq) as (s1 & Hrun & Hq1 & Ho1 & Hc1 & Hd1 & (_ & Hkeep & Hok)).
  destruct (on_kfree s1 live base sz' (Hok _ Hs) Hl') as (h2 & Hrun2 & Hok2).
  set (s2 := with_store s1 _) in Hrun2.
  destruct (on_kfree s2 (delete base live) d sz Hok2) as (h3 & Hrun3 & Hok3).
  { by rewrite lookup_delete_ne. }
  set (s3 := with_store s2 _) in Hrun3.
  exists (Tasks (tk_store s3) (task_ptr s3) (current_task s3) 0). split.
  { unfold reap_dead_task. rewrite gets_bind, <-Hd, !(proj2 (Z.eqb_neq _ _)) by done. cbn [orb].
    rewrite (bind_ret _ _ _ _ _ Hrun), (bind_ret _ _ _ _ _ (on_load_task _ _ _ Ho1)). cbn [t_kernel_stack_base].
    rewrite (bind_ret _ _ _ _ _ Hrun2). by rewrite (bind_ret _ _ _ _ _ Hrun3). }
  split; [|split; [exact Hok3|split; [|split; [done|split]]]].
  - destruct Hq1 as [[? ?]|[Hring Htp]]; [by left|]. right. split; [|exact Htp].
    eapply ring_ext; [|exact Hring]. intros q Hq0. cbn.
    by rewrite !lookup_delete_ne by (intros <-; done).
  - cbn. rewrite Hc1. by destruct (Z.eqb_spec (current_task s) d).
  - apply lookup_delete_eq.
  - intros x Hx Hx' Hxl. cbn. rewrite !lookup_delete_ne by done. apply Hkeep. tauto.
Qed.

(** The payloads in use after [reap_dead_task] of the dead task [d], called for the
    task [c]: the structure and the stack of the dead task are given back, and no
    other. *)
Definition reaped (d c : Z) l live live' : Prop :=
  if (d =? 0) || (d =? c) then live' = live
  else ∃ t, (d, t) ∈ l ∧ live' = delete d (delete (t_kernel_stack_base t) live).

(** Reaping, whether there is a dead task or not. *)
Lemma reap_any s live l prev :
  store_ok (tk_store s) live → run_queue s l → dead_ok s live l →
  dead_task s = 0 ∨ dead_task s ≠ current_task s ∨ dead_task s = prev →
  let gone := negb ((dead_task s =? 0) || (dead_task s =? prev)) in
  let l' := if gone then without (dead_task s) l else l in
  ∃ s' live', reap_dead_task prev s = Ret tt s' ∧ run_queue s' l' ∧
    store_ok (tk_store s') live' ∧ dead_ok s' live' l' ∧ current_task s' = current_task s ∧
    dead_task s' = (if gone then 0 else dead_task s) ∧ reaped (dead_task s) prev l live live' ∧
    (∀ x, x ∈ l'.*1 ∨ live !! x = None → live' !! x = live !! x) ∧
    (∀ x, live !! x = None ∨ static x → x ∉ l.*1 → s_objs s' !! x = s_objs s !! x) ∧
    (gone = true → live' !! dead_task s = None).
Proof.
  intros Hs Hq Hdead Hcur gone l'.
  destruct (decide (dead_task s = 0 ∨ dead_task s = prev)) as [Hd|Hd].
  { assert (gone = false) as Hg.
    { unfold gone. by destruct Hd as [->| ->]; rewrite ?Z.eqb_refl, ?orb_true_r. }
    unfold l'. rewrite Hg. exists s, live. split; [by apply reap_nothing|].
    do 5 (split; [done|]). split; [|done]. unfold reaped.
    by destruct Hd as [->| ->]; rewrite ?Z.eqb_refl, ?orb_true_r. }
  apply Decidable.not_or in Hd as [Hd1 Hd2].
  assert (gone = true) as Hg by (unfold gone; by rewrite !(proj2 (Z.eqb_neq _ _))).
  destruct Hdead as [|(t & sz & sz' & Hin & Hl & _ & Hl' & Hpos & Hne & Hb)]; [done|].
  apply list_elem_of_split in Hin as (l1 & l2 & ->).
  pose proof (run_queue_nodup _ _ Hq) as Hnd. unfold l'. rewrite Hg, without_app by done.
  rewrite <-Permutation_middle, fmap_cons in Hnd, Hb. apply NoDup_cons in Hnd as [Hdl _].
  apply not_elem_of_cons in Hb as [_ Hb].
  destruct (reap_run s live l1 _ t l2 prev sz sz' Hs Hq) as (s' & Hrun & Hq' & Hok & Hc & Hd' & Ho & Hkeep);
    try done; [tauto|].
  assert (∀ x, x ≠ dead_task s → x ≠ t_kernel_stack_base t →
    delete (dead_task s) (delete (t_kernel_stack_base t) live) !! x = live !! x) as Hlive.
  { intros x ? ?. by rewrite !lookup_delete_ne. }
  eexists s', _. split; [exact Hrun|]. split; [done|]. split; [exact Hok|]. split; [by left|].
  split; [done|]. split; [done|]. split; [|split; [|split]].
  - unfold reaped. rewrite !(proj2 (Z.eqb_neq _ _)) by done. exists t. split; [|done]. apply elem_of_app. right. by left.
  - intros x Hx. destruct Hx as [Hx|Hx].
    + apply Hlive; intros ->; done.
    + apply Hlive; congruence.
  - intros x Hx Hxl. rewrite <-Permutation_middle, fmap_cons in Hxl. apply not_elem_of_cons in Hxl as [Hxd Hxl].
    pose proof (live_not_static _ _ _ _ Hs Hl' Hpos). apply Hkeep; [done | | done].
    destruct Hx; congruence.
  - intros _. apply lookup_delete_eq.
Qed.

(** The list without the dead task, when there is one other than [c]. *)
Definition remaining (d c : Z) l : list item := if (d =? 0) || (d =? c) then l else without d l.

Lemma remaining_split d c tc l1 l2 :
  remaining d c (l1 ++ (c, tc) :: l2) = remaining d c l1 ++ (c, tc) :: remaining d c l2.
Proof.
  unfold remaining. destruct ((d =? 0) || (d =? c)) eqn:E; [done|].
  apply orb_false_iff in E as [_ ?%Z.eqb_neq]. unfold without.
  rewrite filter_app, filter_cons_True; [done | simpl; congruence].
Qed.

Lemma remaining_in d c l p : p ∈ l.*1 → p ≠ d → p ∈ (remaining d c l).*1.
Proof.
  intros ([q t] & -> & Hin)%list_elem_of_fmap Hne. unfold remaining. simpl in *.
  apply list_elem_of_fmap. exists (q, t). split; [done|]. case_match; [done|].
  unfold without. by apply list_elem_of_filter.
Qed.

(** With the current task last, the list is what [next_task] goes through. *)
Lemma run_queue_position s c tc l1 l2 :
  run_queue s (l1 ++ (c, tc) :: l2) → current_task s = c → queue_position s (l2 ++ l1 ++ [(c, tc)]).
Proof.
  intros Hq Hc. pose proof (run_queue_links _ _ _ _ _ Hq) as [Hnz _].
  destruct Hq as [[Hnil _]|[Hring Htp]]; [by destruct l1|].
  rewrite cons_middle, app_assoc in Hring. split; [by apply ring_rotate|].
  rewrite app_assoc, final_snoc. split; [by left|]. split; [by intros Hz; subst|].
  rewrite Htp. assert (final (l1 ++ (c, tc) :: l2) 0 ∈ (l1 ++ (c, tc) :: l2).*1) as Hin.
  { apply final_in. by destruct l1. }
  apply list_elem_of_fmap in Hin as ([q u] & -> & Hin). rewrite cons_middle, app_assoc in Hin. simpl.
  by eapply ring_lookup.
Qed.

Lemma pick_cases l : pick l = idle_task ∨ ∃ t, (pick l, t) ∈ l ∧ runnable (pick l, t) = true.
Proof.
  induction l as [|[q t] l IH]; [by left|]. cbn [pick]. destruct (runnable (q, t)) eqn:E.
  - right. exists t. split; [by left | done].
  - destruct IH as [?|(u & ? & ?)]; [by left | right]. exists u. split; [by right | done].
Qed.

Lemma dead_ok_upd s s' live l p f :
  (∀ t, t_kernel_stack_base (f t) = t_kernel_stack_base t) → dead_task s' = dead_task s →
  dead_ok s live l → dead_ok s' live (upd p f l).
Proof.
  intros Hf Hd Hok. unfold dead_ok. rewrite Hd.
  destruct Hok as [?|(t & sz & sz' & Hin & H1 & H2 & H3 & H4 & H5 & H6)]; [by left | right].
  exists (if decide (dead_task s = p) then f t else t), sz, sz'. rewrite upd_fst.
  assert (t_kernel_stack_base (if decide (dead_task s = p) then f t else t) = t_kernel_stack_base t) as ->
    by (case_decide; [apply Hf | done]).
  split; [|done]. apply list_elem_of_fmap. exists (dead_task s, t). split; [|done]. simpl. by case_decide.
Qed.

(** *** Rotations *)

Definition rot l r : Prop := ∃ l1 l2, l = l1 ++ l2 ∧ r = l2 ++ l1.

Lemma rot_trans l r m : rot l r → rot r m → rot l m.
Proof.
  intros (l1 & l2 & -> & ->) (r1 & r2 & E & ->).
  apply app_eq_app in E as (k & [[-> ->]|[-> ->]]).
  - exists (l1 ++ r1), k. by rewrite !app_assoc.
  - exists k, (r2 ++ l2). by rewrite !app_assoc.
Qed.

Lemma rot_upd p f l r : rot l r → rot (upd p f l) (upd p f r).
Proof. intros (l1 & l2 & -> & ->). exists (upd p f l1), (upd p f l2). by rewrite !upd_app. Qed.

Lemma reaped_perm d c l r live live' : l ≡ₚ r → reaped d c l live live' → reaped d c r live live'.
Proof. intros Hp. unfold reaped. case_match; [done|]. intros (t & Ht & E). exists t. by rewrite <-Hp. Qed.

Lemma rot_perm l r : rot l r → l ≡ₚ r.
Proof. intros (l1 & l2 & -> & ->). apply Permutation_app_comm. Qed.

(** The list with its last item in the middle. *)
Lemma rot_last l r x : rot l (r ++ [x]) → ∃ l1 l2, l = l1 ++ x :: l2 ∧ r = l2 ++ l1.
Proof.
  intros (l1 & l2 & -> & E). destruct l1 as [|y l1 _] using rev_ind.
  - rewrite app_nil_r in E. subst l2. exists r, []. by rewrite app_nil_l.
  - rewrite app_assoc in E. apply app_inj_tail in E as [-> ->]. exists l1, l2. by rewrite <-app_assoc.
Qed.

Lemma remaining_app d c l1 l2 : remaining d c (l1 ++ l2) = remaining d c l1 ++ remaining d c l2.
Proof. unfold remaining, without. destruct (_ || _); [done|]. apply filter_app. Qed.

Lemma remaining_snoc d c tc l : remaining d c (l ++ [(c, tc)]) = remaining d c l ++ [(c, tc)].
Proof. rewrite remaining_split. f_equal. unfold remaining. by destruct (_ || _). Qed.

Lemma remaining_sublist d c l : sublist (remaining d c l) l.
Proof. unfold remaining, without. case_match; [done | apply sublist_filter]. Qed.

(** A key determines where its item is. *)
Lemma split_unique (p : Z) (t u : task_t) a b a' b' :
  NoDup (a ++ (p, t) :: b).*1 → a ++ (p, t) :: b = a' ++ (p, u) :: b' → a = a' ∧ t = u ∧ b = b'.
Proof.
  revert a'. induction a as [|[q v] a IH]; intros a' Hnd E; destruct a' as [|[q' v'] a'].
  - by injection E as -> ->.
  - injection E as <- <- ->. exfalso. simpl in Hnd. apply NoDup_cons in Hnd as [Hp _]. apply Hp.
    simpl. rewrite fmap_app. apply elem_of_app. right. by left.
  - injection E as -> -> <-. exfalso. simpl in Hnd. apply NoDup_cons in Hnd as [Hp _]. apply Hp.
    simpl. rewrite fmap_app. apply elem_of_app. right. by left.
  - injection E as -> -> E. simpl in Hnd. apply NoDup_cons in Hnd as [_ Hnd].
    by destruct (IH a' Hnd E) as (-> & -> & ->).
Qed.

(** No task is picked before one that may run and comes earlier. *)
Lemma pick_before a p t b :
  runnable (p, t) = true → pick (a ++ (p, t) :: b) = p ∨
  ∃ a1 q u a2, a = a1 ++ (q, u) :: a2 ∧ pick (a ++ (p, t) :: b) = q.
Proof.
  intros Hp. induction a as [|[q u] a IH]; cbn [app pick]; [rewrite Hp; by left|].
  destruct (runnable (q, u)).
  - right. by exists [], q, u, a.
  - destruct IH as [?|(a1 & q' & u' & a2 & -> & ?)]; [by left | right]. by exists ((q, u) :: a1), q', u', a2.
Qed.

Lemma upd_other p f q t l1 l2 :
  q ≠ p → upd p f (l1 ++ (q, t) :: l2) = upd p f l1 ++ (q, t) :: upd p f l2.
Proof. intros Hne. rewrite upd_app. unfold upd. simpl. by rewrite (decide_False (P := q = p)). Qed.

Lemma remaining_other d c p t l1 l2 :
  p ≠ d → remaining d c (l1 ++ (p, t) :: l2) = remaining d c l1 ++ (p, t) :: remaining d c l2.
Proof.
  intros Hne. unfold remaining, without. destruct (_ || _); [done|].
  rewrite filter_app, filter_cons_True; [done | simpl; congruence].
Qed.

(** *** Properties *)

Definition fresh (t : task_t) : bool := (t_prev t =? 0) && (t_next t =? 0) && (t_state t =? TASK_NEW).

(** (functional): [enqueue_task] accepts exactly a new task with null links:
    it becomes the last of the run queue, runnable, and the current task if there
    is none; any other task is refused without effect.  No object but the tasks of
    the ring changes, nor does the heap. *)
Theorem enqueue_task_correct s l task t :
  run_queue s l → s_objs s !! task = Some (OTask t) → task ≠ 0 →
  if fresh t then
    ∃ s', enqueue_task task s = Ret 1 s' ∧
      run_queue s' (l ++ [(task, set_state (if current_task s =? 0 then TASK_RUNNING else TASK_READY) t)]) ∧
      current_task s' = (if current_task s =? 0 then task else current_task s) ∧
      dead_task s' = dead_task s ∧
      touches (tk_store s) (tk_store s') (λ x, x = task ∨ x ∈ l.*1)
  else enqueue_task task s = Ret 0 s.
Proof.
  intros Hq Ho Hnz. unfold fresh.
  destruct (Z.eqb_spec (t_prev t) 0) as [Hp|Hp]; [|by apply enqueue_task_refused; eauto].
  destruct (Z.eqb_spec (t_next t) 0) as [Hn|Hn]; [|by apply enqueue_task_refused; eauto 10].
  destruct (Z.eqb_spec (t_state t) TASK_NEW) as [Hst|Hst]; [|by apply enqueue_task_refused; eauto 10].
  assert (task ∉ l.*1) as Hnin.
  { intros ([? u] & -> & (l1 & l2 & ->)%list_elem_of_split)%list_elem_of_fmap. simpl in *.
    destruct (run_queue_links _ _ _ _ _ Hq) as (_ & m & n & ? & ? & Ho').
    rewrite Ho in Ho'. injection Ho' as ->. by simpl in Hp. }
  destruct (enqueue_task_run s l task t Hq Ho Hnin Hnz Hp Hn Hst) as (s' & ? & ? & _ & ? & ? & ?).
  cbn. eauto 10.
Qed.

(** C25 (functional): [dequeue_task] takes a task of the ring out of the run queue
    and clears its links, whichever task it is: the last one, the one [task_ptr]
    points to, or the current one.  The current task then is the one after it in
    the ring (null if it was alone), otherwise it stays.  A task outside the ring is
    refused without effect. *)
Theorem dequeue_task_correct s l task t :
  run_queue s l → s_objs s !! task = Some (OTask t) → task ∈ l.*1 ∨ t_prev t = 0 →
  if decide (task ∈ l.*1) then
    ∃ s' l1 u l2, l = l1 ++ (task, u) :: l2 ∧ without task l = l1 ++ l2 ∧
      dequeue_task task s = Ret 1 s' ∧ run_queue s' (without task l) ∧
      s_objs s' !! task = Some (OTask (set_next 0 (set_prev 0 t))) ∧
      current_task s' = (if current_task s =? task then first (l2 ++ l1) 0 else current_task s) ∧
      dead_task s' = dead_task s ∧
      touches (tk_store s) (tk_store s') (λ x, x ∈ l.*1)
  else dequeue_task task s = Ret 0 s.
Proof.
  intros Hq Ho Hwhy. destruct (decide (task ∈ l.*1)) as [Hin|Hnin].
  - clear Hwhy. pose proof (run_queue_nodup _ _ Hq) as Hnd. revert Hin.
    intros ([? u] & -> & (l1 & l2 & ->)%list_elem_of_split)%list_elem_of_fmap. simpl in *.
    destruct (run_queue_links _ _ _ _ _ Hq) as (_ & m & n & _ & _ & Ho').
    rewrite Ho in Ho'. injection Ho' as ->.
    destruct (dequeue_task_run s l1 _ u l2 Hq) as (s' & Hrun & Hq' & Ho'' & Hc & Hd & Ht).
    exists s', l1, u, l2. rewrite (without_app _ _ _ _ Hnd). do 7 (split; [done|]).
    eapply touches_weaken; [|exact Ht]. intros x Hx. rewrite <-Permutation_middle, fmap_cons.
    by apply elem_of_cons.
  - destruct Hwhy as [|Hp]; [done|]. apply dequeue_task_refused. eauto.
Qed.
End ring.

(** *** A ring of two tasks *)

Definition task_a : Z := 0xc0110100.
Definition task_b : Z := 0xc0110200.
Definition task_c : Z := 0xc0110300.
Definition ready_task (pid : Z) : task_t := set_state TASK_READY (Task pid 0 0 0 0 0 0 0 0 [] 0 0).

Definition sample_ring : gmap Z obj := list_to_map [
  (task_a, OTask (set_next task_b (set_prev task_b (ready_task 1))));
  (task_b, OTask (set_next task_a (set_prev task_a (ready_task 2))));
  (task_c, OTask (set_state TASK_NEW (ready_task 3)))].

Definition two_tasks : tasks heap := Tasks (Store sample_heap sample_ring) task_b task_a 0.

Definition ring_ab : list item := [(task_a, ready_task 1); (task_b, ready_task 2)].

Lemma two_tasks_queue : run_queue two_tasks ring_ab.
Proof.
  right. split; [|reflexivity]. split; [done|]. split; [decided|].
  split; [done|]. split; [done|]. eexists. split; [reflexivity|].
  split; [done|]. split; [done|]. eexists. split; [reflexivity|]. by split.
Qed.

#[local] Existing Instance sample_layout.

Lemma enqueue_task_correct_witness :
  ∃ s', enqueue_task task_c two_tasks = Ret 1 s' ∧ current_task s' = task_a ∧
    run_queue s' [(task_a, ready_task 1); (task_b, ready_task 2); (task_c, ready_task 3)].
Proof.
  destruct (enqueue_task_correct two_tasks _ task_c _ two_tasks_queue ltac:(reflexivity) ltac:(done))
    as (s' & Hrun & Hq & Hc & _).
  exists s'. split; [exact Hrun|]. split; [exact Hc | exact Hq].
Defined.

Lemma dequeue_task_correct_witness :
  ∃ s', dequeue_task task_a two_tasks = Ret 1 s' ∧ run_queue s' [(task_b, ready_task 2)] ∧ current_task s' = task_b.
Proof.
  assert (task_a ∈ ring_ab.*1) as Hin by (by left).
  pose proof (dequeue_task_correct two_tasks ring_ab task_a _ two_tasks_queue eq_refl (or_introl Hin)) as Hd.
  rewrite decide_True in Hd by exact Hin. destruct Hd as (s' & l1 & u & l2 & El & _ & Hrun & Hq & _ & Hc & _).
  exists s'. split; [exact Hrun|]. split; [exact Hq|].
  assert (l1 = [] ∧ l2 = [(task_b, ready_task 2)]) as [-> ->].
  { destruct l1 as [|x [|y l1]]; [by injection El as _ -> | discriminate El | destruct l1; discriminate El]. }
  exact Hc.
Defined.
