(* ===== verification/Switch.v ===== *)
(** * Switching tasks (src/kernel/sched.c)

    [schedule] leaves the current task by [switch_to]; what follows [switch_to] in
    the C code runs when the task is switched back to, and is the definition
    [after_switch]. *)

From S2P Require Import Prelude Layout Allocator Heap Ports Gdt Console Frames Paging Fs Objects Linked Mmap Kernel Sched.

(** ** Switching *)

Section switch_code.
Context {L : Layout} {H : Type} `{!Allocator H} {B D : Type}.

Definition tss_set_kernel_stack (esp : Z) : M (kernel H B D) unit := modify (set_esp0 esp).

(** The assembly of [switch_to] up to the exchange of stacks: four registers are
    pushed below the stack pointer [esp] of the call, which is kept in [prev];
    the new stack pointer is the one kept in [next]. *)
Definition switch_to (esp prev next : Z) : M (kernel H B D) Z :=
  in_store (update prev (set_kernel_esp (esp -ᵤ 16)));;
  t ← in_store (load (T := task_t) next);
  mret (t_kernel_esp t).

(** The result is the stack pointer of the task switched to, if there is a switch. *)
Definition context_switch (esp prev next : Z) : M (kernel H B D) (option Z) :=
  in_tasks (reap_dead_task prev);;
  if (prev =? 0) || (next =? 0) || (prev =? next) then mret None
  else
    in_tasks (set_current_task next);;
    in_store (update next (set_state TASK_RUNNING));;
    t ← in_store (load (T := task_t) next);
    tss_set_kernel_stack (t_kernel_stack_top t);;
    current_cr3 ← in_paging get_cr3;
    (if current_cr3 =? t_cr3 t then mret tt else in_paging (set_cr3 (t_cr3 t)));;
    esp ← switch_to esp prev next;
    mret (Some esp).

(** [task->state = TASK_RUNNING] after [context_switch] in [schedule] and
    [block_task], when the task runs again. *)
Definition after_switch (task : Z) : M (kernel H B D) unit :=
  in_store (update task (set_state TASK_RUNNING)).

Definition schedule (esp : Z) : M (kernel H B D) (option Z) :=
  current ← in_tasks get_current_task;
  if current =? 0 then mret None
  else
    in_tasks (reap_dead_task current);;
    next ← in_tasks next_task;
    if (next =? 0) || (next =? current) then mret None
    else
      in_store (update current (set_state TASK_READY));;
      r ← context_switch esp current next;
      match r with
      | Some esp => mret (Some esp)
      | None => after_switch current;; mret None
      end.

Definition block_task (esp task : Z) : M (kernel H B D) (option Z) :=
  if (task =? 0) || (task =? idle_task) then mret None
  else
    t ← in_store (load (T := task_t) task);
    if negb (t_state t =? TASK_READY) && negb (t_state t =? TASK_RUNNING) then mret None
    else
      in_store (update task (set_state TASK_BLOCKED));;
      current ← in_tasks get_current_task;
      if negb (task =? current) then mret None
      else
        next ← in_tasks next_task;
        if (next =? 0) || (next =? task) then fail SpinForever
        else
          r ← context_switch esp task next;
          match r with
          | Some esp => mret (Some esp)
          | None => after_switch task;; mret None
          end.

Definition init_scheduler `{!Bus D} : M (kernel H B D) Z :=
  print "Initializing scheduler ... ";;
  in_tasks (set_task_ptr 0);;
  in_tasks (set_current_task 0);;
  print_line "Done";;
  mret 1.

(** Five words are pushed on the idle task's stack: the entry point and four zeros. *)
Definition init_idle_task `{!Bus D} (idle_task_entry : Z) : M (kernel H B D) Z :=
  print "Initializing idle task ... ";;
  cr3 ← in_paging get_cr3;
  let top := idle_task_stack +ᵤ PROCESS_KERNEL_STACK_SIZE in
  let esp := top -ᵤ 20 in
  in_store (put idle_task_stack
    (<[top -ᵤ 4 := idle_task_entry]> (<[top -ᵤ 8 := 0]> (<[top -ᵤ 12 := 0]>
      (<[top -ᵤ 16 := 0]> (<[top -ᵤ 20 := 0]> (∅ : gmap Z Z)))))));;
  in_store (put idle_task (Task 0 0 TASK_READY 0 0 idle_task_stack top esp cr3
    (replicate PROCESS_FDS 0) idle_task idle_task));;
  in_tasks (set_task_ptr idle_task);;
  print_line "Done";;
  mret 1.
End switch_code.

(** ** Correctness *)

Section switch.
Context {L : Layout} {H : Type} `{!Allocator H} {B D : Type}.
Implicit Types (k : kernel H B D) (live : gmap Z Z) (l : list item).

Abbreviation k_objs k := (objs (tk_store (k_tasks k))).

Definition sched_ok k live l : Prop :=
  store_ok (tk_store (k_tasks k)) live ∧ run_queue (k_tasks k) l ∧ dead_ok (k_tasks k) live l.

(** The page directory of [t] in the register, the cache empty if it was not. *)
Definition load_cr3 (t : task_t) (p : paging) : paging :=
  if Z.land (cr3 p) PAGE_ADDRESS_MASK =? t_cr3 t then p
  else Paging (words p) (pd_in_use p) (pt_in_use p) (t_cr3 t) ∅.

Lemma load_cr3_run k t :
  (current_cr3 ← in_paging get_cr3;
   if current_cr3 =? t_cr3 t then mret tt else in_paging (set_cr3 (t_cr3 t))) k =
  Ret tt (set_paging (load_cr3 t (k_paging k)) k).
Proof.
  rewrite (bind_ret (in_paging get_cr3) _ k (Z.land (cr3 (k_paging k)) PAGE_ADDRESS_MASK) k).
  - unfold load_cr3. destruct (_ =? _); [by destruct k | done].
  - assert (get_cr3 (k_paging k) = Ret (Z.land (cr3 (k_paging k)) PAGE_ADDRESS_MASK) (k_paging k)) as Hg by done.
    rewrite (in_paging_ret _ k _ _ Hg). by destruct k.
Qed.

(** What [context_switch] leaves, when it switches. *)
Definition switched (esp prev next : Z) (tp tn : task_t) k : kernel H B D :=
  Kernel (Tasks (Store (st_heap (tk_store (k_tasks k)))
            (<[prev := OTask (set_kernel_esp (esp -ᵤ 16) tp)]>
               (<[next := OTask (set_state TASK_RUNNING tn)]> (k_objs k))))
            (task_ptr (k_tasks k)) next (dead_task (k_tasks k)))
    (k_frames k) (load_cr3 tn (k_paging k)) (k_fs k) (k_console k) (k_pid_count k)
    (set_tss_esp0 (t_kernel_stack_top tn) (k_tss k)) (k_eflags k) (k_user k).

Lemma context_switch_run esp prev next tp tn k :
  dead_task (k_tasks k) = 0 ∨ dead_task (k_tasks k) = prev →
  prev ≠ 0 → next ≠ 0 → prev ≠ next →
  k_objs k !! prev = Some (OTask tp) → k_objs k !! next = Some (OTask tn) →
  context_switch esp prev next k = Ret (Some (t_kernel_esp tn)) (switched esp prev next tp tn k).
Proof.
  intros Hd Hp Hn Hne Hop Hon. unfold context_switch.
  rewrite (bind_ret _ _ k tt k) by (rewrite (in_tasks_ret _ k _ _ (reap_nothing _ prev Hd)); by destruct k).
  rewrite !(proj2 (Z.eqb_neq _ _)) by done. cbn [orb].
  set (s1 := Tasks (tk_store (k_tasks k)) (task_ptr (k_tasks k)) next (dead_task (k_tasks k))).
  rewrite (bind_ret _ _ k tt (set_tasks s1 k)) by exact (in_tasks_ret (set_current_task next) k tt s1 eq_refl).
  set (k1 := set_tasks s1 k). rewrite (bind_ret _ _ _ _ _ (in_update_task k1 next tn _ Hon Hn)).
  set (k2 := insert_obj _ _ k1).
  assert (k_objs k2 !! next = Some (OTask (set_state TASK_RUNNING tn))) as Ho2 by apply lookup_insert_eq.
  rewrite (bind_ret _ _ _ _ _ (in_load_task k2 _ _ Ho2)).
  unfold tss_set_kernel_stack. rewrite modify_bind. set (k3 := set_esp0 _ k2).
  pose proof (load_cr3_run k3 (set_state TASK_RUNNING tn)) as Hcr3.
  apply bind_Ret_inv in Hcr3 as (v & k3' & Hg & Hcr3). rewrite (bind_ret _ _ _ _ _ Hg).
  rewrite (bind_ret _ _ _ _ _ Hcr3). set (k4 := set_paging _ k3).
  assert (k_objs k4 !! prev = Some (OTask tp)) as Ho4.
  { unfold k4, k3, k2, k1. cbn. by rewrite lookup_insert_ne. }
  set (k5 := insert_obj prev (OTask (set_kernel_esp (esp -ᵤ 16) tp)) k4).
  assert (k_objs k5 !! next = Some (OTask (set_state TASK_RUNNING tn))) as Ho5.
  { unfold k5. cbn. rewrite lookup_insert_ne by done. apply lookup_insert_eq. }
  assert (switch_to esp prev next k4 = Ret (t_kernel_esp tn) k5) as Hsw.
  { unfold switch_to. rewrite (bind_ret _ _ _ _ _ (in_update_task k4 _ _ (set_kernel_esp (esp -ᵤ 16)) Ho4 Hp)).
    by rewrite (bind_ret _ _ _ _ _ (in_load_task k5 _ _ Ho5)). }
  by rewrite (bind_ret _ _ _ _ _ Hsw).
Qed.

Lemma sched_ok_update k live l p t f :
  (∀ m n u, f (set_next n (set_prev m u)) = set_next n (set_prev m (f u))) →
  (∀ u, t_kernel_stack_base (f u) = t_kernel_stack_base u) →
  sched_ok k live l → k_objs k !! p = Some (OTask t) →
  sched_ok (set_tasks (set_objs (<[p := OTask (f t)]> (k_objs k)) (k_tasks k)) k) live (upd p f l).
Proof.
  intros Hf Hb (Hs & Hq & Hd) Hp. split; [|split].
  - eapply store_ok_update; [exact Hs | exact Hp | done].
  - by apply run_queue_update.
  - by eapply dead_ok_upd.
Qed.

Lemma sched_ok_ext k k' live l :
  tk_store (k_tasks k') = tk_store (k_tasks k) → task_ptr (k_tasks k') = task_ptr (k_tasks k) →
  dead_task (k_tasks k') = dead_task (k_tasks k) → sched_ok k live l → sched_ok k' live l.
Proof. unfold sched_ok, run_queue, dead_ok. by intros -> -> ->. Qed.

(** [schedule]'s three writes to the task left and the task entered. *)
Lemma sched_ok_switched esp k live l c next tc tn k2 :
  sched_ok k live l → c ≠ next → k_objs k !! c = Some (OTask tc) → k_objs k !! next = Some (OTask tn) →
  k2 = set_tasks (set_objs (<[c := OTask (set_state TASK_READY tc)]> (k_objs k)) (k_tasks k)) k →
  sched_ok (switched esp c next (set_state TASK_READY tc) tn k2) live
    (upd c (λ t, set_kernel_esp (esp -ᵤ 16) (set_state TASK_READY t)) (upd next (set_state TASK_RUNNING) l)).
Proof.
  intros Hok Hne Hc Hn ->.
  pose proof (sched_ok_update k live l next tn (set_state TASK_RUNNING) ltac:(done) ltac:(done) Hok Hn) as Hok1.
  set (k1 := set_tasks _ k) in Hok1.
  assert (k_objs k1 !! c = Some (OTask tc)) as Hc1 by (unfold k1; cbn; by rewrite lookup_insert_ne).
  pose proof (sched_ok_update k1 live _ c tc (λ t, set_kernel_esp (esp -ᵤ 16) (set_state TASK_READY t))
    ltac:(done) ltac:(done) Hok1 Hc1) as Hok2.
  eapply sched_ok_ext; [| | |exact Hok2]; [|done..]. cbn. f_equal.
  by rewrite (insert_insert_ne _ next c) by done; rewrite insert_insert_eq.
Qed.

Lemma load_cr3_value t p :
  Z.land (cr3 (load_cr3 t p)) PAGE_ADDRESS_MASK = Z.land (t_cr3 t) PAGE_ADDRESS_MASK.
Proof.
  unfold load_cr3. destruct (Z.eqb_spec (Z.land (cr3 p) PAGE_ADDRESS_MASK) (t_cr3 t)) as [<-|]; [|done].
  by rewrite <-Z.land_assoc, Z.land_diag.
Qed.

Lemma load_cr3_words t p : words (load_cr3 t p) = words p.
Proof. unfold load_cr3. by destruct (_ =? _). Qed.

Lemma idle_task_nonzero : idle_task ≠ 0.
Proof. pose proof idle_task_range as Hr. unfold in_kernel, KERNEL_VMA in Hr. lia. Qed.

(** The object of the task that [next_task] picks, once the dead task is gone. *)
Lemma picked_object k live l (s' : tasks H) c l' ti :
  sched_ok k live l → run_queue s' l' → k_objs k !! idle_task = Some (OTask ti) →
  (∀ x, live !! x = None ∨ static x → x ∉ l.*1 → objs (tk_store s') !! x = k_objs k !! x) →
  (∀ x, x ∈ l.*1 → x ≠ dead_task (k_tasks k) → x ∈ l'.*1) → (∀ x, x ∈ l' → x ∈ l) →
  pick c = idle_task ∨ (∃ t, (pick c, t) ∈ l') →
  ∃ tn tn', k_objs k !! pick c = Some (OTask tn) ∧ objs (tk_store s') !! pick c = Some (OTask tn') ∧
    pick c ≠ 0 ∧ ∃ m n, tn' = set_next n (set_prev m tn).
Proof.
  intros (Hs & Hq & Hdead) Hq' Hidle Hkeep Hin Hsub Hpick.
  assert (∀ p t, (p, t) ∈ l' → ∃ tn tn', k_objs k !! p = Some (OTask tn) ∧
    objs (tk_store s') !! p = Some (OTask tn') ∧ p ≠ 0 ∧ ∃ m n, tn' = set_next n (set_prev m tn)) as Hring.
  { intros p t Hp. pose proof (Hsub _ Hp) as (a1 & a2 & ->)%list_elem_of_split.
    destruct (run_queue_links _ _ _ _ _ Hq) as (Hnz & m & n & _ & _ & Ho).
    apply list_elem_of_split in Hp as (b1 & b2 & ->).
    destruct (run_queue_links _ _ _ _ _ Hq') as (_ & m' & n' & _ & _ & Ho').
    eexists _, _. split; [exact Ho|]. split; [exact Ho'|]. split; [done|]. by exists m', n'. }
  destruct Hpick as [->|(t & Ht)]; [|by apply (Hring _ t)].
  destruct (decide (idle_task ∈ l.*1)) as [Hidl|Hidl].
  - apply Hin in Hidl; [by apply list_elem_of_fmap in Hidl as ([? t] & -> & ?); eapply Hring|].
    intros Hd. destruct Hdead as [Hz|(t & sz & sz' & _ & Hl & Hpos & _)].
    + rewrite Hz in Hd. by apply idle_task_nonzero.
    + rewrite <-Hd in Hl. apply (live_not_static _ _ _ _ Hs Hl Hpos). by left.
  - exists ti, ti. split; [done|]. rewrite Hkeep; [|by right; left|done]. split; [done|].
    split; [apply idle_task_nonzero|]. exists (t_prev ti), (t_next ti). by destruct ti.
Qed.

Lemma schedule_run esp k live l1 c tc l2 ti :
  sched_ok k live (l1 ++ (c, tc) :: l2) → current_task (k_tasks k) = c →
  k_objs k !! idle_task = Some (OTask ti) →
  let left := remaining (dead_task (k_tasks k)) c in
  let next := pick (left l2 ++ left l1 ++ [(c, tc)]) in
  let saved := λ t, set_kernel_esp (esp -ᵤ 16) (set_state TASK_READY t) in
  ∃ k' live', reaped (dead_task (k_tasks k)) c (l1 ++ (c, tc) :: l2) live live' ∧
    dead_task (k_tasks k') = (if dead_task (k_tasks k) =? c then c else 0) ∧
    if next =? c then
      schedule esp k = Ret None k' ∧ k' = set_tasks (k_tasks k') k ∧ current_task (k_tasks k') = c ∧
      sched_ok k' live' (left l1 ++ (c, tc) :: left l2)
    else ∃ tn, k_objs k !! next = Some (OTask tn) ∧
      schedule esp k = Ret (Some (t_kernel_esp tn)) k' ∧ current_task (k_tasks k') = next ∧
      sched_ok k' live' (upd c saved (upd next (set_state TASK_RUNNING) (left l1 ++ (c, tc) :: left l2))) ∧
      k_esp0 k' = t_kernel_stack_top tn ∧
      Z.land (cr3 (k_paging k')) PAGE_ADDRESS_MASK = Z.land (t_cr3 tn) PAGE_ADDRESS_MASK ∧
      words (k_paging k') = words (k_paging k).
Proof.
  intros Hok Hc Hidle left next saved. pose proof Hok as (Hs & Hq & Hdead).
  pose proof (run_queue_links _ _ _ _ _ Hq) as [Hcnz _].
  destruct (reap_any (k_tasks k) live _ c Hs Hq Hdead) as (s' & live' & Hrun & Hq' & Hs' & Hdead' & Hc' & Hd' & Hsub & _ & Hkeep & _).
  { destruct (decide (dead_task (k_tasks k) = c)); [by right; right | right; left; congruence]. }
  set (l := l1 ++ (c, tc) :: l2) in *.
  assert ((if negb ((dead_task (k_tasks k) =? 0) || (dead_task (k_tasks k) =? c)) then without (dead_task (k_tasks k)) l else l)
    = left l1 ++ (c, tc) :: left l2) as El.
  { unfold left. rewrite <-remaining_split. fold l. unfold remaining. by destruct (_ || _). }
  rewrite El in Hq', Hdead'. set (l' := left l1 ++ (c, tc) :: left l2) in *.
  set (k1 := set_tasks s' k).
  assert (Hok1 : sched_ok k1 live' l') by (split; [exact Hs'|split; [exact Hq'|exact Hdead']]).
  assert (current_task s' = c) as Hc1 by congruence.
  pose proof (next_task_run s' _ (run_queue_position s' c tc _ _ Hq' Hc1)) as Hnext. fold next in Hnext.
  destruct (picked_object k live l s' (left l2 ++ left l1 ++ [(c, tc)]) l' ti Hok Hq' Hidle Hkeep)
    as (tn & tn' & Hon & Hon' & Hnz & m & n & ->).
  { intros x Hx Hne. unfold l', left. rewrite <-remaining_split. by apply remaining_in. }
  { intros x. unfold l', left. rewrite <-remaining_split. unfold remaining. destruct (_ || _); [done|].
    by intros [_ ?]%list_elem_of_filter. }
  { destruct (pick_cases (left l2 ++ left l1 ++ [(c, tc)])) as [?|(t & Ht & _)]; [by left | right].
    exists t. unfold l'. revert Ht. rewrite !elem_of_app, !elem_of_cons. pose proof (not_elem_of_nil (pick (left l2 ++ left l1 ++ [(c, tc)]), t)). tauto. }
  fold next in Hon, Hon', Hnz.
  assert (dead_task s' = if dead_task (k_tasks k) =? c then c else 0) as Hdead1.
  { rewrite Hd'. destruct (Z.eqb_spec (dead_task (k_tasks k)) 0), (Z.eqb_spec (dead_task (k_tasks k)) c); simpl; congruence. }
  unfold schedule. rewrite (bind_ret _ _ k c k) by (rewrite (in_tasks_ret get_current_task k c (k_tasks k));
    [by destruct k | by rewrite <-Hc]).
  rewrite (proj2 (Z.eqb_neq c 0)) by done.
  rewrite (bind_ret _ _ k tt k1) by exact (in_tasks_ret _ k _ _ Hrun).
  rewrite (bind_ret _ _ k1 next k1) by (rewrite (in_tasks_ret _ k1 _ _ Hnext); done).
  rewrite (proj2 (Z.eqb_neq next 0)) by done. cbn [orb].
  destruct (Z.eqb_spec next c) as [E|Hne].
  - exists k1, live'. by split_and!.
  - assert (∃ tc', k_objs k1 !! c = Some (OTask tc')) as (tc' & Hoc).
    { destruct (run_queue_links _ _ _ _ _ Hq') as (_ & ? & ? & _ & _ & ?). eauto. }
    rewrite (bind_ret _ _ _ _ _ (in_update_task k1 c tc' _ Hoc Hcnz)).
    set (k2 := insert_obj _ _ k1).
    set (tn' := set_next n (set_prev m tn)) in *.
    assert (Ho2c : k_objs k2 !! c = Some (OTask (set_state TASK_READY tc'))) by apply lookup_insert_eq.
    assert (Ho2n : k_objs k2 !! next = Some (OTask tn')).
    { unfold k2. cbn. rewrite lookup_insert_ne by done. exact Hon'. }
    assert (dead_task (k_tasks k2) = 0 ∨ dead_task (k_tasks k2) = c) as Hd2.
    { unfold k2. cbn. rewrite Hd'.
      destruct (Z.eqb_spec (dead_task (k_tasks k)) 0), (Z.eqb_spec (dead_task (k_tasks k)) c); simpl; auto. }
    pose proof (context_switch_run esp c next _ _ k2 Hd2 Hcnz Hnz ltac:(congruence) Ho2c Ho2n) as Hsw.
    rewrite (bind_ret _ _ _ _ _ Hsw). 
    exists (switched esp c next (set_state TASK_READY tc') tn' k2), live'. split; [done|]. split; [exact Hdead1|]. exists tn. split; [done|].
    split; [reflexivity|]. split; [done|]. split; [|split; [done|split; [|]]].
    + by eapply sched_ok_switched.
    + exact (load_cr3_value tn' _).
    + exact (load_cr3_words tn' _).
Qed.

(** The tasks in the order in which [next_task] will look at them: the current
    one is the last. *)
Definition in_turn k live (r : list item) : Prop :=
  ∃ l c tc r', sched_ok k live l ∧ rot l r ∧ r = r' ++ [(c, tc)] ∧ current_task (k_tasks k) = c.

Lemma in_turn_objects k live r p t :
  in_turn k live r → (p, t) ∈ r → ∃ m n, k_objs k !! p = Some (OTask (set_next n (set_prev m t))).
Proof.
  intros (l & c & tc & r' & (_ & Hq & _) & Hrot & _) Hin. rewrite <-(rot_perm _ _ Hrot) in Hin.
  apply list_elem_of_split in Hin as (l1 & l2 & ->).
  destruct (run_queue_links _ _ _ _ _ Hq) as (_ & m & n & _ & _ & Ho). eauto.
Qed.

Lemma in_turn_nodup k live r : in_turn k live r → NoDup r.*1.
Proof.
  intros (l & c & tc & r' & (_ & Hq & _) & Hrot & _). rewrite <-(rot_perm _ _ Hrot).
  by eapply run_queue_nodup.
Qed.

Lemma dead_not_idle k live l : sched_ok k live l → idle_task ≠ dead_task (k_tasks k).
Proof.
  intros (Hs & _ & [->|(t & sz & sz' & _ & Hl & Hpos & _)]); [apply idle_task_nonzero|].
  intros Hi. rewrite <-Hi in Hl. apply (live_not_static _ _ _ _ Hs Hl Hpos). by left.
Qed.

Lemma schedule_turn esp k live r :
  in_turn k live r → idle_task ∈ r.*1 →
  let c := current_task (k_tasks k) in
  let order := remaining (dead_task (k_tasks k)) c r in
  let next := pick order in
  let saved := λ t, set_kernel_esp (esp -ᵤ 16) (set_state TASK_READY t) in
  ∃ k' live' a tn b, reaped (dead_task (k_tasks k)) c r live live' ∧ dead_task (k_tasks k') = (if dead_task (k_tasks k) =? c then c else 0) ∧ order = a ++ (next, tn) :: b ∧ current_task (k_tasks k') = next ∧
    if next =? c then
      schedule esp k = Ret None k' ∧ k' = set_tasks (k_tasks k') k ∧ b = [] ∧ in_turn k' live' order
    else
      schedule esp k = Ret (Some (t_kernel_esp tn)) k' ∧
      in_turn k' live' (upd c saved (upd next (set_state TASK_RUNNING) (b ++ a ++ [(next, tn)]))) ∧
      k_esp0 k' = t_kernel_stack_top tn ∧
      Z.land (cr3 (k_paging k')) PAGE_ADDRESS_MASK = Z.land (t_cr3 tn) PAGE_ADDRESS_MASK ∧
      words (k_paging k') = words (k_paging k).
Proof.
  intros Hturn Hidle c order next saved. pose proof (in_turn_nodup _ _ _ Hturn) as Hnd.
  pose proof Hturn as (l & c' & tc & r' & Hok & Hrot & -> & Hc). fold c in Hc. subst c'.
  apply list_elem_of_fmap in Hidle as ([i ti] & Hi & Hidle). simpl in Hi. subst i.
  destruct (in_turn_objects _ _ _ _ _ Hturn Hidle) as (m & n & Hio).
  destruct (rot_last _ _ _ Hrot) as (l1 & l2 & -> & ->).
  destruct (schedule_run esp k live l1 c tc l2 _ Hok eq_refl Hio) as (k' & live' & Hsub & Hdead' & Hcase).
  assert (order = remaining (dead_task (k_tasks k)) c l2 ++ remaining (dead_task (k_tasks k)) c l1 ++ [(c, tc)]) as Eo.
  { unfold order. by rewrite remaining_snoc, remaining_app, app_assoc. }
  rewrite <-Eo in Hcase. fold next in Hcase.
  set (left := remaining (dead_task (k_tasks k)) c) in *.
  assert (NoDup order.*1) as Hndo by (eapply sublist_NoDup; [exact Hnd | apply fmap_sublist, remaining_sublist]).
  assert (∃ tn, (next, tn) ∈ order) as (tn & (a & b & Eab)%list_elem_of_split).
  { destruct (pick_cases order) as [Hpick|(t & Ht & _)]; [|by exists t].
    assert (next ∈ order.*1) as ([? t] & E & ?)%list_elem_of_fmap; [|simpl in E; subst; by exists t].
    unfold next. rewrite Hpick. apply remaining_in; [|by eapply dead_not_idle].
    apply list_elem_of_fmap. by exists (idle_task, ti). }
  exists k', live', a, tn, b. split; [eapply reaped_perm; [by apply rot_perm | exact Hsub]|]. split; [done|]. split; [done|].
  assert (rot (left l1 ++ (c, tc) :: left l2) order) as Hrot'.
  { exists (left l1 ++ [(c, tc)]), (left l2). by rewrite <-app_assoc, Eo. }
  destruct (Z.eqb_spec next c) as [E|Hne].
  - destruct Hcase as (Hrun & Hk & Hc & Hok'). split; [congruence|]. do 2 (split; [done|]). split.
    + rewrite E, Eo, app_assoc in Eab. rewrite Eo, app_assoc in Hndo.
      by destruct (split_unique _ _ _ _ _ _ _ Hndo Eab) as (_ & _ & <-).
    + exists (left l1 ++ (c, tc) :: left l2), c, tc, (left l2 ++ left l1). by rewrite <-app_assoc.
  - destruct Hcase as (tn' & Ho & Hrun & Hc & Hok' & Hesp & Hcr3 & Hw).
    assert (∃ m n, tn' = set_next n (set_prev m tn)) as (m' & n' & ->).
    { destruct (in_turn_objects _ _ _ next tn Hturn) as (m' & n' & Ho').
      - apply (elem_of_sublist order); [|apply remaining_sublist]. rewrite Eab.
        apply elem_of_app. right. by left.
      - exists m', n'. congruence. }
    split; [done|]. split; [exact Hrun|]. split; [|done].
    exists (upd c saved (upd next (set_state TASK_RUNNING) (left l1 ++ (c, tc) :: left l2))), next,
      (set_state TASK_RUNNING tn), (upd c saved (upd next (set_state TASK_RUNNING) (b ++ a))).
    split; [exact Hok'|]. split; [|split; [|done]].
    + apply rot_upd, rot_upd. eapply rot_trans; [exact Hrot'|]. rewrite Eab.
      exists (a ++ [(next, tn)]), b. by rewrite <-app_assoc.
    + rewrite app_assoc, !upd_app. f_equal.
      rewrite !upd_one. by rewrite (decide_False (P := next = c)), decide_True.
Qed.

(** [schedule] called again and again, by whichever task is current. *)
Fixpoint schedules (esps : list Z) k : option (kernel H B D) :=
  match esps with
  | [] => Some k
  | esp :: esps =>
      match schedule esp k with
      | Ret _ k' => schedules esps k'
      | Fault _ _ => None
      end
  end.

(** A task that may run comes nearer, or is chosen. *)
Lemma schedule_nearer esp k live a p t b :
  in_turn k live (a ++ (p, t) :: b) → idle_task ∈ (a ++ (p, t) :: b).*1 →
  runnable (p, t) = true → p ≠ dead_task (k_tasks k) → p ≠ current_task (k_tasks k) →
  ∃ v k' live' a' b', schedule esp k = Ret v k' ∧ p ≠ dead_task (k_tasks k') ∧
    (current_task (k_tasks k') = p ∨ (length a' < length a)%nat) ∧
    in_turn k' live' (a' ++ (p, if decide (current_task (k_tasks k') = p) then set_state TASK_RUNNING t else t) :: b') ∧
    idle_task ∈ (a' ++ (p, t) :: b').*1.
Proof.
  intros Hturn Hidle Hp Hpd Hpc. pose proof (in_turn_nodup _ _ _ Hturn) as Hnd.
  assert (p ≠ 0) as Hpnz.
  { destruct Hturn as (l & ? & ? & ? & (_ & Hq & _) & Hrot & _).
    assert ((p, t) ∈ l) as (l1 & l2 & ->)%list_elem_of_split.
    { rewrite (rot_perm _ _ Hrot). apply elem_of_app. right. by left. }
    by apply run_queue_links in Hq as [? _]. }
  pose proof (schedule_turn esp k live _ Hturn Hidle) as Hstep. cbv zeta in Hstep.
  set (c := current_task (k_tasks k)) in *. set (d := dead_task (k_tasks k)) in *.
  rewrite remaining_other in Hstep by done.
  destruct Hstep as (k' & live' & x & tn & y & _ & Hdead' & Eo & Hcur & Hcase).
  set (a1 := remaining d c a) in *. set (b1 := remaining d c b) in *.
  set (next := pick (a1 ++ (p, t) :: b1)) in *.
  assert (NoDup (a1 ++ (p, t) :: b1).*1) as Hnd1.
  { unfold a1, b1. rewrite <-remaining_other by done.
    eapply sublist_NoDup; [exact Hnd | apply fmap_sublist, remaining_sublist]. }
  assert (idle_task ∈ (a1 ++ (p, t) :: b1).*1) as Hidle1.
  { unfold a1, b1. rewrite <-remaining_other by done. apply remaining_in; [done|].
    destruct Hturn as (? & ? & ? & ? & Hok & _). by eapply dead_not_idle. }
  assert (p ≠ dead_task (k_tasks k')) as Hpd' by (rewrite Hdead'; by destruct (d =? c)).
  assert (length a1 ≤ length a)%nat as Hlen by (apply sublist_length, remaining_sublist).
  assert (∀ N a' t' b', N = upd c (λ t, set_kernel_esp (esp -ᵤ 16) (set_state TASK_READY t))
            (upd next (set_state TASK_RUNNING) (y ++ x ++ [(next, tn)])) → N = a' ++ (p, t') :: b' →
          idle_task ∈ (a' ++ (p, t) :: b').*1) as Hkeys.
  { intros N a' t' b' EN E. assert ((a' ++ (p, t) :: b').*1 = N.*1) as -> by (by rewrite E, !fmap_app).
    rewrite EN, !upd_fst. rewrite Eo in Hidle1. revert Hidle1. rewrite !fmap_app, !fmap_cons, !elem_of_app, !elem_of_cons. tauto. }
  destruct (decide (next = p)) as [E|Hne].
  - rewrite (proj2 (Z.eqb_neq next c)) in Hcase by congruence. destruct Hcase as (Hrun & Hturn' & _).
    rewrite E in Eo. destruct (split_unique _ _ _ _ _ _ _ Hnd1 Eo) as (<- & <- & <-).
    eexists _, k', live', _, []. split; [exact Hrun|]. split; [done|]. split; [left; congruence|].
    rewrite Hcur, decide_True by done.
    assert (upd c (λ t, set_kernel_esp (esp -ᵤ 16) (set_state TASK_READY t))
      (upd next (set_state TASK_RUNNING) (b1 ++ a1 ++ [(next, t)])) =
      upd c (λ t, set_kernel_esp (esp -ᵤ 16) (set_state TASK_READY t))
        (upd next (set_state TASK_RUNNING) (b1 ++ a1)) ++ [(p, set_state TASK_RUNNING t)]) as EN.
    { rewrite app_assoc, !(upd_app _ _ (b1 ++ a1)), upd_app, !upd_one, E.
      by rewrite (decide_False (P := p = c)), decide_True. }
    rewrite EN in Hturn'. split; [exact Hturn'|]. by eapply Hkeys; [|exact EN].
  - destruct (pick_before a1 p t b1 Hp) as [|(u1 & q & u & u2 & Ea & Hq)]; [done|]. fold next in Hq. subst q.
    rewrite Ea, <-app_assoc in Hnd1, Eo. cbn [app] in Hnd1, Eo.
    destruct (split_unique _ _ _ _ _ _ _ Hnd1 Eo) as (<- & <- & <-).
    destruct (next =? c).
    { destruct Hcase as (_ & _ & Hnil & _). by destruct u2. }
    destruct Hcase as (Hrun & Hturn' & _). rewrite <-app_assoc in Hturn', Hkeys. cbn [app] in Hturn', Hkeys.
    assert (∀ z, upd c (λ t, set_kernel_esp (esp -ᵤ 16) (set_state TASK_READY t))
      (upd next (set_state TASK_RUNNING) (u2 ++ (p, t) :: z)) =
      upd c (λ t, set_kernel_esp (esp -ᵤ 16) (set_state TASK_READY t)) (upd next (set_state TASK_RUNNING) u2) ++
      (p, t) :: upd c (λ t, set_kernel_esp (esp -ᵤ 16) (set_state TASK_READY t)) (upd next (set_state TASK_RUNNING) z)) as EN.
    { intros z. by rewrite !upd_other by done. }
    rewrite EN in Hturn'. eexists _, k', live', _, _. split; [exact Hrun|]. split; [done|].
    rewrite Hcur, decide_False by done. split; [right|split; [exact Hturn' | by eapply Hkeys; [|apply EN]]].
    unfold upd. rewrite !length_fmap. rewrite Ea, length_app in Hlen. simpl in Hlen. lia.
Qed.

Lemma runs_eventually n k live a p t b esps :
  length a = n → in_turn k live (a ++ (p, t) :: b) → idle_task ∈ (a ++ (p, t) :: b).*1 →
  runnable (p, t) = true → p ≠ dead_task (k_tasks k) → (n < length esps)%nat →
  ∃ m k', (m ≤ S n)%nat ∧ schedules (take m esps) k = Some k' ∧ current_task (k_tasks k') = p.
Proof.
  revert k live a b t esps. induction n as [n IH] using lt_wf_ind.
  intros k live a b t esps Hn Hturn Hidle Hp Hpd Hesps.
  destruct (decide (p = current_task (k_tasks k))) as [E|Hpc].
  { exists O, k. split; [lia | done]. }
  destruct esps as [|esp esps]; [simpl in Hesps; lia|].
  destruct (schedule_nearer esp k live a p t b Hturn Hidle Hp Hpd Hpc)
    as (v & k' & live' & a' & b' & Hrun & Hpd' & Hnear & Hturn' & Hidle').
  destruct (decide (current_task (k_tasks k') = p)) as [E|Hne].
  { exists 1%nat, k'. split; [lia|]. simpl. rewrite Hrun. by destruct esps. }
  destruct Hnear as [|Hlt]; [done|].
  destruct (IH (length a') ltac:(lia) k' live' a' b' t esps eq_refl Hturn' Hidle' Hp Hpd') as (m & k'' & ? & Hm & ?).
  { simpl in Hesps. lia. }
  exists (S m), k''. split; [lia|]. simpl. by rewrite Hrun.
Qed.

(** C6 (refinement): One call of [schedule] turns the ring.  A dead task other
    than the current one is taken out, and its structure and its kernel stack are
    given back to the heap, and nothing else is.  The task chosen is the first one
    after the current task that may run, the idle task if there is none.  If it is
    the current task nothing else changes; otherwise the current task is left ready
    with its stack pointer saved, the chosen one is current and running on the
    stack pointer saved for it, the processor uses its kernel stack and its page
    directory, and the ring now ends with it. *)
Theorem schedule_correct esp k live r :
  in_turn k live r → idle_task ∈ r.*1 →
  let c := current_task (k_tasks k) in
  let order := remaining (dead_task (k_tasks k)) c r in
  let next := pick order in
  let saved := λ t, set_kernel_esp (esp -ᵤ 16) (set_state TASK_READY t) in
  ∃ k' live' a tn b, reaped (dead_task (k_tasks k)) c r live live' ∧
    dead_task (k_tasks k') = (if dead_task (k_tasks k) =? c then c else 0) ∧
    order = a ++ (next, tn) :: b ∧ current_task (k_tasks k') = next ∧
    if next =? c then
      schedule esp k = Ret None k' ∧ k' = set_tasks (k_tasks k') k ∧ b = [] ∧ in_turn k' live' order
    else
      schedule esp k = Ret (Some (t_kernel_esp tn)) k' ∧
      in_turn k' live' (upd c saved (upd next (set_state TASK_RUNNING) (b ++ a ++ [(next, tn)]))) ∧
      k_esp0 k' = t_kernel_stack_top tn ∧
      Z.land (cr3 (k_paging k')) PAGE_ADDRESS_MASK = Z.land (t_cr3 tn) PAGE_ADDRESS_MASK ∧
      words (k_paging k') = words (k_paging k).
Proof. apply schedule_turn. Qed.

(** C22 (liveness): No task that may run is passed over for ever: whatever
    is current at each call, a task of the ring that is ready or running, and that is
    neither the idle task nor the dead task, is the current one after at most as many
    calls of [schedule] as the ring has tasks. *)
Theorem schedule_fair k live r p t esps :
  in_turn k live r → idle_task ∈ r.*1 → (p, t) ∈ r → runnable (p, t) = true →
  p ≠ dead_task (k_tasks k) → (length r ≤ length esps)%nat →
  ∃ n k', (n ≤ length r)%nat ∧ schedules (take n esps) k = Some k' ∧ current_task (k_tasks k') = p.
Proof.
  intros Hturn Hidle (a & b & ->)%list_elem_of_split Hp Hpd Hlen. rewrite length_app in *. simpl in *.
  destruct (runs_eventually (length a) k live a p t b esps eq_refl Hturn Hidle Hp Hpd)
    as (n & k' & ? & ? & ?); [lia|].
  exists n, k'. split; [lia | done].
Qed.
End switch.

(** ** A kernel with the idle task and a ready task *)

#[local] Existing Instance sample_layout.

Definition waiting : task_t := Task 1 0 TASK_READY 0 0 0 0xc0150000 0xc014ff00 0x121000 [] 0 0.
Definition idling : task_t := Task 0 0 TASK_RUNNING 0 0 0 0xc0172000 0xc0171f00 0x120000 [] 0 0.

Definition sample_kernel : kernel heap () () :=
  Kernel (Tasks (Store sample_heap (list_to_map [
      (the_task, task_node waiting idle_task idle_task);
      (idle_task, task_node idling the_task the_task)])) idle_task idle_task 0)
    [] (Paging ∅ [] [] 0x120000 ∅) (Fs [] ()) (Console 0 0 [], ()) 0 zero_tss 0 ∅.

Definition sample_order : list item := [(the_task, waiting); (idle_task, idling)].

Lemma sample_in_turn : in_turn sample_kernel (live sample_segs) sample_order.
Proof.
  exists sample_order, idle_task, idling, [(the_task, waiting)]. split; [|split; [|done]].
  - split; [|split; [|by left]].
    + split; [by exists sample_segs; split; [apply sample_heap_inv|]|]. split; [done|].
      intros p o Hp Hns. simpl in Hp. apply lookup_insert_Some in Hp as [[<- <-]|[_ Hp]].
      * eexists. split; [vm_compute; reflexivity | vm_compute; discriminate].
      * apply lookup_insert_Some in Hp as [[<- <-]|[_ Hp]]; [|done]. destruct Hns. by left.
    + right. split; [|reflexivity]. split; [done|]. split; [decided|].
      split; [done|]. split; [done|]. eexists. split; [reflexivity|].
      split; [done|]. split; [done|]. eexists. split; [reflexivity|]. by split.
  - by exists [], sample_order.
Qed.

(** With a task that has exited, whose structure and stack are to be given back. *)
Definition gone_stack : Z := 0xc01100c8.
Definition gone_task : Z := 0xc01100dc.
Definition gone : task_t := Task 2 0 TASK_ZOMBIE 0 0 gone_stack 0xc0152000 0 0 [] 0 0.

Definition dead_segs : list seg := [(176, false); (8, false); (176, false); (65128, true)].
Definition dead_heap : heap := Heap (list_to_map [
  (0xc0110000, HB 176 false 0xc01100bc); (0xc01100bc, HB 8 false 0xc01100d0);
  (0xc01100d0, HB 176 false 0xc011018c); (0xc011018c, HB 65128 true 0)]) 0xc0110000.

Definition dead_kernel : kernel heap () () :=
  Kernel (Tasks (Store dead_heap (list_to_map [
      (gone_task, task_node gone idle_task the_task);
      (the_task, task_node waiting gone_task idle_task);
      (idle_task, task_node idling the_task gone_task)])) idle_task idle_task gone_task)
    [] (Paging ∅ [] [] 0x120000 ∅) (Fs [] ()) (Console 0 0 [], ()) 0 zero_tss 0 ∅.

Definition dead_order : list item := (gone_task, gone) :: sample_order.

Lemma dead_in_turn : in_turn dead_kernel (live dead_segs) dead_order.
Proof.
  exists dead_order, idle_task, idling, [(gone_task, gone); (the_task, waiting)]. split; [|split; [|done]].
  - split; [|split].
    + split; [exists dead_segs; split; [|done]|].
      { constructor; try reflexivity; [|by repeat constructor].
        split; [|split; [|split; [|split; [|done]]]]; vm_compute; reflexivity. }
      split; [done|]. intros p o Hp Hns. simpl in Hp.
      repeat (apply lookup_insert_Some in Hp as [[<- <-]|[_ Hp]];
        [solve [eexists; split; [vm_compute; reflexivity | vm_compute; discriminate] | destruct Hns; by left]|]). done.
    + right. split; [|reflexivity]. split; [done|]. split; [decided|].
      split; [done|]. split; [done|]. eexists. split; [reflexivity|].
      split; [done|]. split; [done|]. eexists. split; [reflexivity|].
      split; [done|]. split; [done|]. eexists. split; [reflexivity|]. by split.
    + right. exists gone, 176, 8. split; [by left|]. split; [vm_compute; reflexivity|]. split; [done|].
      split; [vm_compute; reflexivity|]. split; [done|]. split; [done|].
      decided.
  - by exists [], dead_order.
Qed.

Lemma sample_order_first a tn b : sample_order = a ++ (the_task, tn) :: b → tn = waiting.
Proof.
  intros Eo. destruct a as [|x a]; [by injection Eo|]. injection Eo as _ Eo. destruct a as [|y a]; [done|].
  injection Eo as _ Eo. by destruct a.
Qed.

Lemma schedule_correct_witness :
  ∃ k' live', schedule 0xc0171f80 dead_kernel = Ret (Some 0xc014ff00) k' ∧
    current_task (k_tasks k') = the_task ∧ k_esp0 k' = 0xc0150000 ∧
    Z.land (cr3 (k_paging k')) PAGE_ADDRESS_MASK = 0x121000 ∧
    store_ok (tk_store (k_tasks k')) live' ∧ live' !! gone_task = None ∧ live' !! gone_stack = None ∧ live' !! the_task = Some 176.
Proof.
  assert (idle_task ∈ dead_order.*1) as Hidle by (right; right; by left).
  pose proof (schedule_correct 0xc0171f80 dead_kernel _ _ dead_in_turn Hidle) as Hs.
  assert (remaining (dead_task (k_tasks dead_kernel)) (current_task (k_tasks dead_kernel)) dead_order
    = sample_order) as E by reflexivity.
  cbv zeta in Hs. rewrite E in Hs.
  destruct Hs as (k' & live' & a & tn & b & Hreap & _ & Eo & Hc & Hrun & Hturn & Hesp & Hcr3 & _).
  change (pick sample_order) with the_task in Eo, Hc.
  apply sample_order_first in Eo as ->.
  exists k', live'. split; [exact Hrun|]. split; [exact Hc|]. split; [exact Hesp|]. split; [exact Hcr3|].
  split; [destruct Hturn as (l' & c' & t' & r' & [Hok _] & _); exact Hok|]. clear Hrun Hturn Hesp Hcr3 Hc.
  change (∃ t, (gone_task, t) ∈ dead_order ∧ live' = delete gone_task (delete (t_kernel_stack_base t) (live dead_segs))) in Hreap.
  destruct Hreap as (t & Ht & ->). assert (t_kernel_stack_base t = gone_stack) as ->.
  { unfold dead_order, sample_order in Ht. rewrite !elem_of_cons in Ht.
    destruct Ht as [[= ->]|[Ht|[Ht|Ht%not_elem_of_nil]]]; [reflexivity | discriminate Ht | discriminate Ht | done]. }
  split; [apply lookup_delete_eq|]. split; [vm_compute; reflexivity|].
  vm_compute. reflexivity.
Defined.

Lemma schedule_fair_witness :
  ∃ n k', (n ≤ 2)%nat ∧ schedules (take n [0xc0171f80; 0xc0171f80]) sample_kernel = Some k' ∧
    current_task (k_tasks k') = the_task.
Proof.
  assert (idle_task ∈ sample_order.*1) as Hidle by (right; by left).
  assert ((the_task, waiting) ∈ sample_order) as Hin by (by left).
  exact (schedule_fair sample_kernel _ sample_order the_task waiting [0xc0171f80; 0xc0171f80]
    sample_in_turn Hidle Hin eq_refl ltac:(done) ltac:(simpl; lia)).
Defined.
