(* ===== verification/Process.v ===== *)
(** * Processes (src/kernel/process.c, [exit_task] of src/kernel/sched.c)

    The life of an address space and of the task that owns it. *)

From S2P Require Import Prelude Layout Allocator Heap Ports Gdt Console BlockDevice Frames Paging Paths Fs Objects Linked Mmap Kernel Space Files Sched Switch.

(** ** The code *)

Section code.
Context {L : Layout} {H : Type} `{!Allocator H} {B : Type} {D : Type}.
Abbreviation K := (M (kernel H B D)).

Definition alloc_pid : K Z :=
  modify (λ k, set_pid_count (k_pid_count k +ᵤ 1) k);;
  gets k_pid_count.

Definition copy_kernel_mappings (dst_pgd src_pgd : Z) : M paging unit :=
  for_range 0 PAGE_DIRECTORY_ENTRIES (λ i,
    pde ← load_word (src_pgd +ᵤ 4 * i);
    if negb (Z.land pde PAGE_FLAG_PRESENT =? 0) && (Z.land pde PAGE_FLAG_USER =? 0)
    then store_word (dst_pgd +ᵤ 4 * i) pde
    else mret tt).

Definition create_task_mm (mm : Z) : K Z :=
  pgd ← in_paging alloc_pd;
  if pgd =? 0 then mret 0
  else
    cr3 ← in_paging get_cr3;
    let current_pgd := get_pd_vma cr3 in
    in_paging (copy_kernel_mappings pgd current_pgd);;
    in_store (put mm (Mm pgd 0));;
    mret 1.

Fixpoint vma_file_seen (fuel : nat) (iter stop file : Z) : M (store H) bool :=
  match fuel with
  | O => fail NoFuel
  | S fuel =>
      if iter =? stop then mret false
      else
        v ← load (T := vm_area_t) iter;
        if vm_file v =? file then mret true else vma_file_seen fuel (vm_next v) stop file
  end.

(** The first loop of [release_mm]: each file of the areas is closed once. *)
Fixpoint close_files (fuel : nat) (head vma : Z) : K unit :=
  match fuel with
  | O => fail NoFuel
  | S fuel =>
      if vma =? 0 then mret tt
      else
        v ← in_store (load (T := vm_area_t) vma);
        let file := vm_file v in
        seen ← (if file =? 0 then mret true
                else in_store (fuel ← gets list_fuel; vma_file_seen fuel head vma file));
        (if (seen : bool) then mret tt else vfs_close file;; in_store (kfree file));;
        close_files fuel head (vm_next v)
  end.

Fixpoint free_vmas (fuel : nat) (vma : Z) : M (store H) unit :=
  match fuel with
  | O => fail NoFuel
  | S fuel =>
      if vma =? 0 then mret tt
      else
        v ← load (T := vm_area_t) vma;
        let next := vm_next v in
        kfree vma;;
        free_vmas fuel next
  end.

(** The frames of one page table. *)
Definition free_table_frames (page_table : Z) : K unit :=
  for_range 0 PAGE_TABLE_ENTRIES (λ pte_index,
    pte ← in_paging (load_word (page_table +ᵤ 4 * pte_index));
    if Z.land pte PAGE_FLAG_PRESENT =? 0 then mret tt
    else in_frames (free_phys_frame (Z.land pte PAGE_ADDRESS_MASK));; mret tt).

Definition free_tables (pgd : Z) : K unit :=
  for_range 0 PAGE_DIRECTORY_ENTRIES (λ pde_index,
    pde ← in_paging (load_word (pgd +ᵤ 4 * pde_index));
    if (Z.land pde PAGE_FLAG_PRESENT =? 0) || (Z.land pde PAGE_FLAG_USER =? 0) then mret tt
    else
      let page_table := get_pd_vma pde in
      free_table_frames page_table;;
      in_paging (free_pt page_table);;
      in_paging (store_word (pgd +ᵤ 4 * pde_index) 0)).

Definition release_mm (mm : Z) : K unit :=
  if mm =? 0 then mret tt
  else
    m ← in_store (load (T := mm_t) mm);
    fuel ← gets (λ k, list_fuel (tk_store (k_tasks k)));
    close_files fuel (mmap m) (mmap m);;
    m ← in_store (load (T := mm_t) mm);
    in_store (free_vmas fuel (mmap m));;
    (if pgd m =? 0 then mret tt
     else
       free_tables (pgd m);;
       in_paging (free_pd (pgd m));;
       mret tt);;
    in_store (kfree mm).

(** [irq_save] and [irq_restore] of interrupts.c: the interrupt flag is bit 9. *)
Definition irq_save : K Z :=
  flags ← gets k_eflags;
  modify (set_eflags (Z.land flags 0xfffffdff));;
  mret flags.
Definition irq_restore (flags : Z) : K unit := modify (set_eflags flags).

Definition switch_mm (task mm : Z) : K unit :=
  flags ← irq_save;
  in_store (update task (set_mm mm));;
  m ← in_store (load (T := mm_t) mm);
  in_store (update task (set_task_cr3 (get_pd_lma (pgd m))));;
  t ← in_store (load (T := task_t) task);
  in_paging (set_cr3 (t_cr3 t));;
  irq_restore flags.

Definition set_identity (pid parent : Z) t := Task pid parent TASK_NEW (t_exit_code t) (t_mm t)
  (t_kernel_stack_base t) (t_kernel_stack_top t) (t_kernel_esp t) (t_cr3 t) (t_file t) (t_prev t) (t_next t).

(** The address space of the new [task], whose stack is at [stack]. *)
Definition create_task_space (task stack : Z) : K Z :=
  mm ← in_store (kmalloc SIZEOF_MM);
  if mm =? 0 then
    in_store (kfree stack);;
    in_store (kfree task);;
    mret 0
  else
    ok ← create_task_mm mm;
    if ok =? 0 then
      in_store (kfree mm);;
      in_store (kfree stack);;
      in_store (kfree task);;
      mret 0
    else
      in_store (update task (set_mm mm));;
      m ← in_store (load (T := mm_t) mm);
      in_store (update task (set_task_cr3 (get_pd_lma (pgd m))));;
      mret task.

Definition create_task (parent : Z) : K Z :=
  task ← in_store (kmalloc SIZEOF_TASK);
  if task =? 0 then mret 0
  else
    in_store (put task zero_task);;
    pid ← alloc_pid;
    in_store (update task (set_identity pid parent));;
    stack ← in_store (kmalloc PROCESS_KERNEL_STACK_SIZE);
    if stack =? 0 then
      in_store (kfree task);;
      mret 0
    else
      in_store (update task (set_stack stack (stack +ᵤ PROCESS_KERNEL_STACK_SIZE)));;
      create_task_space task stack.

Definition destroy_task (task : Z) : K unit :=
  t ← in_store (load (T := task_t) task);
  release_mm (t_mm t);;
  in_store (update task (set_mm 0));;
  t ← in_store (load (T := task_t) task);
  (if t_kernel_stack_base t =? 0 then mret tt else in_store (kfree (t_kernel_stack_base t)));;
  in_store (kfree task).

(** [enter_user_task] is the address of that function. *)
Definition prepare_user_task_stack (enter_user_task task entry_point user_eflags user_esp : Z) : K Z :=
  t ← in_store (load (T := task_t) task);
  let top := t_kernel_stack_top t in
  let words := [GDT_USER_DATA_SELECTOR; user_esp; user_eflags; GDT_USER_CODE_SELECTOR; entry_point; 0; enter_user_task; 0; 0; 0; 0] in
  let stack := top -ᵤ 4 * Z.of_nat (length words) in
  in_store (put (t_kernel_stack_base t)
    (list_to_map (imap (λ n w, (top -ᵤ 4 * Z.of_nat (S n), w)) words) : gmap Z Z));;
  in_store (update task (set_kernel_esp stack));;
  mret 1.

Definition spin_forever {A} : K A := fail SpinForever.
End code.

Section exit_code.
Context {L : Layout} {H : Type} `{!Allocator H} {B : Type} {D : Type} `{!Bus D}.

(** The files of a task, from descriptor [fd] on. *)
Definition close_descriptors (task : Z) : M (kernel H B D) unit :=
  for_range 0 (Z.of_nat PROCESS_FDS) (λ fd,
    t ← in_store (load (T := task_t) task);
    file ← nth_or (t_file t) fd;
    if file =? 0 then mret tt
    else
      vfs_close file;;
      in_store (kfree file);;
      in_store (update task (λ t, set_files (<[Z.to_nat fd := 0]> (t_file t)) t))).

(** [esp] is the stack pointer of the call of [switch_to].  The result is the stack
    pointer that the processor goes on with: the call does not return. *)
Definition exit_task (esp exit_code : Z) : M (kernel H B D) Z :=
  modify (λ k, set_eflags (Z.land (k_eflags k) 0xfffffdff) k);;
  task ← in_tasks get_current_task;
  in_store (update task (set_exit_code exit_code));;
  in_store (update task (set_state TASK_ZOMBIE));;
  print "[Done] ";;
  t ← in_store (load (T := task_t) task);
  in_console (console_put_dec32 (t_pid t));;
  in_console (console_putc newline);;
  close_descriptors task;;
  idle ← in_store (load (T := task_t) idle_task);
  in_store (update task (set_task_cr3 (t_cr3 idle)));;
  in_paging (set_cr3 (t_cr3 idle));;
  t ← in_store (load (T := task_t) task);
  release_mm (t_mm t);;
  in_store (update task (set_mm 0));;
  in_tasks (set_dead_task task);;
  next ← in_tasks next_task;
  r ← context_switch esp task next;
  match r with
  | Some esp => mret esp
  | None => spin_forever
  end.
End exit_code.
