(* ===== verification/Release.v ===== *)
(** * Releasing an address space

    What [release_mm] of src/kernel/process.c does to the page tables, the frames
    and the heap. *)

From S2P Require Import Prelude Layout Allocator Heap Ports Gdt Console BlockDevice Frames Paging Paths Fs Objects Linked Mmap Kernel Space Files Fault Sched Switch Process.

Section tables.
Context {L : Layout} {H B D : Type}.
Implicit Types (s : kernel H B D) (p : paging) (f : frames).

(** [f'] is [f] without the frames of the entries that satisfy [P]. *)
Definition freed p (P : Z → Z → Z → Prop) f f' : Prop :=
  frames_ok f' ∧ ∀ n, f' !! n = Some true ↔
    f !! n = Some true ∧ ¬ ∃ i k m e, P i k m ∧ entry p i k m e ∧ frame_in e = frame_of n.

Lemma freed_more p (P P' : Z → Z → Z → Prop) f f' f'' :
  freed p P f f' → freed p P' f' f'' → freed p (λ i k m, P i k m ∨ P' i k m) f f''.
Proof.
  intros [_ H1] [Hok H2]. split; [done|]. intros n. rewrite H2, H1. split.
  - intros [[? Hn1] Hn2]. split; [done|]. intros (i & k & m & e & [HP|HP] & He); [apply Hn1 | apply Hn2]; eauto 10.
  - intros [? Hn]. split; [split; [done|]|]; intros (i & k & m & e & HP & He); apply Hn; eauto 10.
Qed.

Lemma freed_iff p p' (P P' : Z → Z → Z → Prop) f f' :
  (∀ i k m e, P i k m ∧ entry p i k m e ↔ P' i k m ∧ entry p' i k m e) → freed p P f f' → freed p' P' f f'.
Proof.
  intros HP [Hok Hf]. split; [done|]. intros n. rewrite Hf.
  assert ((∃ i k m e, P i k m ∧ entry p i k m e ∧ frame_in e = frame_of n) ↔
          (∃ i k m e, P' i k m ∧ entry p' i k m e ∧ frame_in e = frame_of n)) as ->; [|done].
  split; intros (i & k & m & e & H1 & H2 & H3); exists i, k, m, e; destruct (HP i k m e); tauto.
Qed.

Lemma freed_none p f : frames_ok f → freed p (λ _ _ _, False) f f.
Proof. intros Hf. split; [done|]. intros n. split; [|tauto]. intros ?. split; [done|]. by intros (?&?&?&?&[]&_). Qed.

Lemma free_frame_freed f n : frames_ok f → 1024 ≤ Z.of_nat n < 16384 →
  frames_ok (<[n := false]> f) ∧
  ∀ n', <[n := false]> f !! n' = Some true ↔ f !! n' = Some true ∧ n' ≠ n.
Proof.
  intros Hf Hn. split; [apply frames_ok_insert; [done | lia]|]. intros n'.
  destruct (decide (n' = n)) as [->|Hne].
  - split; [|tauto]. rewrite list_lookup_insert_eq; [done|]. pose proof (frames_length _ Hf).
    unfold PHYSICAL_FRAMES in *. lia.
  - rewrite list_lookup_insert_ne by done. tauto.
Qed.

Lemma free_table_frames_run s i kk j f :
  paging_ok (k_paging s) → frames_ok f → k_frames s = f → maps (k_paging s) i kk j →
  (∀ m e, entry (k_paging s) i kk m e → ∃ n, 1024 ≤ Z.of_nat n < 16384 ∧ frame_in e = frame_of n) →
  ∃ f', free_table_frames (pt_slot j) s = Ret tt (set_frames f' s) ∧
    freed (k_paging s) (λ i' k' _, i' = i ∧ k' = kk) f f'.
Proof.
  intros Hp Hf <- Hm Hb. set (p := k_paging s) in *. pose proof Hm as (_ & [Hj _] & _).
  destruct (for_range_inv (λ m s', ∃ f', s' = set_frames f' s ∧
      freed p (λ i' k0 m', i' = i ∧ k0 = kk ∧ m' < m) (k_frames s) f') 0 PAGE_TABLE_ENTRIES
    (λ pte_index, pte ← in_paging (load_word (pt_slot j +ᵤ 4 * pte_index));
      if Z.land pte PAGE_FLAG_PRESENT =? 0 then mret tt
      else in_frames (free_phys_frame (Z.land pte PAGE_ADDRESS_MASK));; mret tt) s)
    as (s' & Hrun & f' & -> & Hfr).
  - unfold PAGE_TABLE_ENTRIES. lia.
  - exists (k_frames s). split; [by destruct s|]. eapply (freed_iff p p (λ _ _ _, False)); [|by apply freed_none].
    intros i' k0 m e. split; [tauto|]. intros [(_ & _ & ?) (j' & _ & ? & _)]. lia.
  - intros m s1 Hmr (f1 & -> & Hf1). unfold PAGE_TABLE_ENTRIES in Hmr.
    assert (in_paging (load_word (pt_slot j +ᵤ 4 * m)) (set_frames f1 s) = Ret (pte p j m) (set_frames f1 s)) as Hl.
    { apply in_paging_read. by apply pte_word_run. }
    rewrite (bind_ret _ _ _ _ _ Hl).
    destruct (present (pte p j m)) eqn:Hpr; pose proof Hpr as Hpr'; unfold present in Hpr'.
    + apply negb_true_iff in Hpr' as ->.
      assert (entry p i kk m (pte p j m)) as He by (exists j; done).
      destruct (Hb _ _ He) as (n & Hn & En). pose proof Hf1 as [Hok1 _].
      change (Z.land (pte p j m) PAGE_ADDRESS_MASK) with (frame_in (pte p j m)). rewrite En.
      rewrite (bind_ret _ _ _ _ _ (in_frames_ret _ (set_frames f1 s) _ _ (free_phys_frame_run _ n Hok1 Hn))).
      eexists. split; [reflexivity|]. exists (<[n := false]> f1). split; [done|].
      destruct (free_frame_freed f1 n Hok1 Hn) as [Hok2 Hf2].
      eapply (freed_iff p p (λ i' k0 m', (i' = i ∧ k0 = kk ∧ m' < m) ∨ (i' = i ∧ k0 = kk ∧ m' = m))).
      { intros i' k0 m' e'. split; intros [HP ?]; (split; [|done]); lia. }
      eapply freed_more; [exact Hf1|]. split; [done|]. intros n'. rewrite Hf2.
      assert (n' ≠ n ↔ ¬ ∃ i' k0 m' e', (i' = i ∧ k0 = kk ∧ m' = m) ∧ entry p i' k0 m' e' ∧ frame_in e' = frame_of n')
        as ->; [|done].
      split.
      * intros Hne (? & ? & ? & e' & (-> & -> & ->) & (j' & Hm' & _ & He' & _) & E'). apply Hne.
        assert (j' = j) as ->.
        { destruct Hm as (_ & _ & _ & _ & _ & _ & V), Hm' as (_ & [? _] & _ & _ & _ & _ & V').
          unfold pt_slot, PAGE_SIZE in *. lia. }
        subst e'. rewrite En in E'. by apply frame_of_inj in E'.
      * intros Hno ->. apply Hno. by exists i, kk, m, (pte p j m).
    + apply negb_false_iff in Hpr' as ->. eexists. split; [reflexivity|]. exists f1. split; [done|].
      eapply freed_iff; [|exact Hf1]. intros i' k0 m' e'. split; intros [(-> & -> & ?) He']; (split; [|done]); [lia|].
      destruct (decide (m' = m)) as [->|]; [|lia]. exfalso.
      destruct He' as (j' & Hm' & _ & <- & Hpe). assert (j' = j) as ->; [|congruence].
      destruct Hm as (_ & _ & _ & _ & _ & _ & V), Hm' as (_ & [? _] & _ & _ & _ & _ & V').
      unfold pt_slot, PAGE_SIZE in *. lia.
  - exists f'. split; [exact Hrun|]. eapply freed_iff; [|exact Hfr].
    intros i' k0 m e. split; intros [HP He]; (split; [|done]); [tauto|].
    destruct He as (_ & _ & ? & _). unfold PAGE_TABLE_ENTRIES. tauto || lia.
Qed.

(** *** One page table dropped *)

(** The tables after the entry [kk] of directory [i], which referred to table [j],
    is cleared and the table freed. *)
Definition drop_table (i kk j : Z) p : paging :=
  set_pde i kk 0 (set_pt_in_use (<[Z.to_nat j := false]> (pt_in_use p)) p).

Lemma drop_table_pde i kk j p pgd k0 :
  0 ≤ i < 16 → 0 ≤ kk < 1024 → directory p pgd → 0 ≤ k0 < 1024 →
  pde (drop_table i kk j p) pgd k0 = if decide (pgd = pd_slot i ∧ k0 = kk) then 0 else pde p pgd k0.
Proof.
  intros Hi Hkk Hd Hk0. unfold drop_table. destruct Hd as [->|(i' & [Hi' _] & ->)].
  - rewrite pde_set_pde_boot by done. rewrite decide_False; [done|]. intros [E _]. layout. lia.
  - rewrite pde_set_pde by done. repeat case_decide; try done.
    + destruct H0 as [<- <-]. tauto.
    + destruct H1 as [E ->]. assert (i = i') by (unfold pd_slot, PAGE_SIZE in E; lia). tauto.
Qed.

Lemma drop_table_ok i kk j p :
  paging_ok p → maps p i kk j →
  paging_ok (drop_table i kk j p) ∧
  (∀ j', pt_live (drop_table i kk j p) j' ↔ pt_live p j' ∧ j ≠ j') ∧
  (∀ i' k0 j', maps (drop_table i kk j p) i' k0 j' ↔ maps p i' k0 j' ∧ ¬ (i' = i ∧ k0 = kk)) ∧
  ∀ i' k0 m e, entry (drop_table i kk j p) i' k0 m e ↔ entry p i' k0 m e ∧ ¬ (i' = i ∧ k0 = kk).
Proof.
  intros Hp Hm. pose proof Hm as ([Hi Hil] & [Hj _] & Hkk & Hnk & _).
  set (p1 := set_pde i kk 0 p).
  assert (paging_ok p1) as Hp1.
  { apply paging_ok_set_pde; [done | done | done | lia | by left]. }
  assert (∀ i' k0 j', maps p1 i' k0 j' ↔ maps p i' k0 j' ∧ ¬ (i' = i ∧ k0 = kk)) as Hmaps1.
  { intros i' k0 j'. unfold p1. rewrite maps_set_pde by done. split.
    - intros [(_ & _ & _ & _ & _ & Hpr & _)|[Hne Hm']]; [done|]. split; [done|]. intros [-> ->]. by apply Hne.
    - intros [Hm' Hne]. right. split; [|done]. intros [<- <-]. by apply Hne. }
  assert (∀ i' k0, ¬ maps p1 i' k0 j) as Hno.
  { intros i' k0 [Hm' Hne]%Hmaps1. apply Hne. by destruct (po_unique _ Hp _ _ _ _ _ Hm Hm'). }
  split; [exact (paging_ok_free_pt p1 j Hp1 Hj Hno)|].
  assert (∀ j', pt_live (drop_table i kk j p) j' ↔ pt_live p j' ∧ j ≠ j') as Hpt.
  { intros j'. unfold pt_live, drop_table. cbn. split.
    - intros [? Hl]. apply flags_cleared in Hl; [tauto | lia..].
    - intros [[? Hl] ?]. split; [done|]. apply flags_cleared; [lia..|tauto]. }
  assert (∀ i' k0 j', maps (drop_table i kk j p) i' k0 j' ↔ maps p i' k0 j' ∧ ¬ (i' = i ∧ k0 = kk)) as Hmaps.
  { intros i' k0 j'. rewrite <-Hmaps1. unfold maps. rewrite Hpt.
    change (pd_live (drop_table i kk j p)) with (pd_live p1). change (pt_live p) with (pt_live p1).
    change (pde (drop_table i kk j p)) with (pde p1). split; [tauto|].
    intros Hm'. pose proof Hm' as (? & ? & ?). assert (j ≠ j'); [|tauto]. intros <-. by destruct (Hno i' k0). }
  do 2 (split; [done|]). intros i' k0 m e. unfold entry. split.
  - intros (j' & [Hm' Hne]%Hmaps & Hr & He & Hpr). split; [|done]. exists j'. do 2 (split; [done|]). split; [|done].
    unfold pte, drop_table in He. rewrite word_set_pde in He; [exact He|done|done| |done].
    by destruct Hm' as (_ & [? _] & _).
  - intros [(j' & Hm' & Hr & He & Hpr) Hne]. exists j'. split; [by apply Hmaps|]. split; [done|]. split; [|done].
    unfold pte, drop_table. rewrite word_set_pde; [exact He|done|done| |done]. by destruct Hm' as (_ & [? _] & _).
Qed.

(** Entries [kk] and above are left. *)
Record dropping (i kk : Z) p f p' f' : Prop := {
  dp_mem : mem_ok p' f';
  dp_maps i' k0 j : maps p' i' k0 j ↔ maps p i' k0 j ∧ ¬ (i' = i ∧ k0 < kk);
  dp_pts j : pt_live p' j ↔ pt_live p j ∧ ¬ ∃ k0, maps p i k0 j ∧ k0 < kk;
  dp_entry i' k0 m e : entry p' i' k0 m e ↔ entry p i' k0 m e ∧ ¬ (i' = i ∧ k0 < kk);
  dp_freed : freed p (λ i' k0 _, i' = i ∧ k0 < kk) f f';
  dp_pde pgd k0 : directory p pgd → 0 ≤ k0 < 1024 → pgd ≠ pd_slot i ∨ kernel_pde k0 → pde p' pgd k0 = pde p pgd k0;
  dp_boot k0 : 0 ≤ k0 < 1024 → word p' (boot_page_table + 4 * k0) = word p (boot_page_table + 4 * k0);
  dp_pds : pd_in_use p' = pd_in_use p;
  dp_cr3 : cr3 p' = cr3 p;
  dp_tlb : tlb p' = tlb p;
}.

Lemma dropping_start i p f : mem_ok p f → dropping i 0 p f p f.
Proof.
  intros Hmem. pose proof (mo_frames _ _ Hmem) as Hf. constructor; try done.
  - intros i' k0 j. split; [|tauto]. intros Hm. split; [done|]. intros [_ ?]. destruct Hm as (_ & _ & ? & _). lia.
  - intros j. split; [|tauto]. intros Hj. split; [done|]. intros (k0 & (_ & _ & ? & _) & ?). lia.
  - intros i' k0 m e. split; [|tauto]. intros He. split; [done|]. intros [_ ?].
    destruct He as (j & (_ & _ & ? & _) & _). lia.
  - eapply (freed_iff p p (λ _ _ _, False)); [|by apply freed_none]. intros i' k0 m e. split; [tauto|].
    intros [[_ ?] (j & (_ & _ & ? & _) & _)]. lia.
Qed.

(** An entry that refers to no table of the process. *)
Lemma dropping_skip i kk p f p' f' :
  (∀ j, ¬ maps p' i kk j) → dropping i kk p f p' f' → dropping i (kk + 1) p f p' f'.
Proof.
  intros Hno [Hmem Hmp Hpt He Hf Hpde Hb Hpds Hc Ht].
  assert (∀ j, ¬ maps p i kk j) as Hno'.
  { intros j Hm. apply (Hno j), Hmp. split; [done | lia]. }
  assert (∀ m e, ¬ entry p i kk m e) as Hnone.
  { intros m e Hen. assert (entry p' i kk m e) as (j & Hm & _) by (apply He; split; [done | lia]). by apply (Hno j). }
  constructor; try done.
  - intros i' k0 j. rewrite Hmp. split; intros [Hm Hne]; (split; [done|]); intros [-> Hlt]; apply Hne; [|lia].
    split; [done|]. destruct (decide (k0 = kk)) as [->|]; [by destruct (Hno' j) | lia].
  - intros j. rewrite Hpt. split; intros [Hj Hne]; (split; [done|]); intros (k0 & Hm & Hlt); apply Hne; exists k0; (split; [done|]); [|lia].
    destruct (decide (k0 = kk)) as [->|]; [by destruct (Hno' j) | lia].
  - intros i' k0 m e. rewrite He. split; intros [Hen Hne]; (split; [done|]); intros [-> Hlt]; apply Hne; [|lia].
    split; [done|]. destruct (decide (k0 = kk)) as [->|]; [by destruct (Hnone m e) | lia].
  - eapply freed_iff; [|exact Hf]. intros i' k0 m e. split; intros [[-> Hlt] Hen]; (split; [|done]); [lia|].
    split; [done|]. destruct (decide (k0 = kk)) as [->|]; [by destruct (Hnone m e) | lia].
Qed.

Lemma dropping_table i kk j p f p' f' f'' :
  dropping i kk p f p' f' → pd_live p i → 0 ≤ kk < 1024 → maps p' i kk j →
  freed p' (λ i' k0 _, i' = i ∧ k0 = kk) f' f'' →
  dropping i (kk + 1) p f (drop_table i kk j p') f''.
Proof.
  intros [Hmem Hmp Hpt He Hf Hpde Hb Hpds Hc Ht] [Hi _] Hkk Hm Hfr. pose proof (mo_paging _ _ Hmem) as Hp'.
  destruct (drop_table_ok i kk j p' Hp' Hm) as (Hok & Hpt2 & Hmp2 & Hent). pose proof Hm as (_ & _ & _ & Hnk & _).
  assert (∀ pgd, directory p pgd → directory p' pgd) as Hdir.
  { intros pgd [->|(i' & Hi' & ->)]; [by left|]. right. exists i'. split; [|done]. unfold pd_live. by rewrite Hpds. }
  constructor.
  - pose proof Hfr as [Hfok Hfn]. constructor; [done|done| |].
    + intros i' k0 m e [Hen Hne]%Hent. destruct (mo_backed _ _ Hmem _ _ _ _ Hen) as (n & Hn & Hu & En).
      exists n. split; [done|]. split; [|done]. apply Hfn. split; [done|].
      intros (i2 & k2 & m2 & e2 & [-> ->] & Hen2 & En2). apply Hne.
      destruct (mo_unique _ _ Hmem _ _ _ _ _ _ _ _ Hen Hen2) as (? & ? & _); [congruence | done].
    + intros i1 k1 m1 e1 i2 k2 m2 e2 [H1 _]%Hent [H2 _]%Hent. by apply (mo_unique _ _ Hmem).
  - intros i' k0 j'. rewrite Hmp2, Hmp. split.
    + intros [[? Hn1] Hn2]. split; [done|]. intros [-> Hlt]. destruct (decide (k0 = kk)); [by apply Hn2|].
      apply Hn1. split; [done | lia].
    + intros [? Hn]. split; [split; [done|]|]; intros [-> ?]; apply Hn; split; (done || lia).
  - intros j'. rewrite Hpt2, Hpt. apply Hmp in Hm as [Hm _]. split.
    + intros [[? Hn1] Hn2]. split; [done|]. intros (k0 & Hm' & Hlt). destruct (decide (k0 = kk)) as [->|].
      * apply Hn2. destruct Hm as (_ & _ & _ & _ & _ & _ & V), Hm' as (_ & _ & _ & _ & _ & _ & V').
        unfold pt_slot, PAGE_SIZE in *. lia.
      * apply Hn1. exists k0. split; [done | lia].
    + intros [? Hn]. split; [split; [done|]|].
      * intros (k0 & ? & ?). apply Hn. exists k0. split; [done | lia].
      * intros <-. apply Hn. exists kk. split; [done | lia].
  - intros i' k0 m e. rewrite Hent, He. split.
    + intros [[? Hn1] Hn2]. split; [done|]. intros [-> Hlt]. destruct (decide (k0 = kk)); [by apply Hn2|].
      apply Hn1. split; [done | lia].
    + intros [? Hn]. split; [split; [done|]|]; intros [-> ?]; apply Hn; split; (done || lia).
  - eapply (freed_iff p p (λ i' k0 m, (i' = i ∧ k0 < kk) ∨ (i' = i ∧ k0 = kk))).
    { intros i' k0 m e. split; intros [HP ?]; (split; [|done]); lia. }
    apply (freed_more p (λ i' k0 m, i' = i ∧ k0 < kk) (λ i' k0 m, i' = i ∧ k0 = kk) f f' f''); [done|].
    eapply freed_iff; [|exact Hfr]. intros i' k0 m e. rewrite He. split; [tauto|].
    intros [[-> ->] ?]. split; [done|]. split; [done|]. lia.
  - intros pgd k0 Hd Hk0 Hor. rewrite drop_table_pde by auto. rewrite decide_False; [auto|].
    intros [-> ->]. by destruct Hor.
  - intros k0 Hk0. unfold drop_table. rewrite boot_table_set_pde by done. by apply Hb.
  - done.
  - done.
  - done.
Qed.

Lemma user_pde_maps p i kk :
  paging_ok p → pd_live p i → 0 ≤ kk < 1024 →
  (present (pde p (pd_slot i) kk) = true ∧ user (pde p (pd_slot i) kk) = true ∧
   ∃ j, maps p i kk j ∧ get_pd_vma (pde p (pd_slot i) kk) = pt_slot j) ∨
  ((present (pde p (pd_slot i) kk) = false ∨ user (pde p (pd_slot i) kk) = false) ∧ ∀ j, ¬ maps p i kk j).
Proof.
  intros Hp Hi Hkk. destruct (po_pde _ Hp i kk Hi Hkk) as [Hn|[[Hk Hv]|(j & Hm)]].
  - right. split; [by left|]. intros j (_ & _ & _ & _ & Hpr & _). congruence.
  - right. split; [|intros j (_ & _ & _ & Hnk & _); done]. right. rewrite Hv. unfold boot_pde.
    destruct ((kk =? 0) || (kk =? 768)); [|done].
    destruct (pt_slot_page 0 ltac:(lia)) as [_ _]. rewrite user_lor; [done|].
    layout. rewrite get_pd_lma_kernel by lia. Z.div_mod_to_equations. lia.
  - left. pose proof Hm as (_ & _ & _ & _ & ? & ? & ?). do 2 (split; [done|]). by exists j.
Qed.

Lemma free_tables_run s i :
  mem_ok (k_paging s) (k_frames s) → pd_live (k_paging s) i →
  ∃ p' f', free_tables (pd_slot i) s = Ret tt (set_frames f' (set_paging p' s)) ∧
    dropping i 1024 (k_paging s) (k_frames s) p' f'.
Proof.
  intros Hmem Hi. pose proof Hi as [Hir _].
  destruct (for_range_inv (λ kk s', ∃ p' f', s' = set_frames f' (set_paging p' s) ∧
      dropping i kk (k_paging s) (k_frames s) p' f') 0 PAGE_DIRECTORY_ENTRIES
    (λ pde_index, pde ← in_paging (load_word (pd_slot i +ᵤ 4 * pde_index));
      if (Z.land pde PAGE_FLAG_PRESENT =? 0) || (Z.land pde PAGE_FLAG_USER =? 0) then mret tt
      else
        let page_table := get_pd_vma pde in
        free_table_frames page_table;;
        in_paging (free_pt page_table);;
        in_paging (store_word (pd_slot i +ᵤ 4 * pde_index) 0)) s)
    as (s' & Hrun & p' & f' & -> & Hdrop).
  - unfold PAGE_DIRECTORY_ENTRIES. lia.
  - exists (k_paging s), (k_frames s). split; [by destruct s | by apply dropping_start].
  - intros kk s1 Hkk (p1 & f1 & -> & Hd1). unfold PAGE_DIRECTORY_ENTRIES in Hkk.
    pose proof (dp_mem _ _ _ _ _ _ Hd1) as Hmem1. pose proof (mo_paging _ _ Hmem1) as Hp1.
    assert (pd_live p1 i) as Hi1 by (unfold pd_live; by rewrite (dp_pds _ _ _ _ _ _ Hd1)).
    set (s1 := set_frames f1 (set_paging p1 s)).
    assert (in_paging (load_word (pd_slot i +ᵤ 4 * kk)) s1 = Ret (pde p1 (pd_slot i) kk) s1) as Hl.
    { apply in_paging_read. by apply pde_word_run. }
    rewrite (bind_ret _ _ _ _ _ Hl). fold (present (pde p1 (pd_slot i) kk)).
    destruct (user_pde_maps p1 i kk Hp1 Hi1 Hkk) as [(Hpr & Hus & j & Hm & Hvma)|[Hor Hno]].
    + unfold present, user in Hpr, Hus. apply negb_true_iff in Hpr as ->, Hus as ->. cbn [orb]. rewrite Hvma.
      destruct (free_table_frames_run s1 i kk j f1 Hp1 (mo_frames _ _ Hmem1) eq_refl Hm) as (f2 & Hft & Hfr).
      { intros m e He. destruct (mo_backed _ _ Hmem1 _ _ _ _ He) as (n & ? & _ & ?). by exists n. }
      cbv zeta. rewrite (bind_ret _ _ _ _ _ Hft). set (s2 := set_frames f2 s1).
      pose proof Hm as (_ & [Hj _] & _).
      rewrite (bind_ret _ _ _ _ _ (in_paging_ret _ s2 _ _ (free_pt_run p1 j Hp1 Hj))).
      set (s3 := set_paging _ s2).
      rewrite (in_paging_ret _ s3 _ _ (set_pde_run _ i kk 0 Hir Hkk)). eexists. split; [reflexivity|].
      exists (drop_table i kk j p1), f2. split; [done|]. by eapply dropping_table.
    + assert ((Z.land (pde p1 (pd_slot i) kk) PAGE_FLAG_PRESENT =? 0) || (Z.land (pde p1 (pd_slot i) kk) PAGE_FLAG_USER =? 0) = true)
        as ->.
      { unfold present, user in Hor. apply orb_true_iff.
        destruct Hor as [E|E]; apply negb_false_iff in E; [by left | by right]. }
      eexists. split; [reflexivity|]. exists p1, f1. split; [done|]. by apply dropping_skip.
  - by exists p', f'.
Qed.

(** What becomes of the page tables and the frames: the directory [i] is free, its
    frames are free, every other directory translates as before. *)
Record released (i : Z) p f p' f' : Prop := {
  rl_mem : mem_ok p' f';
  rl_entry i' k m e : entry p' i' k m e ↔ entry p i' k m e ∧ i' ≠ i;
  rl_freed : freed p (λ i' _ _, i' = i) f f';
  rl_pts j : pt_live p' j ↔ pt_live p j ∧ ¬ ∃ k, maps p i k j;
  rl_pds i' : pd_live p' i' ↔ pd_live p i' ∧ i' ≠ i;
  rl_walk pgd va : directory p pgd → pgd ≠ pd_slot i → 0 ≤ va < 0x100000000 → walk p' pgd va = walk p pgd va;
  rl_cr3 : cr3 p' = cr3 p;
  rl_tlb : tlb p' = tlb p;
}.

Lemma dropped_released i p f p' f' :
  mem_ok p f → 0 ≤ i < 16 → get_pd_vma (cr3 p) ≠ pd_slot i → dropping i 1024 p f p' f' →
  released i p f (set_pd_in_use (<[Z.to_nat i := false]> (pd_in_use p')) p') f'.
Proof.
  intros Hmem Hi Hcr3 [Hmem' _ Hpt He Hf Hpde Hb Hpds Hc Ht]. set (p2 := set_pd_in_use _ p').
  pose proof (mo_paging _ _ Hmem) as Hp. pose proof (mo_paging _ _ Hmem') as Hp'.
  assert (∀ i' k m e, entry p i' k m e → 0 ≤ k < 1024) as Hrange.
  { intros i' k m e (j & (_ & _ & ? & _) & _). done. }
  assert (∀ i', pd_live p2 i' ↔ pd_live p i' ∧ i' ≠ i) as Hlive.
  { intros i'. unfold pd_live, p2. cbn. rewrite Hpds. split.
    - intros [? Hl]. rewrite flags_cleared in Hl by lia. intuition congruence.
    - intros ((? & ?) & ?). rewrite flags_cleared by lia. intuition congruence. }
  assert (∀ i' k m e, entry p2 i' k m e ↔ entry p i' k m e ∧ i' ≠ i) as Hent.
  { intros i' k m e. assert (entry p2 i' k m e ↔ entry p' i' k m e ∧ i' ≠ i) as ->.
    - assert (pd_live p2 i' ↔ pd_live p' i' ∧ i' ≠ i) as Hl by (rewrite Hlive; unfold pd_live; by rewrite Hpds).
      unfold entry, maps. change (pt_live p2) with (pt_live p'). change (pde p2) with (pde p').
      change (pte p2) with (pte p').
      split; [intros (j & (HA & HB) & HC)|intros [(j & (HA & HB) & HC) ?]; exists j; tauto].
      split; [|tauto]. exists j. tauto.
    - rewrite He. split; [tauto|]. intros [Hen Hne]. split; [|done]. split; [done|]. tauto. }
  assert (paging_ok p2) as Hp2 by (apply paging_ok_free_pd; [done | done | by rewrite Hc]).
  constructor; try done.
  - eapply mem_ok_entries; [done | | exact Hmem']. intros i' k m e [Hen Hne]%Hent. apply He. tauto.
  - eapply freed_iff; [|exact Hf]. intros i' k m e. split; intros [HP Hen]; (split; [|done]); [tauto|].
    split; [done|]. apply Hrange in Hen. lia.
  - intros j. change (pt_live p2 j) with (pt_live p' j). rewrite Hpt. split; intros [? Hn]; (split; [done|]).
    + intros (k & Hm). apply Hn. exists k. split; [done|]. destruct Hm as (_ & _ & ? & _). lia.
    + intros (k & Hm & _). apply Hn. by exists k.
  - intros pgd va Hd Hne Hva. apply walk_ext; [done..|].
    intros i' -> Hi'. split; [apply Hlive; split; [done|congruence]|].
    assert (i' ≠ i) by congruence. split; [intros k m e; rewrite Hent; tauto|].
    intros k Hk. apply (Hpde (pd_slot i')); [right; by exists i' | unfold kernel_pde in Hk; lia | by left].
Qed.

Lemma free_space_run s i :
  mem_ok (k_paging s) (k_frames s) → pd_live (k_paging s) i → get_pd_vma (cr3 (k_paging s)) ≠ pd_slot i →
  ∃ p' f', (free_tables (pd_slot i);; in_paging (free_pd (pd_slot i));; mret tt) s =
      Ret tt (set_frames f' (set_paging p' s)) ∧ released i (k_paging s) (k_frames s) p' f'.
Proof.
  intros Hmem Hi Hcr3. destruct (free_tables_run s i Hmem Hi) as (p1 & f1 & Hrun & Hd).
  pose proof Hi as [Hir _]. eexists _, f1. split; [|exact (dropped_released _ _ _ _ _ Hmem Hir Hcr3 Hd)].
  rewrite (bind_ret _ _ _ _ _ Hrun). set (s1 := set_frames f1 (set_paging p1 s)).
  pose proof (mo_paging _ _ (dp_mem _ _ _ _ _ _ Hd)) as Hp1.
  by rewrite (bind_ret _ _ _ _ _ (in_paging_ret _ s1 _ _ (free_pd_run p1 i Hp1 Hir))).
Qed.
End tables.

(** ** The heap *)

Definition drop_all {A} (xs : list Z) (m : gmap Z A) : gmap Z A := foldl (λ m x, delete x m) m xs.

Lemma drop_all_app {A} xs ys (m : gmap Z A) : drop_all (xs ++ ys) m = drop_all ys (drop_all xs m).
Proof. apply foldl_app. Qed.

Lemma drop_all_in {A} xs (m : gmap Z A) x : x ∈ xs → drop_all xs m !! x = None.
Proof.
  assert (∀ xs (m : gmap Z A), m !! x = None → drop_all xs m !! x = None) as Hn.
  { clear. induction xs as [|y xs IH]; intros m Hm; [done|]. apply IH. rewrite lookup_delete_None. tauto. }
  revert m. induction xs as [|y xs IH]; intros m; [by intros ?%not_elem_of_nil|].
  intros [->|Hx]%elem_of_cons; [|by apply IH]. apply (Hn xs (delete y m)), lookup_delete_eq.
Qed.

Lemma drop_all_out {A} xs (m : gmap Z A) x : x ∉ xs → drop_all xs m !! x = m !! x.
Proof.
  revert m. induction xs as [|y xs IH]; intros m; [done|]. intros [Hne Hx]%not_elem_of_cons.
  change (drop_all xs (delete y m) !! x = m !! x). rewrite IH by done. by apply lookup_delete_ne.
Qed.

(** The files of a list of areas, each at its first occurrence. *)
Fixpoint first_files (seen : list Z) (l : list (Z * area)) : list Z :=
  match l with
  | [] => []
  | x :: l =>
      (if decide (a_file x.2 = 0 ∨ a_file x.2 ∈ seen) then [] else [a_file x.2]) ++
      first_files (seen ++ [a_file x.2]) l
  end.

Lemma first_files_spec seen l f :
  f ∈ first_files seen l ↔ f ∈ a_file ∘ snd <$> l ∧ f ≠ 0 ∧ f ∉ seen.
Proof.
  revert seen. induction l as [|x l IH]; intros seen; simpl; [by split; [intros ?%not_elem_of_nil | intros [?%not_elem_of_nil _]]|].
  rewrite elem_of_app, IH, elem_of_cons, not_elem_of_app, list_elem_of_singleton. simpl.
  destruct (decide _) as [Hd|Hd]; rewrite ?list_elem_of_singleton, ?elem_of_nil;
    (destruct (decide (f = a_file x.2)) as [->|]; tauto).
Qed.

(** A file and its inode. *)
Definition file_parts (ino : Z → Z) (f : Z) : list Z := [ino f; f].

(** What the files [fs] need to be closed and freed. *)
Record files_owned (o : gmap Z obj) (live : gmap Z Z) (ino : Z → Z) (fs : list Z) : Prop := {
  fo_nodup : NoDup (fs ≫= file_parts ino);
  fo_file f : f ∈ fs → ∃ pos inode sf sq, o !! f = Some (OFile (File (ino f) pos)) ∧
    o !! ino f = Some (OInode inode) ∧ live !! f = Some sf ∧ live !! ino f = Some sq;
}.

Section heap.
Context {L : Layout} {H : Type} `{!Allocator H} {B D : Type}.
Implicit Types (s : kernel H B D) (l : list (Z * area)) (live : gmap Z Z) (st : store H).

Abbreviation k_store s := (tk_store (k_tasks s)).
Abbreviation k_objs s := (objs (k_store s)).

Lemma files_owned_rest o live ino f fs :
  files_owned o live ino (f :: fs) →
  files_owned (drop_all (file_parts ino f) o) (drop_all (file_parts ino f) live) ino fs.
Proof.
  intros [Hnd Hf]. simpl in Hnd. change (NoDup (file_parts ino f ++ (fs ≫= file_parts ino))) in Hnd.
  apply NoDup_app in Hnd as (_ & Hx & Hnd). split; [done|]. intros g Hg.
  destruct (Hf g) as (pos & inode & sf & sq & H1 & H2 & H3 & H4); [by right|]. exists pos, inode, sf, sq.
  assert (g ∉ file_parts ino f ∧ ino g ∉ file_parts ino f) as [Hn1 Hn2].
  { split; intros Hin; apply (Hx _ Hin), list_elem_of_bind; exists g; (split; [|done]); unfold file_parts.
    - by right; left.
    - by left. }
  by rewrite !drop_all_out.
Qed.

Lemma close_file_run s live ino f fs :
  store_ok (k_store s) live → files_owned (k_objs s) live ino (f :: fs) →
  ∃ h, (vfs_close f;; in_store (kfree f)) s = Ret tt (set_store (Store h (drop_all (file_parts ino f) (k_objs s))) s) ∧
    store_ok (Store h (drop_all (file_parts ino f) (k_objs s))) (drop_all (file_parts ino f) live).
Proof.
  intros Hs [Hnd Hf]. destruct (Hf f) as (pos & inode & sf & sq & H1 & H2 & H3 & H4); [by left|].
  assert (ino f ≠ f) as Hne.
  { simpl in Hnd. apply NoDup_cons in Hnd as [Hn _]. intros E. apply Hn. rewrite E. by left. }
  destruct (vfs_close_run s live f sf (ino f) sq pos inode Hs H3 H4 Hne H1 H2) as (h1 & Hrun1 & Hs1).
  rewrite (bind_ret _ _ _ _ _ Hrun1). set (s1 := set_store _ s).
  assert (delete (ino f) live !! f = Some sf) as H3' by by rewrite lookup_delete_ne.
  destruct (kfree_run (k_store s1) _ f sf Hs1 H3') as (h2 & Hrun2 & Hs2). cbn [objs] in Hrun2, Hs2.
  assert (objs (k_store s1) = <[f := OFile (File 0 0)]> (delete (ino f) (k_objs s))) as E by done.
  rewrite E, delete_insert_eq in Hrun2, Hs2.
  exists h2. split; [|exact Hs2]. exact (in_store_ret _ s1 _ _ Hrun2).
Qed.

Lemma vma_file_seen_run fuel mm prev p l1 l2 prev' f st :
  vseg (objs st) mm prev p (l1 ++ l2) prev' 0 → NoDup (l1 ++ l2).*1 → (length l1 < fuel)%nat →
  vma_file_seen fuel p (first l2 0) f st = Ret (bool_decide (f ∈ a_file ∘ snd <$> l1)) st.
Proof.
  revert prev p l1. induction fuel as [|fuel IH]; intros prev p l1 Hseg Hnd Hfuel; [lia|].
  cbn [vma_file_seen]. destruct l1 as [|[q a] l1].
  - pose proof (dseg_first _ _ _ _ _ _ _ Hseg) as ->. by rewrite Z.eqb_refl.
  - simpl in Hseg, Hnd, Hfuel. destruct Hseg as (-> & Hnz & next & Ho & Hl). apply NoDup_cons in Hnd as [Hq Hnd].
    rewrite (proj2 (Z.eqb_neq q (first l2 0))).
    2:{ destruct l2 as [|[q2 a2] l2]; [done|]. simpl. intros ->. apply Hq. rewrite fmap_app. set_solver. }
    rewrite (bind_ret _ _ _ _ _ (load_vma q _ st Ho)). cbn [vma_of vm_file vm_next].
    destruct (Z.eqb_spec (a_file a) f) as [<-|Hne].
    + rewrite bool_decide_true; [done|]. by left.
    + rewrite (IH _ _ _ Hl Hnd ltac:(lia)). do 2 f_equal. apply bool_decide_ext.
      rewrite fmap_cons, elem_of_cons. simpl. split; [by right|]. by intros [->|].
Qed.

Lemma close_files_run fuel mm head p l1 l2 ino live s :
  vseg (k_objs s) mm 0 head (l1 ++ l2) (final (l1 ++ l2) 0) 0 → NoDup (l1 ++ l2).*1 → p = first l2 0 →
  (length l2 < fuel)%nat → store_ok (k_store s) live →
  let fs := first_files (a_file ∘ snd <$> l1) l2 in
  files_owned (k_objs s) live ino fs →
  (∀ q, q ∈ (l1 ++ l2).*1 → q ∉ (fs ≫= file_parts ino)) →
  ∃ h, let o := drop_all (fs ≫= file_parts ino) (k_objs s) in
    close_files fuel head p s = Ret tt (set_store (Store h o) s) ∧
    store_ok (Store h o) (drop_all (fs ≫= file_parts ino) live).
Proof.
  revert p l1 l2 live s. induction fuel as [|fuel IH]; intros p l1 l2 live s Hseg Hnd -> Hfuel Hs fs Hown Hout; [lia|].
  cbn [close_files]. destruct l2 as [|[q a] l2].
  { exists (st_heap (k_store s)). subst fs. cbn. split; [by destruct s as [[[]]] | by destruct (k_store s)]. }
  pose proof Hseg as (q1 & p1 & Hseg1 & Hseg2)%dseg_app.
  simpl in Hseg2. destruct Hseg2 as (-> & Hnz & next & Ho & Hl2). cbn [first].
  rewrite (proj2 (Z.eqb_neq q 0)) by done. rewrite (bind_ret _ _ _ _ _ (in_load_vma s q _ Ho)).
  cbn [vma_of vm_file vm_next]. pose proof (dseg_first _ _ _ _ _ _ _ Hl2) as ->.
  set (fs' := first_files (a_file ∘ snd <$> l1 ++ [(q, a)]) l2).
  assert (fs = (if decide (a_file a = 0 ∨ a_file a ∈ a_file ∘ snd <$> l1) then [] else [a_file a]) ++ fs') as Efs.
  { unfold fs, fs'. cbn. by rewrite fmap_app. }
  assert ((if a_file a =? 0 then mret true
    else in_store (fuel0 ← gets list_fuel; vma_file_seen fuel0 head q (a_file a))) s =
    Ret (bool_decide (a_file a = 0 ∨ a_file a ∈ a_file ∘ snd <$> l1)) s) as Hseen.
  { destruct (Z.eqb_spec (a_file a) 0) as [->|Hf0]; [by rewrite bool_decide_true by auto|].
    rewrite (in_store_read _ s (bool_decide (a_file a ∈ a_file ∘ snd <$> l1))).
    - unfold mret, M_ret. f_equal. apply bool_decide_ext. tauto.
    - rewrite gets_bind. pose proof (dseg_length _ _ _ _ _ _ _ Hnd Hseg) as Hlen.
      apply (vma_file_seen_run _ mm 0 head l1 ((q, a) :: l2) _ (a_file a) _ Hseg Hnd).
      rewrite length_app in Hlen. unfold list_fuel. cbn in *. lia. }
  rewrite (bind_ret _ _ _ _ _ Hseen).
  assert (l1 ++ (q, a) :: l2 = (l1 ++ [(q, a)]) ++ l2) as El by by rewrite <-app_assoc.
  rewrite El in Hseg, Hnd, Hout. cbn in Hfuel.
  destruct (decide (a_file a = 0 ∨ a_file a ∈ a_file ∘ snd <$> l1)) as [Hd|Hd].
  - rewrite bool_decide_true by done. rewrite mret_bind. cbn [app] in Efs. subst fs.
    rewrite Efs in *. apply (IH _ (l1 ++ [(q, a)]) l2 live s); (done || lia).
  - rewrite bool_decide_false by done. cbn [app] in Efs. subst fs. rewrite Efs in *.
    destruct (close_file_run s live ino _ _ Hs Hown) as (h1 & Hrun1 & Hs1).
    rewrite (bind_ret _ _ _ _ _ Hrun1). set (s1 := set_store _ s).
    assert (∀ x, x ∈ ((l1 ++ [(q, a)]) ++ l2).*1 → x ∉ file_parts ino (a_file a) ∧ x ∉ (fs' ≫= file_parts ino)) as Hout'.
    { intros x Hx. apply Hout in Hx. simpl in Hx.
      change (x ∉ file_parts ino (a_file a) ++ (fs' ≫= file_parts ino)) in Hx. by apply not_elem_of_app in Hx. }
    assert (vseg (k_objs s1) mm 0 head ((l1 ++ [(q, a)]) ++ l2) (final ((l1 ++ [(q, a)]) ++ l2) 0) 0) as Hseg'.
    { eapply dseg_ext; [|exact Hseg]. intros x Hx. apply drop_all_out. by apply Hout'. }
    destruct (IH _ (l1 ++ [(q, a)]) l2 _ s1 Hseg' Hnd eq_refl ltac:(lia) Hs1 (files_owned_rest _ _ _ _ _ Hown))
      as (h2 & Hrun2 & Hs2).
    { intros x Hx. by apply Hout'. }
    exists h2. cbv zeta. rewrite Hrun2. cbn [mbind list_bind].
    change (file_parts ino (a_file a) ++ mbind (file_parts ino) fs') with (file_parts ino (a_file a) ++ (fs' ≫= file_parts ino)).
    rewrite !drop_all_app. split; [done | exact Hs2].
Qed.

Lemma free_vmas_run fuel mm prev p l prev' live st :
  vseg (objs st) mm prev p l prev' 0 → NoDup l.*1 → (length l < fuel)%nat → store_ok st live →
  (∀ q, q ∈ l.*1 → is_Some (live !! q)) →
  ∃ h, free_vmas fuel p st = Ret tt (Store h (drop_all l.*1 (objs st))) ∧
    store_ok (Store h (drop_all l.*1 (objs st))) (drop_all l.*1 live).
Proof.
  revert prev p l live st. induction fuel as [|fuel IH]; intros prev p l live st Hseg Hnd Hfuel Hs Hlive; [lia|].
  cbn [free_vmas]. destruct l as [|[q a] l].
  - destruct Hseg as [_ ->]. exists (st_heap st). cbn. split; by destruct st.
  - simpl in Hseg, Hnd, Hfuel. destruct Hseg as (-> & Hnz & next & Ho & Hl). apply NoDup_cons in Hnd as [Hq Hnd].
    rewrite (proj2 (Z.eqb_neq q 0)) by done. rewrite (bind_ret _ _ _ _ _ (load_vma q _ st Ho)).
    cbn [vma_of vm_next]. destruct (Hlive q) as [sz Hsz]; [by left|].
    destruct (kfree_run st live q sz Hs Hsz) as (h1 & Hrun1 & Hs1). rewrite (bind_ret _ _ _ _ _ Hrun1).
    assert (vseg (objs (Store h1 (delete q (objs st)))) mm q next l prev' 0) as Hseg'.
    { eapply dseg_ext; [|exact Hl]. intros x Hx. cbn. apply lookup_delete_ne. by intros <-. }
    destruct (IH q next l (delete q live) _ Hseg' Hnd ltac:(lia) Hs1) as (h2 & Hrun2 & Hs2).
    { intros x Hx. rewrite lookup_delete_ne; [|by intros <-]. apply Hlive. by right. }
    by exists h2.
Qed.
End heap.

(** ** An address space released *)

Section release.
Context {L : Layout} {H : Type} `{!Allocator H} {B D : Type}.
Implicit Types (s : kernel H B D) (l : list (Z * area)) (live : gmap Z Z).

Abbreviation k_store s := (tk_store (k_tasks s)).
Abbreviation k_objs s := (objs (k_store s)).

(** The objects of an address space: the structure itself, its areas, the files of
    the areas with their inodes. *)
Definition footprint mm l (ino : Z → Z) : list Z :=
  mm :: l.*1 ++ (first_files [] l ≫= file_parts ino).

(** The address space [mm], with the directory [i] and the areas [l], owns these objects. *)
Record owned s live mm (i : Z) l ino : Prop := {
  ow_store : store_ok (k_store s) live;
  ow_space : space (k_objs s) mm (pd_slot i) l;
  ow_nodup : NoDup (footprint mm l ino);
  ow_live q : q ∈ footprint mm l ino → is_Some (live !! q);
  ow_file f : f ∈ first_files [] l → ∃ pos inode, k_objs s !! f = Some (OFile (File (ino f) pos)) ∧
    k_objs s !! ino f = Some (OInode inode);
  ow_pd : pd_live (k_paging s) i;
  ow_mem : mem_ok (k_paging s) (k_frames s);
}.

Lemma owned_files s live mm i l ino : owned s live mm i l ino → files_owned (k_objs s) live ino (first_files [] l).
Proof.
  intros [_ _ Hnd Hl Hf _ _]. apply NoDup_cons in Hnd as [_ Hnd]. apply NoDup_app in Hnd as (_ & _ & Hnd).
  split; [done|]. intros f Hin. destruct (Hf f Hin) as (pos & inode & ? & ?). 
  assert (∀ q, q ∈ file_parts ino f → is_Some (live !! q)) as Hq.
  { intros q Hq. apply Hl. right. apply elem_of_app. right. apply list_elem_of_bind. by exists f. }
  destruct (Hq f) as [sf ?]; [by right; left|]. destruct (Hq (ino f)) as [sq ?]; [by left|]. by exists pos, inode, sf, sq.
Qed.

Lemma drop_all_perm {A} xs ys (m : gmap Z A) : xs ≡ₚ ys → drop_all xs m = drop_all ys m.
Proof.
  intros Hp. apply map_eq. intros x. destruct (decide (x ∈ xs)) as [Hx|Hx].
  - rewrite !drop_all_in; [done | by rewrite <-Hp | done].
  - rewrite !drop_all_out; [done | by rewrite <-Hp | done].
Qed.

Lemma release_mm_run s live mm i l ino :
  owned s live mm i l ino → get_pd_vma (cr3 (k_paging s)) ≠ pd_slot i →
  ∃ p' f' h, let o := drop_all (footprint mm l ino) (k_objs s) in
    release_mm mm s = Ret tt (set_store (Store h o) (set_frames f' (set_paging p' s))) ∧
    store_ok (Store h o) (drop_all (footprint mm l ino) live) ∧
    released i (k_paging s) (k_frames s) p' f'.
Proof.
  intros Hown Hcr3. pose proof (owned_files _ _ _ _ _ _ Hown) as Hfiles.
  destruct Hown as [Hs (Hm & Hnd & Hseg) Hfoot Hlive _ Hpd Hmem].
  apply NoDup_cons in Hfoot as [Hmm Hfoot]. apply NoDup_app in Hfoot as (_ & Hdisj & _).
  apply not_elem_of_app in Hmm as [Hmm1 Hmm2]. set (fps := first_files [] l ≫= file_parts ino) in *.
  pose proof (dseg_length _ _ _ _ _ _ _ Hnd Hseg) as Hlen.
  unfold release_mm. rewrite (proj2 (Z.eqb_neq mm 0)) by (by eapply obj_nonzero).
  rewrite (bind_ret _ _ _ _ _ (in_load_mm s mm _ Hm)), gets_bind. cbn [mmap].
  destruct (close_files_run (list_fuel (k_store s)) mm (first l 0) _ [] l ino live s Hseg Hnd eq_refl
    ltac:(unfold list_fuel; lia) Hs Hfiles Hdisj) as (h1 & Hrun1 & Hs1).
  cbv zeta in Hrun1, Hs1. cbn [fmap list_fmap] in Hrun1, Hs1. fold fps in Hrun1, Hs1.
  rewrite (bind_ret _ _ _ _ _ Hrun1). set (s1 := set_store _ s).
  assert (k_objs s1 !! mm = Some (OMm (Mm (pd_slot i) (first l 0)))) as Hm1 by (cbn; by rewrite drop_all_out).
  rewrite (bind_ret _ _ _ _ _ (in_load_mm s1 mm _ Hm1)). cbn [mmap pgd].
  assert (vseg (k_objs s1) mm 0 (first l 0) l (final l 0) 0) as Hseg1.
  { eapply dseg_ext; [|exact Hseg]. intros x Hx. apply drop_all_out. by apply Hdisj. }
  destruct (free_vmas_run (list_fuel (k_store s)) mm 0 (first l 0) l _ _ (k_store s1) Hseg1 Hnd
    ltac:(unfold list_fuel; lia) Hs1) as (h2 & Hrun2 & Hs2).
  { intros q Hq. rewrite drop_all_out by (by apply Hdisj). apply Hlive. right. apply elem_of_app. by left. }
  rewrite (bind_ret _ _ _ _ _ (in_store_ret _ s1 _ _ Hrun2)). set (s2 := set_store _ s1).
  assert (pd_slot i ≠ 0) as Hpnz by (destruct Hpd as [? _]; layout; unfold pd_slot, PAGE_SIZE; lia).
  rewrite (proj2 (Z.eqb_neq (pd_slot i) 0)) by done.
  destruct (free_space_run s2 i Hmem Hpd Hcr3) as (p' & f' & Hrun3 & Hrel).
  rewrite (bind_ret _ _ _ _ _ Hrun3). set (s3 := set_frames f' (set_paging p' s2)).
  destruct (Hlive mm) as [sz Hsz]; [by left|].
  assert (drop_all l.*1 (drop_all fps live) !! mm = Some sz) as Hsz3 by (by rewrite !drop_all_out).
  destruct (kfree_run (k_store s3) _ mm sz Hs2 Hsz3) as (h3 & Hrun4 & Hs3).
  assert (∀ A (m : gmap Z A), delete mm (drop_all l.*1 (drop_all fps m)) = drop_all (footprint mm l ino) m) as E.
  { intros A m. change (delete mm ?m) with (drop_all [mm] m). rewrite <-!drop_all_app. apply drop_all_perm.
    unfold footprint. fold fps. rewrite ?app_assoc, <-Permutation_cons_append.
    by rewrite (Permutation_app_comm fps). }
  exists p', f', h3. cbv zeta. rewrite <-!E. split; [|split; [exact Hs3 | exact Hrel]].
  exact (in_store_ret _ s3 _ _ Hrun4).
Qed.

(** C12 (processes, [release_mm]): releasing an address space that the processor does
    not use gives back exactly what it owned: its structure, its areas and their
    files with the inodes (each file once, though several areas share it), the page
    tables its directory refers to, the page directory and the frames mapped there.
    Every other object, frame, page table and directory stays in use, every other
    directory translates as before, and the memory invariant and the coherence of
    the translation cache are kept. *)
Theorem release_mm_correct s live mm i l ino :
  owned s live mm i l ino → get_pd_vma (cr3 (k_paging s)) ≠ pd_slot i → tlb_coherent (k_paging s) →
  ∃ s', release_mm mm s = Ret tt s' ∧
    store_ok (k_store s') (drop_all (footprint mm l ino) live) ∧
    (∀ x, k_objs s' !! x = if decide (x ∈ footprint mm l ino) then None else k_objs s !! x) ∧
    (∀ n, k_frames s' !! n = Some true ↔ k_frames s !! n = Some true ∧
       ¬ ∃ k m e, entry (k_paging s) i k m e ∧ frame_in e = frame_of n) ∧
    (∀ j, pt_live (k_paging s') j ↔ pt_live (k_paging s) j ∧ ¬ ∃ k, maps (k_paging s) i k j) ∧
    (∀ i', pd_live (k_paging s') i' ↔ pd_live (k_paging s) i' ∧ i' ≠ i) ∧
    (∀ pgd va, directory (k_paging s) pgd → pgd ≠ pd_slot i → 0 ≤ va < 0x100000000 →
       walk (k_paging s') pgd va = walk (k_paging s) pgd va) ∧
    mem_ok (k_paging s') (k_frames s') ∧ tlb_coherent (k_paging s').
Proof.
  intros Hown Hcr3 Ht. pose proof (mo_paging _ _ (ow_mem _ _ _ _ _ _ Hown)) as Hp.
  destruct (release_mm_run _ _ _ _ _ _ Hown Hcr3) as (p' & f' & h & Hrun & Hs & [Hmem _ Hf Hpts Hpds Hw Hc Htl]).
  eexists. split; [exact Hrun|]. split; [exact Hs|]. split.
  { intros x. change (drop_all (footprint mm l ino) (k_objs s) !! x =
      if decide (x ∈ footprint mm l ino) then None else k_objs s !! x).
    destruct (decide _); [by apply drop_all_in | by apply drop_all_out]. }
  split; [|split; [exact Hpts|split; [exact Hpds|split; [exact Hw|split; [exact Hmem|]]]]].
  - destruct Hf as [_ Hf]. intros n. cbn. rewrite Hf. split; intros [? Hn]; (split; [done|]).
    + intros (k & m & e & He). apply Hn. by exists i, k, m, e.
    + intros (i' & k & m & e & -> & He). apply Hn. by exists k, m, e.
  - apply (tlb_coherent_ext (k_paging s)); [|done..]. intros va Hva. apply Hw; [|done..]. by apply po_cr3.
Qed.
End release.

(** ** A task that has left its address space *)

#[local] Existing Instance sample_layout.

(** The directory 0 with one page table, which maps the page 0x400000 to the frame
    0x400000; an area of a file, with its inode. *)
Definition release_segs : list seg :=
  [(176, false); (8, false); (32, false); (32, false); (8, false); (65208, true)].
Definition release_heap : heap := Heap (list_to_map [
  (0xc0110000, HB 176 false 0xc01100bc); (0xc01100bc, HB 8 false 0xc01100d0);
  (0xc01100d0, HB 32 false 0xc01100fc); (0xc01100fc, HB 32 false 0xc0110128);
  (0xc0110128, HB 8 false 0xc011013c); (0xc011013c, HB 65208 true 0)]) 0xc0110000.

Definition text_inode : Z := 0xc0110108.
Definition text_file : Z := 0xc0110134.
Definition text_area : area := Area 0x400000 0x401000 0 text_file.

Definition release_store : store heap :=
  Store release_heap (list_to_map [
    (the_task, OTask (set_mm the_mm zero_task)); (the_mm, OMm (Mm 0xc0120000 the_vma));
    (the_vma, OVma (vma_of text_area the_mm 0 0)); (text_inode, OInode (Inode 0x81ed 0 100 0 0 1 (replicate 9 0)));
    (text_file, OFile (File text_inode 0))]).

Definition release_kernel : kernel heap (gmap Z (list Z)) latches :=
  Kernel (Tasks release_store 0 the_task 0) (<[1024%nat := true]> fresh_frames)
    (set_pte 0 0 (Z.lor (frame_of 1024) 7) one_table) sample_fs (clear_screen, idle_bus) 0 zero_tss 0 ∅.

Lemma release_store_ok : store_ok release_store (live release_segs).
Proof.
  assert (heap_inv release_heap release_segs) as Hinv.
  { constructor; try reflexivity; [|by repeat constructor].
    split; [|split; [|split; [|split; [|split; [|split; [|done]]]]]]; vm_compute; reflexivity. }
  split; [by exists release_segs|]. split; [done|].
  intros p ob Hp _. simpl in Hp.
  repeat (apply lookup_insert_Some in Hp as [[<- <-]|[_ Hp]];
    [eexists; split; [vm_compute; reflexivity | vm_compute; discriminate]|]).
  done.
Qed.

Lemma one_table_empty i k m e : ¬ entry one_table i k m e.
Proof. exact (task_paging_empty i k m e). Qed.

Lemma release_mem_ok : mem_ok (k_paging release_kernel) (k_frames release_kernel).
Proof.
  assert (mem_ok one_table fresh_frames) as Hmem.
  { constructor; [exact one_table_ok | exact fresh_frames_ok | |]; intros i k m e; intros; by destruct (one_table_empty i k m e). }
  apply (mem_ok_map _ _ 0 1 0 0 1024 7 Hmem one_table_maps); (lia || reflexivity).
Qed.

Lemma release_files : first_files [] [(the_vma, text_area)] = [text_file].
Proof. vm_compute. reflexivity. Qed.

Lemma release_owned : owned release_kernel (live release_segs) the_mm 0 [(the_vma, text_area)] (λ _, text_inode).
Proof.
  constructor.
  - exact release_store_ok.
  - split; [reflexivity|]. split; [by apply NoDup_singleton|]. split; [reflexivity|]. split; [discriminate|]. exists 0.
    split; [reflexivity|]. by split.
  - decided.
  - assert (Forall (λ q, is_Some (live release_segs !! q)) (footprint the_mm [(the_vma, text_area)] (λ _, text_inode))) as Hf.
    { vm_compute. repeat constructor; by eexists. }
    intros q Hq. rewrite Forall_forall in Hf. by apply Hf.
  - rewrite release_files. intros f ->%list_elem_of_singleton. eexists 0, _. split; reflexivity.
  - split; [lia | reflexivity].
  - exact release_mem_ok.
Qed.

Lemma release_entry : entry (k_paging release_kernel) 0 1 0 (Z.lor (frame_of 1024) 7).
Proof.
  apply (entry_set_pte one_table 0 1 0); [exact one_table_ok | exact one_table_maps | lia|]. left.
  by split_and!.
Qed.

Lemma release_mm_correct_witness :
  ∃ s', release_mm the_mm release_kernel = Ret tt s' ∧ ¬ pd_live (k_paging s') 0 ∧ ¬ pt_live (k_paging s') 0 ∧
    k_frames s' !! 1024%nat ≠ Some true ∧
    objs (tk_store (k_tasks s')) !! text_file = None ∧ objs (tk_store (k_tasks s')) !! text_inode = None ∧
    objs (tk_store (k_tasks s')) !! the_task = Some (OTask (set_mm the_mm zero_task)) ∧
    mem_ok (k_paging s') (k_frames s').
Proof.
  assert (get_pd_vma (cr3 (k_paging release_kernel)) ≠ pd_slot 0) as Hcr3 by (vm_compute; discriminate).
  assert (tlb_coherent (k_paging release_kernel)) as Ht.
  { intros page e He. change (tlb (k_paging release_kernel)) with (∅ : gmap Z Z) in He. by rewrite lookup_empty in He. }
  destruct (release_mm_correct release_kernel _ _ _ _ _ release_owned Hcr3 Ht)
    as (s' & Hrun & _ & Ho & Hf & Hpt & Hpd & _ & Hmem & _).
  exists s'. split; [exact Hrun|]. split; [intros Hl; exact (proj2 (proj1 (Hpd 0) Hl) eq_refl)|].
  split; [|split; [|split; [|split; [|split; [|exact Hmem]]]]].
  - intros Hl. apply (proj2 (proj1 (Hpt 0) Hl)). exists 1. apply maps_set_pte; [lia..|]. exact one_table_maps.
  - intros Hl. apply (proj2 (proj1 (Hf 1024%nat) Hl)). exists 1, 0, (Z.lor (frame_of 1024) 7).
    split; [exact release_entry | reflexivity].
  - rewrite Ho. vm_compute. reflexivity.
  - rewrite Ho. vm_compute. reflexivity.
  - rewrite Ho. vm_compute. reflexivity.
Defined.
