(* ===== verification/Create.v ===== *)
(** * New address spaces and tasks ([create_task_mm] and [create_task] of src/kernel/process.c)

    A new page directory maps exactly what the current one maps for the kernel,
    and a task that cannot be completed leaves nothing behind but its number. *)

From S2P Require Import Prelude Layout Allocator Heap Ports Gdt Console BlockDevice Frames Paging Paths Fs Objects Linked Mmap Kernel Space Files Fault Sched Switch Process.

(** ** The kernel's mappings copied *)

Section directory.
Context {L : Layout}.
Implicit Types (p : paging) (f : frames).

(** What [copy_kernel_mappings] tests. *)
Definition kernel_entry (e : Z) : bool := present e && negb (user e).

(** The first [n] entries of [src] copied to the directory [i], which was empty. *)
Record copied p (i src n : Z) p' : Prop := {
  cp_ok : paging_ok p';
  cp_rest : p' = set_words (words p') p;
  cp_word a : ¬ pd_slot i ≤ a < pd_slot i + 4096 → word p' a = word p a;
  cp_pde k : 0 ≤ k < 1024 →
    pde p' (pd_slot i) k = if (k <? n) && kernel_entry (pde p src k) then pde p src k else 0;
}.

Lemma directory_apart p i pgd a :
  directory p pgd → 0 ≤ i < 16 → pgd ≠ pd_slot i → pgd ≤ a < pgd + 4096 → ¬ pd_slot i ≤ a < pd_slot i + 4096.
Proof. intros [->|(i' & [Hi' _] & ->)] Hi Hne Ha; layout; lia. Qed.

(** Only entries of the kernel are for the kernel. *)
Lemma kernel_entry_boot p src k :
  paging_ok p → directory p src → 0 ≤ k < 1024 → kernel_entry (pde p src k) = true →
  kernel_pde k ∧ pde p src k = boot_pde k.
Proof.
  intros Hp Hd Hk [Hpr Hus]%andb_true_iff. apply negb_true_iff in Hus. destruct Hd as [->|(i & Hi & ->)].
  - split; [|by apply po_boot]. rewrite (po_boot _ Hp) in Hpr by done. unfold boot_pde in Hpr.
    destruct ((k =? 0) || (k =? 768)) eqn:E; [|done].
    apply orb_true_iff in E as [?%Z.eqb_eq|?%Z.eqb_eq]; [by left | by right].
  - destruct (po_pde _ Hp i k Hi Hk) as [?|[[? ?]|(j & _ & _ & _ & _ & _ & ? & _)]]; [congruence | done | congruence].
Qed.

Lemma directory_word_run p src k :
  directory p src → 0 ≤ k < 1024 → load_word (src +ᵤ 4 * k) p = Ret (pde p src k) p.
Proof.
  intros Hd Hk. destruct (directory_page _ _ Hd) as [Hin Hal].
  rewrite u32_id by (pose proof (in_kernel_u32 _ _ Hin); unfold in_kernel, KERNEL_VMA_END in *; lia).
  unfold load_word. by rewrite kernel_word_page.
Qed.

Lemma copy_kernel_mappings_run p i src :
  paging_ok p → pd_live p i → directory p src → src ≠ pd_slot i →
  (∀ k, 0 ≤ k < 1024 → pde p (pd_slot i) k = 0) →
  ∃ p', copy_kernel_mappings (pd_slot i) src p = Ret tt p' ∧ copied p i src 1024 p'.
Proof.
  intros Hp Hi Hsrc Hne Hz. pose proof Hi as [Hir _].
  apply (for_range_inv (λ n p', copied p i src n p')); [lia| |].
  { constructor; [done | by destruct p | done|]. intros k Hk. by rewrite (proj2 (Z.ltb_ge k 0)), Hz by lia. }
  intros k p1 Hk [Hok Hrest Hword Hpde].
  assert (directory p1 src) as Hsrc1 by (rewrite Hrest; exact Hsrc).
  assert (pd_live p1 i) as Hi1 by (rewrite Hrest; exact Hi).
  assert (pde p1 src k = pde p src k) as Ek.
  { unfold pde. apply Hword. apply (directory_apart p i src); [done..|lia]. }
  rewrite (bind_ret _ _ _ _ _ (directory_word_run p1 src k Hsrc1 Hk)), Ek.
  assert (negb (Z.land (pde p src k) PAGE_FLAG_PRESENT =? 0) && (Z.land (pde p src k) PAGE_FLAG_USER =? 0)
    = kernel_entry (pde p src k)) as ->.
  { unfold kernel_entry, present, user. by rewrite negb_involutive. }
  destruct (kernel_entry (pde p src k)) eqn:Eke.
  - rewrite (set_pde_run p1 i k _ Hir Hk). eexists. split; [reflexivity|].
    destruct (kernel_entry_boot p src k Hp Hsrc Hk Eke) as [Hkp Hv]. constructor.
    + apply paging_ok_set_pde; [done..| |right; left; done]. apply (po_words _ Hp).
    + rewrite Hrest at 1. by destruct p, p1.
    + intros a Ha. unfold set_pde. rewrite word_set, decide_False; [auto|]. unfold PAGE_SIZE in *. lia.
    + intros k' Hk'. rewrite pde_set_pde, Hpde by done. case_decide as Hd.
      * destruct Hd as [_ <-]. by rewrite (proj2 (Z.ltb_lt _ _)), Eke by lia.
      * replace (k' <? k + 1) with (k' <? k); [done|]. apply eq_bool_prop_intro. rewrite !Is_true_true, !Z.ltb_lt. lia.
  - exists p1. split; [done|]. constructor; [done..|]. intros k' Hk'. rewrite Hpde by done.
    destruct (decide (k' = k)) as [->|].
    + by rewrite Eke, !andb_false_r.
    + replace (k' <? k + 1) with (k' <? k); [done|]. apply eq_bool_prop_intro. rewrite !Is_true_true, !Z.ltb_lt. lia.
Qed.

(** The directory [i] added to [p], with the kernel's mappings of [src]. *)
Record new_directory p (i src : Z) p' : Prop := {
  nd_ok : paging_ok p';
  nd_fresh : ¬ pd_live p i;
  nd_live i' : pd_live p' i' ↔ i' = i ∨ pd_live p i';
  nd_entry i' k m e : entry p' i' k m e ↔ entry p i' k m e;
  nd_pde k : 0 ≤ k < 1024 →
    pde p' (pd_slot i) k = if kernel_entry (pde p src k) then pde p src k else 0;
  nd_old pgd va : directory p pgd → 0 ≤ va < 0x100000000 → walk p' pgd va = walk p pgd va;
  nd_boot k : 0 ≤ k < 1024 → word p' (boot_page_table + 4 * k) = word p (boot_page_table + 4 * k);
  nd_pts : pt_in_use p' = pt_in_use p;
  nd_cr3 : cr3 p' = cr3 p;
  nd_tlb : tlb p' = tlb p;
}.

Lemma new_directory_run p :
  paging_ok p → let src := get_pd_vma (cr3 p) in
  (∃ i p1 p2, alloc_pd p = Ret (pd_slot i) p1 ∧ 0 ≤ i < 16 ∧ cr3 p1 = cr3 p ∧
     copy_kernel_mappings (pd_slot i) src p1 = Ret tt p2 ∧ new_directory p i src p2)
  ∨ alloc_pd p = Ret 0 p ∧ ∀ i, 0 ≤ i < 16 → pd_live p i.
Proof.
  intros Hp src. pose proof (alloc_pd_run p Hp) as Hrun. destruct (first_clear (pd_in_use p)) as [n|] eqn:E.
  2:{ right. split; [done|]. intros i Hi. split; [done|].
      destruct (lookup_lt_is_Some_2 (pd_in_use p) (Z.to_nat i)) as [b Hb]; [rewrite (po_pds _ Hp); lia|].
      by rewrite Hb, (first_clear_None _ _ _ E Hb). }
  left. destruct Hrun as (p1 & Hrun & Hn & Hz). set (i := Z.of_nat n) in *.
  apply first_clear_Some in E as [Hfree _]. rewrite <-(Nat2Z.id n) in Hfree, Hz. fold i in Hfree, Hz.
  assert (0 ≤ i < 16) as Hi by lia.
  destruct (paging_ok_grow_pd p p1 i Hp Hi Hfree Hz) as (Hp1 & Hmaps & Hnew & Hold). pose proof Hz as [Hw _].
  assert (∀ i', pd_live p1 i' ↔ i' = i ∨ pd_live p i') as Hlive.
  { intros i'. unfold pd_live. rewrite Hw. cbn. split.
    - intros [Hr Hl]. apply flags_lookup in Hl; [|lia..]. destruct Hl; [by left | by right].
    - intros [->|[Hr Hl]]; (split; [done|]).
      + apply list_lookup_insert_eq. rewrite (po_pds _ Hp). lia.
      + destruct (decide (i = i')) as [<-|]; [congruence|]. rewrite list_lookup_insert_ne; [done | lia]. }
  assert (∀ pgd, directory p pgd → pgd ≠ pd_slot i) as Hne.
  { intros pgd [->|(i' & [Hi' Hl] & ->)]; [layout; lia|]. intros E.
    assert (i' = i) as -> by (unfold pd_slot, PAGE_SIZE in E; lia). congruence. }
  assert (directory p src) as Hsrc by apply (po_cr3 _ Hp).
  assert (∀ pgd, directory p pgd → directory p1 pgd) as Hdir.
  { intros pgd [->|(i' & Hi' & ->)]; [by left|]. right. exists i'. split; [|done]. apply Hlive. by right. }
  assert (pd_live p1 i) as Hi1 by (apply Hlive; by left).
  destruct (copy_kernel_mappings_run p1 i src Hp1 Hi1) as (p2 & Hcopy & [Hok Hrest Hword Hpde]); [auto..|].
  exists i, p1, p2. split; [exact Hrun|]. split; [done|]. split; [by rewrite Hw|]. split; [done|].
  assert (∀ j m, 0 ≤ j < 64 → 0 ≤ m < 1024 → pte p2 j m = pte p j m) as Hpte.
  { intros j m Hj Hm. unfold pte. rewrite Hword, (zeroed_word _ _ _ _ Hz); [done|..]; layout; lia. }
  assert (∀ k, 0 ≤ k < 1024 → pde p2 (pd_slot i) k = if kernel_entry (pde p src k) then pde p src k else 0) as Hpde2.
  { intros k Hk. rewrite (Hpde k Hk), (proj2 (Z.ltb_lt _ _)) by lia. by rewrite Hold. }
  assert (∀ i' k j, maps p2 i' k j ↔ maps p i' k j) as Hmaps2.
  { intros i' k j. rewrite <-Hmaps. unfold maps. assert (pd_live p2 i' ↔ pd_live p1 i') as -> by (by rewrite Hrest).
    assert (pt_live p2 j ↔ pt_live p1 j) as -> by (by rewrite Hrest).
    destruct (decide (i' = i)) as [->|Hii].
    - split; intros (Hl & Hj & Hk & Hnk & Hpr & Hus & _); exfalso.
      + rewrite Hpde2 in Hpr, Hus by done. destruct (kernel_entry _) eqn:Eke; [|done].
        apply andb_true_iff in Eke as [_ Eke]. by rewrite Hus in Eke.
      + by rewrite Hnew in Hpr.
    - assert (pd_live p1 i' → 0 ≤ k < 1024 → pde p2 (pd_slot i') k = pde p1 (pd_slot i') k) as Ek.
      { intros [Hr _] Hk. apply Hword. unfold pd_slot, PAGE_SIZE. lia. }
      split; intros (Hl & Hj & Hk & Hnk & Hx); (rewrite Ek in Hx || rewrite <-Ek in Hx); tauto. }
  assert (∀ i' k m e, entry p2 i' k m e ↔ entry p i' k m e) as Hent.
  { intros i' k m e. unfold entry. split; intros (j & Hm & Hr & He & Hpr); exists j;
      pose proof Hm as (_ & [Hj _] & _); (split; [by apply Hmaps2|]); (split; [done|]); split; try done.
    - by rewrite <-Hpte. - by rewrite Hpte. }
  assert (∀ k, 0 ≤ k < 1024 → word p2 (boot_page_table + 4 * k) = word p (boot_page_table + 4 * k)) as Hboot.
  { intros k Hk. rewrite Hword, (zeroed_word _ _ _ _ Hz); [done|..]; layout; lia. }
  constructor; try done; [| | |by rewrite Hrest, Hw..].
  - intros [_ Hl]. congruence.
  - intros i'. rewrite <-Hlive. by rewrite Hrest.
  - intros pgd va Hd Hva. apply walk_ext; [done..|].
    intros i' -> Hl. split; [rewrite Hrest; apply Hlive; by right|]. split; [auto|]. intros k Hk.
    assert (0 ≤ k < 1024) as Hkr by (destruct Hk; lia).
    rewrite <-(Hold (pd_slot i') k Hd Hkr). apply Hword.
    apply (directory_apart p i (pd_slot i')); [done|done|by apply Hne|lia].
Qed.

(** An entry of the kernel is absent or the one of the boot directory. *)
Lemma kernel_pde_value p src k :
  paging_ok p → directory p src → kernel_pde k →
  kernel_entry (pde p src k) = present (pde p src k) ∧
  (present (pde p src k) = true → get_pd_vma (pde p src k) = boot_page_table).
Proof.
  intros Hp Hd Hk. assert (0 ≤ k < 1024) as Hkr by (destruct Hk; lia).
  assert (present (pde p src k) = false ∨ pde p src k = boot_pde k) as [E|E].
  { destruct Hd as [->|(i & Hi & ->)]; [right; by apply po_boot|].
    destruct (po_pde _ Hp i k Hi Hkr) as [?|[[_ ?]|(j & _ & _ & _ & Hnk & _)]]; [by left|by right|done]. }
  - unfold kernel_entry. by rewrite E.
  - rewrite E. split; [|intros _; by apply boot_pde_vma]. unfold kernel_entry.
    assert (user (boot_pde k) = false) as ->; [|by rewrite andb_true_r].
    unfold boot_pde. case_match; [|done]. apply user_lor.
    layout. rewrite get_pd_lma_kernel by lia. Z.div_mod_to_equations. lia.
Qed.

(** What the processor finds there: the kernel as before, and nothing else. *)
Lemma new_directory_walk p i src p' va :
  paging_ok p → directory p src → new_directory p i src p' → 0 ≤ va < 0x100000000 →
  walk p' (pd_slot i) va = if decide (kernel_pde (pde_index va)) then walk p src va else None.
Proof.
  intros Hp Hd Hn Hva. pose proof (pde_index_range va) as Hk. unfold walk.
  rewrite (nd_pde _ _ _ _ Hn) by done. case_decide as Hke.
  - destruct (kernel_pde_value p src _ Hp Hd Hke) as [-> Hvma].
    destruct (present (pde p src (pde_index va))) eqn:E; [|done].
    rewrite E, Hvma, (nd_boot _ _ _ _ Hn) by (done || apply pte_index_range). done.
  - destruct (kernel_entry (pde p src (pde_index va))) eqn:E; [|done].
    destruct Hke. by eapply kernel_entry_boot.
Qed.
End directory.

(** ** Tasks *)

Section create.
Context {L : Layout} {H : Type} `{!Allocator H} {B D : Type}.
Implicit Types (k : kernel H B D) (live : gmap Z Z) (o : gmap Z obj).
Abbreviation k_store k := (tk_store (k_tasks k)).
Abbreviation k_objs k := (objs (k_store k)).

(** The parts of the state that the creation of a task changes. *)
Definition stage k (pid : Z) (h : H) o (p : paging) : kernel H B D :=
  set_paging p (set_pid_count pid (set_store (Store h o) k)).

Lemma stage_id k : k = stage k (k_pid_count k) (st_heap (k_store k)) (k_objs k) (k_paging k).
Proof. by destruct k as [[[]]]. Qed.

Lemma stage_kmalloc k pid h o p live n :
  store_ok (Store h o) live → 0 < n ≤ KERNEL_HEAP_SIZE →
  (∃ q h' sz, in_store (kmalloc n) (stage k pid h o p) = Ret q (stage k pid h' o p) ∧ q ≠ 0 ∧ ¬ static q ∧
     n ≤ sz ∧ live !! q = None ∧ o !! q = None ∧ store_ok (Store h' o) (<[q := sz]> live))
  ∨ in_store (kmalloc n) (stage k pid h o p) = Ret 0 (stage k pid h o p).
Proof.
  intros Hs Hn. destruct (kmalloc_run _ _ n Hs Hn) as [(q & h' & sz & Hrun & Hrest)|Hrun].
  - left. exists q, h', sz. split; [exact (in_store_ret _ (stage k pid h o p) _ _ Hrun) | exact Hrest].
  - right. exact (in_store_ret _ (stage k pid h o p) _ _ Hrun).
Qed.

(** What [kfree] of a fresh object leaves. *)
Lemma stage_kfree k pid h o p live q sz :
  store_ok (Store h o) (<[q := sz]> live) → live !! q = None →
  ∃ h', in_store (kfree q) (stage k pid h o p) = Ret tt (stage k pid h' (delete q o) p) ∧
    store_ok (Store h' (delete q o)) live.
Proof.
  intros Hs Hq. destruct (kfree_run _ _ q sz Hs) as (h' & Hrun & Hok); [apply lookup_insert_eq|].
  exists h'. split; [exact (in_store_ret _ (stage k pid h o p) _ _ Hrun)|].
  rewrite delete_insert_id in Hok; done.
Qed.

Lemma stage_put_task k pid h o p q (t : task_t) :
  q ≠ 0 → in_store (put q t) (stage k pid h o p) = Ret tt (stage k pid h (<[q := OTask t]> o) p).
Proof. exact (in_put_task (stage k pid h o p) q t). Qed.

Lemma stage_update_task k pid h o p q (t : task_t) f :
  o !! q = Some (OTask t) → q ≠ 0 →
  in_store (update q f) (stage k pid h o p) = Ret tt (stage k pid h (<[q := OTask (f t)]> o) p).
Proof. exact (in_update_task (stage k pid h o p) q t f). Qed.

Lemma create_task_mm_run k pid h o p mm :
  paging_ok p → mm ≠ 0 →
  (∃ i p', create_task_mm mm (stage k pid h o p) = Ret 1 (stage k pid h (<[mm := OMm (Mm (pd_slot i) 0)]> o) p') ∧
     0 ≤ i < 16 ∧ new_directory p i (get_pd_vma (cr3 p)) p')
  ∨ create_task_mm mm (stage k pid h o p) = Ret 0 (stage k pid h o p) ∧ ∀ i, 0 ≤ i < 16 → pd_live p i.
Proof.
  intros Hp Hmm. unfold create_task_mm.
  destruct (new_directory_run p Hp) as [(i & p1 & p2 & Hrun & Hi & Hc & Hcopy & Hnew)|[Hrun Hfull]].
  - left. exists i, p2. split; [|done].
    rewrite (bind_ret _ _ _ _ _ (in_paging_ret _ (stage k pid h o p) _ _ Hrun)).
    assert (pd_slot i ≠ 0) as Hnz by (layout; lia). rewrite (proj2 (Z.eqb_neq _ 0)) by done.
    assert (get_pd_vma (Z.land (cr3 p1) PAGE_ADDRESS_MASK) = get_pd_vma (cr3 p)) as E.
    { rewrite Hc. unfold get_pd_vma, PAGE_ADDRESS_MASK. by rewrite <-Z.land_assoc. }
    rewrite (bind_ret _ _ _ _ _ (in_get_cr3 (set_paging p1 (stage k pid h o p)))). cbv zeta.
    change (k_paging (set_paging p1 (stage k pid h o p))) with p1. rewrite E.
    rewrite (bind_ret _ _ _ _ _ (in_paging_ret _ (set_paging p1 (stage k pid h o p)) _ _ Hcopy)).
    by rewrite (bind_ret _ _ _ _ _ (in_put_mm _ mm (Mm (pd_slot i) 0) Hmm)).
  - right. split; [|done]. by rewrite (bind_ret _ _ _ _ _ (in_paging_ret _ (stage k pid h o p) _ _ Hrun)).
Qed.
Lemma alloc_pid_run k pid h o p : alloc_pid (stage k pid h o p) = Ret (pid +ᵤ 1) (stage k (pid +ᵤ 1) h o p).
Proof. done. Qed.

(** The task that [create_task] fills in. *)
Definition new_task (pid parent mm stack i : Z) : task_t :=
  Task pid parent TASK_NEW 0 mm stack (stack +ᵤ PROCESS_KERNEL_STACK_SIZE) 0 (get_pd_lma (pd_slot i))
    (replicate PROCESS_FDS 0) 0 0.

(** The three pieces of memory of a new task, and its objects. *)
Record created o live o' live' (task mm stack : Z) (t : task_t) (i : Z) : Prop := {
  cr_apart : task ≠ mm ∧ task ≠ stack ∧ mm ≠ stack;
  cr_fresh q : q = task ∨ q = mm ∨ q = stack → q ≠ 0 ∧ ¬ static q ∧ live !! q = None ∧ o !! q = None;
  cr_objs : o' = <[mm := OMm (Mm (pd_slot i) 0)]> (<[task := OTask t]> o);
  cr_live : ∃ st ss sm, live' = <[mm := sm]> (<[stack := ss]> (<[task := st]> live)) ∧
    SIZEOF_TASK ≤ st ∧ PROCESS_KERNEL_STACK_SIZE ≤ ss ∧ SIZEOF_MM ≤ sm;
}.

Lemma create_task_space_run k pid h0 o live p task stack st ss (t : task_t) :
  store_ok (Store h0 (<[task := OTask t]> o)) (<[stack := ss]> (<[task := st]> live)) → paging_ok p →
  task ≠ 0 → live !! task = None → o !! task = None →
  <[task := st]> live !! stack = None → <[task := OTask t]> o !! stack = None →
  (∃ mm sm i h p', create_task_space task stack (stage k pid h0 (<[task := OTask t]> o) p) =
     Ret task (stage k pid h (<[mm := OMm (Mm (pd_slot i) 0)]>
       (<[task := OTask (set_task_cr3 (get_pd_lma (pd_slot i)) (set_mm mm t))]> o)) p') ∧
     0 ≤ i < 16 ∧ new_directory p i (get_pd_vma (cr3 p)) p' ∧
     store_ok (Store h (<[mm := OMm (Mm (pd_slot i) 0)]>
       (<[task := OTask (set_task_cr3 (get_pd_lma (pd_slot i)) (set_mm mm t))]> o)))
       (<[mm := sm]> (<[stack := ss]> (<[task := st]> live))) ∧
     SIZEOF_MM ≤ sm ∧ mm ≠ 0 ∧ ¬ static mm ∧
     <[stack := ss]> (<[task := st]> live) !! mm = None ∧ <[task := OTask t]> o !! mm = None)
  ∨ ∃ h, create_task_space task stack (stage k pid h0 (<[task := OTask t]> o) p) = Ret 0 (stage k pid h o p) ∧
     store_ok (Store h o) live.
Proof.
  intros Hs Hp Hnz Hl Ho Hls Hos. unfold create_task_space. set (o1 := <[task := OTask t]> o) in *.
  assert (∀ h1, store_ok (Store h1 o1) (<[stack := ss]> (<[task := st]> live)) →
    ∃ h, (in_store (kfree stack);; in_store (kfree task);; mret 0) (stage k pid h1 o1 p) = Ret 0 (stage k pid h o p) ∧
      store_ok (Store h o) live) as Hundo.
  { intros h1 Hs1. destruct (stage_kfree k pid h1 o1 p _ stack ss Hs1 Hls) as (h2 & Hf1 & Hs2).
    rewrite (delete_id o1) in Hf1, Hs2 by done. rewrite (bind_ret _ _ _ _ _ Hf1).
    destruct (stage_kfree k pid h2 o1 p _ task st Hs2 Hl) as (h & Hf2 & Hs3).
    unfold o1 in Hf2, Hs3 |- *. rewrite (delete_insert_id o) in Hf2, Hs3 by done.
    exists h. by rewrite (bind_ret _ _ _ _ _ Hf2). }
  assert (0 < SIZEOF_MM ≤ KERNEL_HEAP_SIZE) as Hr by done.
  destruct (stage_kmalloc k pid h0 o1 p _ _ Hs Hr)
    as [(mm & h1 & sm & Hm & Hmnz & Hmst & Hsm & Hlm & Hom & Hs1)|Hm]; rewrite (bind_ret _ _ _ _ _ Hm).
  2:{ right. exact (Hundo h0 Hs). }
  rewrite (proj2 (Z.eqb_neq mm 0)) by done.
  assert (mm ≠ task) as Hne. { intros ->. unfold o1 in Hom. by rewrite lookup_insert_eq in Hom. }
  destruct (create_task_mm_run k pid h1 o1 p mm Hp Hmnz) as [(i & p' & Hrun & Hi & Hnew)|[Hrun _]].
  - left. exists mm, sm, i, h1, p'. rewrite (bind_ret _ _ _ _ _ Hrun). cbn [Z.eqb].
    set (o2 := <[mm := OMm (Mm (pd_slot i) 0)]> o1).
    assert (o2 !! task = Some (OTask t)) as E2 by (unfold o2; rewrite lookup_insert_ne by done; apply lookup_insert_eq).
    rewrite (bind_ret _ _ _ _ _ (stage_update_task k pid h1 o2 p' task t (set_mm mm) E2 Hnz)).
    set (o3 := <[task := OTask (set_mm mm t)]> o2).
    assert (o3 !! mm = Some (OMm (Mm (pd_slot i) 0))) as E3
      by (unfold o3; rewrite lookup_insert_ne by done; apply lookup_insert_eq).
    rewrite (bind_ret _ _ _ _ _ (in_load_mm (stage k pid h1 o3 p') mm _ E3)). cbn [pgd].
    assert (o3 !! task = Some (OTask (set_mm mm t))) as E4 by apply lookup_insert_eq.
    rewrite (bind_ret _ _ _ _ _ (stage_update_task k pid h1 o3 p' task _ (set_task_cr3 (get_pd_lma (pd_slot i))) E4 Hnz)).
    unfold o3. rewrite insert_insert_eq. unfold o2, o1. rewrite (insert_insert_ne _ task mm) by done.
    rewrite insert_insert_eq. do 3 (split; [done|]). split; [|done].
    set (t' := set_task_cr3 _ _).
    assert (<[task := OTask t']> o1 = <[task := OTask t']> o) as E5 by apply insert_insert_eq. rewrite <-E5.
    assert (store_ok (Store h1 (<[task := OTask t']> o1)) (<[mm := sm]> (<[stack := ss]> (<[task := st]> live)))) as Hs2.
    { exact (store_ok_update (Store h1 o1) _ task (OTask t) (OTask t') Hs1 (lookup_insert_eq _ _ _) ltac:(done)). }
    exact (store_ok_put _ _ mm sm (OMm (Mm (pd_slot i) 0)) Hs2 (lookup_insert_eq _ _ _) Hsm).
  - right. rewrite (bind_ret _ _ _ _ _ Hrun). cbn [Z.eqb].
    destruct (stage_kfree k pid h1 o1 p _ mm sm Hs1 Hlm) as (h2 & Hf & Hs2).
    rewrite (delete_id o1) in Hf, Hs2 by done. rewrite (bind_ret _ _ _ _ _ Hf). exact (Hundo h2 Hs2).
Qed.

Lemma create_task_run k pid h0 o0 p0 live parent :
  store_ok (Store h0 o0) live → paging_ok p0 →
  ∃ r pid' h o p live', create_task parent (stage k pid h0 o0 p0) = Ret r (stage k pid' h o p) ∧
    store_ok (Store h o) live' ∧
    (r = 0 ∧ o = o0 ∧ live' = live ∧ p = p0 ∨
     ∃ mm stack i, pid' = pid +ᵤ 1 ∧ 0 ≤ i < 16 ∧ new_directory p0 i (get_pd_vma (cr3 p0)) p ∧
       created o0 live o live' r mm stack (new_task pid' parent mm stack i) i).
Proof.
  intros Hs0 Hp. set (pid' := pid +ᵤ 1).
  unfold create_task. assert (0 < SIZEOF_TASK ≤ KERNEL_HEAP_SIZE) as Hr1 by done.
  destruct (stage_kmalloc k pid h0 o0 p0 live _ Hs0 Hr1)
    as [(task & h1 & sz1 & Hm1 & Hnz1 & Hst1 & Hsz1 & Hl1 & Ho1 & Hs1)|Hm1]; rewrite (bind_ret _ _ _ _ _ Hm1); clear Hm1.
  2:{ do 6 eexists. split; [reflexivity|]. split; [exact Hs0|]. by left. }
  rewrite (proj2 (Z.eqb_neq task 0)), (bind_ret _ _ _ _ _ (stage_put_task k pid h1 o0 p0 task _ Hnz1)) by done.
  rewrite (bind_ret _ _ _ _ _ (alloc_pid_run k pid _ _ p0)). fold pid'.
  rewrite (bind_ret _ _ _ _ _ (stage_update_task k pid' h1 _ p0 task _ _ (lookup_insert_eq _ _ _) Hnz1)).
  rewrite insert_insert_eq. set (t1 := set_identity pid' parent zero_task). set (o1 := <[task := OTask t1]> o0).
  assert (store_ok (Store h1 o1) (<[task := sz1]> live)) as Hs1'.
  { apply (store_ok_put _ _ task sz1 (OTask t1) Hs1); [apply lookup_insert_eq | exact Hsz1]. }
  assert (0 < PROCESS_KERNEL_STACK_SIZE ≤ KERNEL_HEAP_SIZE) as Hr2 by done.
  destruct (stage_kmalloc k pid' h1 o1 p0 _ _ Hs1' Hr2)
    as [(stack & h2 & sz2 & Hm2 & Hnz2 & Hst2 & Hsz2 & Hl2 & Ho2 & Hs2)|Hm2]; rewrite (bind_ret _ _ _ _ _ Hm2); clear Hm2.
  2:{ destruct (stage_kfree k pid' h1 o1 p0 live task sz1 Hs1' Hl1) as (h3 & Hf & Hs3).
      cbn [Z.eqb]. rewrite (bind_ret _ _ _ _ _ Hf). unfold o1 in Hs3 |- *. rewrite delete_insert_id in Hs3 |- * by done.
      do 6 eexists. split; [reflexivity|]. split; [exact Hs3|]. by left. }
  rewrite (proj2 (Z.eqb_neq stack 0)) by done.
  assert (o1 !! task = Some (OTask t1)) as E1 by apply lookup_insert_eq.
  rewrite (bind_ret _ _ _ _ _ (stage_update_task k pid' h2 o1 p0 task t1 _ E1 Hnz1)).
  set (t2 := set_stack stack (stack +ᵤ PROCESS_KERNEL_STACK_SIZE) t1).
  assert (<[task := OTask t2]> o1 = <[task := OTask t2]> o0) as E2 by apply insert_insert_eq. rewrite E2.
  assert (store_ok (Store h2 (<[task := OTask t2]> o0)) (<[stack := sz2]> (<[task := sz1]> live))) as Hs2'.
  { rewrite <-E2. by apply (store_ok_update (Store h2 o1) _ task (OTask t1)). }
  assert (<[task := OTask t2]> o0 !! stack = None) as Ho2'.
  { unfold o1 in Ho2. apply lookup_insert_None in Ho2 as [? ?]. by apply lookup_insert_None. }
  destruct (create_task_space_run k pid' h2 o0 live p0 task stack sz1 sz2 t2 Hs2' Hp Hnz1 Hl1 Ho1 Hl2 Ho2')
    as [(mm & sz3 & i & h3 & p' & Hrun & Hi & Hnew & Hs3 & Hsz3 & Hnz3 & Hst3 & Hl3 & Ho3)|(h3 & Hrun & Hs3)].
  2:{ do 6 eexists. split; [exact Hrun|]. split; [exact Hs3|]. by left. }
  do 6 eexists. split; [exact Hrun|]. split; [exact Hs3|]. right. exists mm, stack, i. do 3 (split; [done|]).
  apply lookup_insert_None in Ho2' as [Ho2' Hne2]. apply lookup_insert_None in Ho3 as [Ho3 Hne3].
  apply lookup_insert_None in Hl3 as [Hl3 Hne4]. apply lookup_insert_None in Hl3 as [Hl3 _].
  apply lookup_insert_None in Hl2 as [Hl2 _].
  constructor; [done|by intros q [-> | [-> | ->]]|done|]. by exists sz1, sz2, sz3.
Qed.


Lemma new_directory_mem_ok p f i p' :
  mem_ok p f → tlb_coherent p → new_directory p i (get_pd_vma (cr3 p)) p' → mem_ok p' f ∧ tlb_coherent p'.
Proof.
  intros Hm Ht Hn. pose proof (mo_paging _ _ Hm) as Hp. split.
  - apply (mem_ok_entries p); [by eapply nd_ok | | done]. intros i' k m e. apply (nd_entry _ _ _ _ Hn).
  - apply (tlb_coherent_ext p); [|apply (nd_cr3 _ _ _ _ Hn)|apply (nd_tlb _ _ _ _ Hn)|done].
    intros va Hva. apply (nd_old _ _ _ _ Hn); [apply (po_cr3 _ Hp)|done].
Qed.

(** C11 (processes, [create_task]): a new task gets the next number, a kernel stack, a
    structure for its memory and a page directory of its own, in memory that
    nothing else uses; its directory translates the kernel's addresses as the
    current one and no other address, and all other directories translate as
    before.  If memory or directories run out, 0 is returned and everything but the
    number is given back.  The memory invariant is kept either way. *)
Theorem create_task_correct k live parent :
  store_ok (k_store k) live → mem_ok (k_paging k) (k_frames k) → tlb_coherent (k_paging k) →
  ∃ r k', create_task parent k = Ret r k' ∧ k_frames k' = k_frames k ∧
    mem_ok (k_paging k') (k_frames k') ∧ tlb_coherent (k_paging k') ∧
    ((r = 0 ∧ k_objs k' = k_objs k ∧ store_ok (k_store k') live ∧ k_paging k' = k_paging k)
     ∨ ∃ mm stack i live', store_ok (k_store k') live' ∧ k_pid_count k' = k_pid_count k +ᵤ 1 ∧
         created (k_objs k) live (k_objs k') live' r mm stack (new_task (k_pid_count k') parent mm stack i) i ∧
         ¬ pd_live (k_paging k) i ∧ (∀ i', pd_live (k_paging k') i' ↔ i' = i ∨ pd_live (k_paging k) i') ∧
         (∀ va, 0 ≤ va < 0x100000000 → walk (k_paging k') (pd_slot i) va =
            if decide (kernel_pde (pde_index va)) then walk (k_paging k) (get_pd_vma (cr3 (k_paging k))) va else None) ∧
         (∀ pgd va, directory (k_paging k) pgd → 0 ≤ va < 0x100000000 →
            walk (k_paging k') pgd va = walk (k_paging k) pgd va)).
Proof.
  intros Hs Hm Ht. pose proof (mo_paging _ _ Hm) as Hp.
  assert (store_ok (Store (st_heap (k_store k)) (k_objs k)) live) as Hs0 by (by destruct k as [[[]]]).
  destruct (create_task_run k (k_pid_count k) _ _ _ live parent Hs0 Hp)
    as (r & pid & h & o & p & live' & Hrun & Hs' & Hres). rewrite <-stage_id in Hrun.
  exists r. eexists. split; [exact Hrun|]. split; [done|].
  destruct Hres as [(-> & -> & -> & ->)|(mm & stack & i & -> & Hi & Hnew & Hcr)].
  - split; [exact Hm|]. split; [exact Ht|]. left. do 3 (split; [done|]). done.
  - destruct (new_directory_mem_ok _ _ _ _ Hm Ht Hnew) as [Hm' Ht']. split; [exact Hm'|]. split; [exact Ht'|].
    right. exists mm, stack, i, live'. split; [exact Hs'|]. split; [done|]. split; [exact Hcr|].
    split; [apply (nd_fresh _ _ _ _ Hnew)|]. split; [apply (nd_live _ _ _ _ Hnew)|]. split.
    + intros va Hva. apply (new_directory_walk _ _ _ _ va Hp); [apply (po_cr3 _ Hp)|exact Hnew|exact Hva].
    + apply (nd_old _ _ _ _ Hnew).
Qed.
End create.

#[local] Existing Instance sample_layout.

Lemma create_task_correct_witness :
  ∃ r k', create_task 0 fault_kernel = Ret r k' ∧ r ≠ 0 ∧ mem_ok (k_paging k') (k_frames k').
Proof.
  destruct (create_task_correct fault_kernel (live sample_segs) 0) as (r & k' & Hrun & _ & Hm & _ & _).
  - exact (sample_store_ok the_vma).
  - exact (rn_mem _ _ _ _ fault_running).
  - exact (rn_tlb _ _ _ _ fault_running).
  - exists r, k'. split; [exact Hrun|]. split; [|exact Hm].
    assert (match create_task 0 fault_kernel with Ret r _ => negb (r =? 0) | Fault _ _ => false end = true) as E
      by (vm_compute; reflexivity).
    rewrite Hrun in E. apply negb_true_iff, Z.eqb_neq in E. exact E.
Defined.
