(* ===== verification/Machine.v ===== *)
(** * The machine: the kernel with its tables

    The state of the whole kernel, and the entry points that the processor calls:
    the dispatchers of interrupts and exceptions (src/kernel/interrupts.c,
    src/kernel/exceptions.c), the timer (src/kernel/timer.c). *)

From S2P Require Import Prelude Layout Gdt Interrupts Allocator Heap Ports Console Tty Pci BlockDevice Disk Frames Paging Paths Fs Objects Linked Mmap Kernel Space Files Fault Sched Switch Process.

(** The functions that the tables of handlers refer to. *)
Inductive irq_handler := timer_irq | keyboard_irq | ata_irq.
Inductive exception_handler := page_fault.
Inductive syscall_handler := sys_exit_handler | sys_read_handler | sys_write_handler | sys_execve_handler.

Record machine (H B D : Type) := Machine {
  m_kernel : kernel H B D;
  m_segments : segments;                                 (* gdt.c *)
  m_vectors : vectors;                                   (* interrupts.c: idt *)
  m_irq_handlers : list (option irq_handler);            (* interrupts.c *)
  m_exception_handlers : list (option exception_handler); (* exceptions.c *)
  m_syscall_handlers : list (option syscall_handler);    (* syscall.c *)
  m_ticks : Z;                                           (* timer.c: timer_ticks *)
  m_tty : tty * list (list Z);                           (* tty.c, and the keys to come *)
  m_pci : pci;                                           (* pci.c *)
}.
Arguments Machine {H B D} _ _ _ _ _ _ _ _ _.
Arguments m_kernel {H B D} _.
Arguments m_segments {H B D} _.
Arguments m_vectors {H B D} _.
Arguments m_irq_handlers {H B D} _.
Arguments m_exception_handlers {H B D} _.
Arguments m_syscall_handlers {H B D} _.
Arguments m_ticks {H B D} _.
Arguments m_tty {H B D} _.
Arguments m_pci {H B D} _.

(** ** Commands of a part *)

Section parts.
Context {H B D : Type}.
Implicit Types s : machine H B D.

Definition set_kernel x s : machine H B D := Machine x (m_segments s) (m_vectors s) (m_irq_handlers s)
  (m_exception_handlers s) (m_syscall_handlers s) (m_ticks s) (m_tty s) (m_pci s).
Definition set_segments x s : machine H B D := Machine (m_kernel s) x (m_vectors s) (m_irq_handlers s)
  (m_exception_handlers s) (m_syscall_handlers s) (m_ticks s) (m_tty s) (m_pci s).
Definition set_vectors x s : machine H B D := Machine (m_kernel s) (m_segments s) x (m_irq_handlers s)
  (m_exception_handlers s) (m_syscall_handlers s) (m_ticks s) (m_tty s) (m_pci s).
Definition set_irq_handlers x s : machine H B D := Machine (m_kernel s) (m_segments s) (m_vectors s) x
  (m_exception_handlers s) (m_syscall_handlers s) (m_ticks s) (m_tty s) (m_pci s).
Definition set_exception_handlers x s : machine H B D := Machine (m_kernel s) (m_segments s) (m_vectors s)
  (m_irq_handlers s) x (m_syscall_handlers s) (m_ticks s) (m_tty s) (m_pci s).
Definition set_syscall_handlers x s : machine H B D := Machine (m_kernel s) (m_segments s) (m_vectors s)
  (m_irq_handlers s) (m_exception_handlers s) x (m_ticks s) (m_tty s) (m_pci s).
Definition set_ticks x s : machine H B D := Machine (m_kernel s) (m_segments s) (m_vectors s) (m_irq_handlers s)
  (m_exception_handlers s) (m_syscall_handlers s) x (m_tty s) (m_pci s).
Definition set_tty x s : machine H B D := Machine (m_kernel s) (m_segments s) (m_vectors s) (m_irq_handlers s)
  (m_exception_handlers s) (m_syscall_handlers s) (m_ticks s) x (m_pci s).
Definition set_pci x s : machine H B D := Machine (m_kernel s) (m_segments s) (m_vectors s) (m_irq_handlers s)
  (m_exception_handlers s) (m_syscall_handlers s) (m_ticks s) (m_tty s) x.

(** [m] on the part [get] of the machine. *)
Definition on {T A} (get : machine H B D → T) (set : T → machine H B D → machine H B D) (m : M T A)
    : M (machine H B D) A := λ s,
  match m (get s) with
  | Ret a t => Ret a (set t s)
  | Fault f t => Fault f (set t s)
  end.

Definition on_kernel {A} (m : M (kernel H B D) A) : M (machine H B D) A := on m_kernel set_kernel m.
Definition on_segments {A} (m : M segments A) : M (machine H B D) A := on m_segments set_segments m.
Definition on_vectors {A} (m : M vectors A) : M (machine H B D) A := on m_vectors set_vectors m.
Definition on_tty {A} (m : M (tty * list (list Z)) A) : M (machine H B D) A := on m_tty set_tty m.
Definition on_ports {A} (m : M D A) : M (machine H B D) A := on_kernel (in_console (lift (T := D) m)).
Definition on_disk {A} (m : M B A) : M (machine H B D) A := on_kernel (in_fs (lift (T := B) m)).

Lemma on_ret {T A} get set (m : M T A) s a t :
  m (get s) = Ret a t → on get set m s = Ret a (set t s).
Proof. intros E. unfold on. by rewrite E. Qed.

Lemma on_kernel_ret {A} (m : M (kernel H B D) A) s a k :
  m (m_kernel s) = Ret a k → on_kernel m s = Ret a (set_kernel k s).
Proof. apply on_ret. Qed.
End parts.

(** ** The timer *)

Definition PIT_CONTROL_REGISTER : Z := 0x43.
Definition PIT_CHANNEL_0_DATA_REGISTER : Z := 0x40.
Definition PIT_BASE_FREQUENCY : Z := 1193180.
Definition TIMER_HZ : Z := 100.
Definition SCHEDULER_TICK_INTERVAL : Z := 5.

Section code.
Context {L : Layout} {H : Type} `{!Allocator H} {B : Type} `{!BlockDevice B} `{!DiskDriver B} {D : Type} `{!Bus D}.
Abbreviation K := (M (machine H B D)).

Definition timer_irq_handler : K unit := modify (λ s, set_ticks (m_ticks s +ᵤ 1) s).

(** The divisor and its two bytes. *)
Definition init_pit : M D unit :=
  let ticks_per_int := PIT_BASE_FREQUENCY `div` TIMER_HZ in
  outb PIT_CONTROL_REGISTER 0x36;;
  outb PIT_CHANNEL_0_DATA_REGISTER (u8 ticks_per_int);;
  outb PIT_CHANNEL_0_DATA_REGISTER (u8 (Z.shiftr ticks_per_int 8)).

(** ** The dispatchers *)

(** [keyboard_irq_handler] on the machine's terminal and ports. *)
Definition on_keyboard : K unit :=
  on (λ s, ((m_tty s).1, (k_console (m_kernel s)).2))
    (λ x s, set_tty (x.1, (m_tty s).2) (set_kernel (set_console ((k_console (m_kernel s)).1, x.2) (m_kernel s)) s))
    keyboard_irq_handler.

Definition run_irq_handler (h : irq_handler) : K unit :=
  match h with
  | timer_irq => timer_irq_handler
  | keyboard_irq => on_keyboard
  | ata_irq => on_disk disk_irq
  end.

(** [esp] is the stack pointer at the call; the result is the stack pointer of the
    task switched to, if the interrupt ends in another task. *)
Definition interrupts_dispatch (esp irq : Z) : K (option Z) :=
  handlers ← gets m_irq_handlers;
  (if irq <? 16 then
     h ← nth_or handlers irq;
     match h with Some h => run_irq_handler h | None => mret tt end
   else mret tt);;
  on_ports (pic_send_eoi irq);;
  now ← gets m_ticks;
  if (irq =? 0) && (now mod SCHEDULER_TICK_INTERVAL =? 0) then on_kernel (schedule esp) else mret None.

(** [cr2] is the address that the processor has stored there. *)
Definition exceptions_dispatch (cr2 exc err_code : Z) : K unit :=
  handlers ← gets m_exception_handlers;
  if exc <? 32 then
    h ← nth_or handlers exc;
    match h with Some page_fault => on_kernel (page_fault_handler err_code cr2) | None => mret tt end
  else mret tt.
End code.
