(* ===== verification/Syscall.v ===== *)
(** * System calls (src/kernel/syscall.c)

    The dispatcher, the four calls and their access to user memory.  An access
    from kernel code to a user page that is not there takes the page fault and is
    tried again; an access to kernel memory through a user pointer, which the
    kernel does not refuse, leaves the model. *)

From S2P Require Import Prelude Shell Layout Gdt Interrupts Allocator Heap Ports Console Tty Pci BlockDevice Disk Frames Paging Paths Fs Objects Linked Mmap Kernel Space Files Fault Elf Sched Switch Process Machine.

(** src/include/kernel/syscall.h *)
Definition SYSCALL_HANDLER_ENTRIES : Z := 256.

(** src/include/kernel/memory.h *)
Definition USER_STACK_BASE : Z := 0xbffff000.
Definition USER_STACK_TOP : Z := USER_STACK_BASE + PAGE_SIZE.

(** What [pusha] and the interrupt have pushed. *)
Record syscall_registers_t := Registers {
  edi : Z; esi : Z; ebp : Z; old_kernel_esp : Z; ebx : Z; edx : Z; ecx : Z; eax : Z;
  user_eip : Z; user_cs : Z; user_eflags : Z; user_esp : Z; user_ss : Z;
}.

Definition set_eax v r := Registers (edi r) (esi r) (ebp r) (old_kernel_esp r) (ebx r) (edx r) (ecx r) v
  (user_eip r) (user_cs r) (user_eflags r) (user_esp r) (user_ss r).

(** How a call ends: with a result and the registers, or in another task, whose
    stack pointer is given. *)
Inductive outcome := Returns (ret : Z) (regs : syscall_registers_t) | Leaves (esp : Z).

(** The registers that [popa] and [iret] load, or the stack pointer of another task. *)
Inductive next_step := Resume (regs : syscall_registers_t) | SwitchTo (esp : Z).

Section user_memory.
Context {L : Layout} {H : Type} `{!Allocator H} {B : Type} `{!BlockDevice B} {D : Type} `{!Bus D}.
Abbreviation K := (M (kernel H B D)).

(** The byte at [va], if its page is there. *)
Definition load_byte (va : Z) : K Z := λ k,
  match translate (k_paging k) va with
  | Some pa => if pa <? 0x400000 then Fault WildAccess k else Ret (default 0 (k_user k !! pa)) k
  | None => Fault PageFault k
  end.

(** A load from kernel code: error code 0 is a read of an absent page. *)
Definition fetch_byte (va : Z) : K Z := λ k,
  match load_byte va k with
  | Fault PageFault k => (page_fault_handler 0x0 va;; load_byte va) k
  | r => r
  end.

(** The C string at [va]; one of more than 64 KiB is out of the model. *)
Fixpoint fetch_string (fuel : nat) (va : Z) : K (list Z) :=
  match fuel with
  | O => fail NoFuel
  | S fuel =>
      c ← fetch_byte va;
      if c =? 0 then mret []
      else
        rest ← fetch_string fuel (va +ᵤ 1);
        mret (c :: rest)
  end.

Definition string_fuel : nat := Z.to_nat 0x10000.
End user_memory.

Section code.
Context {L : Layout} {H : Type} `{!Allocator H} {B : Type} `{!BlockDevice B} {D : Type} `{!Bus D}.
Abbreviation K := (M (machine H B D)).

(** [tty_read] with the user's buffer: every character is stored as it is read. *)
Fixpoint tty_read_to (count : nat) (buf : Z) : K unit :=
  match count with
  | O => mret tt
  | S count =>
      s ← gets m_tty;
      on_tty (wait_not_empty (S (length s.2)));;
      c ← on_tty (lift tty_queue_pop_char);
      on_kernel (touch_byte buf c);;
      tty_read_to count (buf +ᵤ 1)
  end.

Definition sys_read (regs : syscall_registers_t) : K outcome :=
  let fd := ebx regs in
  let buf := ecx regs in
  let count := edx regs in
  if negb (fd =? 0) then mret (Returns (-1) regs)
  else
    tty_read_to (Z.to_nat count) buf;;
    mret (Returns (i32 count) regs).

(** [tty_write] with the user's buffer. *)
Definition tty_write_from (buf count : Z) : K unit :=
  for_range 0 count (λ written,
    c ← on_kernel (fetch_byte (buf +ᵤ written));
    on_kernel (in_console (console_putc c));;
    mret tt).

Definition sys_write (regs : syscall_registers_t) : K outcome :=
  let fd := ebx regs in
  let buf := ecx regs in
  let count := edx regs in
  if (negb (fd =? 1) && negb (fd =? 2)) || (buf =? 0) then mret (Returns (-1) regs)
  else
    tty_write_from buf count;;
    mret (Returns (i32 count) regs).

(** [esp] is the stack pointer at the call of [switch_to]. *)
Definition sys_exit (esp : Z) (regs : syscall_registers_t) : K outcome :=
  esp ← on_kernel (exit_task esp (i32 (ebx regs)));
  mret (Leaves esp).

(** The registers that a program starts with. *)
Definition start_registers (entry_point : Z) (regs : syscall_registers_t) : syscall_registers_t :=
  Registers 0 0 0 (old_kernel_esp regs) 0 0 0 (eax regs) entry_point (user_cs regs) 0x202 USER_STACK_TOP (user_ss regs).

Definition execve_open (exec_path : Z) : M (kernel H B D) Z :=
  exec_file ← in_store (kmalloc SIZEOF_FILE);
  if exec_file =? 0 then mret 0
  else
    path ← (if exec_path =? 0 then mret None else p ← fetch_string string_fuel exec_path; mret (Some p));
    ok ← vfs_open path exec_file;
    if ok =? 0 then in_store (kfree exec_file);; mret 0
    else mret exec_file.

(** The new address space, 0 when there is none: then the file is closed. *)
Definition execve_mm (exec_file : Z) : M (kernel H B D) Z :=
  new_mm ← in_store (kmalloc SIZEOF_MM);
  if new_mm =? 0 then
    vfs_close exec_file;;
    in_store (kfree exec_file);;
    mret 0
  else
    ok ← create_task_mm new_mm;
    if ok =? 0 then
      in_store (kfree new_mm);;
      vfs_close exec_file;;
      in_store (kfree exec_file);;
      mret 0
    else mret new_mm.

(** [phdr_address] is where [elf32_load_exec] has its array on the stack. *)
Definition sys_execve (phdr_address : Z) (regs : syscall_registers_t) : M (kernel H B D) outcome :=
  exec_file ← execve_open (ebx regs);
  if exec_file =? 0 then mret (Returns (-1) regs)
  else
    new_mm ← execve_mm exec_file;
    if new_mm =? 0 then mret (Returns (-1) regs)
    else
      task ← in_tasks get_current_task;
      t ← in_store (load (T := task_t) task);
      let old_mm := t_mm t in
      switch_mm task new_mm;;
      stack ← in_tasks (vm_brk_flags USER_STACK_BASE PAGE_SIZE);
      entry ← (if stack =? 0 then mret None else elf32_load_exec phdr_address exec_file);
      match entry with
      | None =>
          switch_mm task old_mm;;
          release_mm new_mm;;
          mret (Returns (-1) regs)
      | Some entry_point =>
          release_mm old_mm;;
          print "Pid: ";;
          t ← in_store (load (T := task_t) task);
          in_console (console_put_dec32 (t_pid t));;
          in_console (console_putc newline);;
          mret (Returns 0 (start_registers entry_point regs))
      end.

Definition run_syscall (esp phdr_address : Z) (h : syscall_handler) (regs : syscall_registers_t) : K outcome :=
  match h with
  | sys_exit_handler => sys_exit esp regs
  | sys_read_handler => sys_read regs
  | sys_write_handler => sys_write regs
  | sys_execve_handler => on_kernel (sys_execve phdr_address regs)
  end.

Definition syscall_dispatch (esp phdr_address : Z) (regs : syscall_registers_t) : K next_step :=
  let num := eax regs in
  handlers ← gets m_syscall_handlers;
  h ← (if num <? SYSCALL_HANDLER_ENTRIES then nth_or handlers num else mret None);
  match h with
  | None => mret (Resume (set_eax (u32 (-1)) regs))
  | Some h =>
      r ← run_syscall esp phdr_address h regs;
      match r with
      | Returns ret regs => mret (Resume (set_eax (u32 ret) regs))
      | Leaves esp => mret (SwitchTo esp)
      end
  end.

(** The comparison of a [uint8_t] with 256 is always true. *)
Definition register_syscall (num : Z) (handler : syscall_handler) : M (list (option syscall_handler)) unit :=
  if u8 num <? SYSCALL_HANDLER_ENTRIES then put_nth (u8 num) (Some handler) else mret tt.

(** The calls that [init_syscall] registers. *)
Definition register_syscalls : M (list (option syscall_handler)) unit :=
  register_syscall SYS_EXIT sys_exit_handler;;
  register_syscall SYS_READ sys_read_handler;;
  register_syscall SYS_WRITE sys_write_handler;;
  register_syscall SYS_EXECVE sys_execve_handler.
End code.

(** ** Properties *)

Section properties.
Context {L : Layout} {H : Type} `{!Allocator H} {B : Type} `{!BlockDevice B} {D : Type} `{!Bus D}.
Implicit Types (s : machine H B D) (k : kernel H B D) (r : syscall_registers_t).

(** The table that [init_syscall] leaves: the four calls, everything else null. *)
Definition registered (l : list (option syscall_handler)) : Prop :=
  register_syscalls (replicate 256 None) = Ret tt l.

Lemma registered_lookup l : registered l →
  ∀ n, 0 ≤ n < 256 → l !! Z.to_nat n = Some (if n =? SYS_EXIT then Some sys_exit_handler
    else if n =? SYS_READ then Some sys_read_handler else if n =? SYS_WRITE then Some sys_write_handler
    else if n =? SYS_EXECVE then Some sys_execve_handler else None).
Proof.
  intros Hl n Hn. assert (l = <[59%nat := Some sys_execve_handler]> (<[4%nat := Some sys_write_handler]>
    (<[3%nat := Some sys_read_handler]> (<[1%nat := Some sys_exit_handler]> (replicate 256 None))))) as ->.
  { unfold registered in Hl. vm_compute in Hl. injection Hl as <-. vm_compute. reflexivity. }
  unfold SYS_EXIT, SYS_READ, SYS_WRITE, SYS_EXECVE. rewrite !list_lookup_insert, !length_insert, length_replicate.
  destruct (Z.eqb_spec n 1) as [->|]; [done|]. destruct (Z.eqb_spec n 3) as [->|]; [done|].
  destruct (Z.eqb_spec n 4) as [->|]; [done|]. destruct (Z.eqb_spec n 59) as [->|]; [done|].
  rewrite !decide_False by lia. by rewrite lookup_replicate_2 by lia.
Qed.

(** What a call may do to the registers that the program resumes with. *)
Record resumes r r' : Prop := {
  rs_cs : user_cs r' = user_cs r;
  rs_ss : user_ss r' = user_ss r;
  rs_eax : 0 ≤ eax r' < 0x100000000;
  rs_rest : r' = set_eax (eax r') r ∨
    eax r = SYS_EXECVE ∧ eax r' = 0 ∧ ∃ entry_point, r' = set_eax 0 (start_registers entry_point r);
}.

Lemma resumes_eax v r : resumes r (set_eax (u32 v) r).
Proof. constructor; [done..|apply u32_range|by left]. Qed.

(** The outcomes of a call that changes no register. *)
Definition plain_outcome (o : outcome) r : Prop := match o with Returns _ r' => r' = r | Leaves _ => True end.

Lemma sys_read_outcome r s o s' : sys_read r s = Ret o s' → plain_outcome o r.
Proof.
  unfold sys_read. destruct (negb _); [by intros [= <- _]|].
  intros (? & ? & _ & [= <- _])%bind_Ret_inv. done.
Qed.
Lemma sys_write_outcome r s o s' : sys_write r s = Ret o s' → plain_outcome o r.
Proof.
  unfold sys_write. destruct (_ || _); [by intros [= <- _]|].
  intros (? & ? & _ & [= <- _])%bind_Ret_inv. done.
Qed.
Lemma sys_exit_outcome esp r s o s' : sys_exit esp r s = Ret o s' → plain_outcome o r.
Proof. unfold sys_exit. intros (? & ? & _ & [= <- _])%bind_Ret_inv. done. Qed.

Lemma sys_execve_outcome phdr_address r k o k' : sys_execve phdr_address r k = Ret o k' →
  o = Returns (-1) r ∨ ∃ entry_point, o = Returns 0 (start_registers entry_point r).
Proof.
  unfold sys_execve. intros (file & k1 & _ & Hrun)%bind_Ret_inv.
  destruct (file =? 0); [left; by injection Hrun as <- _|].
  apply bind_Ret_inv in Hrun as (mm & k2 & _ & Hrun). destruct (mm =? 0); [left; by injection Hrun as <- _|].
  do 4 apply bind_Ret_inv in Hrun as (? & ? & _ & Hrun). apply bind_Ret_inv in Hrun as ([entry_point|] & ? & _ & Hrun).
  - right. exists entry_point. repeat apply bind_Ret_inv in Hrun as (? & ? & _ & Hrun). by injection Hrun as <- _.
  - left. repeat apply bind_Ret_inv in Hrun as (? & ? & _ & Hrun). by injection Hrun as <- _.
Qed.

Lemma on_kernel_Ret_inv {A} (m : M (kernel H B D) A) s a s' :
  on_kernel m s = Ret a s' → ∃ k, m (m_kernel s) = Ret a k.
Proof. unfold on_kernel, on. destruct (m (m_kernel s)); [intros [= <- _]; eauto | done]. Qed.

(** Only for calls that the model can follow: a store of [sys_read] through a pointer
    into kernel memory, where the saved registers are, is a [WildAccess]. *)
Lemma syscall_resumes esp phdr_address r s r' s' :
  registered (m_syscall_handlers s) → 0 ≤ eax r →
  syscall_dispatch esp phdr_address r s = Ret (Resume r') s' → resumes r r'.
Proof.
  intros Hreg Heax. unfold syscall_dispatch. rewrite gets_bind. intros (h & s1 & Hh & Hrun)%bind_Ret_inv.
  destruct h as [h|]; [|injection Hrun as <- _; apply resumes_eax].
  apply bind_Ret_inv in Hrun as (o & s2 & Ho & Hrun). destruct o as [ret r2|]; [|done].
  injection Hrun as <- _. destruct h; cbn [run_syscall] in Ho.
  - apply sys_exit_outcome in Ho as ->. apply resumes_eax.
  - apply sys_read_outcome in Ho as ->. apply resumes_eax.
  - apply sys_write_outcome in Ho as ->. apply resumes_eax.
  - apply on_kernel_Ret_inv in Ho as (k & Ho).
    apply sys_execve_outcome in Ho as [[= -> ->]|(entry_point & [= -> ->])]; [apply resumes_eax|].
    assert (eax r = SYS_EXECVE) as E.
    { destruct (Z.ltb_spec (eax r) SYSCALL_HANDLER_ENTRIES) as [Hlt|]; [|done]. unfold SYSCALL_HANDLER_ENTRIES in Hlt.
      rewrite (nth_or_ret _ _ _ _ Heax (registered_lookup _ Hreg (eax r) (conj Heax Hlt))) in Hh.
      injection Hh as Hh _. revert Hh. repeat case_match; try done. intros _. by apply Z.eqb_eq. }
    constructor; [done..| |right; split; [done|split; [done|by exists entry_point]]]. done.
Qed.

(** What the calls refuse: a number that no call has, a read from anything but
    standard input, a write to anything but standard output and error or from the
    null pointer. *)
Definition refused r : bool :=
  if eax r =? SYS_EXIT then false
  else if eax r =? SYS_READ then negb (ebx r =? 0)
  else if eax r =? SYS_WRITE then (negb (ebx r =? 1) && negb (ebx r =? 2)) || (ecx r =? 0)
  else negb (eax r =? SYS_EXECVE).

(** (system calls, [syscall_dispatch]): a call that the kernel does not have, open,
    close and fork among them, and a read or write with a bad descriptor or a null
    buffer give -1 and change nothing in the machine. *)
Theorem syscall_refused esp phdr_address r s :
  registered (m_syscall_handlers s) → 0 ≤ eax r → refused r = true →
  syscall_dispatch esp phdr_address r s = Ret (Resume (set_eax 0xffffffff r)) s.
Proof.
  intros Hreg Heax Href. unfold syscall_dispatch. rewrite gets_bind.
  destruct (Z.ltb_spec (eax r) SYSCALL_HANDLER_ENTRIES) as [Hlt|]; [|done].
  rewrite (bind_ret _ _ _ _ _ (nth_or_ret _ _ _ s Heax (registered_lookup _ Hreg (eax r) (conj Heax Hlt)))).
  revert Href. unfold refused, SYS_EXIT, SYS_READ, SYS_WRITE, SYS_EXECVE.
  destruct (eax r =? 1); [done|]. destruct (eax r =? 3).
  { intros E. cbn [run_syscall]. unfold sys_read. by rewrite E. }
  destruct (eax r =? 4); [|by destruct (eax r =? 59)].
  intros E. cbn [run_syscall]. unfold sys_write. by rewrite E.
Qed.

(** *** Writing *)

(** A byte of a present user page. *)
Definition user_readable k (va : Z) : Prop := ∃ pa, translate (k_paging k) va = Some pa ∧ 0x400000 ≤ pa.
Definition user_byte k (va : Z) : Z := default 0 (translate (k_paging k) va ≫= λ pa, k_user k !! pa).
Definition user_text k (buf count : Z) : list Z := (λ i, user_byte k (buf +ᵤ i)) <$> seqZ 0 count.

Lemma fetch_byte_run k va : user_readable k va → fetch_byte va k = Ret (user_byte k va) k.
Proof.
  intros (pa & Ht & Hpa). unfold fetch_byte, load_byte, user_byte. rewrite Ht. cbn.
  by rewrite (proj2 (Z.ltb_ge _ _)) by lia.
Qed.

(** The machine after [l] is printed. *)
Definition printed (l : list Z) s : machine H B D :=
  set_kernel (set_console (con_print l (k_console (m_kernel s))) (m_kernel s)) s.

Lemma tty_write_from_run buf count s :
  0 ≤ count → (∀ i, 0 ≤ i < count → user_readable (m_kernel s) (buf +ᵤ i)) → console_ok (k_console (m_kernel s)).1 →
  tty_write_from buf count s = Ret tt (printed (user_text (m_kernel s) buf count) s).
Proof.
  intros Hc Hr Hok.
  destruct (for_range_inv (λ n s', s' = printed (user_text (m_kernel s) buf n) s) 0 count
    (λ written, c ← on_kernel (fetch_byte (buf +ᵤ written)); on_kernel (in_console (console_putc c));; mret tt) s)
    as (s' & Hrun & ->); [done| | |exact Hrun].
  { by destruct s as [[]]. }
  intros n s1 Hn ->. set (k1 := m_kernel (printed (user_text (m_kernel s) buf n) s)).
  assert (user_readable k1 (buf +ᵤ n)) as Hr1 by exact (Hr n Hn).
  rewrite (bind_ret _ _ _ _ _ (on_kernel_ret _ _ _ _ (fetch_byte_run k1 _ Hr1))).
  change (user_byte k1 (buf +ᵤ n)) with (user_byte (m_kernel s) (buf +ᵤ n)).
  assert (console_ok (k_console k1).1) as Hok1 by (by apply con_print_ok).
  rewrite (bind_ret _ _ _ _ _ (on_kernel_ret _ _ _ _ (in_console_ret _ k1 _ _ (console_putc_run _ _ Hok1)))).
  eexists. split; [reflexivity|]. unfold user_text. rewrite seqZ_app by lia. rewrite fmap_app. 
  unfold printed. rewrite con_print_app. done.
Qed.

(** (system calls, [sys_write]): a write to standard output or error prints exactly
    the bytes that the program has at the buffer, in order, whatever they are, and
    the result is their number; nothing else of the machine changes.  (The buffer's
    pages are present.) *)
Theorem sys_write_correct esp phdr_address r s :
  registered (m_syscall_handlers s) → eax r = SYS_WRITE → ebx r = 1 ∨ ebx r = 2 → ecx r ≠ 0 →
  0 ≤ edx r < 0x100000000 → console_ok (k_console (m_kernel s)).1 →
  (∀ i, 0 ≤ i < edx r → user_readable (m_kernel s) (ecx r +ᵤ i)) →
  syscall_dispatch esp phdr_address r s =
    Ret (Resume (set_eax (edx r) r)) (printed (user_text (m_kernel s) (ecx r) (edx r)) s).
Proof.
  intros Hreg Ea Hfd Hbuf Hc Hok Hr. unfold syscall_dispatch. rewrite gets_bind, Ea. cbn [Z.ltb].
  rewrite (bind_ret _ _ _ _ _ (nth_or_ret _ SYS_WRITE _ s ltac:(done) (registered_lookup _ Hreg SYS_WRITE ltac:(done)))).
  cbn [run_syscall].
  assert (sys_write r s = Ret (Returns (i32 (edx r)) r) (printed (user_text (m_kernel s) (ecx r) (edx r)) s)) as Hw.
  { unfold sys_write. assert ((negb (ebx r =? 1) && negb (ebx r =? 2)) || (ecx r =? 0) = false) as ->.
    { rewrite (proj2 (Z.eqb_neq (ecx r) 0)) by done. by destruct Hfd as [-> | ->]. }
    by rewrite (bind_ret _ _ _ _ _ (tty_write_from_run _ _ s (proj1 Hc) Hr Hok)). }
  rewrite (bind_ret _ _ _ _ _ Hw). do 2 f_equal. f_equal. unfold u32, i32. Z.div_mod_to_equations. lia.
Qed.
End properties.

(** ** A program that writes *)

#[local] Existing Instance sample_layout.

(** A page at 0x448000, with "hi" in it. *)
Definition write_kernel : kernel heap (gmap Z (list Z)) latches :=
  set_user (put_bytes 0x400000 (bytes_of "hi") ∅)
    (set_paging (set_pte 0 72 (Z.lor 0x400000 7) task_paging) fault_kernel).

Definition syscall_table : list (option syscall_handler) :=
  match register_syscalls (replicate 256 None) with Ret _ l | Fault _ l => l end.

Definition write_machine : machine heap (gmap Z (list Z)) latches :=
  Machine write_kernel (Segments [] (0, 0) 8 16 40) (Vectors [] (0, 0)) [] [] syscall_table 0 (empty_tty, [])
    (Pci 0 []).

Definition call_registers (num a b c : Z) : syscall_registers_t :=
  Registers 0 0 0 0 a c b num 0x448010 0x1b 0x202 0xbffffff0 0x23.

Lemma syscall_table_registered : registered syscall_table.
Proof. vm_compute. reflexivity. Qed.

Lemma syscall_refused_witness :
  let r := call_registers SYS_FORK 0 0 0 in
  syscall_dispatch 0 0 r write_machine = Ret (Resume (set_eax 0xffffffff r)) write_machine.
Proof. apply syscall_refused; [exact syscall_table_registered | done | reflexivity]. Defined.

Lemma sys_write_correct_witness :
  let r := call_registers SYS_WRITE 1 0x448000 2 in
  user_text (m_kernel write_machine) (ecx r) (edx r) = bytes_of "hi" ∧
  syscall_dispatch 0 0 r write_machine = Ret (Resume (set_eax (edx r) r)) (printed (bytes_of "hi") write_machine).
Proof.
  intros r. assert (user_text (m_kernel write_machine) (ecx r) (edx r) = bytes_of "hi") as E by (vm_compute; reflexivity).
  split; [exact E|]. rewrite <-E.
  assert (∀ i, 0 ≤ i < edx r → user_readable (m_kernel write_machine) (ecx r +ᵤ i)) as Hr.
  { intros i Hi. change (edx r) with 2 in Hi. unfold user_readable. assert (i = 0 ∨ i = 1) as [-> | ->] by lia.
    - exists 0x400000. split; [vm_compute; reflexivity | lia].
    - exists 0x400001. split; [vm_compute; reflexivity | lia]. }
  assert (ecx r ≠ 0) as Hb by (vm_compute; discriminate).
  assert (0 ≤ edx r < 0x100000000) as Hc by (vm_compute; split; [discriminate | reflexivity]).
  assert (console_ok (k_console (m_kernel write_machine)).1) as Hok by exact clear_screen_ok.
  exact (sys_write_correct 0 0 r write_machine syscall_table_registered eq_refl (or_introl eq_refl) Hb Hc Hok Hr).
Defined.
