(* ===== verification/Calls.v ===== *)
(** * What read and write do for a program (src/kernel/syscall.c)

    The two calls in terms of the memory that the program sees (UserMem.v): the
    page faults that the kernel takes on the program's buffer do not show. *)

From S2P Require Import Prelude Shell Layout Gdt Interrupts Allocator Heap Ports Console Tty Pci BlockDevice Disk Frames Paging Paths Fs Objects Linked Mmap Kernel Space Files Fault UserMem Elf Sched Switch Process Machine Syscall.

Section calls.
Context {L : Layout} {H : Type} `{!Allocator H} {B : Type} `{!BlockDevice B} {D : Type} `{!Bus D}.
Implicit Types (s : machine H B D) (k : kernel H B D) (l : list (Z * area)).

(** [n] bytes from [buf] on, in the program's areas. *)
Definition user_buffer l (buf n : Z) : Prop :=
  ∀ o, 0 ≤ o < n → user_va (buf + o) ∧ is_Some (area_at (buf + o) l).

Lemma user_buffer_next l buf n : user_buffer l buf (1 + n) → user_buffer l (buf + 1) n.
Proof. intros Hb o Ho. replace (buf + 1 + o) with (buf + (1 + o)) by lia. apply Hb. lia. Qed.

Lemma user_buffer_first l buf n : 0 ≤ n → user_buffer l buf (1 + n) → user_va buf ∧ is_Some (area_at buf l).
Proof. intros Hn Hb. rewrite <-(Z.add_0_r buf). apply Hb. lia. Qed.

(** ** Loads *)

Lemma load_view k mm i l va e :
  user_space k mm i l → user_va va → walk (k_paging k) (pd_slot i) va = Some e →
  load_byte va k = Ret (default 0 (contents k i l va)) k.
Proof.
  intros Hus Hva Hw. pose proof (us_running _ _ _ _ Hus) as Hrun. unfold load_byte, contents.
  rewrite (running_translate _ _ _ _ _ Hrun), Hw.
  destruct (user_frame _ _ _ _ (rn_mem _ _ _ _ Hrun) (rn_live _ _ _ _ Hrun) Hva Hw) as (n & Hn & _ & En).
  assert (0x400000 ≤ frame_in e + va mod 4096) as Hge by (rewrite En; unfold frame_of; Z.div_mod_to_equations; lia).
  cbn. by rewrite (proj2 (Z.ltb_ge _ _) Hge).
Qed.

Lemma fetch_byte_view k mm i l va :
  user_space k mm i l → user_va va → is_Some (area_at va l) →
  (∃ k', fetch_byte va k = Ret (default 0 (contents k i l va)) k' ∧ user_space k' mm i l ∧ same_kernel k k' ∧
     same_view (λ _, False) k k' i l ∧ is_Some (walk (k_paging k') (pd_slot i) va) ∧ takes (absent k i va) k k') ∨
  (∃ k', fetch_byte va k = Fault PageFaultPanic k' ∧ ¬ can_fault (absent k i va) k).
Proof.
  intros Hus Hva [x Hx]. pose proof (us_running _ _ _ _ Hus) as Hrun. unfold absent.
  destruct (walk (k_paging k) (pd_slot i) va) as [e|] eqn:Ew.
  { left. exists k. unfold fetch_byte. rewrite (load_view k mm i l va e) by done. split; [done|]. split; [done|].
    split; [apply same_kernel_refl|]. split; [by split|]. split; [by exists e|apply takes_refl]. }
  assert (fetch_byte va k = (page_fault_handler 0x0 va;; load_byte va) k) as ->.
  { unfold fetch_byte, load_byte at 1. by rewrite (running_translate _ _ _ _ _ Hrun), Ew. }
  pose proof (fault_transparent_run k mm i l 0x0 va Hus Hva eq_refl Ew) as Hf. rewrite Hx in Hf.
  destruct Hf as [(k1 & Hh & Hus1 & Hsk1 & [e Hw1] & Hsv1 & Ht1)|(k1 & Hh & Hex)].
  - left. exists k1. rewrite (bind_ret _ _ _ _ _ Hh), (load_view k1 mm i l va e) by done.
    rewrite (sv_own _ _ _ _ _ Hsv1 va Hva) by tauto. split; [done|]. split; [done|]. split; [done|]. split; [done|]. split; [by exists e|done].
  - right. exists k1. split; [by apply bind_fault|done].
Qed.

(** ** Writing *)

(** [s'] is [s] with [text] printed, for a program in the address space [i]. *)
Record wrote (text : list Z) s s' (mm i : Z) l : Prop := {
  wr_rest : s' = set_kernel (m_kernel s') s;
  wr_space : user_space (m_kernel s') mm i l;
  wr_console : k_console (m_kernel s') = con_print text (k_console (m_kernel s));
  wr_tasks : k_tasks (m_kernel s') = k_tasks (m_kernel s);
  wr_fs : same_fs (k_fs (m_kernel s)) (k_fs (m_kernel s')) ∨ k_fs (m_kernel s') = k_fs (m_kernel s);
  wr_pds : pd_in_use (k_paging (m_kernel s')) = pd_in_use (k_paging (m_kernel s));
  wr_view : same_view (λ _, False) (m_kernel s) (m_kernel s') i l;
}.

Lemma wrote_nothing s mm i l : user_space (m_kernel s) mm i l → wrote [] s s mm i l.
Proof. intros Hus. constructor; try done; [by destruct s|by right]. Qed.

Lemma wrote_trans t1 t2 s1 s2 s3 mm i l : wrote t1 s1 s2 mm i l → wrote t2 s2 s3 mm i l → wrote (t1 ++ t2) s1 s3 mm i l.
Proof.
  intros [E1 U1 C1 T1 F1 P1 V1] [E2 U2 C2 T2 F2 P2 V2]. constructor.
  - rewrite E2 at 1. by rewrite E1.
  - done.
  - by rewrite con_print_app, <-C1.
  - by rewrite T2.
  - destruct F1 as [F1|F1]; [left | by rewrite <-F1]. destruct F2 as [F2|F2]; [by eapply same_fs_trans | by rewrite F2].
  - by rewrite P2.
  - destruct V1 as [V1 O1 W1], V2 as [V2 O2 W2]. constructor.
    + intros va Hva Hno. by rewrite V2, V1.
    + intros i' l' va Hi Hne Hva. rewrite O2, O1; try done. unfold pd_live in *. by rewrite P1.
    + intros i' va Hi Hne Hva. rewrite W2, W1; try done. unfold pd_live in *. by rewrite P1.
Qed.

(** A character on the screen. *)
Lemma wrote_char c s k mm i l :
  user_space k mm i l → same_kernel (m_kernel s) k → same_view (λ _, False) (m_kernel s) k i l →
  wrote [c] s (set_kernel (set_console (con_putc (k_console k) c) k) s) mm i l.
Proof.
  intros Hus Hsk Hsv. pose proof (con_putc_ok _ c (us_console _ _ _ _ Hus)) as Hc. constructor.
  - done.
  - destruct Hus as [[? ? ? ? ? ? ?] _ ? ? ? ?]. constructor; [by constructor | exact Hc | done..].
  - cbn. by rewrite (sk_console _ _ Hsk).
  - apply Hsk.
  - apply Hsk.
  - apply Hsk.
  - by destruct Hsv.
Qed.

Definition program_text k (i : Z) l (buf count : Z) : list Z :=
  (λ a, default 0 (contents k i l a)) <$> seqZ buf count.

Lemma tty_write_loop mm i l buf n j s :
  user_space (m_kernel s) mm i l → 0 ≤ buf → 0 ≤ j → user_buffer l (buf + j) (Z.of_nat n) → buf + j + Z.of_nat n ≤ 0x100000000 →
  let m := for_list (seqZ j (Z.of_nat n)) (λ written,
    c ← on_kernel (fetch_byte (buf +ᵤ written)); on_kernel (in_console (console_putc c));; mret tt) in
  let faults := store_faults (m_kernel s) i (buf + j) (Z.of_nat n) in
  (∃ s', m s = Ret tt s' ∧ wrote (program_text (m_kernel s) i l (buf + j) (Z.of_nat n)) s s' mm i l ∧
     takes faults (m_kernel s) (m_kernel s')) ∨
  (∃ s', m s = Fault PageFaultPanic s' ∧ ¬ can_fault faults (m_kernel s)).
Proof.
  intros Hus Hbuf. revert j s Hus. induction n as [|n IH]; intros j s Hus Hj Hb Hmax; cbv zeta.
  { left. exists s. split; [by rewrite seqZ_nil by lia|]. split; [|apply takes_refl].
    unfold program_text. rewrite seqZ_nil by lia. by apply wrote_nothing. }
  replace (Z.of_nat (S n)) with (1 + Z.of_nat n) in * by lia.
  rewrite seqZ_cons by lia. replace (Z.succ j) with (j + 1) by lia. replace (Z.pred (1 + Z.of_nat n)) with (Z.of_nat n) by lia.
  cbn [for_list]. rewrite u32_id by lia. destruct (user_buffer_first l (buf + j) (Z.of_nat n) ltac:(lia) Hb) as [Hva Hin].
  destruct (fetch_byte_view (m_kernel s) mm i l (buf + j) Hus Hva Hin)
    as [(k1 & Hf & Hus1 & Hsk1 & Hsv1 & Hw1 & Ht1)|(k1 & Hf & Hno)].
  2: { right. exists (set_kernel k1 s). split.
       - do 2 apply bind_fault. unfold on_kernel, on. by rewrite Hf.
       - intros Hcan. apply Hno. unfold store_faults in Hcan. rewrite (proj2 (Z.eqb_neq _ _)) in Hcan by lia. destruct Hcan. split; lia. }
  set (c := default 0 (contents (m_kernel s) i l (buf + j))) in *. set (s1 := set_kernel k1 s).
  set (s2 := set_kernel (set_console (con_putc (k_console k1) c) k1) s).
  pose proof (wrote_char c s k1 mm i l Hus1 Hsk1 Hsv1) as Hwr. fold s2 in Hwr.
  assert ((c0 ← on_kernel (fetch_byte (buf + j)); on_kernel (in_console (console_putc c0));; mret tt) s = Ret tt s2) as Hone.
  { rewrite (bind_ret _ _ _ _ _ (on_kernel_ret _ s _ _ Hf)).
    by rewrite (bind_ret _ _ _ _ _ (on_kernel_ret _ s1 _ _ (in_console_ret _ k1 _ _ (console_putc_run c _ (us_console _ _ _ _ Hus1))))). }
  rewrite (bind_ret _ _ _ _ _ Hone).
  assert (store_faults (m_kernel s2) i (buf + j + 1) (Z.of_nat n) = store_faults k1 i (buf + j + 1) (Z.of_nat n)) as Esf by done.
  assert (absent (m_kernel s) i (buf + j) + store_faults k1 i (buf + j + 1) (Z.of_nat n) ≤
    store_faults (m_kernel s) i (buf + j) (1 + Z.of_nat n))%nat as Hle.
  { destruct n as [|n].
    - change (store_faults k1 i (buf + j + 1) (Z.of_nat 0)) with O. unfold store_faults. rewrite (proj2 (Z.eqb_neq _ _)) by lia. lia.
    - apply store_faults_next; [lia..|done]. }
  destruct (IH (j + 1) s2 (wr_space _ _ _ _ _ _ Hwr) ltac:(lia)) as [(s3 & Hrn & Hwr3 & Ht3)|(s3 & Hrn & Hno)].
  - replace (buf + (j + 1)) with (buf + j + 1) by lia. by apply user_buffer_next.
  - lia.
  - left. exists s3. split; [done|]. replace (buf + (j + 1)) with (buf + j + 1) in * by lia. split.
    + unfold program_text. rewrite seqZ_cons by lia. replace (Z.succ (buf + j)) with (buf + j + 1) by lia.
      replace (Z.pred (1 + Z.of_nat n)) with (Z.of_nat n) by lia. cbn [fmap list_fmap]. fold c.
      assert (program_text (m_kernel s2) i l (buf + j + 1) (Z.of_nat n) = program_text (m_kernel s) i l (buf + j + 1) (Z.of_nat n)) as Et.
      { unfold program_text. apply list_fmap_ext. intros p a Ha%lookup_seqZ. f_equal.
        apply (sv_own _ _ _ _ _ (wr_view _ _ _ _ _ _ Hwr)); [|tauto]. destruct Ha as [-> Hp].
        apply user_buffer_next in Hb. by apply Hb; lia. }
      rewrite Et in Hwr3. exact (wrote_trans [c] _ _ _ _ _ _ _ Hwr Hwr3).
    + eapply takes_le; [exact Hle|]. eapply takes_trans; [|rewrite <-Esf; exact Ht3]. exact Ht1.
  - right. exists s3. split; [done|]. replace (buf + (j + 1)) with (buf + j + 1) in * by lia. intros Hcan. apply Hno. rewrite Esf.
    apply (takes_can (absent (m_kernel s) i (buf + j)) _ (m_kernel s)); [exact Ht1|]. destruct Hcan. split; lia.
Qed.

(** ** Reading *)

(** The characters to come: those in the ring and those of the keys to be pressed. *)
Definition to_come s : list Z := pending (m_tty s).1 ++ arriving (m_tty s).2.
Definition tty_ready s : Prop := tty_ok (m_tty s).1 ∧ Tty.fits (m_tty s).2.

Lemma next_char t later c rest :
  tty_ok t → Tty.fits later → pending t ++ arriving later = c :: rest →
  ∃ t1 t2 later2, wait_not_empty (S (length later)) (t, later) = Ret tt (t1, later2) ∧
    lift tty_queue_pop_char (t1, later2) = Ret c (t2, later2) ∧
    tty_ok t2 ∧ Tty.fits later2 ∧ pending t2 ++ arriving later2 = rest.
Proof.
  intros Ht Hfit Hc. destruct (wait_not_empty_run (S (length later)) t later)
    as (t1 & later1 & Hw & Ht1 & Hfit1 & Hne & _ & Hp1); [done..|by rewrite Hc|lia|].
  destruct (pending t1) as [|c1 l1] eqn:E; [done|]. rewrite Hc in Hp1. injection Hp1 as -> Hrest.
  destruct (pop_pending t1 c l1 Ht1 E) as [Hl (t2 & Ha & Ht2 & Hp2 & _)].
  exists t1, t2, later1. split; [done|]. split; [|split; [done|split; [done|by rewrite Hp2]]].
  assert (tty_queue_pop_char t1 = Ret c t2) as Hpop.
  { unfold tty_queue_pop_char. by rewrite (bind_ret _ _ _ _ _ Hl), (bind_ret _ _ _ _ _ Ha). }
  by rewrite (lift_ret _ (t1, later1) _ _ Hpop).
Qed.

(** What a read leaves: the characters [text] at [buf], [rest] to come. *)
Record was_read (text rest : list Z) (buf : Z) s s' (mm i : Z) l : Prop := {
  rd_rest : s' = set_tty (m_tty s') (set_kernel (m_kernel s') s);
  rd_space : user_space (m_kernel s') mm i l;
  rd_kernel : same_kernel (m_kernel s) (m_kernel s');
  rd_tty : tty_ready s';
  rd_left : to_come s' = rest;
  rd_text o c : text !! o = Some c → contents (m_kernel s') i l (buf + Z.of_nat o) = Some c;
  rd_view : same_view (λ va, buf ≤ va < buf + Z.of_nat (length text)) (m_kernel s) (m_kernel s') i l;
}.

Lemma tty_read_to_run mm i l text : ∀ rest buf s,
  user_space (m_kernel s) mm i l → tty_ready s → to_come s = text ++ rest →
  user_buffer l buf (Z.of_nat (length text)) → 0 ≤ buf →
  let faults := store_faults (m_kernel s) i buf (Z.of_nat (length text)) in
  (∃ s', tty_read_to (length text) buf s = Ret tt s' ∧ was_read text rest buf s s' mm i l ∧ takes faults (m_kernel s) (m_kernel s')) ∨
  (∃ s', tty_read_to (length text) buf s = Fault PageFaultPanic s' ∧ ¬ can_fault faults (m_kernel s)).
Proof.
  induction text as [|c text IH]; intros rest buf s Hus Htty Hcome Hb Hbuf; cbv zeta.
  { left. exists s. split; [done|]. split; [|apply takes_refl]. constructor; try done; [by destruct s | apply same_kernel_refl]. }
  cbn [length tty_read_to] in *. replace (Z.of_nat (S (length text))) with (1 + Z.of_nat (length text)) in * by lia.
  destruct (user_buffer_first l buf (Z.of_nat (length text)) ltac:(lia) Hb) as [Hva Hin].
  destruct (next_char _ _ _ _ (proj1 Htty) (proj2 Htty) Hcome) as (t1 & t2 & later2 & Hw & Hpop & Ht2 & Hfit2 & Hp2).
  rewrite gets_bind. set (s1 := set_tty (t1, later2) s). set (s2 := set_tty (t2, later2) s).
  assert (on_tty (wait_not_empty (S (length (m_tty s).2))) s = Ret tt s1) as E1.
  { unfold on_tty. apply on_ret. rewrite <-Hw. by destruct (m_tty s). }
  assert (on_tty (lift tty_queue_pop_char) s1 = Ret c s2) as E2 by (exact (on_ret m_tty set_tty _ s1 _ _ Hpop)).
  rewrite (bind_ret _ _ _ _ _ E1), (bind_ret _ _ _ _ _ E2).
  destruct (touch_byte_run (m_kernel s) mm i l buf c Hus Hva) as [(k1 & Ht & Hus1 & Hsk1 & Hc1 & Hsv1 & Hw1 & Htk1)|(k1 & Ht & Hno)].
  2: { right. exists (set_kernel k1 s2). split.
       - apply bind_fault. unfold on_kernel, on. change (m_kernel s2) with (m_kernel s). by rewrite Ht.
       - destruct Hno as [Hno|Hno]; [destruct Hin; congruence|]. intros Hcan. apply Hno. unfold store_faults in Hcan.
         rewrite (proj2 (Z.eqb_neq _ _)) in Hcan by lia. destruct Hcan. split; lia. }
  set (s3 := set_kernel k1 s2). assert (on_kernel (touch_byte buf c) s2 = Ret tt s3) as E3 by (by apply on_kernel_ret).
  rewrite (bind_ret _ _ _ _ _ E3).
  assert (absent (m_kernel s) i buf + store_faults k1 i (buf + 1) (Z.of_nat (length text)) ≤
    store_faults (m_kernel s) i buf (1 + Z.of_nat (length text)))%nat as Hle.
  { destruct text as [|c' text].
    - change (store_faults k1 i (buf + 1) (Z.of_nat (length []))) with O. unfold store_faults. rewrite (proj2 (Z.eqb_neq _ _)) by (cbn; lia). lia.
    - destruct (Hb (Z.of_nat (length (c' :: text)))) as [[Hmax _] _]; [lia|]. apply store_faults_next; [lia|cbn [length]; lia|lia|done]. }
  destruct (Z.eqb_spec (Z.of_nat (length text)) 0) as [E0|E0].
  { assert (text = []) as -> by (destruct text; [done|cbn [length] in E0; lia]). left. exists s3. split; [done|]. split.
    - constructor; try done.
      + intros [|o] c0 Hc; [injection Hc as <-; by rewrite Z.add_0_r | done].
      + eapply same_view_weaken; [|exact Hsv1]. cbn. lia.
    - eapply takes_le; [|exact Htk1]. lia. }
  assert (buf + 1 < 0x100000000) as Hlt by (destruct (Hb 1) as [[Hmax _] _]; lia). rewrite u32_id by lia.
  destruct (IH rest (buf + 1) s3 Hus1) as [(s4 & Hrn & Hrd & Htk)|(s4 & Hrn & Hno)].
  - by split.
  - exact Hp2.
  - by apply user_buffer_next.
  - lia.
  - left. exists s4. split; [done|]. split.
    + destruct Hrd as [R1 R2 R3 R4 R5 R6 R7]. constructor; try done.
      * by eapply same_kernel_trans.
      * intros [|o] c0 Hc.
        -- injection Hc as <-. rewrite Z.add_0_r, <-Hc1. apply (sv_own _ _ _ _ _ R7); [done|lia].
        -- replace (buf + Z.of_nat (S o)) with (buf + 1 + Z.of_nat o) by lia. by apply R6.
      * eapply same_view_weaken; [|exact (same_view_trans _ _ _ _ _ _ _ Hsk1 Hsv1 R7)]. cbn [length]. lia.
    + eapply takes_le; [exact Hle|]. by eapply takes_trans.
  - right. exists s4. split; [done|]. intros Hcan. apply Hno. change (m_kernel s3) with k1. eapply takes_can; [exact Htk1|]. destruct Hcan. split; lia.
Qed.

(** ** Properties *)

Lemma dispatch_run esp phdr_address r s num h :
  registered (m_syscall_handlers s) → eax r = num → 0 ≤ num < 256 → m_syscall_handlers s !! Z.to_nat num = Some (Some h) →
  syscall_dispatch esp phdr_address r s =
    (o ← run_syscall esp phdr_address h r;
     match o with Returns ret regs => mret (Resume (set_eax (u32 ret) regs)) | Leaves esp => mret (SwitchTo esp) end) s.
Proof.
  intros Hreg Ea Hn Hh. unfold syscall_dispatch. rewrite gets_bind, Ea. unfold SYSCALL_HANDLER_ENTRIES.
  rewrite (proj2 (Z.ltb_lt _ _)) by lia. rewrite (bind_ret _ _ _ _ _ (nth_or_ret _ num _ s (proj1 Hn) Hh)). done.
Qed.

Lemma u32_i32 n : 0 ≤ n < 0x100000000 → u32 (i32 n) = n.
Proof. intros Hn. unfold u32, i32. Z.div_mod_to_equations. lia. Qed.

Lemma user_buffer_max l buf n : 0 ≤ buf < 0x100000000 → 0 ≤ n → user_buffer l buf n → buf + n ≤ 0x100000000.
Proof. intros Hbuf Hn Hb. destruct (decide (n = 0)); [lia|]. destruct (Hb (n - 1)) as [[? _] _]; lia. Qed.

(** C29 (system calls, write): a write to standard output or error of a buffer in the
    program's areas prints exactly the bytes that the program sees there, in order,
    whether their pages are in memory or not, and gives their number; no byte of
    this or another program changes, nor anything else but the pages brought in.
    It stops only with fewer free frames or page tables than the buffer has pages. *)
Theorem write_call_correct esp phdr_address r s mm i l :
  registered (m_syscall_handlers s) → eax r = SYS_WRITE → ebx r = 1 ∨ ebx r = 2 → 0 < ecx r < 0x100000000 →
  0 ≤ edx r < 0x100000000 → user_space (m_kernel s) mm i l → user_buffer l (ecx r) (edx r) →
  (∃ s', syscall_dispatch esp phdr_address r s = Ret (Resume (set_eax (edx r) r)) s' ∧
     wrote (program_text (m_kernel s) i l (ecx r) (edx r)) s s' mm i l) ∨
  (∃ s', syscall_dispatch esp phdr_address r s = Fault PageFaultPanic s' ∧
     ¬ can_fault (Z.to_nat (pages (ecx r) (edx r))) (m_kernel s)).
Proof.
  intros Hreg Ea Hfd Hbuf Hc Hus Hb. pose proof (user_buffer_max l (ecx r) (edx r) ltac:(lia) (proj1 Hc) Hb) as Hmax.
  rewrite (dispatch_run esp phdr_address r s SYS_WRITE sys_write_handler Hreg Ea);
    [| done | exact (registered_lookup _ Hreg SYS_WRITE ltac:(done))].
  cbn [run_syscall]. unfold sys_write. assert ((negb (ebx r =? 1) && negb (ebx r =? 2)) || (ecx r =? 0) = false) as ->.
  { rewrite (proj2 (Z.eqb_neq (ecx r) 0)) by lia. by destruct Hfd as [-> | ->]. }
  pose proof (store_faults_pages (m_kernel s) i (ecx r) (edx r) ltac:(lia) ltac:(lia)) as Hle.
  pose proof (tty_write_loop mm i l (ecx r) (Z.to_nat (edx r)) 0 s Hus) as Hloop. cbv zeta in Hloop.
  rewrite Z2Nat.id, Z.add_0_r in Hloop by lia. rewrite <-for_range_list, Z.add_0_l in Hloop.
  destruct Hloop as [(s' & Hrn & Hwr & Ht)|(s' & Hrn & Hno)]; [lia | lia | done | lia | left | right]; exists s'.
  - change (tty_write_from (ecx r) (edx r) s = Ret tt s') in Hrn.
    rewrite bind_bind, (bind_ret _ _ _ _ _ Hrn), mret_bind. split; [|done]. cbn. by rewrite u32_i32.
  - split; [by do 2 apply bind_fault|]. intros Hcan. apply Hno. destruct Hcan. split; lia.
Qed.

(** C30 (system calls, read): a read from standard input into a buffer in the program's
    areas gives the first characters typed, those in the ring and then those of the
    keys pressed while the program sleeps: exactly they are in the buffer, the rest
    is left for the next read, and no other byte of this or another program has
    changed.  It stops only with fewer free frames or page tables than the buffer
    has pages. *)
Theorem read_call_correct esp phdr_address r s mm i l text rest :
  registered (m_syscall_handlers s) → eax r = SYS_READ → ebx r = 0 → 0 ≤ ecx r < 0x100000000 →
  edx r = Z.of_nat (length text) → edx r < 0x100000000 → user_space (m_kernel s) mm i l → user_buffer l (ecx r) (edx r) →
  tty_ready s → to_come s = text ++ rest →
  (∃ s', syscall_dispatch esp phdr_address r s = Ret (Resume (set_eax (edx r) r)) s' ∧
     was_read text rest (ecx r) s s' mm i l) ∨
  (∃ s', syscall_dispatch esp phdr_address r s = Fault PageFaultPanic s' ∧
     ¬ can_fault (Z.to_nat (pages (ecx r) (edx r))) (m_kernel s)).
Proof.
  intros Hreg Ea Hfd Hbuf Hc Hmax Hus Hb Htty Hcome.
  rewrite (dispatch_run esp phdr_address r s SYS_READ sys_read_handler Hreg Ea);
    [| done | exact (registered_lookup _ Hreg SYS_READ ltac:(done))].
  cbn [run_syscall]. unfold sys_read. rewrite Hfd. cbn [Z.eqb negb].
  pose proof (store_faults_pages (m_kernel s) i (ecx r) (edx r) ltac:(lia) ltac:(lia)) as Hle.
  rewrite Hc in Hb. destruct (tty_read_to_run mm i l text rest (ecx r) s Hus Htty Hcome Hb ltac:(lia))
    as [(s' & Hrn & Hrd & Ht)|(s' & Hrn & Hno)]; rewrite <-Hc in *; [left|right]; exists s';
    replace (Z.to_nat (edx r)) with (length text) by lia.
  - rewrite bind_bind, (bind_ret _ _ _ _ _ Hrn), mret_bind. split; [|done]. cbn. by rewrite u32_i32 by lia.
  - split; [by do 2 apply bind_fault|]. intros Hcan. apply Hno. destruct Hcan. split; lia.
Qed.
End calls.

(** ** A program that reads and writes

    Its page is not in memory yet. *)

#[local] Existing Instance sample_layout.

Definition calls_machine (later : list (list Z)) : machine heap (gmap Z (list Z)) latches :=
  Machine fault_kernel (Segments [] (0, 0) 8 16 40) (Vectors [] (0, 0)) [] [] syscall_table 0 (empty_tty, later) (Pci 0 []).

Lemma sample_buffer : user_buffer [(the_vma, the_area)] 0x8048ffe 4.
Proof.
  intros o Ho. split.
  - split; [lia|]. unfold kernel_pde. rewrite pde_index_div by lia. Z.div_mod_to_equations. lia.
  - exists (the_vma, the_area). apply area_at_unique; [exact sample_ordered | by left | cbn; lia].
Qed.

Lemma two_pages : ¬ ¬ can_fault (Z.to_nat (pages 0x8048ffe 4)) fault_kernel.
Proof.
  intros Hno. apply Hno. assert (Z.to_nat (pages 0x8048ffe 4) = 2%nat) as -> by (vm_compute; reflexivity).
  destruct fault_resources. split; lia.
Qed.

Lemma write_call_correct_witness :
  let r := call_registers SYS_WRITE 1 0x8048ffe 4 in
  ∃ s', syscall_dispatch 0 0 r (calls_machine []) = Ret (Resume (set_eax 4 r)) s' ∧
    wrote [0; 0; 0; 0] (calls_machine []) s' the_mm 0 [(the_vma, the_area)].
Proof.
  intros r. assert (0 < ecx r < 0x100000000) as Hb by (cbn; lia). assert (0 ≤ edx r < 0x100000000) as Hc by (cbn; lia).
  destruct (write_call_correct 0 0 r (calls_machine []) the_mm 0 [(the_vma, the_area)] syscall_table_registered eq_refl
    (or_introl eq_refl) Hb Hc fault_user_space sample_buffer) as [(s' & Hrn & Hwr)|(s' & _ & Hno)].
  - exists s'. split; [exact Hrn|].
    assert (program_text (m_kernel (calls_machine [])) 0 [(the_vma, the_area)] (ecx r) (edx r) = [0; 0; 0; 0]) as E by (vm_compute; reflexivity).
    rewrite E in Hwr. exact Hwr.
  - exfalso. by apply two_pages.
Defined.

Lemma read_call_correct_witness :
  let r := call_registers SYS_READ 0 0x8048ffe 4 in
  let s := calls_machine [[]; [104; 0; 105]; [106; 107; 108]] in
  ∃ s', syscall_dispatch 0 0 r s = Ret (Resume (set_eax 4 r)) s' ∧
    was_read [104; 105; 106; 107] [108] 0x8048ffe s s' the_mm 0 [(the_vma, the_area)].
Proof.
  intros r s. assert (0 ≤ ecx r < 0x100000000) as Hb by (cbn; lia). assert (edx r < 0x100000000) as Hc by (cbn; lia).
  assert (tty_ready s) as Htty by (split; [exact empty_tty_ok|]; change (Tty.fits [[]; [104; 0; 105]; [106; 107; 108]]);
    unfold Tty.fits; rewrite !Forall_cons, Forall_nil; simpl; lia).
  assert (to_come s = [104; 105; 106; 107] ++ [108]) as Hcome by (vm_compute; reflexivity).
  destruct (read_call_correct 0 0 r s the_mm 0 [(the_vma, the_area)] [104; 105; 106; 107] [108] syscall_table_registered eq_refl
    eq_refl Hb eq_refl Hc fault_user_space sample_buffer Htty Hcome) as [(s' & Hrn & Hrd)|(s' & _ & Hno)].
  - exists s'. split; [exact Hrn|exact Hrd].
  - exfalso. by apply two_pages.
Defined.
