(* ===== verification/Beside.v ===== *)
(** * Address spaces that are not running

    An address space that the processor does not use keeps everything: its areas,
    its open files, its pages and what they contain.  [beside] is the footprint of
    a piece of kernel code, [dormant_beside] the frame rule. *)

From S2P Require Import Prelude Layout Gdt Allocator Heap Ports Console BlockDevice Frames Paging Paths Fs Objects Linked Mmap Kernel Space Files Fault UserMem Load Sched Switch Process Release Create.

Section beside.
Context {L : Layout} {H : Type} `{!Allocator H} {B : Type} `{!BlockDevice B} {D : Type} `{!Bus D}.
Implicit Types (k : kernel H B D) (l : list (Z * area)) (live : gmap Z Z) (js xs : list Z).
Local Abbreviation k_objs k := (objs (tk_store (k_tasks k))).
Local Abbreviation k_store k := (tk_store (k_tasks k)).

(** ** Code that works beside *)

(** From [k] to [k'], only the page directories [js], the objects [xs] and what was
    free have changed. *)
Record beside js xs k live k' live' : Prop := {
  bs_store : store_ok (k_store k') live';
  bs_mem : mem_ok (k_paging k') (k_frames k');
  bs_live x : is_Some (live !! x) → x ∉ xs → live' !! x = live !! x;
  bs_objs x : is_Some (k_objs k !! x) → x ∉ xs → k_objs k' !! x = k_objs k !! x;
  bs_fs : fs_ok (k_fs k) → fs_ok (k_fs k') ∧ image (k_fs k') = image (k_fs k);
  bs_pd j : pd_live (k_paging k) j → j ∉ js → pd_live (k_paging k') j;
  bs_walk j va : pd_live (k_paging k) j → j ∉ js → user_va va → walk (k_paging k') (pd_slot j) va = walk (k_paging k) (pd_slot j) va;
  bs_page j va : pd_live (k_paging k) j → j ∉ js → user_va va → contents k' j [] va = contents k j [] va;
  bs_tasks : k_tasks k' = with_store (k_tasks k) (k_store k');
}.

Lemma beside_trans js1 js2 xs1 xs2 k1 k2 k3 v1 v2 v3 :
  beside js1 xs1 k1 v1 k2 v2 → beside js2 xs2 k2 v2 k3 v3 → beside (js1 ++ js2) (xs1 ++ xs2) k1 v1 k3 v3.
Proof.
  intros [A1 A2 A3 A4 A5 A6 A7 A8 A9] [B1 B2 B3 B4 B5 B6 B7 B8 B9]. constructor; try done.
  - intros x Hx [Hx1 Hx2]%not_elem_of_app. rewrite B3, A3; [done..| |done]. by rewrite A3.
  - intros x Hx [Hx1 Hx2]%not_elem_of_app. rewrite B4, A4; [done..| |done]. by rewrite A4.
  - intros Hf. destruct (A5 Hf) as [Hf2 E2]. destruct (B5 Hf2) as [? E3]. by rewrite E3, E2.
  - intros j Hj [Hj1 Hj2]%not_elem_of_app. auto.
  - intros j va Hj [Hj1 Hj2]%not_elem_of_app Hva. rewrite B7, A7; auto.
  - intros j va Hj [Hj1 Hj2]%not_elem_of_app Hva. rewrite B8, A8; auto.
  - rewrite B9, A9. by destruct (k_tasks k1).
Qed.

(** What was free need not be named. *)
Lemma beside_weaken js xs js' xs' k live k' live' :
  (∀ j, j ∈ js → j ∈ js' ∨ ¬ pd_live (k_paging k) j) →
  (∀ x, x ∈ xs → x ∈ xs' ∨ k_objs k !! x = None ∧ live !! x = None) →
  beside js xs k live k' live' → beside js' xs' k live k' live'.
Proof.
  intros Hj Hx [A1 A2 A3 A4 A5 A6 A7 A8 A9].
  assert (∀ j, pd_live (k_paging k) j → j ∉ js' → j ∉ js) as Hjs.
  { intros j Hl Hn Hin. by destruct (Hj j Hin). }
  constructor; eauto.
  - intros x Hl Hn. apply A3; [done|]. intros Hin. destruct (Hx x Hin) as [?|[_ E]]; [done|]. rewrite E in Hl. by destruct Hl.
  - intros x Hl Hn. apply A4; [done|]. intros Hin. destruct (Hx x Hin) as [?|[E _]]; [done|]. rewrite E in Hl. by destruct Hl.
Qed.

(** Code that leaves the memory alone. *)
Lemma beside_objs xs k live k' live' :
  k_paging k' = k_paging k → k_frames k' = k_frames k → k_user k' = k_user k →
  k_tasks k' = with_store (k_tasks k) (k_store k') → same_fs (k_fs k) (k_fs k') ∨ k_fs k' = k_fs k →
  mem_ok (k_paging k) (k_frames k) → store_ok (k_store k') live' →
  (∀ x, is_Some (live !! x) → x ∉ xs → live' !! x = live !! x) →
  (∀ x, is_Some (k_objs k !! x) → x ∉ xs → k_objs k' !! x = k_objs k !! x) → beside [] xs k live k' live'.
Proof.
  intros Ep Ef Eu Et Hfs Hm Hs Hl Ho. constructor; rewrite ?Ep, ?Ef; try done.
  - intros Hok. destruct Hfs as [(? & ? & _)| ->]; done.
  - intros j va Hj _ Hva. unfold contents. by rewrite Ep, Eu.
Qed.

Lemma beside_refl k live : mem_ok (k_paging k) (k_frames k) → store_ok (k_store k) live → beside [] [] k live k live.
Proof. intros. apply beside_objs; try done; [|by right]. by destruct (k_tasks k). Qed.

(** Accesses of the kernel to the memory of the running program. *)
Lemma beside_view P k k' mm i l live :
  same_kernel k k' → same_view P k k' i l → user_space k' mm i l → store_ok (k_store k) live → beside [i] [] k live k' live.
Proof.
  intros Hk Hv Hus Hs. assert (∀ j, j ∉ [i] → j ≠ i) as Hne by (intros j Hj ->; apply Hj; by left). constructor.
  - by rewrite (sk_tasks _ _ Hk).
  - apply (us_running _ _ _ _ Hus).
  - done.
  - intros x _ _. by rewrite (sk_tasks _ _ Hk).
  - intros Hf. split; [by eapply same_fs_ok | by apply same_image].
  - intros j Hj _. by apply (same_kernel_live _ _ _ Hk).
  - intros j va Hj Hn. apply (sv_walk _ _ _ _ _ Hv); auto.
  - intros j va Hj Hn. apply (sv_other _ _ _ _ _ Hv); auto.
  - by apply same_tasks_store, (sk_tasks _ _ Hk).
Qed.

(** The loader. *)
Lemma beside_grown mm k i l live k' l' live' file ip inode :
  grown mm k i l live k' l' live' → loading k' mm i l' live' file ip inode → beside [i] (mm :: l.*1) k live k' live'.
Proof.
  intros Hg (Hus & Hst & Hex). assert (∀ j, j ∉ [i] → j ≠ i) as Hne by (intros j Hj ->; apply Hj; by left). constructor.
  - done.
  - apply (us_running _ _ _ _ Hus).
  - intros x [y Hx] _. rewrite Hx. by eapply lookup_weaken, (gr_used _ _ _ _ _ _ _ _ Hg).
  - intros x Hx [? ?]%not_elem_of_cons. apply (gr_objs _ _ _ _ _ _ _ _ Hg); auto.
  - intros Hf. split; [by eapply files_fs_ok, Hf; apply Hg | by apply files_image, Hg].
  - intros j Hj _. by apply (gr_live _ _ _ _ _ _ _ _ Hg).
  - intros j va Hj Hn. apply (gr_walk _ _ _ _ _ _ _ _ Hg); auto.
  - intros j va Hj Hn. apply (gr_other _ _ _ _ _ _ _ _ Hg); auto.
  - apply (gr_tasks _ _ _ _ _ _ _ _ Hg).
Qed.

(** ** Address spaces *)

(** An address space with all that it owns, running or not. *)
Record dormant k live mm i l ino : Prop := {
  do_owned : owned k live mm i l ino;
  do_ordered : ordered l;
  do_aligned : page_aligned l;
  do_files x page : x ∈ l → a_start x.2 ≤ page < a_end x.2 → page mod 4096 = 0 → file_ready k x.2 page;
  do_resident va e : user_va va → walk (k_paging k) (pd_slot i) va = Some e → is_Some (area_at va l);
}.

Lemma area_file_owned l (ino : Z → Z) x mm :
  x ∈ l → a_file x.2 ≠ 0 → a_file x.2 ∈ first_files [] l ∧ a_file x.2 ∈ footprint mm l ino ∧ ino (a_file x.2) ∈ footprint mm l ino.
Proof.
  intros Hx Hnz. assert (a_file x.2 ∈ first_files [] l) as Hf.
  { apply first_files_spec. split; [|split; [done|apply not_elem_of_nil]]. apply list_elem_of_fmap. by exists x. }
  split; [done|]. unfold footprint. rewrite !elem_of_cons, !elem_of_app, !list_elem_of_bind.
  split; right; right; exists (a_file x.2); (split; [|done]); unfold file_parts; [right|]; by left.
Qed.

(** The frame rule. *)
Lemma dormant_beside js xs k live k' live' mm i l ino :
  dormant k live mm i l ino → beside js xs k live k' live' → i ∉ js → (∀ x, x ∈ footprint mm l ino → x ∉ xs) →
  dormant k' live' mm i l ino ∧ ∀ va, user_va va → contents k' i l va = contents k i l va.
Proof.
  intros [[Hs (Hm & Hnd & Hseg) Hfoot Hlive Hfile Hpd Hmem] Ho Hal Hready Hres] [B1 B2 B3 B4 B5 B6 B7 B8 B9] Hi Hxs.
  assert (mm ∈ footprint mm l ino) as Hmm by by left.
  assert (∀ x, x ∈ l.*1 → x ∈ footprint mm l ino) as Hnode.
  { intros x Hx. right. apply elem_of_app. by left. }
  assert (∀ x, x ∈ l → a_file x.2 ≠ 0 → ∃ pos inode, k_objs k !! a_file x.2 = Some (OFile (File (ino (a_file x.2)) pos)) ∧
    k_objs k !! ino (a_file x.2) = Some (OInode inode) ∧ k_objs k' !! a_file x.2 = Some (OFile (File (ino (a_file x.2)) pos)) ∧
    k_objs k' !! ino (a_file x.2) = Some (OInode inode)) as Hparts.
  { intros x Hx Hnz. destruct (area_file_owned l ino x mm Hx Hnz) as (Hf & F1 & F2).
    destruct (Hfile _ Hf) as (pos & inode & E1 & E2). exists pos, inode. rewrite !B4, E1, E2; auto; by eexists. }
  assert (dormant k' live' mm i l ino) as Hd.
  { constructor; [|done|done| |].
    - constructor; [done| |done| | |auto|done].
      + split; [by rewrite B4; [|by eexists|auto]|]. split; [done|]. eapply dseg_ext; [|exact Hseg].
        intros x Hx. apply B4; [|auto]. apply list_elem_of_fmap in Hx as ([y b] & -> & Hx).
        destruct (dseg_lookup _ _ _ _ _ _ _ _ _ Hseg Hx) as (_ & r & nx & Hv). by eexists.
      + intros q Hq. rewrite B3; auto.
      + intros f Hf. pose proof Hf as (([q a] & -> & Hq)%list_elem_of_fmap & Hnz & _)%first_files_spec.
        destruct (Hparts (q, a) Hq Hnz) as (pos & inode & _ & _ & E1 & E2). by exists pos, inode.
    - intros x page Hx Hp Hpal. destruct (Hready x page Hx Hp Hpal) as [H0 Hr]. split; [apply B1|].
      intros Hnz. destruct (Hr Hnz) as (Hfs & ip & pos & inode & E1 & E2 & Hrest).
      destruct (Hparts x Hx Hnz) as (pos' & inode' & E3 & E4 & E5 & E6). destruct (B5 Hfs) as [Hfs' ->].
      rewrite E1 in E3. injection E3 as -> ->. rewrite E2 in E4. injection E4 as ->.
      split; [done|]. exists (ino (a_file x.2)), pos', inode'. done.
    - intros va e Hva. rewrite B7 by auto. by apply Hres. }
  split; [done|]. intros va Hva. pose proof (B8 i va Hpd Hi Hva) as E. unfold contents in *. rewrite B7 in * by auto.
  destruct (walk (k_paging k) (pd_slot i) va) as [e|]; [exact E|]. destruct (area_at va l) as [x|] eqn:Ex; [|done].
  apply area_at_in in Ex as [Hx Hr]. unfold page_byte. rewrite !page_bytes_at. destruct (decide (a_file x.2 = 0)) as [E0|Hnz].
  - rewrite E0. unfold open_file. by rewrite (proj1 (proj2 Hs)), (proj1 (proj2 B1)).
  - destruct (Hparts x Hx Hnz) as (pos & inode & E1 & E2 & E3 & E4). unfold open_file, open_inode. rewrite E1, E3. cbn [f_inode]. rewrite E2, E4.
    destruct (Hready x (va - va mod 4096) Hx) as [_ Hrd]; [destruct (Hal x Hx); Z.div_mod_to_equations; lia..|].
    destruct (Hrd Hnz) as (Hfs & _). by destruct (B5 Hfs) as [_ ->].
Qed.

(** *** The running program *)

(** The current task [t], with its address space. *)
Record process k live mm i l ino (t : task_t) : Prop := {
  pr_dormant : dormant k live mm i l ino;
  pr_task : k_objs k !! current_task (k_tasks k) = Some (OTask t);
  pr_mm : t_mm t = mm;
  pr_task_cr3 : t_cr3 t = get_pd_lma (pd_slot i);
  pr_pid : 0 ≤ t_pid t < 0x100000000;
  pr_cr3 : get_pd_vma (cr3 (k_paging k)) = pd_slot i;
  pr_tlb : tlb_coherent (k_paging k);
  pr_console : console_ok (k_console k).1;
}.

Lemma process_space k live mm i l ino t : process k live mm i l ino t → user_space k mm i l.
Proof.
  intros [[[Hs Hsp Hfoot Hlive Hfile Hpd Hmem] Ho Hal Hready Hres] Ht Emm Hc3 Hpid Hcr3 Htlb Hc]. constructor; try done.
  constructor; try done; [by exists t | apply Hs].
Qed.

(** A task is no part of an address space. *)
Lemma footprint_not_task k live mm i l ino x t :
  owned k live mm i l ino → k_objs k !! x = Some (OTask t) → x ∉ footprint mm l ino.
Proof.
  intros [_ (Hm & Hnd & Hseg) _ _ Hfile _ _] Hx [->|[Hin|Hin]%elem_of_app]%elem_of_cons; [congruence| |].
  - apply list_elem_of_fmap in Hin as ([y b] & -> & Hin).
    destruct (dseg_lookup _ _ _ _ _ _ _ _ _ Hseg Hin) as (_ & r & nx & Hv). cbn in *. congruence.
  - apply list_elem_of_bind in Hin as (f & Hin & Hf). destruct (Hfile f Hf) as (pos & inode & E1 & E2).
    apply elem_of_cons in Hin as [->|Hin%list_elem_of_singleton]; congruence.
Qed.

(** Free memory is none of the program's. *)
Lemma process_fresh k live mm i l ino t x :
  process k live mm i l ino t → k_objs k !! x = None → live !! x = None →
  x ∉ footprint mm l ino ∧ x ≠ current_task (k_tasks k).
Proof.
  intros Hp Ho Hl. split.
  - intros Hin. destruct (ow_live _ _ _ _ _ _ (do_owned _ _ _ _ _ _ (pr_dormant _ _ _ _ _ _ _ Hp)) x Hin). congruence.
  - intros ->. pose proof (pr_task _ _ _ _ _ _ _ Hp). congruence.
Qed.

Lemma process_beside js xs k live k' live' mm i l ino t :
  process k live mm i l ino t → beside js xs k live k' live' → i ∉ js →
  (∀ x, x ∈ xs → x ∉ footprint mm l ino ∧ x ≠ current_task (k_tasks k)) →
  cr3 (k_paging k') = cr3 (k_paging k) → tlb_coherent (k_paging k') → console_ok (k_console k').1 →
  process k' live' mm i l ino t ∧ ∀ va, user_va va → contents k' i l va = contents k i l va.
Proof.
  intros [Hd Ht Emm Hc3 Hpid Hcr3 Htlb Hc] Hb Hi Hxs Ecr3 Htlb' Hc'.
  destruct (dormant_beside _ _ _ _ _ _ _ _ _ _ Hd Hb Hi) as [Hd' Hv].
  { intros x Hx Hin. by destruct (Hxs x Hin). }
  split; [|exact Hv]. constructor; try done; [|by rewrite Ecr3].
  rewrite (bs_tasks _ _ _ _ _ _ Hb). rewrite (bs_objs _ _ _ _ _ _ Hb); [done | by eexists|].
  intros Hin. by destruct (Hxs _ Hin).
Qed.

Lemma process_view P k k' mm i l live ino t :
  process k live mm i l ino t → same_kernel k k' → same_view P k k' i l → user_space k' mm i l →
  process k' live mm i l ino t.
Proof.
  intros [[[Hs Hsp Hfoot Hlive Hfile Hpd Hmem] Ho Hal Hready Hres] Ht Emm Hc3 Hpid Hcr3 Htlb Hc] Hk Hv [Hrun Hc' Ho' Hal' Hready' Hres'].
  pose proof Hrun as [(t' & Ht' & Emm') H0 Hsp' Hpd' Hmem' Htlb' Hcr3'].
  rewrite (sk_tasks _ _ Hk) in *. constructor; rewrite ?(sk_tasks _ _ Hk); try done.
  constructor; try done. constructor; rewrite ?(sk_tasks _ _ Hk); done.
Qed.

(** From [k] to [k'] the program notices nothing. *)
Record stays k live k' live' mm i l ino t : Prop := {
  st_process : process k' live' mm i l ino t;
  st_beside : beside [i] [] k live k' live';
  st_view va : user_va va → contents k' i l va = contents k i l va;
  st_console : k_console k' = k_console k;
}.

Lemma stays_current k live k' live' mm i l ino t :
  stays k live k' live' mm i l ino t → current_task (k_tasks k') = current_task (k_tasks k).
Proof. intros Hst. by rewrite (bs_tasks _ _ _ _ _ _ (st_beside _ _ _ _ _ _ _ _ _ Hst)). Qed.

Lemma stays_trans k1 v1 k2 v2 k3 v3 mm i l ino t :
  stays k1 v1 k2 v2 mm i l ino t → stays k2 v2 k3 v3 mm i l ino t → stays k1 v1 k3 v3 mm i l ino t.
Proof.
  intros [P1 B1 V1 C1] [P2 B2 V2 C2]. constructor; [done| | |by rewrite C2].
  - eapply beside_weaken; [| |by eapply beside_trans]; cbn.
    + intros j Hj. left. apply elem_of_cons in Hj as [->|Hj]; [by left|done].
    + by intros x ?%not_elem_of_nil.
  - intros va Hva. by rewrite V2, V1.
Qed.

Lemma stays_beside xs k live k' live' mm i l ino t :
  process k live mm i l ino t → beside [] xs k live k' live' →
  (∀ x, x ∈ xs → k_objs k !! x = None ∧ live !! x = None) →
  k_paging k' = k_paging k → k_console k' = k_console k → stays k live k' live' mm i l ino t.
Proof.
  intros Hp Hb Hxs Epg Econ. assert (beside [] [] k live k' live') as Hb0.
  { eapply beside_weaken; [|intros x Hx; right; by apply Hxs|exact Hb]. intros j ?. by left. }
  destruct (process_beside [] [] k live k' live' mm i l ino t Hp Hb0) as [Hp' Hv].
  - apply not_elem_of_nil.
  - by intros x ?%not_elem_of_nil.
  - by rewrite Epg.
  - rewrite Epg. apply Hp.
  - rewrite Econ. apply Hp.
  - constructor; [done| |done|done]. eapply beside_weaken; [| |exact Hb0]; [by intros j ?%not_elem_of_nil | by left].
Qed.
End beside.
