(* ===== verification/Exec.v ===== *)
(** * Replacing a program ([sys_execve] of src/kernel/syscall.c)

    From the path in the memory of the program to the first instruction of the
    next one: the file is opened, a new address space made and loaded, and the old
    one given back. *)

From S2P Require Import Prelude Shell Layout Gdt Interrupts Allocator Heap Ports Console Tty Pci BlockDevice Disk Frames Paging Paths Fs Objects Linked Mmap Kernel Space Files Fault UserMem Elf Load Sched Switch Process Release Create Machine Syscall Calls Beside.

Section exec.
Context {L : Layout} {H : Type} `{!Allocator H} {B : Type} `{!BlockDevice B} {D : Type} `{!Bus D}.
Implicit Types (k : kernel H B D) (l : list (Z * area)) (live : gmap Z Z) (r : syscall_registers_t).
Local Abbreviation k_objs k := (objs (tk_store (k_tasks k))).
Local Abbreviation k_store k := (tk_store (k_tasks k)).

(** ** The path *)

(** The C string [s] of the program at [va]. *)
Record user_string k (i : Z) l (va : Z) (s : list Z) : Prop := {
  sr_chars : Forall (λ c, c ≠ 0) s;
  sr_bytes o c : (s ++ [0]) !! o = Some c →
    user_va (va + Z.of_nat o) ∧ is_Some (area_at (va + Z.of_nat o) l) ∧ contents k i l (va + Z.of_nat o) = Some c;
}.

Lemma user_string_first k i l va s c : (s ++ [0]) !! 0%nat = Some c → user_string k i l va s →
  user_va va ∧ is_Some (area_at va l) ∧ contents k i l va = Some c.
Proof. intros Hc Hs. rewrite <-(Z.add_0_r va). exact (sr_bytes _ _ _ _ _ Hs O c Hc). Qed.

Lemma user_string_next k k' i l va c s :
  same_view (λ _, False) k k' i l → user_string k i l va (c :: s) → user_string k' i l (va + 1) s.
Proof.
  intros Hv [Hc Hb]. inversion Hc as [|? ? Hc0 Hc1]; subst. split; [done|]. intros o c' Ho.
  replace (va + 1 + Z.of_nat o) with (va + Z.of_nat (S o)) by lia. destruct (Hb (S o) c' Ho) as (Hva & Ha & E).
  split; [done|]. split; [done|]. rewrite (sv_own _ _ _ _ _ Hv); [done | done | tauto].
Qed.

Lemma fetch_string_run s fuel k mm i l va :
  user_space k mm i l → user_string k i l va s → (length s < fuel)%nat →
  let n := store_faults k i va (Z.of_nat (S (length s))) in
  (∃ k', fetch_string fuel va k = Ret s k' ∧ user_space k' mm i l ∧ same_kernel k k' ∧ same_view (λ _, False) k k' i l ∧ takes n k k') ∨
  (∃ k', fetch_string fuel va k = Fault PageFaultPanic k' ∧ ¬ can_fault n k).
Proof.
  revert fuel k va. induction s as [|c s IH]; intros fuel k va Hus Hstr Hfuel; (destruct fuel as [|fuel]; [cbn in Hfuel; lia|]);
    cbn [fetch_string length] in *; cbv zeta.
  - destruct (user_string_first k i l va [] 0 eq_refl Hstr) as (Hva & Ha & E).
    assert (store_faults k i va (Z.of_nat 1) = absent k i va) as ->.
    { unfold store_faults, pages. rewrite !(proj2 (Z.eqb_neq _ _)) by lia. replace (va + Z.of_nat 1 - 1) with va by lia.
      replace (va `div` 4096 - va `div` 4096 + 1 - 1) with 0 by lia. done. }
    destruct (fetch_byte_view k mm i l va Hus Hva Ha) as [(k1 & Hf & Hus1 & Hsk1 & Hsv1 & _ & Ht1)|(k1 & Hf & Hno)].
    + left. exists k1. rewrite (bind_ret _ _ _ _ _ Hf), E. done.
    + right. exists k1. split; [by apply bind_fault|done].
  - destruct (user_string_first k i l va (c :: s) c eq_refl Hstr) as (Hva & Ha & E).
    assert (c ≠ 0) as Hc by (pose proof (sr_chars _ _ _ _ _ Hstr) as Hs; by inversion Hs).
    replace (Z.of_nat (S (S (length s)))) with (1 + Z.of_nat (S (length s))) by lia.
    assert (va + Z.of_nat (S (length s)) < 0x100000000) as Hmax.
    { destruct (sr_bytes _ _ _ _ _ Hstr (S (length s)) 0) as ([? _] & _); [|lia]. change ((s ++ [0]) !! length s = Some 0). by rewrite lookup_app_r, Nat.sub_diag by done. }
    assert (0 ≤ va) as Hva0 by apply Hva.
    destruct (fetch_byte_view k mm i l va Hus Hva Ha) as [(k1 & Hf & Hus1 & Hsk1 & Hsv1 & Hw1 & Ht1)|(k1 & Hf & Hno)].
    2: { right. exists k1. split; [by apply bind_fault|]. intros Hcan. apply Hno. unfold store_faults in Hcan.
         rewrite (proj2 (Z.eqb_neq _ _)) in Hcan by lia. destruct Hcan. split; lia. }
    pose proof (store_faults_next k k1 i va (Z.of_nat (S (length s))) Hva0 ltac:(lia) Hmax Hw1) as Hle.
    rewrite (bind_ret _ _ _ _ _ Hf), E. change (default 0 (Some c)) with c. rewrite (proj2 (Z.eqb_neq _ _) Hc), u32_id by lia.
    destruct (IH fuel k1 (va + 1) Hus1 (user_string_next _ _ _ _ _ _ _ Hsv1 Hstr) ltac:(lia))
      as [(k2 & Hrn & Hus2 & Hsk2 & Hsv2 & Ht2)|(k2 & Hrn & Hno)].
    + left. exists k2. rewrite (bind_ret _ _ _ _ _ Hrn). split; [done|]. split; [done|]. split; [by eapply same_kernel_trans|].
      split; [apply (same_view_weaken (λ _, False ∨ False)); [by intros ? _ [[]|[]] | by eapply same_view_trans]|].
      eapply takes_le; [exact Hle|]. by eapply takes_trans.
    + right. exists k2. split; [by apply bind_fault|]. intros Hcan. apply Hno.
      apply (takes_can (absent k i va) _ k); [done|]. destruct Hcan. split; lia.
Qed.

(** ** The file *)

(** The blocks that the lookup of a path reads are on the disk, and its names fit
    the array of [vfs_open]. *)
Record on_disk (f : fs B) (path : list Z) : Prop := {
  od_fs : fs_ok f;
  od_super : Forall is_byte (super_block_buf f);
  od_fits : Paths.fits 0 (path_names (Some path)) = true;
  od_way : way_mapped f (path_names (Some path)) (inode_at f MINIX_ROOT_INODE);
}.

Lemma on_disk_openable k k' live fp fsz path :
  on_disk (k_fs k) path → same_fs (k_fs k) (k_fs k') ∨ k_fs k' = k_fs k → store_ok (k_store k') live →
  live !! fp = Some fsz → SIZEOF_FILE ≤ fsz → Forall (λ c, c ≠ 0) path →
  openable k' live fp fsz (Some path) ∧ lookup_path k' (Some path) = lookup_path k (Some path).
Proof.
  intros [Hfs Hsup Hfits Hway] Hsame Hs Hfp Hsz Hnz.
  assert (same_fs (k_fs k) (k_fs k')) as Hf by (destruct Hsame as [?| ->]; done). pose proof Hf as (Hfs' & _ & Esup).
  split; [constructor; try done|].
  - by rewrite Esup.
  - rewrite (inode_at_same _ _ _ Hf). by eapply way_mapped_same.
  - unfold lookup_path. rewrite (inode_at_same _ _ _ Hf). by apply resolve_same.
Qed.

Lemma lookup_path_ok k path inode : fs_ok (k_fs k) → lookup_path k path = Some inode → inode_ok inode.
Proof.
  intros Hfs. unfold lookup_path. generalize (inode_at_ok _ MINIX_ROOT_INODE Hfs). generalize (inode_at (k_fs k) MINIX_ROOT_INODE).
  induction (path_names path) as [|name names IH]; intros n Hn; cbn [resolve]; [by intros [= <-]|].
  case_match; [done|]. apply IH. by apply inode_at_ok.
Qed.

(** A payload taken from the heap, for a running program. *)
Lemma stays_kmalloc k live mm i l ino t n :
  process k live mm i l ino t → 0 < n ≤ KERNEL_HEAP_SIZE →
  (∃ q sz k', in_store (kmalloc n) k = Ret q k' ∧ stays k live k' (<[q := sz]> live) mm i l ino t ∧ q ≠ 0 ∧ n ≤ sz ∧
     live !! q = None ∧ k_objs k !! q = None ∧ ∃ h, k' = set_store (Store h (k_objs k)) k) ∨
  in_store (kmalloc n) k = Ret 0 k ∧ kmalloc n (k_store k) = Ret 0 (k_store k).
Proof.
  intros Hp Hn. pose proof (pr_dormant _ _ _ _ _ _ _ Hp) as [[Hs _ _ _ _ _ Hmem] _ _ _ _].
  destruct (kmalloc_run _ _ n Hs Hn) as [(q & h & sz & Hrn & Hq & _ & Hsz & Hl & Ho & Hs')|Hrn].
  - left. exists q, sz, (set_store (Store h (k_objs k)) k). split; [by apply in_store_ret|].
    split; [|split_and!; try done; by exists h].
    apply (stays_beside []); try done.
    + apply beside_objs; try done; [by right|]. intros x [y Hx] _. rewrite lookup_insert_ne; [done|congruence].
    + by intros x ?%not_elem_of_nil.
  - right. split; [|done]. rewrite (in_store_ret _ _ _ _ Hrn). by rewrite set_store_id.
Qed.

(** A payload of after [k] given back. *)
Lemma stays_kfree k live k1 mm i l ino t q sz :
  process k live mm i l ino t → stays k live k1 (<[q := sz]> live) mm i l ino t → live !! q = None → k_objs k !! q = None →
  ∃ h, let k' := set_store (Store h (delete q (k_objs k1))) k1 in
    in_store (kfree q) k1 = Ret tt k' ∧ stays k live k' live mm i l ino t.
Proof.
  intros Hp [Hp1 Hb1 Hv1 Hc1] Hq Hqo. pose proof (pr_dormant _ _ _ _ _ _ _ Hp1) as [[Hs _ _ _ _ _ Hmem] _ _ _ _].
  destruct (kfree_run _ _ q sz Hs (lookup_insert_eq _ _ _)) as (h & Hrn & Hs'). rewrite delete_insert_id in Hs' by done.
  exists h. intros k'. split; [by apply in_store_ret|].
  assert (∀ x, x ∉ [q] → q ≠ x) as Hne by (intros x Hx ->; apply Hx; by left).
  assert (beside [] [q] k1 (<[q := sz]> live) k' live) as Hb.
  { apply beside_objs; try done; [by right| |]; intros x _ Hx%Hne; [by rewrite lookup_insert_ne | by apply lookup_delete_ne]. }
  destruct (process_beside [] [q] k1 _ k' live mm i l ino t Hp1 Hb) as [Hp' Hv]; try done; [apply not_elem_of_nil | |apply Hp1..|].
  - intros x ->%list_elem_of_singleton. rewrite (bs_tasks _ _ _ _ _ _ Hb1). by eapply process_fresh.
  - constructor; [done| | |done].
    + eapply beside_weaken; [| |exact (beside_trans _ _ _ _ _ _ _ _ _ _ Hb1 Hb)]; [by left|].
      intros x ->%list_elem_of_singleton. by right.
    + intros va Hva. by rewrite Hv, Hv1.
Qed.

Lemma user_string_same k k' i l va s :
  (∀ va, user_va va → contents k' i l va = contents k i l va) → user_string k i l va s → user_string k' i l va s.
Proof. intros Hv [Hc Hb]. split; [done|]. intros o c Ho. destruct (Hb o c Ho) as (Hva & Ha & <-). auto. Qed.

(** The path is read from the program's memory. *)
Lemma stays_fetch k live mm i l ino t va s :
  process k live mm i l ino t → user_string k i l va s → (length s < string_fuel)%nat →
  let n := store_faults k i va (Z.of_nat (S (length s))) in
  (∃ k', fetch_string string_fuel va k = Ret s k' ∧ stays k live k' live mm i l ino t ∧ k_tasks k' = k_tasks k ∧
     (same_fs (k_fs k) (k_fs k') ∨ k_fs k' = k_fs k) ∧ takes n k k') ∨
  (∃ k', fetch_string string_fuel va k = Fault PageFaultPanic k' ∧ ¬ can_fault n k).
Proof.
  intros Hp Hstr Hfuel n.
  destruct (fetch_string_run s string_fuel k mm i l va (process_space _ _ _ _ _ _ _ Hp) Hstr Hfuel)
    as [(k' & Hrn & Hus & Hsk & Hsv & Ht)|(k' & Hrn & Hno)]; [left|right; by exists k'].
  exists k'. split; [done|]. split; [|split; [apply Hsk|split; [apply Hsk|done]]]. constructor.
  - by eapply process_view.
  - eapply beside_view; [done..|]. apply Hp.
  - intros va' Hva'. apply (sv_own _ _ _ _ _ Hsv); [done|tauto].
  - apply Hsk.
Qed.

(** *** Opening *)

(** The new file [file] with its inode at [q]. *)
Record opened_file k live k' live' (file q : Z) (inode : minix_inode_t) : Prop := {
  of_objs : k_objs k' = <[file := OFile (File q 0)]> (<[q := OInode inode]> (k_objs k));
  of_live : ∃ fsz isz, live' = <[q := isz]> (<[file := fsz]> live);
  of_file : file ≠ 0 ∧ live !! file = None ∧ k_objs k !! file = None;
  of_inode : file ≠ q ∧ live !! q = None ∧ k_objs k !! q = None;
}.

(** [vfs_open] of a file in the new payload [file]. *)
Lemma open_path_run k live k1 mm i l ino t file fsz path :
  process k live mm i l ino t → stays k live k1 (<[file := fsz]> live) mm i l ino t → SIZEOF_FILE ≤ fsz →
  file ≠ 0 → live !! file = None → k_objs k !! file = None → k_objs k1 = k_objs k →
  on_disk (k_fs k) path → same_fs (k_fs k) (k_fs k1) ∨ k_fs k1 = k_fs k → Forall (λ c, c ≠ 0) path →
  let m := ok ← vfs_open (Some path) file; if ok =? 0 then in_store (kfree file);; mret 0 else mret file in
  (∃ q inode k' live', m k1 = Ret file k' ∧ stays k live k' live' mm i l ino t ∧ opened_file k live k' live' file q inode ∧
     lookup_path k (Some path) = Some inode ∧ same_fs (k_fs k) (k_fs k') ∧ k_paging k' = k_paging k1 ∧ k_frames k' = k_frames k1) ∨
  (∃ k', m k1 = Ret 0 k' ∧ stays k live k' live mm i l ino t ∧ k_objs k' = k_objs k ∧ lookup_path k (Some path) = None) ∨
  (∃ k', m k1 = Fault WildAccess k') ∧ kmalloc_heap SIZEOF_INODE (st_heap (k_store k1)) = Ret 0 (st_heap (k_store k1)).
Proof.
  intros Hp Hst Hsz Hnz Hl Ho Eo Hd Hsame Hchars m.
  pose proof (ow_mem _ _ _ _ _ _ (do_owned _ _ _ _ _ _ (pr_dormant _ _ _ _ _ _ _ (st_process _ _ _ _ _ _ _ _ _ Hst)))) as Hmem.
  pose proof (ow_store _ _ _ _ _ _ (do_owned _ _ _ _ _ _ (pr_dormant _ _ _ _ _ _ _ (st_process _ _ _ _ _ _ _ _ _ Hst)))) as Hs1.
  destruct (on_disk_openable k k1 _ file fsz path Hd Hsame Hs1 (lookup_insert_eq _ _ _) Hsz Hchars) as [Hop Hlook].
  assert (k_objs k1 !! file = None) as Ho1 by by rewrite Eo.
  assert (∀ f, same_fs (k_fs k1) f → same_fs (k_fs k) f) as Hfs.
  { intros f Hf. destruct Hsame as [Hs|E]; [by eapply same_fs_trans | by rewrite <-E]. }
  unfold m. destruct (lookup_path k1 (Some path)) as [inode|] eqn:El.
  - destruct (vfs_open_run _ _ _ _ _ _ Hop El) as [(q & sz & h & f' & Hrn & Hf' & _ & Hq & Hql & Hqo & Hok)|[(k' & Hrn) Hkm]].
    2: { right. right. split; [exists k'; by apply bind_fault | exact Hkm]. }
    left. set (k2 := opened k1 h file q inode f') in *. exists q, inode, k2, (<[q := sz]> (<[file := fsz]> live)).
    apply lookup_insert_None in Hql as [Hql Hne]. rewrite Eo in Hqo.
    split; [rewrite (bind_ret _ _ _ _ _ Hrn); cbn [Z.eqb]; done|]. split.
    + eapply stays_trans; [exact Hst|]. apply (stays_beside []); try done; [apply Hst| |by intros x ?%not_elem_of_nil].
      apply beside_objs; try done; [by left| |].
      * intros x [y Hx] _. rewrite lookup_insert_ne; [done|]. intros ->. apply lookup_insert_Some in Hx as [[? _]|[_ ?]]; congruence.
      * intros x [y Hx] _. change (k_objs k2) with (<[file := OFile (File q 0)]> (<[q := OInode inode]> (k_objs k1))).
        rewrite !lookup_insert_ne by congruence. done.
    + split; [|split; [by rewrite <-Hlook|split; [by apply Hfs|done]]]. constructor; [|by exists fsz, sz|done|done].
      change (k_objs k2) with (<[file := OFile (File q 0)]> (<[q := OInode inode]> (k_objs k1))). by rewrite Eo.
  - right. left. destruct (vfs_open_steps _ _ _ _ _ Hop) as (k2 & _ & Hs2 & (f' & Hf' & Ek2) & Hrn). rewrite El in Hrn.
    rewrite (bind_ret _ _ _ _ _ Hrn). cbn [Z.eqb].
    assert (stays k live k2 (<[file := fsz]> live) mm i l ino t) as Hst2.
    { eapply stays_trans; [exact Hst|]. rewrite Ek2 in Hs2 |- *. apply (stays_beside []); try done; [apply Hst| |by intros x ?%not_elem_of_nil].
      apply beside_objs; try done; [by left|]. intros x [y Hx] _. cbn. apply lookup_insert_ne. congruence. }
    destruct (stays_kfree _ _ _ _ _ _ _ _ _ _ Hp Hst2 Hl Ho) as (h & Hrn2 & Hst3).
    eexists. split; [by rewrite (bind_ret _ _ _ _ _ Hrn2)|]. split; [exact Hst3|]. split; [|by rewrite <-Hlook].
    rewrite Ek2. cbn. by rewrite delete_insert_eq, Eo, delete_id.
Qed.

(** After the payload of the file the heap has no room for the inode. *)
Definition no_inode_room k : Prop :=
  ∃ q h, kmalloc_heap SIZEOF_FILE (st_heap (k_store k)) = Ret q h ∧ kmalloc_heap SIZEOF_INODE h = Ret 0 h.

Lemma execve_open_run k live mm i l ino t va path :
  process k live mm i l ino t → user_string k i l va path → va ≠ 0 → on_disk (k_fs k) path → (length path < string_fuel)%nat →
  let n := store_faults k i va (Z.of_nat (S (length path))) in
  (∃ file q inode k' live', execve_open va k = Ret file k' ∧ stays k live k' live' mm i l ino t ∧
     opened_file k live k' live' file q inode ∧ lookup_path k (Some path) = Some inode ∧ same_fs (k_fs k) (k_fs k') ∧ takes n k k') ∨
  (∃ k', execve_open va k = Ret 0 k' ∧ stays k live k' live mm i l ino t ∧ k_objs k' = k_objs k ∧
     (kmalloc SIZEOF_FILE (k_store k) = Ret 0 (k_store k) ∨ lookup_path k (Some path) = None)) ∨
  (∃ k', execve_open va k = Fault PageFaultPanic k' ∧ ¬ can_fault n k) ∨
  (∃ k', execve_open va k = Fault WildAccess k' ∧ no_inode_room k).
Proof.
  intros Hp Hstr Hva Hd Hfuel n. unfold execve_open.
  destruct (stays_kmalloc k live mm i l ino t SIZEOF_FILE Hp ltac:(done)) as [(file & fsz & k1 & Hrn & Hst & Hnz & Hsz & Hl & Ho & h & Ek1)|[Hrn Hm]];
    rewrite (bind_ret _ _ _ _ _ Hrn).
  2: { right. left. exists k. cbn [Z.eqb]. split; [done|]. split; [|split; [done|by left]].
       apply (stays_beside []); try done; [|by intros x ?%not_elem_of_nil]. apply beside_refl; apply Hp. }
  rewrite (proj2 (Z.eqb_neq _ _) Hnz), (proj2 (Z.eqb_neq _ _) Hva).
  pose proof (user_string_same _ _ _ _ _ _ (st_view _ _ _ _ _ _ _ _ _ Hst) Hstr) as Hstr1.
  assert (store_faults k1 i va (Z.of_nat (S (length path))) = n) as En by by rewrite Ek1.
  rewrite bind_bind. destruct (stays_fetch k1 _ mm i l ino t va path (st_process _ _ _ _ _ _ _ _ _ Hst) Hstr1 Hfuel)
    as [(k2 & Hrn2 & Hst2 & Etasks & Hfs & Ht)|(k2 & Hrn2 & Hno)].
  2: { right. right. left. exists k2. split; [by apply bind_fault|]. rewrite En in Hno. by rewrite Ek1 in Hno. }
  rewrite (bind_ret _ _ _ _ _ Hrn2), mret_bind.
  destruct (open_path_run k live k2 mm i l ino t file fsz path Hp (stays_trans _ _ _ _ _ _ _ _ _ _ _ Hst Hst2) Hsz Hnz Hl Ho)
    as [(q & inode & k' & live' & Hrn3 & Hst3 & Hof & Hlook & Hfs3 & Epg & Efr)|[(k' & Hrn3 & Hst3 & Eo & Hlook)|[(k' & Hrn3) Hkm]]].
  - by rewrite Etasks, Ek1.
  - done.
  - by rewrite Ek1 in Hfs.
  - apply Hstr.
  - left. exists file, q, inode, k', live'. do 5 (split; [done|]). rewrite En, Ek1 in Ht. unfold takes in *. by rewrite Epg, Efr.
  - right. left. exists k'. do 3 (split; [done|]). by right.
  - do 3 right. exists k'. split; [done|]. exists file, h. rewrite Etasks, Ek1 in Hkm. split; [|exact Hkm].
    unfold in_store, in_tasks, on_store, lift in Hrn. cbn in Hrn. unfold kmalloc, lift in Hrn. cbn in Hrn.
    destruct (kmalloc_heap SIZEOF_FILE (st_heap (k_store k))) as [x h'|] eqn:E; [|done]. injection Hrn as -> E'.
    rewrite Ek1 in E'. by injection E' as ->.
Qed.

(** ** The new address space *)

(** The file opened after [k] closed and given back. *)
Lemma stays_close k live k1 live1 mm i l ino t file q inode :
  process k live mm i l ino t → stays k live k1 live1 mm i l ino t → opened_file k live k1 live1 file q inode →
  ∃ k', (vfs_close file;; in_store (kfree file);; mret 0) k1 = Ret 0 k' ∧ stays k live k' live mm i l ino t ∧ k_objs k' = k_objs k.
Proof.
  intros Hp Hst [Eo (fsz & isz & El) (Hnz & Hl & Ho) (Hne & Hql & Hqo)].
  pose proof (pr_dormant _ _ _ _ _ _ _ (st_process _ _ _ _ _ _ _ _ _ Hst)) as [[Hs _ _ _ _ _ Hmem] _ _ _ _].
  destruct (close_file_run k1 live1 (λ _, q) file [] Hs) as (h & Hrn & Hs').
  { constructor; [cbn; apply NoDup_cons; split; [by intros ->%list_elem_of_singleton|apply NoDup_singleton]|].
    intros f ->%list_elem_of_singleton. exists 0, inode, fsz, isz. rewrite Eo, El.
    split; [apply lookup_insert_eq|]. split; [rewrite lookup_insert_ne by done; apply lookup_insert_eq|].
    split; [rewrite lookup_insert_ne by done|]; apply lookup_insert_eq. }
  assert (drop_all (file_parts (λ _, q) file) (k_objs k1) = k_objs k) as Eo'.
  { cbn. rewrite Eo, delete_insert_ne, delete_insert_eq, delete_insert_id; [by rewrite delete_id | done..]. }
  assert (drop_all (file_parts (λ _, q) file) live1 = live) as El'.
  { cbn. rewrite El, delete_insert_id, delete_insert_id; [done | done|]. by rewrite lookup_insert_ne. }
  rewrite Eo' in Hrn, Hs'. rewrite El' in Hs'. set (k' := set_store _ k1) in Hrn. exists k'.
  split; [by rewrite <-(bind_bind (vfs_close file) (λ _, in_store (kfree file)) (λ _, mret 0)), (bind_ret _ _ _ _ _ Hrn)|]. split; [|done].
  assert (∀ x, x ∉ [file; q] → file ≠ x ∧ q ≠ x) as Hout.
  { intros x Hx. rewrite !not_elem_of_cons in Hx. naive_solver. }
  assert (beside [] [file; q] k1 live1 k' live) as Hb.
  { apply beside_objs; try done; [by right| |]; intros x _ [? ?]%Hout; [rewrite El | rewrite Eo]; by rewrite !lookup_insert_ne. }
  destruct (process_beside [] [file; q] k1 _ k' live mm i l ino t (st_process _ _ _ _ _ _ _ _ _ Hst) Hb) as [Hp' Hv];
    try done; [apply not_elem_of_nil | |apply Hst..|].
  - rewrite (stays_current _ _ _ _ _ _ _ _ _ Hst).
    intros x [->|[->|?%not_elem_of_nil]%elem_of_cons]%elem_of_cons; [by eapply process_fresh..|done].
  - constructor; [done| | |apply Hst].
    + eapply beside_weaken; [| |exact (beside_trans _ _ _ _ _ _ _ _ _ _ (st_beside _ _ _ _ _ _ _ _ _ Hst) Hb)]; [by left|].
      intros x [->|[->|?%not_elem_of_nil]%elem_of_cons]%elem_of_cons; [by right..|done].
    + intros va Hva. by rewrite Hv, (st_view _ _ _ _ _ _ _ _ _ Hst).
Qed.

(** An empty address space [mm'] with the directory [i']. *)
Record new_space k live k' live' (mm' i' : Z) : Prop := {
  ns_objs : k_objs k' = <[mm' := OMm (Mm (pd_slot i') 0)]> (k_objs k);
  ns_live : ∃ sz, live' = <[mm' := sz]> live;
  ns_fresh : mm' ≠ 0 ∧ live !! mm' = None ∧ k_objs k !! mm' = None;
  ns_index : 0 ≤ i' < 16;
  ns_directory : new_directory (k_paging k) i' (get_pd_vma (cr3 (k_paging k))) (k_paging k');
  ns_frames : k_frames k' = k_frames k;
  ns_fs : k_fs k' = k_fs k;
}.

(** A new directory is beside all others. *)
Lemma beside_directory k live p o i' mm' sz :
  mem_ok (k_paging k) (k_frames k) → tlb_coherent (k_paging k) → store_ok (k_store k) live → live !! mm' = Some sz → obj_size o ≤ sz →
  k_objs k !! mm' = None → new_directory (k_paging k) i' (get_pd_vma (cr3 (k_paging k))) p →
  let k' := set_paging p (set_store (Store (st_heap (k_store k)) (<[mm' := o]> (k_objs k))) k) in
  beside [] [] k live k' live ∧ tlb_coherent (k_paging k').
Proof.
  intros Hm Htlb Hs Hl Hsz Ho Hn k'. destruct (new_directory_mem_ok _ _ _ _ Hm Htlb Hn) as [Hm' Htlb']. split; [|exact Htlb'].
  assert (∀ j va, pd_live (k_paging k) j → user_va va → walk p (pd_slot j) va = walk (k_paging k) (pd_slot j) va) as Hw.
  { intros j va Hj [Hva _]. apply (nd_old _ _ _ _ Hn); [right; by exists j | done]. }
  constructor; try done.
  - exact (store_ok_put _ _ mm' sz o Hs Hl Hsz).
  - intros x [y Hx] _. cbn. apply lookup_insert_ne. congruence.
  - intros j Hj _. apply (nd_live _ _ _ _ Hn). by right.
  - intros j va Hj _ Hva. by apply Hw.
  - intros j va Hj _ Hva. unfold contents. change (k_paging k') with p. by rewrite Hw.
Qed.

(** The new space, in the heap of [k] with the payload for it. *)
Lemma create_mm_run k live mm i l ino t mm' sz :
  process k (<[mm' := sz]> live) mm i l ino t → mm' ≠ 0 → SIZEOF_MM ≤ sz → k_objs k !! mm' = None →
  (∃ i' k', create_task_mm mm' k = Ret 1 k' ∧ stays k (<[mm' := sz]> live) k' (<[mm' := sz]> live) mm i l ino t ∧
     k_objs k' = <[mm' := OMm (Mm (pd_slot i') 0)]> (k_objs k) ∧ 0 ≤ i' < 16 ∧
     new_directory (k_paging k) i' (get_pd_vma (cr3 (k_paging k))) (k_paging k') ∧ k_frames k' = k_frames k ∧ k_fs k' = k_fs k) ∨
  create_task_mm mm' k = Ret 0 k ∧ ∀ j, 0 ≤ j < 16 → pd_live (k_paging k) j.
Proof.
  intros Hp Hnz Hsz Ho. pose proof (pr_dormant _ _ _ _ _ _ _ Hp) as [[Hs _ _ _ _ _ Hmem] _ _ _ _].
  destruct (create_task_mm_run k (k_pid_count k) (st_heap (k_store k)) (k_objs k) (k_paging k) mm' (mo_paging _ _ Hmem) Hnz)
    as [(i' & p & Hrn & Hi & Hn)|Hrn]; rewrite <-stage_id in Hrn; [left|by right].
  destruct (beside_directory k _ p (OMm (Mm (pd_slot i') 0)) i' mm' sz Hmem (pr_tlb _ _ _ _ _ _ _ Hp) Hs (lookup_insert_eq _ _ _) Hsz Ho Hn)
    as [Hb Htlb].
  assert (stage k (k_pid_count k) (st_heap (k_store k)) (<[mm' := OMm (Mm (pd_slot i') 0)]> (k_objs k)) p =
    set_paging p (set_store (Store (st_heap (k_store k)) (<[mm' := OMm (Mm (pd_slot i') 0)]> (k_objs k))) k)) as E by by destruct k as [[[]]].
  rewrite E in Hrn. set (k' := set_paging p _) in *. exists i', k'. split; [done|]. split; [|done].
  destruct (process_beside [] [] k _ k' _ mm i l ino t Hp Hb) as [Hp' Hv]; try done; [apply not_elem_of_nil | | |apply Hp|].
  - by intros x ?%not_elem_of_nil.
  - apply (nd_cr3 _ _ _ _ Hn).
  - constructor; [done| |done|done]. eapply beside_weaken; [| |exact Hb]; by intros x ?%not_elem_of_nil.
Qed.

Lemma execve_mm_run k live k1 live1 mm i l ino t file q inode :
  process k live mm i l ino t → stays k live k1 live1 mm i l ino t → opened_file k live k1 live1 file q inode →
  (∃ mm' i' k' live', execve_mm file k1 = Ret mm' k' ∧ stays k1 live1 k' live' mm i l ino t ∧ new_space k1 live1 k' live' mm' i') ∨
  (∃ k', execve_mm file k1 = Ret 0 k' ∧ stays k live k' live mm i l ino t ∧ k_objs k' = k_objs k ∧
     (kmalloc SIZEOF_MM (k_store k1) = Ret 0 (k_store k1) ∨ ∀ j, 0 ≤ j < 16 → pd_live (k_paging k1) j)).
Proof.
  intros Hp Hst Hof. pose proof (st_process _ _ _ _ _ _ _ _ _ Hst) as Hp1. unfold execve_mm.
  destruct (stays_kmalloc k1 live1 mm i l ino t SIZEOF_MM Hp1 ltac:(done)) as [(mm' & sz & k2 & Hrn & Hst2 & Hnz & Hsz & Hl & Ho & h & Ek2)|[Hrn Hm]];
    rewrite (bind_ret _ _ _ _ _ Hrn).
  2: { right. destruct (stays_close _ _ _ _ _ _ _ _ _ _ _ _ Hp Hst Hof) as (k' & Hrn2 & Hst2 & Eo). exists k'.
       split; [exact Hrn2|]. split; [done|]. split; [done|by left]. }
  rewrite (proj2 (Z.eqb_neq _ _) Hnz). assert (k_objs k2 = k_objs k1) as Eo2 by by rewrite Ek2.
  assert (k_objs k2 !! mm' = None) as Ho2 by by rewrite Eo2.
  destruct (create_mm_run k2 live1 mm i l ino t mm' sz (st_process _ _ _ _ _ _ _ _ _ Hst2) Hnz Hsz Ho2)
    as [(i' & k3 & Hrn3 & Hst3 & Eo3 & Hi & Hn & Ef & Efs)|[Hrn3 Hfull]]; rewrite (bind_ret _ _ _ _ _ Hrn3); cbn [Z.eqb].
  - left. exists mm', i', k3, (<[mm' := sz]> live1). split; [done|]. split; [by eapply stays_trans|].
    rewrite Ek2 in Hn, Ef, Efs. constructor; [by rewrite Eo3, Eo2 | by exists sz | done | done | done | done | done].
  - right. destruct (stays_kfree _ _ _ _ _ _ _ _ _ _ Hp1 Hst2 Hl Ho) as (h4 & Hrn4 & Hst4).
    rewrite (bind_ret _ _ _ _ _ Hrn4). set (k4 := set_store _ k2) in *.
    assert (opened_file k live k4 live1 file q inode) as Hof4.
    { destruct Hof as [E1 E2 E3 E4]. constructor; [|done..]. unfold k4. cbn. by rewrite Eo2, delete_id. }
    destruct (stays_close _ _ _ _ _ _ _ _ _ _ _ _ Hp (stays_trans _ _ _ _ _ _ _ _ _ _ _ Hst Hst4) Hof4) as (k' & Hrn5 & Hst5 & Eo5).
    exists k'. split; [exact Hrn5|]. split; [done|]. split; [done|]. right. by rewrite Ek2 in Hfull.
Qed.

(** ** Changing the address space of the current task *)

Definition with_space (mm i : Z) (t : task_t) : task_t := set_task_cr3 (get_pd_lma (pd_slot i)) (set_mm mm t).

(** The kernel after [switch_mm] of the current task [t] to [mm]. *)
Definition switched (mm i : Z) (t : task_t) k : kernel H B D :=
  let p := k_paging k in
  set_paging (Paging (words p) (pd_in_use p) (pt_in_use p) (get_pd_lma (pd_slot i)) ∅)
    (insert_obj (current_task (k_tasks k)) (OTask (with_space mm i t)) k).

Lemma switch_mm_run k live mm i l ino t :
  dormant k live mm i l ino → k_objs k !! current_task (k_tasks k) = Some (OTask t) →
  switch_mm (current_task (k_tasks k)) mm k = Ret tt (switched mm i t k).
Proof.
  intros [[Hs (Hm & _) _ _ _ _ _] _ _ _ _] Ht. pose proof (obj_nonzero _ _ _ _ Hs Ht) as Hnz.
  unfold switch_mm, irq_save. rewrite bind_bind, gets_bind, bind_bind. rewrite modify_bind, mret_bind.
  set (k1 := set_eflags _ k). assert (k_objs k1 !! current_task (k_tasks k) = Some (OTask t)) as Ht1 by exact Ht.
  rewrite (bind_ret _ _ _ _ _ (in_update_task k1 _ t (set_mm mm) Ht1 Hnz)). set (k2 := insert_obj _ _ k1).
  assert (k_objs k2 !! mm = Some (OMm (Mm (pd_slot i) (first l 0)))) as Hm2.
  { unfold k2. cbn. rewrite lookup_insert_ne; [exact Hm|]. congruence. }
  assert (k_objs k2 !! current_task (k_tasks k) = Some (OTask (set_mm mm t))) as Ht2 by apply lookup_insert_eq.
  rewrite (bind_ret _ _ _ _ _ (in_load_mm k2 mm _ Hm2)). cbn [pgd].
  rewrite (bind_ret _ _ _ _ _ (in_update_task k2 _ _ (set_task_cr3 (get_pd_lma (pd_slot i))) Ht2 Hnz)). set (k3 := insert_obj _ _ k2).
  assert (k_objs k3 !! current_task (k_tasks k) = Some (OTask (with_space mm i t))) as Ht3 by apply lookup_insert_eq.
  rewrite (bind_ret _ _ _ _ _ (in_load_task k3 _ _ Ht3)).
  assert (k3 = insert_obj (current_task (k_tasks k)) (OTask (with_space mm i t)) k1) as ->.
  { unfold k3, k2, insert_obj, set_store, set_tasks, with_store. cbn. by rewrite insert_insert_eq. }
  unfold switched, irq_restore. by destruct k.
Qed.

Lemma directory_address i : 0 ≤ i < 16 → get_pd_vma (get_pd_lma (pd_slot i)) = pd_slot i.
Proof. intros Hi. rewrite <-(Z.lor_0_r (get_pd_lma _)). by apply pd_slot_lma. Qed.

Lemma beside_switched k live mm i t :
  store_ok (k_store k) live → mem_ok (k_paging k) (k_frames k) → pd_live (k_paging k) i →
  k_objs k !! current_task (k_tasks k) = Some (OTask t) → beside [] [current_task (k_tasks k)] k live (switched mm i t k) live.
Proof.
  intros Hs Hm Hi Ht. assert (paging_ok (k_paging (switched mm i t k))) as Hp.
  { pose proof (mo_paging _ _ Hm) as [? ? ? ? ? ? _]. constructor; try done. right. exists i. split; [done|]. apply directory_address, Hi. }
  constructor; try done.
  - exact (store_ok_update (k_store k) live _ (OTask t) (OTask (with_space mm i t)) Hs Ht ltac:(done)).
  - eapply mem_ok_entries; [exact Hp | | exact Hm]. done.
  - intros x _ Hx. cbn. apply lookup_insert_ne. intros <-. apply Hx. by left.
Qed.

(** The task runs in the address space it is switched to. *)
Lemma switched_process k live mm i l ino t :
  dormant k live mm i l ino → k_objs k !! current_task (k_tasks k) = Some (OTask t) → 0 ≤ t_pid t < 0x100000000 →
  console_ok (k_console k).1 →
  let k' := switched mm i t k in
  process k' live mm i l ino (with_space mm i t) ∧ beside [] [current_task (k_tasks k)] k live k' live ∧
  ∀ va, user_va va → contents k' i l va = contents k i l va.
Proof.
  intros Hd Ht Hpid Hc k'. pose proof (do_owned _ _ _ _ _ _ Hd) as Ho.
  pose proof (beside_switched k live mm i t (ow_store _ _ _ _ _ _ Ho) (ow_mem _ _ _ _ _ _ Ho) (ow_pd _ _ _ _ _ _ Ho) Ht) as Hb.
  destruct (dormant_beside _ _ _ _ _ _ _ _ _ _ Hd Hb (not_elem_of_nil _)) as [Hd' Hv].
  { intros x Hx ->%list_elem_of_singleton. by eapply footprint_not_task. }
  split; [|split; [exact Hb|exact Hv]]. constructor; try done.
  - apply lookup_insert_eq.
  - apply directory_address, Ho.
Qed.

(** ** The image of the new program *)

(** The new address space with nothing in it. *)
Lemma new_space_dormant k live k' live' mm' i' mm i l ino t ino' :
  process k live mm i l ino t → new_space k live k' live' mm' i' → process k' live' mm i l ino t → dormant k' live' mm' i' [] ino'.
Proof.
  intros Hp [Eo (sz & El) (Hnz & Hl & Ho) Hi Hn Ef _] Hp'.
  pose proof (do_owned _ _ _ _ _ _ (pr_dormant _ _ _ _ _ _ _ Hp)) as Hw. pose proof (mo_paging _ _ (ow_mem _ _ _ _ _ _ Hw)) as Hpg.
  pose proof (do_owned _ _ _ _ _ _ (pr_dormant _ _ _ _ _ _ _ Hp')) as Hw'. constructor.
  - constructor; [apply Hw'| |apply NoDup_singleton| | | |apply Hw'].
    + rewrite Eo. split; [apply lookup_insert_eq|]. split; [apply NoDup_nil; done|done].
    + intros x ->%list_elem_of_singleton. rewrite El, lookup_insert_eq. by eexists.
    + by intros f ?%not_elem_of_nil.
    + apply (nd_live _ _ _ _ Hn). by left.
  - done.
  - by intros x ?%not_elem_of_nil.
  - by intros x page ?%not_elem_of_nil.
  - intros va e [Hva Hk]. rewrite (new_directory_walk _ _ _ _ va Hpg (po_cr3 _ Hpg) Hn Hva). by rewrite decide_False.
Qed.

(** A file whose headers and segments the loader can take. *)
Record program_file (img : Z → list Z) (inode : minix_inode_t) : Prop := {
  pf_mapped : mapped img inode 0 (i_size inode);
  pf_phoff : e_phoff (file_ehdr img inode) ≤ i_size inode;
  pf_segments : Forall program_segment (file_phdrs img inode);
}.

(** What [sys_execve] and [enter_proc1] do for the new program. *)
Definition load_image (phdr_address file : Z) : M (kernel H B D) (option Z) :=
  stack ← in_tasks (vm_brk_flags USER_STACK_BASE PAGE_SIZE);
  if stack =? 0 then mret None else elf32_load_exec phdr_address file.

Definition file_areas l (file : Z) : Prop := ∀ x, x ∈ l → a_file x.2 = 0 ∨ a_file x.2 = file.

(** The failures of the load. *)
Definition no_entry : M (kernel H B D) (option Z) := mret None.
Definition free_array (phdr_address : Z) : M (kernel H B D) (option Z) := in_store (kfree phdr_address);; mret None.

(** The stack and the segments. *)
Definition image_loaded k (i : Z) l (img : Z → list Z) (inode : minix_inode_t) : Prop :=
  Forall (segment_loaded k i l img inode) (file_phdrs img inode) ∧
  ∀ va, USER_STACK_BASE ≤ va < USER_STACK_TOP → is_Some (area_at va l) ∧ contents k i l va = Some 0.

(** Why [elf32_load_exec] fails after it has read the header. *)
Definition image_refused k (img : Z → list Z) (inode : minix_inode_t) : Prop :=
  i_size inode < e_phoff (file_ehdr img inode) + e_phnum (file_ehdr img inode) * SIZEOF_PHDR ∨
  ∃ l earlier ph later, file_phdrs img inode = earlier ++ ph :: later ∧ Load.refused k l earlier ph ∧
    ∀ x, x ∈ l → a_start x.2 = USER_STACK_BASE ∧ a_end x.2 = USER_STACK_TOP.

Lemma load_image_run k mm i live file ip inode phdr_address :
  loading k mm i [] live file ip inode → file ≠ 0 → program_file (image (k_fs k)) inode →
  let img := image (k_fs k) in
  (∃ l' live' k', load_image phdr_address file k = Ret (Some (e_entry (file_ehdr img inode))) k' ∧
     loading k' mm i l' live' file ip inode ∧ grown mm k i [] live k' l' live' ∧ file_areas l' file ∧
     takes (length (file_phdrs img inode)) k k' ∧ image_loaded k' i l' img inode) ∨
  (∃ l' live' k' m, load_image phdr_address file k = m k' ∧
     loading k' mm i l' live' file ip inode ∧ grown mm k i [] live k' l' live' ∧ file_areas l' file ∧
     (m = no_entry ∧ (∀ x, x ∈ l' → a_file x.2 = 0) ∧ (kmalloc SIZEOF_VMA (k_store k') = Ret 0 (k_store k') ∨ i_size inode < SIZEOF_EHDR ∨ e_phnum (file_ehdr img inode) = 0) ∨
      m = free_array phdr_address ∧ image_refused k' img inode)) ∨
  (∃ k', load_image phdr_address file k = Fault PageFaultPanic k' ∧ ¬ can_fault (length (file_phdrs img inode)) k).
Proof.
  intros Hld Hnz [_ Hoff Hsegs] img. unfold load_image.
  assert (file_areas [] file) as Hnil by by intros x ?%not_elem_of_nil.
  destruct (zero_area_run k mm i [] live file ip inode USER_STACK_BASE PAGE_SIZE Hld ltac:(done) ltac:(done) ltac:(done))
    as [(q & l1 & live1 & k1 & Hrn & Hq & Hld1 & Hg1 & Ht1 & Hz & Hnew)|(k1 & Hrn & Hld1 & Hg1 & Hwhy)]; rewrite (bind_ret _ _ _ _ _ Hrn).
  2: { right. left. exists [], live, k1, no_entry. do 4 (split; [done|]). left. split; [done|]. split; [by intros x ?%not_elem_of_nil|].
       destruct Hwhy as [?|(x & ?%not_elem_of_nil & _)]; [by left|done]. }
  rewrite (proj2 (Z.eqb_neq _ _) Hq). pose proof Hld1 as (Hus1 & Hst1 & Hex1).
  assert (∀ x, x ∈ l1 → a_file x.2 = 0 ∧ a_start x.2 = USER_STACK_BASE ∧ a_end x.2 = USER_STACK_TOP) as Hstack.
  { intros x Hx. destruct (Hnew x Hx) as [?%not_elem_of_nil|(E1 & E2 & E3)]; [done|]. by rewrite E2, E3. }
  assert (image (k_fs k1) = img) as Himg by (by apply files_image, Hg1).
  assert (∀ l' phs, areas_from l1 l' file phs → file_areas l' file) as Hfrom.
  { intros l' phs Hf x Hx. destruct (Hf x Hx) as [Hx1|[? _]]; [left; by apply Hstack|done]. }
  destruct (elf32_load_exec_run k1 mm i l1 live1 file ip inode phdr_address Hus1 Hst1 Hex1 Hnz)
    as [(l' & live' & k' & Hrn2 & Hld2 & Hg2 & Ht2 & Hf2 & Hs2)|[(k' & Hrn2 & Hld2 & Hg2 & Hno)|
        [(l' & live' & k' & Hrn2 & Hld2 & Hg2 & Hf2 & Hno)|(k' & Hrn2 & Hno)]]]; rewrite ?Himg in *; try done.
  - left. exists l', live', k'. split; [done|]. split; [done|]. split; [by eapply grown_trans|]. split; [by eapply Hfrom|].
    split; [by apply (takes_trans 0 _ k k1)|]. split; [done|]. intros va Hva. destruct (Hz va Hva) as [Ha Hc].
    split; [by apply (gr_area _ _ _ _ _ _ _ _ Hg2)|]. rewrite (gr_own _ _ _ _ _ _ _ _ Hg2); [done| |done].
    apply program_va. unfold USER_STACK_TOP, USER_STACK_BASE, PAGE_SIZE in Hva. lia.
  - right. left. exists l1, live1, k', no_entry. split; [done|]. split; [done|]. split; [by eapply grown_trans|].
    split; [intros x Hx; left; by apply Hstack|]. left. split; [done|]. split; [intros x Hx; by apply Hstack|by right].
  - right. left. exists l', live', k', (free_array phdr_address). split; [done|]. split; [done|].
    split; [by eapply grown_trans|]. split; [by eapply Hfrom|]. right. split; [done|].
    destruct Hno as [?|(earlier & ph & later & E & Hr)]; [by left|right]. exists l1, earlier, ph, later. do 2 (split; [done|]).
    intros x Hx. by apply Hstack.
  - right. right. exists k'. split; [done|]. intros Hcan. apply Hno. by apply (takes_can 0 _ k k1).
Qed.

(** The areas of a program refer to one file. *)
Lemma file_areas_first l file : file_areas l file → first_files [] l = [] ∨ first_files [] l = [file].
Proof.
  intros Hl. assert (∀ seen, (∀ x, x ∈ l → a_file x.2 = 0 ∨ a_file x.2 = file) → first_files seen l = [] ∨ first_files seen l = [file]) as H0; [|by apply H0].
  clear Hl. induction l as [|x l IH]; intros seen Hl; cbn [first_files]; [by left|].
  destruct (decide _) as [_|Hd]; [apply IH; intros y Hy; apply Hl; by right|]. right.
  destruct (Hl x) as [?|E]; [by left|tauto|]. rewrite E. cbn [app].
  assert (first_files (seen ++ [file]) l = []) as ->; [|done].
  assert (∀ seen, file ∈ seen → (∀ x, x ∈ l → a_file x.2 = 0 ∨ a_file x.2 = file) → first_files seen l = []) as H1.
  { clear. induction l as [|x l IH]; intros seen Hs Hl; cbn [first_files]; [done|]. rewrite decide_True.
    - apply IH; [set_solver|]. intros y Hy. apply Hl. by right.
    - destruct (Hl x) as [?| ->]; [by left|by left|by right]. }
  apply H1; [set_solver|]. intros y Hy. apply Hl. by right.
Qed.

(** The new address space owns what the loader has made. *)
Lemma loaded_process k live k' live' mm i l t file q inode :
  process k live mm i [] (λ _, q) t → loading k' mm i l live' file q inode → grown mm k i [] live k' l live' → file_areas l file →
  file ≠ q → is_Some (live !! file) → is_Some (live !! q) → (∃ pos, k_objs k !! file = Some (OFile (File q pos))) →
  k_objs k !! q = Some (OInode inode) →
  process k' live' mm i l (λ _, q) t ∧ beside [i] [mm] k live k' live'.
Proof.
  intros Hp Hld Hg Hfa Hne Hfl Hql [pos Hfo] Hqo. pose proof (beside_grown _ _ _ _ _ _ _ _ _ _ _ Hg Hld) as Hb. split; [|exact Hb].
  destruct Hp as [[[Hs (Hmm & _) _ Hlive _ _ _] _ _ _ _] Ht Emm Hc3 Hpid Hcr3 Htlb Hc].
  pose proof Hld as ([Hrun Hc' Ho Hal Hready Hres] & Hst & Hex). pose proof Hrun as [_ H0 Hsp Hpd Hmem Htlb' Hcr3'].
  assert (∀ x, is_Some (k_objs k !! x) → x ≠ mm → k_objs k' !! x = k_objs k !! x) as Hobjs.
  { intros x Hx Hm. apply (gr_objs _ _ _ _ _ _ _ _ Hg); [by left|done|apply not_elem_of_nil]. }
  assert (∀ x, x ∈ l.*1 → live !! x = None ∧ is_Some (live' !! x)) as Hnew.
  { intros x Hx. by destruct (gr_new _ _ _ _ _ _ _ _ Hg x Hx) as [?%not_elem_of_nil|(? & _ & ?)]. }
  assert (∀ x, is_Some (live !! x) → is_Some (live' !! x)) as Hmore.
  { intros x [y Hy]. exists y. by eapply lookup_weaken, (gr_used _ _ _ _ _ _ _ _ Hg). }
  assert (is_Some (live !! mm)) as Hml by (apply Hlive; by left).
  assert (∀ x, x ∈ (first_files [] l ≫= file_parts (λ _, q)) → x = q ∨ x = file) as Hparts.
  { intros x (f & Hx & Hf)%list_elem_of_bind. assert (f = file) as ->.
    { destruct (file_areas_first l file Hfa) as [E|E]; rewrite E in Hf; [by apply not_elem_of_nil in Hf|by apply list_elem_of_singleton in Hf]. }
    apply elem_of_cons in Hx as [?|?%list_elem_of_singleton]; auto. }
  assert (current_task (k_tasks k') = current_task (k_tasks k)) as Ect by (by rewrite (gr_tasks _ _ _ _ _ _ _ _ Hg)).
  assert (current_task (k_tasks k) ≠ mm) as Hctm by congruence.
  constructor; try done; [|rewrite Ect, Hobjs; [done|by eexists|done]].
  constructor; try done. constructor; try done.
  - constructor; [|apply NoDup_app; split; [apply Hsp|split]].
    + intros [Hx|Hx]%elem_of_app; [destruct (Hnew _ Hx); destruct Hml; congruence|].
      destruct (Hparts _ Hx) as [->| ->]; congruence.
    + intros x Hx Hx2. destruct (Hnew _ Hx) as [Hn _]. destruct (Hparts _ Hx2) as [->| ->]; [destruct Hql|destruct Hfl]; congruence.
    + destruct (file_areas_first l file Hfa) as [-> | ->]; cbn; [constructor|]. constructor; [|apply NoDup_singleton].
      by intros ?%list_elem_of_singleton.
  - intros x [->|[Hx|Hx]%elem_of_app]%elem_of_cons; [auto|by apply Hnew|]. destruct (Hparts _ Hx) as [->| ->]; auto.
  - intros f Hf. assert (f = file) as ->.
    { destruct (file_areas_first l file Hfa) as [E|E]; rewrite E in Hf; [by apply not_elem_of_nil in Hf|by apply list_elem_of_singleton in Hf]. }
    exists pos, inode. rewrite !Hobjs; [done| | | |]; (by eexists) || congruence.
Qed.
(** ** An address space given back *)

Lemma beside_release k live i xs p' f' h :
  released i (k_paging k) (k_frames k) p' f' →
  let o := drop_all xs (k_objs k) in
  let k' := set_store (Store h o) (set_frames f' (set_paging p' k)) in
  store_ok (Store h o) (drop_all xs live) → beside [i] xs k live k' (drop_all xs live).
Proof.
  intros [Hmem _ _ _ Hpds Hw _ _] o k' Hs.
  assert (∀ j, j ∉ [i] → j ≠ i) as Hne by (intros j Hj ->; apply Hj; by left).
  assert (∀ j va, pd_live (k_paging k) j → j ∉ [i] → user_va va → walk p' (pd_slot j) va = walk (k_paging k) (pd_slot j) va) as Hwalk.
  { intros j va Hj Hn%Hne [Hva _]. apply Hw; [right; by exists j| |done]. unfold pd_slot, PAGE_SIZE. lia. }
  constructor; try done.
  - intros x _ Hx. by apply drop_all_out.
  - intros x _ Hx. by apply drop_all_out.
  - intros j Hj Hn%Hne. by apply Hpds.
  - intros j va Hj Hn Hva. unfold contents. change (k_paging k') with p'. by rewrite Hwalk.
Qed.

(** The running program notices nothing of the release of another address space. *)
Lemma release_other_run k live mm i l ino t mm2 i2 l2 ino2 :
  process k live mm i l ino t → dormant k live mm2 i2 l2 ino2 → i ≠ i2 →
  (∀ x, x ∈ footprint mm2 l2 ino2 → x ∉ footprint mm l ino) →
  let xs := footprint mm2 l2 ino2 in
  ∃ k', release_mm mm2 k = Ret tt k' ∧ k_objs k' = drop_all xs (k_objs k) ∧ k_console k' = k_console k ∧ k_fs k' = k_fs k ∧
    ¬ pd_live (k_paging k') i2 ∧ process k' (drop_all xs live) mm i l ino t ∧
    beside [i2] xs k live k' (drop_all xs live) ∧
    ∀ va, user_va va → contents k' i l va = contents k i l va.
Proof.
  intros Hp Hd Hne Hdisj xs. pose proof (do_owned _ _ _ _ _ _ Hd) as Ho.
  assert (get_pd_vma (cr3 (k_paging k)) ≠ pd_slot i2) as Hcr3.
  { rewrite (pr_cr3 _ _ _ _ _ _ _ Hp). unfold pd_slot, PAGE_SIZE. lia. }
  destruct (release_mm_run _ _ _ _ _ _ Ho Hcr3) as (p' & f' & h & Hrn & Hs & Hrel).
  pose proof (beside_release k live i2 xs p' f' h Hrel Hs) as Hb. fold xs in Hb, Hrn. set (k' := set_store _ _) in Hrn, Hb.
  pose proof Hrel as [Hmem _ _ _ Hpds Hw Hc Htl]. pose proof (mo_paging _ _ (ow_mem _ _ _ _ _ _ Ho)) as Hpg.
  destruct (process_beside [i2] xs k live k' _ mm i l ino t Hp Hb) as [Hp' Hv].
  - intros ->%list_elem_of_singleton. done.
  - intros x Hx. split; [by apply Hdisj|]. intros ->. by eapply footprint_not_task, Hx; [|apply Hp].
  - exact Hc.
  - apply (tlb_coherent_ext (k_paging k)); [|done|done|apply Hp]. intros va Hva. apply Hw; [by apply po_cr3|done..].
  - apply Hp.
  - exists k'. split; [exact Hrn|]. split; [done|]. split; [done|]. split; [done|]. split; [|done].
    intros Hl. by destruct (proj1 (Hpds i2) Hl).
Qed.

(** ** The two address spaces of the call *)

Lemma process_footprint_live k live mm i l ino t x :
  process k live mm i l ino t → x ∈ footprint mm l ino → is_Some (live !! x).
Proof. intros Hp. apply (ow_live _ _ _ _ _ _ (do_owned _ _ _ _ _ _ (pr_dormant _ _ _ _ _ _ _ Hp))). Qed.

Lemma process_not_task k live mm i l ino t : process k live mm i l ino t → current_task (k_tasks k) ∉ footprint mm l ino.
Proof.
  intros Hp. by eapply footprint_not_task, (pr_task _ _ _ _ _ _ _ Hp); apply (do_owned _ _ _ _ _ _ (pr_dormant _ _ _ _ _ _ _ Hp)).
Qed.

(** The objects of the new program: its address space, its areas, its file. *)
Definition program_objects (mm : Z) l (file q : Z) : list Z := mm :: l.*1 ++ [file; q].

(** The task [t] of [k], in the new address space [mm'], before the old one is
    given back. *)
Record two_spaces k live mm i l ino t k' live' mm' i' l' file q inode : Prop := {
  ts_new : process k' live' mm' i' l' (λ _, q) (with_space mm' i' t);
  ts_old : dormant k' live' mm i l ino;
  ts_view va : user_va va → contents k' i l va = contents k i l va;
  ts_beside : beside [i] [current_task (k_tasks k)] k live k' live';
  ts_index : i ≠ i';
  ts_fresh : ¬ pd_live (k_paging k) i';
  ts_taken x : x ∈ program_objects mm' l' file q → live !! x = None ∧ k_objs k !! x = None ∧ is_Some (live' !! x);
  ts_kept x : x ∉ program_objects mm' l' file q → live' !! x = live !! x;
  ts_file : k_objs k' !! file = Some (OFile (File q 0)) ∧ k_objs k' !! q = Some (OInode inode);
  ts_areas : file_areas l' file;
  ts_console : k_console k' = k_console k;
}.

(** After the switch. *)
Lemma execve_switched k live k1 live1 k2 live2 mm i l ino t file q inode mm' i' :
  process k live mm i l ino t → stays k live k1 live1 mm i l ino t → opened_file k live k1 live1 file q inode →
  stays k1 live1 k2 live2 mm i l ino t → new_space k1 live1 k2 live2 mm' i' →
  fs_ok (k_fs k) → inode_ok inode → program_file (image (k_fs k)) inode →
  let k3 := switched mm' i' t k2 in
  two_spaces k live mm i l ino t k3 live2 mm' i' [] file q inode ∧ loading k3 mm' i' [] live2 file q inode ∧
  image (k_fs k3) = image (k_fs k) ∧ switch_mm (current_task (k_tasks k2)) mm' k2 = Ret tt k3.
Proof.
  intros Hp Hst1 [Eo1 (fsz & isz & El1) (Hfnz & Hfl & Hfo) (Hfq & Hql & Hqo)] Hst2 Hns Hfs Hino [Hmap _ _] k3.
  pose proof (st_process _ _ _ _ _ _ _ _ _ Hst1) as Hp1. pose proof (st_process _ _ _ _ _ _ _ _ _ Hst2) as Hp2.
  pose proof (stays_trans _ _ _ _ _ _ _ _ _ _ _ Hst1 Hst2) as Hst.
  pose proof (new_space_dormant _ _ _ _ _ _ _ _ _ _ _ (λ _, q) Hp1 Hns Hp2) as Hd. destruct Hns as [Eo2 (sz & El2) (Hnz & Hml & Hmo) Hi' Hn Ef Efs].
  destruct (switched_process k2 live2 mm' i' [] (λ _, q) t Hd (pr_task _ _ _ _ _ _ _ Hp2) (pr_pid _ _ _ _ _ _ _ Hp2) (pr_console _ _ _ _ _ _ _ Hp2))
    as (Hp3 & Hb3 & _). fold k3 in Hp3, Hb3.
  assert (i ≠ i') as Hne.
  { intros <-. apply (nd_fresh _ _ _ _ Hn). apply (ow_pd _ _ _ _ _ _ (do_owned _ _ _ _ _ _ (pr_dormant _ _ _ _ _ _ _ Hp1))). }
  destruct (dormant_beside _ _ _ _ _ _ _ _ _ _ (pr_dormant _ _ _ _ _ _ _ Hp2) Hb3 (not_elem_of_nil _)) as [Hold Hv3].
  { intros x Hx ->%list_elem_of_singleton. exact (process_not_task _ _ _ _ _ _ _ Hp2 Hx). }
  pose proof (stays_current _ _ _ _ _ _ _ _ _ Hst) as Ect.
  assert (file ≠ mm' ∧ q ≠ mm') as [Hfm Hqm].
  { rewrite El1 in Hml. split; intros <-; [|by rewrite lookup_insert_eq in Hml].
    by rewrite lookup_insert_ne, lookup_insert_eq in Hml. }
  pose proof (pr_task _ _ _ _ _ _ _ Hp) as Ht.
  assert (∀ x, k_objs k !! x = None → x ≠ current_task (k_tasks k2)) as Hct by (intros x Hx ->; rewrite Ect in Hx; congruence).
  assert (k_objs k3 !! file = Some (OFile (File q 0)) ∧ k_objs k3 !! q = Some (OInode inode)) as [Ef3 Eq3].
  { change (k_objs k3) with (<[current_task (k_tasks k2) := OTask (with_space mm' i' t)]> (k_objs k2)).
    rewrite !(lookup_insert_ne _ (current_task _)) by (symmetry; by apply Hct).
    rewrite Eo2, !(lookup_insert_ne _ mm') by done. rewrite Eo1, lookup_insert_eq.
    rewrite lookup_insert_ne by done. by rewrite lookup_insert_eq. }
  destruct (bs_fs _ _ _ _ _ _ (st_beside _ _ _ _ _ _ _ _ _ Hst) Hfs) as [Hfs2 Himg].
  split; [|split; [|split; [exact Himg|]]].
  - constructor; try done.
    + intros va Hva. by rewrite Hv3, (st_view _ _ _ _ _ _ _ _ _ Hst).
    + eapply beside_weaken; [| |exact (beside_trans _ _ _ _ _ _ _ _ _ _ (st_beside _ _ _ _ _ _ _ _ _ Hst) Hb3)].
      * intros j. rewrite app_nil_r. by left.
      * intros x. rewrite Ect. by left.
    + intros Hl. apply (nd_fresh _ _ _ _ Hn). apply (bs_pd _ _ _ _ _ _ (st_beside _ _ _ _ _ _ _ _ _ Hst1)); [done|].
      by intros ->%list_elem_of_singleton.
    + intros x. rewrite El2, El1. intros [->|[->|[->|?%not_elem_of_nil]%elem_of_cons]%elem_of_cons]%elem_of_cons; [| | |done].
      * split; [|split; [|rewrite lookup_insert_eq; by eexists]]; [by rewrite El1, !lookup_insert_ne in Hml by congruence|].
        by rewrite Eo1, !lookup_insert_ne in Hmo by congruence.
      * split; [done|]. split; [done|]. rewrite !lookup_insert_ne by done. rewrite lookup_insert_eq. by eexists.
      * split; [done|]. split; [done|]. rewrite lookup_insert_ne by done. rewrite lookup_insert_eq. by eexists.
    + intros x. unfold program_objects. cbn. rewrite !not_elem_of_cons. intros (? & ? & ? & _). rewrite El2, El1. by rewrite !lookup_insert_ne.
    + by intros x ?%not_elem_of_nil.
    + apply Hst.
  - split; [by eapply process_space|]. split; [apply Hb3|].
    pose proof (process_space _ _ _ _ _ _ _ Hp3) as Hus. constructor; [apply (us_running _ _ _ _ Hus)|exists 0; unfold open_file; by rewrite Ef3
      |unfold open_inode; by rewrite Eq3|done|done|]. change (k_fs k3) with (k_fs k2). by rewrite Himg.
  - by eapply switch_mm_run, Hp2.
Qed.

(** After the loader. *)
Lemma two_spaces_grown k live k3 live2 k4 live4 mm i l ino t file q inode mm' i' l' :
  process k live mm i l ino t → two_spaces k live mm i l ino t k3 live2 mm' i' [] file q inode →
  loading k4 mm' i' l' live4 file q inode → grown mm' k3 i' [] live2 k4 l' live4 → file_areas l' file →
  two_spaces k live mm i l ino t k4 live4 mm' i' l' file q inode.
Proof.
  intros Hp [Hnew Hold Hv Hb Hne Hfr Htk Hkp [Hf Hq] _ Hc] Hld Hg Hfa.
  assert (mm' ∈ program_objects mm' [] file q ∧ file ∈ program_objects mm' [] file q ∧ q ∈ program_objects mm' [] file q) as (Pm & Pf & Pq).
  { unfold program_objects. cbn. rewrite !elem_of_cons. tauto. }
  destruct (Htk _ Pm) as (Hml & Hmo & _), (Htk _ Pf) as (Hfl & Hfo & Hf2), (Htk _ Pq) as (Hql & Hqo & Hq2).
  assert (file ≠ q) as Hfq by congruence.
  pose proof (do_owned _ _ _ _ _ _ (pr_dormant _ _ _ _ _ _ _ Hnew)) as [_ (Hm3 & _) _ _ _ _ _].
  destruct (loaded_process _ _ _ _ _ _ _ _ _ _ _ Hnew Hld Hg Hfa Hfq Hf2 Hq2 ltac:(by exists 0) Hq) as [Hnew4 Hb4].
  assert (∀ x, x ∈ footprint mm l ino → x ∉ [mm']) as Hout.
  { intros x Hx ->%list_elem_of_singleton. destruct (process_footprint_live _ _ _ _ _ _ _ _ Hp Hx). congruence. }
  destruct (dormant_beside _ _ _ _ _ _ _ _ _ _ Hold Hb4 ltac:(by intros ?%list_elem_of_singleton) Hout) as [Hold4 Hv4].
  pose proof (pr_task _ _ _ _ _ _ _ Hnew) as Ht3.
  assert (current_task (k_tasks k3) = current_task (k_tasks k)) as Ect by by rewrite (bs_tasks _ _ _ _ _ _ Hb).
  assert (∀ x, k_objs k3 !! x = None → k_objs k !! x = None) as Hobj.
  { intros x Hx. destruct (k_objs k !! x) as [y|] eqn:E; [|done]. rewrite (bs_objs _ _ _ _ _ _ Hb), E in Hx; [done|by eexists|].
    intros ->%list_elem_of_singleton. rewrite Ect in Ht3. congruence. }
  assert (∀ x, live2 !! x = None → live !! x = None) as Hlv.
  { intros x Hx. destruct (decide (x ∈ program_objects mm' [] file q)) as [Hin|Hin]; [by apply Htk|]. by rewrite <-Hkp. }
  constructor; try done.
  - intros va Hva. by rewrite Hv4, Hv.
  - eapply beside_weaken; [| |exact (beside_trans _ _ _ _ _ _ _ _ _ _ Hb Hb4)].
    + intros j [->|[->|?%not_elem_of_nil]%elem_of_cons]%elem_of_cons; [left; by left|by right|done].
    + intros x [->|[->|?%not_elem_of_nil]%elem_of_cons]%elem_of_cons; [left; by left|by right|done].
  - intros x Hx. destruct (decide (x ∈ program_objects mm' [] file q)) as [Hin|Hin].
    + destruct (Htk x Hin) as (? & ? & [y Hy]). do 2 (split; [done|]). exists y. by eapply lookup_weaken, (gr_used _ _ _ _ _ _ _ _ Hg).
    + assert (x ∈ l'.*1) as Hxl.
      { unfold program_objects in Hx, Hin. cbn in Hin. rewrite elem_of_cons, elem_of_app in Hx. rewrite elem_of_cons in Hin. tauto. }
      destruct (gr_new _ _ _ _ _ _ _ _ Hg x Hxl) as [?%not_elem_of_nil|(? & ? & ?)]; [done|]. auto.
  - intros x Hx. unfold program_objects in Hx. rewrite elem_of_cons, elem_of_app in Hx.
    rewrite (gr_exact _ _ _ _ _ _ _ _ Hg) by tauto. apply Hkp. unfold program_objects. cbn. rewrite elem_of_cons. tauto.
  - rewrite !(gr_objs _ _ _ _ _ _ _ _ Hg); [done|left; by eexists|congruence|by intros ?%not_elem_of_nil
      |left; by eexists|congruence|by intros ?%not_elem_of_nil].
  - by rewrite (gr_console _ _ _ _ _ _ _ _ Hg).
Qed.
(** ** The end of the call *)

Lemma image_loaded_ext k k' i l img inode :
  Forall program_segment (file_phdrs img inode) → (∀ va, user_va va → contents k' i l va = contents k i l va) →
  image_loaded k i l img inode → image_loaded k' i l img inode.
Proof.
  intros Hseg Hv [Hs Hst]. rewrite Forall_forall in Hseg, Hs. split.
  - rewrite Forall_forall. intros ph Hin Hpt va Hva. destruct (Hs ph Hin Hpt va Hva) as [Ha Hc]. destruct (Hseg ph Hin Hpt) as (? & ? & _).
    split; [done|]. rewrite Hv; [done|]. apply program_va. lia.
  - intros va Hva. destruct (Hst va Hva) as [Ha Hc]. split; [done|]. rewrite Hv; [done|]. apply program_va.
    unfold USER_STACK_TOP, USER_STACK_BASE, PAGE_SIZE in Hva. lia.
Qed.

(** The task runs the program of the file [inode], in the new address space [mm']
    with the areas [l']; the old one is given back. *)
Record replaced k live mm i l ino t inode k' live' mm' i' l' file q : Prop := {
  rp_process : process k' live' mm' i' l' (λ _, q) (with_space mm' i' t);
  rp_image : image_loaded k' i' l' (image (k_fs k)) inode;
  rp_areas : file_areas l' file;
  rp_file : k_objs k' !! file = Some (OFile (File q 0)) ∧ k_objs k' !! q = Some (OInode inode);
  rp_taken x : x ∈ program_objects mm' l' file q → live !! x = None ∧ is_Some (live' !! x);
  rp_kept x : x ∉ program_objects mm' l' file q → live' !! x = if decide (x ∈ footprint mm l ino) then None else live !! x;
  rp_gone : (∀ x, x ∈ footprint mm l ino → k_objs k' !! x = None) ∧ ¬ pd_live (k_paging k') i;
  rp_beside : beside [i] (current_task (k_tasks k) :: footprint mm l ino) k live k' live';
  rp_console : ∃ ds, digits_value 10 ds = t_pid t ∧ Forall (λ d, 0 ≤ d < 10) ds ∧ (hd 0 ds = 0 → ds = [0]) ∧
    k_console k' = con_print (bytes_of "Pid: " ++ ((λ d, 48 + d) <$> ds) ++ [newline]) (k_console k);
}.

(** The last message. *)
Lemma print_pid_run {A} (o : A) k t :
  k_objs k !! current_task (k_tasks k) = Some (OTask t) → 0 ≤ t_pid t < 0x100000000 → console_ok (k_console k).1 →
  ∃ ds, (print "Pid: ";; t ← in_store (load (T := task_t) (current_task (k_tasks k)));
     in_console (console_put_dec32 (t_pid t));; in_console (console_putc newline);; mret o) k =
    Ret o (set_console (con_print (bytes_of "Pid: " ++ ((λ d, 48 + d) <$> ds) ++ [newline]) (k_console k)) k) ∧
    digits_value 10 ds = t_pid t ∧ Forall (λ d, 0 ≤ d < 10) ds ∧ (hd 0 ds = 0 → ds = [0]).
Proof.
  intros Ht Hpid Hc. assert (Forall (λ ch, ch ≠ 0) (bytes_of "Pid: ")) as Hl by decided.
  pose proof (console_puts_run _ _ Hc Hl) as Hr1. set (c1 := con_print (bytes_of "Pid: ") (k_console k)) in *.
  assert (console_ok c1.1) as Hc1 by by apply con_print_ok.
  destruct (console_put_dec32_run (t_pid t) c1 Hc1 Hpid) as (ds & Hr2 & Hv & Hds & _ & Hz).
  set (c2 := con_print _ c1) in Hr2. assert (console_ok c2.1) as Hc2 by by apply con_print_ok.
  pose proof (console_putc_run newline c2 Hc2) as Hr3.
  exists ds. split; [|done]. unfold print. rewrite bind_bind, (bind_ret _ _ _ _ _ (in_console_ret _ k _ _ Hr1)), mret_bind.
  set (k1 := set_console c1 k). rewrite (bind_ret _ _ _ _ _ (in_load_task k1 _ t Ht)).
  rewrite (bind_ret _ _ _ _ _ (in_console_ret _ k1 _ _ Hr2)). set (k2 := set_console c2 k1).
  rewrite (bind_ret _ _ _ _ _ (in_console_ret _ k2 _ _ Hr3)). rewrite !con_print_app. done.
Qed.

Lemma process_printed k live mm i l ino t text :
  process k live mm i l ino t → let k' := set_console (con_print text (k_console k)) k in
  process k' live mm i l ino t ∧ beside [] [] k live k' live.
Proof.
  intros Hp k'. pose proof (do_owned _ _ _ _ _ _ (pr_dormant _ _ _ _ _ _ _ Hp)) as [Hs _ _ _ _ _ Hmem].
  assert (beside [] [] k live k' live) as Hb.
  { apply beside_objs; try done; [|by right]. by destruct k as [[]]. }
  split; [|done]. destruct (process_beside [] [] k live k' live mm i l ino t Hp Hb) as [Hp' _]; try done.
  - apply not_elem_of_nil.
  - by intros x ?%not_elem_of_nil.
  - apply Hp.
  - apply con_print_ok, Hp.
Qed.
(** What the new address space owns are objects of the new program. *)
Lemma footprint_program mm l file q x : file_areas l file → x ∈ footprint mm l (λ _, q) → x ∈ program_objects mm l file q.
Proof.
  intros Hl. unfold footprint, program_objects. rewrite !elem_of_cons, !elem_of_app. intros [?|[?|Hx]]; [tauto..|].
  apply list_elem_of_bind in Hx as (f & Hx & Hf). assert (f = file) as ->.
  { destruct (file_areas_first l file Hl) as [E|E]; rewrite E in Hf; [by apply not_elem_of_nil in Hf|by apply list_elem_of_singleton in Hf]. }
  unfold file_parts in Hx. rewrite !elem_of_cons in Hx |- *. tauto.
Qed.

Lemma two_spaces_apart k live k4 live4 mm i l ino t file q inode mm' i' l' x :
  process k live mm i l ino t → two_spaces k live mm i l ino t k4 live4 mm' i' l' file q inode →
  x ∈ footprint mm l ino → x ∉ program_objects mm' l' file q.
Proof.
  intros Hp Hts Hx Hin. destruct (ts_taken _ _ _ _ _ _ _ _ _ _ _ _ _ _ _ Hts x Hin) as (E & _).
  destruct (process_footprint_live _ _ _ _ _ _ _ _ Hp Hx). congruence.
Qed.

(** Success: the old address space is given back. *)
Lemma replaced_run {A} (o : A) k live k4 live4 mm i l ino t file q inode mm' i' l' :
  process k live mm i l ino t → two_spaces k live mm i l ino t k4 live4 mm' i' l' file q inode →
  image_loaded k4 i' l' (image (k_fs k)) inode → Forall program_segment (file_phdrs (image (k_fs k)) inode) →
  ∃ k' live', (release_mm mm;; print "Pid: ";; t ← in_store (load (T := task_t) (current_task (k_tasks k)));
     in_console (console_put_dec32 (t_pid t));; in_console (console_putc newline);; mret o) k4 = Ret o k' ∧
    replaced k live mm i l ino t inode k' live' mm' i' l' file q.
Proof.
  intros Hp Hts Himg Hsegs. pose proof Hts as [Hnew Hold Hv Hb Hne Hfr Htk Hkp [Hf Hq] Hfa Hc].
  assert (∀ x, x ∈ footprint mm l ino → x ∉ program_objects mm' l' file q) as Hap by (intros x; exact (two_spaces_apart _ _ _ _ _ _ _ _ _ _ _ _ _ _ _ x Hp Hts)).
  destruct (release_other_run k4 live4 mm' i' l' (λ _, q) (with_space mm' i' t) mm i l ino Hnew Hold) as (k5 & Hrn & Eo & Ec & _ & Hfree & Hp5 & Hb5 & Hv5).
  { congruence. }
  { intros x Hx Hin. by apply (Hap x Hx), footprint_program. }
  assert (current_task (k_tasks k5) = current_task (k_tasks k)) as Ect.
  { rewrite (bs_tasks _ _ _ _ _ _ Hb5). cbn. by rewrite (bs_tasks _ _ _ _ _ _ Hb). }
  destruct (print_pid_run o k5 (with_space mm' i' t) (pr_task _ _ _ _ _ _ _ Hp5) (pr_pid _ _ _ _ _ _ _ Hp5) (pr_console _ _ _ _ _ _ _ Hp5))
    as (ds & Hrn2 & Hds). rewrite Ect in Hrn2.
  destruct (process_printed k5 _ mm' i' l' _ _ (bytes_of "Pid: " ++ ((λ d, 48 + d) <$> ds) ++ [newline]) Hp5) as [Hp6 Hb6].
  set (k6 := set_console _ k5) in *. exists k6, (drop_all (footprint mm l ino) live4).
  split; [by rewrite (bind_ret _ _ _ _ _ Hrn)|].
  assert (∀ x, x ∈ program_objects mm' l' file q → x ∉ footprint mm l ino) as Hap' by (intros x Hx Hin; by apply (Hap x)).
  assert (file ∉ footprint mm l ino ∧ q ∉ footprint mm l ino) as [Hfo Hqo].
  { split; apply Hap'; unfold program_objects; rewrite elem_of_cons, elem_of_app, !elem_of_cons; tauto. }
  constructor; try done.
  - by apply (image_loaded_ext k4).
  - change (k_objs k6) with (k_objs k5). by rewrite Eo, !drop_all_out.
  - intros x Hx. destruct (Htk x Hx) as (? & _ & ?). rewrite drop_all_out; auto.
  - intros x Hx. destruct (decide _); [by apply drop_all_in|]. rewrite drop_all_out by done. by apply Hkp.
  - split; [|done]. intros x Hx. change (k_objs k6) with (k_objs k5). rewrite Eo. by apply drop_all_in.
  - eapply beside_weaken; [| |exact (beside_trans _ _ _ _ _ _ _ _ _ _ (beside_trans _ _ _ _ _ _ _ _ _ _ Hb Hb5) Hb6)].
    + intros j [[?|?]%elem_of_app|?%not_elem_of_nil]%elem_of_app; [by left..|done].
    + intros x. rewrite app_nil_r. by left.
  - exists ds. change (k_console k6) with (con_print (bytes_of "Pid: " ++ ((λ d, 48 + d) <$> ds) ++ [newline]) (k_console k5)).
    rewrite Ec, Hc. split; [apply Hds|]. split; [apply Hds|]. split; [apply Hds|done].
Qed.

(** The nodes of an address space. *)
Lemma space_objects k live mm i l ino x :
  dormant k live mm i l ino → x ∈ mm :: l.*1 → (∃ m, k_objs k !! x = Some (OMm m)) ∨ ∃ v, k_objs k !! x = Some (OVma v).
Proof.
  intros [[_ (Hm & _ & Hseg) _ _ _ _ _] _ _ _ _] Hx. apply elem_of_cons in Hx as [->|Hx]; [left; by eexists|right].
  apply list_elem_of_fmap in Hx as ([y b] & -> & Hin). destruct (dseg_lookup _ _ _ _ _ _ _ _ _ Hseg Hin) as (_ & r & nx & Hv). by eexists.
Qed.

(** An object changed and changed back. *)
Lemma beside_same js x o k live k' live' :
  beside js [x] k live k' live' → k_objs k !! x = Some o → k_objs k' !! x = Some o → live' !! x = live !! x →
  beside js [] k live k' live'.
Proof.
  intros [A1 A2 A3 A4 A5 A6 A7 A8 A9] E E' El. constructor; try done.
  - intros y Hy _. destruct (decide (y = x)) as [->|Hne]; [done|]. apply A3; [done|]. by intros ?%list_elem_of_singleton.
  - intros y Hy _. destruct (decide (y = x)) as [->|Hne]; [congruence|]. apply A4; [done|]. by intros ?%list_elem_of_singleton.
Qed.

(** The program [t] of [k] goes on; [file] is open and belongs to nobody. *)
Record left_open k live k' live' (file q : Z) (inode : minix_inode_t) : Prop := {
  lo_fresh : file ≠ q ∧ live !! file = None ∧ live !! q = None;
  lo_live : ∃ fsz isz, live' = <[q := isz]> (<[file := fsz]> live);
  lo_objs : k_objs k' !! file = Some (OFile (File q 0)) ∧ k_objs k' !! q = Some (OInode inode);
}.

(** Failure: back to the old address space. *)
Lemma returned_run {A} (o : A) k live k4 live4 mm i l ino t file q inode mm' i' l' :
  process k live mm i l ino t → two_spaces k live mm i l ino t k4 live4 mm' i' l' file q inode → (∀ x, x ∈ l' → a_file x.2 = 0) →
  ∃ k' live', (switch_mm (current_task (k_tasks k)) mm;; release_mm mm';; mret o) k4 = Ret o k' ∧
    stays k live k' live' mm i l ino t ∧ left_open k live k' live' file q inode.
Proof.
  intros Hp Hts Hnof. pose proof Hts as [Hnew Hold Hv Hb Hne Hfr Htk Hkp [Hf Hq] Hfa Hc].
  assert (current_task (k_tasks k4) = current_task (k_tasks k)) as Ect by by rewrite (bs_tasks _ _ _ _ _ _ Hb).
  set (t' := with_space mm' i' t) in *. pose proof (pr_task _ _ _ _ _ _ _ Hnew) as Ht4.
  rewrite <-Ect, (bind_ret _ _ _ _ _ (switch_mm_run k4 live4 mm i l ino t' Hold Ht4)).
  destruct (switched_process k4 live4 mm i l ino t' Hold Ht4 (pr_pid _ _ _ _ _ _ _ Hnew) (pr_console _ _ _ _ _ _ _ Hnew)) as (Hp5 & Hb5 & Hv5).
  assert (with_space mm i t' = t) as Et.
  { destruct Hp as [_ _ Emm Ec3 _ _ _ _]. subst mm. destruct t. cbn in *. by rewrite Ec3. }
  rewrite Et in Hp5. set (k5 := switched mm i t' k4) in *.
  destruct (dormant_beside _ _ _ _ _ _ _ _ _ _ (pr_dormant _ _ _ _ _ _ _ Hnew) Hb5 (not_elem_of_nil _)) as [Hd5 _].
  { intros x Hx ->%list_elem_of_singleton. exact (process_not_task _ _ _ _ _ _ _ Hnew Hx). }
  assert (∀ x, x ∈ footprint mm' l' (λ _, q) → x ∈ program_objects mm' l' file q) as Hpo by (intros x; by apply footprint_program).
  destruct (release_other_run k5 live4 mm i l ino t mm' i' l' (λ _, q) Hp5 Hd5 Hne) as (k6 & Hrn & Eo & Ec & _ & _ & Hp6 & Hb6 & Hv6).
  { intros x Hx Hin. exact (two_spaces_apart _ _ _ _ _ _ _ _ _ _ _ _ _ _ _ _ Hp Hts Hin (Hpo x Hx)). }
  assert (first_files [] l' = []) as Enil.
  { destruct (first_files [] l') as [|f fs] eqn:E; [done|]. assert (f ∈ first_files [] l') as Hin by (rewrite E; by left).
    apply first_files_spec in Hin as ((x & -> & Hx)%list_elem_of_fmap & Hnz & _). by destruct (Hnz (Hnof x Hx)). }
  assert (footprint mm' l' (λ _, q) = mm' :: l'.*1) as Efp by (unfold footprint; rewrite Enil; cbn; by rewrite app_nil_r).
  rewrite Efp in *. set (xs := mm' :: l'.*1) in *.
  assert (∀ x, x ∈ program_objects mm' l' file q ↔ x ∈ xs ∨ x = file ∨ x = q) as Hpq.
  { intros x. unfold program_objects, xs. rewrite !elem_of_cons, elem_of_app, !elem_of_cons. rewrite elem_of_nil. tauto. }
  exists k6, (drop_all xs live4). split; [by rewrite (bind_ret _ _ _ _ _ Hrn)|].
  assert (file ∉ xs ∧ q ∉ xs) as [Hfx Hqx].
  { split; intros [[? ?]|[? ?]]%(space_objects _ _ _ _ _ _ _ (pr_dormant _ _ _ _ _ _ _ Hnew)); congruence. }
  assert (∀ x, x ∈ xs → live !! x = None) as Hxs by (intros x Hx; apply Htk, Hpq; by left).
  destruct (Htk file) as (Hfl & Hfo & [fsz Hfs]); [apply Hpq; tauto|]. destruct (Htk q) as (Hql & Hqo & [isz Hqs]); [apply Hpq; tauto|].
  assert (file ≠ q) as Hfq by congruence.
  assert (drop_all xs live4 = <[q := isz]> (<[file := fsz]> live)) as El.
  { apply map_eq. intros x. destruct (decide (x = q)) as [->|?]; [by rewrite lookup_insert_eq, drop_all_out|].
    rewrite lookup_insert_ne by done. destruct (decide (x = file)) as [->|?]; [by rewrite lookup_insert_eq, drop_all_out|].
    rewrite lookup_insert_ne by done. destruct (decide (x ∈ xs)) as [Hx|Hx]; [by rewrite drop_all_in, Hxs|].
    rewrite drop_all_out by done. apply Hkp. rewrite Hpq. tauto. }
  split.
  - constructor; [done| | |by rewrite Ec].
    + pose proof (beside_trans _ _ _ _ _ _ _ _ _ _ (beside_trans _ _ _ _ _ _ _ _ _ _ Hb Hb5) Hb6) as Hb0.
      pose proof (pr_task _ _ _ _ _ _ _ Hp6) as Ht6. rewrite (bs_tasks _ _ _ _ _ _ Hb0) in Ht6. cbn in Ht6.
      eapply beside_same; [|exact (pr_task _ _ _ _ _ _ _ Hp)|exact Ht6|].
      * eapply beside_weaken; [| |exact Hb0].
        -- intros j [[?|?%not_elem_of_nil]%elem_of_app| ->%list_elem_of_singleton]%elem_of_app; [by left|done|by right].
        -- intros x [[?|Hx]%elem_of_app|Hx]%elem_of_app; [by left|left; by rewrite Ect in Hx|].
           right. split; [|by apply Hxs]. apply Htk, Hpq. by left.
      * rewrite El. pose proof (pr_task _ _ _ _ _ _ _ Hp). rewrite !lookup_insert_ne by congruence. done.
    + intros va Hva. by rewrite Hv6, Hv5, Hv.
  - constructor; [done|by exists fsz, isz|]. rewrite Eo, !drop_all_out by done.
    change (k_objs k5) with (<[current_task (k_tasks k4) := OTask (with_space mm i t')]> (k_objs k4)).
    rewrite !lookup_insert_ne by congruence. done.
Qed.
(** ** The whole call *)

(** The call once the file is open and the new address space [mm'] made. *)
Lemma sys_execve_steps phdr_address r k file k1 mm' k2 live mm i l ino t :
  execve_open (ebx r) k = Ret file k1 → file ≠ 0 → execve_mm file k1 = Ret mm' k2 → mm' ≠ 0 → process k2 live mm i l ino t →
  let task := current_task (k_tasks k2) in
  sys_execve phdr_address r k =
    (switch_mm task mm';; entry ← load_image phdr_address file;
     match entry with
     | None => switch_mm task mm;; release_mm mm';; mret (Returns (-1) r)
     | Some entry_point =>
         release_mm mm;; print "Pid: ";; t ← in_store (load (T := task_t) task);
         in_console (console_put_dec32 (t_pid t));; in_console (console_putc newline);;
         mret (Returns 0 (start_registers entry_point r))
     end) k2.
Proof.
  intros Hrn1 Hf Hrn2 Hmm [_ Ht <- _ _ _ _ _] task. unfold sys_execve.
  rewrite (bind_ret _ _ _ _ _ Hrn1), (proj2 (Z.eqb_neq _ _) Hf), (bind_ret _ _ _ _ _ Hrn2), (proj2 (Z.eqb_neq _ _) Hmm).
  rewrite (bind_ret _ _ _ _ _ (in_current k2)). fold task.
  rewrite (bind_ret _ _ _ _ _ (in_load_task k2 task t Ht)). cbv zeta.
  destruct (switch_mm task mm' k2) as [[] k3|f k3] eqn:E3.
  - rewrite !(bind_ret _ _ _ _ _ E3). symmetry. apply bind_bind.
  - by rewrite !(bind_fault _ _ _ _ _ E3).
Qed.
(** The registers the new program starts with. *)
Definition entry_registers (entry_point : Z) r : syscall_registers_t :=
  Registers 0 0 0 (old_kernel_esp r) 0 0 0 (eax r) entry_point (user_cs r) 0x202 USER_STACK_TOP (user_ss r).

(** Why a load fails before the first segment, in the new address space [l']. *)
Definition header_refused k (img : Z → list Z) (inode : minix_inode_t) : Prop :=
  kmalloc SIZEOF_VMA (k_store k) = Ret 0 (k_store k) ∨ i_size inode < SIZEOF_EHDR ∨ e_phnum (file_ehdr img inode) = 0.

(** The ways [sys_execve] of the program in the file [inode] ends, once the task is
    in the new address space; [m] runs from [k']. *)
Definition executed (phdr_address : Z) r k live mm i l ino t inode (m : M (kernel H B D) outcome) k' : Prop :=
  let img := image (k_fs k) in
  let task := current_task (k_tasks k) in
  (∃ k2 live' mm' i' l' file q, m k' = Ret (Returns 0 (entry_registers (e_entry (file_ehdr img inode)) r)) k2 ∧
     replaced k live mm i l ino t inode k2 live' mm' i' l' file q) ∨
  (∃ k2 live' file q, m k' = Ret (Returns (-1) r) k2 ∧ stays k live k2 live' mm i l ino t ∧ left_open k live k2 live' file q inode ∧
     ∃ k1 live1 mm' i' l', two_spaces k live mm i l ino t k1 live1 mm' i' l' file q inode ∧ header_refused k1 img inode) ∨
  (∃ k1 live1 mm' i' l' file q, m k' = (in_store (kfree phdr_address);; switch_mm task mm;; release_mm mm';; mret (Returns (-1) r)) k1 ∧
     two_spaces k live mm i l ino t k1 live1 mm' i' l' file q inode ∧ image_refused k1 img inode).

Lemma execve_rest_run phdr_address r k live k3 live3 mm i l ino t file q inode mm' i' :
  process k live mm i l ino t → two_spaces k live mm i l ino t k3 live3 mm' i' [] file q inode →
  loading k3 mm' i' [] live3 file q inode → image (k_fs k3) = image (k_fs k) → file ≠ 0 → program_file (image (k_fs k)) inode →
  let task := current_task (k_tasks k) in
  let m := entry ← load_image phdr_address file;
     match entry with
     | None => switch_mm task mm;; release_mm mm';; mret (Returns (-1) r)
     | Some entry_point =>
         release_mm mm;; print "Pid: ";; t ← in_store (load (T := task_t) task);
         in_console (console_put_dec32 (t_pid t));; in_console (console_putc newline);;
         mret (Returns 0 (start_registers entry_point r))
     end in
  executed phdr_address r k live mm i l ino t inode m k3 ∨
  ∃ k2, m k3 = Fault PageFaultPanic k2 ∧ ¬ can_fault (length (file_phdrs (image (k_fs k)) inode)) k3.
Proof.
  intros Hp Hts Hld Eimg Hnz Hpf task m. rewrite <-Eimg in Hpf.
  destruct (load_image_run k3 mm' i' live3 file q inode phdr_address Hld Hnz Hpf)
    as [(l' & live4 & k4 & Hrn & Hld4 & Hg & Hfa & _ & Himg)|[(l' & live4 & k4 & m4 & Hrn & Hld4 & Hg & Hfa & Hwhy)|(k4 & Hrn & Hno)]];
    cbv zeta in *; rewrite Eimg in *.
  - left. left. pose proof (two_spaces_grown _ _ _ _ _ _ _ _ _ _ _ _ _ _ _ _ _ Hp Hts Hld4 Hg Hfa) as Hts4.
    destruct (replaced_run (Returns 0 (start_registers (e_entry (file_ehdr (image (k_fs k)) inode)) r)) _ _ _ _ _ _ _ _ _ _ _ _ _ _ _
      Hp Hts4 Himg (pf_segments _ _ Hpf)) as (k5 & live5 & Hrn5 & Hrp).
    exists k5, live5, mm', i', l', file, q. split; [|exact Hrp]. unfold m. rewrite (bind_ret _ _ _ _ _ Hrn). exact Hrn5.
  - left. right. pose proof (two_spaces_grown _ _ _ _ _ _ _ _ _ _ _ _ _ _ _ _ _ Hp Hts Hld4 Hg Hfa) as Hts4.
    destruct Hwhy as [(-> & Hnof & Hwhy)|[-> Hwhy]]; [left|right].
    + destruct (returned_run (Returns (-1) r) _ _ _ _ _ _ _ _ _ _ _ _ _ _ _ Hp Hts4 Hnof) as (k5 & live5 & Hrn5 & Hst & Hlo).
      exists k5, live5, file, q. split; [|split; [exact Hst|split; [exact Hlo|]]].
      * unfold m. rewrite (bind_ret _ _ _ _ _ Hrn). exact Hrn5.
      * exists k4, live4, mm', i', l'. done.
    + exists k4, live4, mm', i', l', file, q. split; [|done]. unfold m, free_array in *.
      destruct (in_store (kfree phdr_address) k4) as [[] k5|f k5] eqn:E5.
      * rewrite (bind_ret _ _ _ _ _ E5) in Hrn. rewrite (bind_ret _ _ _ _ _ E5). rewrite (bind_ret _ _ _ _ _ Hrn). done.
      * rewrite (bind_fault _ _ _ _ _ E5) in Hrn. rewrite (bind_fault _ _ _ _ _ E5). by rewrite (bind_fault _ _ _ _ _ Hrn).
  - right. exists k4. split; [|done]. by apply bind_fault.
Qed.
(** Why the call gives up before the switch: the heap is full, the path leads
    nowhere, or, with the file open, there is no room or no page directory for a new
    address space. *)
Definition exec_refused k live mm i l ino t (path : list Z) : Prop :=
  kmalloc SIZEOF_FILE (k_store k) = Ret 0 (k_store k) ∨ lookup_path k (Some path) = None ∨
  ∃ k1 live1 file q inode, stays k live k1 live1 mm i l ino t ∧ opened_file k live k1 live1 file q inode ∧
    (kmalloc SIZEOF_MM (k_store k1) = Ret 0 (k_store k1) ∨ ∀ j, 0 ≤ j < 16 → pd_live (k_paging k1) j).

(** The segments of the program that a path leads to. *)
Definition path_segments k (path : list Z) : list elf32_phdr_t :=
  match lookup_path k (Some path) with Some inode => file_phdrs (image (k_fs k)) inode | None => [] end.

Lemma sys_execve_run phdr_address r k live mm i l ino t path :
  process k live mm i l ino t → user_string k i l (ebx r) path → ebx r ≠ 0 → (length path < string_fuel)%nat →
  on_disk (k_fs k) path → (∀ inode, lookup_path k (Some path) = Some inode → program_file (image (k_fs k)) inode) →
  let n := (store_faults k i (ebx r) (Z.of_nat (S (length path))) + length (path_segments k path))%nat in
  (∃ inode, lookup_path k (Some path) = Some inode ∧ executed phdr_address r k live mm i l ino t inode (sys_execve phdr_address r) k) ∨
  (∃ k', sys_execve phdr_address r k = Ret (Returns (-1) r) k' ∧ stays k live k' live mm i l ino t ∧ k_objs k' = k_objs k ∧
     exec_refused k live mm i l ino t path) ∨
  (∃ k', sys_execve phdr_address r k = Fault PageFaultPanic k' ∧ ¬ can_fault n k) ∨
  (∃ k', sys_execve phdr_address r k = Fault WildAccess k' ∧ no_inode_room k).
Proof.
  intros Hp Hstr Hva Hfuel Hd Hpf n.
  destruct (execve_open_run k live mm i l ino t (ebx r) path Hp Hstr Hva Hd Hfuel)
    as [(file & q & inode & k1 & live1 & Hrn1 & Hst1 & Hof & Hlook & _ & Ht1)|[(k1 & Hrn1 & Hst1 & Eo & Hwhy)|[(k1 & Hrn1 & Hno)|(k1 & Hrn1 & Hno)]]].
  - pose proof (of_file _ _ _ _ _ _ _ Hof) as (Hfnz & _ & _). specialize (Hpf inode Hlook).
    pose proof (lookup_path_ok _ _ _ (od_fs _ _ Hd) Hlook) as Hino.
    destruct (execve_mm_run _ _ _ _ _ _ _ _ _ _ _ _ Hp Hst1 Hof) as [(mm' & i' & k2 & live2 & Hrn2 & Hst2 & Hns)|(k2 & Hrn2 & Hst2 & Eo & Hwhy)].
    + pose proof (ns_fresh _ _ _ _ _ _ Hns) as (Hmnz & _ & _).
      destruct (execve_switched _ _ _ _ _ _ _ _ _ _ _ _ _ _ _ _ Hp Hst1 Hof Hst2 Hns (od_fs _ _ Hd) Hino Hpf) as (Hts & Hld & Eimg & Hsw).
      pose proof (sys_execve_steps phdr_address r k file k1 mm' k2 live2 mm i l ino t Hrn1 Hfnz Hrn2 Hmnz (st_process _ _ _ _ _ _ _ _ _ Hst2)) as Hsteps.
      cbv zeta in Hsteps. rewrite (bind_ret _ _ _ _ _ Hsw) in Hsteps. set (k3 := switched mm' i' t k2) in *.
      assert (current_task (k_tasks k2) = current_task (k_tasks k)) as Ect.
      { by rewrite (stays_current _ _ _ _ _ _ _ _ _ Hst2), (stays_current _ _ _ _ _ _ _ _ _ Hst1). }
      rewrite Ect in Hsteps.
      destruct (execve_rest_run phdr_address r _ _ _ _ _ _ _ _ _ _ _ _ _ _ Hp Hts Hld Eimg Hfnz Hpf) as [Hex|(k4 & Hrn4 & Hno)].
      * left. exists inode. split; [done|]. unfold executed in *. rewrite Hsteps. exact Hex.
      * right. right. left. exists k4. split; [by rewrite Hsteps|]. intros Hcan. apply Hno.
        assert (can_fault (length (file_phdrs (image (k_fs k)) inode)) k1) as Hcan1.
        { eapply takes_can; [exact Ht1|]. unfold n, path_segments in Hcan. by rewrite Hlook in Hcan. }
        unfold can_fault in *. change (k_frames k3) with (k_frames k2). change (pt_in_use (k_paging k3)) with (pt_in_use (k_paging k2)).
        rewrite (ns_frames _ _ _ _ _ _ Hns), (nd_pts _ _ _ _ (ns_directory _ _ _ _ _ _ Hns)). exact Hcan1.
    + right. left. exists k2. split; [|split; [done|split; [done|]]].
      * unfold sys_execve. rewrite (bind_ret _ _ _ _ _ Hrn1), (proj2 (Z.eqb_neq _ _) Hfnz). by rewrite (bind_ret _ _ _ _ _ Hrn2).
      * right. right. by exists k1, live1, file, q, inode.
  - right. left. exists k1. split; [|split; [done|split; [done|]]].
    + unfold sys_execve. by rewrite (bind_ret _ _ _ _ _ Hrn1).
    + destruct Hwhy; [by left|right; by left].
  - right. right. left. exists k1. split; [by apply bind_fault|]. intros [? ?]. apply Hno. split; unfold n in *; lia.
  - right. right. right. exists k1. split; [by apply bind_fault|done].
Qed.
(** *** Property *)

(** C2 (refinement, [sys_execve]): for a task whose address space is in order, a path
    in its memory and a program in the file that the path leads to, execve ends in
    one of these ways.  It replaces the program: it returns 0 with the registers
    cleared, the instruction pointer at the entry of the file, the stack pointer at
    the top of the stack, interrupts on, the selectors kept; the task is in a new
    address space whose memory holds every segment of the file and a zero page of
    stack; the objects that the old address space owned and its page directory are
    given back; the heap has lost exactly that and gained exactly the objects of the new
    program; "Pid: " and the number of the task are printed.  It refuses before the
    switch, when the heap is full, the path leads nowhere or no page directory is
    free: it returns -1; the registers, the memory of the program, the payloads in use
    and the objects are as they were.  It fails before the first segment, when the header is
    not that of a program or the stack cannot be mapped: it returns -1 and the
    program goes on, but the file and its inode stay open and belong to nobody.  It
    fails in a segment: then the array on the stack is handed to [kfree] before the
    task goes back to the old address space and the new one is released.  The panic
    loop comes only with fewer free frames or page tables than the path and the
    segments need, the write through null only when there is no room for the inode.
    Whenever it returns, other address spaces, tasks and objects are as they were. *)
Theorem sys_execve_correct phdr_address r k live mm i l ino t path :
  process k live mm i l ino t → user_string k i l (ebx r) path → ebx r ≠ 0 → (length path < string_fuel)%nat →
  on_disk (k_fs k) path → (∀ inode, lookup_path k (Some path) = Some inode → program_file (image (k_fs k)) inode) →
  let n := (store_faults k i (ebx r) (Z.of_nat (S (length path))) + length (path_segments k path))%nat in
  (∃ inode, lookup_path k (Some path) = Some inode ∧ executed phdr_address r k live mm i l ino t inode (sys_execve phdr_address r) k) ∨
  (∃ k', sys_execve phdr_address r k = Ret (Returns (-1) r) k' ∧ stays k live k' live mm i l ino t ∧ k_objs k' = k_objs k ∧
     exec_refused k live mm i l ino t path) ∨
  (∃ k', sys_execve phdr_address r k = Fault PageFaultPanic k' ∧ ¬ can_fault n k) ∨
  (∃ k', sys_execve phdr_address r k = Fault WildAccess k' ∧ no_inode_room k).
Proof. exact (sys_execve_run phdr_address r k live mm i l ino t path). Qed.
End exec.

(** ** A program that replaces itself

    Its area is the file with the text [/a], the path of the program of Load.v. *)

#[local] Existing Instance sample_layout.

Definition exec_fs : fs (gmap Z (list Z)) := Fs sample_super (list_to_map [
  (2056, enc_inode 0x41ed 96 10 ++ enc_inode 0x81a4 112 11 ++ enc_inode 0x81a4 2 12);
  (2068, enc_entry 1 "." ++ enc_entry 1 ".." ++ enc_entry 2 "a");
  (2070, program_bytes); (2072, bytes_of "/a")]).

Definition exec_task : task_t := set_task_cr3 (get_pd_lma (pd_slot 0)) (set_mm the_mm (set_identity 7 0 zero_task)).
Definition exec_store : store heap :=
  Store release_heap (list_to_map [
    (the_task, OTask exec_task); (the_mm, OMm (Mm 0xc0120000 the_vma)); (the_vma, OVma (vma_of text_area the_mm 0 0));
    (text_inode, OInode (inode_at exec_fs 3)); (text_file, OFile (File text_inode 0))]).

Definition exec_kernel : kernel heap (gmap Z (list Z)) latches :=
  Kernel (Tasks exec_store 0 the_task 0) fresh_frames task_paging exec_fs (clear_screen, idle_bus) 0 zero_tss 0 ∅.

Definition exec_areas : list (Z * area) := [(the_vma, text_area)].

Lemma exec_mapped num : zone_of (image exec_fs) (inode_at exec_fs num) 0 ≠ 0 → ∀ n, n ≤ 1024 →
  mapped (image exec_fs) (inode_at exec_fs num) 0 n.
Proof. intros Hz n Hn o Ho. replace (o `div` 1024) with 0; [done|]. Z.div_mod_to_equations. lia. Qed.

Lemma exec_fs_ok : fs_ok exec_fs.
Proof. unfold fs_ok. simpl. done. Qed.

Lemma exec_store_ok : store_ok exec_store (live release_segs).
Proof.
  split; [exact (proj1 release_store_ok)|]. split; [done|].
  intros p ob Hp _. simpl in Hp.
  repeat (apply lookup_insert_Some in Hp as [[<- <-]|[_ Hp]];
    [eexists; split; [vm_compute; reflexivity | vm_compute; discriminate]|]).
  done.
Qed.

Lemma exec_dormant : dormant exec_kernel (live release_segs) the_mm 0 exec_areas (λ _, text_inode).
Proof.
  pose proof release_owned as [_ _ Hnd Hlive _ _ _].
  constructor.
  - constructor; [exact exec_store_ok| |exact Hnd|exact Hlive| | |].
    + split; [reflexivity|]. split; [by apply NoDup_singleton|]. split; [reflexivity|]. split; [discriminate|]. exists 0.
      split; [reflexivity|]. by split.
    + intros f Hf. unfold exec_areas in Hf. rewrite release_files in Hf. apply list_elem_of_singleton in Hf as ->. eexists 0, _. split; reflexivity.
    + split; [lia | reflexivity].
    + exact (rn_mem _ _ _ _ fault_running).
  - split; [vm_compute; reflexivity|]. split; [by apply Forall_nil|done].
  - intros x ->%list_elem_of_singleton. split; reflexivity.
  - intros x page ->%list_elem_of_singleton Hr Hal. change (0x400000 ≤ page < 0x401000) in Hr. split; [reflexivity|]. intros _. split; [exact exec_fs_ok|].
    exists text_inode, 0, (inode_at exec_fs 3). split; [reflexivity|]. split; [reflexivity|]. split; [apply inode_at_ok, exec_fs_ok|].
    assert (page = 0x400000) as -> by (Z.div_mod_to_equations; lia). intros off Hoff.
    assert (off = 0) as -> by (vm_compute; reflexivity). apply exec_mapped; vm_compute; discriminate.
  - intros va e Hva Hw. change (walk task_paging (pd_slot 0) va = Some e) in Hw. by rewrite task_paging_walk in Hw.
Qed.

Lemma exec_process : process exec_kernel (live release_segs) the_mm 0 exec_areas (λ _, text_inode) exec_task.
Proof.
  constructor; [exact exec_dormant | reflexivity | reflexivity | reflexivity | cbn; lia | | | exact clear_screen_ok].
  - exact (rn_cr3 _ _ _ _ fault_running).
  - exact (rn_tlb _ _ _ _ fault_running).
Qed.

Lemma exec_path : user_string exec_kernel 0 exec_areas 0x400000 (bytes_of "/a").
Proof.
  split; [decided|]. intros o c Ho. assert (o = 0 ∨ o = 1 ∨ o = 2)%nat as Hcases.
  { apply lookup_lt_Some in Ho. cbn in Ho. lia. }
  assert (∀ va, 0x400000 ≤ va < 0x401000 → user_va va) as Hva.
  { intros va Hr. split; [lia|]. unfold kernel_pde. rewrite pde_index_div by lia. Z.div_mod_to_equations. lia. }
  split; [apply Hva; lia|]. destruct Hcases as [->|[->| ->]]; cbn in Ho; injection Ho as <-;
    (split; [vm_compute; by eexists | vm_compute; reflexivity]).
Qed.

Lemma exec_disk : on_disk exec_fs (bytes_of "/a").
Proof.
  constructor; [exact exec_fs_ok | decided | vm_compute; reflexivity|].
  cbn. split; [|done]. intros _. apply exec_mapped; vm_compute; discriminate.
Qed.

Lemma exec_program : program_file (image exec_fs) (inode_at exec_fs 2).
Proof.
  assert (file_phdrs (image exec_fs) (inode_at exec_fs 2) = [program_header]) as Ep by (vm_compute; reflexivity).
  constructor.
  - apply exec_mapped; vm_compute; discriminate.
  - vm_compute. discriminate.
  - rewrite Ep. constructor; [|done]. intros _. cbn. lia.
Qed.

Definition exec_registers : syscall_registers_t := Registers 1 2 3 0 0x400000 4 5 SYS_EXECVE 0x400100 27 0x202 0xbffffff0 35.

Definition executes (r : res (kernel heap (gmap Z (list Z)) latches) outcome) : bool :=
  match r with Ret (Returns 0 _) _ => true | _ => false end.

Lemma exec_executes : executes (sys_execve 0 exec_registers exec_kernel) = true.
Proof. vm_compute. reflexivity. Qed.

Lemma executes_fault f k : executes (Fault f k) = false.
Proof. done. Qed.

Lemma executes_refused r k : executes (Ret (Returns (-1) r) k) = false.
Proof. done. Qed.

Lemma executes_after (a b c : M (kernel heap (gmap Z (list Z)) latches) unit) r k :
  executes ((a;; b;; c;; mret (Returns (-1) r)) k) = false.
Proof. unfold mbind, M_bind. destruct (a k) as [[] k1|]; [|done]. destruct (b k1) as [[] k2|]; [|done]. by destruct (c k2). Qed.

Lemma sys_execve_correct_witness :
  ∃ k' i' l', sys_execve 0 exec_registers exec_kernel =
      Ret (Returns 0 (Registers 0 0 0 0 0 0 0 SYS_EXECVE 0x8050064 27 0x202 USER_STACK_TOP 35)) k' ∧
    contents k' i' l' 0x8050064 = Some 1 ∧ contents k' i' l' 0x80513eb = Some 0 ∧ ¬ pd_live (k_paging k') 0 ∧
    objs (tk_store (k_tasks k')) !! the_vma = None ∧ objs (tk_store (k_tasks k')) !! text_file = None.
Proof.
  assert (lookup_path exec_kernel (Some (bytes_of "/a")) = Some (inode_at exec_fs 2)) as Elook by (vm_compute; reflexivity).
  pose proof exec_executes as Hex.
  destruct (sys_execve_correct 0 exec_registers exec_kernel (live release_segs) the_mm 0 exec_areas (λ _, text_inode) exec_task (bytes_of "/a")
    exec_process exec_path) as [(inode & Ei & Hcase)|[(k' & Hrn & _)|[(k' & Hrn & _)|(k' & Hrn & _)]]].
  - discriminate.
  - apply Nat.ltb_lt. vm_compute. reflexivity.
  - exact exec_disk.
  - intros inode Ei. rewrite Elook in Ei. injection Ei as <-. exact exec_program.
  - rewrite Elook in Ei. injection Ei as <-.
    destruct Hcase as [(k' & live' & mm' & i' & l' & file & q & Hrn & [_ [Himg _] _ _ _ _ [Hgone Hfree] _ _])
      |[(k' & live' & file & q & Hrn & _)|(k1 & live1 & mm' & i' & l' & file & q & Hrn & _)]].
    + exists k', i', l'. change (k_fs exec_kernel) with exec_fs in *.
      assert (e_entry (file_ehdr (image exec_fs) (inode_at exec_fs 2)) = 0x8050064) as Ee by (vm_compute; reflexivity).
      assert (file_phdrs (image exec_fs) (inode_at exec_fs 2) = [program_header]) as Ep by (vm_compute; reflexivity).
      rewrite Ee in Hrn. rewrite Ep in Himg. inversion Himg as [|ph phs Hone _ E]. specialize (Hone eq_refl). cbn in Hone.
      split; [exact Hrn|]. split; [|split; [|split; [exact Hfree|split]]].
      * etrans; [apply Hone; lia|]. vm_compute. reflexivity.
      * etrans; [apply Hone; lia|]. vm_compute. reflexivity.
      * apply Hgone. by right; left.
      * apply Hgone. vm_compute. by right; right; right; left.
    + exfalso. rewrite Hrn in Hex. exact (eq_true_false_abs _ Hex (executes_refused _ _)).
    + exfalso. rewrite Hrn in Hex. exact (eq_true_false_abs _ Hex (executes_after _ _ _ _ _)).
  - exfalso. rewrite Hrn in Hex. exact (eq_true_false_abs _ Hex (executes_refused _ _)).
  - exfalso. rewrite Hrn in Hex. exact (eq_true_false_abs _ Hex (executes_fault _ _)).
  - exfalso. rewrite Hrn in Hex. exact (eq_true_false_abs _ Hex (executes_fault _ _)).
Defined.
