(* ===== verification/Boot.v ===== *)
(** * The start of the kernel (src/kernel/main.c)

    The initialisation functions of every component with their messages, [main]
    and the first program.  The timer may interrupt them as soon as it is
    unmasked; the definitions are the sequence without interrupts. *)

From S2P Require Import Prelude Shell Layout Gdt Interrupts Allocator Heap Ports Console Tty Pci BlockDevice Disk Frames Paging Paths Fs Objects Linked Mmap Kernel Space Files Fault Elf Sched Switch Process Machine Syscall.

(** What [init_heap] does to the heap. *)
Class HeapInit {L : Layout} (H : Type) `{!Allocator H} := {
  heap_init : M H unit;
  heap_init_ok h : ∃ h', heap_init h = Ret tt h' ∧ alloc_ok h' ∅;
}.
#[export, refine] Instance heap_heap_init {L : Layout} : HeapInit heap := {| heap_init := init_heap_blocks |}.
Proof. intros h. destruct (init_heap_inv h) as (h' & Hrun & Hinv & Hl). exists h'. split; [done|]. by eexists. Defined.

(** The processor's registers when [enter_user_task] has left the kernel. *)
Record user_context := UserContext { u_eip : Z; u_cs : Z; u_eflags : Z; u_esp : Z; u_ss : Z; u_data : Z }.

Section code.
Context {L : Layout} {H : Type} `{!Allocator H} `{!HeapInit H} {B : Type} `{!BlockDevice B} `{!DiskDriver B} {D : Type} `{!Bus D}.
Abbreviation K := (M (machine H B D)).

Definition tell (s : string) : K unit := on_kernel (print s).
Definition tell_line (s : string) : K unit := on_kernel (print_line s).

Definition on_irq_handlers {A} (m : M (list (option irq_handler)) A) : K A := on m_irq_handlers set_irq_handlers m.
Definition on_exception_handlers {A} (m : M (list (option exception_handler)) A) : K A :=
  on m_exception_handlers set_exception_handlers m.
Definition on_syscall_handlers {A} (m : M (list (option syscall_handler)) A) : K A :=
  on m_syscall_handlers set_syscall_handlers m.
Definition on_pci {A} (m : M pci A) : K A := on m_pci set_pci m.
(** The scan uses the console too. *)
Definition on_scan {A} (m : M (pci * (console * D)) A) : K A :=
  on (λ s, (m_pci s, k_console (m_kernel s))) (λ x s, set_pci x.1 (set_kernel (set_console x.2 (m_kernel s)) s)) m.

(** ** The components *)

Definition init_gdt : K Z :=
  tell "Registering global descriptor table ... ";;
  on_segments setup_gdt;;
  tell_line "Done";;
  mret 1.

Definition init_physical_memory_allocator : K Z :=
  tell "Setting up physical memory allocator ... ";;
  on_kernel (in_frames init_frames);;
  tell_line "Done";;
  mret 1.

Definition init_heap : K Z :=
  tell "Setting up kernel heap space ... ";;
  on_kernel (in_store (lift (T := H) heap_init));;
  tell_line "Done";;
  mret 1.

Definition enable_interrupts : K unit := on_kernel (modify (λ k, set_eflags (Z.lor (k_eflags k) 0x200) k)).

Definition init_interrupts : K Z :=
  tell "Setting up CPU interrupts ... ";;
  on_ports pic_remap;;
  on_vectors init_idt;;
  on_vectors install_irq_gates;;
  on_ports lock_irqs;;
  on_vectors (lidt idt_address (8 * IDT_ENTRIES));;
  enable_interrupts;;
  tell_line "Done";;
  mret 1.

Definition init_exceptions : K Z :=
  tell "Setting up CPU exceptions ... ";;
  on_vectors install_exception_gates;;
  tell_line "Done";;
  mret 1.

Definition init_syscall : K Z :=
  tell "Setting up syscalls ... ";;
  on_vectors install_syscall_gate;;
  on_syscall_handlers register_syscalls;;
  tell_line "Done";;
  mret 1.

Definition init_tss (stack : Z) : K Z :=
  tell "Setting up task state segment ... ";;
  on_kernel (modify (set_tss (setup_tss stack)));;
  on_segments gdt_set_tss_entry;;
  on_segments ltss;;
  tell_line "Done";;
  mret 1.

Definition init_timer : K Z :=
  tell "Initializing PIT timer ... ";;
  on_ports init_pit;;
  on_irq_handlers (register_irq_handler 0 timer_irq);;
  on_ports (unmask_irq 0);;
  tell_line "Done";;
  mret 1.

(** The configuration that the scan has stored has six base addresses. *)
Definition init_disk : K Z :=
  tell "Initializing IDE disk ... ";;
  dev ← on_pci (pci_find_device 0x1 0x1);
  match dev with
  | None => tell_line "Failed: IDE controller not found";; mret 0
  | Some ide_dev =>
      bar4 ← nth_or (bar (cfg ide_dev)) 4;
      if Z.land bar4 0xfffc =? 0 then
        tell_line "Failed: bus-master BAR missing";;
        mret 0
      else
        ide_dev ← on_ports (pci_enable_bus_master ide_dev);
        on_disk (disk_attach ide_dev);;
        on_irq_handlers (register_irq_handler 14 ata_irq);;
        on_ports (unmask_irq 14);;
        tell_line "Done";;
        mret 1
  end.

Definition init_fs : K Z :=
  tell "Setting up file system ... ";;
  ok ← on_kernel (in_fs init_fs_super);
  if negb ok then
    tell "Failed: can not read super block";;
    mret 0
  else
    tell_line "Done";;
    mret 1.

Definition init_fault : K Z :=
  tell "Setting up page fault handler ... ";;
  on_exception_handlers (register_exception_handler 14 page_fault);;
  tell_line "Done";;
  mret 1.

Definition init_tty : K Z :=
  tell "Setting up TTY ... ";;
  on_tty (lift init_tty_queue);;
  tell_line "Done";;
  mret 1.

Definition init_keyboard : K Z :=
  tell "Initializing keyboard ... ";;
  on_irq_handlers (register_irq_handler 1 keyboard_irq);;
  on_ports (unmask_irq 1);;
  tell_line "Done";;
  mret 1.

(** ** The first program *)

Definition PROC1_EXEC_PATH : string := "/bin/potatoshell".

Definition print_proc1_exec_info (exec : Z) : M (kernel H B D) unit :=
  print "  executable file: ";;
  print PROC1_EXEC_PATH;;
  in_console (console_putc newline);;
  f ← in_store (load (T := file_t) exec);
  i ← in_store (load (T := minix_inode_t) (f_inode f));
  print "    time: ";;
  in_console (console_put_hex32 (i_time i) true);;
  in_console (console_putc newline);;
  print "    mode: ";;
  in_console (console_put_hex16 (i_mode i) true);;
  in_console (console_putc newline);;
  print "    size: ";;
  in_console (console_put_hex32 (i_size i) true);;
  in_console (console_putc newline);;
  print "    uid: ";;
  in_console (console_put_hex16 (i_uid i) true);;
  in_console (console_putc newline);;
  print "    gid: ";;
  in_console (console_put_hex8 (i_gid i) true);;
  in_console (console_putc newline);;
  print "    links: ";;
  in_console (console_put_hex8 (i_nlinks i) true);;
  in_console (console_putc newline);;
  mret tt.

Definition fail_start {A} (message : string) : M (kernel H B D) A :=
  print_line message;;
  spin_forever.

(** The data segments are loaded from [user_ss], the rest by [iret]. *)
Definition enter_user_task (user_eip user_cs user_eflags user_esp user_ss : Z) : M (kernel H B D) user_context :=
  modify (λ k, set_eflags (Z.land (k_eflags k) 0xfffffdff) k);;
  let ctx := UserContext user_eip user_cs user_eflags user_esp user_ss (u16 user_ss) in
  modify (set_eflags user_eflags);;
  mret ctx.

(** [phdr_address] is where [elf32_load_exec] has its array on the stack. *)
Definition enter_proc1 (phdr_address : Z) : M (kernel H B D) user_context :=
  print_line "Spawning proc1 ...";;
  proc1 ← create_task 0;
  if proc1 =? 0 then fail_start "Failed: can not create proc1 task"
  else
    t ← in_store (load (T := task_t) proc1);
    tss_set_kernel_stack (t_kernel_stack_top t);;
    flags ← gets k_eflags;
    let eflags := Z.lor flags 0x200 in
    ok ← in_tasks (enqueue_task proc1);
    if ok =? 0 then fail_start "Failed: can not register proc1 task"
    else
      stack ← in_tasks (vm_brk_flags USER_STACK_BASE PAGE_SIZE);
      if stack =? 0 then fail_start "Failed: can not reserve user stack"
      else
        proc1_exec ← in_store (kmalloc SIZEOF_FILE);
        opened ← (if proc1_exec =? 0 then mret 0 else vfs_open (Some (bytes_of PROC1_EXEC_PATH)) proc1_exec);
        if opened =? 0 then fail_start "Failed: can not get executable file"
        else
          print_proc1_exec_info proc1_exec;;
          entry ← elf32_load_exec phdr_address proc1_exec;
          match entry with
          | None => fail_start "Failed: can not load executable image"
          | Some entry_point =>
              print_line "Done";;
              print "Pid: ";;
              t ← in_store (load (T := task_t) proc1);
              in_console (console_put_dec32 (t_pid t));;
              in_console (console_putc newline);;
              in_paging (set_cr3 (t_cr3 t));;
              enter_user_task entry_point GDT_USER_CODE_SELECTOR eflags USER_STACK_TOP GDT_USER_DATA_SELECTOR
          end.

(** The order of [main]; the result is whether the first program can be started. *)
Definition start (idle_task_entry : Z) : K bool :=
  on_kernel (in_console enable_console_cursor);;
  tell_line "Hello, World!";;
  init_gdt;;
  init_physical_memory_allocator;;
  init_heap;;
  on_scan scan_pci;;
  init_interrupts;;
  init_exceptions;;
  init_syscall;;
  init_tss kernel_stack_top;;
  on_kernel init_scheduler;;
  init_timer;;
  disk_is_ready ← init_disk;
  fs_is_ready ← (if negb (disk_is_ready =? 0) then init_fs else mret 0);
  fault_handler_is_ready ← init_fault;
  init_tty;;
  init_keyboard;;
  on_kernel (init_idle_task idle_task_entry);;
  mret (negb (fs_is_ready =? 0) && negb (fault_handler_is_ready =? 0)).

Definition main (idle_task_entry phdr_address : Z) : K user_context :=
  ready ← start idle_task_entry;
  if (ready : bool) then on_kernel (enter_proc1 phdr_address) else on_kernel spin_forever.
End code.
