(* ===== verification/Start.v ===== *)
(** * The kernel started

    From the state that the boot code leaves, the initialisation functions of
    main.c establish what the components assume of each other. *)

From S2P Require Import Prelude Shell Layout Gdt Interrupts Allocator Heap Ports Console Tty Pci BlockDevice Disk Frames Paging Paths Fs Objects Linked Mmap Kernel Space Files Fault Elf Sched Switch Process Machine Syscall Boot.

(** The devices of the machine do not disturb each other. *)
Class Platform (D : Type) `{!Bus D} `{!PicBus D} `{!PciSpace D} := {
  pics_access (d d' : D) : access d d' → pics d' = pics d;
  pics_out16 (d : D) p v : 0xcf8 ≤ p < 0xd00 → pics (out16 p v d) = pics d;
}.

Section steps.
Context {L : Layout} {H : Type} `{!Allocator H} `{!HeapInit H} {B : Type} `{!BlockDevice B} `{!DiskDriver B} {D : Type} `{!Bus D} `{!PicBus D} `{!PciSpace D} `{!Platform D}.
Implicit Types (s : machine H B D) (cd : console * D).

Definition with_con cd s : machine H B D := set_kernel (set_console cd (m_kernel s)) s.

Lemma traffic_pics d d' : traffic d d' → pics d' = pics d.
Proof. induction 1 as [|d d1 d2 Hd _ IH]; [done|]. rewrite IH. by apply pics_access. Qed.

(** The console after some messages. *)
Definition con_next cd cd' : Prop := console_ok cd'.1 ∧ traffic cd.2 cd'.2.

Lemma con_next_trans cd1 cd2 cd3 : con_next cd1 cd2 → con_next cd2 cd3 → con_next cd1 cd3.
Proof. intros [_ H1] [Hc H2]. split; [done|]. by etrans. Qed.

Lemma con_next_print l cd : console_ok cd.1 → con_next cd (con_print l cd).
Proof. intros Hc. split; [by apply con_print_ok | apply traffic_print]. Qed.

Definition clean (t : string) : bool := bool_decide (Forall (λ ch, ch ≠ 0) (bytes_of t)).

Lemma print_run t cd (k : kernel H B D) : console_ok cd.1 → clean t = true →
  ∃ cd', print t (set_console cd k) = Ret tt (set_console cd' k) ∧ con_next cd cd'.
Proof.
  intros Hc Ht%bool_decide_eq_true_1. exists (con_print (bytes_of t) cd). split; [|by apply con_next_print].
  unfold print. by rewrite (bind_ret _ _ _ _ _ (in_console_ret _ (set_console cd k) _ _ (console_puts_run _ _ Hc Ht))).
Qed.

Lemma print_line_run t cd (k : kernel H B D) : console_ok cd.1 → clean t = true →
  ∃ cd', print_line t (set_console cd k) = Ret tt (set_console cd' k) ∧ con_next cd cd'.
Proof.
  intros Hc Ht%bool_decide_eq_true_1. exists (con_print (bytes_of t ++ [newline]) cd). split; [|by apply con_next_print].
  assert (Forall (λ ch, ch ≠ 0) (bytes_of t ++ [newline])) as Hl by (apply Forall_app; split; [done | by repeat constructor]).
  unfold print_line. by rewrite (bind_ret _ _ _ _ _ (in_console_ret _ (set_console cd k) _ _ (console_puts_run _ _ Hc Hl))).
Qed.

Lemma tell_run t cd s : console_ok cd.1 → clean t = true →
  ∃ cd', tell t (with_con cd s) = Ret tt (with_con cd' s) ∧ con_next cd cd'.
Proof.
  intros Hc Ht. destruct (print_run t cd (m_kernel s) Hc Ht) as (cd' & E & Hn). exists cd'. split; [|exact Hn].
  exact (on_kernel_ret _ (with_con cd s) _ _ E).
Qed.

Lemma tell_line_run t cd s : console_ok cd.1 → clean t = true →
  ∃ cd', tell_line t (with_con cd s) = Ret tt (with_con cd' s) ∧ con_next cd cd'.
Proof.
  intros Hc Ht. destruct (print_line_run t cd (m_kernel s) Hc Ht) as (cd' & E & Hn). exists cd'. split; [|exact Hn].
  exact (on_kernel_ret _ (with_con cd s) _ _ E).
Qed.

Lemma on_ports_run {A} (m : M D A) a c d d' s :
  m d = Ret a d' → on_ports m (with_con (c, d) s) = Ret a (with_con (c, d') s).
Proof.
  intros E. unfold on_ports. apply (on_kernel_ret _ (with_con (c, d) s) a (set_console (c, d') (m_kernel s))).
  unfold in_console, lift. cbn. by rewrite E.
Qed.

(** Commands of the other parts, beside the console. *)
Lemma on_segments_run (m : M segments unit) cd s x :
  m (m_segments s) = Ret tt x → on_segments m (with_con cd s) = Ret tt (with_con cd (set_segments x s)).
Proof. exact (on_ret _ _ m (with_con cd s) tt x). Qed.
Lemma on_vectors_run (m : M vectors unit) cd s x :
  m (m_vectors s) = Ret tt x → on_vectors m (with_con cd s) = Ret tt (with_con cd (set_vectors x s)).
Proof. exact (on_ret _ _ m (with_con cd s) tt x). Qed.
Lemma on_irq_handlers_run m cd s x :
  m (m_irq_handlers s) = Ret tt x → on_irq_handlers m (with_con cd s) = Ret tt (with_con cd (set_irq_handlers x s)).
Proof. exact (on_ret _ _ m (with_con cd s) tt x). Qed.
Lemma on_exception_handlers_run m cd s x :
  m (m_exception_handlers s) = Ret tt x →
  on_exception_handlers m (with_con cd s) = Ret tt (with_con cd (set_exception_handlers x s)).
Proof. exact (on_ret _ _ m (with_con cd s) tt x). Qed.
Lemma on_syscall_handlers_run m cd s x :
  m (m_syscall_handlers s) = Ret tt x →
  on_syscall_handlers m (with_con cd s) = Ret tt (with_con cd (set_syscall_handlers x s)).
Proof. exact (on_ret _ _ m (with_con cd s) tt x). Qed.
(** A command of the kernel that leaves the console alone. *)
Lemma on_kernel_run {A} (m : M (kernel H B D) A) a cd s k :
  m (set_console cd (m_kernel s)) = Ret a (set_console cd k) →
  on_kernel m (with_con cd s) = Ret a (with_con cd (set_kernel k s)).
Proof. exact (on_kernel_ret m (with_con cd s) a (set_console cd k)). Qed.
End steps.

(** The next message, in a state whose console is known to be in order. *)
Ltac say Hc Hn :=
  let E := fresh in
  lazymatch goal with
  | |- context [(tell ?t ≫= _) (with_con ?cd ?s)] =>
      let c := fresh "cd" in
      destruct (tell_run t cd s Hc ltac:(vm_compute; reflexivity)) as (c & E & Hn); rewrite (bind_ret _ _ _ _ _ E)
  | |- context [(tell_line ?t ≫= _) (with_con ?cd ?s)] =>
      let c := fresh "cd" in
      destruct (tell_line_run t cd s Hc ltac:(vm_compute; reflexivity)) as (c & E & Hn); rewrite (bind_ret _ _ _ _ _ E)
  end; clear E.
Ltac and_next Hall Hn :=
  let E := fresh in pose proof (con_next_trans _ _ _ Hall Hn) as E; clear Hall; rename E into Hall.
Ltac act H := rewrite (bind_ret _ _ _ _ _ H).

Section init.
Context {L : Layout} {H : Type} `{!Allocator H} `{!HeapInit H} {B : Type} `{!BlockDevice B} `{!DiskDriver B} {D : Type} `{!Bus D} `{!PicBus D} `{!PciSpace D} `{!Platform D}.
Implicit Types (s : machine H B D) (cd : console * D).

(** An initialisation that touches one part. *)
Lemma announced t (m : M (machine H B D) unit) cd s s2 :
  console_ok cd.1 → clean t = true → (∀ cd', m (with_con cd' s) = Ret tt (with_con cd' s2)) →
  ∃ cd', (tell t;; m;; tell_line "Done";; mret 1) (with_con cd s) = Ret 1 (with_con cd' s2) ∧ con_next cd cd'.
Proof.
  intros Hc Ht Hm. destruct (tell_run t cd s Hc Ht) as (cd1 & E & Hn1). act E. act (Hm cd1).
  say (proj1 Hn1) Hn2. eexists. split; [reflexivity|]. by eapply con_next_trans.
Qed.

Lemma init_gdt_run cd s x : console_ok cd.1 → setup_gdt (m_segments s) = Ret tt x →
  ∃ cd', init_gdt (with_con cd s) = Ret 1 (with_con cd' (set_segments x s)) ∧ con_next cd cd'.
Proof. intros Hc Hx. apply announced; [done | by vm_compute |]. intros cd'. by apply on_segments_run. Qed.

Lemma init_frames_kernel_run cd s : console_ok cd.1 →
  ∃ cd' f, init_physical_memory_allocator (with_con cd s) =
      Ret 1 (with_con cd' (set_kernel (set_frames f (m_kernel s)) s)) ∧ con_next cd cd' ∧
    frames_ok f ∧ ∀ i, 1024 ≤ Z.of_nat i < 16384 → f !! i = Some false.
Proof.
  intros Hc. destruct (init_frames_run (k_frames (m_kernel s))) as (f & Hrun & Hok & Hfree).
  destruct (announced "Setting up physical memory allocator ... " (on_kernel (in_frames init_frames)) cd s
    (set_kernel (set_frames f (m_kernel s)) s)) as (cd' & E & Hn);
    [exact Hc | vm_compute; reflexivity | |exists cd', f; exact (conj E (conj Hn (conj Hok Hfree)))].
  intros cd'. apply on_kernel_run. exact (in_frames_ret _ (set_console cd' (m_kernel s)) _ _ Hrun).
Qed.

Lemma init_heap_run cd s : console_ok cd.1 →
  ∃ cd' h, init_heap (with_con cd s) =
      Ret 1 (with_con cd' (set_kernel (set_store (Store h (objs (tk_store (k_tasks (m_kernel s))))) (m_kernel s)) s)) ∧
    con_next cd cd' ∧ alloc_ok h ∅.
Proof.
  intros Hc. set (st := tk_store (k_tasks (m_kernel s))).
  destruct (heap_init_ok (st_heap st)) as (h & Hrun & Hok).
  destruct (announced "Setting up kernel heap space ... " (on_kernel (in_store (lift (T := H) heap_init))) cd s
    (set_kernel (set_store (Store h (objs st)) (m_kernel s)) s)) as (cd' & E & Hn);
    [exact Hc | vm_compute; reflexivity | |exists cd', h; exact (conj E (conj Hn Hok))].
  intros cd'. apply on_kernel_run.
  exact (in_store_ret _ (set_console cd' (m_kernel s)) _ _ (lift_ret (T := H) heap_init st _ _ Hrun)).
Qed.

Lemma init_exceptions_run cd s v : console_ok cd.1 → install_exception_gates (m_vectors s) = Ret tt v →
  ∃ cd', init_exceptions (with_con cd s) = Ret 1 (with_con cd' (set_vectors v s)) ∧ con_next cd cd'.
Proof. intros Hc Hv. apply announced; [done | by vm_compute |]. intros cd'. by apply on_vectors_run. Qed.

Lemma init_syscall_run cd s v l : console_ok cd.1 → install_syscall_gate (m_vectors s) = Ret tt v →
  register_syscalls (m_syscall_handlers s) = Ret tt l →
  ∃ cd', init_syscall (with_con cd s) = Ret 1 (with_con cd' (set_syscall_handlers l (set_vectors v s))) ∧ con_next cd cd'.
Proof.
  intros Hc Hv Hl. unfold init_syscall. say Hc Hn1. act (on_vectors_run _ cd0 s v Hv).
  act (on_syscall_handlers_run _ cd0 (set_vectors v s) l Hl). say (proj1 Hn1) Hn2.
  eexists. split; [reflexivity|]. by eapply con_next_trans.
Qed.

Lemma init_tss_run stack cd s x : console_ok cd.1 → (gdt_set_tss_entry;; ltss) (m_segments s) = Ret tt x →
  ∃ cd', init_tss stack (with_con cd s) =
    Ret 1 (with_con cd' (set_segments x (set_kernel (set_tss (setup_tss stack) (m_kernel s)) s))) ∧ con_next cd cd'.
Proof.
  intros Hc (() & y & Hy & Hx)%bind_Ret_inv. unfold init_tss. say Hc Hn1.
  act (on_kernel_run (modify (set_tss (setup_tss stack))) tt cd0 s (set_tss (setup_tss stack) (m_kernel s)) eq_refl).
  set (s1 := set_kernel _ s). act (on_segments_run _ cd0 s1 y Hy). act (on_segments_run _ cd0 (set_segments y s1) x Hx).
  say (proj1 Hn1) Hn2. eexists. split; [reflexivity|]. by eapply con_next_trans.
Qed.

Lemma init_fault_run cd s l : console_ok cd.1 → register_exception_handler 14 page_fault (m_exception_handlers s) = Ret tt l →
  ∃ cd', init_fault (with_con cd s) = Ret 1 (with_con cd' (set_exception_handlers l s)) ∧ con_next cd cd'.
Proof. intros Hc Hl. apply announced; [done | by vm_compute |]. intros cd'. by apply on_exception_handlers_run. Qed.

Lemma init_tty_run cd s : console_ok cd.1 →
  ∃ cd', init_tty (with_con cd s) = Ret 1 (with_con cd' (set_tty (Tty (tty_queue (m_tty s).1) 0 0, (m_tty s).2) s)) ∧
    con_next cd cd'.
Proof.
  intros Hc. apply announced; [done | by vm_compute |]. intros cd'.
  exact (on_ret _ _ _ (with_con cd' s) tt _ (lift_ret init_tty_queue (m_tty s) _ _ eq_refl)).
Qed.

(** *** The scheduler *)

Lemma init_scheduler_run cd s : console_ok cd.1 →
  ∃ cd', on_kernel init_scheduler (with_con cd s) =
    Ret 1 (with_con cd' (set_kernel (set_tasks (Tasks (tk_store (k_tasks (m_kernel s))) 0 0 (dead_task (k_tasks (m_kernel s))))
      (m_kernel s)) s)) ∧ con_next cd cd'.
Proof.
  intros Hc. set (k := m_kernel s). destruct (print_run "Initializing scheduler ... " cd k Hc ltac:(vm_compute; reflexivity)) as (cd1 & E1 & Hn1).
  set (k2 := set_tasks (Tasks (tk_store (k_tasks k)) 0 0 (dead_task (k_tasks k))) k).
  destruct (print_line_run "Done" cd1 k2 (proj1 Hn1) ltac:(vm_compute; reflexivity)) as (cd2 & E2 & Hn2).
  exists cd2. split; [|by eapply con_next_trans].
  apply (on_kernel_ret _ (with_con cd s) 1 (set_console cd2 k2)).
  change (m_kernel (with_con cd s)) with (set_console cd k). unfold init_scheduler. act E1.
  change ((print_line "Done";; mret 1) (set_console cd1 k2) = Ret 1 (set_console cd2 k2)). by act E2.
Qed.

(** The idle task, alone in the ring. *)
Definition idle_of (cr3 : Z) : task_t :=
  Task 0 0 TASK_READY 0 0 idle_task_stack (idle_task_stack +ᵤ PROCESS_KERNEL_STACK_SIZE)
    ((idle_task_stack +ᵤ PROCESS_KERNEL_STACK_SIZE) -ᵤ 20) cr3 (replicate PROCESS_FDS 0) idle_task idle_task.

Definition idle_stack (idle_task_entry : Z) : gmap Z Z :=
  let top := idle_task_stack +ᵤ PROCESS_KERNEL_STACK_SIZE in
  <[top -ᵤ 4 := idle_task_entry]> (<[top -ᵤ 8 := 0]> (<[top -ᵤ 12 := 0]> (<[top -ᵤ 16 := 0]> (<[top -ᵤ 20 := 0]> ∅)))).

Definition with_idle (idle_task_entry : Z) (k : kernel H B D) : kernel H B D :=
  let st := tk_store (k_tasks k) in
  set_tasks (Tasks (Store (st_heap st) (<[idle_task := OTask (idle_of (Z.land (cr3 (k_paging k)) PAGE_ADDRESS_MASK))]>
      (<[idle_task_stack := OStack (idle_stack idle_task_entry)]> (objs st))))
    idle_task (current_task (k_tasks k)) (dead_task (k_tasks k))) k.

Lemma init_idle_task_run entry cd s : console_ok cd.1 →
  ∃ cd', on_kernel (init_idle_task entry) (with_con cd s) =
    Ret 1 (with_con cd' (set_kernel (with_idle entry (m_kernel s)) s)) ∧ con_next cd cd'.
Proof.
  intros Hc. set (k := m_kernel s). destruct (print_run "Initializing idle task ... " cd k Hc ltac:(vm_compute; reflexivity)) as (cd1 & E1 & Hn1).
  destruct (print_line_run "Done" cd1 (with_idle entry k) (proj1 Hn1) ltac:(vm_compute; reflexivity)) as (cd2 & E2 & Hn2).
  exists cd2. split; [|by eapply con_next_trans].
  apply (on_kernel_ret _ (with_con cd s) 1 (set_console cd2 (with_idle entry k))).
  change (m_kernel (with_con cd s)) with (set_console cd k). unfold init_idle_task. act E1.
  assert (idle_task ≠ 0 ∧ idle_task_stack ≠ 0) as [Hz1 Hz2].
  { pose proof idle_task_range. pose proof idle_task_stack_range. unfold in_kernel, KERNEL_VMA in *. lia. }
  act (in_get_cr3 (set_console cd1 k)).
  act (in_put_stack (set_console cd1 k) idle_task_stack (idle_stack entry) Hz2).
  set (k1 := insert_obj idle_task_stack _ _).
  act (in_put_task k1 idle_task (idle_of (Z.land (cr3 (k_paging k)) PAGE_ADDRESS_MASK)) Hz1).
  change ((print_line "Done";; mret 1) (set_console cd1 (with_idle entry k)) = Ret 1 (set_console cd2 (with_idle entry k))).
  by act E2.
Qed.

(** *** The interrupt controllers *)

(** The request line [irq] is masked ([b = true]) or unmasked, and nothing else of
    the controllers changes. *)
Record set_line (b : bool) (irq : Z) cd cd' : Prop := {
  sl_console : console_ok cd'.1;
  sl_ready : ready (pics cd'.2);
  sl_vector n : vector_of (pics cd'.2) n = vector_of (pics cd.2) n;
  sl_masked n : 0 ≤ n < 16 → masked (pics cd'.2) n = if n =? irq then b else masked (pics cd.2) n;
}.

Lemma con_next_pics cd cd' : con_next cd cd' → pics cd'.2 = pics cd.2.
Proof. intros [_ Ht]. by apply traffic_pics. Qed.

Lemma set_line_between b irq cd1 cd2 cd3 cd4 :
  pics cd2.2 = pics cd1.2 → set_line b irq cd2 cd3 → con_next cd3 cd4 → set_line b irq cd1 cd4.
Proof.
  intros E12 [Hc Hr Hv Hm] H34. pose proof (con_next_pics _ _ H34) as E34.
  constructor; [apply H34|by rewrite E34|intros n; by rewrite E34, Hv, E12|intros n Hn; by rewrite E34, Hm, E12].
Qed.

Lemma unmask_run irq cd s : console_ok cd.1 → ready (pics cd.2) → 0 ≤ irq < 16 →
  ∃ cd', on_ports (unmask_irq irq) (with_con cd s) = Ret tt (with_con cd' s) ∧ set_line false irq cd cd'.
Proof.
  intros Hc Hr Hirq. destruct cd as [c d]. destruct (set_mask_run false irq d Hr Hirq) as (d' & Hrun & Hr' & Hv & Hm).
  exists (c, d'). split; [by apply on_ports_run | by constructor].
Qed.

(** A request line gets its handler and is unmasked. *)
Lemma install_run irq h cd s l :
  console_ok cd.1 → ready (pics cd.2) → 0 ≤ irq < 16 → register_irq_handler irq h (m_irq_handlers s) = Ret tt l →
  ∃ cd', (on_irq_handlers (register_irq_handler irq h);; on_ports (unmask_irq irq);; tell_line "Done";; mret 1) (with_con cd s) =
    Ret 1 (with_con cd' (set_irq_handlers l s)) ∧ set_line false irq cd cd'.
Proof.
  intros Hc Hr Hirq Hl. act (on_irq_handlers_run _ cd s l Hl).
  destruct (unmask_run irq cd (set_irq_handlers l s) Hc Hr Hirq) as (cd1 & Hrun & Hset). act Hrun.
  say (sl_console _ _ _ _ Hset) Hn. eexists. split; [reflexivity|].
  by apply (set_line_between _ _ cd cd cd1).
Qed.

Lemma init_keyboard_run cd s l :
  console_ok cd.1 → ready (pics cd.2) → register_irq_handler 1 keyboard_irq (m_irq_handlers s) = Ret tt l →
  ∃ cd', init_keyboard (with_con cd s) = Ret 1 (with_con cd' (set_irq_handlers l s)) ∧ set_line false 1 cd cd'.
Proof.
  intros Hc Hr Hl. unfold init_keyboard. say Hc Hn. rewrite <-(con_next_pics _ _ Hn) in Hr.
  destruct (install_run 1 keyboard_irq cd0 s l (proj1 Hn) Hr ltac:(lia) Hl) as (cd' & Hrun & Hset).
  exists cd'. split; [exact Hrun|]. apply (set_line_between _ _ cd cd0 cd'); [by apply con_next_pics | done |].
  split; [apply (sl_console _ _ _ _ Hset) | done].
Qed.

Lemma init_pit_run d : ∃ d', init_pit d = Ret tt d' ∧ traffic d d'.
Proof. eexists. split; [reflexivity|]. do 3 (eapply rtc_r; [|by apply access_out8]). done. Qed.

Lemma init_timer_run cd s l :
  console_ok cd.1 → ready (pics cd.2) → register_irq_handler 0 timer_irq (m_irq_handlers s) = Ret tt l →
  ∃ cd', init_timer (with_con cd s) = Ret 1 (with_con cd' (set_irq_handlers l s)) ∧ set_line false 0 cd cd'.
Proof.
  intros Hc Hr Hl. unfold init_timer. say Hc Hn. destruct cd0 as [c0 d0].
  destruct (init_pit_run d0) as (d1 & Hpit & Ht). act (on_ports_run init_pit tt c0 d0 d1 s Hpit).
  assert (con_next cd (c0, d1)) as Hn1 by (eapply con_next_trans; [exact Hn | split; [apply Hn | exact Ht]]).
  rewrite <-(con_next_pics _ _ Hn1) in Hr.
  destruct (install_run 0 timer_irq (c0, d1) s l (proj1 Hn1) Hr ltac:(lia) Hl) as (cd' & Hrun & Hset).
  exists cd'. split; [exact Hrun|]. apply (set_line_between _ _ cd (c0, d1) cd'); [by apply con_next_pics | done |].
  split; [apply (sl_console _ _ _ _ Hset) | done].
Qed.

(** The gates and the controllers after [init_interrupts]: all lines masked. *)
Lemma init_interrupts_run cd s v :
  console_ok cd.1 → ready (pics cd.2) →
  (init_idt;; install_irq_gates;; lidt idt_address (8 * IDT_ENTRIES)) (m_vectors s) = Ret tt v →
  ∃ cd', init_interrupts (with_con cd s) = Ret 1 (with_con cd'
      (set_kernel (set_eflags (Z.lor (k_eflags (m_kernel s)) 0x200) (m_kernel s)) (set_vectors v s))) ∧
    console_ok cd'.1 ∧ ready (pics cd'.2) ∧ ∀ n, 0 ≤ n < 16 → vector_of (pics cd'.2) n = 32 + n ∧ masked (pics cd'.2) n = true.
Proof.
  intros Hc Hr (() & v1 & Hv1 & (() & v2 & Hv2 & Hv3)%bind_Ret_inv)%bind_Ret_inv. unfold init_interrupts. say Hc Hn.
  destruct cd0 as [c0 d0]. assert (ready (pics d0)) as Hr0 by (rewrite (con_next_pics _ _ Hn : pics d0 = _); exact Hr).
  destruct (pic_remap_run d0 Hr0) as (d1 & Hrun1 & Hp1). act (on_ports_run pic_remap tt c0 d0 d1 s Hrun1).
  act (on_vectors_run _ (c0, d1) s v1 Hv1). act (on_vectors_run _ (c0, d1) (set_vectors v1 s) v2 Hv2).
  assert (ready (pics d1)) as Hr1 by (by rewrite Hp1).
  destruct (set_masks_run ((λ n, (true, n)) <$> seqZ 0 16) d1 Hr1) as (d2 & Hrun2 & Hr2 & Hvec & Hm); [decided|].
  rewrite <-lock_irqs_masks in Hrun2. act (on_ports_run lock_irqs tt c0 d1 d2 (set_vectors v2 s) Hrun2).
  act (on_vectors_run _ (c0, d2) (set_vectors v2 s) v Hv3).
  set (s3 := set_vectors v s). set (s4 := set_kernel (set_eflags (Z.lor (k_eflags (m_kernel s)) 0x200) (m_kernel s)) s3).
  assert (enable_interrupts (with_con (c0, d2) s3) = Ret tt (with_con (c0, d2) s4)) as He by reflexivity.
  change (with_con (c0, d2) (set_vectors v (set_vectors v2 s))) with (with_con (c0, d2) s3). act He.
  say (proj1 Hn : console_ok (c0, d2).1) Hn4. exists cd0. split; [reflexivity|]. split; [apply Hn4|].
  pose proof (con_next_pics _ _ Hn4 : pics cd0.2 = pics d2) as E4. rewrite E4. split; [done|]. intros n Hn0. split.
  - rewrite Hvec, Hp1. unfold vector_of. cbn. destruct (Z.ltb_spec n 8); lia.
  - rewrite Hm by done.
    assert (∀ old, forallb (mask_after ((λ n, (true, n)) <$> seqZ 0 16) old) (seqZ 0 16) = true) as Hall by (intros []; vm_compute; reflexivity).
    specialize (Hall (masked (pics d1) n)). rewrite forallb_forall in Hall. apply Hall, list_elem_of_In, elem_of_seqZ. lia.
Qed.

(** *** The cursor and the PCI scan *)

Lemma on_console_run {A} (m : M (console * D) A) a cd cd' s :
  m cd = Ret a cd' → on_kernel (in_console m) (with_con cd s) = Ret a (with_con cd' s).
Proof.
  intros E. exact (on_kernel_ret _ (with_con cd s) _ _ (in_console_ret m (set_console cd (m_kernel s)) a cd' E)).
Qed.

Lemma enable_console_cursor_run (cd : console * D) : console_ok cd.1 →
  ∃ cd', enable_console_cursor cd = Ret tt cd' ∧ con_next cd cd'.
Proof.
  destruct cd as [c d]. cbn [fst]. intros Hc. unfold enable_console_cursor, lift, outb. run.
  rewrite !inb_run. cbn [part set_part Has_snd Has_fst fst snd].
  rewrite (set_console_cursor_pos_ret _ _ Hc). eexists. split; [reflexivity|]. split; [exact Hc|]. unfold crtc_out.
  cbn [snd]. do 4 (eapply rtc_r; [|by apply access_out8]).
  eapply rtc_r; [|by apply access_out8]. eapply rtc_r; [|by apply access_in8].
  eapply rtc_r; [|by apply access_out8]. eapply rtc_r; [|by apply access_out8].
  eapply rtc_r; [|by apply access_in8]. eapply rtc_r; [|by apply access_out8]. done.
Qed.

(** The same functions answer after other accesses. *)
Lemma found_same d d' fs : traffic d d' → found d' fs = found d fs.
Proof.
  intros Ht. unfold found. induction fs as [|f fs IH]; [done|]. cbn [omap list_omap]. by rewrite (config_of_same d d' _ _ _ Ht), IH.
Qed.

(** The table after the scan. *)
Record table_of (devs : list pci_device_t) (p : pci) : Prop := {
  tb_count : pci_device_count p = Z.of_nat (length devs);
  tb_devices : take (length devs) (pci_devices p) = devs;
}.

Lemma scan_run cd s :
  pci_device_count (m_pci s) = 0 → length (pci_devices (m_pci s)) = 64%nat → console_ok cd.1 →
  (length (found cd.2 functions) ≤ 64)%nat →
  ∃ cd' p, on_scan scan_pci (with_con cd s) = Ret 1 (with_con cd' (set_pci p s)) ∧ con_next cd cd' ∧
    table_of (found cd.2 functions) p.
Proof.
  destruct cd as [c d]. cbn [fst snd]. intros Hcount Hlen Hc Hfit.
  pose proof (scan_pci_run (m_pci s) c d Hcount Hlen Hc) as Hrun. cbv zeta in Hrun.
  rewrite (proj2 (Nat.leb_le _ _) Hfit) in Hrun. destruct Hrun as (p & c' & d' & Hrun & Hn & Htab & _ & Hscr & Ht).
  exists (c', d'), p. split; [exact (on_ret _ _ scan_pci (with_con (c, d) s) _ _ Hrun)|].
  split; [|by split]. split; [|exact Ht]. cbn [fst]. rewrite Hscr. rewrite <-(con_print_screen _ (c, d)). by apply con_print_ok.
Qed.

(** *** The disk *)

(** The device that [init_disk] takes: the first IDE controller, if its fourth base
    address register is set. *)
Definition ide_of (devs : list pci_device_t) : option pci_device_t :=
  match find_device 1 1 devs with
  | Some dev => if bm_base_of dev =? 0 then None else Some dev
  | None => None
  end.

(** The device with the bus-master bit of its command register set. *)
Definition bus_master (dev : pci_device_t) : pci_device_t :=
  let c := cfg dev in
  if negb (Z.land (command c) 0x4 =? 0) then dev
  else PciDevice (pci_bus dev) (pci_dev dev) (pci_func dev)
    (PciCfg (vendor_id c) (device_id c) (Z.lor (command c) 0x4) (status c) (revision c) (prog_if c) (sub_class c)
      (base_class c) (bar c)).

Lemma pci_enable_bus_master_run dev d :
  ∃ d', pci_enable_bus_master dev d = Ret (bus_master dev) d' ∧ pics d' = pics d.
Proof.
  unfold pci_enable_bus_master, bus_master. destruct (negb _); [by exists d|].
  eexists. split; [reflexivity|]. rewrite pics_out16; [apply pics_access, access_select|].
  set (a := pci_addr _ _ _ _). assert (0 ≤ Z.land a 0x2 ≤ 2) as Ha.
  { assert (0 ≤ Z.land a 0x2) by (apply Z.land_nonneg; lia).
    split; [done|]. replace (Z.land a 2) with (Z.land (Z.land a 3) 2) by (by rewrite <-Z.land_assoc).
    change 3 with (Z.ones 2). rewrite Z.land_ones by lia. assert (0 ≤ a mod 2 ^ 2 < 4) as Hm by (apply Z.mod_pos_bound; lia).
    assert (a mod 2 ^ 2 = 0 ∨ a mod 2 ^ 2 = 1 ∨ a mod 2 ^ 2 = 2 ∨ a mod 2 ^ 2 = 3) as [-> | [-> | [-> | ->]]] by lia; vm_compute; done. }
  unfold PCI_CFG_DATA_REGISTER. rewrite u16_id by lia. lia.
Qed.

(** What [init_disk] relies on: the driver takes the device, and then is a disk. *)
Definition attaches (b : B) (dev : pci_device_t) : Prop :=
  ∃ b', disk_attach dev b = Ret tt b' ∧ disk_ok b'.

Lemma on_disk_run {A} (m : M B A) a cd s b : m (fs_dev (k_fs (m_kernel s))) = Ret a b →
  on_disk m (with_con cd s) = Ret a (with_con cd (set_kernel (set_fs (Fs (super_block_buf (k_fs (m_kernel s))) b) (m_kernel s)) s)).
Proof.
  intros E. apply on_kernel_run. set (k := m_kernel s).
  exact (in_fs_ret _ (set_console cd k) a _ (lift_ret (T := B) m (k_fs k) a b E)).
Qed.

Lemma init_disk_run devs cd s l :
  console_ok cd.1 → ready (pics cd.2) → table_of devs (m_pci s) → (∀ dev, dev ∈ devs → length (bar (cfg dev)) = 6%nat) →
  register_irq_handler 14 ata_irq (m_irq_handlers s) = Ret tt l →
  match ide_of devs with
  | None => ∃ cd', init_disk (with_con cd s) = Ret 0 (with_con cd' s) ∧ con_next cd cd'
  | Some dev =>
      attaches (fs_dev (k_fs (m_kernel s))) (bus_master dev) →
      ∃ cd' b, init_disk (with_con cd s) = Ret 1 (with_con cd' (set_irq_handlers l
          (set_kernel (set_fs (Fs (super_block_buf (k_fs (m_kernel s))) b) (m_kernel s)) s))) ∧
        set_line false 14 cd cd' ∧ disk_ok b
  end.
Proof.
  intros Hc Hr [Hcount Htab] Hbars Hl. unfold init_disk, ide_of. say Hc Hn.
  assert (on_pci (pci_find_device 0x1 0x1) (with_con cd0 s) = Ret (find_device 1 1 devs) (with_con cd0 s)) as Hfind.
  { pose proof (on_ret m_pci set_pci _ (with_con cd0 s) _ _ (pci_find_device_run 1 1 (m_pci s) devs Hcount Htab)) as E. by destruct s. }
  act Hfind. destruct (find_device 1 1 devs) as [dev|] eqn:Edev.
  2:{ say (proj1 Hn) Hn2. eexists. split; [reflexivity|]. by eapply con_next_trans. }
  destruct (find_device_elem _ _ _ _ Edev) as (Hin & _).
  destruct (lookup_lt_is_Some_2 (bar (cfg dev)) 4) as [b4 Hb4]; [rewrite (Hbars _ Hin); lia|].
  act (nth_or_ret (bar (cfg dev)) 4 b4 (with_con cd0 s) ltac:(lia) Hb4). unfold bm_base_of.
  assert (nth 4 (bar (cfg dev)) 0 = b4) as -> by (by apply nth_lookup_Some). destruct (Z.land b4 0xfffc =? 0).
  { say (proj1 Hn) Hn2. eexists. split; [reflexivity|]. by eapply con_next_trans. }
  intros (b & Hb & Hok). destruct cd0 as [c0 d0]. destruct (pci_enable_bus_master_run dev d0) as (d1 & Hm & Hp1).
  act (on_ports_run _ _ c0 d0 d1 s Hm). act (on_disk_run _ _ (c0, d1) s b Hb).
  set (s1 := set_kernel _ s).
  assert (pics (c0, d1).2 = pics cd.2) as Hpics by (rewrite <-(con_next_pics _ _ Hn); exact Hp1).
  rewrite <-Hpics in Hr.
  destruct (install_run 14 ata_irq (c0, d1) s1 l (proj1 Hn) Hr ltac:(lia) Hl) as (cd' & Hrun & Hset).
  exists cd', b. split; [exact Hrun|]. split; [|exact Hok]. apply (set_line_between _ _ cd (c0, d1) cd'); [done | done |].
  split; [apply (sl_console _ _ _ _ Hset) | done].
Qed.

(** *** The super block *)

Lemma init_fs_run cd s : console_ok cd.1 → disk_ok (fs_dev (k_fs (m_kernel s))) →
  let dev := fs_dev (k_fs (m_kernel s)) in
  ∃ cd' b, init_fs (with_con cd s) = Ret 1 (with_con cd' (set_kernel (set_fs (Fs (mjoin (sector dev <$>
      seqZ (FILE_SYSTEM_BASE_SECTOR + 2) SECTORS_PER_BLOCK)) b) (m_kernel s)) s)) ∧
    con_next cd cd' ∧ disk_ok b ∧ sector b = sector dev.
Proof.
  intros Hc Hok dev. unfold init_fs. say Hc Hn.
  destruct (disk_read_ok dev (FILE_SYSTEM_BASE_SECTOR + 2) SECTORS_PER_BLOCK Hok) as (b & Hrun & Hb & Hs); [done..|].
  set (bytes := mjoin _) in *.
  assert (init_fs_super (k_fs (m_kernel s)) = Ret true (Fs bytes b)) as Hsup.
  { unfold init_fs_super. rewrite (bind_ret _ _ _ _ _ (lift_ret (T := B) _ (k_fs (m_kernel s)) _ _ Hrun)). reflexivity. }
  act (on_kernel_run _ _ cd0 s (set_fs (Fs bytes b) (m_kernel s)) (in_fs_ret init_fs_super (set_console cd0 (m_kernel s)) _ _ Hsup)).
  cbn [negb].
  say (proj1 Hn) Hn2. eexists _, b. split; [reflexivity|]. split; [by eapply con_next_trans | by split].
Qed.
End init.

(** ** The state after the start *)

Section started.
Context {L : Layout} {H : Type} `{!Allocator H} `{!HeapInit H} {B : Type} `{!BlockDevice B} `{!DiskDriver B} {D : Type} `{!Bus D} `{!PicBus D} `{!PciSpace D} `{!Platform D}.
Implicit Types (s : machine H B D) (k : kernel H B D) (cd : console * D).

(** The state that boot.asm and the loader leave: the static tables are zero, the
    boot page tables are in use. *)
Record power_on s : Prop := {
  pw_console : console_ok (k_console (m_kernel s)).1;
  pw_ready : ready (pics (k_console (m_kernel s)).2);
  pw_gdt : length (gdt (m_segments s)) = GDT_ENTRIES;
  pw_idt : length (idt (m_vectors s)) = 256%nat;
  pw_irqs : m_irq_handlers s = replicate 16 None;
  pw_exceptions : m_exception_handlers s = replicate 32 None;
  pw_syscalls : m_syscall_handlers s = replicate 256 None;
  pw_pci : m_pci s = Pci 0 (replicate 64 zero_device);
  pw_paging : k_paging (m_kernel s) = boot_paging (replicate 16 false) (replicate 64 false);
  pw_objs : objs (tk_store (k_tasks (m_kernel s))) = ∅;
  pw_dead : dead_task (k_tasks (m_kernel s)) = 0;
}.

Lemma with_con_id s : with_con (k_console (m_kernel s)) s = s.
Proof. by destruct s as [[]]. Qed.

(** *** The first part: the processor, the memory and the bus *)

Record prepared s s' : Prop := {
  pr_kernel : ∃ f h, m_kernel s' = set_eflags (Z.lor (k_eflags (m_kernel s)) 0x200) (set_tss (setup_tss kernel_stack_top)
      (set_store (Store h ∅) (set_frames f (m_kernel s)))) ∧
    frames_ok f ∧ (∀ i, 1024 ≤ Z.of_nat i < 16384 → f !! i = Some false) ∧ alloc_ok h ∅;
  pr_segments : segments_ready (m_segments s');
  pr_gates : gates_ready (m_vectors s');
  pr_irqs : m_irq_handlers s' = m_irq_handlers s;
  pr_exceptions : m_exception_handlers s' = m_exception_handlers s;
  pr_syscalls : registered (m_syscall_handlers s');
  pr_tty : m_tty s' = m_tty s;
  pr_pci : table_of (found (k_console (m_kernel s)).2 functions) (m_pci s');
}.

(** The request lines [ls] are open and the others masked; line [n] has vector 32 + n. *)
Definition open_lines (ls : list Z) cd : Prop :=
  console_ok cd.1 ∧ ready (pics cd.2) ∧
  ∀ n, 0 ≤ n < 16 → vector_of (pics cd.2) n = 32 + n ∧ masked (pics cd.2) n = negb (bool_decide (n ∈ ls)).

Lemma open_lines_next ls cd cd' : open_lines ls cd → con_next cd cd' → open_lines ls cd'.
Proof. intros (_ & Hr & Hm) Hn. split; [apply Hn|]. by rewrite (con_next_pics _ _ Hn). Qed.

Lemma open_lines_set ls irq cd cd' : open_lines ls cd → set_line false irq cd cd' → open_lines (irq :: ls) cd'.
Proof.
  intros (_ & _ & Hm) [Hc Hr Hv Hs]. split; [done|]. split; [done|]. intros n Hn. destruct (Hm n Hn) as [Hvec Hmask].
  rewrite Hv, Hs, Hvec, Hmask by done. split; [done|]. destruct (Z.eqb_spec n irq) as [->|Hne].
  - by rewrite bool_decide_true by left.
  - f_equal. apply bool_decide_ext. rewrite elem_of_cons. split; [by right | by intros [?|?]].
Qed.

Lemma gates_split v : length (idt v) = 256%nat →
  ∃ v1 v2 v3, (init_idt;; install_irq_gates;; lidt idt_address (8 * IDT_ENTRIES)) v = Ret tt v1 ∧
    install_exception_gates v1 = Ret tt v2 ∧ install_syscall_gate v2 = Ret tt v3 ∧ gates_ready v3.
Proof.
  intros Hlen. destruct (gates_run v Hlen) as (v3 & Hrun & Hok). unfold gates_at_start in Hrun.
  apply bind_Ret_inv in Hrun as ([] & w1 & H1 & Hrun). apply bind_Ret_inv in Hrun as ([] & w2 & H2 & Hrun).
  apply bind_Ret_inv in Hrun as ([] & v1 & H3 & Hrun). apply bind_Ret_inv in Hrun as ([] & v2 & H4 & H5).
  exists v1, v2, v3. split; [|done]. act H1. by act H2.
Qed.

Lemma registered_table : ∃ l, register_syscalls (replicate 256 None) = Ret tt l.
Proof. eexists. vm_compute. reflexivity. Qed.

Lemma prepare_run {A} (rest : M (machine H B D) A) s :
  power_on s → (length (found (k_console (m_kernel s)).2 functions) ≤ 64)%nat →
  ∃ cd s', (on_kernel (in_console enable_console_cursor);; tell_line "Hello, World!";; init_gdt;;
      init_physical_memory_allocator;; init_heap;; on_scan scan_pci;; init_interrupts;; init_exceptions;; init_syscall;;
      init_tss kernel_stack_top;; rest) (with_con (k_console (m_kernel s)) s) = rest (with_con cd s') ∧ open_lines [] cd ∧ prepared s s'.
Proof.
  intros [Hc Hr Hgdt Hidt Hirqs Hexc Hsys Hpci Hpg Hobjs Hdead] Hfit. set (cd0 := k_console (m_kernel s)) in *.
  destruct (segments_run (m_segments s) Hgdt) as (x & ([] & x1 & Hx1 & Hx)%bind_Ret_inv & Hseg).
  destruct (gates_split (m_vectors s) Hidt) as (v1 & v2 & v3 & Hv1 & Hv2 & Hv3 & Hgates).
  destruct registered_table as (l & Hl).
  destruct (enable_console_cursor_run cd0 Hc) as (cd1 & E1 & Hn1). act (on_console_run _ _ _ _ s E1).
  say (proj1 Hn1) Hn2. and_next Hn1 Hn2.
  destruct (init_gdt_run cd s x1 (proj1 Hn1) Hx1) as (cd3 & E3 & Hn3). act E3. set (s3 := set_segments x1 s). and_next Hn1 Hn3.
  destruct (init_frames_kernel_run cd3 s3 (proj1 Hn1)) as (cd4 & f & E4 & Hn4 & Hf & Hfree). act E4. set (s4 := set_kernel _ s3).
  and_next Hn1 Hn4.
  destruct (init_heap_run cd4 s4 (proj1 Hn1)) as (cd5 & h & E5 & Hn5 & Hh). act E5. set (s5 := set_kernel _ s4). and_next Hn1 Hn5.
  assert (found cd5.2 functions = found cd0.2 functions) as Hfound by (apply found_same, Hn1).
  destruct (scan_run cd5 s5) as (cd6 & p & E6 & Hn6 & Htab); [by cbn; rewrite Hpci | by cbn; rewrite Hpci | apply Hn1 | by rewrite Hfound|].
  act E6. set (s6 := set_pci p s5). rewrite Hfound in Htab. and_next Hn1 Hn6.
  destruct (init_interrupts_run cd6 s6 v1 (proj1 Hn1)) as (cd7 & E7 & Hc7 & Hr7 & Hm7); [by rewrite (con_next_pics _ _ Hn1) | exact Hv1|].
  act E7. set (s7 := set_kernel _ _).
  destruct (init_exceptions_run cd7 s7 v2 Hc7 Hv2) as (cd8 & E8 & Hn8). act E8. set (s8 := set_vectors v2 s7).
  destruct (init_syscall_run cd8 s8 v3 l (proj1 Hn8) Hv3) as (cd9 & E9 & Hn9); [by cbn; rewrite Hsys|]. act E9. set (s9 := set_syscall_handlers l _).
  and_next Hn8 Hn9.
  destruct (init_tss_run kernel_stack_top cd9 s9 x (proj1 Hn8) Hx) as (cd10 & E10 & Hn10). act E10. and_next Hn8 Hn10.
  eexists cd10, _. split; [reflexivity|]. split.
  { split; [apply Hn8|]. rewrite (con_next_pics _ _ Hn8). by split. }
  constructor; [|exact Hseg | exact Hgates | reflexivity | reflexivity | exact Hl | reflexivity | exact Htab].
  exists f, h. split; [|exact (conj Hf (conj Hfree Hh))].
  rewrite <-Hobjs. reflexivity.
Qed.

(** *** The second part: the scheduler, the timer, the disk and the super block *)

Definition ready_kernel (f : fs B) k : kernel H B D :=
  set_fs f (set_tasks (Tasks (tk_store (k_tasks k)) 0 0 (dead_task (k_tasks k))) k).

Lemma ready_kernel_same k :
  set_tasks (Tasks (tk_store (k_tasks k)) 0 0 (dead_task (k_tasks k))) k = ready_kernel (k_fs k) k.
Proof. by destruct k. Qed.

(** The file system that the start leaves: with a disk, its super block is read. *)
Definition super_read (disk : bool) (f0 f : fs B) : Prop :=
  if disk then disk_ok (fs_dev f) ∧ super_block_buf f = mjoin (sector (fs_dev f) <$> seqZ (FILE_SYSTEM_BASE_SECTOR + 2) SECTORS_PER_BLOCK)
  else f = f0.

Definition irq_table (disk : bool) : list (option irq_handler) :=
  let l := <[0%nat := Some timer_irq]> (replicate 16 None) in
  if disk then <[14%nat := Some ata_irq]> l else l.

(** What [init_disk] finds in the table of the bus. *)
Definition disk_there (devs : list pci_device_t) : bool := bool_decide (is_Some (ide_of devs)).
Definition disk_attaches (devs : list pci_device_t) (b : B) : Prop :=
  ∀ dev, ide_of devs = Some dev → attaches b (bus_master dev).

Lemma disks_run {A} (rest : Z → M (machine H B D) A) devs cd s :
  open_lines [] cd → table_of devs (m_pci s) → (∀ dev, dev ∈ devs → length (bar (cfg dev)) = 6%nat) →
  m_irq_handlers s = replicate 16 None → disk_attaches devs (fs_dev (k_fs (m_kernel s))) →
  let disk := disk_there devs in
  ∃ cd' f, (on_kernel init_scheduler;; init_timer;; disk_is_ready ← init_disk;
      fs_is_ready ← (if negb (disk_is_ready =? 0) then init_fs else mret 0); rest fs_is_ready) (with_con cd s) =
    rest (Z.b2z disk) (with_con cd' (set_irq_handlers (irq_table disk) (set_kernel (ready_kernel f (m_kernel s)) s))) ∧
    open_lines (if disk then [14; 0] else [0]) cd' ∧ super_read disk (k_fs (m_kernel s)) f.
Proof.
  intros Hopen Htab Hbars Hirqs Hatt. set (k := m_kernel s) in *.
  destruct (init_scheduler_run cd s (proj1 Hopen)) as (cd1 & E1 & Hn1). act E1. set (s1 := set_kernel _ s).
  apply (open_lines_next _ _ _ Hopen) in Hn1 as Hopen1. clear E1 Hn1.
  destruct (init_timer_run cd1 s1 (irq_table false) (proj1 Hopen1) (proj1 (proj2 Hopen1))) as (cd2 & E2 & Hs2); [by cbn; rewrite Hirqs|].
  act E2. set (s2 := set_irq_handlers _ s1). apply (open_lines_set _ _ _ _ Hopen1) in Hs2 as Hopen2. clear E2 Hs2.
  pose proof (init_disk_run devs cd2 s2 (irq_table true) (proj1 Hopen2) (proj1 (proj2 Hopen2)) Htab Hbars eq_refl) as Hdisk.
  unfold disk_there. destruct (ide_of devs) as [dev|] eqn:Eide.
  - destruct (Hdisk (Hatt dev Eide)) as (cd3 & b & E3 & Hs3 & Hb). act E3. set (s3 := set_irq_handlers _ _).
    apply (open_lines_set _ _ _ _ Hopen2) in Hs3 as Hopen3. cbn [negb Z.eqb].
    destruct (init_fs_run cd3 s3 (proj1 Hopen3) Hb) as (cd4 & b' & E4 & Hn4 & Hb' & Hsec). act E4.
    eexists cd4, (Fs _ b'). split; [reflexivity|]. split; [by eapply open_lines_next|]. split; [exact Hb'|]. cbn. by rewrite Hsec.
  - destruct Hdisk as (cd3 & E3 & Hn3). act E3. cbn [negb Z.eqb].
    exists cd3, (k_fs k). split; [|split; [by eapply open_lines_next | reflexivity]].
    unfold s2, s1. fold k. by rewrite ready_kernel_same.
Qed.

(** *** The third part: the page-fault handler, the terminal and the idle task *)

(** The handlers of the request lines and of the exceptions. *)
Definition irq_handler_of (disk : bool) (n : Z) : option irq_handler :=
  if n =? 0 then Some timer_irq else if n =? 1 then Some keyboard_irq
  else if disk && (n =? 14) then Some ata_irq else None.
Definition exception_handler_of (n : Z) : option exception_handler := if n =? 14 then Some page_fault else None.

Lemma tasks_run entry ls disk cd s (r : bool) :
  open_lines ls cd → m_irq_handlers s = irq_table disk → m_exception_handlers s = replicate 32 None →
  ∃ cd', (fault_handler_is_ready ← init_fault; init_tty;; init_keyboard;; on_kernel (init_idle_task entry);;
      mret (r && negb (fault_handler_is_ready =? 0))) (with_con cd s) =
    Ret r (with_con cd' (set_kernel (with_idle entry (m_kernel s)) (set_irq_handlers (irq_handler_of disk <$> seqZ 0 16)
      (set_tty (Tty (tty_queue (m_tty s).1) 0 0, (m_tty s).2) (set_exception_handlers (exception_handler_of <$> seqZ 0 32) s))))) ∧
    open_lines (1 :: ls) cd'.
Proof.
  intros Hopen Hirqs Hexc.
  destruct (init_fault_run cd s (exception_handler_of <$> seqZ 0 32) (proj1 Hopen)) as (cd1 & E1 & Hn1); [by rewrite Hexc|].
  act E1. set (s1 := set_exception_handlers _ s).
  destruct (init_tty_run cd1 s1 (proj1 Hn1)) as (cd2 & E2 & Hn2). act E2. set (s2 := set_tty _ s1). and_next Hn1 Hn2.
  apply (open_lines_next _ _ _ Hopen) in Hn1 as Hopen2.
  destruct (init_keyboard_run cd2 s2 (irq_handler_of disk <$> seqZ 0 16) (proj1 Hopen2) (proj1 (proj2 Hopen2))) as (cd3 & E3 & Hs3).
  { change (m_irq_handlers s2) with (m_irq_handlers s). rewrite Hirqs. by destruct disk. }
  act E3. set (s3 := set_irq_handlers _ s2). apply (open_lines_set _ _ _ _ Hopen2) in Hs3 as Hopen3.
  destruct (init_idle_task_run entry cd3 s3 (proj1 Hopen3)) as (cd4 & E4 & Hn4). act E4. cbn [negb Z.eqb]. rewrite andb_true_r.
  eexists. split; [reflexivity|]. by eapply open_lines_next.
Qed.

(** *** The whole start *)

(** What the components assume of each other: [s] is the state at power on, [entry]
    the code of the idle task. *)
Record started (entry : Z) (disk : bool) s s' : Prop := {
  st_console : console_ok (k_console (m_kernel s')).1;
  st_store : store_ok (tk_store (k_tasks (m_kernel s'))) ∅;
  st_memory : mem_ok (k_paging (m_kernel s')) (k_frames (m_kernel s'));
  st_tlb : tlb_coherent (k_paging (m_kernel s'));
  st_free : ∀ i, 1024 ≤ Z.of_nat i < 16384 → k_frames (m_kernel s') !! i = Some false;
  st_queue : run_queue (k_tasks (m_kernel s')) [(idle_task, idle_of (get_pd_lma boot_page_directory))];
  st_stack : objs (tk_store (k_tasks (m_kernel s'))) !! idle_task_stack = Some (OStack (idle_stack entry));
  st_current : current_task (k_tasks (m_kernel s')) = 0 ∧ dead_task (k_tasks (m_kernel s')) = 0;
  st_segments : segments_ready (m_segments s');
  st_tss : k_tss (m_kernel s') = setup_tss kernel_stack_top;
  st_gates : gates_ready (m_vectors s');
  st_irqs : m_irq_handlers s' = irq_handler_of disk <$> seqZ 0 16;
  st_exceptions : m_exception_handlers s' = exception_handler_of <$> seqZ 0 32;
  st_syscalls : registered (m_syscall_handlers s');
  st_vectors n : 0 ≤ n < 16 → vector_of (pics (k_console (m_kernel s')).2) n = 32 + n;
  st_lines n : 0 ≤ n < 16 → deliverable (pics (k_console (m_kernel s')).2) n = (n =? 0) || (n =? 1);
  st_enabled : Z.testbit (k_eflags (m_kernel s')) 9 = true;
  st_tty : queue_empty (m_tty s').1 = true;
  st_devices : table_of (found (k_console (m_kernel s)).2 functions) (m_pci s');
  st_fs : super_read disk (k_fs (m_kernel s)) (k_fs (m_kernel s'));
}.

Lemma idle_run_queue entry k :
  cr3 (k_paging k) = get_pd_lma boot_page_directory →
  run_queue (k_tasks (with_idle entry k)) [(idle_task, idle_of (get_pd_lma boot_page_directory))] ∧
  objs (tk_store (k_tasks (with_idle entry k))) !! idle_task_stack = Some (OStack (idle_stack entry)).
Proof.
  intros Hcr3. pose proof idle_apart as Ha. pose proof idle_task_range as Hr. unfold apart, in_kernel, KERNEL_VMA in *.
  assert (Z.land (cr3 (k_paging k)) PAGE_ADDRESS_MASK = get_pd_lma boot_page_directory) as Hland.
  { rewrite Hcr3. unfold get_pd_lma. by rewrite <-Z.land_assoc, Z.land_diag. }
  unfold with_idle, set_tasks. cbn [k_tasks tk_store objs task_ptr]. rewrite Hland. split.
  - right. cbn [objs tk_store task_ptr]. split; [|reflexivity]. apply (ring_intro _ _ _ idle_task idle_task); [done | | done | done |].
    + apply NoDup_singleton.
    + cbn [dseg]. split; [done|]. split; [lia|]. exists idle_task. rewrite lookup_insert_eq. by split.
  - rewrite lookup_insert_ne by lia. by rewrite lookup_insert_eq.
Qed.

Lemma idle_store_ok entry k h :
  tk_store (k_tasks k) = Store h ∅ → alloc_ok h ∅ → store_ok (tk_store (k_tasks (with_idle entry k))) ∅.
Proof.
  intros Hst Hh. pose proof idle_task_range. pose proof idle_task_stack_range. unfold in_kernel, KERNEL_VMA in *.
  unfold with_idle, set_tasks. cbn [k_tasks tk_store]. rewrite Hst. cbn [st_heap objs]. split; [exact Hh|]. cbn [objs]. split.
  - by rewrite !lookup_insert_ne by lia.
  - intros p o Hp Hstatic. exfalso. apply Hstatic. unfold static.
    apply lookup_insert_Some in Hp as [[<- _]|[_ Hp]]; [by left|].
    apply lookup_insert_Some in Hp as [[<- _]|[_ Hp]]; [by right | done].
Qed.

(** The boot tables map no frame of a process. *)
Lemma boot_memory f : frames_ok f →
  let p := boot_paging (replicate 16 false) (replicate 64 false) in mem_ok p f ∧ tlb_coherent p.
Proof.
  intros Hf p. assert (∀ i (k m e : Z), ¬ entry p i k m e) as Hno.
  { intros i k m e (j & ([_ Hl] & _) & _). apply lookup_replicate in Hl as [? _]. done. }
  split; [|by intros page e He]. constructor; [by apply boot_paging_ok | done | |].
  - intros i k m e He. by destruct (Hno _ _ _ _ He).
  - intros i k m e i' k' m' e' He. by destruct (Hno _ _ _ _ He).
Qed.

(** The lines that the start opens: line 14 is behind line 2, which stays masked. *)
Lemma open_lines_deliver (disk : bool) cd n : 0 ≤ n < 16 → open_lines (1 :: if disk then [14; 0] else [0]) cd →
  vector_of (pics cd.2) n = 32 + n ∧ deliverable (pics cd.2) n = (n =? 0) || (n =? 1).
Proof.
  intros Hn (_ & _ & Hm). destruct (Hm n Hn) as [Hv Hmask]. split; [done|].
  rewrite masked_deliverable, Hmask, (proj2 (Hm 2 ltac:(lia))).
  assert (forallb (λ n, eqb (if n <? 8 then negb (negb (bool_decide (n ∈ 1 :: if disk then [14; 0] else [0])))
    else negb (negb (bool_decide (n ∈ 1 :: if disk then [14; 0] else [0]))) && negb (negb (bool_decide (2 ∈ 1 :: if disk then [14; 0] else [0]))))
    ((n =? 0) || (n =? 1))) (seqZ 0 16) = true) as Hall by (destruct disk; vm_compute; reflexivity).
  rewrite forallb_forall in Hall. apply eqb_prop, Hall, list_elem_of_In, elem_of_seqZ. lia.
Qed.

(** The state of the last step, from the state that the first part has prepared. *)
Definition start_state (entry : Z) (disk : bool) (f : fs B) s : machine H B D :=
  let s := set_irq_handlers (irq_table disk) (set_kernel (ready_kernel f (m_kernel s)) s) in
  set_kernel (with_idle entry (m_kernel s)) (set_irq_handlers (irq_handler_of disk <$> seqZ 0 16)
    (set_tty (Tty (tty_queue (m_tty s).1) 0 0, (m_tty s).2) (set_exception_handlers (exception_handler_of <$> seqZ 0 32) s))).

Lemma start_state_ok entry disk f s s1 cd :
  power_on s → prepared s s1 → super_read disk (k_fs (m_kernel s)) f →
  open_lines (1 :: if disk then [14; 0] else [0]) cd → started entry disk s (with_con cd (start_state entry disk f s1)).
Proof.
  intros Hpw [(fr & h & Hk & Hfr & Hfree & Hh) Hseg Hgates Hirqs Hexc Hsys Htty Hpci] Hfs Hopen.
  pose proof (pw_paging _ Hpw) as Hpg. destruct (boot_memory fr Hfr) as [Hmem Htlb].
  assert (tk_store (k_tasks (ready_kernel f (m_kernel s1))) = Store h ∅) as Hst by (by rewrite Hk).
  assert (k_paging (m_kernel s1) = boot_paging (replicate 16 false) (replicate 64 false)) as Hpg1 by (by rewrite Hk).
  destruct (idle_run_queue entry (ready_kernel f (m_kernel s1))) as [Hq Hstack]; [cbn; by rewrite Hpg1|].
  constructor; cbn [with_con start_state m_kernel m_segments m_vectors m_irq_handlers m_exception_handlers m_syscall_handlers
    m_tty m_pci set_kernel set_irq_handlers set_tty set_exception_handlers set_console k_console k_paging k_frames k_tasks
    with_idle set_tasks set_fs ready_kernel k_tss k_eflags k_fs].
  - apply Hopen.
  - by apply (idle_store_ok _ (ready_kernel f (m_kernel s1)) h).
  - rewrite Hpg1, Hk. exact Hmem.
  - by rewrite Hpg1.
  - rewrite Hk. exact Hfree.
  - exact Hq.
  - exact Hstack.
  - split; [reflexivity|]. cbn. rewrite Hk. apply (pw_dead _ Hpw).
  - exact Hseg.
  - by rewrite Hk.
  - exact Hgates.
  - reflexivity.
  - reflexivity.
  - exact Hsys.
  - intros n Hn. by apply (open_lines_deliver disk cd n Hn).
  - intros n Hn. by apply (open_lines_deliver disk cd n Hn).
  - rewrite Hk. change (Z.testbit (Z.lor (k_eflags (m_kernel s)) 0x200) 9 = true). rewrite Z.lor_spec. apply orb_true_r.
  - reflexivity.
  - exact Hpci.
  - exact Hfs.
Qed.

Lemma start_run entry s :
  power_on s →
  let devs := found (k_console (m_kernel s)).2 functions in
  (length devs ≤ 64)%nat → disk_attaches devs (fs_dev (k_fs (m_kernel s))) →
  ∃ s', start entry s = Ret (disk_there devs) s' ∧ started entry (disk_there devs) s s'.
Proof.
  intros Hpw devs Hfit Hatt. set (disk := disk_there devs).
  set (rest := (λ fs_is_ready, fault_handler_is_ready ← init_fault; init_tty;; init_keyboard;;
    on_kernel (init_idle_task entry);; mret (negb (fs_is_ready =? 0) && negb (fault_handler_is_ready =? 0))) :
    Z → M (machine H B D) bool).
  destruct (prepare_run (on_kernel init_scheduler;; init_timer;; disk_is_ready ← init_disk;
    fs_is_ready ← (if negb (disk_is_ready =? 0) then init_fs else mret 0); rest fs_is_ready) s Hpw Hfit) as (cd1 & s1 & E1 & Hopen1 & Hp).
  rewrite with_con_id in E1. pose proof Hp as [(fr & h & Hk & _) _ _ Hirqs Hexc _ _ Hpci].
  assert (k_fs (m_kernel s1) = k_fs (m_kernel s)) as Hkfs by (by rewrite Hk).
  destruct (disks_run rest devs cd1 s1 Hopen1 Hpci) as (cd2 & f & E2 & Hopen2 & Hsup).
  { intros dev. apply found_bars. }
  { rewrite Hirqs. apply (pw_irqs _ Hpw). }
  { rewrite Hkfs. exact Hatt. }
  fold disk in E2, Hopen2, Hsup. rewrite Hkfs in Hsup.
  set (s2 := set_irq_handlers (irq_table disk) (set_kernel (ready_kernel f (m_kernel s1)) s1)) in *.
  destruct (tasks_run entry _ disk cd2 s2 disk Hopen2 eq_refl) as (cd3 & E3 & Hopen3).
  { change (m_exception_handlers s2) with (m_exception_handlers s1). rewrite Hexc. apply (pw_exceptions _ Hpw). }
  exists (with_con cd3 (start_state entry disk f s1)). split; [|by apply start_state_ok].
  etrans; [exact E1|]. etrans; [exact E2|]. etrans; [|exact E3].
  unfold rest. destruct disk; reflexivity.
Qed.

(** C7 (the start, [main] up to the first program): from the state that boot.asm leaves,
    on a bus with at most 64 functions and with a disk that takes the IDE controller
    found, the initialisation functions return, and establish what the components
    rely on: an empty heap, the frames above 4 MiB free, coherent page tables, a run
    queue of the idle task alone, flat segments and the task state segment (busy, as
    [ltr] marks it), a gate for every vector that is used, the handlers of timer,
    keyboard, disk, page fault and of the four system calls, request lines of which
    exactly 0 and 1 reach the processor with vectors 32 and 33, an empty terminal,
    interrupts on; the first program is started exactly if there is such a
    controller, and then the super block is in memory. *)
Theorem start_correct entry s :
  power_on s →
  let devs := found (k_console (m_kernel s)).2 functions in
  (length devs ≤ 64)%nat → disk_attaches devs (fs_dev (k_fs (m_kernel s))) →
  ∃ s', start entry s = Ret (disk_there devs) s' ∧ started entry (disk_there devs) s s'.
Proof. exact (start_run entry s). Qed.
End started.

(** ** A machine for the witness

    The interrupt controllers of Interrupts.v and a bus with one IDE controller,
    function 1 of device 1, whose registers are at the ports of the disk of Disk.v. *)

#[local] Existing Instance sample_layout.

Record pc := Pc { pc_pics : pic * pic; pc_selected : Z }.

Definition pc_config (a : Z) : Z :=
  if a =? 0x80000900 then 0x70108086 else if a =? 0x80000908 then 0x01018000
  else if a =? 0x80000920 then 0xc001
  else if Z.land a 0xffffff00 =? 0x80000900 then 0 else 0xffffffff.

#[export] Instance pc_bus : Bus pc := {|
  in8 p d := ((in8 p (pc_pics d)).1, d);
  in16 p d := (0, d);
  in32 p d := ((if p =? 0xcfc then pc_config (pc_selected d) else 0), d);
  out8 p v d := Pc (out8 p v (pc_pics d)) (pc_selected d);
  out16 p v d := d;
  out32 p v d := if p =? 0xcf8 then Pc (pc_pics d) v else d;
|}.

#[export, refine] Instance pc_pic_bus : PicBus pc := {| pics d := pics (pc_pics d) |}.
Proof.
  all: intros; cbn [in8 out8 pc_bus pc_pics fst snd].
  - apply pics_imr.
  - reflexivity.
  - by apply pics_in_master.
  - by apply pics_in_slave.
  - apply pics_init_master.
  - apply pics_init_slave.
  - by apply pics_data_master.
  - by apply pics_data_slave.
Defined.

#[export, refine] Instance pc_space : PciSpace pc := {| config _ a := pc_config a; selected := pc_selected |}.
Proof. all: try reflexivity. intros _ a. unfold pc_config. repeat case_match; lia. Defined.

#[export] Instance pc_platform : Platform pc.
Proof.
  split.
  - intros d d' [v| |p|p v Hp]; try reflexivity. cbn [pics pc_pic_bus out8 pc_bus pc_pics].
    unfold other_port in Hp. apply andb_true_iff in Hp as [_ Hp%bool_decide_eq_true_1].
    rewrite !not_elem_of_cons in Hp. destruct Hp as (H1 & H2 & H3 & H4 & _). cbn [out8 pic_bus].
    by rewrite !(proj2 (Z.eqb_neq p _)) by done.
  - reflexivity.
Defined.

Definition first_kernel : kernel heap (ata toy) pc :=
  Kernel (Tasks (Store (Heap ∅ 0) ∅) 0 0 0) [] (boot_paging (replicate 16 false) (replicate 64 false))
    (Fs [] (Ata (a_bus toy_disk) zero_device)) (clear_screen, Pc (Pic 0xff 8 4 Ready, Pic 0xff 0x70 2 Ready) 0) 0 zero_tss 2 ∅.

Definition first_machine : machine heap (ata toy) pc :=
  Machine first_kernel (Segments (replicate 6 zero_entry) (0, 0) 0 0 0) (Vectors (replicate 256 zero_gate) (0, 0))
    (replicate 16 None) (replicate 32 None) (replicate 256 None) 0 (Tty (replicate 256 0) 0 0, [])
    (Pci 0 (replicate 64 zero_device)).

#[local] Transparent functions found.
Definition the_controller : pci_device_t :=
  PciDevice 0 1 1 (PciCfg 0x8086 0x7010 0 0 0 0x80 1 1 [0; 0; 0; 0; 0xc001; 0]).

Lemma first_found : found (k_console first_kernel).2 functions = [the_controller].
Proof. vm_compute. reflexivity. Qed.

Lemma first_power_on : power_on first_machine.
Proof. by constructor; first [exact clear_screen_ok | split; reflexivity | reflexivity]. Qed.

Lemma first_attaches : attaches (fs_dev (k_fs first_kernel)) (bus_master the_controller).
Proof.
  destruct toy_disk_ok as (Hi & _ & Him).
  destruct (ata_attach_run toy_base (Ata (a_bus toy_disk) zero_device) (bus_master the_controller) Hi Him eq_refl)
    as (b & Hrun & Hok & _). by exists b.
Qed.

(** The first program can be started. *)
Lemma start_correct_witness : ∃ s', start 0xc0101000 first_machine = Ret true s' ∧ started 0xc0101000 true first_machine s'.
Proof.
  pose proof first_found as Hfound. assert (disk_there [the_controller] = true) as Ht by reflexivity.
  assert ((length [the_controller] ≤ 64)%nat) as Hl by (cbn; lia).
  assert (disk_attaches [the_controller] (fs_dev (k_fs first_kernel))) as Ha.
  { intros dev [= <-]. exact first_attaches. }
  rewrite <-Hfound in Ht, Hl, Ha. rewrite <-Ht. exact (start_correct 0xc0101000 first_machine first_power_on Hl Ha).
Defined.
