(* ===== verification/Asm.v ===== *)
(** * The processor's side of the assembly in the kernel

    The registers, the stack and the instructions that the assembly of
    interrupts.h, exceptions.h, syscall.c and sched.c consists of, with the
    processor's own part in interrupts and returns (the Intel and AMD manuals,
    32-bit protected mode, privilege levels 0 and 3).  The memory is that of the
    kernel stacks and task structures, in words. *)

From S2P Require Import Prelude.

Record gprs := Gprs { r_eax : Z; r_ecx : Z; r_edx : Z; r_ebx : Z; r_ebp : Z; r_esi : Z; r_edi : Z }.

Record cpu := Cpu {
  gp : gprs;
  c_esp : Z;
  c_eip : Z;
  c_cs : Z;
  c_eflags : Z;
  c_ss : Z;
  c_data : Z;          (* ds, es, fs and gs, which always hold the same selector *)
  c_mem : gmap Z Z;    (* words, by address *)
}.

Definition set_gp x c := Cpu x (c_esp c) (c_eip c) (c_cs c) (c_eflags c) (c_ss c) (c_data c) (c_mem c).
Definition set_esp x c := Cpu (gp c) x (c_eip c) (c_cs c) (c_eflags c) (c_ss c) (c_data c) (c_mem c).
Definition set_eip x c := Cpu (gp c) (c_esp c) x (c_cs c) (c_eflags c) (c_ss c) (c_data c) (c_mem c).
Definition set_cs x c := Cpu (gp c) (c_esp c) (c_eip c) x (c_eflags c) (c_ss c) (c_data c) (c_mem c).
Definition set_flags x c := Cpu (gp c) (c_esp c) (c_eip c) (c_cs c) x (c_ss c) (c_data c) (c_mem c).
Definition set_ss x c := Cpu (gp c) (c_esp c) (c_eip c) (c_cs c) (c_eflags c) x (c_data c) (c_mem c).
Definition set_data x c := Cpu (gp c) (c_esp c) (c_eip c) (c_cs c) (c_eflags c) (c_ss c) x (c_mem c).
Definition set_mem x c := Cpu (gp c) (c_esp c) (c_eip c) (c_cs c) (c_eflags c) (c_ss c) (c_data c) x.

Inductive register := EAX | ECX | EDX | EBX | ESP | EBP | ESI | EDI.

Definition get_register (r : register) c : Z :=
  match r with
  | EAX => r_eax (gp c) | ECX => r_ecx (gp c) | EDX => r_edx (gp c) | EBX => r_ebx (gp c)
  | ESP => c_esp c | EBP => r_ebp (gp c) | ESI => r_esi (gp c) | EDI => r_edi (gp c)
  end.

Definition set_register (r : register) v c : cpu :=
  let g := gp c in
  match r with
  | EAX => set_gp (Gprs v (r_ecx g) (r_edx g) (r_ebx g) (r_ebp g) (r_esi g) (r_edi g)) c
  | ECX => set_gp (Gprs (r_eax g) v (r_edx g) (r_ebx g) (r_ebp g) (r_esi g) (r_edi g)) c
  | EDX => set_gp (Gprs (r_eax g) (r_ecx g) v (r_ebx g) (r_ebp g) (r_esi g) (r_edi g)) c
  | EBX => set_gp (Gprs (r_eax g) (r_ecx g) (r_edx g) v (r_ebp g) (r_esi g) (r_edi g)) c
  | ESP => set_esp v c
  | EBP => set_gp (Gprs (r_eax g) (r_ecx g) (r_edx g) (r_ebx g) v (r_esi g) (r_edi g)) c
  | ESI => set_gp (Gprs (r_eax g) (r_ecx g) (r_edx g) (r_ebx g) (r_ebp g) v (r_edi g)) c
  | EDI => set_gp (Gprs (r_eax g) (r_ecx g) (r_edx g) (r_ebx g) (r_ebp g) (r_esi g) v) c
  end.

(** The C functions that the assembly calls. *)
Inductive c_function := interrupts_dispatch_fn | exceptions_dispatch_fn | syscall_dispatch_fn.

Inductive instruction :=
  | pusha | popa | push (r : register) | push_imm (v : Z) | push_at (r : register) (off : Z) | pop (r : register)
  | mov (dst src : register)                    (* mov dst, src *)
  | mov_from (dst base : register) (off : Z)    (* mov dst, [base + off] *)
  | mov_to (base : register) (off : Z) (src : register)
  | mov_data (src : register)                   (* mov ds, es, fs and gs, src *)
  | add_esp (n : Z)
  | call (f : c_function)
  | ret | iret | cli | sti | hlt.

(** ** Execution *)

Definition load_at (a : Z) : M cpu Z := λ c,
  match c_mem c !! a with Some v => Ret v c | None => Fault WildAccess c end.
Definition store_at (a v : Z) : M cpu unit := modify (λ c, set_mem (<[a := v]> (c_mem c)) c).

Definition push_word (v : Z) : M cpu unit :=
  modify (λ c, set_esp (c_esp c -ᵤ 4) c);;
  a ← gets c_esp;
  store_at a v.

Definition pop_word : M cpu Z :=
  a ← gets c_esp;
  v ← load_at a;
  modify (set_esp (a +ᵤ 4));;
  mret v.

Fixpoint push_words (l : list Z) : M cpu unit :=
  match l with
  | [] => mret tt
  | v :: l => push_word v;; push_words l
  end.

Fixpoint pop_words (n : nat) : M cpu (list Z) :=
  match n with
  | O => mret []
  | S n => v ← pop_word; l ← pop_words n; mret (v :: l)
  end.

Definition cpl c : Z := Z.land (c_cs c) 3.
Definition set_if (b : bool) (flags : Z) : Z := if b then Z.lor flags 0x200 else Z.land flags 0xfffffdff.

(** The privilege of the descriptors of gdt.c: 3 and 4 are the user's. *)
Definition selector_dpl (sel : Z) : Z := if (Z.shiftr sel 3 =? 3) || (Z.shiftr sel 3 =? 4) then 3 else 0.

(** The return to an outer level loads the stack, and takes the data segments of
    the kernel away. *)
Definition do_iret : M cpu unit :=
  level ← gets cpl;
  eip ← pop_word;
  cs ← pop_word;
  flags ← pop_word;
  modify (λ c, set_flags flags (set_cs cs (set_eip eip c)));;
  if level <? Z.land cs 3 then
    sp ← pop_word;
    ss ← pop_word;
    modify (λ c, set_data (if selector_dpl (c_data c) <? Z.land cs 3 then 0 else c_data c) (set_ss ss (set_esp sp c)))
  else mret tt.

Definition do_popa : M cpu unit :=
  edi ← pop_word;
  esi ← pop_word;
  ebp ← pop_word;
  pop_word;;
  ebx ← pop_word;
  edx ← pop_word;
  ecx ← pop_word;
  eax ← pop_word;
  modify (set_gp (Gprs eax ecx edx ebx ebp esi edi)).

Section execution.
(** The rest of the machine, which only the C functions change. *)
Context {W : Type} (run_call : c_function → M (cpu * W) unit).

Definition on_cpu {A} (m : M cpu A) : M (cpu * W) A := λ s,
  match m s.1 with
  | Ret a c => Ret a (c, s.2)
  | Fault f c => Fault f (c, s.2)
  end.

Definition execute (i : instruction) : M (cpu * W) unit :=
  match i with
  | pusha => on_cpu (c ← gets (λ c, c); push_words ((λ r, get_register r c) <$> [EAX; ECX; EDX; EBX; ESP; EBP; ESI; EDI]))
  | popa => on_cpu do_popa
  | push r => on_cpu (v ← gets (get_register r); push_word v)
  | push_imm v => on_cpu (push_word v)
  | push_at r off => on_cpu (a ← gets (get_register r); v ← load_at (a +ᵤ off); push_word v)
  | pop r => on_cpu (v ← pop_word; modify (set_register r v))
  | mov dst src => on_cpu (v ← gets (get_register src); modify (set_register dst v))
  | mov_from dst base off => on_cpu (a ← gets (get_register base); v ← load_at (a +ᵤ off); modify (set_register dst v))
  | mov_to base off src => on_cpu (a ← gets (get_register base); v ← gets (get_register src); store_at (a +ᵤ off) v)
  | mov_data src => on_cpu (v ← gets (get_register src); modify (set_data (u16 v)))
  | add_esp n => on_cpu (modify (λ c, set_esp (c_esp c +ᵤ n) c))
  | call f => run_call f
  | ret => on_cpu (v ← pop_word; modify (set_eip v))
  | iret => on_cpu do_iret
  | cli => on_cpu (modify (λ c, set_flags (set_if false (c_eflags c)) c))
  | sti => on_cpu (modify (λ c, set_flags (set_if true (c_eflags c)) c))
  | hlt => mret tt
  end.

Definition execute_all (code : list instruction) : M (cpu * W) unit := for_list code execute.
End execution.

(** What the processor does before the first instruction of a handler at [target]:
    from level 3 it changes to the stack of the task state segment. *)
Definition enter_handler (esp0 ss0 kernel_cs target : Z) (clears_if : bool) (err : option Z) : M cpu unit :=
  c ← gets (λ c, c);
  (if cpl c =? 3 then modify (λ c, set_ss ss0 (set_esp esp0 c));; push_words [c_ss c; c_esp c] else mret tt);;
  push_words [c_eflags c; c_cs c; c_eip c];;
  (match err with Some e => push_word e | None => mret tt end);;
  modify (λ c, set_flags (if clears_if then set_if false (c_eflags c) else c_eflags c) (set_cs kernel_cs (set_eip target c))).

(** ** The stack

    [stack_at a l m]: the words from [a] upward are [l]. *)

Fixpoint stack_at (a : Z) (l : list Z) (m : gmap Z Z) : Prop :=
  match l with
  | [] => True
  | v :: l => m !! a = Some v ∧ stack_at (a + 4) l m
  end.

Lemma stack_at_ext a l m m' : (∀ b, a ≤ b → m' !! b = m !! b) → stack_at a l m → stack_at a l m'.
Proof.
  revert a. induction l as [|v l IH]; intros a Hm; [done|]. intros [Hv Hl]. split; [by rewrite Hm by lia|].
  apply IH; [|done]. intros b Hb. apply Hm. lia.
Qed.

Lemma stack_at_app a l1 l2 m : stack_at a (l1 ++ l2) m ↔ stack_at a l1 m ∧ stack_at (a + 4 * Z.of_nat (length l1)) l2 m.
Proof.
  revert a. induction l1 as [|v l1 IH]; intros a; cbn [app stack_at length].
  - change (4 * Z.of_nat 0) with 0. rewrite Z.add_0_r. tauto.
  - rewrite IH. replace (a + 4 * Z.of_nat (S (length l1))) with (a + 4 + 4 * Z.of_nat (length l1)) by lia. tauto.
Qed.

(** [m] has the words of [m0] from [top] upward. *)
Definition same_above (top : Z) (m0 m : gmap Z Z) : Prop := ∀ a, top ≤ a → m !! a = m0 !! a.

Lemma same_above_trans top1 top2 m1 m2 m3 :
  top2 ≤ top1 → same_above top1 m1 m2 → same_above top2 m2 m3 → same_above top1 m1 m3.
Proof. intros Ht H1 H2 a Ha. rewrite H2, H1 by lia. done. Qed.

Lemma stack_at_same top l m m' : same_above top m m' → stack_at top l m → stack_at top l m'.
Proof. apply stack_at_ext. Qed.

Lemma push_word_run v c l :
  4 ≤ c_esp c < 0x100000000 → stack_at (c_esp c) l (c_mem c) →
  ∃ m, push_word v c = Ret tt (set_mem m (set_esp (c_esp c - 4) c)) ∧ stack_at (c_esp c - 4) (v :: l) m ∧
    same_above (c_esp c) (c_mem c) m.
Proof.
  intros He Hl. exists (<[c_esp c - 4 := v]> (c_mem c)). unfold push_word, store_at. run. unfold set_esp, set_mem. cbn.
  rewrite u32_id by lia. split; [done|].
  assert (same_above (c_esp c) (c_mem c) (<[c_esp c - 4 := v]> (c_mem c))) as Hs
    by (intros a Ha; rewrite lookup_insert_ne by lia; done).
  split; [|done]. split; [by rewrite lookup_insert_eq|]. replace (c_esp c - 4 + 4) with (c_esp c) by lia.
  by eapply stack_at_same.
Qed.

Lemma push_words_run vs c l :
  4 * Z.of_nat (length vs) ≤ c_esp c < 0x100000000 → stack_at (c_esp c) l (c_mem c) →
  ∃ m, push_words vs c = Ret tt (set_mem m (set_esp (c_esp c - 4 * Z.of_nat (length vs)) c)) ∧
    stack_at (c_esp c - 4 * Z.of_nat (length vs)) (rev vs ++ l) m ∧ same_above (c_esp c) (c_mem c) m.
Proof.
  revert c l. induction vs as [|v vs IH]; intros c l He Hl; cbn [push_words rev length app] in *.
  - exists (c_mem c). change (4 * Z.of_nat 0) with 0. rewrite Z.sub_0_r. split; [by destruct c | by split].
  - destruct (push_word_run v c l) as (m1 & Hrun1 & Hl1 & Hs1); [lia | done|]. rewrite (bind_ret _ _ _ _ _ Hrun1).
    destruct (IH (set_mem m1 (set_esp (c_esp c - 4) c)) (v :: l)) as (m2 & Hrun2 & Hl2 & Hs2); cbn [set_mem set_esp c_esp c_mem] in *;
      [lia | done |]. exists m2. rewrite Hrun2, <-app_assoc.
    replace (c_esp c - 4 * Z.of_nat (S (length vs))) with (c_esp c - 4 - 4 * Z.of_nat (length vs)) by lia.
    split; [done|]. split; [done|]. by eapply (same_above_trans _ (c_esp c - 4)); [lia | |].
Qed.

Lemma push_words_one v c : push_words [v] c = push_word v c.
Proof. cbn [push_words]. unfold mbind, M_bind, mret, M_ret. by destruct (push_word v c) as [[]|]. Qed.

Lemma pop_word_run v l c :
  0 ≤ c_esp c < 0xfffffffc → stack_at (c_esp c) (v :: l) (c_mem c) →
  pop_word c = Ret v (set_esp (c_esp c + 4) c) ∧ stack_at (c_esp c + 4) l (c_mem c).
Proof.
  intros He [Hv Hl]. split; [|done]. unfold pop_word, load_at. run. rewrite Hv. by rewrite u32_id by lia.
Qed.

(** Computes the fields of a processor state. *)
Ltac cpu := cbn [set_gp set_esp set_eip set_cs set_flags set_ss set_data set_mem
  gp r_eax r_ecx r_edx r_ebx r_ebp r_esi r_edi c_esp c_eip c_cs c_eflags c_ss c_data c_mem].
Tactic Notation "cpu" "in" hyp(H) := cbn [set_gp set_esp set_eip set_cs set_flags set_ss set_data set_mem
  gp r_eax r_ecx r_edx r_ebx r_ebp r_esi r_edi c_esp c_eip c_cs c_eflags c_ss c_data c_mem] in H.

(** The next word of the stack, described by [Hl], is popped; the bounds are in [He]. *)
Ltac pop_next He Hl :=
  let E := fresh in let Hl' := fresh in
  lazymatch type of Hl with
  | stack_at _ (?v :: ?l) _ =>
      lazymatch goal with
      | |- context [(pop_word ≫= _) ?c] =>
          destruct (pop_word_run v l c) as [E Hl'];
          [cpu; lia | exact Hl | rewrite (bind_ret _ _ _ _ _ E)];
          clear E Hl; rename Hl' into Hl; cpu in Hl; cpu
      end
  end.

(** What [pusha] leaves: the registers, and the stack pointer before it. *)
Definition saved (g : gprs) (sp : Z) : list Z :=
  [r_edi g; r_esi g; r_ebp g; sp; r_ebx g; r_edx g; r_ecx g; r_eax g].

Lemma popa_run g sp l c :
  0 ≤ c_esp c < 0xffffffdf → stack_at (c_esp c) (saved g sp ++ l) (c_mem c) →
  do_popa c = Ret tt (set_gp g (set_esp (c_esp c + 32) c)) ∧ stack_at (c_esp c + 32) l (c_mem c).
Proof.
  intros He Hl. unfold saved in Hl. cbn [app] in Hl. unfold do_popa. do 8 pop_next He Hl.
  split.
  - unfold modify. cpu. assert (c_esp c + 4 + 4 + 4 + 4 + 4 + 4 + 4 + 4 = c_esp c + 32) as -> by lia. by destruct g.
  - revert Hl. match goal with |- stack_at ?a _ _ → _ => replace a with (c_esp c + 32) by lia end. done.
Qed.

Lemma iret_same_run eip cs flags l c :
  0 ≤ c_esp c < 0xfffffff3 → stack_at (c_esp c) (eip :: cs :: flags :: l) (c_mem c) → Z.land cs 3 ≤ cpl c →
  do_iret c = Ret tt (Cpu (gp c) (c_esp c + 12) eip cs flags (c_ss c) (c_data c) (c_mem c)).
Proof.
  intros He Hl Hcs. unfold do_iret. rewrite gets_bind. do 3 pop_next He Hl. rewrite modify_bind.
  rewrite (proj2 (Z.ltb_ge _ _)) by done. cpu.
  by assert (c_esp c + 4 + 4 + 4 = c_esp c + 12) as -> by lia.
Qed.

Lemma iret_outer_run eip cs flags sp ss l c :
  0 ≤ c_esp c < 0xffffffeb → stack_at (c_esp c) (eip :: cs :: flags :: sp :: ss :: l) (c_mem c) → cpl c < Z.land cs 3 →
  do_iret c = Ret tt (Cpu (gp c) sp eip cs flags ss
    (if selector_dpl (c_data c) <? Z.land cs 3 then 0 else c_data c) (c_mem c)).
Proof.
  intros He Hl Hcs. unfold do_iret. rewrite gets_bind. do 3 pop_next He Hl. rewrite modify_bind.
  rewrite (proj2 (Z.ltb_lt _ _)) by done.
  cpu. do 2 pop_next He Hl. reflexivity.
Qed.

(** *** Entering and leaving a handler *)

(** The stack that the processor uses, and what it leaves there. *)
Definition stack_top (esp0 : Z) c : Z := if cpl c =? 3 then esp0 else c_esp c.
Definition err_words (err : option Z) : list Z := match err with Some e => [e] | None => [] end.
Definition interrupt_frame c : list Z :=
  [c_eip c; c_cs c; c_eflags c] ++ (if cpl c =? 3 then [c_esp c; c_ss c] else []).

(** A handler's state: [l] is on its stack, the rest of it below [top] is free. *)
Record in_handler (c0 : cpu) (kernel_cs top : Z) (l : list Z) c : Prop := {
  ih_gp : gp c = gp c0;
  ih_cs : c_cs c = kernel_cs;
  ih_ss : cpl c0 = 0 → c_ss c = c_ss c0;
  ih_data : c_data c = c_data c0;
  ih_esp : c_esp c = top - 4 * Z.of_nat (length l);
  ih_stack : stack_at (c_esp c) l (c_mem c);
  ih_above : same_above top (c_mem c0) (c_mem c);
}.

Lemma enter_handler_run esp0 ss0 kernel_cs target clears_if err c :
  cpl c = 0 ∨ cpl c = 3 → 24 ≤ stack_top esp0 c < 0x100000000 →
  ∃ c1, enter_handler esp0 ss0 kernel_cs target clears_if err c = Ret tt c1 ∧
    in_handler c kernel_cs (stack_top esp0 c) (err_words err ++ interrupt_frame c) c1.
Proof.
  intros Hcpl Htop. unfold enter_handler. rewrite gets_bind.
  set (outer := if cpl c =? 3 then [c_esp c; c_ss c] else []).
  assert (∃ c1, (if cpl c =? 3 then modify (λ c, set_ss ss0 (set_esp esp0 c));; push_words [c_ss c; c_esp c] else mret tt) c =
    Ret tt c1 ∧ gp c1 = gp c ∧ (cpl c = 0 → c_ss c1 = c_ss c) ∧ c_data c1 = c_data c ∧
    c_esp c1 = stack_top esp0 c - 4 * Z.of_nat (length outer) ∧ stack_at (c_esp c1) outer (c_mem c1) ∧
    same_above (stack_top esp0 c) (c_mem c) (c_mem c1)) as (c1 & Hrun1 & Hgp & Hss & Hdata & Hesp & Hstack & Hmem).
  { unfold outer, stack_top in *. destruct Hcpl as [E|E]; rewrite E in *; cbn [Z.eqb Pos.eqb] in *.
    - exists c. cbn [length stack_at]. change (4 * Z.of_nat 0) with 0. rewrite Z.sub_0_r. by repeat split.
    - rewrite modify_bind. destruct (push_words_run [c_ss c; c_esp c] (set_ss ss0 (set_esp esp0 c)) []) as (m & Hrun & Hst & Hab);
        [cpu; cbn [length]; lia | done|]. eexists. split; [exact Hrun|]. cpu. split; [done|]. split; [done|].
      split; [done|]. split; [done|]. by split. }
  rewrite (bind_ret _ _ _ _ _ Hrun1). assert (length outer ≤ 2)%nat as Hlen by (unfold outer; destruct (_ =? _); cbn; lia).
  destruct (push_words_run [c_eflags c; c_cs c; c_eip c] c1 outer) as (m2 & Hrun2 & Hst2 & Hab2); [cbn [length]; lia | done|].
  rewrite (bind_ret _ _ _ _ _ Hrun2). cbn [length rev app] in Hst2. set (c2 := set_mem _ _).
  destruct (push_words_run (err_words err) c2 (interrupt_frame c)) as (m3 & Hrun3 & Hst3 & Hab3).
  { unfold c2. cpu. destruct err; cbn [length err_words]; lia. }
  { exact Hst2. }
  assert ((match err with Some e => push_word e | None => mret tt end) c2 = Ret tt (set_mem m3 (set_esp (c_esp c2 - 4 * Z.of_nat (length (err_words err))) c2))) as Hrun3'.
  { destruct err as [e|]; [by rewrite <-push_words_one | exact Hrun3]. }
  rewrite (bind_ret _ _ _ _ _ Hrun3'). eexists. split; [reflexivity|]. constructor; cpu.
  - done. - done. - done. - done.
  - unfold c2. cpu. rewrite length_app. unfold interrupt_frame. fold outer. rewrite length_app. cbn [length]. lia.
  - replace (rev (err_words err)) with (err_words err) in Hst3 by (by destruct err). exact Hst3.
  - eapply (same_above_trans _ (c_esp c2)); [unfold c2; cpu; lia | | exact Hab3].
    unfold c2 in *. cpu. eapply (same_above_trans _ (c_esp c1)); [lia | exact Hmem | exact Hab2].
Qed.

(** The registers restored and the interrupted code resumed. *)
Lemma resume_run c0 c kernel_cs :
  cpl c0 = 0 ∨ cpl c0 = 3 ∧ selector_dpl (c_data c) = 3 → Z.land kernel_cs 3 = 0 → c_cs c = kernel_cs →
  (cpl c0 = 0 → c_ss c = c_ss c0 ∧ c_esp c + 12 = c_esp c0) →
  0 ≤ c_esp c < 0xffffff00 → stack_at (c_esp c) (interrupt_frame c0) (c_mem c) →
  do_iret c = Ret tt (Cpu (gp c) (c_esp c0) (c_eip c0) (c_cs c0) (c_eflags c0) (c_ss c0) (c_data c) (c_mem c)).
Proof.
  intros Hlevel Hk Hcs Hss He Hst. unfold interrupt_frame in Hst.
  assert (cpl c = 0) as Hcpl by (unfold cpl; by rewrite Hcs).
  destruct Hlevel as [Hcpl0|[Hcpl0 Hdpl]]; rewrite Hcpl0 in Hst; cbn [app Z.eqb Pos.eqb] in Hst.
  - destruct (Hss Hcpl0) as [E1 E2]. rewrite (iret_same_run (c_eip c0) (c_cs c0) (c_eflags c0) [] c); [by rewrite E1, E2 | lia | done |].
    fold (cpl c0). lia.
  - rewrite (iret_outer_run (c_eip c0) (c_cs c0) (c_eflags c0) (c_esp c0) (c_ss c0) [] c); [|lia | done | fold (cpl c0); lia].
    fold (cpl c0). by rewrite Hdpl, Hcpl0.
Qed.
