(* ===== verification/Stubs.v ===== *)
(** * The assembly of the kernel (interrupts.h, exceptions.h, exceptions.c, syscall.c, sched.c)

    The stubs of the gates, the exchange of stacks and the entry of a program, as
    code for the processor of Asm.v. *)

From S2P Require Import Prelude Shell Layout Gdt Interrupts Allocator Heap Ports Console Tty Pci BlockDevice Disk Frames Paging Paths Fs Objects Linked Mmap Kernel Space Files Fault Sched Switch Process Machine Elf Syscall Boot Start Asm.

(** ** The code *)

(** DECLARE_IRQ *)
Definition irq_code (n : Z) : list instruction :=
  [pusha; push_imm n; call interrupts_dispatch_fn; add_esp 4; popa; iret].

(** DECLARE_EXCEPTION_NOERR *)
Definition exception_noerr_code (n : Z) : list instruction :=
  [pusha; push_imm 0; push_imm n; call exceptions_dispatch_fn; add_esp 8; popa; iret].

(** DECLARE_EXCEPTION_ERRCODE *)
Definition exception_errcode_code (n : Z) : list instruction :=
  [pusha; push_at ESP 32; push_imm n; call exceptions_dispatch_fn; add_esp 8; popa; add_esp 4; iret].

(** The 32 declarations of exceptions.c. *)
Definition exceptions_declared : list (Z → list instruction) :=
  [exception_noerr_code; exception_noerr_code; exception_noerr_code; exception_noerr_code;
   exception_noerr_code; exception_noerr_code; exception_noerr_code; exception_noerr_code;
   exception_errcode_code; exception_noerr_code; exception_errcode_code; exception_errcode_code;
   exception_errcode_code; exception_errcode_code; exception_errcode_code; exception_noerr_code;
   exception_noerr_code; exception_errcode_code; exception_noerr_code; exception_noerr_code;
   exception_noerr_code; exception_errcode_code; exception_noerr_code; exception_noerr_code;
   exception_noerr_code; exception_noerr_code; exception_noerr_code; exception_noerr_code;
   exception_noerr_code; exception_errcode_code; exception_errcode_code; exception_noerr_code].

(** The code at [exception_stub n], and at [irq_stub (n - 32)]. *)
Definition stub_code (n : Z) : list instruction :=
  if n <? 32 then match exceptions_declared !! Z.to_nat n with Some declared => declared n | None => [] end
  else irq_code (n - 32).

Definition syscall_entry_code : list instruction :=
  [pusha; mov EAX ESP; push EAX; call syscall_dispatch_fn; add_esp 4; popa; iret].

(** The offset of [kernel_esp] in [task_t]. *)
Definition kernel_esp_offset : Z := 28.

Definition switch_to_code : list instruction :=
  [push EBP; push EBX; push ESI; push EDI;
   mov_from EAX ESP 20; mov_to EAX kernel_esp_offset ESP;
   mov_from EAX ESP 24; mov_from ESP EAX kernel_esp_offset;
   pop EDI; pop ESI; pop EBX; pop EBP; ret].

Definition enter_user_task_code : list instruction :=
  [cli; mov_from EAX ESP 20; mov_data EAX; add_esp 4; iret].

(** One turn of the loop of [idle_task_entry]. *)
Definition idle_task_turn : list instruction := [sti; hlt].

(** ** The C functions as the assembly calls them

    The compiled dispatchers find their arguments on the stack, return with the
    stack pointer where it was, keep ebx, ebp, esi, edi and the segment registers,
    and write no word above their arguments: the calling convention. *)

Record after_call (args : nat) c c' : Prop := {
  ac_ebx : r_ebx (gp c') = r_ebx (gp c);
  ac_ebp : r_ebp (gp c') = r_ebp (gp c);
  ac_esi : r_esi (gp c') = r_esi (gp c);
  ac_edi : r_edi (gp c') = r_edi (gp c);
  ac_esp : c_esp c' = c_esp c;
  ac_cs : c_cs c' = c_cs c;
  ac_ss : c_ss c' = c_ss c;
  ac_data : c_data c' = c_data c;
  ac_mem : same_above (c_esp c + 4 * Z.of_nat args) (c_mem c) (c_mem c');
}.

(** The words that [syscall_registers_t] describes. *)
Definition registers_words (r : syscall_registers_t) : list Z :=
  [edi r; esi r; ebp r; old_kernel_esp r; ebx r; edx r; ecx r; eax r;
   user_eip r; user_cs r; user_eflags r; user_esp r; user_ss r].

Section compiled.
Context {L : Layout} {H : Type} `{!Allocator H} {B : Type} `{!BlockDevice B} `{!DiskDriver B} {D : Type} `{!Bus D}.
Abbreviation W := (machine H B D).

(** The compiler's promise; [stack_need] is what the deepest call takes, and [cr2] the
    address that the processor has stored in that register. *)
Class Compiled (cr2 : Z) := {
  run_call : c_function → M (cpu * W) unit;
  stack_need : Z;
  stack_need_range : 0 ≤ stack_need;
  interrupts_called irq c s s' :
    stack_at (c_esp c) [irq] (c_mem c) → stack_need ≤ c_esp c →
    (∀ esp, interrupts_dispatch esp (u8 irq) s = Ret None s') →
    ∃ c', run_call interrupts_dispatch_fn (c, s) = Ret tt (c', s') ∧ after_call 1 c c';
  exceptions_called exc err c s s' :
    stack_at (c_esp c) [exc; err] (c_mem c) → stack_need ≤ c_esp c →
    exceptions_dispatch cr2 (u8 exc) err s = Ret tt s' →
    ∃ c', run_call exceptions_dispatch_fn (c, s) = Ret tt (c', s') ∧ after_call 2 c c';
  syscall_called p r r' c s s' :
    stack_at (c_esp c) [p] (c_mem c) → stack_need ≤ c_esp c → c_esp c + 4 ≤ p → stack_at p (registers_words r) (c_mem c) →
    (∀ esp phdr_address, syscall_dispatch esp phdr_address r s = Ret (Resume r') s') →
    ∃ c', run_call syscall_dispatch_fn (c, s) = Ret tt (c', s') ∧ c_esp c' = c_esp c ∧ c_cs c' = c_cs c ∧ c_data c' = c_data c ∧
      stack_at p (registers_words r') (c_mem c') ∧ same_above (p + 52) (c_mem c) (c_mem c');
}.
End compiled.

(** ** The stubs *)

Section steps.
Context {W : Type} (run : c_function → M (cpu * W) unit).
Implicit Types (s : W) (c : cpu).

Lemma on_cpu_run {A} (m : M cpu A) c s a c' : m c = Ret a c' → on_cpu m (c, s) = Ret a (c', s).
Proof. intros E. unfold on_cpu. cbn [fst snd]. by rewrite E. Qed.

Lemma execute_cons i code c s c1 s1 :
  execute run i (c, s) = Ret tt (c1, s1) → execute_all run (i :: code) (c, s) = execute_all run code (c1, s1).
Proof. exact (bind_ret (execute run i) _ (c, s) tt (c1, s1)). Qed.

Lemma execute_last i c s c1 s1 : execute run i (c, s) = Ret tt (c1, s1) → execute_all run [i] (c, s) = Ret tt (c1, s1).
Proof. intros E. exact (execute_cons i [] c s c1 s1 E). Qed.

(** More words on the stack of a handler. *)
Lemma push_in_handler vs c0 kernel_cs top l c s :
  in_handler c0 kernel_cs top l c → top < 0x100000000 → 4 * Z.of_nat (length vs + length l) ≤ top →
  ∃ c', on_cpu (push_words vs) (c, s) = Ret tt (c', s) ∧ in_handler c0 kernel_cs top (rev vs ++ l) c'.
Proof.
  intros [Hgp Hcs Hss Hdata Hesp Hst Hab] Htop Hroom.
  destruct (push_words_run vs c l) as (m & Hrun & Hst' & Hab'); [lia | done|].
  eexists. split; [by apply on_cpu_run|]. constructor; cpu; try done.
  - rewrite length_app, length_rev. lia.
  - eapply (same_above_trans _ (c_esp c)); [lia | done | done].
Qed.

Lemma push_one_in_handler v c0 kernel_cs top l c s :
  in_handler c0 kernel_cs top l c → top < 0x100000000 → 4 * Z.of_nat (S (length l)) ≤ top →
  ∃ c', on_cpu (push_word v) (c, s) = Ret tt (c', s) ∧ in_handler c0 kernel_cs top (v :: l) c'.
Proof.
  intros Hih Htop Hroom. destruct (push_in_handler [v] c0 kernel_cs top l c s Hih Htop) as (c' & Hrun & Hih'); [cbn [length]; lia|].
  exists c'. split; [|exact Hih']. unfold on_cpu in *. by rewrite <-push_words_one.
Qed.

Lemma pusha_in_handler c0 kernel_cs top l c s :
  in_handler c0 kernel_cs top l c → top < 0x100000000 → 4 * Z.of_nat (8 + length l) ≤ top →
  ∃ c', execute run pusha (c, s) = Ret tt (c', s) ∧ in_handler c0 kernel_cs top (saved (gp c0) (c_esp c) ++ l) c'.
Proof.
  intros Hih Htop Hroom. rewrite <-(ih_gp _ _ _ _ _ Hih).
  exact (push_in_handler [r_eax (gp c); r_ecx (gp c); r_edx (gp c); r_ebx (gp c); c_esp c; r_ebp (gp c); r_esi (gp c); r_edi (gp c)]
    c0 kernel_cs top l c s Hih Htop Hroom).
Qed.

Lemma push_imms_in_handler vs code c0 kernel_cs top l c s :
  in_handler c0 kernel_cs top l c → top < 0x100000000 → 4 * Z.of_nat (length vs + length l) ≤ top →
  ∃ c', execute_all run ((push_imm <$> vs) ++ code) (c, s) = execute_all run code (c', s) ∧
    in_handler c0 kernel_cs top (rev vs ++ l) c'.
Proof.
  revert l c. induction vs as [|v vs IH]; intros l c Hih Htop Hroom; cbn [length] in Hroom; [by exists c|].
  destruct (push_one_in_handler v _ _ _ _ c s Hih) as (c1 & Hrun1 & Hih1); [lia | lia|].
  destruct (IH (v :: l) c1 Hih1) as (c2 & Hrun2 & Hih2); [lia | cbn [length]; lia|].
  exists c2. split; [|by cbn [rev]; rewrite <-app_assoc].
  exact (eq_trans (execute_cons (push_imm v) _ c s c1 s Hrun1) Hrun2).
Qed.

(** From the return of the C function, with its arguments still on the stack. *)
Definition leave_code (args : Z) (err : option Z) : list instruction :=
  [add_esp (4 * args); popa] ++ (match err with Some _ => [add_esp 4] | None => [] end) ++ [iret].

Lemma leave_run c0 kernel_cs top args err sp c s :
  cpl c0 = 0 ∨ cpl c0 = 3 ∧ selector_dpl (c_data c0) = 3 → Z.land kernel_cs 3 = 0 →
  c_cs c = kernel_cs → c_data c = c_data c0 → (cpl c0 = 0 → c_ss c = c_ss c0 ∧ c_esp c0 = top) →
  0 ≤ args → 0 ≤ c_esp c → top < 0xffffff00 →
  c_esp c + 4 * args = top - 4 * Z.of_nat (8 + length (err_words err ++ interrupt_frame c0)) →
  stack_at (c_esp c + 4 * args) (saved (gp c0) sp ++ err_words err ++ interrupt_frame c0) (c_mem c) →
  execute_all run (leave_code args err) (c, s) = Ret tt (set_mem (c_mem c) c0, s).
Proof.
  intros Hlevel Hk Hcs Hdata Hss Hargs Hesp Htop Htotal Hst. unfold leave_code. cbn [app].
  rewrite length_app in Htotal. set (n := length (interrupt_frame c0)) in *.
  assert (cpl c0 = 0 → n = 3%nat) as Hn by (unfold n, interrupt_frame; intros ->; done).
  assert (3 ≤ n)%nat as Hn3 by (unfold n, interrupt_frame; rewrite length_app; cbn [length]; lia).
  set (c1 := set_esp (c_esp c + 4 * args) c).
  rewrite (execute_cons _ _ c s c1 s).
  2:{ apply on_cpu_run. unfold modify, c1. by rewrite u32_id by lia. }
  destruct (popa_run (gp c0) sp (err_words err ++ interrupt_frame c0) c1) as [Hpopa Hst2]; [unfold c1; cpu; lia | exact Hst|].
  rewrite (execute_cons _ _ c1 s (set_gp (gp c0) (set_esp (c_esp c1 + 32) c1)) s); [|by apply on_cpu_run].
  assert (c_esp c + 4 * args + 32 + 4 * Z.of_nat (length (err_words err)) = top - 4 * Z.of_nat n) as He by lia.
  assert (execute_all run [iret] (set_gp (gp c0) (set_esp (top - 4 * Z.of_nat n) c1), s) = Ret tt (set_mem (c_mem c) c0, s)) as Hiret.
  { apply execute_last, on_cpu_run.
    rewrite (resume_run c0 (set_gp (gp c0) (set_esp (top - 4 * Z.of_nat n) c1)) kernel_cs); cpu.
    - unfold c1. cpu. by rewrite Hdata.
    - unfold c1. cpu. by rewrite Hdata.
    - done.
    - exact Hcs.
    - intros E. destruct (Hss E) as [E1 E2]. rewrite (Hn E). split; [exact E1 | lia].
    - lia.
    - rewrite <-He. apply stack_at_app in Hst2 as [_ Hst2]. unfold c1 in Hst2. cpu in Hst2. exact Hst2. }
  destruct err as [v|]; cbn [app err_words length] in *.
  - rewrite (execute_cons _ _ _ s (set_gp (gp c0) (set_esp (top - 4 * Z.of_nat n) c1)) s); [exact Hiret|].
    apply on_cpu_run. unfold modify. unfold c1. cpu. rewrite u32_id by lia. change (4 * Z.of_nat 1) with 4 in He. by rewrite He.
  - change (4 * Z.of_nat 0) with 0 in He. rewrite Z.add_0_r in He. rewrite <-Hiret. unfold c1. cpu. by rewrite He.
Qed.
End steps.

(** ** Interrupts and exceptions *)

(** The exceptions with an error code (the processor's manuals). *)
Definition pushes_error (n : Z) : bool := bool_decide (n ∈ [8; 10; 11; 12; 13; 14; 17; 21; 29; 30]).
Definition error_of (n err : Z) : option Z := if pushes_error n then Some err else None.

Lemma exceptions_declared_ok n : 0 ≤ n < 32 →
  exceptions_declared !! Z.to_nat n = Some (if pushes_error n then exception_errcode_code else exception_noerr_code).
Proof.
  intros Hn. assert (∀ k : nat, (k < 32)%nat → exceptions_declared !! k =
    Some (if pushes_error (Z.of_nat k) then exception_errcode_code else exception_noerr_code)) as Hall.
  { intros k Hk. do 32 (destruct k as [|k]; [reflexivity|]). lia. }
  rewrite Hall by lia. by rewrite Z2Nat.id by lia.
Qed.

Section interrupts.
Context {L : Layout} {H : Type} `{!Allocator H} {B : Type} `{!BlockDevice B} `{!DiskDriver B} {D : Type} `{!Bus D} (cr2 : Z) `{!Compiled (H := H) (B := B) (D := D) cr2}.
Implicit Types (s : machine H B D) (c : cpu).

(** The stack is free for the frame, the registers and the C functions. *)
Definition stack_room (top : Z) : Prop := stack_need + 100 ≤ top < 0xffffff00.

Lemma frame_length err c : (length (err_words err ++ interrupt_frame c) ≤ 6)%nat.
Proof. rewrite length_app. unfold interrupt_frame. rewrite length_app. destruct err, (cpl c =? 3); cbn [err_words length]; lia. Qed.

(** [push dword esp + 32] finds the error code above the registers. *)
Lemma push_error_again c0 kernel_cs top sp err l c s :
  in_handler c0 kernel_cs top (saved (gp c0) sp ++ err :: l) c → 0 ≤ top - 4 * Z.of_nat (9 + length l) → top < 0x100000000 →
  execute run_call (push_at ESP 32) (c, s) = on_cpu (push_word err) (c, s).
Proof.
  intros [_ _ _ _ Hesp Hst _] Hlo Hhi. apply stack_at_app in Hst as [_ [Hv _]]. rewrite length_app in Hesp.
  cbn [saved length] in *. change (4 * Z.of_nat 8) with 32 in Hv.
  cbn [execute]. unfold on_cpu. cbn [fst snd]. rewrite gets_bind. cbn [get_register].
  rewrite (bind_ret (load_at (c_esp c +ᵤ 32)) _ c err c); [done|]. unfold load_at. rewrite u32_id by lia. by rewrite Hv.
Qed.

(** The part that all the stubs share: registers and arguments pushed, the call. *)
Lemma call_run (args : list Z) (f : c_function) c0 top err c1 s s' :
  cpl c0 = 0 ∨ cpl c0 = 3 ∧ selector_dpl (c_data c0) = 3 → (cpl c0 = 0 → c_esp c0 = top) → stack_room top → (length args ≤ 2)%nat →
  (∀ c, stack_at (c_esp c) args (c_mem c) → stack_need ≤ c_esp c →
    ∃ c', run_call f (c, s) = Ret tt (c', s') ∧ after_call (length args) c c') →
  ∀ sp, in_handler c0 GDT_KERNEL_CODE_SELECTOR top (args ++ saved (gp c0) sp ++ err_words err ++ interrupt_frame c0) c1 →
  ∃ m, execute_all run_call (call f :: leave_code (Z.of_nat (length args)) err) (c1, s) = Ret tt (set_mem m c0, s') ∧
    same_above top (c_mem c0) m.
Proof.
  intros Hlevel Htop Hroom Hargs Hcall sp [Hgp Hcs Hss Hdata Hesp Hst Hab].
  assert (length (err_words err ++ interrupt_frame c0) ≤ 6)%nat as Hlen by apply frame_length.
  pose proof stack_need_range as Hneed. unfold stack_room in Hroom. rewrite !length_app in Hesp. cbn [saved length] in Hesp.
  rewrite length_app in Hlen.
  apply stack_at_app in Hst as [Hst1 Hst2].
  destruct (Hcall c1 Hst1) as (c2 & Hrun & [_ _ _ _ Hesp2 Hcs2 Hss2 Hdata2 Hmem2]); [lia|].
  exists (c_mem c2). split.
  - rewrite (execute_cons run_call (call f) _ c1 s c2 s') by exact Hrun.
    apply (leave_run run_call c0 GDT_KERNEL_CODE_SELECTOR top _ err sp);
      [done | done | congruence | congruence | | lia | lia | lia | |].
    + intros E. rewrite Hss2, Hss by done. by rewrite Htop.
    + rewrite Hesp2, Hesp. rewrite !length_app. lia.
    + rewrite Hesp2. eapply stack_at_same; [|exact Hst2]. exact Hmem2.
  - eapply (same_above_trans _ (c_esp c1 + 4 * Z.of_nat (length args))); [lia | exact Hab | exact Hmem2].
Qed.

(** The same with the last arguments still to be pushed. *)
Lemma arguments_run vs pre (f : c_function) c0 top err sp c1 s s' :
  cpl c0 = 0 ∨ cpl c0 = 3 ∧ selector_dpl (c_data c0) = 3 → (cpl c0 = 0 → c_esp c0 = top) → stack_room top →
  (length (rev vs ++ pre) ≤ 2)%nat →
  (∀ c, stack_at (c_esp c) (rev vs ++ pre) (c_mem c) → stack_need ≤ c_esp c →
    ∃ c', run_call f (c, s) = Ret tt (c', s') ∧ after_call (length (rev vs ++ pre)) c c') →
  in_handler c0 GDT_KERNEL_CODE_SELECTOR top (pre ++ saved (gp c0) sp ++ err_words err ++ interrupt_frame c0) c1 →
  ∃ m, execute_all run_call ((push_imm <$> vs) ++ call f :: leave_code (Z.of_nat (length (rev vs ++ pre))) err) (c1, s) =
      Ret tt (set_mem m c0, s') ∧ same_above top (c_mem c0) m.
Proof.
  intros Hlevel Htop Hroom Hargs Hcall Hih. pose proof stack_need_range. pose proof Hroom as [? ?].
  assert (length (err_words err ++ interrupt_frame c0) ≤ 6)%nat as Hlen by apply frame_length.
  pose proof Hargs as Hargs'. rewrite length_app, length_rev in Hargs'.
  destruct (push_imms_in_handler run_call vs (call f :: leave_code (Z.of_nat (length (rev vs ++ pre))) err) _ _ _ _ c1 s Hih)
    as (c2 & Hrun2 & Hih2); [lia | rewrite length_app, (length_app (saved _ _)); cbn [saved length]; lia|].
  rewrite app_assoc in Hih2.
  destruct (call_run _ f c0 top err c2 s s' Hlevel Htop Hroom Hargs Hcall sp Hih2) as (m & Hrun & Hm).
  exists m. by rewrite Hrun2.
Qed.

(** What the C function does for vector [n]. *)
Definition handled (n err : Z) s s' : Prop :=
  if n <? 32 then exceptions_dispatch cr2 n (if pushes_error n then err else 0) s = Ret tt s'
  else ∀ esp, interrupts_dispatch esp (n - 32) s = Ret None s'.

(** C8 (the stubs of interrupts and exceptions): whatever the processor interrupts, in
    user mode or in the kernel, at any of the vectors 0 to 47: the stub calls the
    dispatcher with the number of the exception and its error code (0 where the
    processor pushes none) or with the request line, and if no other task is
    switched to, the interrupted code goes on with every register, the flags and
    its stack as they were, whatever registers the C code has used. *)
Theorem interrupt_transparent esp0 ss0 n err c s s' :
  0 ≤ n < 48 → cpl c = 0 ∨ cpl c = 3 ∧ selector_dpl (c_data c) = 3 → stack_room (stack_top esp0 c) → handled n err s s' →
  ∃ m, (on_cpu (enter_handler esp0 ss0 GDT_KERNEL_CODE_SELECTOR (default 0 (stub_of n)) true (error_of n err));;
      execute_all run_call (stub_code n)) (c, s) = Ret tt (set_mem m c, s') ∧
    same_above (stack_top esp0 c) (c_mem c) m.
Proof.
  intros Hn Hlevel Hroom Hh. pose proof stack_need_range as Hneed. pose proof Hroom as [Hr1 Hr2].
  set (top := stack_top esp0 c) in *.
  assert (cpl c = 0 → c_esp c = top) as Htop by (unfold top, stack_top; by intros ->).
  destruct (enter_handler_run esp0 ss0 GDT_KERNEL_CODE_SELECTOR (default 0 (stub_of n)) true (error_of n err) c) as (c1 & Hrun1 & Hih1);
    [tauto | fold top; lia|]. fold top in Hih1.
  rewrite (bind_ret _ _ _ _ _ (on_cpu_run _ c s _ _ Hrun1)).
  pose proof (frame_length (error_of n err) c) as Hlen.
  destruct (pusha_in_handler run_call _ _ _ _ c1 s Hih1) as (c2 & Hrun2 & Hih2); [lia..|].
  unfold stub_code, handled in *. destruct (Z.ltb_spec n 32) as [Hlt|Hge].
  - rewrite exceptions_declared_ok by lia. unfold error_of in *. destruct (pushes_error n) eqn:He.
    + unfold exception_errcode_code. rewrite (execute_cons _ _ _ _ _ _ _ Hrun2).
      destruct (push_one_in_handler err _ _ _ _ c2 s Hih2) as (c3 & Hrun3 & Hih3); [lia | rewrite length_app; cbn [saved length]; lia|].
      rewrite (execute_cons run_call (push_at ESP 32) _ c2 s c3 s)
        by (rewrite <-Hrun3; eapply push_error_again; [exact Hih2 | cbn [err_words length app] in Hlen; lia | lia]).
      apply (arguments_run [n] [err] exceptions_dispatch_fn c top (Some err) (c_esp c1) c3 s s' Hlevel Htop Hroom); [cbn; lia | | exact Hih3].
      intros c5 Hst5 Hneed5. apply (exceptions_called n err); [done..|]. by rewrite u8_id by lia.
    + unfold exception_noerr_code. rewrite (execute_cons _ _ _ _ _ _ _ Hrun2).
      apply (arguments_run [0; n] [] exceptions_dispatch_fn c top None (c_esp c1) c2 s s' Hlevel Htop Hroom); [cbn; lia | | exact Hih2].
      intros c5 Hst5 Hneed5. apply (exceptions_called n 0); [done..|]. by rewrite u8_id by lia.
  - unfold irq_code. rewrite (execute_cons _ _ _ _ _ _ _ Hrun2).
    assert (error_of n err = None) as Eerr by (unfold error_of, pushes_error; rewrite bool_decide_false; [done | rewrite !elem_of_cons, elem_of_nil; lia]).
    rewrite Eerr in *.
    apply (arguments_run [n - 32] [] interrupts_dispatch_fn c top None (c_esp c1) c2 s s' Hlevel Htop Hroom); [cbn; lia | | exact Hih2].
    intros c5 Hst5 Hneed5. apply (interrupts_called (n - 32)); [done..|]. by rewrite u8_id by lia.
Qed.

(** ** System calls *)

(** What [syscall_dispatch] finds at its argument after [int 0x80] in user mode, with
    the kernel stack at [top], and what [popa] and [iret] make of it. *)
Definition registers_of (top : Z) c : syscall_registers_t :=
  let g := gp c in
  Registers (r_edi g) (r_esi g) (r_ebp g) (top - 20) (r_ebx g) (r_edx g) (r_ecx g) (r_eax g)
    (c_eip c) (c_cs c) (c_eflags c) (c_esp c) (c_ss c).

Definition gprs_of (r : syscall_registers_t) : gprs := Gprs (eax r) (ecx r) (edx r) (ebx r) (ebp r) (esi r) (edi r).
Definition resumed (r : syscall_registers_t) (data : Z) (m : gmap Z Z) : cpu :=
  Cpu (gprs_of r) (user_esp r) (user_eip r) (user_cs r) (user_eflags r) (user_ss r) data m.

Lemma registers_words_saved r :
  registers_words r = saved (gprs_of r) (old_kernel_esp r) ++ [user_eip r; user_cs r; user_eflags r; user_esp r; user_ss r].
Proof. done. Qed.

(** The rest of the stub, after the call: [r] are the registers in memory. *)
Lemma syscall_leave_run r c s :
  0 ≤ c_esp c < 0xffffff00 → cpl c = 0 → Z.land (user_cs r) 3 = 3 → selector_dpl (c_data c) = 3 →
  stack_at (c_esp c + 4) (registers_words r) (c_mem c) →
  execute_all run_call [add_esp 4; popa; iret] (c, s) = Ret tt (resumed r (c_data c) (c_mem c), s).
Proof.
  intros He Hcpl Hcs Hdpl Hst. set (c1 := set_esp (c_esp c + 4) c).
  rewrite (execute_cons _ _ _ c s c1 s) by (apply on_cpu_run; unfold modify; by rewrite u32_id by lia).
  rewrite registers_words_saved in Hst.
  destruct (popa_run (gprs_of r) (old_kernel_esp r) _ c1 ltac:(unfold c1; cpu; lia) Hst) as [Hpopa Hst2].
  set (c2 := set_gp (gprs_of r) (set_esp (c_esp c1 + 32) c1)) in *.
  rewrite (execute_cons _ _ _ c1 s c2 s) by (by apply on_cpu_run). apply execute_last, on_cpu_run. cbn [execute].
  rewrite (iret_outer_run (user_eip r) (user_cs r) (user_eflags r) (user_esp r) (user_ss r) [] c2).
  - unfold c2, c1. cpu. by rewrite Hdpl, Hcs.
  - unfold c2, c1. cpu. lia.
  - exact Hst2.
  - unfold cpl in *. unfold c2, c1. cpu. lia.
Qed.

(** C9 (the stub of system calls, [syscall_entry]): a program's [int 0x80] calls
    [syscall_dispatch] with a structure that holds exactly the program's registers,
    and the program goes on with exactly what the dispatcher has left there, at
    privilege level 3 and with its data segments; the kernel stack is as before. *)
Theorem syscall_entry_correct ss0 c top s r' s' :
  cpl c = 3 → selector_dpl (c_data c) = 3 → 0 ≤ r_eax (gp c) → stack_room top → registered (m_syscall_handlers s) →
  (∀ esp phdr_address, syscall_dispatch esp phdr_address (registers_of top c) s = Ret (Resume r') s') →
  ∃ m, (on_cpu (enter_handler top ss0 GDT_KERNEL_CODE_SELECTOR (default 0 (stub_of 0x80)) false None);;
      execute_all run_call syscall_entry_code) (c, s) = Ret tt (resumed r' (c_data c) m, s') ∧
    cpl (resumed r' (c_data c) m) = 3 ∧ same_above top (c_mem c) m.
Proof.
  intros Hcpl Hdpl Heax [Hr1 Hr2] Hreg Hcall. pose proof stack_need_range as Hneed.
  pose proof (syscall_resumes 0 0 (registers_of top c) s r' s' Hreg Heax (Hcall 0 0)) as Hres.
  assert (user_cs r' = c_cs c) as Hcs by apply (rs_cs _ _ Hres).
  assert (stack_top top c = top) as Htop by (unfold stack_top; by rewrite Hcpl).
  destruct (enter_handler_run top ss0 GDT_KERNEL_CODE_SELECTOR (default 0 (stub_of 0x80)) false None c) as (c1 & Hrun1 & Hih1);
    [by right | rewrite Htop; lia|]. rewrite Htop in Hih1. rewrite (bind_ret _ _ _ _ _ (on_cpu_run _ c s _ _ Hrun1)).
  pose proof (frame_length None c) as Hlen.
  destruct (pusha_in_handler run_call _ _ _ _ c1 s Hih1) as (c2 & Hrun2 & Hih2); [lia..|].
  assert (c_esp c1 = top - 20) as E1 by (rewrite (ih_esp _ _ _ _ _ Hih1); unfold interrupt_frame; by rewrite Hcpl).
  destruct Hih2 as [Hgp2 Hcs2 _ Hdata2 Hesp2 Hst2 Hab2]. unfold syscall_entry_code. rewrite (execute_cons _ _ _ _ _ _ _ Hrun2).
  assert (saved (gp c) (c_esp c1) ++ err_words None ++ interrupt_frame c = registers_words (registers_of top c)) as Ewords
    by (unfold interrupt_frame; by rewrite Hcpl, E1). rewrite Ewords in *. cbn [length registers_words] in Hesp2.
  set (p := c_esp c2) in *. set (c3 := set_register EAX p c2).
  rewrite (execute_cons run_call (mov EAX ESP) _ c2 s c3 s) by reflexivity.
  destruct (push_word_run p c3 (registers_words (registers_of top c))) as (m4 & Hrun4 & Hst4 & Hab4); [change (c_esp c3) with p; lia | exact Hst2|].
  set (c4 := set_mem m4 _) in *.
  rewrite (execute_cons run_call (push EAX) _ c3 s c4 s) by (apply on_cpu_run; rewrite gets_bind; exact Hrun4).
  assert (c_esp c4 = p - 4) as E4 by reflexivity.
  destruct (syscall_called p (registers_of top c) r' c4 s s') as (c5 & Hrun5 & He5 & Hcs5 & Hd5 & Hst5 & Hab5);
    [exact (conj (proj1 Hst4) I) | lia | lia | | exact Hcall |].
  { destruct Hst4 as [_ Hst4]. change (c_esp c3) with p in Hst4. by replace (p - 4 + 4) with p in Hst4 by lia. }
  rewrite (execute_cons run_call (call syscall_dispatch_fn) _ c4 s c5 s') by exact Hrun5.
  exists (c_mem c5). split; [|split].
  - rewrite (syscall_leave_run r' c5 s').
    + by rewrite Hd5, <-Hdata2.
    + lia.
    + unfold cpl. rewrite Hcs5. change (c_cs c4) with (c_cs c2). by rewrite Hcs2.
    + by rewrite Hcs.
    + rewrite Hd5. change (c_data c4) with (c_data c2). by rewrite Hdata2.
    + rewrite He5, E4. by replace (p - 4 + 4) with p by lia.
  - unfold cpl. cpu. unfold resumed. cpu. by rewrite Hcs.
  - replace (p + 52) with top in Hab5 by lia. eapply (same_above_trans top top); [lia | | exact Hab5].
    eapply (same_above_trans top (c_esp c3)); [change (c_esp c3) with p; lia | exact Hab2 | exact Hab4].
Qed.
End interrupts.

(** ** Switching stacks *)

(** A point where a task stopped, or will start: the registers that the calling
    convention keeps, the next instruction and the stack pointer there. *)
Record context := Context_at { x_ebx : Z; x_ebp : Z; x_esi : Z; x_edi : Z; x_eip : Z; x_esp : Z }.

(** [task] is suspended in [switch_to]. *)
Definition suspended (m : gmap Z Z) (task : Z) (x : context) : Prop :=
  m !! (task + kernel_esp_offset) = Some (x_esp x - 20) ∧
  stack_at (x_esp x - 20) [x_edi x; x_esi x; x_ebx x; x_ebp x; x_eip x] m.

(** Where a call of [switch_to] with the return address [ra] goes on. *)
Definition calling (ra : Z) c : context :=
  Context_at (r_ebx (gp c)) (r_ebp (gp c)) (r_esi (gp c)) (r_edi (gp c)) ra (c_esp c + 4).

Definition running (x : context) c : Prop :=
  r_ebx (gp c) = x_ebx x ∧ r_ebp (gp c) = x_ebp x ∧ r_esi (gp c) = x_esi x ∧ r_edi (gp c) = x_edi x ∧
  c_eip c = x_eip x ∧ c_esp c = x_esp x.

(** The words that the call may write: below its stack pointer, and the field of [prev]. *)
Definition written_by_switch (prev : Z) c (a : Z) : Prop := c_esp c - 16 ≤ a < c_esp c ∨ a = prev + kernel_esp_offset.

Section switch.
Context {W : Type} (run : c_function → M (cpu * W) unit).
Implicit Types (s : W) (c : cpu) (x : context).

(** The words of a suspended task. *)
Definition suspended_word (task : Z) x (a : Z) : Prop :=
  a = task + kernel_esp_offset ∨ x_esp x - 20 ≤ a < x_esp x.

Lemma suspended_ext m m' task x :
  (∀ a, suspended_word task x a → m' !! a = m !! a) → suspended m task x → suspended m' task x.
Proof.
  intros Hm [Hf Hst]. split; [rewrite Hm; [done | by left]|].
  cbn [stack_at] in *. destruct Hst as (H1 & H2 & H3 & H4 & H5 & _).
  repeat split; rewrite Hm by (right; lia); done.
Qed.

Lemma push_register_run r code c s : 4 ≤ c_esp c < 0x100000000 →
  execute_all run (push r :: code) (c, s) =
  execute_all run code (set_mem (<[c_esp c - 4 := get_register r c]> (c_mem c)) (set_esp (c_esp c - 4) c), s).
Proof.
  intros He. apply execute_cons. cbn [execute]. unfold on_cpu, push_word, store_at. run. unfold set_esp, set_mem. cbn.
  by rewrite u32_id by lia.
Qed.

Lemma mov_from_run dst base off v code c s :
  0 ≤ get_register base c + off < 0x100000000 → c_mem c !! (get_register base c + off) = Some v →
  execute_all run (mov_from dst base off :: code) (c, s) = execute_all run code (set_register dst v c, s).
Proof.
  intros Ha Hv. apply execute_cons. cbn [execute]. apply on_cpu_run. rewrite gets_bind. unfold load_at, mbind, M_bind.
  rewrite u32_id by lia. by rewrite Hv.
Qed.

Lemma pop_register_run r v l code c s :
  0 ≤ c_esp c < 0xfffffffc → stack_at (c_esp c) (v :: l) (c_mem c) →
  execute_all run (pop r :: code) (c, s) = execute_all run code (set_register r v (set_esp (c_esp c + 4) c), s).
Proof.
  intros He Hst. destruct (pop_word_run v l c He Hst) as [Hrun _]. apply execute_cons. cbn [execute]. apply on_cpu_run.
  by rewrite (bind_ret _ _ _ _ _ Hrun).
Qed.

(** The second half of [switch_to]: the stack of the task switched to. *)
Lemma switch_in_run x c s :
  0 ≤ c_esp c → c_esp c = x_esp x - 20 → x_esp x < 0x100000000 →
  stack_at (c_esp c) [x_edi x; x_esi x; x_ebx x; x_ebp x; x_eip x] (c_mem c) →
  execute_all run [pop EDI; pop ESI; pop EBX; pop EBP; ret] (c, s) =
    Ret tt (Cpu (Gprs (r_eax (gp c)) (r_ecx (gp c)) (r_edx (gp c)) (x_ebx x) (x_ebp x) (x_esi x) (x_edi x))
      (x_esp x) (x_eip x) (c_cs c) (c_eflags c) (c_ss c) (c_data c) (c_mem c), s).
Proof.
  intros Hlo He Hhi Hst. pose proof Hst as (_ & H1 & H2 & H3 & H4 & _).
  erewrite (pop_register_run EDI); [|lia | exact Hst]. cbn [set_register]. cpu.
  erewrite (pop_register_run ESI _ []); cpu; [|lia | exact (conj H1 I)]. cbn [set_register]. cpu.
  erewrite (pop_register_run EBX _ []); cpu; [|lia | exact (conj H2 I)]. cbn [set_register]. cpu.
  erewrite (pop_register_run EBP _ []); cpu; [|lia | exact (conj H3 I)]. cbn [set_register]. cpu.
  apply execute_last. cbn [execute]. apply on_cpu_run.
  match goal with |- (pop_word ≫= _) ?c' = _ => destruct (pop_word_run (x_eip x) [] c') as [Hrun _]; [cpu; lia | exact (conj H4 I)|] end.
  rewrite (bind_ret _ _ _ _ _ Hrun). unfold modify. cpu. by assert (c_esp c + 4 + 4 + 4 + 4 + 4 = x_esp x) as -> by lia.
Qed.

Lemma switch_to_run ra prev next l x c s :
  stack_at (c_esp c) (ra :: prev :: next :: l) (c_mem c) → suspended (c_mem c) next x →
  16 ≤ c_esp c < 0xfffffff0 → 20 ≤ x_esp x < 0x100000000 → 0 ≤ prev < 0xffffff00 → 0 ≤ next < 0xffffff00 →
  (∀ a, suspended_word next x a → ¬ written_by_switch prev c a) →
  ¬ (c_esp c - 16 ≤ prev + kernel_esp_offset < c_esp c + 12) →
  ∃ c', execute_all run switch_to_code (c, s) = Ret tt (c', s) ∧ running x c' ∧
    c_cs c' = c_cs c ∧ c_ss c' = c_ss c ∧ c_eflags c' = c_eflags c ∧ c_data c' = c_data c ∧
    suspended (c_mem c') prev (calling ra c) ∧ (∀ a, ¬ written_by_switch prev c a → c_mem c' !! a = c_mem c !! a).
Proof.
  intros (Hra & Hprev & Hnext & _) [Hfield Hx] He Hxesp Hp Hn Hapart Hpapart. unfold written_by_switch, suspended_word in *.
  unfold kernel_esp_offset in Hapart, Hpapart, Hfield |- *.
  set (e := c_esp c) in *.
  unfold switch_to_code. do 4 (rewrite push_register_run by (cpu; lia); cpu).
  cbn [get_register]. cpu. fold e. replace (e - 4 - 4 - 4 - 4) with (e - 16) by lia.
  replace (e - 4 - 4 - 4) with (e - 12) by lia. replace (e - 4 - 4) with (e - 8) by lia.
  set (m4 := <[e - 16 := _]> _). assert (∀ a, ¬ e - 16 ≤ a < e → m4 !! a = c_mem c !! a) as Hm4.
  { intros a Ha. unfold m4. by rewrite !lookup_insert_ne by lia. }
  rewrite (mov_from_run EAX ESP 20 prev); cbn [get_register]; cpu; [|lia | rewrite Hm4 by lia; rewrite <-Hprev; f_equal; lia].
  set (m5 := <[prev + 28 := e - 16]> m4).
  rewrite (execute_cons run (mov_to EAX kernel_esp_offset ESP) _ _ s (Cpu (Gprs prev (r_ecx (gp c)) (r_edx (gp c)) (r_ebx (gp c))
    (r_ebp (gp c)) (r_esi (gp c)) (r_edi (gp c))) (e - 16) (c_eip c) (c_cs c) (c_eflags c) (c_ss c) (c_data c) m5) s).
  2:{ cbn [execute]. apply on_cpu_run. rewrite !gets_bind. cbn [get_register set_register]. cpu. unfold store_at, modify. cbn.
      unfold kernel_esp_offset. by rewrite u32_id by lia. }
  rewrite (mov_from_run EAX ESP 24 next); cbn [get_register]; cpu; [|lia|].
  2:{ unfold m5. rewrite lookup_insert_ne, Hm4 by lia. rewrite <-Hnext. f_equal. lia. }
  assert (∀ a, suspended_word next x a → m5 !! a = c_mem c !! a) as Hsame.
  { intros a Ha. specialize (Hapart a Ha). unfold m5. rewrite lookup_insert_ne, Hm4 by lia. done. }
  destruct (suspended_ext (c_mem c) m5 next x Hsame (conj Hfield Hx)) as [Hfield5 Hx5].
  rewrite (mov_from_run ESP EAX kernel_esp_offset (x_esp x - 20)); cbn [get_register set_register]; cpu; [|unfold kernel_esp_offset; lia | exact Hfield5].
  rewrite (switch_in_run x); cpu; [|lia | done | lia | exact Hx5].
  eexists. split; [reflexivity|]. cpu. split; [by repeat split|]. do 4 (split; [done|]). split.
  - unfold suspended, calling, kernel_esp_offset. cbn [x_esp x_edi x_esi x_ebx x_ebp x_eip stack_at]. fold e.
    replace (e + 4 - 20) with (e - 16) by lia. unfold m5. rewrite lookup_insert_eq. split; [done|].
    replace (e - 16 + 4) with (e - 12) by lia. replace (e - 12 + 4) with (e - 8) by lia.
    replace (e - 8 + 4) with (e - 4) by lia. replace (e - 4 + 4) with e by lia.
    rewrite !(lookup_insert_ne _ (prev + 28)) by lia. rewrite (Hm4 e) by lia. unfold m4.
    rewrite !lookup_insert. split_and!; repeat case_decide; (lia || done).
  - intros a Ha. unfold m5. by rewrite lookup_insert_ne, Hm4 by lia.
Qed.

(** C10 (task switch, [switch_to]): called by the task [prev] with the return address [ra],
    [switch_to] continues the suspended task [next] exactly where it stopped, with
    the registers that C code expects to keep and its stack, and leaves [prev]
    suspended at [ra] with its own.  Nothing else in memory changes but the four
    words below the stack of [prev] and its saved stack pointer (so that every other
    suspended task stays so), and the privilege level, flags and segments do not
    change.  (Stacks and task structures do not overlap.) *)
Theorem switch_to_correct ra prev next l x c s :
  stack_at (c_esp c) (ra :: prev :: next :: l) (c_mem c) → suspended (c_mem c) next x →
  16 ≤ c_esp c < 0xfffffff0 → 20 ≤ x_esp x < 0x100000000 → 0 ≤ prev < 0xffffff00 → 0 ≤ next < 0xffffff00 →
  (∀ a, suspended_word next x a → ¬ written_by_switch prev c a) →
  ¬ (c_esp c - 16 ≤ prev + kernel_esp_offset < c_esp c + 12) →
  ∃ c', execute_all run switch_to_code (c, s) = Ret tt (c', s) ∧ running x c' ∧
    c_cs c' = c_cs c ∧ c_ss c' = c_ss c ∧ c_eflags c' = c_eflags c ∧ c_data c' = c_data c ∧
    suspended (c_mem c') prev (calling ra c) ∧ (∀ a, ¬ written_by_switch prev c a → c_mem c' !! a = c_mem c !! a) ∧
    (∀ task y, suspended (c_mem c) task y → (∀ a, suspended_word task y a → ¬ written_by_switch prev c a) →
      suspended (c_mem c') task y).
Proof.
  intros Hst Hx He Hxe Hp Hn Hap Hpa.
  destruct (switch_to_run ra prev next l x c s Hst Hx He Hxe Hp Hn Hap Hpa) as (c' & Hrun & Hr & H1 & H2 & H3 & H4 & Hs & Hm).
  exists c'. do 8 (split; [done|]). intros task y Hy Hya. apply (suspended_ext (c_mem c)); [|done]. intros a Ha. by apply Hm, Hya.
Qed.

(** ** The first instructions of a task *)

Definition user_view c : user_context := UserContext (c_eip c) (c_cs c) (c_eflags c) (c_esp c) (c_ss c) (c_data c).

(** The assembly of [enter_user_task], with its arguments on the stack. *)
Lemma enter_user_task_run ra user_eip user_cs user_eflags user_esp user_ss l c s :
  stack_at (c_esp c) (ra :: user_eip :: user_cs :: user_eflags :: user_esp :: user_ss :: l) (c_mem c) →
  0 ≤ c_esp c < 0xffffff00 → cpl c = 0 → Z.land user_cs 3 = 3 → selector_dpl (u16 user_ss) = 3 →
  ∃ c', execute_all run enter_user_task_code (c, s) = Ret tt (c', s) ∧
    user_view c' = UserContext user_eip user_cs user_eflags user_esp user_ss (u16 user_ss) ∧ c_mem c' = c_mem c.
Proof.
  intros (Hra & Heip & Hcs & Hfl & Hsp & Hss & _) He Hcpl Hlevel Hdpl. unfold enter_user_task_code.
  rewrite (execute_cons run cli _ c s (set_flags (set_if false (c_eflags c)) c) s) by reflexivity.
  rewrite (mov_from_run EAX ESP 20 user_ss); cbn [get_register set_register]; cpu;
    [|lia | rewrite <-Hss; f_equal; lia].
  match goal with |- context [execute_all run _ (?c0, s)] => set (c1 := c0) end.
  assert (c_esp c1 = c_esp c ∧ c_mem c1 = c_mem c ∧ cpl c1 = cpl c) as (E1 & E2 & E3) by done.
  rewrite (execute_cons run (mov_data EAX) _ c1 s (set_data (u16 user_ss) c1) s) by reflexivity.
  set (c2 := set_esp (c_esp c + 4) (set_data (u16 user_ss) c1)).
  rewrite (execute_cons run (add_esp 4) _ _ s c2 s).
  2:{ cbn [execute]. apply on_cpu_run. unfold modify, c2. cpu. rewrite E1. by rewrite u32_id by lia. }
  eexists. split.
  - apply execute_last. cbn [execute]. apply on_cpu_run.
    apply (iret_outer_run user_eip user_cs user_eflags user_esp user_ss [] c2).
    + unfold c2. cpu. lia.
    + unfold c2. cpu. rewrite E2. by repeat split.
    + change (cpl c2) with (cpl c1). lia.
  - unfold user_view. cpu. unfold c2. cpu. by rewrite Hdpl, Hlevel.
Qed.
End switch.

(** *** A prepared task *)

Section prepared.
Context {L : Layout} {H : Type} `{!Allocator H} {B D : Type}.
Implicit Types (k : kernel H B D) (c : cpu).

(** The words of the stack that [prepare_user_task_stack] writes, from the top down. *)
Definition first_words (enter_user_task_address entry_point user_eflags user_esp : Z) : list Z :=
  [GDT_USER_DATA_SELECTOR; user_esp; user_eflags; GDT_USER_CODE_SELECTOR; entry_point; 0; enter_user_task_address; 0; 0; 0; 0].

Lemma prepare_user_task_stack_run address task t entry_point user_eflags user_esp k :
  objs (tk_store (k_tasks k)) !! task = Some (OTask t) → task ≠ 0 →
  t_kernel_stack_base t ≠ 0 → t_kernel_stack_base t ≠ task →
  ∃ k', prepare_user_task_stack address task entry_point user_eflags user_esp k = Ret 1 k' ∧
    objs (tk_store (k_tasks k')) !! task = Some (OTask (set_kernel_esp (t_kernel_stack_top t -ᵤ 44) t)) ∧
    objs (tk_store (k_tasks k')) !! t_kernel_stack_base t = Some (OStack
      (list_to_map (imap (λ n w, (t_kernel_stack_top t -ᵤ 4 * Z.of_nat (S n), w)) (first_words address entry_point user_eflags user_esp)))).
Proof.
  intros Ht Hz Hb Hbt. unfold prepare_user_task_stack. rewrite (bind_ret _ _ _ _ _ (in_load_task k task t Ht)).
  cbn [length]. change (4 * Z.of_nat 11) with 44. fold (first_words address entry_point user_eflags user_esp).
  rewrite (bind_ret _ _ _ _ _ (in_put_stack k _ _ Hb)). set (k1 := insert_obj _ _ k).
  assert (objs (tk_store (k_tasks k1)) !! task = Some (OTask t)) as Ht1 by (cbn; by rewrite lookup_insert_ne).
  rewrite (bind_ret _ _ _ _ _ (in_update_task k1 task t _ Ht1 Hz)). eexists. split; [reflexivity|]. cbn. split.
  - by rewrite lookup_insert_eq.
  - rewrite lookup_insert_ne by done. by rewrite lookup_insert_eq.
Qed.

(** The memory that the processor sees has the words of the stack and of the task. *)
Definition holds (m : gmap Z Z) (task kernel_esp : Z) (words : gmap Z Z) : Prop :=
  m !! (task + kernel_esp_offset) = Some kernel_esp ∧ words ⊆ m.

(** The idle task as [init_idle_task] leaves it stands at its entry. *)
Lemma idle_suspended m cr3 entry :
  holds m idle_task (t_kernel_esp (idle_of cr3)) (idle_stack entry) →
  suspended m idle_task (Context_at 0 0 0 0 entry (idle_task_stack + PROCESS_KERNEL_STACK_SIZE)).
Proof.
  intros [Hf Hw]. pose proof idle_task_stack_range as Hr. unfold in_kernel, KERNEL_VMA, KERNEL_VMA_END in Hr.
  unfold idle_of, idle_stack, PROCESS_KERNEL_STACK_SIZE in *. cbn [t_kernel_esp] in Hf.
  set (top := idle_task_stack + 8192) in *. rewrite !(u32_id top), !u32_id in * by lia.
  assert (∀ a v, idle_stack entry !! a = Some v → m !! a = Some v) as Hm.
  { intros a v Ha. refine (lookup_weaken _ _ _ _ Ha _). unfold idle_stack, PROCESS_KERNEL_STACK_SIZE. fold top.
    rewrite (u32_id top), !u32_id by lia. exact Hw. }
  unfold suspended. cbn [x_esp x_edi x_esi x_ebx x_ebp x_eip stack_at]. split; [exact Hf|].
  replace (top - 20 + 4) with (top - 16) by lia. replace (top - 16 + 4) with (top - 12) by lia.
  replace (top - 12 + 4) with (top - 8) by lia. replace (top - 8 + 4) with (top - 4) by lia.
  split_and!; try done; apply Hm; unfold idle_stack, PROCESS_KERNEL_STACK_SIZE; fold top;
    rewrite (u32_id top), !u32_id by lia; rewrite !lookup_insert; repeat case_decide; (lia || done).
Qed.

Lemma first_words_stack address entry_point user_eflags user_esp top m :
  44 ≤ top < 0x100000000 →
  (list_to_map (imap (λ n w, (top -ᵤ 4 * Z.of_nat (S n), w)) (first_words address entry_point user_eflags user_esp)) : gmap Z Z) ⊆ m →
  stack_at (top - 44) (rev (first_words address entry_point user_eflags user_esp)) m.
Proof.
  intros Htop Hsub. assert (∀ n w, first_words address entry_point user_eflags user_esp !! n = Some w →
    m !! (top - 4 * Z.of_nat (S n)) = Some w) as Hw.
  { intros n w Hn. assert (n < 11)%nat as Hlt by (by apply lookup_lt_Some in Hn).
    refine (lookup_weaken _ _ _ _ _ Hsub). apply elem_of_list_to_map.
    - rewrite fmap_imap. apply NoDup_alt. intros i j x Hi Hj. rewrite list_lookup_imap in Hi, Hj.
      apply fmap_Some in Hi as (wi & Hwi & ->). apply fmap_Some in Hj as (wj & Hwj & Heq).
      apply lookup_lt_Some in Hwi. apply lookup_lt_Some in Hwj. cbn [first_words length] in *.
      cbn in Heq. rewrite !u32_id in Heq by lia. lia.
    - apply list_elem_of_lookup_2 with n. rewrite list_lookup_imap, Hn. cbn. by rewrite u32_id by lia. }
  assert (∀ n w a, first_words address entry_point user_eflags user_esp !! n = Some w → a = top - 4 * Z.of_nat (S n) →
    m !! a = Some w) as Hat by (intros n w a Hn ->; by apply Hw).
  cbn [first_words rev app stack_at]. repeat split.
  - apply (Hat 10%nat); [done | lia].
  - apply (Hat 9%nat); [done | lia].
  - apply (Hat 8%nat); [done | lia].
  - apply (Hat 7%nat); [done | lia].
  - apply (Hat 6%nat); [done | lia].
  - apply (Hat 5%nat); [done | lia].
  - apply (Hat 4%nat); [done | lia].
  - apply (Hat 3%nat); [done | lia].
  - apply (Hat 2%nat); [done | lia].
  - apply (Hat 1%nat); [done | lia].
  - apply (Hat 0%nat); [done | lia].
Qed.

(** C23 (the first entry of a program, [prepare_user_task_stack] with [switch_to] and
    [enter_user_task]): a task whose stack is prepared and that is then switched to
    enters its program at the entry point in user mode, with the user's code, stack
    and data segments, the flags and the stack pointer asked for. *)
Theorem prepared_task_enters {W} (run : c_function → M (cpu * W) unit) address task t entry_point user_eflags user_esp k :
  objs (tk_store (k_tasks k)) !! task = Some (OTask t) → 0 < task < 0xffffff00 →
  t_kernel_stack_base t ≠ 0 → t_kernel_stack_base t ≠ task → 44 ≤ t_kernel_stack_top t < 0xffffff00 →
  ∃ k' kernel_esp words, prepare_user_task_stack address task entry_point user_eflags user_esp k = Ret 1 k' ∧
    objs (tk_store (k_tasks k')) !! task = Some (OTask (set_kernel_esp kernel_esp t)) ∧
    objs (tk_store (k_tasks k')) !! t_kernel_stack_base t = Some (OStack words) ∧
    ∀ ra prev l c (s : W), holds (c_mem c) task kernel_esp words → cpl c = 0 →
      stack_at (c_esp c) (ra :: prev :: task :: l) (c_mem c) → 16 ≤ c_esp c < 0xfffffff0 → 0 ≤ prev < 0xffffff00 →
      (∀ a, a = task + kernel_esp_offset ∨ kernel_esp ≤ a < t_kernel_stack_top t → ¬ written_by_switch prev c a) →
      ¬ (c_esp c - 16 ≤ prev + kernel_esp_offset < c_esp c + 12) →
      ∃ c1 c2, execute_all run switch_to_code (c, s) = Ret tt (c1, s) ∧ c_eip c1 = address ∧
        execute_all run enter_user_task_code (c1, s) = Ret tt (c2, s) ∧
        user_view c2 = UserContext entry_point GDT_USER_CODE_SELECTOR user_eflags user_esp GDT_USER_DATA_SELECTOR
          GDT_USER_DATA_SELECTOR ∧ cpl c2 = 3.
Proof.
  intros Ht Htask Hb Hbt Htop.
  destruct (prepare_user_task_stack_run address task t entry_point user_eflags user_esp k Ht ltac:(lia) Hb Hbt) as (k' & Hrun & Ht' & Hw).
  rewrite u32_id in Ht' by lia. set (top := t_kernel_stack_top t) in *. eexists k', (top - 44), _. split; [exact Hrun|]. split; [exact Ht'|]. split; [exact Hw|].
  intros ra prev l c s [Hfield Hwords] Hcpl Hst He Hp Hap Hpa.
  pose proof (first_words_stack address entry_point user_eflags user_esp top (c_mem c) ltac:(lia) Hwords) as Hstack.
  set (x := Context_at 0 0 0 0 address (top - 24)).
  assert (suspended (c_mem c) task x) as Hx.
  { unfold suspended, x. cbn [x_esp x_edi x_esi x_ebx x_ebp x_eip]. replace (top - 24 - 20) with (top - 44) by lia.
    split; [exact Hfield|]. cbn in Hstack |- *. tauto. }
  destruct (switch_to_run run ra prev task l x c s Hst Hx He) as (c1 & Hrun1 & (_ & _ & _ & _ & Heip & Hesp) & Hcs & _ & _ & _ & _ & Hmem);
    [cbn; lia | done | lia | | done |].
  { intros a [-> | Ha]; apply Hap; [by left | right; cbn in Ha; lia]. }
  cbn in Heip, Hesp.
  destruct (enter_user_task_run run 0 entry_point GDT_USER_CODE_SELECTOR user_eflags user_esp GDT_USER_DATA_SELECTOR [] c1 s)
    as (c2 & Hrun2 & Hview & _); [ | lia | by unfold cpl in *; rewrite Hcs | reflexivity | reflexivity |].
  { rewrite Hesp. assert (stack_at (top - 44 + 4 * 5) [0; entry_point; GDT_USER_CODE_SELECTOR; user_eflags; user_esp; GDT_USER_DATA_SELECTOR] (c_mem c)) as Hsub.
    { exact (proj2 (proj1 (stack_at_app (top - 44) [0; 0; 0; 0; address] _ (c_mem c)) Hstack)). }
    replace (top - 44 + 4 * 5) with (top - 24) in Hsub by lia.
    cbn [stack_at] in *. repeat split; rewrite Hmem; try tauto; apply Hap; right; lia. }
  exists c1, c2. split; [exact Hrun1|]. split; [exact Heip|]. split; [exact Hrun2|]. split; [exact Hview|].
  unfold user_view in Hview. injection Hview as _ Hcs2 _ _ _ _. unfold cpl. by rewrite Hcs2.
Qed.
End prepared.

(** ** A compiler for the witnesses

    The dispatchers take their arguments from the stack and spoil eax, ecx and edx. *)

Section sample.
Context {L : Layout} {H : Type} `{!Allocator H} {B : Type} `{!BlockDevice B} `{!DiskDriver B} {D : Type} `{!Bus D}.
Implicit Types (s : machine H B D) (c : cpu).

Definition spoil c : cpu := set_gp (Gprs 1 2 3 (r_ebx (gp c)) (r_ebp (gp c)) (r_esi (gp c)) (r_edi (gp c))) c.

Lemma spoil_after_call n c : after_call n c (spoil c).
Proof. constructor; try reflexivity. by intros a _. Qed.

Fixpoint put_stack (a : Z) (l : list Z) (m : gmap Z Z) : gmap Z Z :=
  match l with
  | [] => m
  | v :: l => <[a := v]> (put_stack (a + 4) l m)
  end.

Lemma put_stack_below a l m b : b < a → put_stack a l m !! b = m !! b.
Proof.
  revert a. induction l as [|v l IH]; intros a Hb; [done|]. cbn [put_stack].
  rewrite lookup_insert_ne, IH by lia. done.
Qed.
Lemma put_stack_above a l m : same_above (a + 4 * Z.of_nat (length l)) m (put_stack a l m).
Proof.
  revert a. induction l as [|v l IH]; intros a b Hb; [done|]. cbn [put_stack length] in *.
  rewrite lookup_insert_ne by lia. apply IH. lia.
Qed.
Lemma put_stack_at a l m : stack_at a l (put_stack a l m).
Proof.
  revert a. induction l as [|v l IH]; intros a; [done|]. cbn [put_stack stack_at]. split; [by rewrite lookup_insert_eq|].
  eapply stack_at_ext; [|apply IH]. intros b Hb. apply lookup_insert_ne. lia.
Qed.

Definition word_at (m : gmap Z Z) (a : Z) : Z := default 0 (m !! a).
Definition registers_at (m : gmap Z Z) (p : Z) : syscall_registers_t :=
  Registers (word_at m p) (word_at m (p + 4)) (word_at m (p + 4 + 4)) (word_at m (p + 4 + 4 + 4))
    (word_at m (p + 4 + 4 + 4 + 4)) (word_at m (p + 4 + 4 + 4 + 4 + 4)) (word_at m (p + 4 + 4 + 4 + 4 + 4 + 4))
    (word_at m (p + 4 + 4 + 4 + 4 + 4 + 4 + 4)) (word_at m (p + 4 + 4 + 4 + 4 + 4 + 4 + 4 + 4))
    (word_at m (p + 4 + 4 + 4 + 4 + 4 + 4 + 4 + 4 + 4)) (word_at m (p + 4 + 4 + 4 + 4 + 4 + 4 + 4 + 4 + 4 + 4))
    (word_at m (p + 4 + 4 + 4 + 4 + 4 + 4 + 4 + 4 + 4 + 4 + 4)) (word_at m (p + 4 + 4 + 4 + 4 + 4 + 4 + 4 + 4 + 4 + 4 + 4 + 4)).

Lemma registers_at_words m p r : stack_at p (registers_words r) m → registers_at m p = r.
Proof.
  destruct r. cbn.
  intros (H1 & H2 & H3 & H4 & H5 & H6 & H7 & H8 & H9 & H10 & H11 & H12 & H13 & _). unfold registers_at, word_at.
  by rewrite H1, H2, H3, H4, H5, H6, H7, H8, H9, H10, H11, H12, H13.
Qed.

(** A command of the machine from the assembly: a task switch is out of this model. *)
Definition run_sample (cr2 : Z) (f : c_function) : M (cpu * machine H B D) unit := λ x,
  let '(c, s) := x in
  let arg n := word_at (c_mem c) (c_esp c + 4 * n) in
  match f with
  | interrupts_dispatch_fn =>
      match interrupts_dispatch 0 (u8 (arg 0)) s with
      | Ret None s => Ret tt (spoil c, s) | Ret (Some _) s => Fault SpinForever (c, s) | Fault e s => Fault e (c, s)
      end
  | exceptions_dispatch_fn =>
      match exceptions_dispatch cr2 (u8 (arg 0)) (arg 1) s with
      | Ret _ s => Ret tt (spoil c, s) | Fault e s => Fault e (c, s)
      end
  | syscall_dispatch_fn =>
      match syscall_dispatch 0 0 (registers_at (c_mem c) (arg 0)) s with
      | Ret (Resume r) s => Ret tt (spoil (set_mem (put_stack (arg 0) (registers_words r) (c_mem c)) c), s)
      | Ret (SwitchTo _) s => Fault SpinForever (c, s) | Fault e s => Fault e (c, s)
      end
  end.

#[refine] Instance sample_compiled cr2 : Compiled (H := H) (B := B) (D := D) cr2 :=
  {| run_call := run_sample cr2; stack_need := 0 |}.
Proof.
  - done.
  - intros irq c s s' [Hst _] _ Hrun. exists (spoil c). split; [|apply spoil_after_call].
    unfold run_sample, word_at. rewrite Z.mul_0_r, Z.add_0_r, Hst. cbn [default]. by rewrite Hrun.
  - intros exc err c s s' (Hst1 & Hst2 & _) _ Hrun. exists (spoil c). split; [|apply spoil_after_call].
    unfold run_sample, word_at. rewrite Z.mul_0_r, Z.add_0_r, Hst1, Z.mul_1_r, Hst2. cbn [default]. unfold id. by rewrite Hrun.
  - intros p r r' c s s' [Hst _] _ _ Hr Hrun. eexists. split.
    + unfold run_sample, word_at. rewrite Z.mul_0_r, Z.add_0_r, Hst. cbn [default]. unfold id.
      rewrite (registers_at_words _ _ _ Hr), Hrun. reflexivity.
    + do 3 (split; [reflexivity|]). split; [apply put_stack_at|]. exact (put_stack_above p (registers_words r') (c_mem c)).
Defined.
End sample.

#[local] Existing Instance sample_layout.
#[local] Existing Instance sample_compiled.

#[local] Instance plain_driver : DiskDriver (gmap Z (list Z)) := {| disk_attach _ := mret tt; disk_irq := mret tt |}.

(** A program interrupted by the timer, with a kernel stack at 0xc0180000. *)
Definition user_cpu (eax : Z) : cpu :=
  Cpu (Gprs eax 20 30 40 50 60 70) 0xbfffff00 0x8048123 GDT_USER_CODE_SELECTOR 0x202 GDT_USER_DATA_SELECTOR
    GDT_USER_DATA_SELECTOR ∅.

Definition tick_machine : machine heap (gmap Z (list Z)) latches :=
  set_irq_handlers (Some timer_irq :: replicate 15 None) write_machine.
Definition ticked_machine : machine heap (gmap Z (list Z)) latches :=
  match interrupts_dispatch 0 0 tick_machine with Ret _ s | Fault _ s => s end.

Lemma tick_handled : handled 0 32 0 tick_machine ticked_machine.
Proof. intros esp. reflexivity. Qed.

Lemma interrupt_transparent_witness :
  ∃ m, (on_cpu (enter_handler 0xc0180000 0x10 GDT_KERNEL_CODE_SELECTOR (default 0 (stub_of 32)) true (error_of 32 0));;
      execute_all (run_call (cr2 := 0)) (stub_code 32)) (user_cpu 1000, tick_machine) =
    Ret tt (set_mem m (user_cpu 1000), ticked_machine) ∧ same_above (stack_top 0xc0180000 (user_cpu 1000)) (c_mem (user_cpu 1000)) m.
Proof.
  assert (0 ≤ 32 < 48) as Hn by lia.
  assert (cpl (user_cpu 1000) = 0 ∨ cpl (user_cpu 1000) = 3 ∧ selector_dpl (c_data (user_cpu 1000)) = 3) as Hl by (right; split; reflexivity).
  assert (stack_room (H := heap) (B := gmap Z (list Z)) (D := latches) 0 (stack_top 0xc0180000 (user_cpu 1000))) as Hr by (split; vm_compute; [discriminate | reflexivity]).
  exact (interrupt_transparent 0 0xc0180000 0x10 32 0 (user_cpu 1000) tick_machine ticked_machine Hn Hl Hr tick_handled).
Defined.

(** The program asks for a call that the kernel does not have. *)
Lemma open_refused esp phdr_address :
  let r := registers_of 0xc0180000 (user_cpu SYS_OPEN) in
  syscall_dispatch esp phdr_address r write_machine = Ret (Resume (set_eax (u32 (-1)) r)) write_machine.
Proof. reflexivity. Qed.

Lemma syscall_entry_correct_witness :
  let r := registers_of 0xc0180000 (user_cpu SYS_OPEN) in
  ∃ m, (on_cpu (enter_handler 0xc0180000 0x10 GDT_KERNEL_CODE_SELECTOR (default 0 (stub_of 0x80)) false None);;
      execute_all (run_call (cr2 := 0)) syscall_entry_code) (user_cpu SYS_OPEN, write_machine) =
    Ret tt (resumed (set_eax (u32 (-1)) r) (c_data (user_cpu SYS_OPEN)) m, write_machine).
Proof.
  intros r. assert (stack_room (H := heap) (B := gmap Z (list Z)) (D := latches) 0 0xc0180000) as Hr by (split; vm_compute; [discriminate | reflexivity]).
  assert (0 ≤ r_eax (gp (user_cpu SYS_OPEN))) as Ha by (vm_compute; discriminate).
  destruct (syscall_entry_correct 0 0x10 (user_cpu SYS_OPEN) 0xc0180000 write_machine _ write_machine eq_refl eq_refl Ha Hr
    syscall_table_registered open_refused) as (m & Hrun & _).
  exists m. exact Hrun.
Defined.

(** The running task calls [switch_to] for the idle task, whose stack is as
    [init_idle_task] leaves it. *)
Definition idle_memory : gmap Z Z :=
  <[idle_task + 28 := t_kernel_esp (idle_of 0)]> (idle_stack 0xc0101000 ∪ put_stack 0xc0180000 [0xc0102000; 0xc0200008; idle_task] ∅).

Definition kernel_cpu : cpu :=
  Cpu (Gprs 1 2 3 4 5 6 7) 0xc0180000 0xc0103000 GDT_KERNEL_CODE_SELECTOR 0x2 GDT_KERNEL_DATA_SELECTOR
    GDT_USER_DATA_SELECTOR idle_memory.

Lemma switch_to_correct_witness :
  ∃ c', execute_all (run_sample 0) switch_to_code (kernel_cpu, write_machine) = Ret tt (c', write_machine) ∧
    c_eip c' = 0xc0101000 ∧ suspended (c_mem c') 0xc0200008 (Context_at 4 5 6 7 0xc0102000 0xc0180004).
Proof.
  set (x := Context_at 0 0 0 0 0xc0101000 (idle_task_stack + 8192)).
  assert (stack_at (c_esp kernel_cpu) [0xc0102000; 0xc0200008; idle_task] (c_mem kernel_cpu)) as Hst by (vm_compute; tauto).
  assert (suspended (c_mem kernel_cpu) idle_task x) as Hx.
  { apply (idle_suspended _ 0). split; [reflexivity|]. apply map_subseteq_spec. intros a v Ha.
    change (c_mem kernel_cpu) with idle_memory. unfold idle_memory. rewrite lookup_insert_ne; [by apply lookup_union_Some_l|].
    intros <-. vm_compute in Ha. discriminate. }
  assert (∀ a, suspended_word idle_task x a → ¬ written_by_switch 0xc0200008 kernel_cpu a) as Hap.
  { intros a. unfold suspended_word, written_by_switch, kernel_esp_offset. cbn. lia. }
  assert (¬ (c_esp kernel_cpu - 16 ≤ 0xc0200008 + kernel_esp_offset < c_esp kernel_cpu + 12)) as Hpa by (unfold kernel_esp_offset; cbn; lia).
  assert (16 ≤ c_esp kernel_cpu < 0xfffffff0 ∧ 20 ≤ x_esp x < 0x100000000 ∧ 0 ≤ idle_task < 0xffffff00) as (H1 & H2 & H3) by (cbn; lia).
  destruct (switch_to_correct (run_sample (H := heap) (B := gmap Z (list Z)) (D := latches) 0) 0xc0102000 0xc0200008 idle_task [] x kernel_cpu
    write_machine Hst Hx H1 H2 ltac:(lia) H3 Hap Hpa) as (c' & Hrun & (_ & _ & _ & _ & He & _) & _ & _ & _ & _ & Hs & _).
  exists c'. split; [exact Hrun|]. split; [exact He | exact Hs].
Defined.

(** A new task with its kernel stack. *)
Definition first_task : task_t :=
  set_stack 0xc0190000 0xc0192000 (Task 1 0 TASK_NEW 0 0 0 0 0 0x101000 (replicate PROCESS_FDS 0) 0 0).
Definition first_task_kernel : kernel heap (gmap Z (list Z)) latches := insert_obj 0xc0200008 (OTask first_task) fault_kernel.

Definition first_stack : gmap Z Z :=
  list_to_map (imap (λ n w, (0xc0192000 -ᵤ 4 * Z.of_nat (S n), w)) (first_words 0xc0104000 0x8048000 0x202 USER_STACK_TOP)).
Definition prepared_kernel : kernel heap (gmap Z (list Z)) latches :=
  match prepare_user_task_stack 0xc0104000 0xc0200008 0x8048000 0x202 USER_STACK_TOP first_task_kernel with Ret _ k | Fault _ k => k end.

Lemma prepared_objects :
  objs (tk_store (k_tasks prepared_kernel)) !! 0xc0200008 = Some (OTask (set_kernel_esp 0xc0191fd4 first_task)) ∧
  objs (tk_store (k_tasks prepared_kernel)) !! 0xc0190000 = Some (OStack first_stack).
Proof. split; vm_compute; reflexivity. Qed.

(** The idle task runs at 0xc0180000, and calls [switch_to] for the new task. *)
Definition first_switch_cpu : cpu :=
  set_mem (<[0xc0200008 + 28 := 0xc0191fd4]> (first_stack ∪ put_stack 0xc0180000 [0xc0102000; idle_task; 0xc0200008] ∅)) kernel_cpu.

Lemma first_switch_holds : holds (c_mem first_switch_cpu) 0xc0200008 0xc0191fd4 first_stack.
Proof.
  split; [reflexivity|]. apply map_subseteq_spec. intros a v Ha. unfold first_switch_cpu. cpu.
  rewrite lookup_insert_ne; [by apply lookup_union_Some_l|]. intros <-. vm_compute in Ha. discriminate.
Qed.

Lemma prepared_task_enters_witness :
  ∃ k' c1 c2, prepare_user_task_stack 0xc0104000 0xc0200008 0x8048000 0x202 USER_STACK_TOP first_task_kernel = Ret 1 k' ∧
    execute_all (run_sample 0) switch_to_code (first_switch_cpu, write_machine) = Ret tt (c1, write_machine) ∧
    execute_all (run_sample 0) enter_user_task_code (c1, write_machine) = Ret tt (c2, write_machine) ∧
    user_view c2 = UserContext 0x8048000 0x1b 0x202 0xc0000000 0x23 0x23.
Proof.
  destruct (prepared_task_enters (run_sample (H := heap) (B := gmap Z (list Z)) (D := latches) 0) 0xc0104000 0xc0200008 first_task
    0x8048000 0x202 USER_STACK_TOP first_task_kernel ltac:(reflexivity) ltac:(lia) ltac:(vm_compute; discriminate)
    ltac:(vm_compute; discriminate) ltac:(cbn; lia)) as (k' & esp & words & Hrun & Htask & Hstack & Henter).
  assert (k' = prepared_kernel) as -> by (unfold prepared_kernel; by rewrite Hrun). exists prepared_kernel.
  destruct prepared_objects as [E1 E2]. rewrite E1 in Htask. injection Htask as <-.
  change (t_kernel_stack_base first_task) with 0xc0190000 in Hstack. rewrite E2 in Hstack. injection Hstack as <-.
  assert (stack_at (c_esp first_switch_cpu) [0xc0102000; idle_task; 0xc0200008] (c_mem first_switch_cpu)) as Hst by (vm_compute; tauto).
  assert (∀ a, a = 0xc0200008 + kernel_esp_offset ∨ 0xc0191fd4 ≤ a < t_kernel_stack_top first_task →
    ¬ written_by_switch idle_task first_switch_cpu a) as Hap.
  { intros a. unfold written_by_switch, kernel_esp_offset. cbn. lia. }
  assert (¬ (c_esp first_switch_cpu - 16 ≤ idle_task + kernel_esp_offset < c_esp first_switch_cpu + 12)) as Hpa by (unfold kernel_esp_offset; cbn; lia).
  assert (16 ≤ c_esp first_switch_cpu < 0xfffffff0 ∧ 0 ≤ idle_task < 0xffffff00) as [H1 H2] by (cbn; lia).
  destruct (Henter 0xc0102000 idle_task [] first_switch_cpu write_machine first_switch_holds eq_refl Hst H1 H2 Hap Hpa)
    as (c1 & c2 & Hrun1 & _ & Hrun2 & Hview & _).
  exists c1, c2. split; [exact Hrun|]. split; [exact Hrun1|]. split; [exact Hrun2 | exact Hview].
Defined.
